(* ===== verification/_CoqProject ===== *)
-Q . S2P
Prelude.v
HvTypes.v
Host.v
Utils.v
CString.v
Hypervisor.v
Kvm.v
Hvf.v
HvfArm64.v
HvPlatforms.v
GuestMem.v
Mm.v
VmMem.v
Devices.v
MmioConsole.v
Virtio.v
VirtioConsole.v
VirtioBlk.v
VirtioNet.v
Vfio.v
Machine.v
VfioVm.v
Vcpu.v
KvmExits.v
LinuxGuest.v
HvfExits.v
Vm.v
Threads.v
Schedules.v
Boot.v
RawBoot.v
Safety.v
Main.v
LogLevel.v
MainConsole.v
Passthrough.v
GuestSafety.v
Resources.v
Runs.v
