(* ===== verification/Prelude.v ===== *)
(** * A verification development for vibe-vmm

    vibe-vmm is a small virtual machine monitor in C (src/): [main] reads the
    command line, creates a VM and its vCPUs through a hypervisor backend (KVM on
    Linux, Hypervisor.framework on Macs), maps guest RAM, attaches a UART, virtio
    devices and passed-through PCI devices, loads a kernel, and runs each vCPU in a
    thread that handles its exits.  This library is a shallow embedding of that code with
    theorems about what it does.  This file is the prelude; this comment
    describes the whole.

    ** The model

    Host ([Host]).  Every function is a computation of the monad [M], from a
    [host] (heap, history of calls to the outside, errno) to an [outcome]:
    [Ok result host] or [Ub reason], undefined behaviour.  The heap maps
    block numbers to byte lists; [load], [store], [free] check bounds and
    liveness, so an out-of-bounds, null or freed access is [Ub].  Calls to libc,
    POSIX, the KVM and VFIO ioctls and Hypervisor.framework are [event]s, answered by an environment [Env] from
    the history; all theorems quantify over it, so they hold for every file
    content, guest behaviour and failure pattern, unless a hypothesis restricts
    the answers (e.g. [Boot.reads_file]).  Running a vCPU also yields the stores the
    guest made meanwhile.  What the program holds open is computed from the
    history ([open_fds], [HvPlatforms.live_vms]), as is what it printed
    ([stdout_bytes], [log_bytes]) and what a register was last set to
    ([arm_written] and its like).

    Integers are [Z] with the wrap-around of their C width written out ([u8] ...
    [u64], [x +64 y]); bytes are [Z]; memory is little-endian.  C objects that are
    shared by pointer (devices, vCPUs) are held in finite maps from identifiers,
    and using an identifier that is gone is a use after free.

    ** Parts and files

    - [HvTypes], [Hypervisor] (include/hypervisor.h, src/hypervisor.c): exit and
      register types, the table of backend operations, its selection and
      wrappers.  The classes [HvMapLaws], [HvRunLaws], [HvExitLaws] and
      [HvDestroyLaws] are what the clients of the layer rely on.
    - [Kvm], [KvmExits], [LinuxGuest] (src/hypervisor/kvm.c): the KVM backend; it
      discharges those classes.  [Kvm] reads the run page at the offsets of the source's
      own [struct kvm_run], which are not those of Linux: the source's union starts at 16,
      the kernel's at 32.  [KvmExits] says what the backend makes of a page that the kernel
      lays out as it documents ([KvmExits.documented]), and [LinuxGuest] follows the
      accesses of a whole guest, from such pages through the vCPU loop.
    - [Hvf] (src/hypervisor/hvf.c, in both of its compiled versions) and
      [HvfArm64] (src/hypervisor/hvf_arm64.c): the Mac backends, which discharge the
      classes they can; [HvfExits] runs the vCPU loop on them.  [HvPlatforms]: the
      stub tables (src/hypervisor/kvm_stub.c, hvf_stub.c) and what an Apple Silicon
      build links.
    - [Utils] (include/utils.h): the alignment macros at their C types.
      [CString]: the conversions of sscanf, atoi, strtoull and snprintf that the
      sources use, on strings.
    - [GuestMem]: the interface "guest address to host pointer" with its laws;
      [Mm] (src/mm.c) and [VmMem] (src/vm.c: [vm_add_memory_region],
      [vm_gpa_to_hva]) implement it.
    - [Devices] (src/devices.c): creation, registration, lookup, MMIO dispatch,
      interrupts, destruction, against the class [Device]; its laws are
      [DeviceLaws].  [MmioConsole] (src/devices/mmio.c), [Virtio]
      (src/devices/virtio.c), [VirtioConsole], [VirtioBlk], [VirtioNet]
      (src/devices/virtio-*.c) are the devices; [Machine] is the sum of their
      types, with dynamic dispatch, so the framework's theorems apply to them.
    - [Vfio] (src/vfio.c): containers, opening and closing a device, its regions,
      interrupts, configuration space and MMIO handlers; [VfioVm]: attaching it to
      a VM ([vfio_register_with_vm]), which needs the devices of [Machine].
    - [Vcpu] (src/vcpu.c): lifecycle, exit handlers, the thread's loop.
    - [Vm] (the rest of src/vm.c): creation, start, stop, vCPU and device
      arrays, destruction.
    - [Boot] (src/boot.c): kernel, initrd, command line, memory map, registers;
      [RawBoot]: raw binaries, followed into the vCPU's thread.
    - [Main] (src/main.c): sizes, options, and [main] as a sequence of stages, each
      of which goes on or jumps to the clean-up with the current [ret]; the signal
      handler and the wait loop.
    - [Threads]: the vCPU threads beside the main thread.  A world has the VM, the
      vCPUs, the devices, the place of every thread and of the main thread; the step
      relation [wstep] moves one of them by a segment of its code: of
      [vcpu_thread_func], or one iteration of the loops of [vm_start], [main],
      [vm_stop] and [vm_destroy], where [vcpu_stop] is cut at its [pthread_join].
      [Schedules] bounds the executions.
    - [LogLevel]: what the log level INFO does to every run.
    - [Safety]: the judgement of a run without a fault, and the boot loader under it.
    - [MainConsole]: the machine that [main] starts on Linux, and what its guests print.
      [Passthrough]: a run with a passed-through device, through to the clean-up.
      [GuestSafety]: what the guests of the interleaved program can do on the machine of
      [main] on Linux.
    - [Resources], [Runs]: [main] as a whole on the KVM backend, with all the parts
      above composed.

    Definitions keep the names of the C functions.  A C function that updates a
    structure through a pointer returns the new structure with its result.

    ** What the theorems show

    The properties are numbered [C1] ... in the comments before their theorems.
    - Guest memory: translation is exact for accesses that end below 2^64, and
      only for those; adding a region records it or rolls back; writes are read
      back.
    - Virtio: [virtqueue_pop] and [virtqueue_push] against the abstract queue of
      pending chains [vq_pending]; what a notification of each device does with
      well-formed chains, on every branch; what the register file stores; the
      accesses that leave the queue array or the data buffer.
    - vCPU: the loop terminates for every guest within [501] turns, the counters
      account for every exit, port and MMIO exits do what they are meant to.
    - Exits on Linux: the exact decoding of every page that the kernel fills as it
      documents.  The address of an MMIO access is lost (the task priority, below 16, takes
      its place), and two kinds of exit make the decoding leave its objects.
    - The guest's console on Linux: a guest of the machine of [main] that stores bytes in
      the UART prints nothing.  What the device code does with the accesses it was written
      for is in [MmioConsole]; on Apple Silicon the accesses do arrive ([HvfExits]).
    - Guests on Linux, on the machine of [main] without a passed-through device, under any
      schedule: the next segment of every thread returns except on the two kinds of exit
      above, where it faults; no device is ever reached, so no guest makes the program
      touch the disk image or the tap interface or print a byte.  The theorems about the
      virtio devices show what their code would do with a ready queue.
    - VM: start, stop, creation of vCPUs with rollback, destruction.
    - Devices: dispatch to the first device whose window holds the address,
      order-preserving removal, destruction of each kind, the UART's output.
    - Boot: guest RAM after booting is a pure function ([Boot.linux_image]) of the
      files and the configuration, nothing else in memory changes and every
      file buffer is freed; the memory map covers RAM; register values; a raw binary on
      Apple Silicon from the file to the first instruction.
    - KVM: registers survive a set and a get except for the fields the backend
      drops, descriptors are accounted for, interrupted runs.
    - HVF: registers that were set are read back, a failing set changes a prefix of
      them, the framework's VMs are accounted for, the initial state of an ARM64
      vCPU, which exits are seen by the loop and how a stop request ends it, the
      exit structure that is released twice.
    - VFIO: opening on every path, with its descriptors; addresses as text; the
      layout of mapped BARs, and why the guest never reaches one; that no run with an
      attached device returns.
    - Main: what option parsing accepts, sizes, the physical address space that the
      set-up builds, when the wait loop ends and when it never does, exit statuses.
    - Threads: the segments of a thread compose to the sequential [vcpu_thread_func]; in
      every interleaving a vCPU is freed only after its thread has been joined; a request
      to stop is honoured within three segments; every schedule is finite apart from the
      waiting, and until the last vCPU is freed the main thread, or the thread it joins,
      has a next step unless that thread faults.
    - The whole program on Linux: every path of [main] closes what the hypervisor layer
      opened, and the descriptors it leaves open are of the disk, of the tap or of the
      passed-through device; a run with a kernel or a raw binary and no passed-through
      device, under the conditions on the files that the loaders do not check
      ([Runs.image_ok]), performs no invalid access to the blocks of the heap (guest RAM
      and the buffers of files), ends after a signal and frees those blocks, with logging
      below INFO.  At INFO, the default, no run on any platform ends with success: the
      clean-up reads freed vCPUs.
    Several theorems state that the code does something its comments do not
    intend; they are theorems about the code as written.

    ** Fuel

    [VirtioConsole.console_drain] has fuel 65536: the indices of a queue are 16
    bits wide, so at most 65535 chains are pending
    ([VirtioConsole.drain_fuel_enough]).  [Vcpu.vcpu_loop] takes its fuel as an
    argument, and [Vcpu.vcpu_loop_terminates] shows that 501 turns are enough.
    [Vm.unregister_devices] has fuel 17 for an array of 16.  [Main.wait_loop] runs
    as long as the VM does; its fuel is an argument, and [Main.wait_loop_ends]
    shows that one turn more than the seconds until a vCPU stops, and one to
    notice, is enough.  Running out is the
    outcome [Ub OutOfFuel], which the theorems exclude.

    ** Assumptions on the outside

    They are hypotheses of the theorems that need them: what a file holds
    ([Boot.reads_file]), that the kernel or the framework returns the registers it
    was given ([Hvf.hvf_keeps_registers]), that [hv_vcpu_destroy] releases the exit
    structure ([HvfArm64.framework_releases]), that a [pread] stores no more than it was
    asked for ([Vfio.pread_within]), that [ftell] reports sizes and that files and
    fresh memory hold bytes ([Safety.host_ok]), that the kernel fills the page of a vCPU as
    it documents, with a task priority of four bits ([GuestSafety.kernel_documented],
    [LinuxGuest.follows]).  [Host.good_env] is a host that meets
    them, used for the concrete runs.  What shifting a 32-bit one by 32 gives in
    [virtio_init] is the parameter [undef].

    ** Not modelled

    Interleavings inside a segment of [Threads]: the run of a vCPU, its exit with the
    handler, and one iteration of the main thread are atomic, so races of two handlers
    on one device's fields are not seen, nor a cancellation in the middle of a handler.
    A guest that never exits keeps its segment from ending and has no step: the program
    then waits in [pthread_join], since a cancelled thread ends only at its cancellation
    points, of which [KVM_RUN] is none.  In the sequential [Main] the guest's stores happen while a vCPU runs, and
    what the vCPU threads and a signal do to [main] happens while [main] sleeps; a
    signal during the set-up or the clean-up is outside.  Log output,
    except to the console log and where its arguments read memory; the usage text;
    [sigaction] and the parsing of [argv] by [getopt_long], whose result is the
    input of [Main.parse_args].  The sequential [pthread_join] of [Vcpu.vcpu_stop] returns.
    The ioctls are named, not numbered: the sizes that their numbers encode are outside
    (the source's [struct kvm_sregs] is longer than the kernel's).
    The blocks of the heap are guest RAM, mapped BARs and the buffers of files.  The
    structures of the program (VM, vCPUs, devices, backend handles, the VFIO container)
    are values or entries of finite maps and the strings are values: using one after its
    release is a fault where the model keeps it in a map, but a release that is missing
    is not a block left over, and copies of strings are neither freed nor leaked.  The constants of
    include/arch_arm64.h, which no source file uses. *)

From Stdlib Require Export ZArith Lia Bool.
From stdpp Require Export base gmap list strings.

#[export] Set Default Proof Using "Type".
Open Scope Z_scope.

(** ** Machine integers

    A C unsigned integer of width [w] is the [Z] it denotes; every arithmetic
    result that C reduces modulo [2^w] is written with the wrapper of its
    width. *)

Definition u8 (x : Z) : Z := x mod 256.
Definition u16 (x : Z) : Z := x mod 65536.
Definition u32 (x : Z) : Z := x mod 4294967296.
Definition u64 (x : Z) : Z := x mod 18446744073709551616.

(** Two's-complement reading of a 32-bit pattern (conversion to [int]). *)
Definition i32 (x : Z) : Z :=
  let y := u32 x in if y <? 2147483648 then y else y - 4294967296.

Declare Scope vmm_scope.
Delimit Scope vmm_scope with vmm.
Notation "x +64 y" := (u64 (x + y)) (at level 50, left associativity) : vmm_scope.
Notation "x -64 y" := (u64 (x - y)) (at level 50, left associativity) : vmm_scope.
Notation "x *64 y" := (u64 (x * y)) (at level 40, left associativity) : vmm_scope.
Open Scope vmm_scope.

Definition is_u8 (x : Z) : Prop := 0 <= x < 256.
Definition is_u16 (x : Z) : Prop := 0 <= x < 65536.
Definition is_u32 (x : Z) : Prop := 0 <= x < 4294967296.
Definition is_u64 (x : Z) : Prop := 0 <= x < 18446744073709551616.

(** Arithmetic on the wrappers is linear arithmetic once they are unfolded. *)
Ltac ulia :=
  unfold is_u8, is_u16, is_u32, is_u64, i32, u8, u16, u32, u64 in *;
  Z.to_euclidean_division_equations; lia.

Lemma u8_small x : is_u8 x -> u8 x = x.
Proof. by apply Z.mod_small. Qed.
Lemma u16_small x : is_u16 x -> u16 x = x.
Proof. by apply Z.mod_small. Qed.
Lemma u32_small x : is_u32 x -> u32 x = x.
Proof. by apply Z.mod_small. Qed.
Lemma u64_small x : is_u64 x -> u64 x = x.
Proof. by apply Z.mod_small. Qed.
Lemma u8_range x : is_u8 (u8 x).
Proof. by apply Z.mod_pos_bound. Qed.
Lemma u16_range x : is_u16 (u16 x).
Proof. by apply Z.mod_pos_bound. Qed.
Lemma u32_range x : is_u32 (u32 x).
Proof. by apply Z.mod_pos_bound. Qed.
Lemma u64_range x : is_u64 (u64 x).
Proof. by apply Z.mod_pos_bound. Qed.

Create HintDb vmm discriminated.
Create Rewrite HintDb vmm.
#[export] Hint Resolve u8_range u16_range u32_range u64_range : vmm.
#[export] Hint Rewrite u8_small u16_small u32_small u64_small using (solve [assumption | ulia]) : vmm.

(** Masking with [2^n - 1] keeps the residue; the form every C mask takes. *)
Lemma land_ones_mod x n : 0 <= n -> Z.land x (2 ^ n - 1) = x mod 2 ^ n.
Proof. intros. rewrite <- Z.land_ones by done. f_equal. rewrite Z.ones_equiv. lia. Qed.

(** ** Byte strings

    Host and guest memory hold bytes, i.e. [Z]s below 256; multi-byte fields
    are little-endian (x86-64 and the supported ARM64 hosts). *)

Abbreviation byte := Z (only parsing).

Definition bytes_ok (l : list byte) : Prop := Forall is_u8 l.

Fixpoint le_enc (n : nat) (x : Z) : list byte :=
  match n with
  | O => []
  | S n' => x mod 256 :: le_enc n' (x / 256)
  end.

Fixpoint le_dec (l : list byte) : Z :=
  match l with
  | [] => 0
  | b :: l' => b + 256 * le_dec l'
  end.

Lemma length_le_enc n x : length (le_enc n x) = n.
Proof. revert x; induction n; intros; simpl; auto. Qed.

Lemma le_enc_ok n x : bytes_ok (le_enc n x).
Proof.
  revert x; induction n as [|n IH]; intros x; simpl; constructor; [|apply IH].
  by apply Z.mod_pos_bound.
Qed.

Lemma le_dec_enc n x : le_dec (le_enc n x) = x mod 256 ^ Z.of_nat n.
Proof.
  revert x; induction n as [|n IH]; intros x; simpl le_enc; simpl le_dec.
  - by rewrite Z.pow_0_r, Z.mod_1_r.
  - rewrite IH, Nat2Z.inj_succ, Z.pow_succ_r by lia.
    rewrite Z.rem_mul_r by lia. lia.
Qed.

Lemma le_dec_bound l : bytes_ok l -> 0 <= le_dec l < 256 ^ Z.of_nat (length l).
Proof.
  induction 1 as [|b l Hb Hl IH]; simpl length; simpl le_dec; [lia|].
  rewrite Nat2Z.inj_succ, Z.pow_succ_r by lia. unfold is_u8 in Hb. lia.
Qed.

Lemma le_enc_dec l : bytes_ok l -> le_enc (length l) (le_dec l) = l.
Proof.
  induction 1 as [|b l Hb Hl IH]; simpl; [done|]. unfold is_u8 in Hb.
  replace (b + 256 * le_dec l) with (le_dec l * 256 + b) by lia.
  rewrite Z.add_comm, Z.mod_add, Z.mod_small by lia.
  rewrite Z.div_add, Z.div_small, Z.add_0_l by lia. by rewrite IH.
Qed.

Lemma le_dec_enc_u16 x : is_u16 x -> le_dec (le_enc 2 x) = x.
Proof. intros. rewrite le_dec_enc. change (256 ^ Z.of_nat 2) with 65536. by apply u16_small. Qed.
Lemma le_dec_enc_u32 x : is_u32 x -> le_dec (le_enc 4 x) = x.
Proof. intros. rewrite le_dec_enc. change (256 ^ Z.of_nat 4) with 4294967296. by apply u32_small. Qed.
Lemma le_dec_enc_u64 x : is_u64 x -> le_dec (le_enc 8 x) = x.
Proof. intros. rewrite le_dec_enc. change (256 ^ Z.of_nat 8) with 18446744073709551616. by apply u64_small. Qed.

#[export] Hint Rewrite length_le_enc : vmm.
#[export] Hint Resolve le_enc_ok : vmm.

(** ** Ranges of a byte buffer *)

(** [slice l o n]: the [n] bytes at offset [o]; [splice l o d]: [l] with the
    bytes at [o] replaced by [d].  Both are used under a bounds check only. *)
Definition slice (l : list byte) (o n : nat) : list byte := take n (drop o l).
Definition splice (l : list byte) (o : nat) (d : list byte) : list byte :=
  take o l ++ d ++ drop (o + length d) l.

Section ranges.
Context (l : list byte).

Lemma length_slice o n : (o + n <= length l)%nat -> length (slice l o n) = n.
Proof. intros. unfold slice. rewrite length_take, length_drop. lia. Qed.

Lemma length_splice o d :
  (o + length d <= length l)%nat -> length (splice l o d) = length l.
Proof. intros. unfold splice. rewrite !length_app, length_take, length_drop. lia. Qed.

Lemma slice_splice_eq o d :
  (o + length d <= length l)%nat -> slice (splice l o d) o (length d) = d.
Proof.
  intros. unfold slice, splice.
  rewrite drop_app_ge by (rewrite length_take; lia).
  rewrite length_take, Nat.min_l, Nat.sub_diag, drop_0 by lia.
  by rewrite take_app_length.
Qed.

(** A byte outside the written range is unchanged. *)
Lemma splice_lookup_ne o d i :
  (o + length d <= length l)%nat -> (i < o \/ o + length d <= i)%nat ->
  splice l o d !! i = l !! i.
Proof.
  intros Hb [Hi|Hi]; unfold splice.
  - rewrite lookup_app_l by (rewrite length_take; lia). by rewrite lookup_take_lt.
  - rewrite lookup_app_r by (rewrite length_take; lia).
    rewrite length_take, Nat.min_l by lia.
    rewrite lookup_app_r by lia. rewrite lookup_drop. f_equal. lia.
Qed.
End ranges.

Lemma slice_lookup (l : list byte) o n i :
  (i < n)%nat -> slice l o n !! i = l !! (o + i)%nat.
Proof. intros. unfold slice. rewrite lookup_take_lt by done. by rewrite lookup_drop. Qed.

(** A range disjoint from the written one is unchanged. *)
Lemma slice_splice_ne (l : list byte) o d o' n :
  (o + length d <= length l)%nat -> (o' + n <= o \/ o + length d <= o')%nat ->
  slice (splice l o d) o' n = slice l o' n.
Proof.
  intros Hb Hd. apply list_eq. intros i.
  destruct (decide (i < n)%nat) as [Hi|Hi].
  - rewrite !slice_lookup by done. apply splice_lookup_ne; [done|lia].
  - unfold slice. rewrite !lookup_take_ge by lia. done.
Qed.

Lemma slice_ok l o n : bytes_ok l -> bytes_ok (slice l o n).
Proof. intros. unfold slice, bytes_ok. by apply Forall_take, Forall_drop. Qed.
Lemma splice_ok l o d : bytes_ok l -> bytes_ok d -> bytes_ok (splice l o d).
Proof.
  intros. unfold splice, bytes_ok.
  repeat apply Forall_app_2; auto using Forall_take, Forall_drop.
Qed.
Lemma slice_all (l : list byte) : slice l 0 (length l) = l.
Proof. unfold slice. by rewrite drop_0, firstn_all. Qed.

(** ** Tactics shared by the components *)

(** Case analysis on the first [match]/[if] scrutinee of the goal (or of [H]). *)
Ltac case_goal :=
  match goal with
  | |- context [match ?x with _ => _ end] =>
      lazymatch x with context [match _ with _ => _ end] => fail | _ => destruct x eqn:? end
  end.
Ltac case_hyp H :=
  match type of H with
  | context [match ?x with _ => _ end] =>
      lazymatch x with context [match _ with _ => _ end] => fail | _ => destruct x eqn:? end
  end.

(** Turn the boolean comparisons of the code into hypotheses for [lia]. *)
Ltac bool_prop :=
  repeat match goal with
  | H : _ && _ = true |- _ => apply andb_prop in H; destruct H
  | H : _ || _ = false |- _ => apply orb_false_elim in H; destruct H
  | H : negb _ = true |- _ => apply negb_true_iff in H
  | H : negb _ = false |- _ => apply negb_false_iff in H
  | H : (_ <? _) = true |- _ => apply Z.ltb_lt in H
  | H : (_ <? _) = false |- _ => apply Z.ltb_ge in H
  | H : (_ <=? _) = true |- _ => apply Z.leb_le in H
  | H : (_ <=? _) = false |- _ => apply Z.leb_gt in H
  | H : (_ >=? _) = true |- _ => rewrite Z.geb_leb in H
  | H : (_ >=? _) = false |- _ => rewrite Z.geb_leb in H
  | H : (_ >? _) = true |- _ => rewrite Z.gtb_ltb in H
  | H : (_ >? _) = false |- _ => rewrite Z.gtb_ltb in H
  | H : (_ =? _) = true |- _ => apply Z.eqb_eq in H
  | H : (_ =? _) = false |- _ => apply Z.eqb_neq in H
  end.
