(* ===== verification/HvTypes.v ===== *)
(** * Data of the hypervisor abstraction (include/hypervisor.h)

    The enums, structs and unions that the backends, the vCPU code and the
    boot code exchange.  [uint64_t] etc. are [Z]s; the [is_u*] predicates of
    the prelude say which. *)

From S2P Require Import Prelude.

(** [enum hv_type] *)
Inductive hv_type :=
| HV_TYPE_AUTO | HV_TYPE_KVM | HV_TYPE_HVF | HV_TYPE_HVF_X86_64 | HV_TYPE_HVF_ARM64.

(** [enum hv_exit_reason] *)
Inductive hv_exit_reason :=
| HV_EXIT_UNKNOWN
| HV_EXIT_NONE | HV_EXIT_HLT | HV_EXIT_IO | HV_EXIT_MMIO | HV_EXIT_EXTERNAL
| HV_EXIT_FAIL_ENTRY | HV_EXIT_SHUTDOWN | HV_EXIT_INTERNAL_ERROR | HV_EXIT_EXCEPTION
| HV_EXIT_IRQ_WINDOW_OPEN | HV_EXIT_SET_TPR | HV_EXIT_TPR_ACCESS
| HV_EXIT_S390_SIEIC | HV_EXIT_S390_RESET | HV_EXIT_DCR | HV_EXIT_NMI | HV_EXIT_OSI
| HV_EXIT_PAPR_HCALL | HV_EXIT_S390_UCONTROL | HV_EXIT_WATCHDOG | HV_EXIT_S390_TSCH
| HV_EXIT_EPR | HV_EXIT_SYSTEM_EVENT | HV_EXIT_S390_STSI | HV_EXIT_IOAPIC_EOI
| HV_EXIT_HYPERV | HV_EXIT_ARM_NISV | HV_EXIT_X86_RDMSR | HV_EXIT_X86_WRMSR
| HV_EXIT_DIRTY_LOG_FULL | HV_EXIT_X86_BUS_LOCK | HV_EXIT_X86_HYPERCALL
| HV_EXIT_HVF_VMX
| HV_EXIT_CANCELED | HV_EXIT_VTIMER
| HV_EXIT_ARM_EXCEPTION | HV_EXIT_ARM_TRAP | HV_EXIT_ARM_MMIO | HV_EXIT_ARM_IRQ.

#[export] Instance hv_type_eq_dec : EqDecision hv_type.
Proof. solve_decision. Defined.
#[export] Instance hv_exit_reason_eq_dec : EqDecision hv_exit_reason.
Proof. solve_decision. Defined.

(** [enum hv_io_dir], [struct hv_io], [struct hv_mmio] *)
Inductive hv_io_dir := HV_IO_IN | HV_IO_OUT.

#[export] Instance hv_io_dir_eq_dec : EqDecision hv_io_dir.
Proof. solve_decision. Defined.

Record hv_io := mk_hv_io {
  io_port : Z;             (* uint16_t *)
  io_size : Z;             (* uint8_t *)
  io_direction : hv_io_dir;
  io_data : Z              (* uint32_t *)
}.

Record hv_mmio := mk_hv_mmio {
  mmio_addr : Z;           (* uint64_t *)
  mmio_size : Z;           (* uint8_t *)
  mmio_is_write : Z;       (* int *)
  mmio_data : Z            (* uint64_t *)
}.

(** The union [u] of [struct hv_exit]: the member last stored into.  [UZero]
    is the union after the backends' [memset]. *)
Inductive hv_exit_u :=
| UZero
| UIo (io : hv_io)
| UMmio (mmio : hv_mmio)
| UError (error_code : Z).

Record hv_exit := mk_hv_exit {
  ex_reason : hv_exit_reason;
  ex_u : hv_exit_u
}.

Definition zero_io : hv_io := mk_hv_io 0 0 HV_IO_IN 0.
Definition zero_mmio : hv_mmio := mk_hv_mmio 0 0 0 0.

(** Reading a member: the one stored, or the zeroed bytes; [None] where the
    code would read one member through another. *)
Definition u_io (u : hv_exit_u) : option hv_io :=
  match u with UIo io => Some io | UZero => Some zero_io | _ => None end.
Definition u_mmio (u : hv_exit_u) : option hv_mmio :=
  match u with UMmio m => Some m | UZero => Some zero_mmio | _ => None end.
Definition u_error (u : hv_exit_u) : option Z :=
  match u with UError e => Some e | UZero => Some 0 | _ => None end.

(** [struct hv_regs] *)
Record hv_regs := mk_hv_regs {
  rax : Z; rbx : Z; rcx : Z; rdx : Z;
  rsi : Z; rdi : Z; rsp : Z; rbp : Z;
  r8 : Z; r9 : Z; r10 : Z; r11 : Z;
  r12 : Z; r13 : Z; r14 : Z; r15 : Z;
  rip : Z; rflags : Z
}.

Definition zero_regs : hv_regs := mk_hv_regs 0 0 0 0 0 0 0 0 0 0 0 0 0 0 0 0 0 0.

(** [struct hv_sregs]: eight segments, two descriptor tables, control
    registers. *)
Record hv_segment := mk_hv_segment {
  sg_selector : Z;  (* uint16_t *)
  sg_base : Z;      (* uint64_t *)
  sg_limit : Z;     (* uint32_t *)
  sg_ar : Z         (* uint32_t *)
}.

Record hv_dtable := mk_hv_dtable { dt_base : Z; dt_limit : Z; dt_ar : Z }.

Record hv_sregs := mk_hv_sregs {
  s_cs : hv_segment; s_ds : hv_segment; s_es : hv_segment; s_fs : hv_segment;
  s_gs : hv_segment; s_ss : hv_segment; s_ldt : hv_segment; s_tr : hv_segment;
  s_gdt : hv_dtable; s_idt : hv_dtable;
  s_cr0 : Z; s_cr2 : Z; s_cr3 : Z; s_cr4 : Z; s_cr8 : Z;
  s_efer : Z; s_apic_base : Z
}.

Definition zero_segment : hv_segment := mk_hv_segment 0 0 0 0.
Definition zero_dtable : hv_dtable := mk_hv_dtable 0 0 0.
Definition zero_sregs : hv_sregs :=
  mk_hv_sregs zero_segment zero_segment zero_segment zero_segment
    zero_segment zero_segment zero_segment zero_segment
    zero_dtable zero_dtable 0 0 0 0 0 0 0.

(** Host pointers: a block of the host heap and a byte offset.  Pointer
    arithmetic is free, only accesses are checked. *)
Inductive ptr := Null | Ptr (b : positive) (o : Z).

#[export] Instance ptr_eq_dec : EqDecision ptr.
Proof. solve_decision. Defined.

Definition padd (p : ptr) (n : Z) : ptr :=
  match p with Null => Null | Ptr b o => Ptr b (o + n) end.

(** [struct hv_memory_slot] *)
Record hv_memory_slot := mk_hv_memory_slot {
  ms_slot : Z; ms_gpa : Z; ms_size : Z; ms_hva : ptr; ms_flags : Z
}.
