(* ===== verification/Host.v ===== *)
(** * The host: heap, system calls, undefined behaviour

    The program under verification is C code on a POSIX host.  This file
    gives the effects its model needs:

    - a heap of byte blocks ([calloc]/[malloc]/[free], [memcpy], typed loads
      and stores), with every out-of-bounds, null or freed access an explicit
      outcome [Ub];
    - the host operating system, as an environment that answers each system
      call from the history of the calls made so far.  The environment is a
      parameter of the whole development: theorems quantify over it, so they
      hold for every kernel, file content and failure pattern;
    - the state-and-error monad the components are written in, with a weakest
      precondition calculus. *)

From S2P Require Import Prelude HvTypes.

(** ** What the host is asked to do *)

(** KVM's registers and memory-region argument, as kvm.c declares them. *)
Record kvm_segment := mk_kvm_segment {
  ksg_base : Z; ksg_limit : Z; ksg_selector : Z; ksg_ar : Z (* uint16_t *)
}.
Record kvm_dtable := mk_kvm_dtable { kdt_base : Z; kdt_limit : Z; kdt_ar : Z }.
Record kvm_regs := mk_kvm_regs {
  k_rax : Z; k_rbx : Z; k_rcx : Z; k_rdx : Z;
  k_rsi : Z; k_rdi : Z; k_rsp : Z; k_rbp : Z;
  k_r8 : Z; k_r9 : Z; k_r10 : Z; k_r11 : Z;
  k_r12 : Z; k_r13 : Z; k_r14 : Z; k_r15 : Z;
  k_rip : Z; k_rflags : Z
}.
Record kvm_sregs := mk_kvm_sregs {
  k_cs : kvm_segment; k_ds : kvm_segment; k_es : kvm_segment; k_fs : kvm_segment;
  k_gs : kvm_segment; k_ss : kvm_segment; k_ldt : kvm_segment; k_tr : kvm_segment;
  k_gdt : kvm_dtable; k_idt : kvm_dtable;
  k_cr0 : Z; k_cr2 : Z; k_cr3 : Z; k_cr4 : Z; k_cr8 : Z;
  k_efer : Z; k_apic_base : Z; k_interrupt_bitmap : list Z
}.
Record kvm_userspace_memory_region := mk_kvm_userspace_memory_region {
  kmr_slot : Z; kmr_flags : Z; kmr_guest_phys_addr : Z;
  kmr_memory_size : Z; kmr_userspace_addr : ptr
}.

(** Hypervisor.framework, as the HVF backends use it: the return codes they tell
    apart, the x86 registers and segments, the ARM registers, and the part of the
    exit structure they read. *)
Inductive hv_return := HV_SUCCESS | HV_ERROR | HV_UNSUPPORTED | HV_OTHER (code : Z).
Inductive hv_x64_reg :=
| HV_X64_RIP | HV_X64_RFLAGS | HV_X64_RAX | HV_X64_RBX | HV_X64_RCX | HV_X64_RDX
| HV_X64_RSI | HV_X64_RDI | HV_X64_RSP | HV_X64_RBP | HV_X64_R8 | HV_X64_R9
| HV_X64_R10 | HV_X64_R11 | HV_X64_R12 | HV_X64_R13 | HV_X64_R14 | HV_X64_R15
| HV_X64_CR0 | HV_X64_CR2 | HV_X64_CR3 | HV_X64_CR4.
Inductive hv_x64_segment :=
| HV_X64_SEGMENT_CS | HV_X64_SEGMENT_DS | HV_X64_SEGMENT_ES
| HV_X64_SEGMENT_FS | HV_X64_SEGMENT_GS | HV_X64_SEGMENT_SS.
Inductive hv_arm_reg := HV_REG_X (n : nat) | HV_REG_PC | HV_REG_CPSR | HV_SYS_REG_SP_EL1.
Inductive hv_arm_exit_reason :=
| HV_EXIT_REASON_CANCELED | HV_EXIT_REASON_EXCEPTION | HV_EXIT_REASON_VTIMER_ACTIVATED
| HV_EXIT_REASON_UNKNOWN.
Record hv_vcpu_exit_t := mk_vcpu_exit {
  xi_reason : hv_arm_exit_reason; xi_syndrome : Z; xi_virtual_address : Z; xi_physical_address : Z
}.

#[export] Instance hv_return_eq_dec : EqDecision hv_return.
Proof. solve_decision. Defined.
#[export] Instance hv_x64_reg_eq_dec : EqDecision hv_x64_reg.
Proof. solve_decision. Defined.
#[export] Instance hv_x64_segment_eq_dec : EqDecision hv_x64_segment.
Proof. solve_decision. Defined.
#[export] Instance hv_arm_reg_eq_dec : EqDecision hv_arm_reg.
Proof. solve_decision. Defined.

Inductive open_flag := O_RDWR | O_RDONLY.

Inductive event :=
(* C library: console and log streams, allocation, files *)
| EvPutchar (c : Z)
| EvLogPutc (c : Z)
| EvCalloc (n : Z)
| EvMalloc (n : Z)
| EvStrdup (s : string)
| EvFopen (path mode : string)
| EvLogPuts (s : string)
| EvLogFclose
| EvFclose (path : string)
| EvFtell (path : string)
| EvFread (path : string) (n : Z)
(* POSIX *)
| EvOpen (path : string) (flag : open_flag)
| EvClose (fd : Z)
| EvFstat (fd : Z)
| EvPread (fd len off : Z)
| EvPwrite (fd : Z) (data : list byte) (off : Z)
| EvRead (fd len : Z)
| EvWrite (fd : Z) (data : list byte)
| EvEventfd
| EvTunSetIff (fd : Z) (name : option string)
| EvSetNonblock (fd : Z)
| EvMmapRun (fd len : Z)
| EvMunmapRun (fd len : Z)
| EvPthreadCreate (vcpu : Z)
| EvPthreadCancelJoin (vcpu : Z)
| EvSleep
(* KVM ioctls *)
| EvKvmGetApiVersion (fd : Z)
| EvKvmCreateVm (fd : Z)
| EvKvmGetVcpuMmapSize (fd : Z)
| EvKvmCreateVcpu (fd index : Z)
| EvKvmSetUserMemoryRegion (fd : Z) (r : kvm_userspace_memory_region)
| EvKvmRun (fd : Z)
| EvKvmGetRegs (fd : Z)
| EvKvmSetRegs (fd : Z) (r : kvm_regs)
| EvKvmGetSregs (fd : Z)
| EvKvmSetSregs (fd : Z) (r : kvm_sregs)
| EvKvmIrqLine (fd irq level : Z)
(* VFIO ioctls and mappings *)
| EvVfioGetApiVersion (fd : Z)
| EvVfioCheckExtension (fd : Z)
| EvVfioGroupGetStatus (fd : Z)
| EvVfioGroupSetContainer (fd container : Z)
| EvVfioGroupUnsetContainer (fd container : Z)
| EvVfioSetIommu (fd : Z)
| EvVfioGroupGetDeviceFd (fd : Z) (bdf : string)
| EvVfioDeviceGetInfo (fd : Z)
| EvVfioGetRegionInfo (fd index : Z)
| EvVfioGetIrqInfo (fd index : Z)
| EvVfioSetIrqs (fd flags index start count eventfd : Z)
| EvMmapDevice (fd size off : Z)
| EvMunmapDevice (p : ptr) (size : Z)
(* Hypervisor.framework *)
| EvHvVmCreate
| EvHvVmDestroy
| EvHvVmMap (hva : ptr) (gpa size : Z)
| EvHvConfigCreate
| EvHvVcpuCreate
| EvHvVcpuDestroy (vcpu : Z)
| EvHvVcpuRun (vcpu : Z)
| EvHvVcpusExit (vcpu : Z)
| EvHvReadRegister (vcpu : Z) (r : hv_x64_reg)
| EvHvWriteRegister (vcpu : Z) (r : hv_x64_reg) (x : Z)
| EvHvReadSegment (vcpu : Z) (s : hv_x64_segment)
| EvHvWriteSegment (vcpu : Z) (s : hv_x64_segment) (g : hv_segment)
| EvHvGetReg (vcpu : Z) (r : hv_arm_reg)
| EvHvSetReg (vcpu : Z) (r : hv_arm_reg) (x : Z).

(** What each call returns: the C return value and the bytes or struct it
    fills in ([EvVfioGetRegionInfo]: flags, size and offset).  [EvKvmRun]
    also yields [errno], the new content of the shared [kvm_run] page, and the
    stores the guest made to its RAM meanwhile; [EvHvVcpuRun] the new content of
    the exit structure and those stores; [EvHvVcpuDestroy] whether the framework
    has released the exit structure it allocated; [EvSleep] whether a
    termination signal arrived, and the indices of the vCPUs whose threads set
    [should_stop] meanwhile. *)
Definition answer (e : event) : Type :=
  match e with
  | EvCalloc _ => bool
  | EvMalloc _ => option (list byte)
  | EvStrdup _ => bool
  | EvFopen _ _ => bool
  | EvFread _ _ => list byte
  | EvFstat _ => option Z
  | EvPread _ _ _ | EvRead _ _ => Z * list byte
  | EvMmapRun _ _ => option (list byte)
  | EvKvmRun _ => Z * Z * list byte * list (ptr * list byte)
  | EvKvmGetRegs _ => Z * kvm_regs
  | EvKvmGetSregs _ => Z * kvm_sregs
  | EvVfioGroupGetStatus _ | EvVfioGetIrqInfo _ _ => Z * Z
  | EvVfioDeviceGetInfo _ => Z * (Z * Z)
  | EvVfioGetRegionInfo _ _ => Z * (Z * Z * Z)
  | EvMmapDevice _ _ _ => option (list byte)
  | EvVfioGroupUnsetContainer _ _ | EvMunmapDevice _ _ | EvHvVmDestroy => unit
  | EvHvVmCreate | EvHvVmMap _ _ _ | EvHvVcpusExit _ | EvHvWriteRegister _ _ _ | EvHvWriteSegment _ _ _
  | EvHvSetReg _ _ _ => hv_return
  | EvHvConfigCreate | EvHvVcpuDestroy _ => bool
  | EvSleep => bool * list nat
  | EvHvVcpuCreate | EvHvReadRegister _ _ | EvHvGetReg _ _ => hv_return * Z
  | EvHvReadSegment _ _ => hv_return * hv_segment
  | EvHvVcpuRun _ => hv_return * hv_vcpu_exit_t * list (ptr * list byte)
  | EvPutchar _ | EvLogPutc _ | EvLogPuts _ | EvLogFclose | EvFclose _ | EvClose _ | EvSetNonblock _
  | EvMunmapRun _ _ | EvPthreadCancelJoin _ => unit
  | _ => Z
  end.

(** The environment answers from the history (most recent call first). *)
Class Env := env_answer : list event -> forall e, answer e.

(** ** Host state and outcomes *)

Record host := mk_host {
  heap : gmap positive (list byte);
  trace : list event;           (* most recent first *)
  errno : Z
}.

Definition EINTR : Z := 4.

(** Reasons for undefined behaviour the model distinguishes.  [OutOfFuel] is not
    one: it marks a loop that had more iterations than the model's bound, and
    the theorems about loops show that it does not occur. *)
Inductive ub :=
| NullDeref | OutOfBounds | UseAfterFree | DivByZero | BadMember | NullCall | BadShift | OutOfFuel.

Inductive outcome (A : Type) :=
| Ok (a : A) (h : host)
| Ub (u : ub).
Arguments Ok {A} a h.
Arguments Ub {A} u.

Definition M (A : Type) : Type := host -> outcome A.

#[export] Instance M_ret : MRet M := fun A a h => Ok a h.
#[export] Instance M_bind : MBind M := fun A B f m h =>
  match m h with Ok a h' => f a h' | Ub u => Ub u end.

Definition fail_ub {A} (u : ub) : M A := fun _ => Ub u.

(** [deref]: a value that must be present for the code to go on. *)
Definition deref {A} (u : ub) (o : option A) : M A :=
  match o with Some a => mret a | None => fail_ub u end.

(** ** Heap operations *)

Definition set_heap (f : gmap positive (list byte) -> gmap positive (list byte)) (h : host) : host :=
  mk_host (f (heap h)) (trace h) (errno h).

Definition in_range (l : list byte) (o n : Z) : bool :=
  (0 <=? o) && (0 <=? n) && (o + n <=? Z.of_nat (length l)).

(** [memcpy] out of, respectively into, host memory. *)
Definition load (p : ptr) (n : Z) : M (list byte) := fun h =>
  match p with
  | Null => Ub NullDeref
  | Ptr b o =>
      match heap h !! b with
      | None => Ub UseAfterFree
      | Some l => if in_range l o n then Ok (slice l (Z.to_nat o) (Z.to_nat n)) h
                  else Ub OutOfBounds
      end
  end.

Definition store (p : ptr) (d : list byte) : M unit := fun h =>
  match p with
  | Null => Ub NullDeref
  | Ptr b o =>
      match heap h !! b with
      | None => Ub UseAfterFree
      | Some l => if in_range l o (Z.of_nat (length d))
                  then Ok tt (set_heap (insert b (splice l (Z.to_nat o) d)) h)
                  else Ub OutOfBounds
      end
  end.

(** Stores made by the running guest: to mapped host memory, never outside. *)
Definition guest_store (pd : ptr * list byte) (h : host) : host :=
  match store pd.1 pd.2 h with Ok _ h' => h' | Ub _ => h end.
Definition guest_stores (ws : list (ptr * list byte)) : M unit := fun h =>
  Ok tt (foldr guest_store h ws).

(** Typed accesses at [p + off]. *)
Definition load_le (n : nat) (p : ptr) (off : Z) : M Z :=
  l ← load (padd p off) (Z.of_nat n); mret (le_dec l).
Definition store_le (n : nat) (p : ptr) (off : Z) (x : Z) : M unit :=
  store (padd p off) (le_enc n x).

(** [free]: nothing on NULL, otherwise the start of a live block. *)
Definition free (p : ptr) : M unit := fun h =>
  match p with
  | Null => Ok tt h
  | Ptr b o =>
      match heap h !! b with
      | None => Ub UseAfterFree
      | Some _ => if o =? 0 then Ok tt (set_heap (delete b) h) else Ub OutOfBounds
      end
  end.

(** ** Calls to the host *)

(** The host after a call: one more entry in the history. *)
Definition called (e : event) (h : host) : host := mk_host (heap h) (e :: trace h) (errno h).

Section env.
Context {E : Env}.

Definition perform (e : event) : M (answer e) := fun h =>
  Ok (env_answer (trace h) e) (called e h).

Lemma perform_close fd h : perform (EvClose fd) h = Ok tt (called (EvClose fd) h).
Proof. unfold perform. by destruct (env_answer _ _). Qed.

Definition alloc_block (l : list byte) : M ptr := fun h =>
  let b := fresh (dom (heap h)) in Ok (Ptr b 0) (set_heap (insert b l) h).

(** [calloc(1, n)]: zeroed block or NULL. *)
Definition calloc (n : Z) : M ptr :=
  ok ← perform (EvCalloc n);
  if ok : bool then alloc_block (replicate (Z.to_nat n) 0) else mret Null.

(** [strdup]: a copy of the string, or NULL. *)
Definition strdup (s : string) : M (option string) :=
  ok ← perform (EvStrdup s); mret (if ok : bool then Some s else None).

Definition set_errno (e : Z) : M unit := fun h => Ok tt (mk_host (heap h) (trace h) e).

Definition putchar (c : Z) : M unit := perform (EvPutchar c).
End env.

Fixpoint mfor {A} (l : list A) (f : A -> M unit) : M unit :=
  match l with [] => mret tt | a :: l' => f a;; mfor l' f end.

(** ** Weakest preconditions *)

(** [wp m Q h]: from [h], [m] is free of undefined behaviour and ends with a
    result and host satisfying [Q]. *)
Definition wp {A} (m : M A) (Q : A -> host -> Prop) (h : host) : Prop :=
  match m h with Ok a h' => Q a h' | Ub _ => False end.

Section wp_rules.
Context {A B : Type}.
Implicit Types (m : M A) (Q : B -> host -> Prop).

Lemma wp_ret (a : A) (Q : A -> host -> Prop) h : Q a h -> wp (mret a) Q h.
Proof. done. Qed.

Lemma wp_bind m (f : A -> M B) Q h :
  wp m (fun a => wp (f a) Q) h -> wp (m ≫= f) Q h.
Proof. unfold wp, mbind, M_bind. destruct (m h); done. Qed.

Lemma wp_mono m (Q1 Q2 : A -> host -> Prop) h :
  wp m Q1 h -> (forall a h', Q1 a h' -> Q2 a h') -> wp m Q2 h.
Proof. unfold wp. destruct (m h); eauto. Qed.

Lemma wp_run m (Q : A -> host -> Prop) h :
  wp m Q h <-> exists a h', m h = Ok a h' /\ Q a h'.
Proof.
  unfold wp. split.
  - destruct (m h) as [a h'|]; [eauto|done].
  - by intros (a & h' & -> & HQ).
Qed.
End wp_rules.

Lemma bind_Ok {A B} (m : M A) (f : A -> M B) h a h' :
  m h = Ok a h' -> (m ≫= f) h = f a h'.
Proof. unfold mbind, M_bind. by intros ->. Qed.

Lemma bind_ret {A B} (a : A) (f : A -> M B) h : ((mret a : M A) ≫= f) h = f a h.
Proof. done. Qed.

Lemma bind_Ub {A B} (m : M A) (f : A -> M B) h u :
  m h = Ub u -> (m ≫= f) h = Ub u.
Proof. unfold mbind, M_bind. by intros ->. Qed.

Lemma bind_assoc {A B C} (m : M A) (f : A -> M B) (g : B -> M C) h :
  ((m ≫= f) ≫= g) h = (m ≫= (fun a => f a ≫= g)) h.
Proof. unfold mbind, M_bind. by destruct (m h). Qed.

(** ** Laws of the heap *)

(** [range_ok h p n]: [n] bytes at [p] lie in a live block. *)
Definition range_ok (h : host) (p : ptr) (n : Z) : Prop :=
  exists b o l, p = Ptr b o /\ heap h !! b = Some l /\ 0 <= o /\ 0 <= n /\
                o + n <= Z.of_nat (length l).

(** The bytes of a valid range. *)
Definition bytes_at (h : host) (p : ptr) (n : Z) : list byte :=
  match p with
  | Null => []
  | Ptr b o => slice (default [] (heap h !! b)) (Z.to_nat o) (Z.to_nat n)
  end.

(** The host after a store into a valid range. *)
Definition stored (h : host) (p : ptr) (d : list byte) : host :=
  match p with
  | Null => h
  | Ptr b o => set_heap (insert b (splice (default [] (heap h !! b)) (Z.to_nat o) d)) h
  end.

Lemma in_range_spec l o n :
  in_range l o n = true <-> 0 <= o /\ 0 <= n /\ o + n <= Z.of_nat (length l).
Proof. unfold in_range. rewrite !andb_true_iff, !Z.leb_le. tauto. Qed.

Lemma load_ok h p n : range_ok h p n -> load p n h = Ok (bytes_at h p n) h.
Proof.
  intros (b & o & l & -> & Hl & Ho & Hn & Hb). simpl. rewrite Hl. simpl.
  by rewrite (proj2 (in_range_spec l o n)).
Qed.

Lemma store_ok h p d :
  range_ok h p (Z.of_nat (length d)) -> store p d h = Ok tt (stored h p d).
Proof.
  intros (b & o & l & -> & Hl & Ho & Hn & Hb). simpl. rewrite Hl. simpl.
  by rewrite (proj2 (in_range_spec l o _)).
Qed.

Lemma free_ok h b l : heap h !! b = Some l -> free (Ptr b 0) h = Ok tt (set_heap (delete b) h).
Proof. intros Hl. unfold free. by rewrite Hl. Qed.

(** Loads and stores that do not fault are exactly those of valid ranges. *)
Lemma load_inv h p n l h' : load p n h = Ok l h' -> range_ok h p n /\ h' = h.
Proof.
  unfold load. destruct p as [|b o]; [done|].
  destruct (heap h !! b) as [l0|] eqn:Hl; [|done].
  destruct (in_range l0 o n) eqn:Hr; [|done]. intros [= _ ->].
  apply in_range_spec in Hr. split; [|done]. exists b, o, l0. intuition.
Qed.

Lemma length_bytes_at h p n : range_ok h p n -> length (bytes_at h p n) = Z.to_nat n.
Proof.
  intros (b & o & l & -> & Hl & Ho & Hn & Hb). simpl. rewrite Hl. simpl.
  apply length_slice. lia.
Qed.

Lemma range_ok_stored h p d q n : 
  range_ok h p (Z.of_nat (length d)) -> range_ok h q n -> range_ok (stored h p d) q n.
Proof.
  intros (b & o & l & -> & Hl & Ho & Hn & Hb) (b' & o' & l' & -> & Hl' & Ho' & Hn' & Hb').
  exists b', o'. unfold stored. rewrite Hl. simpl.
  destruct (decide (b = b')) as [<-|Hne].
  - exists (splice l (Z.to_nat o) d). rewrite lookup_insert_eq.
    rewrite length_splice by lia. simplify_eq. eauto 10.
  - exists l'. rewrite lookup_insert_ne by done. eauto 10.
Qed.

(** Reading back what was stored. *)
Lemma bytes_at_stored_eq h p d :
  range_ok h p (Z.of_nat (length d)) ->
  bytes_at (stored h p d) p (Z.of_nat (length d)) = d.
Proof.
  intros (b & o & l & -> & Hl & Ho & Hn & Hb). unfold stored, bytes_at. rewrite Hl. simpl.
  rewrite lookup_insert_eq. simpl. rewrite Nat2Z.id. apply slice_splice_eq. lia.
Qed.

(** Two ranges that share no byte. *)
Definition disjoint_ranges (p : ptr) (n : Z) (q : ptr) (m : Z) : Prop :=
  match p, q with
  | Ptr b o, Ptr b' o' => b <> b' \/ o + n <= o' \/ o' + m <= o
  | _, _ => True
  end.

Lemma bytes_at_stored_ne h p d q n :
  range_ok h p (Z.of_nat (length d)) -> range_ok h q n ->
  disjoint_ranges p (Z.of_nat (length d)) q n ->
  bytes_at (stored h p d) q n = bytes_at h q n.
Proof.
  intros (b & o & l & -> & Hl & Ho & Hn & Hb) (b' & o' & l' & -> & Hl' & Ho' & Hn' & Hb').
  intros Hd. unfold stored, bytes_at. rewrite Hl. simpl.
  destruct (decide (b = b')) as [<-|Hne].
  - rewrite lookup_insert_eq, Hl. simpl. destruct Hd as [?|Hd]; [done|].
    apply slice_splice_ne; lia.
  - by rewrite lookup_insert_ne.
Qed.

Lemma trace_stored h p d : trace (stored h p d) = trace h.
Proof. by destruct p. Qed.
Lemma errno_stored h p d : errno (stored h p d) = errno h.
Proof. by destruct p. Qed.

#[export] Hint Rewrite trace_stored errno_stored : vmm.

(** *** Fields of a structure: sub-ranges *)

Lemma range_ok_sub h p n off m :
  range_ok h p n -> 0 <= off -> 0 <= m -> off + m <= n -> range_ok h (padd p off) m.
Proof.
  intros (b & o & l & -> & Hl & Ho & Hn & Hb) ???. exists b, (o + off), l.
  split_and!; auto; lia.
Qed.

Lemma disjoint_sub p n q m off k off' k' :
  disjoint_ranges p n q m -> 0 <= off -> off + k <= n -> 0 <= off' -> off' + k' <= m ->
  disjoint_ranges (padd p off) k (padd q off') k'.
Proof. destruct p, q; simpl; try done. intros [?|?]; [by left|]. right. lia. Qed.

Lemma disjoint_fields p off k off' k' :
  off + k <= off' \/ off' + k' <= off -> disjoint_ranges (padd p off) k (padd p off') k'.
Proof. destruct p; simpl; [done|]. right. lia. Qed.

Lemma disjoint_ranges_sym p n q m : disjoint_ranges p n q m -> disjoint_ranges q m p n.
Proof. destruct p, q; simpl; try done. intros [?|?]; [left; congruence|right; lia]. Qed.

Lemma padd_0 p : padd p 0 = p.
Proof. destruct p; simpl; [done|]. f_equal. lia. Qed.

(** The value of an [n]-byte field at [p + off]. *)
Definition field_at (h : host) (n : nat) (p : ptr) (off : Z) : Z :=
  le_dec (bytes_at h (padd p off) (Z.of_nat n)).

Lemma load_le_ok h n p off :
  range_ok h (padd p off) (Z.of_nat n) -> load_le n p off h = Ok (field_at h n p off) h.
Proof. intros Hr. unfold load_le. by rewrite (bind_Ok _ _ _ _ _ (load_ok _ _ _ Hr)). Qed.

Lemma store_le_ok h n p off x :
  range_ok h (padd p off) (Z.of_nat n) ->
  store_le n p off x h = Ok tt (stored h (padd p off) (le_enc n x)).
Proof. intros Hr. unfold store_le. apply store_ok. by rewrite length_le_enc. Qed.

(** Every byte of the heap is a byte. *)
Definition heap_bytes (h : host) : Prop := map_Forall (fun _ l => bytes_ok l) (heap h).

Lemma bytes_at_ok h p n : heap_bytes h -> bytes_ok (bytes_at h p n).
Proof.
  intros Hh. destruct p as [|b o]; simpl; [constructor|]. apply slice_ok.
  destruct (heap h !! b) eqn:Hb; simpl; [by eapply Hh|constructor].
Qed.

Lemma heap_bytes_stored h p d : heap_bytes h -> bytes_ok d -> heap_bytes (stored h p d).
Proof.
  intros Hh Hd. destruct p as [|b o]; simpl; [done|]. apply map_Forall_insert_2; [|done].
  apply splice_ok; [|done]. destruct (heap h !! b) eqn:Hb; simpl; [by eapply Hh|constructor].
Qed.

Lemma field_at_bound h n p off :
  heap_bytes h -> range_ok h (padd p off) (Z.of_nat n) ->
  0 <= field_at h n p off < 256 ^ Z.of_nat n.
Proof.
  intros Hh Hr. unfold field_at.
  pose proof (le_dec_bound _ (bytes_at_ok h (padd p off) (Z.of_nat n) Hh)) as Hb.
  rewrite length_bytes_at in Hb by done. by rewrite Nat2Z.id in Hb.
Qed.

Lemma field_at_stored_eq h n p off x :
  range_ok h (padd p off) (Z.of_nat n) ->
  field_at (stored h (padd p off) (le_enc n x)) n p off = x mod 256 ^ Z.of_nat n.
Proof.
  intros Hr. unfold field_at. rewrite <- (length_le_enc n x) at 2.
  rewrite bytes_at_stored_eq by by rewrite length_le_enc. apply le_dec_enc.
Qed.

Lemma field_at_stored_ne h n p off q d :
  range_ok h q (Z.of_nat (length d)) -> range_ok h (padd p off) (Z.of_nat n) ->
  disjoint_ranges q (Z.of_nat (length d)) (padd p off) (Z.of_nat n) ->
  field_at (stored h q d) n p off = field_at h n p off.
Proof. intros. unfold field_at. by rewrite bytes_at_stored_ne. Qed.

(** Two hosts with the same blocks of the same sizes. *)
Definition same_layout (h h' : host) : Prop :=
  forall b, length <$> heap h' !! b = length <$> heap h !! b.

Lemma same_layout_refl h : same_layout h h.
Proof. done. Qed.
Lemma same_layout_trans h1 h2 h3 : same_layout h1 h2 -> same_layout h2 h3 -> same_layout h1 h3.
Proof. intros H1 H2 b. by rewrite H2, H1. Qed.
Lemma same_layout_heap h h' : heap h' = heap h -> same_layout h h'.
Proof. intros He b. by rewrite He. Qed.

Lemma store_layout p d h h' : store p d h = Ok tt h' -> same_layout h h' /\ trace h' = trace h /\ errno h' = errno h.
Proof.
  unfold store. destruct p as [|b o]; [done|]. destruct (heap h !! b) as [l|] eqn:Hl; [|done].
  destruct (in_range _ _ _) eqn:Hr; [|done]. intros [= <-]. split; [|done].
  apply in_range_spec in Hr. intros b'. simpl. destruct (decide (b = b')) as [<-|Hne].
  - rewrite lookup_insert_eq, Hl. simpl. f_equal. apply length_splice. lia.
  - by rewrite lookup_insert_ne.
Qed.

Lemma guest_stores_layout ws h h' :
  guest_stores ws h = Ok tt h' -> same_layout h h' /\ trace h' = trace h /\ errno h' = errno h.
Proof.
  unfold guest_stores. intros [= <-]. induction ws as [|[p d] ws (IH1 & IH2 & IH3)]; simpl; [done|].
  unfold guest_store. simpl. destruct (store p d _) as [[] h1|] eqn:Hs; [|done].
  apply store_layout in Hs as (H1 & H2 & H3). rewrite H2, H3. eauto using same_layout_trans.
Qed.

#[export] Hint Resolve same_layout_refl same_layout_heap : vmm.

Section wp_heap.
Context {E : Env}.

Lemma wp_load p n (Q : list byte -> host -> Prop) h :
  range_ok h p n -> Q (bytes_at h p n) h -> wp (load p n) Q h.
Proof. intros. unfold wp. by rewrite load_ok. Qed.

Lemma wp_store p d (Q : unit -> host -> Prop) h :
  range_ok h p (Z.of_nat (length d)) -> Q tt (stored h p d) -> wp (store p d) Q h.
Proof. intros. unfold wp. by rewrite store_ok. Qed.

Lemma wp_perform e (Q : answer e -> host -> Prop) h :
  Q (env_answer (trace h) e) (called e h) ->
  wp (perform e) Q h.
Proof. done. Qed.
End wp_heap.

(** ** File descriptors

    The descriptors the program holds after a history: opened by a call that
    returned a non-negative number, not yet closed. *)

Fixpoint remove_one (fd : Z) (l : list Z) : list Z :=
  match l with
  | [] => []
  | x :: l' => if decide (x = fd) then l' else x :: remove_one fd l'
  end.

Section fds.
Context {E : Env}.

Definition opened (tr : list event) (e : event) : option Z :=
  match e return answer e -> option Z with
  | EvOpen _ _ | EvEventfd | EvKvmCreateVm _ | EvKvmCreateVcpu _ _ | EvVfioGroupGetDeviceFd _ _ =>
      fun fd => if fd <? 0 then None else Some fd
  | _ => fun _ => None
  end (env_answer tr e).

Fixpoint open_fds (tr : list event) : list Z :=
  match tr with
  | [] => []
  | e :: tr' =>
      match opened tr' e with
      | Some fd => fd :: open_fds tr'
      | None => match e with EvClose fd => remove_one fd (open_fds tr') | _ => open_fds tr' end
      end
  end.

Lemma remove_one_head fd l : remove_one fd (fd :: l) = l.
Proof. simpl. by rewrite decide_True. Qed.
End fds.

(** The bytes the program has put on its standard output, and into the console
    log, in order. *)
Fixpoint stdout_bytes (tr : list event) : list byte :=
  match tr with
  | [] => []
  | EvPutchar c :: tr' => stdout_bytes tr' ++ [c]
  | _ :: tr' => stdout_bytes tr'
  end.
Fixpoint log_bytes (tr : list event) : list byte :=
  match tr with
  | [] => []
  | EvLogPutc c :: tr' => log_bytes tr' ++ [c]
  | _ :: tr' => log_bytes tr'
  end.

(** A fresh block is new, zeroed, and leaves the other blocks alone. *)
Lemma alloc_block_spec l h :
  exists b, alloc_block l h = Ok (Ptr b 0) (set_heap (insert b l) h) /\ heap h !! b = None.
Proof.
  exists (fresh (dom (heap h))). split; [done|].
  apply not_elem_of_dom. apply is_fresh.
Qed.

(** ** Inversion of successful runs *)

Lemma bind_inv {A B} (m : M A) (f : A -> M B) h b h' :
  (m ≫= f) h = Ok b h' -> exists a h1, m h = Ok a h1 /\ f a h1 = Ok b h'.
Proof. unfold mbind, M_bind. destruct (m h); [eauto|done]. Qed.

Lemma ret_inv {A} (a b : A) h h' : (mret a : M A) h = Ok b h' -> a = b /\ h = h'.
Proof. by intros [= -> ->]. Qed.

(** Invert [H : m h = Ok r h'] along the structure of [m]. *)
Ltac minv H :=
  repeat lazymatch type of H with
  | mbind _ _ _ = Ok _ _ =>
      let a := fresh "a" in let h1 := fresh "h" in let H1 := fresh "Hm" in
      apply bind_inv in H as (a & h1 & H1 & H); minv H1
  | mret _ _ = Ok _ _ => apply ret_inv in H as [? ?]; subst
  | perform _ _ = Ok _ _ =>
      let Ha := fresh "Ha" in let Hh := fresh "Hh" in
      unfold perform in H; injection H as Ha Hh; subst
  | fail_ub _ _ = Ok _ _ => discriminate H
  | deref _ ?o _ = Ok _ _ => destruct o eqn:?; simpl in H
  | (match ?x with _ => _ end) _ = Ok _ _ => destruct x eqn:?; simpl in H
  end.

(** Step through a monadic computation on a known prefix. *)
Tactic Notation "mrun" "by" tactic3(t) := erewrite bind_Ok by t; cbv beta iota zeta.
Tactic Notation "mrun" := mrun by (eassumption || reflexivity).

(** Evaluate [open_fds] over the calls of a run whose answers are known. *)
Ltac fd_count :=
  simpl in *; unfold opened; simpl;
  repeat (match goal with H : ?b = _ |- context [if ?b then _ else _] => rewrite H end; simpl);
  rewrite ?decide_True by done.

(** A history is the end of a longer one. *)
Ltac grown_trace := cbn [trace called]; repeat first [done|apply suffix_cons_r].

(** ** A concrete host, for witnesses

    Every call succeeds; descriptors are handed out from 3 upwards by history
    length; a register read returns the registers written just before. *)

(** The last value written into a register of an HVF vCPU since it last ran. *)
Fixpoint x64_written (tr : list event) (c : Z) (r : hv_x64_reg) : option Z :=
  match tr with
  | [] => None
  | EvHvWriteRegister c' r' x :: tr => if decide (c' = c /\ r' = r) then Some x else x64_written tr c r
  | EvHvVcpuRun c' :: tr => if decide (c' = c) then None else x64_written tr c r
  | _ :: tr => x64_written tr c r
  end.
Fixpoint segment_written (tr : list event) (c : Z) (s : hv_x64_segment) : option hv_segment :=
  match tr with
  | [] => None
  | EvHvWriteSegment c' s' g :: tr => if decide (c' = c /\ s' = s) then Some g else segment_written tr c s
  | EvHvVcpuRun c' :: tr => if decide (c' = c) then None else segment_written tr c s
  | _ :: tr => segment_written tr c s
  end.
Fixpoint arm_written (tr : list event) (c : Z) (r : hv_arm_reg) : option Z :=
  match tr with
  | [] => None
  | EvHvSetReg c' r' x :: tr => if decide (c' = c /\ r' = r) then Some x else arm_written tr c r
  | EvHvVcpuRun c' :: tr => if decide (c' = c) then None else arm_written tr c r
  | _ :: tr => arm_written tr c r
  end.

Definition zero_kregs : kvm_regs := mk_kvm_regs 0 0 0 0 0 0 0 0 0 0 0 0 0 0 0 0 0 0.
Definition zero_ksegment : kvm_segment := mk_kvm_segment 0 0 0 0.
Definition zero_kdtable : kvm_dtable := mk_kvm_dtable 0 0 0.
Definition zero_ksregs : kvm_sregs :=
  mk_kvm_sregs zero_ksegment zero_ksegment zero_ksegment zero_ksegment zero_ksegment
    zero_ksegment zero_ksegment zero_ksegment zero_kdtable zero_kdtable 0 0 0 0 0 0 0 [].

Definition good_env : Env := fun tr e =>
  match e return answer e with
  | EvCalloc _ => true
  | EvMalloc n => Some (replicate (Z.to_nat n) 0)
  | EvStrdup _ => true
  | EvFopen _ _ => true
  | EvFread _ n => replicate (Z.to_nat n) 0
  | EvFstat _ => Some 1048576
  | EvPread _ n _ => (n, replicate (Z.to_nat n) 0)
  | EvRead _ n => (n, replicate (Z.to_nat n) 0)
  | EvMmapRun _ n => Some (replicate (Z.to_nat n) 0)
  | EvKvmRun _ => (0, 0, replicate 128 0, [])
  | EvKvmGetRegs fd =>
      match tr with
      | EvKvmSetRegs fd' r :: _ => if fd =? fd' then (0, r) else (0, zero_kregs)
      | _ => (0, zero_kregs)
      end
  | EvKvmGetSregs fd =>
      match tr with
      | EvKvmSetSregs fd' r :: _ => if fd =? fd' then (0, r) else (0, zero_ksregs)
      | _ => (0, zero_ksregs)
      end
  | EvPutchar _ | EvLogPutc _ | EvLogPuts _ | EvLogFclose | EvFclose _ | EvClose _ | EvSetNonblock _
  | EvMunmapRun _ _ | EvPthreadCancelJoin _ => tt
  | EvVfioCheckExtension _ => 1
  | EvVfioGroupGetStatus _ => (0, 1)
  | EvVfioDeviceGetInfo _ => (0, (7, 5))
  | EvVfioGetRegionInfo _ _ => (0, (7, 256, 0))
  | EvVfioGetIrqInfo _ _ => (0, 1)
  | EvMmapDevice _ n _ => Some (replicate (Z.to_nat n) 0)
  | EvVfioGroupUnsetContainer _ _ | EvMunmapDevice _ _ | EvHvVmDestroy => tt
  | EvHvVmCreate | EvHvVmMap _ _ _ | EvHvVcpusExit _ | EvHvWriteRegister _ _ _ | EvHvWriteSegment _ _ _
  | EvHvSetReg _ _ _ => HV_SUCCESS
  | EvHvConfigCreate | EvHvVcpuDestroy _ => true
  | EvSleep => (false, [0%nat])
  | EvHvVcpuCreate => (HV_SUCCESS, 0)
  | EvHvReadRegister c r => (HV_SUCCESS, default 0 (x64_written tr c r))
  | EvHvReadSegment c s => (HV_SUCCESS, default zero_segment (segment_written tr c s))
  | EvHvGetReg c r => (HV_SUCCESS, default 0 (arm_written tr c r))
  | EvHvVcpuRun _ => (HV_SUCCESS, mk_vcpu_exit HV_EXIT_REASON_UNKNOWN 0 0 0, [])
  | EvOpen _ _ | EvEventfd | EvKvmCreateVm _ | EvKvmCreateVcpu _ _ | EvVfioGroupGetDeviceFd _ _ => 3 + Z.of_nat (length tr)
  | EvWrite _ d | EvPwrite _ d _ => Z.of_nat (length d)
  | EvKvmGetApiVersion _ => 12
  | EvKvmGetVcpuMmapSize _ => 128
  | _ => 0
  end.

Definition empty_host : host := mk_host ∅ [] 0.
