(* ===== verification/Utils.v ===== *)
(** * Alignment macros (include/utils.h)

    The macros are untyped; what they compute depends on the type of the
    alignment argument.  [PAGE_SIZE] is [1U << 12], an [unsigned int], so
    [~(PAGE_SIZE - 1)] is a 32-bit value that is zero-extended when the other
    operand is a [uint64_t].  Call sites that write the alignment as a plain
    [int] constant get a sign-extended mask instead. *)

From S2P Require Import Prelude.

(** [~x] at type [unsigned int], and at type [int] converted to [uint64_t]. *)
Definition not_u32 (x : Z) : Z := u32 (Z.lnot x).
Definition not_int (x : Z) : Z := u64 (Z.lnot x).

Definition PAGE_SHIFT : Z := 12.
Definition PAGE_SIZE : Z := u32 (Z.shiftl 1 PAGE_SHIFT).

(** [ALIGN_UP(x, PAGE_SIZE)] and [ALIGN_DOWN(x, PAGE_SIZE)], [x] a [uint64_t]. *)
Definition PAGE_ALIGN_UP (x : Z) : Z := Z.land (x +64 (PAGE_SIZE - 1)) (not_u32 (PAGE_SIZE - 1)).
Definition PAGE_ALIGN_DOWN (x : Z) : Z := Z.land x (not_u32 (PAGE_SIZE - 1)).

(** [ALIGN_UP(x, a)] and [x & ~m] for an [int] constant. *)
Definition ALIGN_UP_int (x a : Z) : Z := Z.land (x +64 (a - 1)) (not_int (a - 1)).
Definition and_not_int (x m : Z) : Z := Z.land x (not_int m).

(** Clearing the low [n] bits of a [w]-bit mask: the value reduced to [w] bits
    and rounded down to a multiple of [2^n]. *)
Lemma land_high_mask x n w :
  0 <= n <= w -> Z.land x ((- 2 ^ n) mod 2 ^ w) = (x mod 2 ^ w) / 2 ^ n * 2 ^ n.
Proof.
  intros Hn. rewrite <- (Z.land_ones x w) by lia.
  replace ((- 2 ^ n) mod 2 ^ w) with (Z.land (Z.lnot (Z.ones n)) (Z.ones w)).
  - rewrite <- Z.shiftr_div_pow2, <- Z.shiftl_mul_pow2, <- Z.ldiff_ones_r by lia.
    apply Z.bits_inj'. intros i Hi.
    rewrite !Z.land_spec, Z.ldiff_spec, !Z.land_spec, Z.lnot_spec by lia.
    destruct (Z.testbit x i), (Z.testbit (Z.ones n) i), (Z.testbit (Z.ones w) i); done.
  - rewrite Z.land_ones by lia. f_equal.
    rewrite Z.ones_equiv. unfold Z.lnot. lia.
Qed.

Lemma page_mask_u32 : not_u32 (PAGE_SIZE - 1) = (- 2 ^ 12) mod 2 ^ 32.
Proof. reflexivity. Qed.

Lemma PAGE_ALIGN_DOWN_eq x : PAGE_ALIGN_DOWN x = u32 x / 4096 * 4096.
Proof. unfold PAGE_ALIGN_DOWN. rewrite page_mask_u32. by rewrite land_high_mask. Qed.

Lemma PAGE_ALIGN_UP_eq x : PAGE_ALIGN_UP x = u32 (x + 4095) / 4096 * 4096.
Proof.
  unfold PAGE_ALIGN_UP. rewrite page_mask_u32, land_high_mask by lia.
  change (2 ^ 12) with 4096. change (PAGE_SIZE - 1) with 4095. f_equal. f_equal.
  change (2 ^ 32) with 4294967296. ulia.
Qed.

Lemma ALIGN_UP_64K_eq x : ALIGN_UP_int x 65536 = u64 (x + 65535) / 65536 * 65536.
Proof.
  unfold ALIGN_UP_int. change (not_int (65536 - 1)) with ((- 2 ^ 16) mod 2 ^ 64).
  rewrite land_high_mask by lia. change (2 ^ 16) with 65536.
  change (2 ^ 64) with 18446744073709551616. ulia.
Qed.

Lemma and_not_fff_eq x : is_u64 x -> and_not_int x 4095 = x / 4096 * 4096.
Proof.
  intros Hx. unfold and_not_int. change (not_int 4095) with ((- 2 ^ 12) mod 2 ^ 64).
  rewrite land_high_mask by lia. change (2 ^ 64) with 18446744073709551616.
  by rewrite (Z.mod_small x) by apply Hx.
Qed.

(** [PAGE_ALIGN_DOWN] rounds a 64-bit address down to its page exactly when
    the address is below 4 GiB: the mask built from [1U << 12] is 32 bits wide,
    so every higher address loses its upper half. *)
Theorem PAGE_ALIGN_DOWN_spec x :
  is_u64 x -> (PAGE_ALIGN_DOWN x = x / 4096 * 4096 <-> x < 4294967296).
Proof.
  intros Hx. rewrite PAGE_ALIGN_DOWN_eq. split.
  - intros Heq. pose proof (u32_range x). ulia.
  - intros Hlt. rewrite u32_small; [done|ulia].
Qed.

Lemma PAGE_ALIGN_DOWN_spec_witness :
  is_u64 4294971393 /\ (PAGE_ALIGN_DOWN 4294971393 = 4294971393 / 4096 * 4096 <-> 4294971393 < 4294967296).
Proof. split; [split; lia|]. apply PAGE_ALIGN_DOWN_spec. split; lia. Defined.

(** [PAGE_ALIGN_UP] returns the least page multiple not below [size] while the
    rounding stays below 4 GiB. *)
Theorem PAGE_ALIGN_UP_spec x :
  0 <= x -> x + 4095 < 4294967296 ->
  x <= PAGE_ALIGN_UP x < x + 4096 /\ PAGE_ALIGN_UP x mod 4096 = 0.
Proof.
  intros H0 H1. rewrite PAGE_ALIGN_UP_eq. rewrite u32_small by ulia.
  split; [ulia|]. by rewrite Z.mod_mul.
Qed.
