(* ===== verification/CString.v ===== *)
(** * C strings: scanning and printing numbers

    What the program uses of [sscanf], [atoi], [strtoull] and [snprintf]: the
    conversions [%x], [%d], [%lu], [%c] and their inverses.  A scanned number
    that does not fit 64 bits saturates, as [strtoul] and [strtol] do; the
    caller's narrower variable then truncates it. *)

From Stdlib Require Import Ascii.
From S2P Require Import Prelude.

Definition char_code (c : ascii) : Z := Z.of_N (N_of_ascii c).
Definition is_space (c : ascii) : bool :=
  let n := char_code c in (n =? 32) || ((9 <=? n) && (n <=? 13)).

(** The value of a digit in base 10 or 16. *)
Definition digit_val (base : Z) (c : ascii) : option Z :=
  let n := char_code c in
  if (48 <=? n) && (n <=? 57) then Some (n - 48)
  else if (base =? 16) && (97 <=? n) && (n <=? 102) then Some (n - 87)
  else if (base =? 16) && (65 <=? n) && (n <=? 70) then Some (n - 55)
  else None.

Fixpoint skip_spaces (s : string) : string :=
  match s with
  | String c s' => if is_space c then skip_spaces s' else s
  | EmptyString => s
  end.

(** The longest prefix of digits: its value on top of [acc], whether there was
    any, and the rest. *)
Fixpoint scan_digits (base acc : Z) (any : bool) (s : string) : Z * bool * string :=
  match s with
  | EmptyString => (acc, any, s)
  | String c s' =>
      match digit_val base c with
      | Some d => scan_digits base (acc * base + d) true s'
      | None => (acc, any, s)
      end
  end.

Definition scan_sign (s : string) : bool * string :=
  match s with
  | String "-" s' => (true, s')
  | String "+" s' => (false, s')
  | _ => (false, s)
  end.

(** The optional [0x] of base 16. *)
Definition skip_0x (base : Z) (s : string) : string :=
  match s with
  | String "0" (String "x" s') | String "0" (String "X" s') => if base =? 16 then s' else s
  | _ => s
  end.

(** One numeric conversion of [sscanf]: sign, magnitude, rest; [None] on a
    matching failure. *)
Definition scan_num (base : Z) (s : string) : option (bool * Z * string) :=
  let '(neg, s) := scan_sign (skip_spaces s) in
  let '(n, any, rest) := scan_digits base 0 false (skip_0x base s) in
  if any : bool then Some (neg, n, rest) else None.

(** Saturation of [strtoul] and [strtol] at 64 bits. *)
Definition sat_unsigned (neg : bool) (n : Z) : Z :=
  if n <? 18446744073709551616 then u64 (if neg then - n else n) else 18446744073709551615.
Definition sat_signed (neg : bool) (n : Z) : Z :=
  if neg then Z.max (- n) (-9223372036854775808) else Z.min n 9223372036854775807.

(** [%x] and [%d] into an [int], [%lu] into a [uint64_t]. *)
Definition scan_x (s : string) : option (Z * string) :=
  '(neg, n, rest) ← scan_num 16 s; Some (i32 (sat_unsigned neg n), rest).
Definition scan_d (s : string) : option (Z * string) :=
  '(neg, n, rest) ← scan_num 10 s; Some (i32 (sat_signed neg n), rest).
Definition scan_lu (s : string) : option (Z * string) :=
  '(neg, n, rest) ← scan_num 10 s; Some (sat_unsigned neg n, rest).
Definition scan_c (s : string) : option (ascii * string) :=
  match s with String c s' => Some (c, s') | EmptyString => None end.
(** A literal character of the format. *)
Definition scan_lit (c : ascii) (s : string) : option string :=
  match s with
  | String c' s' => if Ascii.eqb c c' then Some s' else None
  | EmptyString => None
  end.

(** [atoi], and [strtoull(s, NULL, 16)]: 0 when there is no number.  (After a
    lone [0x] the number is the [0].) *)
Definition atoi (s : string) : Z :=
  match scan_num 10 s with Some (neg, n, _) => i32 (sat_signed neg n) | None => 0 end.
Definition strtoull16 (s : string) : Z :=
  match scan_num 16 s with Some (neg, n, _) => sat_unsigned neg n | None => 0 end.

(** ** Printing *)

Definition digit_char (d : Z) : ascii :=
  ascii_of_N (Z.to_N (if d <? 10 then 48 + d else 87 + d)).

(** The digits of [n], least significant first prepended to [s]; at least one
    digit, at most [fuel]. *)
Fixpoint print_digits (fuel : nat) (base n : Z) (s : string) : string :=
  match fuel with
  | 0%nat => s
  | S fuel =>
      let s := String (digit_char (n mod base)) s in
      if n <? base then s else print_digits fuel base (n / base) s
  end.

(** [%0<w>x] of an [int], [%d] of an [int]: 32-bit values have at most 8 and 10
    digits. *)
Definition pad0 (w : nat) (s : string) : string :=
  Nat.iter (w - String.length s) (String "0"%char) s.
Definition print_x (w : nat) (n : Z) : string := pad0 w (print_digits 8 16 (u32 n) "").
Definition print_d (n : Z) : string :=
  if n <? 0 then String "-"%char (print_digits 10 10 (- n) "") else print_digits 10 10 n "".

(** ** Scanning what was printed *)

Lemma digit_val_char base d :
  base = 10 \/ base = 16 -> 0 <= d < base -> digit_val base (digit_char d) = Some d.
Proof.
  intros Hb Hd.
  assert (d = 0 \/ d = 1 \/ d = 2 \/ d = 3 \/ d = 4 \/ d = 5 \/ d = 6 \/ d = 7 \/ d = 8 \/ d = 9 \/
    (base = 16 /\ (d = 10 \/ d = 11 \/ d = 12 \/ d = 13 \/ d = 14 \/ d = 15))) as Hc by lia.
  destruct Hb as [-> | ->]; repeat destruct Hc as [-> | Hc]; try reflexivity;
    destruct Hc as [? Hc]; try done; repeat destruct Hc as [-> | Hc]; try reflexivity; by rewrite Hc.
Qed.

(** [stops base s]: [s] continues with neither a digit nor the [x] of a prefix. *)
Definition stops (base : Z) (s : string) : Prop :=
  match s with
  | String c _ => digit_val base c = None /\ c <> "x"%char /\ c <> "X"%char
  | EmptyString => True
  end.

Lemma scan_digits_stop base acc any s : stops base s -> scan_digits base acc any s = (acc, any, s).
Proof. destruct s as [|c s]; [done|]. simpl. by intros [-> _]. Qed.

Lemma append_cons c s r : String c s +:+ r = String c (s +:+ r).
Proof. done. Qed.
Lemma append_nil r : "" +:+ r = r.
Proof. done. Qed.

(** [numeral base n t]: the characters of [t] are digits, and denote [n]. *)
Inductive numeral (base : Z) : Z -> string -> Prop :=
| numeral_one d c : digit_val base c = Some d -> numeral base d (String c "")
| numeral_cons d c n t :
    digit_val base c = Some d -> numeral base n t ->
    numeral base (d * base ^ Z.of_nat (String.length t) + n) (String c t).

Lemma numeral_scan base n t :
  numeral base n t -> forall acc any rest,
  scan_digits base acc any (t +:+ rest) = scan_digits base (acc * base ^ Z.of_nat (String.length t) + n) true rest.
Proof.
  induction 1 as [d c Hd|d c n t Hd Ht IH]; intros acc any rest;
    rewrite append_cons; cbn [scan_digits String.length]; rewrite Hd.
  - by rewrite append_nil, Z.pow_1_r.
  - rewrite IH, Nat2Z.inj_succ, Z.pow_succ_r by lia. f_equal. lia.
Qed.

(** The printed digits are the numeral of what they print. *)
Lemma print_numeral fuel base n s m :
  base = 10 \/ base = 16 -> 0 <= n < base ^ Z.of_nat fuel -> (0 < fuel)%nat ->
  (s = ""%string /\ m = 0 \/ numeral base m s) ->
  numeral base (n * base ^ Z.of_nat (String.length s) + m) (print_digits fuel base n s).
Proof.
  intros Hb. revert n s m. induction fuel as [|fuel IH]; intros n s m Hn Hf Hs; [lia|].
  assert (forall d, 0 <= d < base ->
    numeral base (d * base ^ Z.of_nat (String.length s) + m) (String (digit_char d) s)) as Hcons.
  { intros d Hd. destruct Hs as [[-> ->]|Hs].
    - simpl. rewrite Z.mul_1_r, Z.add_0_r. constructor. by apply digit_val_char.
    - constructor; [by apply digit_val_char|done]. }
  cbn [print_digits]. destruct (n <? base) eqn:Hlt; bool_prop.
  - rewrite Z.mod_small by lia. apply Hcons. lia.
  - rewrite Nat2Z.inj_succ, Z.pow_succ_r in Hn by lia.
    assert (0 <= n / base < base ^ Z.of_nat fuel) as Hq
      by (split; [apply Z.div_pos; lia|apply Z.div_lt_upper_bound; lia]).
    assert (0 < fuel)%nat as Hfuel.
    { destruct fuel; [|lia]. simpl in Hq. assert (1 <= n / base) by (apply Z.div_le_lower_bound; lia). lia. }
    pose proof (Z.mod_pos_bound n base ltac:(lia)) as Hm.
    specialize (IH (n / base) (String (digit_char (n mod base)) s) _ Hq Hfuel (or_intror (Hcons _ Hm))).
    cbn [String.length] in IH. rewrite Nat2Z.inj_succ, Z.pow_succ_r in IH by lia.
    replace (n * base ^ Z.of_nat (String.length s) + m) with
      (n / base * (base * base ^ Z.of_nat (String.length s)) + (n mod base * base ^ Z.of_nat (String.length s) + m));
      [exact IH|].
    pose proof (Z.div_mod n base ltac:(lia)). nia.
Qed.

Lemma pad0_numeral base w n t : numeral base n t -> numeral base n (pad0 w t).
Proof.
  unfold pad0. generalize (w - String.length t)%nat as k. intros k Ht.
  induction k as [|k IH]; [done|]. rewrite Nat.iter_succ.
  change n with (0 * base ^ Z.of_nat (String.length (Nat.iter k (String "0") t)) + n). by constructor.
Qed.

(** A digit is neither a space, nor a sign, nor the second letter of [0x]. *)
Lemma digit_plain base c d :
  digit_val base c = Some d ->
  is_space c = false /\ c <> "-"%char /\ c <> "+"%char /\ c <> "x"%char /\ c <> "X"%char.
Proof.
  unfold digit_val, is_space, char_code. intros H.
  destruct c as [b0 b1 b2 b3 b4 b5 b6 b7].
  destruct (base =? 16), b0, b1, b2, b3, b4, b5, b6, b7; try discriminate H; split_and!; done.
Qed.

Lemma numeral_head base n t :
  numeral base n t -> exists c t', t = String c t' /\ (exists d, digit_val base c = Some d) /\
    (t' = ""%string \/ exists c' d' t'', t' = String c' t'' /\ digit_val base c' = Some d').
Proof.
  intros [d c Hd|d c n' t' Hd [d' c' Hd'|d' c' n'' t'' Hd' _]]; eauto 15.
Qed.

Lemma scan_num_numeral base n t rest :
  numeral base n t -> stops base rest -> scan_num base (t +:+ rest) = Some (false, n, rest).
Proof.
  intros Ht Hrest. pose proof (numeral_scan base n t Ht 0 false rest) as Hscan.
  rewrite Z.mul_0_l, Z.add_0_l, (scan_digits_stop base n true rest Hrest) in Hscan.
  destruct (numeral_head base n t Ht) as (c & t' & -> & [d Hd] & Ht').
  destruct (digit_plain base c d Hd) as (Hsp & Hm & Hp & _ & _).
  assert (skip_0x base (String c t' +:+ rest) = String c t' +:+ rest) as H0x.
  { assert (match t' +:+ rest with String c' _ => c' <> "x"%char /\ c' <> "X"%char | _ => True end) as Hx.
    { destruct Ht' as [->|(c' & d' & t'' & -> & Hd')]; rewrite ?append_nil, ?append_cons.
      - destruct rest; [done|]. apply Hrest.
      - destruct (digit_plain base c' d' Hd') as (_&_&_&?&?). done. }
    clear -Hx. rewrite append_cons. unfold skip_0x. destruct (t' +:+ rest) as [|c' s]; [by repeat case_match|].
    destruct Hx. repeat (case_match; try done); congruence. }
  unfold scan_num. rewrite append_cons in *. cbn [skip_spaces]. rewrite Hsp.
  replace (scan_sign (String c (t' +:+ rest))) with (false, String c (t' +:+ rest)).
  - by rewrite H0x, Hscan.
  - unfold scan_sign. repeat (case_match; try done); congruence.
Qed.

Lemma i32_small n : 0 <= n < 2147483648 -> i32 n = n.
Proof. intros. unfold i32. rewrite u32_small by ulia. by rewrite (proj2 (Z.ltb_lt _ _)) by lia. Qed.

(** The conversions, on canonical numbers followed by something else. *)
Lemma scan_x_print w n rest :
  0 <= n < 2147483648 -> stops 16 rest -> scan_x (print_x w n +:+ rest) = Some (n, rest).
Proof.
  intros Hn Hr. unfold scan_x, print_x.
  assert (numeral 16 n (pad0 w (print_digits 8 16 (u32 n) ""))) as Hnum.
  { apply pad0_numeral. rewrite u32_small by ulia.
    rewrite <- (Z.add_0_r n), <- (Z.mul_1_r n) at 1.
    apply (print_numeral 8 16 n "" 0); [by right|simpl; lia|lia|by left]. }
  rewrite (scan_num_numeral _ _ _ _ Hnum Hr). cbn [mbind option_bind]. unfold sat_unsigned.
  rewrite (proj2 (Z.ltb_lt n 18446744073709551616)) by lia. cbn iota. do 2 f_equal.
  rewrite u64_small by ulia. by apply i32_small.
Qed.

Lemma scan_d_print n rest :
  0 <= n < 2147483648 -> stops 10 rest -> scan_d (print_d n +:+ rest) = Some (n, rest).
Proof.
  intros Hn Hr. unfold scan_d, print_d. rewrite (proj2 (Z.ltb_ge _ _)) by lia.
  assert (numeral 10 n (print_digits 10 10 n "")) as Hnum.
  { rewrite <- (Z.add_0_r n), <- (Z.mul_1_r n) at 1.
    apply (print_numeral 10 10 n "" 0); [by left|simpl; lia|lia|by left]. }
  rewrite (scan_num_numeral _ _ _ _ Hnum Hr). cbn [mbind option_bind]. unfold sat_signed.
  rewrite Z.min_l by lia. do 2 f_equal. by apply i32_small.
Qed.
