(* ===== verification/Hypervisor.v ===== *)
(** * The hypervisor abstraction layer (src/hypervisor.c)

    The opaque VM and vCPU handles, the table of backend operations
    [struct hv_ops], backend selection [hv_init], and the wrappers every other
    component calls.  Backends are values of [hv_ops]; an entry that the C
    table leaves NULL is [None]. *)

From S2P Require Import Prelude HvTypes Host.

(** The [void *data] of the handles: which backend's private data it is. *)
Inductive hv_vm_data :=
| VmDataNull
| KvmVmData (vcpu_mmap_size : Z)
| HvfVmData (mem_size : Z) (vm_created : bool).

Record hv_vm := mk_hv_vm { hvm_fd : Z; hvm_data : hv_vm_data }.

Inductive hv_vcpu_data :=
| VcpuDataNull
| KvmVcpuData (run : list byte)          (* the mmap'ed struct kvm_run *)
| HvfVcpuData (vcpu : Z) (run : ptr) (vcpu_created : bool)
| HvfArmVcpuData (vcpu : Z) (exit_info : ptr) (exit : hv_vcpu_exit_t)  (* what exit_info points to *)
    (vcpu_created : bool).

Record hv_vcpu := mk_hv_vcpu {
  hvc_fd : Z; hvc_vm : hv_vm; hvc_index : Z; hvc_data : hv_vcpu_data
}.

Definition set_vcpu_data (d : hv_vcpu_data) (v : hv_vcpu) : hv_vcpu :=
  mk_hv_vcpu (hvc_fd v) (hvc_vm v) (hvc_index v) d.

(** [struct hv_ops].  [init]/[cleanup] run over the backend's file-scope state
    (KVM's [kvm_fd]); [run] and [get_exit] may change the handle's data. *)
Record hv_ops := mk_hv_ops {
  op_init : option (Z -> M (Z * Z));                      (* returns (ret, kvm_fd) *)
  op_cleanup : option (Z -> M Z);
  op_create_vm : option (Z -> M (option hv_vm));
  op_destroy_vm : option (option hv_vm -> M unit);
  op_vm_get_fd : option (hv_vm -> Z);
  op_create_vcpu : option (hv_vm -> Z -> M (option hv_vcpu));
  op_destroy_vcpu : option (option hv_vcpu -> M unit);
  op_vcpu_get_fd : option (hv_vcpu -> Z);
  op_vcpu_exit : option (hv_vcpu -> M Z);
  op_map_mem : option (hv_vm -> hv_memory_slot -> M Z);
  op_unmap_mem : option (hv_vm -> Z -> M Z);
  op_run : option (hv_vcpu -> M (Z * hv_vcpu));
  op_get_exit : option (hv_vcpu -> M (Z * hv_exit * hv_vcpu));
  op_get_regs : option (hv_vcpu -> hv_regs -> M (Z * hv_regs));
  op_set_regs : option (hv_vcpu -> hv_regs -> M Z);
  op_get_sregs : option (hv_vcpu -> hv_sregs -> M (Z * hv_sregs));
  op_set_sregs : option (hv_vcpu -> hv_sregs -> M Z);
  op_irq_line : option (hv_vm -> Z -> Z -> M Z)
}.

(** The file-scope state: [g_hv_ops] and KVM's [kvm_fd]. *)
Record hv_state := mk_hv_state { g_hv_ops : option hv_ops; kvm_fd : Z }.

Definition hv_initial : hv_state := mk_hv_state None (-1).

(** The platform macros the build defines. *)
Inductive platform := LinuxX86 | MacIntel | MacArm.

Section hypervisor.
Context (plat : platform).
(** The three tables [hypervisor.c] links against. *)
Context (kvm_ops hvf_ops hvf_arm64_ops : hv_ops).

Definition hv_auto_type : hv_type :=
  match plat with
  | LinuxX86 => HV_TYPE_KVM
  | MacArm => HV_TYPE_HVF_ARM64
  | MacIntel => HV_TYPE_HVF_X86_64
  end.

Definition hv_select (type : hv_type) : option hv_ops :=
  match type with
  | HV_TYPE_KVM => Some kvm_ops
  | HV_TYPE_HVF_X86_64 => Some hvf_ops
  | HV_TYPE_HVF_ARM64 => Some hvf_arm64_ops
  | HV_TYPE_HVF => match plat with MacArm => Some hvf_arm64_ops | _ => Some hvf_ops end
  | HV_TYPE_AUTO => None        (* the switch's default: unknown type *)
  end.

Definition hv_init (type : hv_type) (s : hv_state) : M (Z * hv_state) :=
  let type := match type with HV_TYPE_AUTO => hv_auto_type | t => t end in
  match hv_select type with
  | None => mret (-1, s)
  | Some ops =>
      match op_init ops with
      | None => mret (0, mk_hv_state (Some ops) (kvm_fd s))
      | Some init =>
          '(ret, fd) ← init (kvm_fd s);
          if ret <? 0 then mret (ret, mk_hv_state None fd)
          else mret (0, mk_hv_state (Some ops) fd)
      end
  end.
End hypervisor.

Definition hv_cleanup (s : hv_state) : M hv_state :=
  match g_hv_ops s with
  | Some ops =>
      match op_cleanup ops with
      | Some f => fd ← f (kvm_fd s); mret (mk_hv_state None fd)
      | None => mret (mk_hv_state None (kvm_fd s))
      end
  | None => mret (mk_hv_state None (kvm_fd s))
  end.

Definition hv_get_ops (s : hv_state) : option hv_ops := g_hv_ops s.

Section wrappers.
Context (s : hv_state).

(** [if (!g_hv_ops || !g_hv_ops->op) return dflt; return g_hv_ops->op(...)] *)
Definition via {F R} (op : hv_ops -> option F) (dflt : R) (k : F -> R) : R :=
  match g_hv_ops s with
  | None => dflt
  | Some ops => match op ops with None => dflt | Some f => k f end
  end.

Definition hv_create_vm : M (option hv_vm) :=
  via op_create_vm (mret None) (fun f => f (kvm_fd s)).
Definition hv_destroy_vm (vm : option hv_vm) : M unit :=
  via op_destroy_vm (mret tt) (fun f => f vm).
Definition hv_vm_get_fd (vm : hv_vm) : Z := via op_vm_get_fd (-1) (fun f => f vm).
Definition hv_create_vcpu (vm : hv_vm) (index : Z) : M (option hv_vcpu) :=
  via op_create_vcpu (mret None) (fun f => f vm index).
Definition hv_destroy_vcpu (vcpu : option hv_vcpu) : M unit :=
  via op_destroy_vcpu (mret tt) (fun f => f vcpu).
Definition hv_vcpu_get_fd (vcpu : hv_vcpu) : Z := via op_vcpu_get_fd (-1) (fun f => f vcpu).

(** A missing [vcpu_exit] entry is a no-op, not an error. *)
Definition hv_vcpu_exit (vcpu : hv_vcpu) : M Z :=
  match g_hv_ops s with
  | None => mret (-1)
  | Some ops => match op_vcpu_exit ops with Some f => f vcpu | None => mret 0 end
  end.

Definition hv_map_mem (vm : hv_vm) (slot gpa : Z) (hva : ptr) (size : Z) : M Z :=
  via op_map_mem (mret (-1)) (fun f => f vm (mk_hv_memory_slot slot gpa size hva 0)).
Definition hv_unmap_mem (vm : hv_vm) (slot : Z) : M Z :=
  via op_unmap_mem (mret (-1)) (fun f => f vm slot).
Definition hv_run (vcpu : hv_vcpu) : M (Z * hv_vcpu) :=
  via op_run (mret (-1, vcpu)) (fun f => f vcpu).
(** The out-parameter [exit] is only written when a backend is called. *)
Definition hv_get_exit (vcpu : hv_vcpu) (exit : hv_exit) : M (Z * hv_exit * hv_vcpu) :=
  via op_get_exit (mret (-1, exit, vcpu)) (fun f => f vcpu).
Definition hv_get_regs (vcpu : hv_vcpu) (regs : hv_regs) : M (Z * hv_regs) :=
  via op_get_regs (mret (-1, regs)) (fun f => f vcpu regs).
Definition hv_set_regs (vcpu : hv_vcpu) (regs : hv_regs) : M Z :=
  via op_set_regs (mret (-1)) (fun f => f vcpu regs).
Definition hv_get_sregs (vcpu : hv_vcpu) (sregs : hv_sregs) : M (Z * hv_sregs) :=
  via op_get_sregs (mret (-1, sregs)) (fun f => f vcpu sregs).
Definition hv_set_sregs (vcpu : hv_vcpu) (sregs : hv_sregs) : M Z :=
  via op_set_sregs (mret (-1)) (fun f => f vcpu sregs).
Definition hv_irq_line (vm : hv_vm) (irq level : Z) : M Z :=
  via op_irq_line (mret (-1)) (fun f => f vm irq level).
End wrappers.

(** ** What the layer promises its clients

    The VM code relies on [HvMapLaws]: mapping and unmapping always answer 0
    or -1 and leave the VMM's own memory alone.  The vCPU loop relies on
    [HvRunLaws]: running answers 0, or -1 for a reason other than a signal, and
    the guest can change the content of host memory but not its layout. *)

Class HvMapLaws (s : hv_state) : Prop := {
  hvl_map vm slot gpa hva size h :
    exists ret h', hv_map_mem s vm slot gpa hva size h = Ok ret h' /\
      (ret = 0 \/ ret = -1) /\ heap h' = heap h;
  hvl_unmap vm slot h :
    exists ret h', hv_unmap_mem s vm slot h = Ok ret h' /\
      (ret = 0 \/ ret = -1) /\ heap h' = heap h
}.

Class HvRunLaws (s : hv_state) : Prop := {
  hvl_run vcpu h :
    exists ret vcpu' h', hv_run s vcpu h = Ok (ret, vcpu') h' /\
      (ret = 0 \/ ret = -1 /\ errno h' <> EINTR) /\ same_layout h h'
}.

(** Asking a running vCPU to leave the guest, and giving up a VM, always return
    and leave the VMM's memory alone. *)
Class HvExitLaws (s : hv_state) : Prop := {
  hvl_exit vcpu h : exists ret h', hv_vcpu_exit s vcpu h = Ok ret h' /\ heap h' = heap h
}.
Class HvDestroyLaws (s : hv_state) : Prop := {
  hvl_destroy vm h : exists h', hv_destroy_vm s vm h = Ok tt h' /\ heap h' = heap h
}.

(** What a backend needs of a vCPU to dispose of it: its creation gives it, its runs
    and exits keep it, and disposal then returns. *)
Class HvDisposeLaws (s : hv_state) := {
  hvd_live : hv_vcpu -> Prop;
  hvd_create vm i h v h' : hv_create_vcpu s vm i h = Ok (Some v) h' -> hvd_live v;
  hvd_run v h r v' h' : hv_run s v h = Ok (r, v') h' -> hvd_live v -> hvd_live v';
  hvd_get_exit v e h r e' v' h' : hv_get_exit s v e h = Ok (r, e', v') h' -> hvd_live v -> hvd_live v';
  hvd_destroy o h : (forall v, o = Some v -> hvd_live v) ->
    exists h', hv_destroy_vcpu s o h = Ok tt h' /\ heap h' = heap h
}.

(** ** Properties *)

(** What a client sees of a layer without a backend. *)
Definition all_wrappers_fail (s : hv_state) : Prop :=
  forall vm vcpu index slot gpa hva size exit regs sregs irq level h,
  hv_create_vm s h = Ok None h /\ hv_create_vcpu s vm index h = Ok None h /\
  hv_map_mem s vm slot gpa hva size h = Ok (-1) h /\ hv_unmap_mem s vm slot h = Ok (-1) h /\
  hv_run s vcpu h = Ok (-1, vcpu) h /\ hv_get_exit s vcpu exit h = Ok (-1, exit, vcpu) h /\
  hv_get_regs s vcpu regs h = Ok (-1, regs) h /\ hv_set_regs s vcpu regs h = Ok (-1) h /\
  hv_get_sregs s vcpu sregs h = Ok (-1, sregs) h /\ hv_set_sregs s vcpu sregs h = Ok (-1) h /\
  hv_vcpu_exit s vcpu h = Ok (-1) h /\ hv_irq_line s vm irq level h = Ok (-1) h /\
  hv_vm_get_fd s vm = -1 /\ hv_vcpu_get_fd s vcpu = -1.

Lemma no_backend_fails s : g_hv_ops s = None -> all_wrappers_fail s.
Proof.
  intros Hn vm vcpu index slot gpa hva size exit regs sregs irq level h.
  unfold hv_create_vm, hv_create_vcpu, hv_map_mem, hv_unmap_mem, hv_run,
    hv_get_exit, hv_get_regs, hv_set_regs, hv_get_sregs, hv_set_sregs, hv_vcpu_exit,
    hv_irq_line, hv_vm_get_fd, hv_vcpu_get_fd, via. rewrite Hn. by split_and!.
Qed.

(** The table the platform's build is meant to use for each request. *)
Definition hv_table (plat : platform) (kvm_ops hvf_ops hvf_arm64_ops : hv_ops)
    (type : hv_type) : hv_ops :=
  match type, plat with
  | HV_TYPE_KVM, _ | HV_TYPE_AUTO, LinuxX86 => kvm_ops
  | HV_TYPE_HVF_ARM64, _ | HV_TYPE_AUTO, MacArm | HV_TYPE_HVF, MacArm => hvf_arm64_ops
  | _, _ => hvf_ops
  end.

(** Backend selection.  On every platform and for every requested type,
    [hv_init] either returns 0 with the requested (or auto-detected) backend's
    table installed, or a negative code with no table, after which every
    wrapper of the layer reports failure and leaves the host untouched. *)
Theorem hv_init_spec plat kvm_ops hvf_ops hvf_arm64_ops type s h ret s' h' :
  hv_init plat kvm_ops hvf_ops hvf_arm64_ops type s h = Ok (ret, s') h' ->
  ret = 0 /\ g_hv_ops s' = Some (hv_table plat kvm_ops hvf_ops hvf_arm64_ops type) \/
  ret < 0 /\ all_wrappers_fail s'.
Proof.
  assert (hv_select plat kvm_ops hvf_ops hvf_arm64_ops
            (match type with HV_TYPE_AUTO => hv_auto_type plat | t => t end)
          = Some (hv_table plat kvm_ops hvf_ops hvf_arm64_ops type)) as Hsel
    by (by destruct type, plat).
  unfold hv_init. rewrite Hsel. destruct (op_init _) as [init|].
  - unfold mbind, M_bind. destruct (init (kvm_fd s) h) as [[r fd] h1|]; [|done].
    destruct (r <? 0) eqn:Hr; intros [= <- <- <-]; bool_prop; [right|by left].
    split; [done|]. by apply no_backend_fails.
  - intros [= <- <- <-]. by left.
Qed.

(** A table whose initialiser fails, for the witness. *)
Definition failing_ops : hv_ops :=
  mk_hv_ops (Some (fun fd => mret (-1, fd))) None None None None None None None None
    None None None None None None None None None.

Lemma hv_init_spec_witness :
  all_wrappers_fail (mk_hv_state None (-1)).
Proof.
  pose proof (hv_init_spec LinuxX86 failing_ops failing_ops failing_ops HV_TYPE_AUTO hv_initial
    (mk_host ∅ [] 0) (-1) (mk_hv_state None (-1)) (mk_host ∅ [] 0) eq_refl) as [[H _]|[_ H]].
  - discriminate H.
  - exact H.
Defined.
