(* ===== verification/Kvm.v ===== *)
(** * The KVM backend (src/hypervisor/kvm.c)

    Every operation of [kvm_ops], over the ioctls of the environment.  The
    [kvm_run] page shared with the kernel is the byte string the last
    [KVM_RUN] left there; its fields are read at the offsets of the file's own
    [struct kvm_run]. *)

From S2P Require Import Prelude HvTypes Host Hypervisor.

Definition KVM_API_VERSION : Z := 12.

Definition KVM_EXIT_EXCEPTION : Z := 1.
Definition KVM_EXIT_IO : Z := 2.
Definition KVM_EXIT_HLT : Z := 5.
Definition KVM_EXIT_MMIO : Z := 6.
Definition KVM_EXIT_SHUTDOWN : Z := 8.
Definition KVM_EXIT_FAIL_ENTRY : Z := 9.
Definition KVM_EXIT_INTR : Z := 10.
Definition KVM_EXIT_INTERNAL_ERROR : Z := 17.

(** A field of the [kvm_run] page: [n] bytes at offset [off]. *)
Definition page_read (page : list byte) (off n : Z) : M (list byte) :=
  if in_range page off n then mret (slice page (Z.to_nat off) (Z.to_nat n)) else fail_ub OutOfBounds.
Definition page_field (n : Z) (page : list byte) (off : Z) : M Z :=
  l ← page_read page off n; mret (le_dec l).

(** Offsets of the source's [struct kvm_run], whose union starts at 16.  The kernel's
    starts at 32: see [KvmExits.documented]. *)
Definition RUN_exit_reason : Z := 8.
Definition RUN_io_direction : Z := 16.
Definition RUN_io_size : Z := 18.
Definition RUN_io_port : Z := 20.
Definition RUN_io_data_offset : Z := 24.
Definition RUN_mmio_phys_addr : Z := 16.
Definition RUN_mmio_data : Z := 24.
Definition RUN_mmio_len : Z := 32.
Definition RUN_mmio_is_write : Z := 36.
Definition RUN_internal_ndata : Z := 64.

(** The private data behind the opaque pointers. *)
Definition kvm_vm_data (vm : hv_vm) : M Z :=
  match hvm_data vm with
  | KvmVmData n => mret n
  | VmDataNull => fail_ub NullDeref
  | _ => fail_ub BadMember
  end.
Definition kvm_vcpu_run (vcpu : hv_vcpu) : M (list byte) :=
  match hvc_data vcpu with
  | KvmVcpuData run => mret run
  | VcpuDataNull => fail_ub NullDeref
  | _ => fail_ub BadMember
  end.

(** The kernel's update of the mapped page during [KVM_RUN]. *)
Definition kvm_set_run (page : list byte) (vcpu : hv_vcpu) : hv_vcpu :=
  match hvc_data vcpu with
  | KvmVcpuData _ => set_vcpu_data (KvmVcpuData page) vcpu
  | _ => vcpu
  end.

(** [kvm_convert_exit_reason] *)
Definition kvm_convert_exit_reason (kvm_reason : Z) : hv_exit_reason :=
  if kvm_reason =? KVM_EXIT_HLT then HV_EXIT_HLT
  else if kvm_reason =? KVM_EXIT_IO then HV_EXIT_IO
  else if kvm_reason =? KVM_EXIT_MMIO then HV_EXIT_MMIO
  else if kvm_reason =? KVM_EXIT_INTR then HV_EXIT_EXTERNAL
  else if kvm_reason =? KVM_EXIT_FAIL_ENTRY then HV_EXIT_FAIL_ENTRY
  else if kvm_reason =? KVM_EXIT_SHUTDOWN then HV_EXIT_SHUTDOWN
  else if kvm_reason =? KVM_EXIT_INTERNAL_ERROR then HV_EXIT_INTERNAL_ERROR
  else if kvm_reason =? KVM_EXIT_EXCEPTION then HV_EXIT_EXCEPTION
  else HV_EXIT_UNKNOWN.

(** ** Register conversions *)

Definition regs_of_kvm (k : kvm_regs) : hv_regs :=
  mk_hv_regs (k_rax k) (k_rbx k) (k_rcx k) (k_rdx k) (k_rsi k) (k_rdi k) (k_rsp k) (k_rbp k)
    (k_r8 k) (k_r9 k) (k_r10 k) (k_r11 k) (k_r12 k) (k_r13 k) (k_r14 k) (k_r15 k)
    (k_rip k) (k_rflags k).

Definition kvm_of_regs (r : hv_regs) : kvm_regs :=
  mk_kvm_regs (rax r) (rbx r) (rcx r) (rdx r) (rsi r) (rdi r) (rsp r) (rbp r)
    (r8 r) (r9 r) (r10 r) (r11 r) (r12 r) (r13 r) (r14 r) (r15 r) (rip r) (rflags r).

Definition seg_of_kvm (k : kvm_segment) : hv_segment :=
  mk_hv_segment (ksg_selector k) (ksg_base k) (ksg_limit k) (ksg_ar k).
(** The KVM struct's [ar] is a [uint16_t]. *)
Definition kvm_of_seg (s : hv_segment) : kvm_segment :=
  mk_kvm_segment (sg_base s) (sg_limit s) (sg_selector s) (u16 (sg_ar s)).
Definition dt_of_kvm (k : kvm_dtable) : hv_dtable := mk_hv_dtable (kdt_base k) (kdt_limit k) (kdt_ar k).
Definition kvm_of_dt (d : hv_dtable) : kvm_dtable := mk_kvm_dtable (dt_base d) (dt_limit d) (dt_ar d).

#[global] Arguments seg_of_kvm : simpl never.
#[global] Arguments kvm_of_seg : simpl never.
#[global] Arguments dt_of_kvm : simpl never.

(** [kvm_get_sregs] leaves [ldt] and [tr] of the destination as they were;
    [kvm_set_sregs] sends them as zeroes. *)
Definition sregs_of_kvm (old : hv_sregs) (k : kvm_sregs) : hv_sregs :=
  mk_hv_sregs (seg_of_kvm (k_cs k)) (seg_of_kvm (k_ds k)) (seg_of_kvm (k_es k))
    (seg_of_kvm (k_fs k)) (seg_of_kvm (k_gs k)) (seg_of_kvm (k_ss k)) (s_ldt old) (s_tr old)
    (dt_of_kvm (k_gdt k)) (dt_of_kvm (k_idt k))
    (k_cr0 k) (k_cr2 k) (k_cr3 k) (k_cr4 k) (k_cr8 k) (k_efer k) (k_apic_base k).

Definition zero_kvm_segment : kvm_segment := mk_kvm_segment 0 0 0 0.
Definition kvm_of_sregs (s : hv_sregs) : kvm_sregs :=
  mk_kvm_sregs (kvm_of_seg (s_cs s)) (kvm_of_seg (s_ds s)) (kvm_of_seg (s_es s))
    (kvm_of_seg (s_fs s)) (kvm_of_seg (s_gs s)) (kvm_of_seg (s_ss s))
    zero_kvm_segment zero_kvm_segment
    (kvm_of_dt (s_gdt s)) (kvm_of_dt (s_idt s))
    (s_cr0 s) (s_cr2 s) (s_cr3 s) (s_cr4 s) (s_cr8 s) (s_efer s) (s_apic_base s)
    (replicate 16 0).

(** ** Operations *)

Section kvm.
Context {E : Env}.

(** Returns the code and the new [kvm_fd]. *)
Definition kvm_init (_ : Z) : M (Z * Z) :=
  fd ← perform (EvOpen "/dev/kvm" O_RDWR);
  if fd <? 0 then mret (-1, fd)
  else
    api_version ← perform (EvKvmGetApiVersion fd);
    if api_version <? 0 then perform (EvClose fd);; mret (-1, -1)
    else if negb (api_version =? KVM_API_VERSION) then perform (EvClose fd);; mret (-1, -1)
    else mret (0, fd).

Definition kvm_cleanup (kvm_fd : Z) : M Z :=
  if kvm_fd >=? 0 then perform (EvClose kvm_fd);; mret (-1) else mret kvm_fd.

Definition kvm_create_vm (kvm_fd : Z) : M (option hv_vm) :=
  vm_fd ← perform (EvKvmCreateVm kvm_fd);
  if vm_fd <? 0 then mret None
  else
    vm ← perform (EvCalloc 24);
    if negb vm then perform (EvClose vm_fd);; mret None
    else
      data ← perform (EvCalloc 4);
      if negb data then perform (EvClose vm_fd);; mret None
      else
        vcpu_mmap_size ← perform (EvKvmGetVcpuMmapSize kvm_fd);
        if vcpu_mmap_size <=? 0 then perform (EvClose vm_fd);; mret None
        else mret (Some (mk_hv_vm vm_fd (KvmVmData vcpu_mmap_size))).

Definition kvm_destroy_vm (vm : option hv_vm) : M unit :=
  match vm with
  | None => mret tt
  | Some vm => if hvm_fd vm >=? 0 then perform (EvClose (hvm_fd vm)) else mret tt
  end.

Definition kvm_vm_get_fd (vm : hv_vm) : Z := hvm_fd vm.

Definition kvm_create_vcpu (vm : hv_vm) (index : Z) : M (option hv_vcpu) :=
  vcpu_fd ← perform (EvKvmCreateVcpu (hvm_fd vm) index);
  if vcpu_fd <? 0 then mret None
  else
    vcpu ← perform (EvCalloc 40);
    if negb vcpu then perform (EvClose vcpu_fd);; mret None
    else
      data ← perform (EvCalloc 8);
      if negb data then perform (EvClose vcpu_fd);; mret None
      else
        mmap_size ← kvm_vm_data vm;
        run ← perform (EvMmapRun vcpu_fd mmap_size);
        match run : option (list byte) with
        | None => perform (EvClose vcpu_fd);; mret None
        | Some page => mret (Some (mk_hv_vcpu vcpu_fd vm index (KvmVcpuData page)))
        end.

Definition kvm_destroy_vcpu (vcpu : option hv_vcpu) : M unit :=
  match vcpu with
  | None => mret tt
  | Some vcpu =>
      match hvc_data vcpu with
      | VcpuDataNull => mret tt
      | KvmVcpuData _ =>
          mmap_size ← kvm_vm_data (hvc_vm vcpu);
          perform (EvMunmapRun (hvc_fd vcpu) mmap_size)
      | _ => fail_ub BadMember
      end;;
      if hvc_fd vcpu >=? 0 then perform (EvClose (hvc_fd vcpu)) else mret tt
  end.

Definition kvm_vcpu_get_fd (vcpu : hv_vcpu) : Z := hvc_fd vcpu.

Definition kvm_set_region (vm : hv_vm) (r : kvm_userspace_memory_region) : M Z :=
  ret ← perform (EvKvmSetUserMemoryRegion (hvm_fd vm) r);
  mret (if ret <? 0 then -1 else 0).

Definition kvm_map_mem (vm : hv_vm) (slot : hv_memory_slot) : M Z :=
  kvm_set_region vm (mk_kvm_userspace_memory_region (ms_slot slot) (u32 (ms_flags slot))
    (ms_gpa slot) (ms_size slot) (ms_hva slot)).

(** A region of size zero removes the slot. *)
Definition kvm_unmap_mem (vm : hv_vm) (slot : Z) : M Z :=
  kvm_set_region vm (mk_kvm_userspace_memory_region slot 0 0 0 Null).

Definition kvm_run (vcpu : hv_vcpu) : M (Z * hv_vcpu) :=
  '(ret, err, page, ws) ← perform (EvKvmRun (hvc_fd vcpu));
  guest_stores ws;;
  let vcpu := kvm_set_run page vcpu in
  if ret <? 0 then
    set_errno err;;
    if err =? EINTR then mret (0, vcpu) else mret (-1, vcpu)
  else mret (0, vcpu).

Definition kvm_get_exit (vcpu : hv_vcpu) : M (Z * hv_exit * hv_vcpu) :=
  run ← kvm_vcpu_run vcpu;
  exit_reason ← page_field 4 run RUN_exit_reason;
  u ← (if exit_reason =? KVM_EXIT_IO then
         direction ← page_field 2 run RUN_io_direction;
         size ← page_field 2 run RUN_io_size;
         port ← page_field 2 run RUN_io_port;
         data ← (if direction =? 0 then
                   off ← page_field 8 run RUN_io_data_offset;
                   l ← page_read run off size;
                   if size <=? 4 then mret (le_dec l) else fail_ub OutOfBounds
                 else mret 0);
         mret (UIo (mk_hv_io port (u8 size)
                      (if direction =? 0 then HV_IO_IN else HV_IO_OUT) data))
       else if exit_reason =? KVM_EXIT_MMIO then
         phys_addr ← page_field 8 run RUN_mmio_phys_addr;
         len ← page_field 4 run RUN_mmio_len;
         is_write ← page_field 1 run RUN_mmio_is_write;
         data ← (if is_write =? 0 then mret 0
                 else
                   l ← page_read run RUN_mmio_data len;
                   if len <=? 8 then mret (le_dec l) else fail_ub OutOfBounds);
         mret (UMmio (mk_hv_mmio phys_addr (u8 len) is_write data))
       else if exit_reason =? KVM_EXIT_FAIL_ENTRY then
         e ← page_field 8 run 0; mret (UError e)
       else if exit_reason =? KVM_EXIT_INTERNAL_ERROR then
         e ← page_field 4 run RUN_internal_ndata; mret (UError e)
       else mret UZero);
  mret (0, mk_hv_exit (kvm_convert_exit_reason exit_reason) u, vcpu).

Definition kvm_get_regs (vcpu : hv_vcpu) (regs : hv_regs) : M (Z * hv_regs) :=
  '(ret, k) ← perform (EvKvmGetRegs (hvc_fd vcpu));
  if ret <? 0 then mret (-1, regs) else mret (0, regs_of_kvm k).

Definition kvm_set_regs (vcpu : hv_vcpu) (regs : hv_regs) : M Z :=
  ret ← perform (EvKvmSetRegs (hvc_fd vcpu) (kvm_of_regs regs));
  mret (if ret <? 0 then -1 else 0).

Definition kvm_get_sregs (vcpu : hv_vcpu) (sregs : hv_sregs) : M (Z * hv_sregs) :=
  '(ret, k) ← perform (EvKvmGetSregs (hvc_fd vcpu));
  if ret <? 0 then mret (-1, sregs) else mret (0, sregs_of_kvm sregs k).

Definition kvm_set_sregs (vcpu : hv_vcpu) (sregs : hv_sregs) : M Z :=
  ret ← perform (EvKvmSetSregs (hvc_fd vcpu) (kvm_of_sregs sregs));
  mret (if ret <? 0 then -1 else 0).

Definition kvm_irq_line (vm : hv_vm) (irq level : Z) : M Z :=
  ret ← perform (EvKvmIrqLine (hvm_fd vm) (u32 irq) (if level =? 0 then 0 else 1));
  mret (if ret <? 0 then -1 else 0).

Definition kvm_ops : hv_ops :=
  mk_hv_ops (Some kvm_init) (Some kvm_cleanup)
    (Some kvm_create_vm) (Some kvm_destroy_vm) (Some kvm_vm_get_fd)
    (Some kvm_create_vcpu) (Some kvm_destroy_vcpu) (Some kvm_vcpu_get_fd) None
    (Some kvm_map_mem) (Some kvm_unmap_mem)
    (Some kvm_run) (Some kvm_get_exit)
    (Some kvm_get_regs) (Some kvm_set_regs) (Some kvm_get_sregs) (Some kvm_set_sregs)
    (Some kvm_irq_line).
End kvm.

(** ** Properties *)

Section kvm_props.
Context {E : Env}.

(** Descriptor accounting of the constructors: when [kvm_init],
    [kvm_create_vm] or [kvm_create_vcpu] fails at any point, every descriptor it
    opened has been closed again; when it succeeds, exactly one descriptor
    more is open, the one recorded in the handle. *)
Theorem kvm_fd_accounting fd vm index h :
  (forall ret fd' h', kvm_init fd h = Ok (ret, fd') h' ->
     ret = 0 /\ open_fds (trace h') = fd' :: open_fds (trace h) \/
     ret = -1 /\ open_fds (trace h') = open_fds (trace h)) /\
  (forall r h', kvm_create_vm fd h = Ok r h' ->
     match r with
     | Some vm' => open_fds (trace h') = hvm_fd vm' :: open_fds (trace h)
     | None => open_fds (trace h') = open_fds (trace h)
     end) /\
  (forall r h', kvm_create_vcpu vm index h = Ok r h' ->
     match r with
     | Some vcpu => open_fds (trace h') = hvc_fd vcpu :: open_fds (trace h)
     | None => open_fds (trace h') = open_fds (trace h)
     end).
Proof.
  split_and!; intros; [unfold kvm_init in *|unfold kvm_create_vm in *|unfold kvm_create_vcpu, kvm_vm_data in *];
    match goal with H : _ = Ok _ _ |- _ => minv H end; simplify_eq; fd_count; auto.
Qed.

(** What [KVM_GET_REGS]/[KVM_GET_SREGS] promise right after the matching
    setter: the kernel returns the state it was given. *)
Definition kernel_keeps_registers (fd : Z) : Prop :=
  forall tr, (forall r, env_answer (EvKvmSetRegs fd r :: tr) (EvKvmGetRegs fd) = (0, r)) /\
             (forall r, env_answer (EvKvmSetSregs fd r :: tr) (EvKvmGetSregs fd) = (0, r)).

Definition code_segments (s : hv_sregs) : list hv_segment :=
  [s_cs s; s_ds s; s_es s; s_fs s; s_gs s; s_ss s].

Lemma seg_roundtrip g : seg_of_kvm (kvm_of_seg g) = g <-> is_u16 (sg_ar g).
Proof.
  destruct g as [sel base lim ar]. unfold seg_of_kvm, kvm_of_seg. simpl. split.
  - intros [= Har]. rewrite <- Har. apply u16_range.
  - intros Har. by rewrite u16_small.
Qed.

Lemma dt_roundtrip d : dt_of_kvm (kvm_of_dt d) = d.
Proof. by destruct d. Qed.

Lemma sregs_roundtrip old s :
  sregs_of_kvm old (kvm_of_sregs s) = s <->
  Forall (fun g => is_u16 (sg_ar g)) (code_segments s) /\ s_ldt s = s_ldt old /\ s_tr s = s_tr old.
Proof.
  unfold code_segments. rewrite !Forall_cons, Forall_nil, <- !seg_roundtrip.
  destruct s as [cs ds es fs gs ss ldt tr gdt idt c0 c2 c3 c4 c8 ef ap].
  unfold sregs_of_kvm, kvm_of_sregs. simpl. rewrite !dt_roundtrip. split.
  - intros [=]. split_and!; done || congruence.
  - intros ((-> & -> & -> & -> & -> & -> & _) & <- & <-). done.
Qed.

(** Registers survive a set followed by a get through the backend.  All
    eighteen general registers come back unchanged.  The special registers do
    so exactly when the access rights of the six code and data segments fit
    the 16 bits the KVM struct gives them and LDT and TR are those already in
    the caller's struct: the backend neither sends nor reads those two. *)
Theorem kvm_registers_roundtrip vcpu r r0 s s0 h h1 :
  kernel_keeps_registers (hvc_fd vcpu) ->
  (kvm_set_regs vcpu r h = Ok 0 h1 ->
     exists h2, kvm_get_regs vcpu r0 h1 = Ok (0, r) h2) /\
  (kvm_set_sregs vcpu s h = Ok 0 h1 ->
     exists s' h2, kvm_get_sregs vcpu s0 h1 = Ok (0, s') h2 /\
       (s' = s <-> Forall (fun g => is_u16 (sg_ar g)) (code_segments s) /\
                   s_ldt s = s_ldt s0 /\ s_tr s = s_tr s0)).
Proof.
  intros Hk. destruct (Hk (trace h)) as [Hr Hs].
  unfold kvm_set_regs, kvm_set_sregs, kvm_get_regs, kvm_get_sregs.
  split; intros H; minv H; unfold mbind, M_bind, perform; simpl.
  - rewrite Hr. simpl. eexists. unfold mret, M_ret. repeat f_equal. by destruct r.
  - rewrite Hs. simpl. eexists _, _. split; [reflexivity|]. apply sregs_roundtrip.
Qed.

(** [kvm_run] turns every outcome of the ioctl into 0 or -1, and never
    reports the interruption by a signal as an error: it returns -1 only
    with an [errno] other than EINTR, and records the page of the exit. *)
Theorem kvm_run_spec vcpu page h ret vcpu' h' :
  hvc_data vcpu = KvmVcpuData page -> kvm_run vcpu h = Ok (ret, vcpu') h' ->
  let '(r, err, page', _) := env_answer (trace h) (EvKvmRun (hvc_fd vcpu)) in
  vcpu' = set_vcpu_data (KvmVcpuData page') vcpu /\ same_layout h h' /\ trace h' = EvKvmRun (hvc_fd vcpu) :: trace h /\
  (ret = 0 /\ (0 <= r \/ err = EINTR) \/ ret = -1 /\ r < 0 /\ errno h' = err /\ err <> EINTR).
Proof.
  intros Hd H. unfold kvm_run in H. minv H; match goal with
    | Hg : guest_stores _ _ = Ok ?u _ |- _ =>
        destruct u; apply guest_stores_layout in Hg as (Hl & Ht & He)
    end; repeat match goal with H : set_errno _ _ = Ok _ _ |- _ => injection H as _ <- end;
    simplify_eq; unfold kvm_set_run; rewrite Hd; simpl in *; bool_prop; split_and!; auto 10.
Qed.
End kvm_props.

(** ** The contract of the abstraction layer, discharged by KVM *)

Definition kvm_state `{E : Env} (fd : Z) : hv_state := mk_hv_state (Some kvm_ops) fd.

#[export] Instance kvm_map_laws `{E : Env} fd : HvMapLaws (kvm_state fd).
Proof.
  assert (forall vm r h, exists ret h', kvm_set_region vm r h = Ok ret h' /\
            (ret = 0 \/ ret = -1) /\ heap h' = heap h) as Hset.
  { intros vm r h. unfold kvm_set_region. eexists _, _. split; [reflexivity|].
    split; [|done]. case_match; auto. }
  split; intros; apply Hset.
Qed.

#[export] Instance kvm_exit_laws `{E : Env} fd : HvExitLaws (kvm_state fd).
Proof. split. intros vcpu h. by exists 0, h. Qed.

#[export] Instance kvm_destroy_laws `{E : Env} fd : HvDestroyLaws (kvm_state fd).
Proof.
  split. intros [vm|] h; unfold hv_destroy_vm, via; simpl; [|by exists h].
  destruct (hvm_fd vm >=? 0); [|by exists h].
  exists (called (EvClose (hvm_fd vm)) h). split; [|reflexivity].
  unfold perform. by destruct (env_answer _ _).
Qed.

#[export] Instance kvm_run_laws `{E : Env} fd : HvRunLaws (kvm_state fd).
Proof.
  split. intros vcpu h. unfold hv_run, via. simpl. unfold kvm_run.
  destruct (env_answer (trace h) (EvKvmRun (hvc_fd vcpu))) as [[[r err] page] ws] eqn:Ha.
  set (h1 := called (EvKvmRun (hvc_fd vcpu)) h).
  destruct (guest_stores ws h1) as [[] h2|] eqn:Hg; [|done].
  pose proof Hg as Hg'. apply guest_stores_layout in Hg as (Hl & Ht & He).
  mrun by (unfold perform; rewrite Ha; reflexivity).
  mrun by exact Hg'.
  destruct (r <? 0) eqn:Hr.
  - mrun. destruct (err =? EINTR) eqn:He'; bool_prop.
    + eexists _, _, _. split; [reflexivity|]. auto.
    + eexists _, _, _. split; [reflexivity|]. auto.
  - eexists _, _, _. split; [reflexivity|]. auto.
Qed.

(** A vCPU with its shared page, in a VM that knows the page's size. *)
Definition kvm_live (v : hv_vcpu) : Prop :=
  (exists n, hvm_data (hvc_vm v) = KvmVmData n) /\ (exists page, hvc_data v = KvmVcpuData page).

Lemma kvm_live_created `{E : Env} fd vm i h v h' : hv_create_vcpu (kvm_state fd) vm i h = Ok (Some v) h' -> kvm_live v.
Proof.
  intros H. unfold hv_create_vcpu, via in H. simpl in H. unfold kvm_create_vcpu, kvm_vm_data in H.
  destruct (hvm_data vm) eqn:Hd; minv H; simplify_eq. split; by eexists.
Qed.
Lemma kvm_live_run `{E : Env} fd v h r v' h' : hv_run (kvm_state fd) v h = Ok (r, v') h' -> kvm_live v -> kvm_live v'.
Proof.
  intros H [Hn [page Hp]]. unfold hv_run, via in H. simpl in H. unfold kvm_run, kvm_set_run in H.
  rewrite Hp in H. minv H; simplify_eq; (split; [done|by eexists]).
Qed.
Lemma kvm_live_get_exit `{E : Env} fd v e h r e' v' h' :
  hv_get_exit (kvm_state fd) v e h = Ok (r, e', v') h' -> kvm_live v -> kvm_live v'.
Proof.
  intros H Hl. unfold hv_get_exit, via in H. simpl in H. unfold kvm_get_exit in H.
  apply bind_inv in H as (run & h1 & _ & H). apply bind_inv in H as (reason & h2 & _ & H).
  apply bind_inv in H as (u & h3 & _ & H). minv H. by simplify_eq.
Qed.
Lemma kvm_live_destroy `{E : Env} fd o h :
  (forall v, o = Some v -> kvm_live v) -> exists h', hv_destroy_vcpu (kvm_state fd) o h = Ok tt h' /\ heap h' = heap h.
Proof.
  destruct o as [v|]; intros Hl; [|by exists h]. destruct (Hl v eq_refl) as [[n Hn] [page Hp]].
  unfold hv_destroy_vcpu, via. simpl. rewrite Hp. unfold kvm_vm_data. rewrite Hn, bind_assoc, bind_ret. mrun.
  destruct (hvc_fd v >=? 0); (eexists; split; [first [apply perform_close | reflexivity]|reflexivity]).
Qed.

#[export] Instance kvm_dispose_laws `{E : Env} fd : HvDisposeLaws (kvm_state fd) := {|
  hvd_live := kvm_live; hvd_create := kvm_live_created fd; hvd_run := kvm_live_run fd;
  hvd_get_exit := kvm_live_get_exit fd; hvd_destroy := kvm_live_destroy fd
|}.

Definition demo_vcpu : hv_vcpu := mk_hv_vcpu 5 (mk_hv_vm 4 (KvmVmData 128)) 0 (KvmVcpuData (replicate 128 0)).

Lemma good_env_keeps_registers fd : kernel_keeps_registers (E := good_env) fd.
Proof. intros tr. split; intros r; unfold env_answer, good_env; by rewrite Z.eqb_refl. Qed.

Lemma kvm_registers_roundtrip_witness :
  exists h2, kvm_get_regs (E := good_env) demo_vcpu zero_regs
               (called (EvKvmSetRegs 5 (kvm_of_regs (mk_hv_regs 1 2 3 4 5 6 7 8 9 10 11 12 13 14 15 16 17 18))) empty_host)
             = Ok (0, mk_hv_regs 1 2 3 4 5 6 7 8 9 10 11 12 13 14 15 16 17 18) h2.
Proof.
  refine (proj1 (kvm_registers_roundtrip (E := good_env) demo_vcpu _ zero_regs zero_sregs zero_sregs
    empty_host _ (good_env_keeps_registers 5)) _).
  vm_compute. reflexivity.
Defined.

Lemma kvm_run_spec_witness :
  hvc_data demo_vcpu = KvmVcpuData (replicate 128 0) /\
  (0 <= 0 \/ 0 = EINTR).
Proof.
  split; [reflexivity|].
  pose proof (kvm_run_spec (E := good_env) demo_vcpu (replicate 128 0) empty_host 0 demo_vcpu
    (called (EvKvmRun 5) empty_host) eq_refl eq_refl) as (_ & _ & _ & [[_ H]|[H _]]).
  - exact H.
  - discriminate H.
Defined.
