(* ===== verification/Hvf.v ===== *)
(** * The HVF backend for Intel Macs (src/hypervisor/hvf.c)

    Every operation over the calls of Hypervisor.framework.  The file has a
    second version of most functions for machines that are not x86_64;
    [x86_64] says which one was compiled.  Registers are read and written one
    by one, and the first failure ends the operation. *)

From S2P Require Import Prelude HvTypes Host Hypervisor.

(** ** Fields of the register structures by register *)

Definition reg_field (r : hv_x64_reg) (s : hv_regs) : Z :=
  match r with
  | HV_X64_RIP => rip s | HV_X64_RFLAGS => rflags s
  | HV_X64_RAX => rax s | HV_X64_RBX => rbx s | HV_X64_RCX => rcx s | HV_X64_RDX => rdx s
  | HV_X64_RSI => rsi s | HV_X64_RDI => rdi s | HV_X64_RSP => rsp s | HV_X64_RBP => rbp s
  | HV_X64_R8 => r8 s | HV_X64_R9 => r9 s | HV_X64_R10 => r10 s | HV_X64_R11 => r11 s
  | HV_X64_R12 => r12 s | HV_X64_R13 => r13 s | HV_X64_R14 => r14 s | HV_X64_R15 => r15 s
  | _ => 0
  end.
Definition set_reg (r : hv_x64_reg) (x : Z) (s : hv_regs) : hv_regs :=
  let f r' y := if decide (r = r') then x else y in
  mk_hv_regs (f HV_X64_RAX (rax s)) (f HV_X64_RBX (rbx s)) (f HV_X64_RCX (rcx s)) (f HV_X64_RDX (rdx s))
    (f HV_X64_RSI (rsi s)) (f HV_X64_RDI (rdi s)) (f HV_X64_RSP (rsp s)) (f HV_X64_RBP (rbp s))
    (f HV_X64_R8 (r8 s)) (f HV_X64_R9 (r9 s)) (f HV_X64_R10 (r10 s)) (f HV_X64_R11 (r11 s))
    (f HV_X64_R12 (r12 s)) (f HV_X64_R13 (r13 s)) (f HV_X64_R14 (r14 s)) (f HV_X64_R15 (r15 s))
    (f HV_X64_RIP (rip s)) (f HV_X64_RFLAGS (rflags s)).

Definition segment_field (g : hv_x64_segment) (s : hv_sregs) : hv_segment :=
  match g with
  | HV_X64_SEGMENT_CS => s_cs s | HV_X64_SEGMENT_DS => s_ds s | HV_X64_SEGMENT_ES => s_es s
  | HV_X64_SEGMENT_FS => s_fs s | HV_X64_SEGMENT_GS => s_gs s | HV_X64_SEGMENT_SS => s_ss s
  end.
Definition set_segment (g : hv_x64_segment) (x : hv_segment) (s : hv_sregs) : hv_sregs :=
  let f g' y := if decide (g = g') then x else y in
  mk_hv_sregs (f HV_X64_SEGMENT_CS (s_cs s)) (f HV_X64_SEGMENT_DS (s_ds s)) (f HV_X64_SEGMENT_ES (s_es s))
    (f HV_X64_SEGMENT_FS (s_fs s)) (f HV_X64_SEGMENT_GS (s_gs s)) (f HV_X64_SEGMENT_SS (s_ss s))
    (s_ldt s) (s_tr s) (s_gdt s) (s_idt s) (s_cr0 s) (s_cr2 s) (s_cr3 s) (s_cr4 s) (s_cr8 s)
    (s_efer s) (s_apic_base s).

Definition cr_field (r : hv_x64_reg) (s : hv_sregs) : Z :=
  match r with
  | HV_X64_CR0 => s_cr0 s | HV_X64_CR2 => s_cr2 s | HV_X64_CR3 => s_cr3 s | HV_X64_CR4 => s_cr4 s | _ => 0
  end.
Definition set_cr (r : hv_x64_reg) (x : Z) (s : hv_sregs) : hv_sregs :=
  let f r' y := if decide (r = r') then x else y in
  mk_hv_sregs (s_cs s) (s_ds s) (s_es s) (s_fs s) (s_gs s) (s_ss s) (s_ldt s) (s_tr s) (s_gdt s) (s_idt s)
    (f HV_X64_CR0 (s_cr0 s)) (f HV_X64_CR2 (s_cr2 s)) (f HV_X64_CR3 (s_cr3 s)) (f HV_X64_CR4 (s_cr4 s))
    (s_cr8 s) (s_efer s) (s_apic_base s).
Definition set_efer (x : Z) (s : hv_sregs) : hv_sregs :=
  mk_hv_sregs (s_cs s) (s_ds s) (s_es s) (s_fs s) (s_gs s) (s_ss s) (s_ldt s) (s_tr s) (s_gdt s) (s_idt s)
    (s_cr0 s) (s_cr2 s) (s_cr3 s) (s_cr4 s) (s_cr8 s) x (s_apic_base s).

(** The order in which the code goes through them. *)
Definition hvf_regs_order : list hv_x64_reg :=
  [HV_X64_RIP; HV_X64_RFLAGS; HV_X64_RAX; HV_X64_RBX; HV_X64_RCX; HV_X64_RDX; HV_X64_RSI; HV_X64_RDI;
   HV_X64_RSP; HV_X64_RBP; HV_X64_R8; HV_X64_R9; HV_X64_R10; HV_X64_R11; HV_X64_R12; HV_X64_R13;
   HV_X64_R14; HV_X64_R15].
Definition hvf_segments_order : list hv_x64_segment :=
  [HV_X64_SEGMENT_CS; HV_X64_SEGMENT_DS; HV_X64_SEGMENT_ES; HV_X64_SEGMENT_FS; HV_X64_SEGMENT_GS;
   HV_X64_SEGMENT_SS].
Definition hvf_crs_order : list hv_x64_reg := [HV_X64_CR0; HV_X64_CR2; HV_X64_CR3; HV_X64_CR4].

(** The private data of a handle, [vcpu->data]. *)
Definition hvf_vcpu_data (vcpu : hv_vcpu) : M (Z * ptr * bool) :=
  match hvc_data vcpu with
  | HvfVcpuData id run created => mret (id, run, created)
  | VcpuDataNull => fail_ub NullDeref
  | _ => fail_ub BadMember
  end.

(** [if (ret != HV_SUCCESS) return -1;] after each step over [l]. *)
Fixpoint try_all {A S} (step : A -> S -> M (hv_return * S)) (l : list A) (s : S) : M (Z * S) :=
  match l with
  | [] => mret (0, s)
  | a :: l =>
      '(ret, s) ← step a s;
      if decide (ret = HV_SUCCESS) then try_all step l s else mret (-1, s)
  end.

(** ** Operations *)

Section hvf.
Context {E : Env} (x86_64 : bool).

Definition hvf_init (fd : Z) : M (Z * Z) :=
  if x86_64 then
    ret ← perform EvHvVmCreate;
    if decide (ret = HV_SUCCESS) then perform EvHvVmDestroy;; mret (0, fd) else mret (-1, fd)
  else mret (-1, fd).

Definition hvf_cleanup (fd : Z) : M Z := mret fd.

Definition hvf_create_vm (_ : Z) : M (option hv_vm) :=
  vm ← perform (EvCalloc 24);
  if negb vm then mret None
  else
    data ← perform (EvCalloc 16);
    if negb data then mret None
    else if x86_64 then
      ret ← perform EvHvVmCreate;
      if decide (ret = HV_SUCCESS) then mret (Some (mk_hv_vm (-1) (HvfVmData 0 true))) else mret None
    else mret None.

Definition hvf_destroy_vm (vm : option hv_vm) : M unit :=
  match vm with
  | None => mret tt
  | Some vm =>
      match hvm_data vm with
      | VmDataNull => mret tt
      | HvfVmData _ created => if x86_64 && created then perform EvHvVmDestroy else mret tt
      | _ => fail_ub BadMember
      end
  end.

Definition hvf_vm_get_fd (vm : hv_vm) : Z := -1.

Definition hvf_create_vcpu (vm : hv_vm) (index : Z) : M (option hv_vcpu) :=
  vcpu ← perform (EvCalloc 40);
  if negb vcpu then mret None
  else
    data ← perform (EvCalloc 32);
    if negb data then mret None
    else
      run ← calloc 256;
      if decide (run = Null) then mret None
      else if x86_64 then
        '(ret, id) ← perform EvHvVcpuCreate;
        if decide (ret = HV_SUCCESS) then mret (Some (mk_hv_vcpu (-1) vm index (HvfVcpuData id run true)))
        else free run;; mret None
      else mret (Some (mk_hv_vcpu (-1) vm index (HvfVcpuData 0 run false))).

Definition hvf_destroy_vcpu (vcpu : option hv_vcpu) : M unit :=
  match vcpu with
  | None => mret tt
  | Some vcpu =>
      match hvc_data vcpu with
      | VcpuDataNull => mret tt
      | HvfVcpuData id run created =>
          free run;;
          if x86_64 && created then perform (EvHvVcpuDestroy id);; mret tt else mret tt
      | _ => fail_ub BadMember
      end
  end.

Definition hvf_vcpu_get_fd (vcpu : hv_vcpu) : Z := -1.

(** Mapped readable, writable and executable. *)
Definition hvf_map_mem (vm : hv_vm) (slot : hv_memory_slot) : M Z :=
  if x86_64 then
    ret ← perform (EvHvVmMap (ms_hva slot) (ms_gpa slot) (ms_size slot));
    mret (if decide (ret = HV_SUCCESS) then 0 else -1)
  else mret (-1).

Definition hvf_unmap_mem (vm : hv_vm) (slot : Z) : M Z := mret 0.

Definition hvf_run (vcpu : hv_vcpu) : M (Z * hv_vcpu) :=
  if x86_64 then
    '(id, _, _) ← hvf_vcpu_data vcpu;
    '(ret, _, ws) ← perform (EvHvVcpuRun id);
    guest_stores ws;;
    mret (if decide (ret = HV_ERROR) then -1 else 0, vcpu)
  else mret (-1, vcpu).

Definition hvf_get_exit (vcpu : hv_vcpu) : M (Z * hv_exit * hv_vcpu) :=
  mret (0, mk_hv_exit HV_EXIT_HLT UZero, vcpu).

(** One register read into, or written from, a structure. *)
Definition read_register {S} (set : hv_x64_reg -> Z -> S -> S) (id : Z) (r : hv_x64_reg) (s : S) : M (hv_return * S) :=
  '(ret, x) ← perform (EvHvReadRegister id r);
  mret (ret, if decide (ret = HV_SUCCESS) then set r x s else s).
Definition write_register (val : hv_x64_reg -> Z) (id : Z) (r : hv_x64_reg) (u : unit) : M (hv_return * unit) :=
  ret ← perform (EvHvWriteRegister id r (val r)); mret (ret, u).
Definition read_segment (id : Z) (g : hv_x64_segment) (s : hv_sregs) : M (hv_return * hv_sregs) :=
  '(ret, x) ← perform (EvHvReadSegment id g);
  mret (ret, if decide (ret = HV_SUCCESS) then set_segment g x s else s).
Definition write_segment (val : hv_x64_segment -> hv_segment) (id : Z) (g : hv_x64_segment) (u : unit) : M (hv_return * unit) :=
  ret ← perform (EvHvWriteSegment id g (val g)); mret (ret, u).

Definition hvf_get_regs (vcpu : hv_vcpu) (regs : hv_regs) : M (Z * hv_regs) :=
  if x86_64 then
    '(id, _, _) ← hvf_vcpu_data vcpu;
    try_all (read_register set_reg id) hvf_regs_order regs
  else mret (-1, zero_regs).

Definition hvf_set_regs (vcpu : hv_vcpu) (regs : hv_regs) : M Z :=
  if x86_64 then
    '(id, _, _) ← hvf_vcpu_data vcpu;
    '(ret, _) ← try_all (write_register (fun r => reg_field r regs) id) hvf_regs_order tt;
    mret ret
  else mret (-1).

(** EFER is not read: the caller gets a constant.  The descriptor tables, LDT, TR,
    CR8 and the APIC base are left as the caller had them. *)
Definition hvf_get_sregs (vcpu : hv_vcpu) (sregs : hv_sregs) : M (Z * hv_sregs) :=
  if x86_64 then
    '(id, _, _) ← hvf_vcpu_data vcpu;
    '(ret, sregs) ← try_all (read_segment id) hvf_segments_order sregs;
    if ret <? 0 then mret (ret, sregs)
    else
      '(ret, sregs) ← try_all (read_register set_cr id) hvf_crs_order sregs;
      if ret <? 0 then mret (ret, sregs)
      else mret (0, set_efer 0x1000 sregs)
  else mret (-1, zero_sregs).

(** EFER is not written. *)
Definition hvf_set_sregs (vcpu : hv_vcpu) (sregs : hv_sregs) : M Z :=
  if x86_64 then
    '(id, _, _) ← hvf_vcpu_data vcpu;
    '(ret, _) ← try_all (write_segment (fun g => segment_field g sregs) id) hvf_segments_order tt;
    if ret <? 0 then mret ret
    else
      '(ret, _) ← try_all (write_register (fun r => cr_field r sregs) id) hvf_crs_order tt;
      mret ret
  else mret (-1).

Definition hvf_irq_line (vm : hv_vm) (irq level : Z) : M Z := mret 0.

Definition hvf_ops : hv_ops :=
  mk_hv_ops (Some hvf_init) (Some hvf_cleanup)
    (Some hvf_create_vm) (Some hvf_destroy_vm) (Some hvf_vm_get_fd)
    (Some hvf_create_vcpu) (Some hvf_destroy_vcpu) (Some hvf_vcpu_get_fd) None
    (Some hvf_map_mem) (Some hvf_unmap_mem)
    (Some hvf_run) (Some hvf_get_exit)
    (Some hvf_get_regs) (Some hvf_set_regs) (Some hvf_get_sregs) (Some hvf_set_sregs)
    (Some hvf_irq_line).
End hvf.

(** ** Registers *)

Section register_props.
Context {E : Env}.

(** What the framework keeps of a vCPU's registers: a register that was written
    since the vCPU last ran reads back as written. *)
Record hvf_keeps_registers (id : Z) : Prop := {
  hk_register tr r x : x64_written tr id r = Some x -> env_answer tr (EvHvReadRegister id r) = (HV_SUCCESS, x);
  hk_segment tr g x : segment_written tr id g = Some x -> env_answer tr (EvHvReadSegment id g) = (HV_SUCCESS, x)
}.

(** Writing a list of registers: a successful run has written all of them. *)
Lemma write_registers_ok val id l h h1 :
  try_all (write_register val id) l tt h = Ok (0, tt) h1 ->
  (forall r, x64_written (trace h1) id r = if decide (r ∈ l) then Some (val r) else x64_written (trace h) id r) /\
  forall g, segment_written (trace h1) id g = segment_written (trace h) id g.
Proof.
  revert h. induction l as [|a l IH]; intros h; cbn [try_all].
  { intros [= <-]. split; [|done]. intros r. by rewrite decide_False by (by apply not_elem_of_nil). }
  mrun by reflexivity.
  set (ret := env_answer (trace h) _). case_decide as Hret; [|intros H0; discriminate H0].
  intros H. destruct (IH _ H) as [Hx Hg]. split; [|intros g; by rewrite Hg].
  intros r. rewrite Hx. cbn [trace called x64_written]. destruct (decide (r ∈ l)) as [Hl|Hl].
  - by rewrite decide_True by by apply list_elem_of_further.
  - destruct (decide (r = a)) as [->|Hne].
    + by rewrite !decide_True by (done || apply list_elem_of_here).
    + rewrite !decide_False; [done| |]; [|intros [_ ?]; by destruct Hne].
      intros [?|?]%elem_of_cons; [by destruct Hne|done].
Qed.

Lemma write_segments_ok val id l h h1 :
  try_all (write_segment val id) l tt h = Ok (0, tt) h1 ->
  forall g, segment_written (trace h1) id g = if decide (g ∈ l) then Some (val g) else segment_written (trace h) id g.
Proof.
  revert h. induction l as [|a l IH]; intros h; cbn [try_all].
  { intros [= <-] r. by rewrite decide_False by (by apply not_elem_of_nil). }
  mrun by reflexivity.
  set (ret := env_answer (trace h) _). case_decide as Hret; [|intros H0; discriminate H0].
  intros H g. rewrite (IH _ H). cbn [trace called segment_written]. destruct (decide (g ∈ l)) as [Hl|Hl].
  - by rewrite decide_True by by apply list_elem_of_further.
  - destruct (decide (g = a)) as [->|Hne].
    + by rewrite !decide_True by (done || apply list_elem_of_here).
    + rewrite !decide_False; [done| |]; [|intros [_ ?]; by destruct Hne].
      intros [?|?]%elem_of_cons; [by destruct Hne|done].
Qed.

(** Reading written registers: all of them arrive, and the history only grows by
    reads. *)
Lemma read_registers_ok {S} (set : hv_x64_reg -> Z -> S -> S) id val l s h :
  hvf_keeps_registers id ->
  (forall r, r ∈ l -> x64_written (trace h) id r = Some (val r)) ->
  exists h1, try_all (read_register set id) l s h = Ok (0, foldl (fun s r => set r (val r) s) s l) h1 /\
    (forall r, x64_written (trace h1) id r = x64_written (trace h) id r) /\
    (forall g, segment_written (trace h1) id g = segment_written (trace h) id g).
Proof.
  intros Hk. revert s h. induction l as [|a l IH]; intros s h Hl; cbn [try_all foldl]; [by exists h|].
  pose proof (hk_register id Hk _ _ _ (Hl a (list_elem_of_here _ _))) as Ha.
  mrun by (unfold read_register, perform, mbind, M_bind; rewrite Ha; cbv beta iota; rewrite decide_True by done; reflexivity).
  rewrite decide_True by done.
  apply (IH _ (called (EvHvReadRegister id a) h)). intros r Hr. apply (Hl r). by apply list_elem_of_further.
Qed.

Lemma read_segments_ok id val l s h :
  hvf_keeps_registers id ->
  (forall g, g ∈ l -> segment_written (trace h) id g = Some (val g)) ->
  exists h1, try_all (read_segment id) l s h = Ok (0, foldl (fun s g => set_segment g (val g) s) s l) h1 /\
    (forall r, x64_written (trace h1) id r = x64_written (trace h) id r).
Proof.
  intros Hk. revert s h. induction l as [|a l IH]; intros s h Hl; cbn [try_all foldl]; [by exists h|].
  pose proof (hk_segment id Hk _ _ _ (Hl a (list_elem_of_here _ _))) as Ha.
  mrun by (unfold read_segment, perform, mbind, M_bind; rewrite Ha; cbv beta iota; rewrite decide_True by done; reflexivity).
  rewrite decide_True by done.
  apply (IH _ (called (EvHvReadSegment id a) h)). intros r Hr. apply (Hl r). by apply list_elem_of_further.
Qed.

(** The registers [hvf_get_sregs] reports after [hvf_set_sregs sregs], given the
    caller's buffer [old]. *)
Definition hvf_visible (old sregs : hv_sregs) : hv_sregs :=
  mk_hv_sregs (s_cs sregs) (s_ds sregs) (s_es sregs) (s_fs sregs) (s_gs sregs) (s_ss sregs)
    (s_ldt old) (s_tr old) (s_gdt old) (s_idt old) (s_cr0 sregs) (s_cr2 sregs) (s_cr3 sregs) (s_cr4 sregs)
    (s_cr8 old) 0x1000 (s_apic_base old).

(** Registers on the Intel HVF backend.  General registers that were set without
    an error are read back exactly.  Of the system registers, the six segments
    and CR0, CR2, CR3, CR4 come back; EFER is always reported as 0x1000 whatever
    was set, and the other fields keep what the caller's buffer held. *)
Theorem hvf_registers_roundtrip vcpu id buf created regs regs0 sregs sregs0 h h1 :
  hvf_keeps_registers id -> hvc_data vcpu = HvfVcpuData id buf created ->
  (hvf_set_regs true vcpu regs h = Ok 0 h1 ->
     exists h2, hvf_get_regs true vcpu regs0 h1 = Ok (0, regs) h2) /\
  (hvf_set_sregs true vcpu sregs h = Ok 0 h1 ->
     exists h2, hvf_get_sregs true vcpu sregs0 h1 = Ok (0, hvf_visible sregs0 sregs) h2).
Proof.
  intros Hk Hd. unfold hvf_set_regs, hvf_get_regs, hvf_set_sregs, hvf_get_sregs, hvf_vcpu_data. rewrite Hd.
  rewrite !bind_ret. split; cbn iota; intros H.
  - apply bind_inv in H as ([ret []] & h2 & Hw & H). minv H.
    apply write_registers_ok in Hw as [Hw _].
    destruct (read_registers_ok set_reg id (fun r => reg_field r regs) hvf_regs_order regs0 h1 Hk)
      as (h3 & Hr & _).
    { intros r Hr. rewrite Hw. by rewrite decide_True. }
    exists h3. rewrite Hr. by destruct regs.
  - apply bind_inv in H as ([ret []] & h2 & Hs & H). cbv beta iota in H.
    destruct (ret <? 0) eqn:Hret; [by minv H|].
    assert (ret = 0) as ->.
    { clear -Hs Hret. revert h Hs. generalize hvf_segments_order as l. induction l as [|a l IH]; intros h Hs; cbn [try_all] in Hs.
      - by injection Hs.
      - apply bind_inv in Hs as ([r1 []] & h3 & _ & Hs). cbv beta iota in Hs.
        destruct (decide (r1 = HV_SUCCESS)); [by eapply IH|]. injection Hs as <- _. discriminate Hret. }
    pose proof (write_segments_ok _ _ _ _ _ Hs) as Hseg.
    apply bind_inv in H as ([ret []] & h3 & Hc & H). minv H.
    apply write_registers_ok in Hc as [Hcr Hkeep].
    destruct (read_segments_ok id (fun g => segment_field g sregs) hvf_segments_order sregs0 h1 Hk)
      as (h4 & Hrs & Hsame).
    { intros g Hg. rewrite Hkeep, Hseg. by rewrite decide_True. }
    rewrite (bind_Ok _ _ _ _ _ Hrs). cbv beta iota. change (0 <? 0) with false. cbn iota.
    destruct (read_registers_ok set_cr id (fun r => cr_field r sregs) hvf_crs_order
      (foldl (fun s g => set_segment g (segment_field g sregs) s) sregs0 hvf_segments_order) h4 Hk) as (h5 & Hrc & _).
    { intros r Hr. rewrite Hsame, Hcr. by rewrite decide_True. }
    exists h5. rewrite (bind_Ok _ _ _ _ _ Hrc). by destruct sregs, sregs0.
Qed.
End register_props.

Section error_props.
Context {E : Env}.

Definition written (id : Z) (val : hv_x64_reg -> Z) (l : list hv_x64_reg) (h : host) : host :=
  foldl (fun h r => called (EvHvWriteRegister id r (val r)) h) h l.

Lemma write_registers_run val id l h :
  exists k ret, try_all (write_register val id) l tt h = Ok (ret, tt) (written id val (take k l) h) /\
    (ret = 0 /\ k = length l \/
     ret = -1 /\ exists j r, k = S j /\ l !! j = Some r /\
       env_answer (trace (written id val (take j l) h)) (EvHvWriteRegister id r (val r)) <> HV_SUCCESS).
Proof.
  revert h. induction l as [|a l IH]; intros h; cbn [try_all].
  { exists 0%nat, 0. by split; [|left]. }
  mrun by reflexivity. case_decide as Hret.
  - destruct (IH (called (EvHvWriteRegister id a (val a)) h)) as (k & ret & Hrun & Hcase).
    exists (S k), ret. split; [exact Hrun|]. destruct Hcase as [(-> & ->)|(-> & j & r & -> & Hj & Hf)]; [by left|].
    right. split; [done|]. by exists (S j), r.
  - exists 1%nat, (-1). split; [done|]. right. split; [done|]. by exists 0%nat, a.
Qed.

(** Setting the general registers of an HVF vCPU, errors included.  It always
    returns; the registers are written in the order of the code, and an error of
    the framework ends it with -1 and leaves the vCPU with the registers before
    the failing one changed and those behind it untouched. *)
Theorem hvf_set_regs_prefix vcpu regs id buf created h :
  hvc_data vcpu = HvfVcpuData id buf created ->
  exists k ret, hvf_set_regs true vcpu regs h
      = Ok ret (written id (fun r => reg_field r regs) (take k hvf_regs_order) h) /\
    (ret = 0 /\ k = 18%nat \/
     ret = -1 /\ exists j r, k = S j /\ hvf_regs_order !! j = Some r /\
       env_answer (trace (written id (fun r => reg_field r regs) (take j hvf_regs_order) h))
         (EvHvWriteRegister id r (reg_field r regs)) <> HV_SUCCESS).
Proof.
  intros Hd. unfold hvf_set_regs, hvf_vcpu_data. rewrite Hd, bind_ret. cbn iota.
  destruct (write_registers_run (fun r => reg_field r regs) id hvf_regs_order h) as (k & ret & Hrun & Hcase).
  exists k, ret. by rewrite (bind_Ok _ _ _ _ _ Hrun).
Qed.
End error_props.

(** ** The layer's laws *)

Definition hvf_state `{E : Env} (x86_64 : bool) (fd : Z) : hv_state := mk_hv_state (Some (hvf_ops x86_64)) fd.

#[export] Instance hvf_map_laws `{E : Env} x fd : HvMapLaws (hvf_state x fd).
Proof.
  split.
  - intros vm slot gpa hva size h. unfold hv_map_mem, via, hvf_state. cbn. destruct x; cbn.
    + unfold hvf_map_mem. mrun. eexists _, _. split; [reflexivity|]. by case_decide; auto.
    + eexists _, _. split; [reflexivity|]. auto.
  - intros vm slot h. eexists _, _. split; [reflexivity|]. auto.
Qed.

(** There is no way to interrupt a vCPU on an Intel Mac: [vcpu_exit] is missing. *)
#[export] Instance hvf_exit_laws `{E : Env} x fd : HvExitLaws (hvf_state x fd).
Proof. split. intros vcpu h. by exists 0, h. Qed.

(** ** Witnesses *)

#[local] Existing Instance good_env.

Definition demo_hvf_vcpu : hv_vcpu :=
  mk_hv_vcpu (-1) (mk_hv_vm (-1) (HvfVmData 0 true)) 0 (HvfVcpuData 7 (Ptr 1 0) true).
Definition demo_regs : hv_regs := mk_hv_regs 1 2 3 4 5 6 7 8 9 10 11 12 13 14 15 16 0x100000 2.

Lemma good_env_keeps id : hvf_keeps_registers (E := good_env) id.
Proof. split; intros tr r x Hx; cbv [env_answer good_env]; by rewrite Hx. Qed.

Lemma hvf_registers_roundtrip_witness :
  exists h1 h2, hvf_set_regs true demo_hvf_vcpu demo_regs empty_host = Ok 0 h1 /\
    hvf_get_regs true demo_hvf_vcpu zero_regs h1 = Ok (0, demo_regs) h2.
Proof.
  destruct (hvf_set_regs true demo_hvf_vcpu demo_regs empty_host) as [ret h1|] eqn:Hset;
    [|vm_compute in Hset; discriminate Hset].
  assert (ret = 0) as -> by (vm_compute in Hset; injection Hset as <- _; reflexivity).
  destruct (proj1 (hvf_registers_roundtrip demo_hvf_vcpu 7 (Ptr 1 0) true demo_regs zero_regs zero_sregs zero_sregs
    empty_host h1 (good_env_keeps 7) eq_refl) Hset) as [h2 Hget].
  exists h1, h2. split; [reflexivity|exact Hget].
Defined.

(** A framework that refuses to write RAX. *)
Definition no_rax_env : Env := fun tr e =>
  match e return answer e with
  | EvHvWriteRegister c HV_X64_RAX x => HV_ERROR
  | e => good_env tr e
  end.

Lemma hvf_set_regs_prefix_witness :
  hvf_set_regs (E := no_rax_env) true demo_hvf_vcpu demo_regs empty_host
  = Ok (-1) (written 7 (fun r => reg_field r demo_regs) [HV_X64_RIP; HV_X64_RFLAGS; HV_X64_RAX] empty_host).
Proof.
  destruct (hvf_set_regs_prefix (E := no_rax_env) demo_hvf_vcpu demo_regs 7 (Ptr 1 0) true empty_host eq_refl)
    as (k & ret & Hrun & [(-> & ->)|(-> & j & r & -> & Hj & Hfail)]).
  - vm_compute in Hrun. discriminate Hrun.
  - do 18 (destruct j as [|j]; [injection Hj as <-; try (destruct Hfail; reflexivity); exact Hrun|]). discriminate Hj.
Defined.
