(* ===== verification/HvfArm64.v ===== *)
(** * The HVF backend for Apple Silicon (src/hypervisor/hvf_arm64.c)

    Every operation over the calls of Hypervisor.framework: the vCPU with the
    exit structure the framework allocates for it, the translation of an exit,
    and the few registers the backend sets. *)

From S2P Require Import Prelude HvTypes Host Hypervisor.

(** X29 is the frame pointer. *)
Definition HV_REG_FP : hv_arm_reg := HV_REG_X 29.

(** [vcpu->data]: [None] for NULL. *)
Definition hvf_arm64_data (vcpu : hv_vcpu) : M (option (Z * ptr * hv_vcpu_exit_t * bool)) :=
  match hvc_data vcpu with
  | HvfArmVcpuData id info exit created => mret (Some (id, info, exit, created))
  | VcpuDataNull => mret None
  | _ => fail_ub BadMember
  end.

Section hvf_arm64.
Context {E : Env}.

Definition hvf_arm64_init (fd : Z) : M (Z * Z) :=
  ret ← perform EvHvVmCreate;
  if decide (ret = HV_SUCCESS) then perform EvHvVmDestroy;; mret (0, fd) else mret (-1, fd).

Definition hvf_arm64_cleanup (fd : Z) : M Z := mret fd.

Definition hvf_arm64_create_vm (_ : Z) : M (option hv_vm) :=
  vm ← perform (EvCalloc 24);
  if negb vm then mret None
  else
    data ← perform (EvCalloc 16);
    if negb data then mret None
    else
      ret ← perform EvHvVmCreate;
      if decide (ret = HV_SUCCESS) then mret (Some (mk_hv_vm (-1) (HvfVmData 0 true))) else mret None.

Definition hvf_arm64_destroy_vm (vm : option hv_vm) : M unit :=
  match vm with
  | None => mret tt
  | Some vm =>
      match hvm_data vm with
      | VmDataNull => mret tt
      | HvfVmData _ created => if created : bool then perform EvHvVmDestroy else mret tt
      | _ => fail_ub BadMember
      end
  end.

Definition hvf_arm64_vm_get_fd (vm : hv_vm) : Z := -1.

(** [hv_vcpu_create] allocates the exit structure and stores its address over the
    one of the buffer allocated before. *)
Definition hvf_arm64_create_vcpu (vm : hv_vm) (index : Z) : M (option hv_vcpu) :=
  vcpu ← perform (EvCalloc 40);
  if negb vcpu then mret None
  else
    data ← perform (EvCalloc 24);
    if negb data then mret None
    else
      exit_info ← calloc 32;
      if decide (exit_info = Null) then mret None
      else
        config ← perform EvHvConfigCreate;
        if negb config then free exit_info;; mret None
        else
          '(ret, id) ← perform EvHvVcpuCreate;
          if decide (ret = HV_SUCCESS) then
            exit_info ← alloc_block (replicate 32 0);
            mret (Some (mk_hv_vcpu (-1) vm index
              (HvfArmVcpuData id exit_info (mk_vcpu_exit HV_EXIT_REASON_CANCELED 0 0 0) true)))
          else free exit_info;; mret None.

(** The framework's own release of the exit structure. *)
Definition hv_vcpu_destroy (id : Z) (exit_info : ptr) : M unit :=
  released ← perform (EvHvVcpuDestroy id);
  if released : bool then free exit_info else mret tt.

Definition hvf_arm64_destroy_vcpu (vcpu : option hv_vcpu) : M unit :=
  match vcpu with
  | None => mret tt
  | Some vcpu =>
      data ← hvf_arm64_data vcpu;
      match data with
      | None => mret tt
      | Some (id, exit_info, _, created) =>
          (if created : bool then hv_vcpu_destroy id exit_info else mret tt);;
          free exit_info
      end
  end.

Definition hvf_arm64_vcpu_get_fd (vcpu : hv_vcpu) : Z := -1.

Definition hvf_arm64_map_mem (vm : hv_vm) (slot : hv_memory_slot) : M Z :=
  ret ← perform (EvHvVmMap (ms_hva slot) (ms_gpa slot) (ms_size slot));
  mret (if decide (ret = HV_SUCCESS) then 0 else -1).

Definition hvf_arm64_unmap_mem (vm : hv_vm) (slot : Z) : M Z := mret 0.

(** Only two of the framework's errors are errors. *)
Definition hvf_arm64_run (vcpu : hv_vcpu) : M (Z * hv_vcpu) :=
  data ← hvf_arm64_data vcpu;
  '(id, exit_info, _, created) ← deref NullDeref data;
  '(ret, exit, ws) ← perform (EvHvVcpuRun id);
  guest_stores ws;;
  mret (if decide (ret = HV_ERROR \/ ret = HV_UNSUPPORTED) then -1 else 0,
        set_vcpu_data (HvfArmVcpuData id exit_info exit created) vcpu).

(** A register read whose code is ignored; the variable was 0 before. *)
Definition get_reg_or_0 (id : Z) (r : hv_arm_reg) : M Z :=
  '(ret, x) ← perform (EvHvGetReg id r);
  mret (if decide (ret = HV_SUCCESS) then x else 0).

(** An exception with a fault address is taken to be a one-byte store of X0 to the
    fault's physical address, and the program counter moves on. *)
Definition hvf_arm64_exception (id : Z) (exit : hv_vcpu_exit_t) : M hv_exit :=
  current_pc ← get_reg_or_0 id HV_REG_PC;
  if negb (xi_virtual_address exit =? 0) then
    x0 ← get_reg_or_0 id (HV_REG_X 0);
    perform (EvHvSetReg id HV_REG_PC (current_pc +64 4));;
    mret (mk_hv_exit HV_EXIT_MMIO (UMmio (mk_hv_mmio (xi_physical_address exit) 1 1 (Z.land x0 0xFF))))
  else mret (mk_hv_exit HV_EXIT_EXCEPTION UZero).

Definition hvf_arm64_get_exit (vcpu : hv_vcpu) : M (Z * hv_exit * hv_vcpu) :=
  data ← hvf_arm64_data vcpu;
  '(id, exit_info, exit, _) ← deref NullDeref data;
  e ← (if decide (exit_info = Null) then mret (mk_hv_exit HV_EXIT_HLT UZero)
       else
         match xi_reason exit with
         | HV_EXIT_REASON_CANCELED => mret (mk_hv_exit HV_EXIT_CANCELED UZero)
         | HV_EXIT_REASON_EXCEPTION => hvf_arm64_exception id exit
         | HV_EXIT_REASON_VTIMER_ACTIVATED => mret (mk_hv_exit HV_EXIT_VTIMER UZero)
         | HV_EXIT_REASON_UNKNOWN => mret (mk_hv_exit HV_EXIT_HLT UZero)
         end);
  mret (0, e, vcpu).

Definition hvf_arm64_get_regs (vcpu : hv_vcpu) (regs : hv_regs) : M (Z * hv_regs) := mret (0, regs).

(** The [HV_REG_X0 + i] of the loop over the general registers. *)
Definition clear_x_registers (id : Z) : M unit :=
  mfor (seq 0 31) (fun i => perform (EvHvSetReg id (HV_REG_X i) 0);; mret tt).

Definition hvf_arm64_set_regs (vcpu : hv_vcpu) (regs : hv_regs) : M Z :=
  data ← hvf_arm64_data vcpu;
  match data with
  | None | Some (_, _, _, false) => mret (-1)
  | Some (id, _, _, true) =>
      ret ← perform (EvHvSetReg id HV_REG_CPSR 0x3C5);
      if decide (ret = HV_SUCCESS) then
        ret ← perform (EvHvSetReg id HV_REG_PC (rip regs));
        if decide (ret = HV_SUCCESS) then
          clear_x_registers id;;
          perform (EvHvSetReg id HV_REG_FP 0x50000);;
          perform (EvHvSetReg id HV_SYS_REG_SP_EL1 0x50000);;
          mret 0
        else mret (-1)
      else mret (-1)
  end.

Definition hvf_arm64_get_sregs (vcpu : hv_vcpu) (sregs : hv_sregs) : M (Z * hv_sregs) := mret (0, sregs).
Definition hvf_arm64_set_sregs (vcpu : hv_vcpu) (sregs : hv_sregs) : M Z := mret 0.

Definition hvf_arm64_vcpu_exit (vcpu : hv_vcpu) : M Z :=
  data ← hvf_arm64_data vcpu;
  match data with
  | None | Some (_, _, _, false) => mret (-1)
  | Some (id, _, _, true) =>
      ret ← perform (EvHvVcpusExit id);
      mret (if decide (ret = HV_SUCCESS) then 0 else -1)
  end.

Definition hvf_arm64_irq_line (vm : hv_vm) (irq level : Z) : M Z := mret 0.

Definition hvf_arm64_ops : hv_ops :=
  mk_hv_ops (Some hvf_arm64_init) (Some hvf_arm64_cleanup)
    (Some hvf_arm64_create_vm) (Some hvf_arm64_destroy_vm) (Some hvf_arm64_vm_get_fd)
    (Some hvf_arm64_create_vcpu) (Some hvf_arm64_destroy_vcpu) (Some hvf_arm64_vcpu_get_fd)
    (Some hvf_arm64_vcpu_exit)
    (Some hvf_arm64_map_mem) (Some hvf_arm64_unmap_mem)
    (Some hvf_arm64_run) (Some hvf_arm64_get_exit)
    (Some hvf_arm64_get_regs) (Some hvf_arm64_set_regs) (Some hvf_arm64_get_sregs)
    (Some hvf_arm64_set_sregs) (Some hvf_arm64_irq_line).
End hvf_arm64.

(** ** Properties *)

Section arm_props.
Context {E : Env}.

Lemma clear_x_run id n k h :
  exists h', mfor (seq k n) (fun i => perform (EvHvSetReg id (HV_REG_X i) 0);; mret tt) h = Ok tt h' /\
    heap h' = heap h /\
    forall r, arm_written (trace h') id r
      = match r with HV_REG_X i => if decide (k <= i < k + n)%nat then Some 0 else arm_written (trace h) id r
        | _ => arm_written (trace h) id r end.
Proof.
  revert k h. induction n as [|n IH]; intros k h; cbn [seq mfor].
  - eexists. split; [reflexivity|]. split; [done|]. intros [i| | |]; [|done..]. by rewrite decide_False by lia.
  - mrun by reflexivity. destruct (IH (S k) (called (EvHvSetReg id (HV_REG_X k) 0) h)) as (h' & Hrun & Hh & Hr).
    exists h'. split; [exact Hrun|]. split; [exact Hh|]. intros r. rewrite Hr. cbn [trace called arm_written].
    destruct r as [i| | |]; try (by rewrite decide_False by (intros [_ ?]; congruence)).
    destruct (decide (S k <= i < S k + n)%nat); [by rewrite decide_True by lia|].
    destruct (decide (i = k)) as [->|Hne]; [by rewrite !decide_True by (done || lia)|].
    rewrite !decide_False; [done|lia|]. intros [_ ?]. by simplify_eq.
Qed.

Lemma hvf_arm64_set_regs_run vcpu regs id info exit h :
  hvc_data vcpu = HvfArmVcpuData id info exit true ->
  let h1 := called (EvHvSetReg id HV_REG_CPSR 0x3C5) h in
  let accepted := env_answer (trace h) (EvHvSetReg id HV_REG_CPSR 0x3C5) = HV_SUCCESS /\
                  env_answer (trace h1) (EvHvSetReg id HV_REG_PC (rip regs)) = HV_SUCCESS in
  exists ret h', hvf_arm64_set_regs vcpu regs h = Ok ret h' /\ heap h' = heap h /\
    (accepted /\ ret = 0 /\
       (forall i, (i < 31)%nat -> arm_written (trace h') id (HV_REG_X i) = Some (if decide (i = 29%nat) then 0x50000 else 0)) /\
       arm_written (trace h') id HV_REG_PC = Some (rip regs) /\
       arm_written (trace h') id HV_REG_CPSR = Some 0x3C5 /\
       arm_written (trace h') id HV_SYS_REG_SP_EL1 = Some 0x50000 \/
     ~ accepted /\ ret = -1).
Proof.
  intros Hd. cbv zeta. unfold hvf_arm64_set_regs, hvf_arm64_data. rewrite Hd, bind_ret. cbn iota.
  mrun. case_decide as Hc; [|eexists _, _; split; [reflexivity|]; split; [done|]; right; tauto].
  mrun. case_decide as Hp; [|eexists _, _; split; [reflexivity|]; split; [done|]; right; tauto].
  set (h2 := called _ (called _ h)). destruct (clear_x_run id 31 0 h2) as (h3 & Hrun & Hh3 & Hr).
  unfold clear_x_registers. rewrite (bind_Ok _ _ _ _ _ Hrun). mrun. mrun.
  eexists _, _. split; [reflexivity|]. split; [exact Hh3|]. left. split; [done|]. split; [done|].
  unfold HV_REG_FP. cbn [trace called arm_written]. split_and!.
  - intros i Hi. rewrite (decide_False (P := _ /\ HV_SYS_REG_SP_EL1 = _)) by (intros [_ ?]; congruence).
    destruct (decide (i = 29%nat)) as [->|Hne]; [by rewrite decide_True|].
    rewrite decide_False by (intros [_ ?]; congruence). rewrite Hr. by rewrite decide_True by lia.
  - rewrite !decide_False by (intros [_ ?]; congruence). rewrite Hr. unfold h2. cbn [trace called arm_written]. by rewrite decide_True.
  - rewrite !decide_False by (intros [_ ?]; congruence). rewrite Hr. unfold h2. cbn [trace called arm_written].
    rewrite decide_False by (intros [_ ?]; congruence). by rewrite decide_True.
  - by rewrite decide_True.
Qed.

(** The state an ARM64 vCPU starts in.  Setting the registers of a created vCPU
    always returns; it fails exactly when the framework refuses the status
    register or the program counter.  When it succeeds, the values asked for are:
    the entry point in PC, EL1h with interrupts masked in CPSR, 0x50000 in the
    frame pointer and in the stack pointer, and 0 in every other general
    register, whatever else the caller's structure holds; a refused general
    register goes unnoticed. *)
Theorem hvf_arm64_set_regs_entry vcpu regs id info exit h :
  hvc_data vcpu = HvfArmVcpuData id info exit true ->
  let h1 := called (EvHvSetReg id HV_REG_CPSR 0x3C5) h in
  let accepted := env_answer (trace h) (EvHvSetReg id HV_REG_CPSR 0x3C5) = HV_SUCCESS /\
                  env_answer (trace h1) (EvHvSetReg id HV_REG_PC (rip regs)) = HV_SUCCESS in
  exists ret h', hvf_arm64_set_regs vcpu regs h = Ok ret h' /\ heap h' = heap h /\
    (accepted /\ ret = 0 /\
       (forall i, (i < 31)%nat -> arm_written (trace h') id (HV_REG_X i) = Some (if decide (i = 29%nat) then 0x50000 else 0)) /\
       arm_written (trace h') id HV_REG_PC = Some (rip regs) /\
       arm_written (trace h') id HV_REG_CPSR = Some 0x3C5 /\
       arm_written (trace h') id HV_SYS_REG_SP_EL1 = Some 0x50000 \/
     ~ accepted /\ ret = -1).
Proof. apply hvf_arm64_set_regs_run. Qed.

Lemma hvf_arm64_get_exit_run vcpu id info exit created h :
  hvc_data vcpu = HvfArmVcpuData id info exit created -> info <> Null ->
  exists e h', hvf_arm64_get_exit vcpu h = Ok (0, e, vcpu) h' /\ heap h' = heap h /\
    match xi_reason exit with
    | HV_EXIT_REASON_CANCELED => e = mk_hv_exit HV_EXIT_CANCELED UZero /\ h' = h
    | HV_EXIT_REASON_VTIMER_ACTIVATED => e = mk_hv_exit HV_EXIT_VTIMER UZero /\ h' = h
    | HV_EXIT_REASON_UNKNOWN => e = mk_hv_exit HV_EXIT_HLT UZero /\ h' = h
    | HV_EXIT_REASON_EXCEPTION =>
        let h1 := called (EvHvGetReg id HV_REG_PC) h in
        let val (r : hv_return * Z) := if decide (r.1 = HV_SUCCESS) then r.2 else 0 in
        if xi_virtual_address exit =? 0 then e = mk_hv_exit HV_EXIT_EXCEPTION UZero /\ h' = h1
        else
          e = mk_hv_exit HV_EXIT_MMIO (UMmio (mk_hv_mmio (xi_physical_address exit) 1 1
                (val (env_answer (trace h1) (EvHvGetReg id (HV_REG_X 0))) mod 256))) /\
          h' = called (EvHvSetReg id HV_REG_PC (val (env_answer (trace h) (EvHvGetReg id HV_REG_PC)) +64 4))
                 (called (EvHvGetReg id (HV_REG_X 0)) h1)
    end.
Proof.
  intros Hd Hi. cbv zeta. unfold hvf_arm64_get_exit, hvf_arm64_data. rewrite Hd, bind_ret. cbn [deref].
  rewrite bind_ret. cbv beta iota. rewrite decide_False by done.
  destruct (xi_reason exit); try (rewrite bind_ret; by eexists _, _).
  unfold hvf_arm64_exception, get_reg_or_0. rewrite !bind_assoc.
  destruct (env_answer (trace h) (EvHvGetReg id HV_REG_PC)) as [r1 pc] eqn:Hpc.
  mrun by (unfold perform; rewrite Hpc; reflexivity). rewrite bind_ret. cbn [fst snd].
  destruct (xi_virtual_address exit =? 0); cbn [negb]; [rewrite bind_ret; by eexists _, _|].
  set (h1 := called _ h). rewrite !bind_assoc.
  destruct (env_answer (trace h1) (EvHvGetReg id (HV_REG_X 0))) as [r2 x0] eqn:Hx0.
  mrun by (unfold perform; rewrite Hx0; reflexivity). rewrite bind_ret. cbn [fst snd].
  rewrite bind_assoc. mrun by reflexivity. eexists _, _. split; [reflexivity|]. split; [done|]. split; [|done].
  change 255 with (2 ^ 8 - 1). rewrite land_ones_mod by lia. done.
Qed.

(** Translation of an exit of a created vCPU, on every branch.  A data abort
    with a fault address becomes a one-byte write of the low byte of X0 to the
    fault's physical address, whether the guest was storing, loading or
    fetching, and whatever register and width it used, and the program counter
    moves to the next instruction; without a fault address it is an exception. *)
Theorem hvf_arm64_get_exit_spec vcpu id info exit created h :
  hvc_data vcpu = HvfArmVcpuData id info exit created -> info <> Null ->
  exists e h', hvf_arm64_get_exit vcpu h = Ok (0, e, vcpu) h' /\ heap h' = heap h /\
    match xi_reason exit with
    | HV_EXIT_REASON_CANCELED => e = mk_hv_exit HV_EXIT_CANCELED UZero /\ h' = h
    | HV_EXIT_REASON_VTIMER_ACTIVATED => e = mk_hv_exit HV_EXIT_VTIMER UZero /\ h' = h
    | HV_EXIT_REASON_UNKNOWN => e = mk_hv_exit HV_EXIT_HLT UZero /\ h' = h
    | HV_EXIT_REASON_EXCEPTION =>
        let h1 := called (EvHvGetReg id HV_REG_PC) h in
        let val (r : hv_return * Z) := if decide (r.1 = HV_SUCCESS) then r.2 else 0 in
        if xi_virtual_address exit =? 0 then e = mk_hv_exit HV_EXIT_EXCEPTION UZero /\ h' = h1
        else
          e = mk_hv_exit HV_EXIT_MMIO (UMmio (mk_hv_mmio (xi_physical_address exit) 1 1
                (val (env_answer (trace h1) (EvHvGetReg id (HV_REG_X 0))) mod 256))) /\
          h' = called (EvHvSetReg id HV_REG_PC (val (env_answer (trace h) (EvHvGetReg id HV_REG_PC)) +64 4))
                 (called (EvHvGetReg id (HV_REG_X 0)) h1)
    end.
Proof. apply hvf_arm64_get_exit_run. Qed.

(** A created vCPU and the two blocks its creation allocates. *)
Lemma hvf_arm64_create_shape vm index h hv h1 :
  hvf_arm64_create_vcpu vm index h = Ok (Some hv) h1 ->
  exists id b1 b2 exit, hvc_data hv = HvfArmVcpuData id (Ptr b2 0) exit true /\ b1 <> b2 /\
    heap h !! b1 = None /\ is_Some (heap h1 !! b1) /\ heap h1 !! b2 = Some (replicate 32 0).
Proof.
  intros H. unfold hvf_arm64_create_vcpu, mbind, M_bind, perform in H. cbv beta iota in H.
  destruct (env_answer (trace h) _); cbn [negb] in H; [|discriminate H].
  destruct (env_answer _ _); cbn [negb] in H; [|discriminate H].
  unfold calloc, mbind, M_bind, perform in H. cbv beta iota in H.
  destruct (env_answer _ _) in H; [|discriminate H].
  set (h2 := called (EvCalloc 32) _) in H.
  destruct (alloc_block_spec (replicate (Z.to_nat 32) 0) h2) as (b1 & Hb1 & Hf1). rewrite Hb1 in H. cbv beta iota in H.
  rewrite decide_False in H by done. set (h3 := set_heap _ h2) in H.
  destruct (env_answer (trace h3) EvHvConfigCreate); cbn [negb] in H.
  2:{ unfold free in H. simpl in H. rewrite lookup_insert_eq in H. discriminate H. }
  set (h4 := called EvHvVcpuCreate _) in H. destruct (env_answer _ EvHvVcpuCreate) as [ret id]. case_decide.
  2:{ unfold free in H. simpl in H. rewrite lookup_insert_eq in H. discriminate H. }
  destruct (alloc_block_spec (replicate 32 0) h4) as (b2 & Hb2 & Hf2). rewrite Hb2 in H. injection H as <- <-.
  assert (heap h4 !! b1 = Some (replicate (Z.to_nat 32) 0)) as Hb1' by (apply lookup_insert_eq).
  assert (b1 <> b2) as Hne by (intros ->; congruence).
  exists id, b1, b2. eexists. split; [reflexivity|]. split_and!; [done|exact Hf1| |].
  - simpl. rewrite lookup_insert_ne by done. by eexists.
  - simpl. by rewrite lookup_insert_eq.
Qed.

(** What Apple documents of [hv_vcpu_destroy]: it releases the exit structure that
    [hv_vcpu_create] handed out. *)
Definition framework_releases : Prop := forall tr id, env_answer tr (EvHvVcpuDestroy id) = true.

(** The exit structure of an ARM64 vCPU.  Creating a vCPU leaves two new blocks: the
    one the backend allocated, to which no pointer remains, and the framework's;
    destroying the vCPU releases the framework's block a second time. *)
Theorem hvf_arm64_exit_info_double_free vm index h hv h1 :
  framework_releases -> hvf_arm64_create_vcpu vm index h = Ok (Some hv) h1 ->
  (exists id b1 b2 exit, hvc_data hv = HvfArmVcpuData id (Ptr b2 0) exit true /\ b1 <> b2 /\
     heap h !! b1 = None /\ is_Some (heap h1 !! b1) /\ is_Some (heap h1 !! b2)) /\
  hvf_arm64_destroy_vcpu (Some hv) h1 = Ub UseAfterFree.
Proof.
  intros Hf H. apply hvf_arm64_create_shape in H as (id & b1 & b2 & exit & Hd & Hne & H1 & Hl1 & Hl2).
  split; [exists id, b1, b2, exit; by eauto 10|].
  unfold hvf_arm64_destroy_vcpu, hvf_arm64_data. rewrite Hd, bind_ret. cbn iota.
  unfold hv_vcpu_destroy. rewrite bind_assoc. mrun. rewrite Hf.
  rewrite (bind_Ok _ _ _ _ _ (free_ok _ _ _ (Hl2 : heap (called (EvHvVcpuDestroy id) h1) !! b2 = _))).
  unfold free. simpl. by rewrite lookup_delete_eq.
Qed.
End arm_props.

(** ** The layer's laws *)

Definition hvf_arm64_state `{E : Env} (fd : Z) : hv_state := mk_hv_state (Some hvf_arm64_ops) fd.

#[export] Instance hvf_arm64_map_laws `{E : Env} fd : HvMapLaws (hvf_arm64_state fd).
Proof.
  split.
  - intros vm slot gpa hva size h. unfold hv_map_mem, via, hvf_arm64_state. cbn. unfold hvf_arm64_map_mem. mrun.
    eexists _, _. split; [reflexivity|]. by case_decide; auto.
  - intros vm slot h. eexists _, _. split; [reflexivity|]. auto.
Qed.

(** ** Witnesses *)

#[local] Existing Instance good_env.

Definition demo_arm_exit : hv_vcpu_exit_t := mk_vcpu_exit HV_EXIT_REASON_EXCEPTION 0x93800007 0x90000000 0x90000000.
Definition demo_arm_vcpu : hv_vcpu :=
  mk_hv_vcpu (-1) (mk_hv_vm (-1) (HvfVmData 0 true)) 0 (HvfArmVcpuData 0 (Ptr 1 0) demo_arm_exit true).

Lemma hvf_arm64_set_regs_entry_witness :
  exists h', hvf_arm64_set_regs demo_arm_vcpu (mk_hv_regs 1 2 3 4 5 6 7 8 9 10 11 12 13 14 15 16 0x80000 2) empty_host
      = Ok 0 h' /\
    arm_written (trace h') 0 HV_REG_PC = Some 0x80000 /\ arm_written (trace h') 0 (HV_REG_X 1) = Some 0.
Proof.
  destruct (hvf_arm64_set_regs_entry demo_arm_vcpu (mk_hv_regs 1 2 3 4 5 6 7 8 9 10 11 12 13 14 15 16 0x80000 2)
    0 (Ptr 1 0) demo_arm_exit empty_host eq_refl) as (ret & h' & Hrun & _ & [(_ & -> & Hx & Hpc & _)|[Hno _]]).
  - exists h'. split; [exact Hrun|]. split; [exact Hpc|]. apply (Hx 1%nat). lia.
  - destruct Hno. split; reflexivity.
Defined.

Lemma hvf_arm64_get_exit_spec_witness :
  exists h', hvf_arm64_get_exit demo_arm_vcpu empty_host
    = Ok (0, mk_hv_exit HV_EXIT_MMIO (UMmio (mk_hv_mmio 0x90000000 1 1 0)), demo_arm_vcpu) h'.
Proof.
  destruct (hvf_arm64_get_exit_spec demo_arm_vcpu 0 (Ptr 1 0) demo_arm_exit true empty_host eq_refl ltac:(discriminate))
    as (e & h' & Hrun & _ & He).
  exists h'. rewrite Hrun. destruct He as [-> _]. reflexivity.
Defined.

Lemma hvf_arm64_exit_info_double_free_witness :
  exists hv h1, hvf_arm64_create_vcpu (mk_hv_vm (-1) (HvfVmData 0 true)) 0 empty_host = Ok (Some hv) h1 /\
    hvf_arm64_destroy_vcpu (Some hv) h1 = Ub UseAfterFree.
Proof.
  destruct (hvf_arm64_create_vcpu (mk_hv_vm (-1) (HvfVmData 0 true)) 0 empty_host) as [[hv|] h1|] eqn:Hc;
    [|vm_compute in Hc; discriminate Hc..].
  exists hv, h1. split; [reflexivity|].
  refine (proj2 (hvf_arm64_exit_info_double_free _ _ _ _ _ _ Hc)). intros tr id. reflexivity.
Defined.
