(* ===== verification/HvPlatforms.v ===== *)
(** * Backends per platform (src/hypervisor/kvm_stub.c, hvf_stub.c, Makefile)

    The stub tables an Apple Silicon build links in place of the backends it
    cannot have, what [hv_init] does with them, and the framework's virtual
    machines the two HVF backends hold. *)

From S2P Require Import Prelude HvTypes Host Hypervisor Hvf HvfArm64.

(** The two stub files define the same functions under different names: [init],
    [create_vm], [create_vcpu], [map_mem] and [run] fail, the getters clear the
    caller's structure, and everything else does nothing and returns 0. *)
Definition stub_ops : hv_ops :=
  mk_hv_ops (Some (fun fd => mret (-1, fd))) (Some (fun fd => mret fd))
    (Some (fun _ => mret None)) (Some (fun _ => mret tt)) (Some (fun _ => -1))
    (Some (fun _ _ => mret None)) (Some (fun _ => mret tt)) (Some (fun _ => -1)) (Some (fun _ => mret 0))
    (Some (fun _ _ => mret (-1))) (Some (fun _ _ => mret 0))
    (Some (fun vcpu => mret (-1, vcpu)))
    (Some (fun vcpu => mret (0, mk_hv_exit HV_EXIT_UNKNOWN UZero, vcpu)))
    (Some (fun _ _ => mret (0, zero_regs))) (Some (fun _ _ => mret 0))
    (Some (fun _ _ => mret (0, zero_sregs))) (Some (fun _ _ => mret 0))
    (Some (fun _ _ _ => mret 0)).
Definition kvm_stub_ops : hv_ops := stub_ops.
Definition hvf_stub_ops : hv_ops := stub_ops.

Section platforms.
Context {E : Env}.

(** [hv_init] as it is linked on Apple Silicon, the one platform whose build
    supplies all three tables. *)
Definition apple_silicon_init (type : hv_type) (s : hv_state) : M (Z * hv_state) :=
  hv_init MacArm kvm_stub_ops hvf_stub_ops hvf_arm64_ops type s.

(** The virtual machines of the framework that the process holds: created and not
    yet destroyed. *)
Fixpoint live_vms (tr : list event) : Z :=
  match tr with
  | [] => 0
  | EvHvVmCreate :: tr => live_vms tr + (if decide (env_answer tr EvHvVmCreate = HV_SUCCESS) then 1 else 0)
  | EvHvVmDestroy :: tr => live_vms tr - 1
  | _ :: tr => live_vms tr
  end.

(** Initialisation on Apple Silicon.  Asking for KVM or for the Intel backend
    fails without a call to the host.  Any other request, automatic detection
    included, probes the framework with a virtual machine that it gives up again:
    it returns 0 with the ARM64 table exactly when the framework grants one.
    After a failure every operation of the layer reports failure. *)
Theorem apple_silicon_init_spec type s h :
  exists ret s' h', apple_silicon_init type s h = Ok (ret, s') h' /\
    heap h' = heap h /\ live_vms (trace h') = live_vms (trace h) /\
    match type with
    | HV_TYPE_KVM | HV_TYPE_HVF_X86_64 => ret = -1 /\ all_wrappers_fail s' /\ h' = h
    | _ =>
        if decide (env_answer (trace h) EvHvVmCreate = HV_SUCCESS)
        then ret = 0 /\ g_hv_ops s' = Some hvf_arm64_ops else ret = -1 /\ all_wrappers_fail s'
    end.
Proof.
  assert (forall s, hvf_arm64_init (kvm_fd s) h =
    if decide (env_answer (trace h) EvHvVmCreate = HV_SUCCESS)
    then Ok (0, kvm_fd s) (called EvHvVmDestroy (called EvHvVmCreate h)) else Ok (-1, kvm_fd s) (called EvHvVmCreate h)) as Hinit.
  { intros s0. unfold hvf_arm64_init. mrun. by repeat case_decide. }
  unfold apple_silicon_init, hv_init, hv_select, hv_auto_type.
  destruct type; cbn [op_init hvf_arm64_ops kvm_stub_ops hvf_stub_ops stub_ops].
  2, 4: eexists _, _, _; (split; [reflexivity|]); split_and!; [done|done|done|by apply no_backend_fails|done].
  all: unfold mbind, M_bind; rewrite Hinit; case_decide as Hc;
    (eexists _, _, _; split; [reflexivity|]; split; [done|]; split; [|by auto using no_backend_fails]);
    cbn [trace called live_vms]; [rewrite decide_True by done|rewrite decide_False by done]; lia.
Qed.

(** One backend's handling of the framework's virtual machines: creation holds one
    more exactly when it hands out a handle, whose destruction gives it up. *)
Definition vm_accounting (create : Z -> M (option hv_vm)) (destroy : option hv_vm -> M unit) : Prop :=
  forall fd h, exists r h1, create fd h = Ok r h1 /\ heap h1 = heap h /\
    live_vms (trace h1) = live_vms (trace h) + (if r is Some _ then 1 else 0) /\
    forall vm h2, r = Some vm -> exists h3, destroy r h2 = Ok tt h3 /\ heap h3 = heap h2 /\
      live_vms (trace h3) = live_vms (trace h2) - 1.

(** Virtual machines of the framework, of which a process may hold one.  With
    either HVF backend, creating a VM holds exactly one more when it succeeds and
    none when any of its steps fails, destroying it gives up exactly that one,
    and the version of the Intel backend built for another architecture never
    holds any. *)
Theorem hvf_vm_accounting :
  vm_accounting (hvf_create_vm true) (hvf_destroy_vm true) /\
  vm_accounting hvf_arm64_create_vm hvf_arm64_destroy_vm /\
  forall fd h r h1, hvf_create_vm false fd h = Ok r h1 -> r = None /\ live_vms (trace h1) = live_vms (trace h).
Proof.
  assert (forall h, perform EvHvVmDestroy h = Ok tt (called EvHvVmDestroy h)) as Hdestroy
    by (intros h; unfold perform; by destruct (env_answer _ _)).
  split_and!; [intros fd h; unfold hvf_create_vm, hvf_arm64_create_vm..|].
  1, 2: do 2 (mrun; destruct (env_answer _ _); cbn [negb];
      [|eexists _, _; split; [reflexivity|]; split; [done|]; split; [cbn; lia|done]]);
    mrun; case_decide as Hc; eexists _, _; (split; [reflexivity|]); (split; [done|]);
      (split; [cbn; first [rewrite decide_True by done|rewrite decide_False by done]; lia|]); [|done];
    intros vm h2 [= <-]; exists (called EvHvVmDestroy h2); split_and!; [apply Hdestroy|done|cbn; lia].
  intros fd h r h1 H. unfold hvf_create_vm in H. minv H; by simplify_eq.
Qed.
End platforms.
