(* ===== verification/GuestMem.v ===== *)
(** * The guest-memory interface

    Device models and the boot loader reach guest RAM only through a
    translation "guest physical address and length to host pointer".  The
    class [GuestMem] is that operation; [GuestMemLaws] is what its clients may
    rely on.  [Mm] (mm.c) and [VmMem] (vm.c) both implement it. *)

From S2P Require Import Prelude HvTypes Host.

Class GuestMem (T : Type) := gm_translate : T -> Z -> Z -> ptr.

(** [gm_valid t h]: the table's windows are backed by live host memory. *)
Class GuestMemLaws (T : Type) `{GuestMem T} := {
  gm_valid : T -> host -> Prop;
  (** An access that does not wrap past 2^64 is translated to NULL or to a
      range that may be accessed. *)
  gm_translate_safe t h gpa size :
    gm_valid t h -> 0 <= gpa -> 0 <= size -> gpa + size < 18446744073709551616 ->
    gm_translate t gpa size <> Null -> range_ok h (gm_translate t gpa size) size;
  (** Validity only depends on the heap's block layout. *)
  gm_valid_heap t h h' : heap h = heap h' -> gm_valid t h -> gm_valid t h';
  gm_valid_stored t h p d :
    range_ok h p (Z.of_nat (length d)) -> gm_valid t h -> gm_valid t (stored h p d)
}.

(** A host window: [size] bytes of guest memory at [hva]. *)
Definition window_ok (h : host) (hva : ptr) (size : Z) : Prop :=
  exists b l, hva = Ptr b 0 /\ heap h !! b = Some l /\ Z.of_nat (length l) = size.

Lemma window_range h hva size off n :
  window_ok h hva size -> 0 <= off -> 0 <= n -> off + n <= size ->
  range_ok h (padd hva off) n.
Proof.
  intros (b & l & -> & Hl & Hs) ???. exists b, off, l. simpl. repeat split; auto; lia.
Qed.

Lemma window_ok_heap h h' hva size :
  heap h = heap h' -> window_ok h hva size -> window_ok h' hva size.
Proof. intros He (b & l & ? & ? & ?). exists b, l. by rewrite <- He. Qed.

Lemma window_ok_stored h hva size p d :
  range_ok h p (Z.of_nat (length d)) -> window_ok h hva size -> window_ok (stored h p d) hva size.
Proof.
  intros (b & o & l & -> & Hl & Ho & Hn & Hb) (b' & l' & -> & Hl' & Hs).
  unfold window_ok, stored. rewrite Hl. simpl. destruct (decide (b = b')) as [<-|Hne].
  - exists b. eexists. split; [done|]. rewrite lookup_insert_eq. split; [done|].
    rewrite length_splice by lia. by simplify_eq.
  - exists b', l'. by rewrite lookup_insert_ne.
Qed.
