(* ===== verification/Mm.v ===== *)
(** * Memory contexts (src/mm.c, include/mm.h)

    A table of at most 32 slots, each a guest-physical window backed by host
    memory, with the copy helpers on top.  The loops over [slots] run over the
    first [num_slots] entries of the array. *)

From S2P Require Import Prelude HvTypes Host Utils GuestMem.

Record mm_slot := mk_mm_slot {
  sl_gpa : Z; sl_hva : ptr; sl_size : Z; slot_id : Z; sl_flags : Z
}.

Record mm_ctx := mk_mm_ctx {
  slots : list mm_slot;   (* struct mm_slot slots[32] *)
  num_slots : Z;
  total_size : Z
}.

Definition MM_MAX_SLOTS : Z := 32.
Definition zero_slot : mm_slot := mk_mm_slot 0 Null 0 0 0.
Definition live_slots (mm : mm_ctx) : list mm_slot := take (Z.to_nat (num_slots mm)) (slots mm).

Section mm.
Context {E : Env}.

(** [calloc] of the context: NULL or a zeroed context. *)
Definition mm_create : M (option mm_ctx) :=
  ok ← perform (EvCalloc 1296);
  mret (if ok : bool then Some (mk_mm_ctx (replicate 32 zero_slot) 0 0) else None).

Definition mm_free_guest_mem (p : ptr) (size : Z) : M unit := free p.

Definition mm_destroy (mm : option mm_ctx) : M unit :=
  match mm with
  | None => mret tt
  | Some mm =>
      mfor (live_slots mm) (fun s =>
        if decide (sl_hva s = Null) then mret tt else mm_free_guest_mem (sl_hva s) (sl_size s))
  end.

Definition mm_alloc_guest_mem (size : Z) : M ptr := calloc (PAGE_ALIGN_UP size).

Definition mm_add_slot (mm : mm_ctx) (gpa : Z) (hva : ptr) (size flags : Z) : Z * mm_ctx :=
  if num_slots mm >=? MM_MAX_SLOTS then (-1, mm)
  else
    let slot := mk_mm_slot gpa hva size (num_slots mm) flags in
    (0, mk_mm_ctx (<[Z.to_nat (num_slots mm) := slot]> (slots mm))
          (num_slots mm + 1) (total_size mm +64 size)).

Definition slot_has (g : Z) (s : mm_slot) : bool :=
  (sl_gpa s <=? g) && (g <? sl_gpa s +64 sl_size s).

Definition mm_find_slot (mm : mm_ctx) (g : Z) : option mm_slot :=
  snd <$> list_find (fun s => slot_has g s = true) (live_slots mm).

Definition mm_gpa_to_hva (mm : mm_ctx) (g n : Z) : ptr :=
  match mm_find_slot mm g with
  | None => Null
  | Some slot =>
      if g +64 n >? sl_gpa slot +64 sl_size slot then Null
      else padd (sl_hva slot) (g -64 sl_gpa slot)
  end.

Definition mm_write_gpa (mm : mm_ctx) (g : Z) (data : list byte) : M Z :=
  let hva := mm_gpa_to_hva mm g (Z.of_nat (length data)) in
  if decide (hva = Null) then mret (-1) else store hva data;; mret 0.

(** The bytes copied out ([None] when [data] is left untouched). *)
Definition mm_read_gpa (mm : mm_ctx) (g n : Z) : M (Z * option (list byte)) :=
  let hva := mm_gpa_to_hva mm g n in
  if decide (hva = Null) then mret (-1, None)
  else l ← load hva n; mret (0, Some l).

Definition mm_write8 mm g v := mm_write_gpa mm g (le_enc 1 v).
Definition mm_write16 mm g v := mm_write_gpa mm g (le_enc 2 v).
Definition mm_write32 mm g v := mm_write_gpa mm g (le_enc 4 v).
Definition mm_write64 mm g v := mm_write_gpa mm g (le_enc 8 v).

Definition read_val (n : Z) mm g : M (Z * option Z) :=
  '(r, l) ← mm_read_gpa mm g n; mret (r, le_dec <$> l).
Definition mm_read8 := read_val 1.
Definition mm_read16 := read_val 2.
Definition mm_read32 := read_val 4.
Definition mm_read64 := read_val 8.
End mm.

(** ** Well-formed contexts *)

Definition slot_ok (s : mm_slot) : Prop :=
  is_u64 (sl_gpa s) /\ is_u64 (sl_size s) /\ sl_gpa s + sl_size s < 18446744073709551616.

Record mm_wf (mm : mm_ctx) : Prop := {
  wf_array : length (slots mm) = 32%nat;
  wf_num : 0 <= num_slots mm <= MM_MAX_SLOTS;
  wf_slots : Forall slot_ok (live_slots mm);
  wf_ids : forall i s, live_slots mm !! i = Some s -> slot_id s = Z.of_nat i;
  wf_total : total_size mm = u64 (foldr (fun s n => sl_size s + n) 0 (live_slots mm))
}.

(** The address ranges the slots cover. *)
Definition covers (s : mm_slot) (g : Z) : Prop := sl_gpa s <= g < sl_gpa s + sl_size s.

Lemma slot_has_spec g s : slot_ok s -> (slot_has g s = true <-> covers s g).
Proof.
  intros (H1 & H2 & H3). unfold slot_has, covers.
  rewrite u64_small by ulia. rewrite andb_true_iff, Z.leb_le, Z.ltb_lt. lia.
Qed.

Lemma mm_wf_create : mm_wf (mk_mm_ctx (replicate 32 zero_slot) 0 0).
Proof.
  by split.
Qed.

Lemma live_slots_add mm gpa hva size flags mm' :
  mm_wf mm -> mm_add_slot mm gpa hva size flags = (0, mm') ->
  live_slots mm' = live_slots mm ++ [mk_mm_slot gpa hva size (num_slots mm) flags].
Proof.
  intros [Ha Hn _ _ _]. unfold mm_add_slot, MM_MAX_SLOTS in *.
  destruct (num_slots mm >=? 32) eqn:Hfull; [done|]. bool_prop. intros [= <-].
  unfold live_slots. simpl. rewrite Z2Nat.inj_add by lia.
  rewrite Nat.add_1_r.
  rewrite (take_S_r _ _ (mk_mm_slot gpa hva size (num_slots mm) flags)).
  - f_equal. apply take_insert_ge. lia.
  - apply list_lookup_insert_eq. lia.
Qed.

Lemma foldr_sum_app l s :
  foldr (fun s n => sl_size s + n) 0 (l ++ [s]) = foldr (fun s n => sl_size s + n) 0 l + sl_size s.
Proof. induction l as [|a l IH]; simpl; lia. Qed.

Lemma mm_add_slot_wf mm g p n f :
  mm_wf mm -> slot_ok (mk_mm_slot g p n 0 f) -> mm_wf (snd (mm_add_slot mm g p n f)).
Proof.
  intros Hwf Hok. destruct (mm_add_slot mm g p n f) as [ret mm'] eqn:Hadd. simpl.
  pose proof Hadd as Hadd'. unfold mm_add_slot in Hadd.
  destruct (num_slots mm >=? MM_MAX_SLOTS) eqn:Hfull; bool_prop; injection Hadd as <- <-; [done|].
  pose proof (live_slots_add _ _ _ _ _ _ Hwf Hadd') as Hl.
  destruct Hwf as [Ha Hn Hs Hi Ht]. unfold MM_MAX_SLOTS in *. split.
  - simpl. by rewrite length_insert.
  - unfold MM_MAX_SLOTS. simpl. lia.
  - rewrite Hl. apply Forall_app_2; [done|]. constructor; [|constructor].
    destruct Hok as (?&?&?). repeat split; simpl in *; ulia.
  - intros i s. rewrite Hl, lookup_app_Some. intros [Hi'|[Hge Hi']]; [eauto|].
    assert (length (live_slots mm) = Z.to_nat (num_slots mm)) as Hlen
      by (unfold live_slots; rewrite length_take; lia).
    apply list_lookup_singleton_Some in Hi' as [Hz <-]. simpl. lia.
  - rewrite Hl, foldr_sum_app. simpl. rewrite Ht. unfold u64. by rewrite Zplus_mod_idemp_l.
Qed.

(** [mm_add_slot] keeps the context well formed: the 33rd slot is refused
    with the context unchanged, any other call appends exactly one slot whose
    id is its index and adds its size to the 64-bit total. *)
Theorem mm_add_slot_spec mm g p n f :
  mm_wf mm -> slot_ok (mk_mm_slot g p n 0 f) ->
  let '(ret, mm') := mm_add_slot mm g p n f in
  mm_wf mm' /\
  (ret = -1 /\ mm' = mm /\ num_slots mm = MM_MAX_SLOTS \/
   ret = 0 /\ live_slots mm' = live_slots mm ++ [mk_mm_slot g p n (num_slots mm) f]).
Proof.
  intros Hwf Hok. pose proof (mm_add_slot_wf mm g p n f Hwf Hok) as Hwf'.
  destruct (mm_add_slot mm g p n f) as [ret mm'] eqn:Hadd. split; [done|].
  pose proof Hadd as Hadd'. unfold mm_add_slot in Hadd.
  destruct (num_slots mm >=? MM_MAX_SLOTS) eqn:Hfull; bool_prop; injection Hadd as <- <-.
  - left. pose proof (wf_num _ Hwf). unfold MM_MAX_SLOTS in *. split_and!; [done|done|lia].
  - right. split; [done|]. by eapply live_slots_add.
Qed.

Lemma mm_add_slot_spec_witness :
  let mm := mk_mm_ctx (replicate 32 zero_slot) 0 0 in
  mm_wf mm /\ live_slots (snd (mm_add_slot mm 4096 (Ptr 1 0) 8192 0))
              = [mk_mm_slot 4096 (Ptr 1 0) 8192 0 0].
Proof.
  split; [apply mm_wf_create|].
  pose proof (mm_add_slot_spec (mk_mm_ctx (replicate 32 zero_slot) 0 0) 4096 (Ptr 1 0) 8192 0
    mm_wf_create ltac:(repeat split; simpl; lia)) as H.
  destruct H as [_ [(H & _)|(_ & H)]]; [discriminate H|exact H].
Defined.

(** [mm_find_slot] returns the first slot covering the address. *)
Lemma mm_find_slot_Some mm g s :
  mm_wf mm ->
  mm_find_slot mm g = Some s <->
  exists i, live_slots mm !! i = Some s /\ covers s g /\
            forall j s', (j < i)%nat -> live_slots mm !! j = Some s' -> ~ covers s' g.
Proof.
  intros Hwf. assert (forall i s, live_slots mm !! i = Some s -> slot_ok s) as Hok.
  { intros i s' Hi. eapply Forall_lookup_1; [apply (wf_slots _ Hwf)|done]. }
  unfold mm_find_slot. split.
  - intros Hf. apply fmap_Some in Hf as ([i s'] & Hf & ->).
    apply list_find_Some in Hf as (Hi & Hhas & Hpre). exists i. simpl.
    split; [done|]. rewrite slot_has_spec in Hhas by eauto. split; [done|].
    intros j s'' Hj Hl Hc. eapply Hpre; [eassumption..|]. apply slot_has_spec; eauto.
  - intros (i & Hi & Hc & Hpre). apply fmap_Some. exists (i, s). split; [|done].
    apply list_find_Some. split; [done|]. split; [apply slot_has_spec; eauto|].
    intros j s' Hl Hj Hhas. eapply Hpre; [eassumption..|]. apply slot_has_spec in Hhas; eauto.
Qed.

Lemma mm_find_slot_None mm g :
  mm_wf mm -> mm_find_slot mm g = None <-> Forall (fun s => ~ covers s g) (live_slots mm).
Proof.
  intros Hwf. unfold mm_find_slot. rewrite fmap_None, list_find_None.
  pose proof (wf_slots _ Hwf) as Hs. rewrite !Forall_forall. rewrite Forall_forall in Hs.
  split; intros H s Hin; specialize (H s Hin); by rewrite slot_has_spec in * by auto.
Qed.

(** [mm_gpa_to_hva] on a well-formed context, for accesses that end below 2^64:
    the pointer of the first slot that covers the address, if the whole access
    fits in that slot, and NULL otherwise. *)
Lemma mm_gpa_to_hva_spec mm g n :
  mm_wf mm -> 0 <= g -> 0 <= n -> g + n < 18446744073709551616 ->
  match mm_find_slot mm g with
  | Some s => covers s g /\
      mm_gpa_to_hva mm g n = (if g + n <=? sl_gpa s + sl_size s then padd (sl_hva s) (g - sl_gpa s) else Null)
  | None => mm_gpa_to_hva mm g n = Null /\ Forall (fun s => ~ covers s g) (live_slots mm)
  end.
Proof.
  intros Hwf Hg Hn Hw. destruct (mm_find_slot mm g) as [s|] eqn:Hf.
  - unfold mm_gpa_to_hva. rewrite Hf. pose proof Hf as Hf'.
    apply mm_find_slot_Some in Hf' as (i & Hi & Hc & _); [|done]. split; [done|].
    assert (slot_ok s) as (H1 & H2 & H3).
    { eapply Forall_lookup_1; [apply (wf_slots _ Hwf)|done]. }
    unfold covers in Hc. rewrite !u64_small by ulia.
    destruct (Z.leb_spec (g + n) (sl_gpa s + sl_size s)), (Z.gtb_spec (g + n) (sl_gpa s + sl_size s));
      done || lia.
  - unfold mm_gpa_to_hva. rewrite Hf. split; [done|]. by apply mm_find_slot_None.
Qed.

(** ** Validity, and the interface of [GuestMem] *)

Definition mm_valid (mm : mm_ctx) (h : host) : Prop :=
  mm_wf mm /\ Forall (fun s => window_ok h (sl_hva s) (sl_size s)) (live_slots mm).

Lemma mm_valid_stored mm h p d :
  range_ok h p (Z.of_nat (length d)) -> mm_valid mm h -> mm_valid mm (stored h p d).
Proof.
  intros Hr [Hwf Hwin]. split; [done|].
  eapply Forall_impl; [exact Hwin|]. simpl. eauto using window_ok_stored.
Qed.

#[export] Instance mm_guest_mem : GuestMem mm_ctx := mm_gpa_to_hva.

#[export] Instance mm_guest_mem_laws : GuestMemLaws mm_ctx.
Proof.
  refine {| gm_valid := mm_valid |}; unfold gm_translate, mm_guest_mem, mm_valid.
  - intros mm h g n [Hwf Hwin] Hg Hn Hw Hnn.
    pose proof (mm_gpa_to_hva_spec mm g n Hwf Hg Hn Hw) as Hs.
    destruct (mm_find_slot mm g) as [s|] eqn:Hf; [|by destruct Hs].
    destruct Hs as [Hc Heq]. rewrite Heq in *.
    destruct (Z.leb_spec (g + n) (sl_gpa s + sl_size s)); [|done].
    apply mm_find_slot_Some in Hf as (i & Hi & _); [|done]. unfold covers in Hc.
    eapply window_range; [eapply (Forall_lookup_1 _ _ _ _ Hwin Hi)|lia..].
  - intros mm h h' He [Hwf Hwin]. split; [done|].
    eapply Forall_impl; [exact Hwin|]. eauto using window_ok_heap.
  - exact mm_valid_stored.
Defined.

(** Round trip through guest memory: a write whose range does not wrap and
    that [mm_gpa_to_hva] accepts succeeds, a following read of the same range
    returns the bytes written, and a refused write returns -1 and changes
    nothing. *)
Theorem mm_write_read_roundtrip mm h g data :
  mm_valid mm h -> 0 <= g -> g + Z.of_nat (length data) < 18446744073709551616 ->
  if decide (mm_gpa_to_hva mm g (Z.of_nat (length data)) = Null)
  then mm_write_gpa mm g data h = Ok (-1) h
  else exists h', mm_write_gpa mm g data h = Ok 0 h' /\ mm_valid mm h' /\
       mm_read_gpa mm g (Z.of_nat (length data)) h' = Ok (0, Some data) h'.
Proof.
  intros Hv Hg Hw. unfold mm_write_gpa, mm_read_gpa.
  destruct (decide _) as [Hn|Hn]; [done|].
  assert (range_ok h (mm_gpa_to_hva mm g (Z.of_nat (length data))) (Z.of_nat (length data))) as Hr
    by (apply (gm_translate_safe mm h); auto; lia).
  erewrite bind_Ok by (by apply store_ok). eexists. split; [done|].
  split; [by apply mm_valid_stored|].
  erewrite bind_Ok by (apply load_ok; by apply range_ok_stored).
  by rewrite bytes_at_stored_eq.
Qed.

Definition demo_mm : mm_ctx := snd (mm_add_slot (mk_mm_ctx (replicate 32 zero_slot) 0 0) 4096 (Ptr 1 0) 16 0).
Definition demo_host : host := mk_host {[ 1%positive := replicate 16 0 ]} [] 0.

Lemma demo_mm_valid : mm_valid demo_mm demo_host.
Proof.
  split.
  - apply mm_add_slot_wf; [apply mm_wf_create|]. repeat split; simpl; lia.
  - unfold demo_mm, live_slots; simpl. constructor; [|constructor].
    exists 1%positive, (replicate 16 0). done.
Qed.

Lemma mm_write_read_roundtrip_witness :
  mm_valid demo_mm demo_host /\
  exists h', mm_write_gpa demo_mm 4100 [7; 8] demo_host = Ok 0 h' /\
             mm_read_gpa demo_mm 4100 2 h' = Ok (0, Some [7; 8]) h'.
Proof.
  split; [apply demo_mm_valid|].
  pose proof (mm_write_read_roundtrip demo_mm demo_host 4100 [7; 8] demo_mm_valid
                ltac:(lia) ltac:(simpl; lia)) as H.
  destruct (decide _) as [Hn|_] in H; [discriminate Hn|].
  destruct H as (h' & Hw & _ & Hr). exists h'. split; [exact Hw|exact Hr].
Defined.
