(* ===== verification/VmMem.v ===== *)
(** * The VM structure and its memory regions (include/vm.h, src/vm.c)

    [struct vm] is shared by the vCPU, device, boot and lifecycle code.  The
    vCPU and device arrays hold object identifiers (the C pointers); the
    objects live in stores of the components that own them.  This file has the
    memory half of vm.c: [vm_add_memory_region] and [vm_gpa_to_hva], the only
    way the rest of the program reaches guest RAM. *)

From S2P Require Import Prelude HvTypes Host Utils Hypervisor Kvm GuestMem.

Definition VM_MAX_SLOTS : nat := 32.
Definition VM_MAX_VCPUS : Z := 8.
Definition VM_MAX_DEVICES : Z := 16.

Inductive vm_state := VM_STATE_STOPPED | VM_STATE_RUNNING | VM_STATE_PAUSED | VM_STATE_ERROR.

#[export] Instance vm_state_eq_dec : EqDecision vm_state.
Proof. solve_decision. Defined.

Record vm_mem_region := mk_region {
  rg_gpa : Z; rg_hva : ptr; rg_size : Z; rg_slot : Z; rg_used : bool
}.

Record vm := mk_vm {
  vm_hv : hv_vm;
  vm_st : vm_state;
  mem_regions : list vm_mem_region;      (* [VM_MAX_SLOTS] *)
  mem_size : Z;
  vm_vcpus : list (option positive);     (* [VM_MAX_VCPUS] *)
  num_vcpus : Z;
  vm_devices : list (option positive);   (* [VM_MAX_DEVICES] *)
  num_devices : Z;
  kernel_path : option string;
  initrd_path : option string;
  vm_cmdline : option string;
  irq_base : Z
}.

Definition zero_region : vm_mem_region := mk_region 0 Null 0 0 false.

Definition set_regions (l : list vm_mem_region) (size : Z) (v : vm) : vm :=
  mk_vm (vm_hv v) (vm_st v) l size (vm_vcpus v) (num_vcpus v)
    (vm_devices v) (num_devices v) (kernel_path v) (initrd_path v) (vm_cmdline v) (irq_base v).
Definition set_state (st : vm_state) (v : vm) : vm :=
  mk_vm (vm_hv v) st (mem_regions v) (mem_size v) (vm_vcpus v) (num_vcpus v)
    (vm_devices v) (num_devices v) (kernel_path v) (initrd_path v) (vm_cmdline v) (irq_base v).
Definition set_vcpus (l : list (option positive)) (n : Z) (v : vm) : vm :=
  mk_vm (vm_hv v) (vm_st v) (mem_regions v) (mem_size v) l n
    (vm_devices v) (num_devices v) (kernel_path v) (initrd_path v) (vm_cmdline v) (irq_base v).
Definition set_devices (l : list (option positive)) (n : Z) (v : vm) : vm :=
  mk_vm (vm_hv v) (vm_st v) (mem_regions v) (mem_size v) (vm_vcpus v) (num_vcpus v)
    l n (kernel_path v) (initrd_path v) (vm_cmdline v) (irq_base v).

Section vm_mem.
Context {E : Env}.

(** The scan for a free entry. *)
Definition free_slot (l : list vm_mem_region) : option nat :=
  fst <$> list_find (fun r => rg_used r = false) l.

Definition vm_add_memory_region (s : hv_state) (v : vm) (gpa size : Z) : M (Z * vm) :=
  match free_slot (mem_regions v) with
  | None => mret (-1, v)
  | Some i =>
      hva ← calloc size;
      if decide (hva = Null) then mret (-1, v)
      else
        let gpa := PAGE_ALIGN_DOWN gpa in
        ret ← hv_map_mem s (vm_hv v) (Z.of_nat i) gpa hva size;
        if ret <? 0 then free hva;; mret (-1, v)
        else
          let region := mk_region gpa hva size (Z.of_nat i) true in
          mret (0, set_regions (<[i := region]> (mem_regions v)) (mem_size v +64 size) v)
  end.

(** The region test: both additions are on [uint64_t]. *)
Definition region_has (gpa size : Z) (r : vm_mem_region) : bool :=
  rg_used r && ((rg_gpa r <=? gpa) && (gpa +64 size <=? rg_gpa r +64 rg_size r)).

Definition vm_gpa_to_hva (v : vm) (gpa size : Z) : ptr :=
  match list_find (fun r => region_has gpa size r = true) (mem_regions v) with
  | Some (_, r) => padd (rg_hva r) (gpa -64 rg_gpa r)
  | None => Null
  end.
End vm_mem.

(** ** Well-formed region tables *)

Definition region_ok (h : host) (r : vm_mem_region) : Prop :=
  rg_used r = true ->
  0 <= rg_gpa r /\ 0 <= rg_size r /\ rg_gpa r + rg_size r < 18446744073709551616 /\
  window_ok h (rg_hva r) (rg_size r).

Record vm_mem_valid (v : vm) (h : host) : Prop := {
  vmv_length : length (mem_regions v) = VM_MAX_SLOTS;
  vmv_regions : Forall (region_ok h) (mem_regions v)
}.

(** The whole access lies in the region, as integers. *)
Definition region_contains (gpa size : Z) (r : vm_mem_region) : Prop :=
  rg_used r = true /\ rg_gpa r <= gpa /\ gpa + size <= rg_gpa r + rg_size r.

Lemma region_has_spec h gpa size r :
  region_ok h r -> 0 <= gpa -> 0 <= size -> gpa + size < 18446744073709551616 ->
  (region_has gpa size r = true <-> region_contains gpa size r).
Proof.
  unfold region_ok, region_has, region_contains. intros Hok ???.
  destruct (rg_used r); simpl; [|by split; [|intros []]].
  destruct (Hok eq_refl) as (?&?&?&_).
  rewrite andb_true_iff, !Z.leb_le, !u64_small by ulia. tauto.
Qed.

(** Functional form of the translation: the first region that contains the
    access decides. *)
Lemma vm_gpa_to_hva_cases v h gpa size :
  vm_mem_valid v h -> 0 <= gpa -> 0 <= size -> gpa + size < 18446744073709551616 ->
  (exists i r, mem_regions v !! i = Some r /\ region_contains gpa size r /\ region_ok h r /\
     (forall j r', (j < i)%nat -> mem_regions v !! j = Some r' -> ~ region_contains gpa size r') /\
     vm_gpa_to_hva v gpa size = padd (rg_hva r) (gpa - rg_gpa r)) \/
  (Forall (fun r => ~ region_contains gpa size r) (mem_regions v) /\ vm_gpa_to_hva v gpa size = Null).
Proof.
  intros [_ Hr] Hg Hs Hw. unfold vm_gpa_to_hva.
  assert (forall i r, mem_regions v !! i = Some r -> region_ok h r) as Hok
    by (intros; by eapply Forall_lookup_1).
  destruct (list_find _ (mem_regions v)) as [[i r]|] eqn:Hf.
  - left. apply list_find_Some in Hf as (Hi & Hhas & Hpre).
    apply (region_has_spec h) in Hhas as Hc; [|eauto..].
    exists i, r. split_and!; eauto.
    + intros j r' Hj Hl Hc'. eapply Hpre; [eassumption..|].
      apply (region_has_spec h); eauto.
    + destruct Hc as (Hu & ? & ?). destruct (Hok _ _ Hi Hu) as (?&?&?&_).
      f_equal. apply u64_small. ulia.
  - right. apply list_find_None in Hf. split; [|done].
    rewrite Forall_lookup in *. intros i r Hi Hc. eapply Hf; [done|].
    eapply (region_has_spec h); eauto.
Qed.

(** ** The interface promised to device models and the boot loader *)

Lemma vm_mem_valid_stored v h p d :
  range_ok h p (Z.of_nat (length d)) -> vm_mem_valid v h -> vm_mem_valid v (stored h p d).
Proof.
  intros Hp [Hl Hr]. split; [done|]. eapply Forall_impl; [exact Hr|].
  intros r Hok Hu. destruct (Hok Hu) as (?&?&?&?). eauto using window_ok_stored.
Qed.

Lemma vm_mem_valid_heap v h h' : heap h = heap h' -> vm_mem_valid v h -> vm_mem_valid v h'.
Proof.
  intros He [Hl Hr]. split; [done|]. eapply Forall_impl; [exact Hr|].
  intros r Hok Hu. destruct (Hok Hu) as (?&?&?&?). eauto using window_ok_heap.
Qed.

Lemma vm_translate_range v h gpa size :
  vm_mem_valid v h -> 0 <= gpa -> 0 <= size -> gpa + size < 18446744073709551616 ->
  vm_gpa_to_hva v gpa size <> Null -> range_ok h (vm_gpa_to_hva v gpa size) size.
Proof.
  intros Hv Hg Hs Hw Hn.
  destruct (vm_gpa_to_hva_cases v h gpa size) as [(i & r & _ & Hc & Hok & _ & Heq)|[_ Heq]]; auto.
  - rewrite Heq. destruct Hc as (Hu & ? & ?). destruct (Hok Hu) as (?&?&?&Hwin).
    eapply window_range; [exact Hwin|lia..].
  - done.
Qed.

#[export] Instance vm_guest_mem : GuestMem vm := vm_gpa_to_hva.

#[export] Instance vm_guest_mem_laws : GuestMemLaws vm :=
  {| gm_valid := vm_mem_valid;
     gm_translate_safe := vm_translate_range;
     gm_valid_heap := vm_mem_valid_heap;
     gm_valid_stored := vm_mem_valid_stored |}.

(** ** Properties *)


(** RAM as main.c lays it out: one region at guest address 0, in slot 0. *)
Definition ram_at_zero (v : vm) (b : positive) (size : Z) : Prop :=
  mem_regions v !! 0%nat = Some (mk_region 0 (Ptr b 0) size 0 true).

(** The translation does not stop an access that wraps past 2^64.  With RAM
    at guest address 0, a range that starts [k] bytes below 2^64 and ends inside
    RAM is accepted, and using the returned pointer is an out-of-bounds access
    to host memory, for reads and for writes. *)
Theorem vm_gpa_to_hva_wraps v h b size k n data :
  vm_mem_valid v h -> ram_at_zero v b size ->
  0 < k <= n -> n <= k + size -> k < 18446744073709551616 -> n < 18446744073709551616 ->
  size < 18446744073709551616 - k -> Z.of_nat (length data) = n ->
  let p := vm_gpa_to_hva v (18446744073709551616 - k) n in
  p <> Null /\ load p n h = Ub OutOfBounds /\ store p data h = Ub OutOfBounds.
Proof.
  intros [Hl Hr] H0 Hk Hn Hk64 Hn64 Hsz Hlen. unfold ram_at_zero in H0.
  assert (region_ok h (mk_region 0 (Ptr b 0) size 0 true)) as Hok by (by eapply Forall_lookup_1).
  destruct (Hok eq_refl) as (_ & Hs & Hs' & (b' & l & [= <-] & Hb & Hbl)). simpl in *.
  assert (vm_gpa_to_hva v (18446744073709551616 - k) n = Ptr b (18446744073709551616 - k)) as Hp.
  { unfold vm_gpa_to_hva. destruct (mem_regions v) as [|r l']; [done|]. simpl in H0.
    injection H0 as ->. simpl. rewrite decide_True.
    - simpl. f_equal. ulia.
    - unfold region_has. simpl. rewrite andb_true_iff, !Z.leb_le. ulia. }
  rewrite Hp. split; [done|]. unfold load, store. rewrite Hb, Hlen.
  replace (in_range l (18446744073709551616 - k) n) with false; [done|].
  symmetry. apply not_true_iff_false. rewrite in_range_spec. lia.
Qed.

Lemma free_slot_Some l i : free_slot l = Some i -> exists r, l !! i = Some r /\ rg_used r = false.
Proof.
  unfold free_slot. intros Hf. apply fmap_Some in Hf as ([i' r] & Hf & ->).
  apply list_find_Some in Hf as (Hi & Hu & _). eauto.
Qed.

Lemma free_slot_None l : free_slot l = None -> Forall (fun r => rg_used r = true) l.
Proof.
  unfold free_slot. rewrite fmap_None, list_find_None. intros Hf.
  eapply Forall_impl; [exact Hf|]. simpl. intros r. by destruct (rg_used r).
Qed.

(** Growing the heap by a fresh block keeps every region valid. *)
Lemma region_ok_insert h h' b l r :
  heap h !! b = None -> heap h' = <[b := l]> (heap h) -> region_ok h r -> region_ok h' r.
Proof.
  intros Hb Hh Hok Hu. destruct (Hok Hu) as (?&?&?&b'&l'&Hr&Hl'&?).
  split_and!; auto. exists b', l'. rewrite Hh, lookup_insert_ne by congruence. auto.
Qed.

Lemma vm_add_memory_region_run `{E : Env} s `{!HvMapLaws s} v gpa size h :
  vm_mem_valid v h -> 0 <= size < 18446744069414584320 ->
  exists ret v' h', vm_add_memory_region s v gpa size h = Ok (ret, v') h' /\
  vm_mem_valid v' h' /\
  (ret = -1 /\ v' = v /\ heap h' = heap h \/
   ret = 0 /\ exists i b, free_slot (mem_regions v) = Some i /\ heap h !! b = None /\
     heap h' = <[b := replicate (Z.to_nat size) 0]> (heap h) /\
     mem_regions v' = <[i := mk_region (u32 gpa / 4096 * 4096) (Ptr b 0) size (Z.of_nat i) true]> (mem_regions v) /\
     mem_size v' = mem_size v +64 size).
Proof.
  intros Hv Hsz. unfold vm_add_memory_region.
  destruct (free_slot (mem_regions v)) as [i|] eqn:Hfree; [|eexists _, _, _; split; [reflexivity|auto 10]].
  unfold calloc. set (h1 := called (EvCalloc size) h).
  rewrite bind_assoc. mrun.
  destruct (env_answer (trace h) (EvCalloc size)) eqn:Halloc.
  2:{ mrun. rewrite decide_True by done. eexists _, _, _.
      split; [reflexivity|]. split; [by eapply vm_mem_valid_heap; [|exact Hv]|]. auto. }
  destruct (alloc_block_spec (replicate (Z.to_nat size) 0) h1) as (b & Hab & Hfresh).
  mrun by exact Hab. rewrite decide_False by done.
  set (h2 := set_heap _ h1) in *.
  destruct (hvl_map (vm_hv v) (Z.of_nat i) (PAGE_ALIGN_DOWN gpa) (Ptr b 0) size h2)
    as (r & h3 & Hmap & Hr & Hh3).
  mrun by exact Hmap. destruct Hr as [-> | ->]; simpl.
  - eexists _, _, _. split; [reflexivity|]. destruct Hv as [Hlen Hreg]. split; [split|].
    + simpl. by rewrite length_insert.
    + simpl. apply Forall_insert.
      * eapply Forall_impl; [exact Hreg|]. intros r. by apply (region_ok_insert h h3 b (replicate (Z.to_nat size) 0)).
      * intros _. simpl. rewrite PAGE_ALIGN_DOWN_eq. split_and!; [ulia..|].
        exists b, (replicate (Z.to_nat size) 0). rewrite Hh3. simpl.
        rewrite lookup_insert_eq, length_replicate. split_and!; auto. lia.
    + right. split; [done|]. exists i, b. rewrite <- PAGE_ALIGN_DOWN_eq. split_and!; auto.
  - assert (delete b (heap h3) = heap h) as Hd
      by (rewrite Hh3; simpl; rewrite delete_insert_eq; by apply delete_id).
    mrun by (eapply free_ok; rewrite Hh3; apply lookup_insert_eq).
    eexists _, _, _. split; [reflexivity|].
    split; [eapply vm_mem_valid_heap; [|exact Hv]; simpl; auto|]. left. auto.
Qed.

(** [C31] [vm_add_memory_region] on every branch.  It always returns.  With all
    32 slots used, or when the allocation or the hypervisor mapping fails, it
    returns -1 with the table unchanged and the allocation given back; otherwise
    it returns 0 and records, in the first free slot, a fresh zeroed block of
    [size] bytes at the page of [gpa] (reduced to its low 32 bits by the page
    mask).  The table stays valid in every case. *)
Theorem vm_add_memory_region_spec `{E : Env} s `{!HvMapLaws s} v gpa size h :
  vm_mem_valid v h -> 0 <= size < 18446744069414584320 ->
  exists ret v' h', vm_add_memory_region s v gpa size h = Ok (ret, v') h' /\
  vm_mem_valid v' h' /\
  (ret = -1 /\ v' = v /\ heap h' = heap h \/
   ret = 0 /\ exists i b, free_slot (mem_regions v) = Some i /\ heap h !! b = None /\
     heap h' = <[b := replicate (Z.to_nat size) 0]> (heap h) /\
     mem_regions v' = <[i := mk_region (u32 gpa / 4096 * 4096) (Ptr b 0) size (Z.of_nat i) true]> (mem_regions v) /\
     mem_size v' = mem_size v +64 size).
Proof. intros. by apply vm_add_memory_region_run. Qed.

(** A VM right after [vm_create]: no region used. *)
Definition fresh_vm : vm :=
  mk_vm (mk_hv_vm 4 (KvmVmData 128)) VM_STATE_STOPPED (replicate VM_MAX_SLOTS zero_region) 0
    (replicate 8 None) 0 (replicate 16 None) 0 None None None 5.

Lemma fresh_vm_valid h : vm_mem_valid fresh_vm h.
Proof. split; [done|]. apply Forall_replicate. done. Qed.

Lemma vm_add_memory_region_spec_witness :
  exists v' h', vm_add_memory_region (E := good_env) (kvm_state (E := good_env) 3) fresh_vm 4097 64 empty_host
                = Ok (0, v') h' /\ vm_mem_valid v' h'.
Proof.
  destruct (vm_add_memory_region_spec (E := good_env) (kvm_state (E := good_env) 3) fresh_vm 4097 64
    empty_host (fresh_vm_valid _) ltac:(lia)) as (ret & v' & h' & Hrun & Hv & Hcase).
  exists v', h'. split; [|exact Hv].
  destruct Hcase as [(-> & _ & _)|[-> _]]; [|exact Hrun].
  exfalso. vm_compute in Hrun. discriminate Hrun.
Defined.

(** 64 bytes of RAM at guest address 0. *)
Definition small_vm : vm :=
  set_regions (<[0%nat := mk_region 0 (Ptr 1 0) 64 0 true]> (mem_regions fresh_vm)) 64 fresh_vm.
Definition small_host : host := mk_host {[ 1%positive := replicate 64 0 ]} [] 0.

Lemma small_vm_valid : vm_mem_valid small_vm small_host.
Proof.
  split; [done|]. apply Forall_insert; [apply Forall_replicate; done|].
  intros _. simpl. split_and!; [lia..|]. exists 1%positive, (replicate 64 0). done.
Qed.


(** A guest descriptor at address 2^64 - 8 of length 16. *)
Lemma vm_gpa_to_hva_wraps_witness :
  vm_gpa_to_hva small_vm 18446744073709551608 16 <> Null /\
  load (vm_gpa_to_hva small_vm 18446744073709551608 16) 16 small_host = Ub OutOfBounds.
Proof.
  destruct (vm_gpa_to_hva_wraps small_vm small_host 1 64 8 16 (replicate 16 0) small_vm_valid
    eq_refl ltac:(lia) ltac:(lia) ltac:(lia) ltac:(lia) ltac:(lia) eq_refl) as (H1 & H2 & _).
  split; [exact H1|exact H2].
Defined.
