(* ===== verification/Devices.v ===== *)
(** * The device framework (src/devices.c, include/devices.h)

    A device object is anything with an embedded [struct device] and a table
    of operations: the class [Device].  The framework below (creation,
    registration, lookup by guest address, MMIO dispatch, interrupts,
    destruction) is written and proved against that class; the machine's actual
    devices are plugged in by [Machine].

    Objects live in a store indexed by identifiers, which play the part of the
    C pointers: [vm->devices[]] holds identifiers, and using an identifier that
    is no longer in the store is a use after free. *)

From S2P Require Import Prelude HvTypes Host Utils VmMem.

(** [struct device].  [dev_vm] tells whether [dev->vm] points to the VM. *)
Record device := mk_device {
  dev_name : option string;
  dev_vm : bool;
  gpa_start : Z;
  gpa_end : Z;
  dev_size : Z;
  dev_irq : Z;
  irq_fd : Z
}.

Definition zero_device : device := mk_device None false 0 0 0 0 0.

Definition set_dev_vm (b : bool) (d : device) : device :=
  mk_device (dev_name d) b (gpa_start d) (gpa_end d) (dev_size d) (dev_irq d) (irq_fd d).
Definition set_irq_fd (fd : Z) (d : device) : device :=
  mk_device (dev_name d) (dev_vm d) (gpa_start d) (gpa_end d) (dev_size d) (dev_irq d) fd.
Definition set_window (s e n : Z) (d : device) : device :=
  mk_device (dev_name d) (dev_vm d) s e n (dev_irq d) (irq_fd d).
Definition set_name (n : option string) (d : device) : device :=
  mk_device n (dev_vm d) (gpa_start d) (gpa_end d) (dev_size d) (dev_irq d) (irq_fd d).

(** The access buffer: the caller's [uint64_t], as its eight bytes. *)
Definition buf_store (buf : list byte) (d : list byte) : M (list byte) :=
  if in_range buf 0 (Z.of_nat (length d)) then mret (splice buf 0 d) else fail_ub OutOfBounds.
Definition buf_load (n : Z) (buf : list byte) : M Z :=
  if in_range buf 0 n then mret (le_dec (slice buf 0 (Z.to_nat n))) else fail_ub OutOfBounds.

(** [struct device_ops].  A handler gets the VM behind [dev->vm] (if any), the
    offset, the caller's buffer and the access size; [destroy] returns [None]
    when it has freed the object itself. *)
Record device_ops (O : Type) := mk_device_ops {
  dop_name : string;
  dop_read : option (option vm -> Z -> list byte -> Z -> O -> M (Z * list byte * O));
  dop_write : option (option vm -> Z -> list byte -> Z -> O -> M (Z * O));
  dop_destroy : option (O -> M (option O))
}.
Arguments mk_device_ops {O}.
Arguments dop_name {O}.
Arguments dop_read {O}.
Arguments dop_write {O}.
Arguments dop_destroy {O}.

Class Device (O : Type) := {
  dbase : O -> device;
  dset : device -> O -> O;
  dops : O -> option (device_ops O)
}.

(** What the framework may rely on: handlers leave the object's own address
    window alone. *)
Class DeviceLaws (O : Type) `{Device O} : Prop := {
  dbase_dset d o : dbase (dset d o) = d;
  dops_read_window o ops f v off buf n h r buf' o' h' :
    dops o = Some ops -> dop_read ops = Some f -> f v off buf n o h = Ok (r, buf', o') h' ->
    gpa_start (dbase o') = gpa_start (dbase o) /\ gpa_end (dbase o') = gpa_end (dbase o);
  dops_write_window o ops f v off buf n h r o' h' :
    dops o = Some ops -> dop_write ops = Some f -> f v off buf n o h = Ok (r, o') h' ->
    gpa_start (dbase o') = gpa_start (dbase o) /\ gpa_end (dbase o') = gpa_end (dbase o)
}.

Section devices.
Context {E : Env} {O : Type} `{!Device O}.
Local Abbreviation store := (gmap positive O).

(** Dereference an object pointer. *)
Definition get_obj (st : store) (p : option positive) : M O :=
  match p with
  | None => fail_ub NullDeref
  | Some i => deref UseAfterFree (st !! i)
  end.

(** [device_create]: the base device; [priv_size] bytes of private data are
    allocated along. *)
Definition device_create (name : string) (priv_size : Z) : M (option device) :=
  dev ← perform (EvCalloc 72);
  if negb dev then mret None
  else
    n ← strdup name;
    match n with
    | None => mret None
    | Some _ =>
        ok ← (if priv_size >? 0 then perform (EvCalloc priv_size) else mret true);
        if negb ok then mret None
        else mret (Some (set_irq_fd (-1) (set_name n zero_device)))
    end.

Definition device_destroy (st : store) (dev : option positive) : M store :=
  match dev with
  | None => mret st
  | Some i =>
      o ← get_obj st dev;
      r ← match ops ← dops o; dop_destroy ops with
          | Some f => f o
          | None => mret (Some o)
          end;
      (* dev->irq_fd is read after ops->destroy *)
      o ← deref UseAfterFree r;
      (if irq_fd (dbase o) >=? 0 then perform (EvClose (irq_fd (dbase o))) else mret tt);;
      mret (delete i st)
  end.

Definition device_register (v : vm) (st : store) (dev : option positive) : M (Z * vm * store) :=
  match dev with
  | None => mret (-1, v, st)
  | Some i =>
      if num_devices v >=? VM_MAX_DEVICES then mret (-1, v, st)
      else
        o ← get_obj st dev;
        let o := dset (set_dev_vm true (dbase o)) o in
        if irq_fd (dbase o) <? 0 then
          fd ← perform EvEventfd;
          let o := dset (set_irq_fd fd (dbase o)) o in
          if fd <? 0 then mret (-1, v, <[i := o]> st)
          else mret (0, set_devices (<[Z.to_nat (num_devices v) := dev]> (vm_devices v))
                          (num_devices v + 1) v, <[i := o]> st)
        else mret (0, set_devices (<[Z.to_nat (num_devices v) := dev]> (vm_devices v))
                        (num_devices v + 1) v, <[i := o]> st)
  end.

(** [for (j = i; j < num_devices - 1; j++) devices[j] = devices[j + 1]] *)
Definition shift_down (l : list (option positive)) (i n : nat) : list (option positive) :=
  foldl (fun l j => <[j := default None (l !! S j)]> l) l (seq i (n - 1 - i)).

Definition live_devices (v : vm) : list (option positive) :=
  take (Z.to_nat (num_devices v)) (vm_devices v).

Definition remove_device (v : vm) (dev : option positive) : vm :=
  match list_find (eq dev) (live_devices v) with
  | Some (i, _) =>
      set_devices (shift_down (vm_devices v) i (Z.to_nat (num_devices v))) (num_devices v - 1) v
  | None => v
  end.

Definition device_unregister (v : vm) (st : store) (dev : option positive) : M (vm * store) :=
  match dev with
  | None => mret (v, st)
  | Some _ =>
      o ← get_obj st dev;
      if negb (dev_vm (dbase o)) then mret (v, st)
      else
        let v := remove_device v dev in
        st ← device_destroy st dev;
        mret (v, st)
  end.

(** The scan shared by [device_find_at_gpa] and [vm_find_device_at_gpa]: both
    window bounds are inclusive. *)
Fixpoint find_at_gpa (st : store) (gpa : Z) (l : list (option positive)) : M (option positive) :=
  match l with
  | [] => mret None
  | p :: l' =>
      o ← get_obj st p;
      if (gpa_start (dbase o) <=? gpa) && (gpa <=? gpa_end (dbase o)) then mret p
      else find_at_gpa st gpa l'
  end.

Definition device_find_at_gpa (v : vm) (st : store) (gpa : Z) : M (option positive) :=
  find_at_gpa st gpa (live_devices v).

(** The VM a handler sees through [dev->vm]. *)
Definition vm_of (v : vm) (d : device) : option vm := if dev_vm d then Some v else None.

Definition device_handle_mmio (v : vm) (st : store) (gpa : Z) (is_write : Z)
    (data : list byte) (size : Z) : M (Z * list byte * store) :=
  dev ← device_find_at_gpa v st gpa;
  match dev with
  | None => mret (-1, data, st)
  | Some i =>
      o ← get_obj st dev;
      let offset := gpa -64 gpa_start (dbase o) in
      if negb (is_write =? 0) then
        match ops ← dops o; dop_write ops with
        | Some f => '(ret, o) ← f (vm_of v (dbase o)) offset data size o;
                    mret (ret, data, <[i := o]> st)
        | None => mret (-1, data, st)
        end
      else
        match ops ← dops o; dop_read ops with
        | Some f => '(ret, data, o) ← f (vm_of v (dbase o)) offset data size o;
                    mret (ret, data, <[i := o]> st)
        | None => mret (-1, data, st)
        end
  end.

Definition device_assert_irq (dev : device) : M Z :=
  if irq_fd dev <? 0 then mret (-1)
  else
    n ← perform (EvWrite (irq_fd dev) (le_enc 8 1));
    mret (if n =? 8 then 0 else -1).

(** The value read back is discarded. *)
Definition device_deassert_irq (dev : device) : M Z :=
  if irq_fd dev <? 0 then mret (-1)
  else perform (EvRead (irq_fd dev) 8);; mret 0.
End devices.

(** ** Device tables *)

Section device_tables.
Context {E : Env} {O : Type} `{!Device O}.
Local Abbreviation store := (gmap positive O).

(** Every registered pointer is live; the arrays have the declared sizes. *)
Record devices_wf (v : vm) (st : store) : Prop := {
  dwf_length : length (vm_devices v) = 16%nat;
  dwf_num : 0 <= num_devices v <= VM_MAX_DEVICES;
  dwf_live : Forall (fun p => exists i o, p = Some i /\ st !! i = Some o) (live_devices v)
}.

Definition in_window (gpa : Z) (o : O) : Prop := gpa_start (dbase o) <= gpa <= gpa_end (dbase o).

Lemma find_at_gpa_spec st gpa l h :
  Forall (fun p => exists i o, p = Some i /\ st !! i = Some o) l ->
  exists r, find_at_gpa st gpa l h = Ok r h /\
    match r with
    | None => forall i o, Some i ∈ l -> st !! i = Some o -> ~ in_window gpa o
    | Some i => exists k o, l !! k = Some (Some i) /\ st !! i = Some o /\ in_window gpa o /\
        forall j i' o', (j < k)%nat -> l !! j = Some (Some i') -> st !! i' = Some o' -> ~ in_window gpa o'
    end.
Proof.
  induction 1 as [|p l (i & o & -> & Ho) Hl (r & Hr & IH)].
  { exists None. split; [done|]. by intros ? ? ?%elem_of_nil. }
  simpl. rewrite Ho. mrun. unfold in_window in *.
  destruct ((gpa_start (dbase o) <=? gpa) && (gpa <=? gpa_end (dbase o))) eqn:Hw.
  - exists (Some i). split; [done|]. exists 0%nat, o. bool_prop. split_and!; auto; lia.
  - exists r. split; [done|]. apply andb_false_iff in Hw as Hw'.
    rewrite !Z.leb_gt in Hw'. destruct r as [i'|].
    + destruct IH as (k & o' & Hk & Ho' & Hw2 & Hpre). exists (S k), o'. split_and!; auto; [lia..|].
      intros [|j] i2 o2 Hj Hl2 Ho2; simpl in Hl2; [simplify_eq; lia|].
      eapply Hpre; [|done..]. lia.
    + intros i2 o2 [?|?]%elem_of_cons Ho2; [simplify_eq; lia|eauto].
Qed.

(** Moving the tail down by one is deleting the entry. *)
Lemma shift_down_take l i n :
  (i < n)%nat -> (n <= length l)%nat ->
  take (n - 1) (shift_down l i n) = delete i (take n l) /\ length (shift_down l i n) = length l.
Proof.
  intros Hi Hn. unfold shift_down.
  assert (forall m, (i + m <= n - 1)%nat ->
    let l' := foldl (fun l j => <[j := default None (l !! S j)]> l) l (seq i m) in
    length l' = length l /\
    forall j, l' !! j = if decide (i <= j < i + m)%nat then l !! S j else l !! j) as Hloop.
  { induction m as [|m IH]; intros Hm.
    - simpl. split; [done|]. intros j. by rewrite decide_False by lia.
    - rewrite seq_S, foldl_app. simpl. destruct (IH ltac:(lia)) as [Hlen Hlk].
      split; [by rewrite length_insert|]. intros j.
      destruct (decide (j = i + m)%nat) as [->|Hne].
      + rewrite list_lookup_insert_eq by lia. rewrite Hlk, decide_False by lia.
        rewrite decide_True by lia.
        destruct (lookup_lt_is_Some_2 l (S (i + m)) ltac:(lia)) as [x Hx]. by rewrite Hx.
      + rewrite list_lookup_insert_ne by done. rewrite Hlk.
        destruct (decide (i <= j < i + m)%nat), (decide (i <= j < i + S m)%nat); auto; lia. }
  destruct (Hloop (n - 1 - i)%nat ltac:(lia)) as [Hlen Hlk]. split; [|done].
  apply list_eq. intros j. destruct (decide (j < n - 1)%nat) as [Hj|Hj].
  - rewrite lookup_take_lt by done. rewrite Hlk.
    destruct (decide (i <= j < i + (n - 1 - i))%nat) as [Hin|Hout].
    + rewrite list_lookup_delete_ge by lia. by rewrite lookup_take_lt by lia.
    + rewrite list_lookup_delete_lt by lia. by rewrite lookup_take_lt by lia.
  - rewrite lookup_take_ge by lia. symmetry. apply lookup_ge_None_2.
    rewrite length_delete; rewrite ?length_take; [lia|]. apply lookup_lt_is_Some_2.
    rewrite length_take. lia.
Qed.
End device_tables.

Lemma filter_ne_delete `{EqDecision A} (l : list A) k x :
  NoDup l -> l !! k = Some x -> filter (fun y => y <> x) l = delete k l.
Proof.
  revert k; induction l as [|a l IH]; intros k Hnd Hk; [done|].
  apply NoDup_cons in Hnd as [Hna Hnd]. destruct k as [|k]; simpl in *.
  - injection Hk as ->. rewrite filter_cons_False by auto.
    assert (forall l' : list A, x ∉ l' -> filter (fun y => y <> x) l' = l') as Hid.
    { induction l' as [|b l' IH']; intros Hx; [done|].
      apply not_elem_of_cons in Hx as [Hb Hx]. rewrite filter_cons_True by congruence. f_equal; auto. }
    auto.
  - rewrite filter_cons_True; [f_equal; auto|]. intros ->. apply Hna. by eapply list_elem_of_lookup_2.
Qed.

Section device_props.
Context {E : Env} {O : Type} `{!Device O}.
Local Abbreviation store := (gmap positive O).

Lemma remove_device_live v i :
  length (vm_devices v) = 16%nat -> 0 <= num_devices v <= VM_MAX_DEVICES ->
  NoDup (live_devices v) -> Some i ∈ live_devices v ->
  live_devices (remove_device v (Some i)) = filter (fun p => p <> Some i) (live_devices v) /\
  length (vm_devices (remove_device v (Some i))) = 16%nat /\
  num_devices (remove_device v (Some i)) = num_devices v - 1 /\ 0 < num_devices v.
Proof.
  unfold VM_MAX_DEVICES. intros Hlen Hnum Hnd Hin. unfold remove_device.
  destruct (list_find (eq (Some i)) (live_devices v)) as [[k p]|] eqn:Hf.
  2:{ apply list_find_None in Hf. rewrite Forall_forall in Hf. by apply Hf in Hin. }
  apply list_find_Some in Hf as (Hk & <- & _).
  assert (k < Z.to_nat (num_devices v))%nat as Hkn.
  { apply lookup_lt_Some in Hk. unfold live_devices in Hk. rewrite length_take in Hk. lia. }
  destruct (shift_down_take (vm_devices v) k (Z.to_nat (num_devices v)) Hkn ltac:(lia)) as [Ht Hl].
  unfold live_devices at 1. simpl. rewrite Z2Nat.inj_sub by lia. change (Z.to_nat 1) with 1%nat.
  rewrite Ht, Hl. split_and!; auto; [|lia].
  symmetry. by apply filter_ne_delete.
Qed.

(** Unregistering a device.  A device that was registered through
    [device_register] is destroyed and leaves the device array, whose other
    entries keep their order and stay live; a device whose [vm] pointer was never
    set is left exactly as it was, still registered. *)
Theorem device_unregister_spec v (st : store) i o h v' st' h' :
  devices_wf v st -> NoDup (live_devices v) -> Some i ∈ live_devices v -> st !! i = Some o ->
  device_unregister v st (Some i) h = Ok (v', st') h' ->
  if dev_vm (dbase o) then
    live_devices v' = filter (fun p => p <> Some i) (live_devices v) /\
    st' = delete i st /\ devices_wf v' st'
  else v' = v /\ st' = st /\ h' = h.
Proof.
  intros [Hlen Hnum Hlive] Hnd Hin Ho H. unfold device_unregister, get_obj in H.
  rewrite Ho in H. unfold deref in H. rewrite bind_ret in H.
  destruct (dev_vm (dbase o)) eqn:Hvm; simpl in H.
  2:{ minv H. simplify_eq. done. }
  apply bind_inv in H as (st1 & h1 & Hd & H). minv H. simplify_eq.
  assert (st' = delete i st) as ->.
  { unfold device_destroy, get_obj in Hd. rewrite Ho in Hd. unfold deref in Hd.
    rewrite bind_ret in Hd. apply bind_inv in Hd as (r & h2 & _ & Hd).
    destruct r as [o'|]; simpl in Hd; minv Hd; by simplify_eq. }
  destruct (remove_device_live v i Hlen Hnum Hnd Hin) as (Hl & Hlen' & Hn' & Hpos).
  split_and!; [done..|]. split; [done|unfold VM_MAX_DEVICES in *; lia|].
  rewrite Hl. apply Forall_forall. intros p Hp. apply list_elem_of_filter in Hp as [Hne Hp].
  rewrite Forall_forall in Hlive. destruct (Hlive p Hp) as (j & oj & -> & Hj).
  exists j, oj. split; [done|]. rewrite lookup_delete_ne by congruence. done.
Qed.

(** MMIO dispatch.  An access reaches the first registered device whose
    inclusive window contains the address, and no other: every other object is
    unchanged, the device's window does not move, and the device table stays
    well formed.  An access that no window contains returns -1 and changes
    nothing at all. *)
Theorem device_handle_mmio_spec `{!DeviceLaws O} v (st : store) gpa is_write data size h ret data' st' h' :
  devices_wf v st ->
  device_handle_mmio v st gpa is_write data size h = Ok (ret, data', st') h' ->
  devices_wf v st' /\
  ((exists k i o, live_devices v !! k = Some (Some i) /\ st !! i = Some o /\ in_window gpa o /\
      (forall j i' o', (j < k)%nat -> live_devices v !! j = Some (Some i') ->
         st !! i' = Some o' -> ~ in_window gpa o') /\
      (forall i', i' <> i -> st' !! i' = st !! i') /\
      exists o', st' !! i = Some o' /\ forall g, in_window g o' <-> in_window g o) \/
   ((forall i o, Some i ∈ live_devices v -> st !! i = Some o -> ~ in_window gpa o) /\
    ret = -1 /\ data' = data /\ st' = st /\ h' = h)).
Proof.
  intros Hwf H. pose proof Hwf as [Hlen Hnum Hlive]. unfold device_handle_mmio, device_find_at_gpa in H.
  destruct (find_at_gpa_spec st gpa _ h Hlive) as (r & Hr & Hspec).
  rewrite (bind_Ok _ _ _ _ _ Hr) in H. cbv beta iota zeta in H. destruct r as [i|].
  2:{ minv H. simplify_eq. split; [done|]. by right. }
  destruct Hspec as (k & o & Hk & Ho & Hw & Hpre). unfold get_obj in H. rewrite Ho in H.
  unfold deref in H. rewrite bind_ret in H.
  assert (forall o', gpa_start (dbase o') = gpa_start (dbase o) -> gpa_end (dbase o') = gpa_end (dbase o) ->
    devices_wf v (<[i := o']> st) /\
    exists k i0 o0, live_devices v !! k = Some (Some i0) /\ st !! i0 = Some o0 /\ in_window gpa o0 /\
      (forall j i' o', (j < k)%nat -> live_devices v !! j = Some (Some i') ->
         st !! i' = Some o' -> ~ in_window gpa o') /\
      (forall i', i' <> i0 -> <[i := o']> st !! i' = st !! i') /\
      exists o1, <[i := o']> st !! i0 = Some o1 /\ forall g, in_window g o1 <-> in_window g o0) as Hgoal.
  { intros o' Hs He. split.
    - split; [done..|]. eapply Forall_impl; [exact Hlive|]. intros p (j & oj & -> & Hj).
      destruct (decide (i = j)) as [<-|Hne].
      + exists i, o'. by rewrite lookup_insert_eq.
      + exists j, oj. by rewrite lookup_insert_ne.
    - exists k, i, o. split_and!; auto.
      + intros i' Hne. by rewrite lookup_insert_ne.
      + exists o'. rewrite lookup_insert_eq. split; [done|]. intros g. unfold in_window. by rewrite Hs, He. }
  assert (<[i := o]> st = st) as Hid by (by apply insert_id).
  destruct (Hgoal o eq_refl eq_refl) as [_ Hsame]. rewrite Hid in Hsame.
  destruct (dops o) as [ops|] eqn:Hops; simpl in H.
  2:{ destruct (negb (is_write =? 0)); minv H; simplify_eq; auto. }
  destruct (negb (is_write =? 0)).
  - destruct (dop_write ops) as [f|] eqn:Hf; minv H; simplify_eq; [|auto].
    destruct (dops_write_window o ops f _ _ _ _ _ _ _ _ Hops Hf Hm) as [Hs He].
    destruct (Hgoal _ Hs He). auto.
  - destruct (dop_read ops) as [f|] eqn:Hf; minv H; simplify_eq; [|auto].
    destruct (dops_read_window o ops f _ _ _ _ _ _ _ _ _ Hops Hf Hm) as [Hs He].
    destruct (Hgoal _ Hs He). auto.
Qed.
End device_props.
