(* ===== verification/MmioConsole.v ===== *)
(** * The MMIO debug console (src/devices/mmio.c)

    A UART16550-like register file: the transmit register feeds stdout and the
    log file, the divisor latch is banked over registers 0 and 1 by LCR bit 7. *)

From S2P Require Import Prelude HvTypes Host VmMem Devices.

Definition UART_RX : Z := 0.
Definition UART_TX : Z := 0.
Definition UART_IER : Z := 1.
Definition UART_IIR : Z := 2.
Definition UART_FCR : Z := 2.
Definition UART_LCR : Z := 3.
Definition UART_MCR : Z := 4.
Definition UART_LSR : Z := 5.
Definition UART_MSR : Z := 6.
Definition UART_SCR : Z := 7.

Definition UART_LSR_DR : Z := 1.
Definition UART_LSR_THRE : Z := 32.
Definition UART_LSR_TEMT : Z := 64.
Definition UART_IIR_NO_INT : Z := 1.

Definition MMIO_CONSOLE_GPA : Z := 0x90000000.
Definition MMIO_CONSOLE_SIZE : Z := 0x1000.

Record mmio_console_state := mk_mcs {
  rx_buf : Z; tx_buf : Z; ier : Z; iir : Z; lcr : Z; mcr : Z; lsr : Z; msr : Z; scr : Z;
  dll : Z; dlm : Z; dlab : Z; stdin_fd : Z; log_file : bool
}.

(** The device object: base device and private data. *)
Record mmio_console := mk_mmio_console { mc_dev : device; mc_st : mmio_console_state }.

Definition mc_with (o : mmio_console) (s : mmio_console_state) : mmio_console :=
  mk_mmio_console (mc_dev o) s.

Definition set_lsr x s := mk_mcs (rx_buf s) (tx_buf s) (ier s) (iir s) (lcr s) (mcr s) x (msr s) (scr s) (dll s) (dlm s) (dlab s) (stdin_fd s) (log_file s).
Definition set_ier x s := mk_mcs (rx_buf s) (tx_buf s) x (iir s) (lcr s) (mcr s) (lsr s) (msr s) (scr s) (dll s) (dlm s) (dlab s) (stdin_fd s) (log_file s).
Definition set_lcr x d s := mk_mcs (rx_buf s) (tx_buf s) (ier s) (iir s) x (mcr s) (lsr s) (msr s) (scr s) (dll s) (dlm s) d (stdin_fd s) (log_file s).
Definition set_mcr x s := mk_mcs (rx_buf s) (tx_buf s) (ier s) (iir s) (lcr s) x (lsr s) (msr s) (scr s) (dll s) (dlm s) (dlab s) (stdin_fd s) (log_file s).
Definition set_scr x s := mk_mcs (rx_buf s) (tx_buf s) (ier s) (iir s) (lcr s) (mcr s) (lsr s) (msr s) x (dll s) (dlm s) (dlab s) (stdin_fd s) (log_file s).
Definition set_dll x s := mk_mcs (rx_buf s) (tx_buf s) (ier s) (iir s) (lcr s) (mcr s) (lsr s) (msr s) (scr s) x (dlm s) (dlab s) (stdin_fd s) (log_file s).
Definition set_dlm x s := mk_mcs (rx_buf s) (tx_buf s) (ier s) (iir s) (lcr s) (mcr s) (lsr s) (msr s) (scr s) (dll s) x (dlab s) (stdin_fd s) (log_file s).

Section mmio_console.
Context {E : Env}.

(** The register a read returns, and the state after it. *)
Definition uart_read (offset : Z) (s : mmio_console_state) : Z * mmio_console_state :=
  if offset =? UART_RX then
    if negb (dlab s =? 0) then (dll s, s)
    else (rx_buf s, set_lsr (u8 (Z.land (lsr s) (Z.lnot UART_LSR_DR))) s)
  else if offset =? UART_IER then
    ((if negb (dlab s =? 0) then dlm s else ier s), s)
  else if offset =? UART_IIR then (iir s, s)
  else if offset =? UART_LCR then (lcr s, s)
  else if offset =? UART_MCR then (mcr s, s)
  else if offset =? UART_LSR then (lsr s, s)
  else if offset =? UART_MSR then (msr s, s)
  else if offset =? UART_SCR then (scr s, s)
  else (0, s).

Definition mmio_console_read (_ : option vm) (offset : Z) (data : list byte) (size : Z)
    (o : mmio_console) : M (Z * list byte * mmio_console) :=
  let '(val, s) := uart_read offset (mc_st o) in
  data ← buf_store data [val];
  mret (0, data, mc_with o s).

Definition uart_write (offset val : Z) (s : mmio_console_state) : M mmio_console_state :=
  if offset =? UART_TX then
    if negb (dlab s =? 0) then mret (set_dll val s)
    else
      putchar val;;
      (if log_file s then perform (EvLogPutc val) else mret tt);;
      mret (set_lsr (u8 (Z.lor (lsr s) (Z.lor UART_LSR_TEMT UART_LSR_THRE))) s)
  else if offset =? UART_IER then
    mret (if negb (dlab s =? 0) then set_dlm val s else set_ier val s)
  else if offset =? UART_FCR then mret s
  else if offset =? UART_LCR then
    mret (set_lcr val (if Z.land val 0x80 =? 0 then 0 else 1) s)
  else if offset =? UART_MCR then mret (set_mcr val s)
  else if offset =? UART_SCR then mret (set_scr val s)
  else mret s.

Definition mmio_console_write (_ : option vm) (offset : Z) (data : list byte) (size : Z)
    (o : mmio_console) : M (Z * mmio_console) :=
  val ← buf_load 1 data;
  s ← uart_write offset val (mc_st o);
  mret (0, mc_with o s).

Definition mmio_console_destroy (o : mmio_console) : M (option mmio_console) :=
  let s := mc_st o in
  (if stdin_fd s >=? 0 then perform (EvClose (stdin_fd s)) else mret tt);;
  (if log_file s then perform EvLogFclose else mret tt);;
  mret (Some o).

Definition mmio_console_ops : device_ops mmio_console :=
  mk_device_ops "mmio-console" (Some mmio_console_read) (Some mmio_console_write)
    (Some mmio_console_destroy).

Definition mmio_console_create : M (option mmio_console) :=
  dev ← device_create "mmio-console" 32;
  match dev with
  | None => mret None
  | Some d =>
      ok ← perform (EvFopen "vmm_console.log" "w");
      (if ok : bool then perform (EvLogPuts "=== Vibe-VMM Console Log ===") else mret tt);;
      let s := mk_mcs 0 0 0 UART_IIR_NO_INT 0 0 (Z.lor UART_LSR_TEMT UART_LSR_THRE) 0 0 0 0 0
                 0 (* STDIN_FILENO *) ok in
      mret (Some (mk_mmio_console
        (set_window MMIO_CONSOLE_GPA (MMIO_CONSOLE_GPA + MMIO_CONSOLE_SIZE - 1) MMIO_CONSOLE_SIZE d) s))
  end.
End mmio_console.

#[export] Instance mmio_console_device `{E : Env} : Device mmio_console := {|
  dbase := mc_dev;
  dset d o := mk_mmio_console d (mc_st o);
  dops _ := Some mmio_console_ops
|}.

(** ** The register file's invariant *)

Record uart_wf (s : mmio_console_state) : Prop := {
  uw_lcr : is_u8 (lcr s);
  uw_dlab : dlab s = if Z.land (lcr s) 0x80 =? 0 then 0 else 1;
  uw_lsr : lsr s = Z.lor UART_LSR_TEMT UART_LSR_THRE;
  uw_iir : iir s = UART_IIR_NO_INT;
  uw_rx : rx_buf s = 0
}.

(** A guest access: a read, or a write of a byte, at a register offset. *)
Inductive uart_access := UartRead (offset : Z) | UartWrite (offset val : Z).

Section uart_runs.
Context {E : Env}.

(** The handler calls for a sequence of accesses; reads collect the byte
    returned to the guest. *)
Fixpoint uart_run (l : list uart_access) (o : mmio_console) : M (list byte * mmio_console) :=
  match l with
  | [] => mret ([], o)
  | UartRead off :: l' =>
      '(_, data, o) ← mmio_console_read None off (replicate 8 0) 1 o;
      '(rs, o) ← uart_run l' o;
      mret (default 0 (head data) :: rs, o)
  | UartWrite off v :: l' =>
      '(_, o) ← mmio_console_write None off (le_enc 8 v) 1 o;
      uart_run l' o
  end.

(** The abstract console: what goes out, given the DLAB bit. *)
Fixpoint tx_stream (dlab : bool) (l : list uart_access) : list byte :=
  match l with
  | [] => []
  | UartRead _ :: l' => tx_stream dlab l'
  | UartWrite off v :: l' =>
      if off =? UART_LCR then tx_stream (negb (Z.land (u8 v) 0x80 =? 0)) l'
      else if (off =? UART_TX) && negb dlab then u8 v :: tx_stream dlab l'
      else tx_stream dlab l'
  end.

Lemma uart_read_wf off s : uart_wf s -> snd (uart_read off s) = s.
Proof.
  intros [H1 _ H3 _ _]. assert (forall x, x = lsr s -> set_lsr x s = s) as Hid by (intros x ->; by destruct s).
  unfold uart_read. repeat case_match; try done. apply Hid. by rewrite H3.
Qed.

Lemma mmio_console_read_run off s o :
  uart_wf (mc_st o) -> forall h,
  mmio_console_read None off (replicate 8 0) s o h =
    Ok (0, fst (uart_read off (mc_st o)) :: replicate 7 0, o) h.
Proof.
  intros Hwf h. unfold mmio_console_read. pose proof (uart_read_wf off _ Hwf) as Hs.
  destruct (uart_read off (mc_st o)) as [val s'] eqn:Hr. simpl in *. subst.
  unfold mc_with. by destruct o.
Qed.

(** One write: the state stays well formed; a transmitted byte goes to both
    sinks, and nothing else does. *)
Lemma uart_write_step off v s h :
  uart_wf s -> is_u8 v -> exists s' h', uart_write off v s h = Ok s' h' /\ uart_wf s' /\
    log_file s' = log_file s /\ heap h' = heap h /\
    let tx := (off =? UART_TX) && (dlab s =? 0) in
    stdout_bytes (trace h') = stdout_bytes (trace h) ++ (if tx then [v] else []) /\
    log_bytes (trace h') = log_bytes (trace h) ++ (if tx && log_file s then [v] else []) /\
    dlab s' = if off =? UART_LCR then (if Z.land v 0x80 =? 0 then 0 else 1) else dlab s.
Proof.
  intros Hwf Hv. pose proof Hwf as [H1 H2 H3 H4 H5]. unfold uart_write.
  destruct (off =? UART_TX) eqn:Htx; bool_prop; [subst; destruct (dlab s =? 0) eqn:Hd|];
    simpl; rewrite ?app_nil_r.
  - rewrite H3. simpl. mrun. destruct (log_file s) eqn:Hlog.
    + mrun. eexists _, _. split; [reflexivity|]. split; [split; try done|].
      simpl; rewrite ?app_nil_r; auto 10.
    + mrun. eexists _, _. split; [reflexivity|]. split; [split; try done|].
      simpl; rewrite ?app_nil_r; auto 10.
  - eexists _, _. split; [reflexivity|]. split; [split; done|]. auto 10.
  - destruct (off =? UART_LCR) eqn:Hlcr; bool_prop; [subst; simpl|];
      repeat match goal with |- context [if ?b then _ else _] =>
        lazymatch b with context [Z.land] => fail | _ => destruct b eqn:? end end;
      bool_prop; subst; try done;
      eexists _, _; (split; [reflexivity|]); (split; [split; auto|]); auto 10.
Qed.
End uart_runs.

(** [C28] The console is a faithful byte stream.  From any well-formed state,
    every sequence of guest reads and writes runs without undefined behaviour,
    keeps the invariant (so LSR always reads "transmitter ready", and DLAB is
    LCR bit 7), and puts on stdout, and on the log when it is open, exactly the
    bytes written to the transmit register while DLAB was clear, in order. *)
Theorem uart_stream `{E : Env} l o h :
  uart_wf (mc_st o) ->
  exists rs o' h', uart_run l o h = Ok (rs, o') h' /\ uart_wf (mc_st o') /\
    stdout_bytes (trace h') = stdout_bytes (trace h) ++ tx_stream (negb (dlab (mc_st o) =? 0)) l /\
    log_bytes (trace h') = log_bytes (trace h) ++
      (if log_file (mc_st o) then tx_stream (negb (dlab (mc_st o) =? 0)) l else []).
Proof.
  revert o h. induction l as [|[off|off v] l IH]; intros o h Hwf; cbn [uart_run tx_stream].
  - eexists _, _, _. split; [reflexivity|]. rewrite app_nil_r. case_match; rewrite ?app_nil_r; auto.
  - mrun by (by apply mmio_console_read_run). simpl.
    destruct (IH o h Hwf) as (rs & o' & h' & Hrun & Hrest).
    mrun by exact Hrun. eexists _, _, _. split; [reflexivity|]. exact Hrest.
  - unfold mmio_console_write. rewrite bind_assoc.
    mrun by (unfold buf_load, in_range; rewrite length_le_enc; reflexivity).
    set (b := le_dec (slice (le_enc 8 v) 0 (Z.to_nat 1))).
    assert (b = u8 v) as Hb by (unfold b, slice; simpl; unfold u8; lia).
    rewrite Hb. clear b Hb. rewrite bind_assoc.
    destruct (uart_write_step off (u8 v) (mc_st o) h Hwf (u8_range v))
      as (s' & h1 & Hw & Hwf' & Hlog & _ & Hout & Hlogb & Hd).
    mrun by exact Hw. mrun.
    destruct (IH (mc_with o s') h1 Hwf') as (rs & o' & h' & Hrun & Hwf2 & Hout2 & Hlog2).
    eexists _, _, _. split; [exact Hrun|]. split; [done|]. simpl in *.
    rewrite Hout2, Hlog2, Hout, Hlogb, Hlog, Hd.
    destruct (off =? UART_LCR) eqn:Hlcr; bool_prop.
    + subst off. simpl. rewrite !app_nil_r. destruct (Z.land (u8 v) 128 =? 0); done.
    + destruct (off =? UART_TX); simpl; [|by rewrite !app_nil_r].
      destruct (dlab (mc_st o) =? 0); simpl; [|by rewrite !app_nil_r].
      rewrite <- !app_assoc. simpl. by destruct (log_file (mc_st o)).
Qed.

Lemma mmio_console_create_wf `{E : Env} h o h' :
  mmio_console_create h = Ok (Some o) h' ->
  uart_wf (mc_st o) /\ gpa_start (mc_dev o) = MMIO_CONSOLE_GPA /\
  gpa_end (mc_dev o) = MMIO_CONSOLE_GPA + MMIO_CONSOLE_SIZE - 1 /\
  dev_vm (mc_dev o) = false /\ irq_fd (mc_dev o) = -1 /\ dlab (mc_st o) = 0.
Proof.
  unfold mmio_console_create, device_create, strdup. intros H.
  apply bind_inv in H as (d & h1 & Hc & H). destruct d as [d|]; [|by minv H].
  assert (irq_fd d = -1 /\ dev_vm d = false) as [Hirq Hvm] by (minv Hc; by simplify_eq).
  clear Hc. minv H; simplify_eq; simpl; (split; [by split|]); auto.
Qed.

Definition demo_console : mmio_console :=
  mk_mmio_console (set_window MMIO_CONSOLE_GPA (MMIO_CONSOLE_GPA + 4095) 4096 (set_irq_fd (-1) zero_device))
    (mk_mcs 0 0 0 1 0 0 96 0 0 0 0 0 0 true).

(** "H" sent, the divisor latch programmed (not transmitted), then "i". *)
Definition demo_accesses : list uart_access :=
  [UartWrite 0 72; UartWrite 3 128; UartWrite 0 12; UartWrite 3 3; UartRead 5; UartWrite 0 105].

Lemma uart_stream_witness :
  uart_wf (mc_st demo_console) /\
  exists rs o' h', uart_run (E := good_env) demo_accesses demo_console empty_host = Ok (rs, o') h' /\
    stdout_bytes (trace h') = [72; 105] /\ log_bytes (trace h') = [72; 105].
Proof.
  assert (uart_wf (mc_st demo_console)) as Hwf by (split; done).
  split; [exact Hwf|].
  destruct (uart_stream (E := good_env) demo_accesses demo_console empty_host Hwf)
    as (rs & o' & h' & Hrun & _ & Hout & Hlog).
  exists rs, o', h'. split; [exact Hrun|]. split; [exact Hout|exact Hlog].
Defined.
