(* ===== verification/Virtio.v ===== *)
(** * The virtio framework (src/devices/virtio.c, include/virtio.h)

    Virtqueues over rings in host memory, and the register interface every
    virtio device presents to its driver.  A concrete device supplies the three
    callbacks of [struct virtio_dev]; [VirtioLaws] states what the framework
    needs from them. *)

From S2P Require Import Prelude HvTypes Host GuestMem VmMem Devices.

(** Values of [enum virtio_device_id] and the constants used below. *)
Definition VIRTIO_ID_NET : Z := 1.
Definition VIRTIO_ID_BLOCK : Z := 2.
Definition VIRTIO_ID_CONSOLE : Z := 3.
Definition VIRTIO_F_VERSION_1 : Z := 32.
Definition VIRTIO_MMIO_MAGIC_VALUE : Z := 0x74726976.
Definition VRING_DESC_F_NEXT : Z := 1.
Definition VIRTIO_NUM_QUEUES : nat := 8.

(** [struct virtqueue].  [vq_dev] tells whether [vq->dev] points to the device
    that embeds the queue. *)
Record virtqueue := mk_virtqueue {
  vq_dev : bool;
  vq_index : Z; vq_size : Z;
  desc_gpa : Z; avail_gpa : Z; used_gpa : Z;
  vq_desc : ptr; vq_avail : ptr; vq_used : ptr;
  last_avail_idx : Z; last_used_idx : Z;
  vq_ready : Z
}.

Definition zero_virtqueue : virtqueue := mk_virtqueue false 0 0 0 0 0 Null Null Null 0 0 0.

Definition set_last_avail (x : Z) (q : virtqueue) : virtqueue :=
  mk_virtqueue (vq_dev q) (vq_index q) (vq_size q) (desc_gpa q) (avail_gpa q) (used_gpa q)
    (vq_desc q) (vq_avail q) (vq_used q) x (last_used_idx q) (vq_ready q).
Definition set_last_used (x : Z) (q : virtqueue) : virtqueue :=
  mk_virtqueue (vq_dev q) (vq_index q) (vq_size q) (desc_gpa q) (avail_gpa q) (used_gpa q)
    (vq_desc q) (vq_avail q) (vq_used q) (last_avail_idx q) x (vq_ready q).

(** [struct virtio_dev] without its callbacks; [P] is the type behind [priv]. *)
Record virtio_dev (P : Type) := mk_virtio_dev {
  vd_device : device;
  vd_device_id : Z;
  device_features : Z;
  driver_features : Z;
  device_status : Z;
  queues : list virtqueue;     (* struct virtqueue queues[8] *)
  num_queues : Z;
  vd_priv : P
}.
Arguments mk_virtio_dev {P}.
Arguments vd_device {P}.
Arguments vd_device_id {P}.
Arguments device_features {P}.
Arguments driver_features {P}.
Arguments device_status {P}.
Arguments queues {P}.
Arguments num_queues {P}.
Arguments vd_priv {P}.

Section setters.
Context {P : Type}.
Implicit Types v : virtio_dev P.
Definition set_vdevice (d : device) v := mk_virtio_dev d (vd_device_id v) (device_features v) (driver_features v) (device_status v) (queues v) (num_queues v) (vd_priv v).
Definition set_driver_features (x : Z) v := mk_virtio_dev (vd_device v) (vd_device_id v) (device_features v) x (device_status v) (queues v) (num_queues v) (vd_priv v).
Definition set_status (x : Z) v := mk_virtio_dev (vd_device v) (vd_device_id v) (device_features v) (driver_features v) x (queues v) (num_queues v) (vd_priv v).
Definition set_queue (i : nat) (q : virtqueue) v := mk_virtio_dev (vd_device v) (vd_device_id v) (device_features v) (driver_features v) (device_status v) (<[i := q]> (queues v)) (num_queues v) (vd_priv v).
Definition set_priv (p : P) v := mk_virtio_dev (vd_device v) (vd_device_id v) (device_features v) (driver_features v) (device_status v) (queues v) (num_queues v) p.
End setters.

(** The callbacks of [struct virtio_dev].  [queue_notify] gets [device.vm] and
    the index of the notified queue. *)
Record virtio_fns (P : Type) := mk_virtio_fns {
  vf_queue_notify : option (option vm -> nat -> virtio_dev P -> M (Z * virtio_dev P));
  vf_config_read : option (virtio_dev P -> Z -> list byte -> Z -> M (Z * list byte));
  vf_config_write : option (virtio_dev P -> Z -> list byte -> Z -> M (Z * virtio_dev P))
}.
Arguments mk_virtio_fns {P}.
Arguments vf_queue_notify {P}.
Arguments vf_config_read {P}.
Arguments vf_config_write {P}.

(** A left shift of an [unsigned int]: undefined in C from 32 bits on, where
    the value is whatever the compiler produced. *)
Definition shl_u32 (undef x n : Z) : Z := if n <? 32 then u32 (Z.shiftl x n) else u32 undef.

(** [virtio_init]: the device is cleared, then its identity is set.  [p] is the
    private pointer, installed by the caller just after. *)
Definition virtio_init {P} (undef : Z) (p : P) (id : Z) : virtio_dev P :=
  mk_virtio_dev zero_device id (shl_u32 undef 1 VIRTIO_F_VERSION_1) 0 0
    (replicate VIRTIO_NUM_QUEUES zero_virtqueue) 0 p.

Definition virtqueue_setup (dev : bool) (index : Z) : virtqueue :=
  mk_virtqueue dev index 0 0 0 0 Null Null Null 0 0 0.

Definition virtqueue_cleanup (q : virtqueue) : virtqueue :=
  mk_virtqueue (vq_dev q) (vq_index q) (vq_size q) (desc_gpa q) (avail_gpa q) (used_gpa q)
    Null Null Null (last_avail_idx q) (last_used_idx q) 0.

Definition virtio_cleanup {P} (v : virtio_dev P) : virtio_dev P :=
  mk_virtio_dev (vd_device v) (vd_device_id v) (device_features v) (driver_features v) (device_status v)
    (imap (fun i q => if (Z.of_nat i <? num_queues v) then virtqueue_cleanup q else q) (queues v))
    (num_queues v) (vd_priv v).

(** ** Ring layout

    [struct vring_desc] is 16 bytes; [vring_avail] is flags, idx, then 16-bit
    entries; [vring_used] is flags, idx, then 8-byte entries. *)
Definition desc_addr (p : ptr) : M Z := load_le 8 p 0.
Definition desc_len (p : ptr) : M Z := load_le 4 p 8.
Definition desc_flags (p : ptr) : M Z := load_le 2 p 12.
Definition desc_next (p : ptr) : M Z := load_le 2 p 14.
Definition desc_ptr (q : virtqueue) (i : Z) : ptr := padd (vq_desc q) (16 * i).

(** [if (!(desc->flags & VRING_DESC_F_NEXT)) ...; desc = &vq->desc[desc->next]]:
    the next descriptor of a chain. *)
Definition chain_next (q : virtqueue) (desc : ptr) : M (option ptr) :=
  flags ← desc_flags desc;
  if Z.land flags VRING_DESC_F_NEXT =? 0 then mret None
  else next ← desc_next desc; mret (Some (desc_ptr q next)).

(** Unsigned remainder: dividing by zero is undefined. *)
Definition umod (x y : Z) : M Z := if y =? 0 then fail_ub DivByZero else mret (x mod y).

Section queue_ops.
Context {E : Env}.

Definition virtqueue_pop (q : virtqueue) : M (ptr * virtqueue) :=
  if (vq_ready q =? 0) || bool_decide (vq_desc q = Null) || bool_decide (vq_avail q = Null)
  then mret (Null, q)
  else
    avail_idx ← load_le 2 (vq_avail q) 2;
    if last_avail_idx q =? avail_idx then mret (Null, q)
    else
      slot ← umod (last_avail_idx q) (vq_size q);
      desc_idx ← load_le 2 (vq_avail q) (4 + 2 * slot);
      mret (desc_ptr q desc_idx, set_last_avail (u16 (last_avail_idx q + 1)) q).

(** [dev] is the device behind [vq->dev]. *)
Definition virtqueue_notify (dev : device) (q : virtqueue) : M unit :=
  if vq_dev q then device_assert_irq dev;; mret tt else fail_ub NullDeref.

Definition virtqueue_push (dev : device) (q : virtqueue) (id len : Z) : M virtqueue :=
  if (vq_ready q =? 0) || bool_decide (vq_used q = Null) then mret q
  else
    used_idx ← load_le 2 (vq_used q) 2;
    slot ← umod used_idx (vq_size q);
    store_le 4 (vq_used q) (4 + 8 * slot) id;;
    store_le 4 (vq_used q) (4 + 8 * slot + 4) len;;
    idx ← load_le 2 (vq_used q) 2;
    store_le 2 (vq_used q) 2 (idx + 1);;
    let q := set_last_used (u16 (last_used_idx q + 1)) q in
    virtqueue_notify dev q;;
    mret q.
End queue_ops.

(** ** The MMIO registers *)

Section mmio.
Context {E : Env} {P : Type} (fns : virtio_fns P).

(** The queue the register file exposes: the last one set up. *)
Definition current_queue (v : virtio_dev P) : M virtqueue :=
  deref OutOfBounds (queues v !! Z.to_nat (if num_queues v >? 0 then num_queues v - 1 else 0)).

Definition virtio_mmio_read (v : virtio_dev P) (offset : Z) (data : list byte) (size : Z)
    : M (Z * list byte) :=
  if negb (size =? 4) then mret (-1, data)
  else
    let reply val := data' ← buf_store data (le_enc 4 val); mret (0, data') in
    if offset =? 0x00 then reply VIRTIO_MMIO_MAGIC_VALUE
    else if offset =? 0x04 then reply 1
    else if offset =? 0x08 then reply (vd_device_id v)
    else if offset =? 0x0C then reply 0
    else if offset =? 0x10 then reply (device_features v)
    else if offset =? 0x14 then reply 0
    else if offset =? 0x20 then reply 32
    else if offset =? 0x24 then q ← current_queue v; reply (vq_size q)
    else if offset =? 0x30 then q ← current_queue v; reply (u32 (vq_ready q))
    else if offset =? 0x38 then reply 1
    else if offset =? 0x40 then reply (device_status v)
    else
      match vf_config_read fns with
      | Some f => if offset >=? 0x100 then f v (offset - 0x100) data size else reply 0
      | None => reply 0
      end.

Definition virtio_mmio_write (vmp : option vm) (v : virtio_dev P) (offset : Z) (data : list byte)
    (size : Z) : M (Z * virtio_dev P) :=
  val ← buf_load 4 data;
  if negb (size =? 4) then mret (-1, v)
  else if offset =? 0x14 then mret (0, v)
  else if offset =? 0x18 then mret (0, set_driver_features val v)
  else if offset =? 0x1C then mret (0, v)
  else if offset =? 0x20 then mret (0, v)
  else if offset =? 0x24 then mret (0, v)
  else if offset =? 0x28 then mret (0, v)
  else if offset =? 0x30 then mret (0, v)
  else if offset =? 0x34 then
    match vf_queue_notify fns with
    | Some f =>
        (* &vdev->queues[val & 0xFF] *)
        let i := Z.to_nat (Z.land val 0xFF) in
        _ ← deref OutOfBounds (queues v !! i);
        '(_, v) ← f vmp i v;
        mret (0, v)
    | None => mret (0, v)
    end
  else if offset =? 0x38 then device_deassert_irq (vd_device v);; mret (0, v)
  else if offset =? 0x40 then mret (0, set_status (u8 val) v)
  else
    match vf_config_write fns with
    | Some f => if offset >=? 0x100 then f v (offset - 0x100) data size else mret (0, v)
    | None => mret (0, v)
    end.

(** The [read]/[write] entries every virtio device's table points to. *)
Definition virtio_dev_read (_ : option vm) (offset : Z) (data : list byte) (size : Z)
    (v : virtio_dev P) : M (Z * list byte * virtio_dev P) :=
  '(r, data) ← virtio_mmio_read v offset data size; mret (r, data, v).
Definition virtio_dev_write (vmp : option vm) (offset : Z) (data : list byte) (size : Z)
    (v : virtio_dev P) : M (Z * virtio_dev P) :=
  virtio_mmio_write vmp v offset data size.
End mmio.

(** ** What a virtqueue promises

    The abstract queue: the descriptor indices the driver has made available
    and the device has not popped, and the used ring as a log of completions. *)

Definition avail_idx (h : host) (q : virtqueue) : Z := field_at h 2 (vq_avail q) 2.
Definition avail_entry (h : host) (q : virtqueue) (n : Z) : Z :=
  field_at h 2 (vq_avail q) (4 + 2 * (n mod vq_size q)).
Definition used_idx (h : host) (q : virtqueue) : Z := field_at h 2 (vq_used q) 2.
Definition used_elem (h : host) (q : virtqueue) (slot : Z) : Z * Z :=
  (field_at h 4 (vq_used q) (4 + 8 * slot), field_at h 4 (vq_used q) (4 + 8 * slot + 4)).

Definition pending_count (h : host) (q : virtqueue) : nat :=
  Z.to_nat (u16 (avail_idx h q - last_avail_idx q)).
Definition vq_pending (h : host) (q : virtqueue) : list Z :=
  map (fun k => avail_entry h q (u16 (last_avail_idx q + Z.of_nat k))) (seq 0 (pending_count h q)).

(** A queue whose three rings lie in live memory, the used ring apart from the
    two the driver owns. *)
Record queue_ok (h : host) (q : virtqueue) : Prop := {
  qo_ready : vq_ready q <> 0;
  qo_size : 0 < vq_size q < 65536;
  qo_last : is_u16 (last_avail_idx q);
  qo_bytes : heap_bytes h;
  qo_desc : range_ok h (vq_desc q) (16 * vq_size q);
  qo_avail : range_ok h (vq_avail q) (4 + 2 * vq_size q);
  qo_used : range_ok h (vq_used q) (4 + 8 * vq_size q);
  qo_used_avail : disjoint_ranges (vq_used q) (4 + 8 * vq_size q) (vq_avail q) (4 + 2 * vq_size q);
  qo_used_desc : disjoint_ranges (vq_used q) (4 + 8 * vq_size q) (vq_desc q) (16 * vq_size q)
}.

(** Two handles of the same rings. *)
Definition same_rings (q q' : virtqueue) : Prop :=
  vq_dev q' = vq_dev q /\ vq_index q' = vq_index q /\ vq_size q' = vq_size q /\
  vq_desc q' = vq_desc q /\ vq_avail q' = vq_avail q /\ vq_used q' = vq_used q /\
  vq_ready q' = vq_ready q.

Lemma range_ok_not_null h p n : range_ok h p n -> p <> Null.
Proof. by intros (b & o & l & -> & _). Qed.

(** The rings are untouched when memory outside them changes. *)
Lemma queue_ok_frame h h' q :
  queue_ok h q -> heap_bytes h' ->
  (forall p n, range_ok h p n -> range_ok h' p n) -> queue_ok h' q.
Proof. intros [] Hb Hr. split; auto. Qed.

Lemma queue_ok_rings h q q' :
  same_rings q q' -> is_u16 (last_avail_idx q') -> queue_ok h q -> queue_ok h q'.
Proof.
  intros (_ & _ & Hs & Hd & Ha & Hu & Hr) Hl []. split; rewrite ?Hs, ?Hd, ?Ha, ?Hu, ?Hr; auto.
Qed.

Section queue_props.
Context {E : Env}.

Lemma avail_range h q n : queue_ok h q -> range_ok h (padd (vq_avail q) (4 + 2 * (n mod vq_size q))) 2.
Proof.
  intros [? [??] ??? Ha ???]. pose proof (Z.mod_pos_bound n (vq_size q) ltac:(lia)).
  eapply range_ok_sub; [exact Ha|lia..].
Qed.

Lemma avail_idx_range h q : queue_ok h q -> range_ok h (padd (vq_avail q) 2) 2.
Proof. intros [? [??] ??? Ha ???]. eapply range_ok_sub; [exact Ha|lia..]. Qed.

Lemma avail_idx_u16 h q : queue_ok h q -> is_u16 (avail_idx h q).
Proof.
  intros Hq. apply (field_at_bound h 2); [apply Hq|]. by apply avail_idx_range.
Qed.

Lemma vq_pending_nil h q :
  queue_ok h q -> (vq_pending h q = [] <-> last_avail_idx q = avail_idx h q).
Proof.
  intros Hq. pose proof (avail_idx_u16 h q Hq). pose proof (qo_last h q Hq).
  unfold vq_pending, pending_count. split.
  - intros Hn. apply map_eq_nil in Hn. apply (f_equal length) in Hn.
    rewrite length_seq in Hn. simpl in Hn. ulia.
  - intros ->. by rewrite Z.sub_diag.
Qed.

Lemma vq_pending_cons h q :
  queue_ok h q -> last_avail_idx q <> avail_idx h q ->
  vq_pending h q = avail_entry h q (last_avail_idx q)
                   :: vq_pending h (set_last_avail (u16 (last_avail_idx q + 1)) q).
Proof.
  intros Hq Hne. pose proof (avail_idx_u16 h q Hq). pose proof (qo_last h q Hq).
  unfold vq_pending, pending_count. simpl.
  set (c := Z.to_nat (u16 (avail_idx h q - u16 (last_avail_idx q + 1)))).
  replace (Z.to_nat (u16 (avail_idx h q - last_avail_idx q))) with (S c) by (unfold c; ulia).
  simpl. rewrite Z.add_0_r, u16_small by done. f_equal.
  rewrite <- seq_shift, map_map. apply map_ext. intros k. unfold avail_entry. simpl.
  do 3 f_equal. f_equal. ulia.
Qed.

(** What popping does, in terms of the abstract queue. *)
Lemma virtqueue_pop_run h q :
  queue_ok h q ->
  virtqueue_pop q h = match vq_pending h q with
                      | [] => Ok (Null, q) h
                      | i :: _ => Ok (desc_ptr q i, set_last_avail (u16 (last_avail_idx q + 1)) q) h
                      end.
Proof.
  intros Hq. unfold virtqueue_pop.
  rewrite (proj2 (Z.eqb_neq _ _) (qo_ready h q Hq)).
  rewrite !bool_decide_eq_false_2 by (eapply range_ok_not_null; apply Hq). cbn [orb].
  rewrite (bind_Ok _ _ _ _ _ (load_le_ok h 2 _ _ (avail_idx_range h q Hq))). fold (avail_idx h q).
  destruct (last_avail_idx q =? avail_idx h q) eqn:He; bool_prop.
  - by rewrite (proj2 (vq_pending_nil h q Hq) He).
  - rewrite vq_pending_cons by done. unfold umod. rewrite (proj2 (Z.eqb_neq _ _)) by (pose proof (qo_size h q Hq); lia).
    rewrite bind_ret.
    by rewrite (bind_Ok _ _ _ _ _ (load_le_ok h 2 _ _ (avail_range h q (last_avail_idx q) Hq))).
Qed.
End queue_props.

Section push_props.
Context {E : Env}.

Lemma used_idx_range h q : queue_ok h q -> range_ok h (padd (vq_used q) 2) 2.
Proof. intros [? [??] ?????]. eapply range_ok_sub; [eassumption|lia..]. Qed.

Lemma used_slot_range h q slot off :
  queue_ok h q -> 0 <= slot < vq_size q -> 0 <= off <= 4 ->
  range_ok h (padd (vq_used q) (4 + 8 * slot + off)) 4.
Proof. intros [? [??] ?????] ??. eapply range_ok_sub; [eassumption|lia..]. Qed.

(** The used ring after a completion: the element, then the index. *)
Definition pushed (h : host) (q : virtqueue) (id len : Z) : host :=
  let slot := used_idx h q mod vq_size q in
  let h1 := stored h (padd (vq_used q) (4 + 8 * slot)) (le_enc 4 id) in
  let h2 := stored h1 (padd (vq_used q) (4 + 8 * slot + 4)) (le_enc 4 len) in
  stored h2 (padd (vq_used q) 2) (le_enc 2 (used_idx h q + 1)).

(** A write inside the used ring keeps the queue, and whatever lies outside. *)
Lemma used_store_frame h q off d :
  queue_ok h q -> 0 <= off -> off + Z.of_nat (length d) <= 4 + 8 * vq_size q -> bytes_ok d ->
  let h' := stored h (padd (vq_used q) off) d in
  queue_ok h' q /\ (forall p n, range_ok h p n -> range_ok h' p n) /\
  (forall p n, range_ok h p n -> disjoint_ranges (vq_used q) (4 + 8 * vq_size q) p n ->
     bytes_at h' p n = bytes_at h p n).
Proof.
  intros Hq Ho Hl Hd h'. assert (range_ok h (padd (vq_used q) off) (Z.of_nat (length d))) as Hr
    by (eapply range_ok_sub; [apply Hq|lia..]).
  assert (forall p n, range_ok h p n -> range_ok h' p n) as Hall by (intros; by apply range_ok_stored).
  split_and!; auto.
  - eapply queue_ok_frame; [done| |done]. apply heap_bytes_stored; [apply Hq|done].
  - intros p n Hp Hdis. apply bytes_at_stored_ne; auto.
    replace p with (padd p 0) by apply padd_0. eapply disjoint_sub; [exact Hdis|lia..].
Qed.

Lemma pushed_frame h q id len :
  queue_ok h q ->
  queue_ok (pushed h q id len) q /\
  (forall p n, range_ok h p n -> range_ok (pushed h q id len) p n) /\
  (forall p n, range_ok h p n -> disjoint_ranges (vq_used q) (4 + 8 * vq_size q) p n ->
     bytes_at (pushed h q id len) p n = bytes_at h p n).
Proof.
  intros Hq. pose proof (qo_size h q Hq).
  pose proof (Z.mod_pos_bound (used_idx h q) (vq_size q) ltac:(lia)).
  unfold pushed. set (slot := used_idx h q mod vq_size q) in *.
  destruct (used_store_frame h q (4 + 8 * slot) (le_enc 4 id)) as (Hq1 & Hr1 & Hf1);
    rewrite ?length_le_enc; auto with vmm; [lia..|].
  destruct (used_store_frame _ q (4 + 8 * slot + 4) (le_enc 4 len) Hq1) as (Hq2 & Hr2 & Hf2);
    rewrite ?length_le_enc; auto with vmm; [lia..|].
  destruct (used_store_frame _ q 2 (le_enc 2 (used_idx h q + 1)) Hq2) as (Hq3 & Hr3 & Hf3);
    rewrite ?length_le_enc; auto with vmm; [lia..|].
  split_and!; auto. intros p n Hp Hd. rewrite Hf3, Hf2, Hf1; auto.
Qed.

Lemma virtqueue_push_run h dev q id len :
  queue_ok h q -> vq_dev q = true ->
  virtqueue_push dev q id len h =
    (device_assert_irq dev;; mret (set_last_used (u16 (last_used_idx q + 1)) q)) (pushed h q id len).
Proof.
  intros Hq Hdev. pose proof (qo_size h q Hq).
  pose proof (Z.mod_pos_bound (used_idx h q) (vq_size q) ltac:(lia)).
  unfold virtqueue_push. rewrite (proj2 (Z.eqb_neq _ _) (qo_ready h q Hq)).
  rewrite bool_decide_eq_false_2 by (eapply range_ok_not_null; apply Hq). cbn [orb].
  rewrite (bind_Ok _ _ _ _ _ (load_le_ok h 2 _ _ (used_idx_range h q Hq))). fold (used_idx h q).
  unfold umod. rewrite (proj2 (Z.eqb_neq _ _)) by lia. rewrite bind_ret.
  unfold pushed. set (slot := used_idx h q mod vq_size q) in *. cbv zeta.
  destruct (used_store_frame h q (4 + 8 * slot) (le_enc 4 id)) as (Hq1 & Hr1 & Hf1);
    rewrite ?length_le_enc; auto with vmm; [lia..|].
  destruct (used_store_frame _ q (4 + 8 * slot + 4) (le_enc 4 len) Hq1) as (Hq2 & Hr2 & Hf2);
    rewrite ?length_le_enc; auto with vmm; [lia..|].
  assert (range_ok h (padd (vq_used q) (4 + 8 * slot)) (Z.of_nat 4)) as Hs1
    by (pose proof (used_slot_range h q slot 0 Hq ltac:(lia) ltac:(lia)) as Hx; by rewrite Z.add_0_r in Hx).
  assert (range_ok h (padd (vq_used q) (4 + 8 * slot + 4)) (Z.of_nat 4)) as Hs2
    by (apply used_slot_range; auto; lia).
  erewrite bind_Ok by (by apply store_le_ok).
  erewrite bind_Ok by (apply store_le_ok; auto).
  erewrite bind_Ok by (apply load_le_ok; by apply used_idx_range).
  rewrite field_at_stored_ne by (rewrite ?length_le_enc; auto using used_idx_range; apply disjoint_fields; lia).
  rewrite field_at_stored_ne by (rewrite ?length_le_enc; auto using used_idx_range; apply disjoint_fields; lia).
  fold (used_idx h q).
  erewrite bind_Ok by (apply store_le_ok; by apply used_idx_range).
  unfold virtqueue_notify. simpl. rewrite Hdev. by rewrite bind_assoc.
Qed.

(** The log of completions after a push. *)
Lemma pushed_used h q id len :
  queue_ok h q ->
  let slot := used_idx h q mod vq_size q in
  used_idx (pushed h q id len) q = u16 (used_idx h q + 1) /\
  used_elem (pushed h q id len) q slot = (u32 id, u32 len) /\
  forall s, 0 <= s < vq_size q -> s <> slot -> used_elem (pushed h q id len) q s = used_elem h q s.
Proof.
  intros Hq slot. pose proof (qo_size h q Hq).
  pose proof (Z.mod_pos_bound (used_idx h q) (vq_size q) ltac:(lia)) as Hm. fold slot in Hm.
  assert (forall s, 0 <= s < vq_size q -> range_ok h (padd (vq_used q) (4 + 8 * s)) (Z.of_nat 4)) as Hs1
    by (intros s Hs; pose proof (used_slot_range h q s 0 Hq ltac:(lia) ltac:(lia)) as Hx; by rewrite Z.add_0_r in Hx).
  assert (forall s, 0 <= s < vq_size q -> range_ok h (padd (vq_used q) (4 + 8 * s + 4)) (Z.of_nat 4)) as Hs2
    by (intros; apply used_slot_range; auto; lia).
  pose proof (used_idx_range h q Hq) as Hi.
  unfold pushed. fold slot.
  assert (forall h' n off x p m, range_ok h' p m -> range_ok h' (padd (vq_used q) off) (Z.of_nat n) ->
    range_ok (stored h' (padd (vq_used q) off) (le_enc n x)) p m) as Hst
    by (intros; apply range_ok_stored; auto; by rewrite length_le_enc).
  split_and!.
  - unfold used_idx at 1. rewrite field_at_stored_eq by (repeat apply Hst; auto). done.
  - unfold used_elem. f_equal.
    + rewrite !field_at_stored_ne by (rewrite ?length_le_enc; repeat apply Hst; auto; apply disjoint_fields; lia).
      rewrite field_at_stored_eq by auto. done.
    + rewrite field_at_stored_ne by (rewrite ?length_le_enc; repeat apply Hst; auto; apply disjoint_fields; lia).
      rewrite field_at_stored_eq by (repeat apply Hst; auto). done.
  - intros s Hs Hne. unfold used_elem.
    rewrite !field_at_stored_ne by (rewrite ?length_le_enc; repeat apply Hst; auto; apply disjoint_fields; lia).
    done.
Qed.
End push_props.

Section queue_theorems.
Context {E : Env}.

Lemma device_assert_irq_run dev h :
  exists r h', device_assert_irq dev h = Ok r h' /\ heap h' = heap h /\
    trace h' = (if irq_fd dev <? 0 then [] else [EvWrite (irq_fd dev) (le_enc 8 1)]) ++ trace h.
Proof.
  unfold device_assert_irq. destruct (irq_fd dev <? 0); [by eexists _, _|].
  mrun. by eexists _, _.
Qed.

(** Queue state only depends on the heap. *)
Lemma queue_ok_heap h h' q : heap h' = heap h -> queue_ok h q -> queue_ok h' q.
Proof.
  intros He Hq. eapply queue_ok_frame; [done| |].
  - unfold heap_bytes. rewrite He. apply Hq.
  - unfold range_ok. by rewrite He.
Qed.
Lemma vq_pending_heap h h' q : heap h' = heap h -> vq_pending h' q = vq_pending h q.
Proof.
  intros He. unfold vq_pending, pending_count, avail_idx, avail_entry, field_at, bytes_at. by rewrite He.
Qed.

(** The driver's pending entries are untouched by a completion. *)
Lemma vq_pending_frame h h' q :
  queue_ok h q ->
  (forall p n, range_ok h p n -> disjoint_ranges (vq_used q) (4 + 8 * vq_size q) p n ->
     bytes_at h' p n = bytes_at h p n) ->
  vq_pending h' q = vq_pending h q.
Proof.
  intros Hq Hf. pose proof (qo_size h q Hq).
  assert (forall off, 0 <= off -> off + 2 <= 4 + 2 * vq_size q ->
    field_at h' 2 (vq_avail q) off = field_at h 2 (vq_avail q) off) as Hfield.
  { intros off Ho Hn. unfold field_at. f_equal. apply Hf.
    - eapply range_ok_sub; [apply Hq|lia..].
    - replace (vq_used q) with (padd (vq_used q) 0) by apply padd_0.
      eapply disjoint_sub; [apply Hq|lia..]. }
  unfold vq_pending, pending_count, avail_idx. rewrite Hfield by lia. apply map_ext.
  intros k. unfold avail_entry. pose proof (Z.mod_pos_bound (u16 (last_avail_idx q + Z.of_nat k)) (vq_size q) ltac:(lia)).
  apply Hfield; lia.
Qed.

(** A push, up to the heap of the host it ends in. *)
Lemma virtqueue_push_ok h dev q id len :
  queue_ok h q -> vq_dev q = true ->
  exists h', virtqueue_push dev q id len h = Ok (set_last_used (u16 (last_used_idx q + 1)) q) h' /\
  heap h' = heap (pushed h q id len) /\
  trace h' = (if irq_fd dev <? 0 then [] else [EvWrite (irq_fd dev) (le_enc 8 1)]) ++ trace h.
Proof.
  intros Hq Hdev. rewrite virtqueue_push_run by done.
  destruct (device_assert_irq_run dev (pushed h q id len)) as (r & h' & Hrun & Hh & Ht).
  erewrite bind_Ok by exact Hrun. eexists. split; [done|]. split; [done|].
  rewrite Ht. unfold pushed. by autorewrite with vmm.
Qed.

(** The rings being host memory, guest memory stays valid. *)
Lemma pushed_valid `{GuestMemLaws T} (t : T) h q id len :
  queue_ok h q -> gm_valid t h -> gm_valid t (pushed h q id len).
Proof.
  intros Hq Hv. pose proof (qo_size h q Hq).
  pose proof (Z.mod_pos_bound (used_idx h q) (vq_size q) ltac:(lia)).
  assert (forall off m, 0 <= off -> 0 <= m -> off + m <= 4 + 8 * vq_size q ->
    range_ok h (padd (vq_used q) off) m) as Hr by (intros; eapply range_ok_sub; [apply Hq|lia..]).
  unfold pushed. repeat apply gm_valid_stored; repeat apply range_ok_stored;
    rewrite ?length_le_enc; auto; apply Hr; lia.
Qed.

(** [C2] Popping is taking the head of the driver's queue.  On a queue whose
    rings are valid, [virtqueue_pop] never faults and never writes: it answers
    NULL exactly when nothing is pending, and otherwise the descriptor at the
    head of the pending list, leaving the rest pending; the 16-bit indices may
    wrap. *)
Theorem virtqueue_pop_fifo h q :
  queue_ok h q ->
  exists p q', virtqueue_pop q h = Ok (p, q') h /\ queue_ok h q' /\ same_rings q q' /\
  match vq_pending h q with
  | [] => p = Null /\ q' = q
  | i :: rest => p = desc_ptr q i /\ vq_pending h q' = rest
  end.
Proof.
  intros Hq. rewrite virtqueue_pop_run by done.
  destruct (vq_pending h q) as [|i rest] eqn:Hp.
  - eexists _, _. split_and!; try done.
  - eexists _, _. split; [done|]. split_and!; try done.
    + eapply queue_ok_rings; [|apply u16_range|exact Hq]. done.
    + rewrite vq_pending_cons in Hp by (auto; intros He; apply (vq_pending_nil h q Hq) in He; congruence). congruence.
Qed.

(** [C12] Pushing is appending to the used ring.  On a valid queue set up for a
    device, [virtqueue_push] never faults: it writes the element (id, len) in
    the slot the used index designates, then bumps that index by one modulo
    2^16, signals the interrupt if the device has a descriptor for it, leaves
    the other elements and all memory outside the used ring as they were, and
    does not change what is pending. *)
Theorem virtqueue_push_completes h dev q id len :
  queue_ok h q -> vq_dev q = true ->
  let slot := used_idx h q mod vq_size q in
  exists q' h', virtqueue_push dev q id len h = Ok q' h' /\ queue_ok h' q' /\ same_rings q q' /\
  used_idx h' q' = u16 (used_idx h q + 1) /\
  used_elem h' q' slot = (u32 id, u32 len) /\
  (forall s, 0 <= s < vq_size q -> s <> slot -> used_elem h' q' s = used_elem h q s) /\
  (forall p n, range_ok h p n -> disjoint_ranges (vq_used q) (4 + 8 * vq_size q) p n ->
     bytes_at h' p n = bytes_at h p n) /\
  vq_pending h' q' = vq_pending h q /\
  trace h' = (if irq_fd dev <? 0 then [] else [EvWrite (irq_fd dev) (le_enc 8 1)]) ++ trace h.
Proof.
  intros Hq Hdev slot.
  destruct (virtqueue_push_ok h dev q id len Hq Hdev) as (h' & Hrun & Hh & Ht).
  destruct (pushed_frame h q id len Hq) as (Hq' & _ & Hf).
  destruct (pushed_used h q id len Hq) as (Hi & He & Hne).
  assert (forall n p off, field_at h' n p off = field_at (pushed h q id len) n p off) as Hfld
    by (intros; unfold field_at, bytes_at; by rewrite Hh).
  eexists _, _. split; [exact Hrun|]. split_and!; try done.
  - eapply queue_ok_rings; [| |by eapply queue_ok_heap]; [done|apply Hq].
  - unfold used_idx. rewrite Hfld. exact Hi.
  - unfold used_elem. rewrite !Hfld. exact He.
  - intros s Hs Hsn. unfold used_elem. rewrite !Hfld. by apply Hne.
  - intros p n Hp Hd. rewrite <- (Hf p n Hp Hd). unfold bytes_at. by rewrite Hh.
  - rewrite <- (vq_pending_frame h (pushed h q id len) q Hq Hf). by rewrite <- (vq_pending_heap _ h' q Hh).
Qed.
End queue_theorems.

(** ** Descriptors and the life of a queue, for the devices' proofs *)

Section descriptors.
Context {E : Env}.

Definition d_addr (h : host) (q : virtqueue) (i : Z) : Z := field_at h 8 (desc_ptr q i) 0.
Definition d_len (h : host) (q : virtqueue) (i : Z) : Z := field_at h 4 (desc_ptr q i) 8.
Definition d_has_next (h : host) (q : virtqueue) (i : Z) : Prop :=
  Z.land (field_at h 2 (desc_ptr q i) 12) VRING_DESC_F_NEXT <> 0.
Definition d_next (h : host) (q : virtqueue) (i : Z) : Z := field_at h 2 (desc_ptr q i) 14.

(** A buffer of [n] bytes at guest address [a], mapped at [p], whose end does
    not wrap. *)
Definition buffer_at (v : vm) (a n : Z) (p : ptr) : Prop :=
  vm_gpa_to_hva v a n = p /\ p <> Null /\ a + n < 18446744073709551616.

Lemma desc_range h q i off n :
  queue_ok h q -> 0 <= i < vq_size q -> 0 <= off -> off + Z.of_nat n <= 16 ->
  range_ok h (padd (desc_ptr q i) off) (Z.of_nat n).
Proof.
  intros Hq Hi Ho Hn. unfold desc_ptr. eapply (range_ok_sub _ _ 16); [|lia..].
  eapply range_ok_sub; [apply Hq|lia..].
Qed.

Lemma desc_disjoint h q i off n :
  queue_ok h q -> 0 <= i < vq_size q -> 0 <= off -> off + n <= 16 ->
  disjoint_ranges (vq_used q) (4 + 8 * vq_size q) (padd (desc_ptr q i) off) n.
Proof.
  intros Hq Hi Ho Hn. pose proof (qo_size h q Hq). rewrite <- (padd_0 (vq_used q)).
  apply (disjoint_sub _ (4 + 8 * vq_size q) _ 16); [|lia..]. rewrite <- (padd_0 (vq_used q)).
  eapply disjoint_sub; [apply Hq|lia..].
Qed.

Lemma desc_not_null h q i : queue_ok h q -> desc_ptr q i <> Null.
Proof.
  intros Hq. pose proof (range_ok_not_null _ _ _ (qo_desc h q Hq)) as Hn. unfold desc_ptr.
  by destruct (vq_desc q).
Qed.

Lemma desc_field_bound h q i off n :
  queue_ok h q -> 0 <= i < vq_size q -> 0 <= off -> off + Z.of_nat n <= 16 ->
  0 <= field_at h n (desc_ptr q i) off < 256 ^ Z.of_nat n.
Proof. intros. apply field_at_bound; [by eapply qo_bytes|]. by apply desc_range. Qed.

Lemma chain_next_run h q i :
  queue_ok h q -> 0 <= i < vq_size q -> d_has_next h q i ->
  chain_next q (desc_ptr q i) h = Ok (Some (desc_ptr q (d_next h q i))) h.
Proof.
  intros Hq Hi Hn. unfold chain_next.
  erewrite bind_Ok by (apply (load_le_ok h 2); apply desc_range; auto; lia).
  rewrite (proj2 (Z.eqb_neq _ _)) by exact Hn.
  by erewrite bind_Ok by (apply (load_le_ok h 2); apply desc_range; auto; lia).
Qed.

Lemma buffer_range v h a n p :
  vm_mem_valid v h -> 0 <= a -> 0 <= n -> buffer_at v a n p -> range_ok h p n.
Proof. intros Hv Ha Hn (<- & Hp & Hw). by apply (gm_translate_safe v h). Qed.

(** [h'] and [q'] are a later host and handle of the same queue: nothing
    outside the used ring has changed. *)
Definition later (h : host) (q : virtqueue) (h' : host) (q' : virtqueue) : Prop :=
  same_rings q q' /\ (forall p n, range_ok h p n -> range_ok h' p n) /\
  (forall p n, range_ok h p n -> disjoint_ranges (vq_used q) (4 + 8 * vq_size q) p n ->
     bytes_at h' p n = bytes_at h p n).

Lemma later_trans h1 q1 h2 q2 h3 q3 : later h1 q1 h2 q2 -> later h2 q2 h3 q3 -> later h1 q1 h3 q3.
Proof.
  intros (R1 & L1 & B1) (R2 & L2 & B2). unfold same_rings in *.
  destruct R1 as (?&?&Hs&?&?&Hu&?), R2 as (?&?&?&?&?&?&?). split; [|split].
  - split_and!; congruence.
  - auto.
  - intros p n Hp Hd. rewrite B2; [auto|auto|]. by rewrite Hu, Hs.
Qed.

(** The used ring as a log: the index and the entries of a ring of [n] slots after the
    completions [l]. *)
Fixpoint used_log (n : Z) (l : list (Z * Z)) (idx : Z) (ring : Z -> Z * Z) : Z * (Z -> Z * Z) :=
  match l with
  | [] => (idx, ring)
  | e :: l => used_log n l (u16 (idx + 1)) (fun s => if s =? idx mod n then e else ring s)
  end.
(** The used ring of [q] in [h'] is the one of [h] with the completions [l]. *)
Definition completes (h : host) (q : virtqueue) (l : list (Z * Z)) (h' : host) (q' : virtqueue) : Prop :=
  used_idx h' q' = (used_log (vq_size q) l (used_idx h q) (used_elem h q)).1 /\
  forall s, 0 <= s < vq_size q -> used_elem h' q' s = (used_log (vq_size q) l (used_idx h q) (used_elem h q)).2 s.

Lemma used_log_ext n l idx f g :
  (forall s, 0 <= s < n -> f s = g s) ->
  (used_log n l idx f).1 = (used_log n l idx g).1 /\
  forall s, 0 <= s < n -> (used_log n l idx f).2 s = (used_log n l idx g).2 s.
Proof.
  revert idx f g. induction l as [|e l IH]; intros idx f g Hfg; [done|]. cbn [used_log]. apply IH.
  intros s Hs. case_match; [done|by apply Hfg].
Qed.

Lemma completes_nil h q : completes h q [] h q.
Proof. done. Qed.
Lemma completes_cons h q e l h1 q1 h' q' :
  vq_size q1 = vq_size q -> used_idx h1 q1 = u16 (used_idx h q + 1) ->
  (forall s, 0 <= s < vq_size q -> used_elem h1 q1 s = if s =? used_idx h q mod vq_size q then e else used_elem h q s) ->
  completes h1 q1 l h' q' -> completes h q (e :: l) h' q'.
Proof.
  intros Hn Hi He [H1 H2]. unfold completes. cbn [used_log]. rewrite Hn, Hi in H1, H2.
  destruct (used_log_ext (vq_size q) l (u16 (used_idx h q + 1)) _ _ He) as [E1 E2]. split; [by rewrite H1|].
  intros s Hs. by rewrite H2, E2.
Qed.

(** Popping, completing: the queue later. *)
Lemma later_pop h q : queue_ok h q ->
  let q1 := set_last_avail (u16 (last_avail_idx q + 1)) q in
  queue_ok h q1 /\ later h q h q1.
Proof.
  intros Hq. split; [|done]. eapply queue_ok_rings; [|apply u16_range|exact Hq]. done.
Qed.

Lemma later_push v h dev q id len h0 :
  queue_ok h q -> vq_dev q = true -> gm_valid v h -> heap h0 = heap h ->
  exists h', virtqueue_push dev q id len h0 = Ok (set_last_used (u16 (last_used_idx q + 1)) q) h' /\
    let q' := set_last_used (u16 (last_used_idx q + 1)) q in
    queue_ok h' q' /\ gm_valid v h' /\ later h q h' q' /\ vq_pending h' q' = vq_pending h q /\
    (used_idx h' q' = u16 (used_idx h q + 1) /\ forall s, 0 <= s < vq_size q ->
       used_elem h' q' s = if s =? used_idx h q mod vq_size q then (u32 id, u32 len) else used_elem h q s) /\
    stdout_bytes (trace h') = stdout_bytes (trace h0).
Proof.
  intros Hq0 Hdev Hv0 He. assert (queue_ok h0 q) as Hq by (by eapply queue_ok_heap).
  destruct (virtqueue_push_ok h0 dev q id len Hq Hdev) as (h' & Hrun & Hh & Ht).
  exists h'. split; [exact Hrun|]. destruct (pushed_frame h0 q id len Hq) as (Hq' & Hr & Hf).
  assert (forall p n, bytes_at h' p n = bytes_at (pushed h0 q id len) p n) as Hb
    by (intros; unfold bytes_at; by rewrite Hh).
  assert (forall p n, bytes_at h0 p n = bytes_at h p n) as Hb0
    by (intros; unfold bytes_at; by rewrite He).
  assert (forall n p off, field_at h' n p off = field_at (pushed h0 q id len) n p off) as Hfld by (intros; unfold field_at; by rewrite Hb).
  destruct (pushed_used h0 q id len Hq) as (Hi & Hel & Hne).
  assert (used_idx h0 q = used_idx h q) as Hi0 by (unfold used_idx, field_at; by rewrite Hb0). rewrite Hi0 in Hi, Hel, Hne.
  split_and!.
  - eapply queue_ok_rings; [| |by eapply queue_ok_heap]; [done|apply Hq].
  - eapply gm_valid_heap; [symmetry; exact Hh|]. apply pushed_valid; [done|]. by eapply gm_valid_heap.
  - split_and!; [done|..].
    + intros p n Hp. unfold range_ok. rewrite Hh. apply Hr. unfold range_ok. by rewrite He.
    + intros p n Hp Hd. rewrite Hb, Hf, Hb0; auto. unfold range_ok. by rewrite He.
  - rewrite <- (vq_pending_heap h h0 q He), <- (vq_pending_frame h0 _ q Hq Hf).
    by rewrite <- (vq_pending_heap _ h' q Hh).
  - rewrite <- Hi. unfold used_idx. by rewrite Hfld.
  - intros s Hs. transitivity (used_elem (pushed h0 q id len) q s); [unfold used_elem; by rewrite !Hfld|].
    destruct (s =? _) eqn:Hslot; bool_prop; [by rewrite Hslot|]. rewrite Hne by done. unfold used_elem, field_at. by rewrite !Hb0.
  - rewrite Ht. by destruct (irq_fd dev <? 0).
Qed.

(** A buffer apart from the two rings the device looks at. *)
Definition off_rings (q : virtqueue) (p : ptr) (n : Z) : Prop :=
  disjoint_ranges p n (vq_used q) (4 + 8 * vq_size q) /\
  disjoint_ranges p n (vq_avail q) (4 + 2 * vq_size q).

Lemma off_rings_le q p n m : off_rings q p n -> 0 <= m <= n -> off_rings q p m.
Proof.
  unfold off_rings. destruct p; simpl; [done|].
  destruct (vq_used q), (vq_avail q); simpl; intros [??] ?; split; intuition lia.
Qed.

(** Filling a buffer leaves the queue as it was. *)
Lemma store_off_rings h q p d :
  queue_ok h q -> range_ok h p (Z.of_nat (length d)) -> bytes_ok d ->
  off_rings q p (Z.of_nat (length d)) ->
  queue_ok (stored h p d) q /\ vq_pending (stored h p d) q = vq_pending h q /\
  used_idx (stored h p d) q = used_idx h q.
Proof.
  intros Hq Hr Hd [Hu Ha]. pose proof (qo_size h q Hq).
  assert (forall off, 0 <= off -> off + 2 <= 4 + 2 * vq_size q ->
    field_at (stored h p d) 2 (vq_avail q) off = field_at h 2 (vq_avail q) off) as Hf.
  { intros off Ho Hn. apply field_at_stored_ne; [done| |].
    - eapply range_ok_sub; [apply Hq|lia..].
    - rewrite <- (padd_0 p). eapply disjoint_sub; [exact Ha|lia..]. }
  split_and!.
  - eapply queue_ok_frame; [done| |intros; by apply range_ok_stored].
    apply heap_bytes_stored; [apply Hq|done].
  - unfold vq_pending, pending_count, avail_idx. rewrite Hf by lia. apply map_ext. intros k.
    unfold avail_entry. pose proof (Z.mod_pos_bound (u16 (last_avail_idx q + Z.of_nat k)) (vq_size q) ltac:(lia)).
    apply Hf; lia.
  - apply field_at_stored_ne; [done|by apply used_idx_range|].
    rewrite <- (padd_0 p). eapply disjoint_sub; [exact Hu|lia..].
Qed.

(** What popping the head [i] leaves. *)
Lemma pop_head h q i rest :
  queue_ok h q -> vq_pending h q = i :: rest ->
  let q1 := set_last_avail (u16 (last_avail_idx q + 1)) q in
  virtqueue_pop q h = Ok (desc_ptr q i, q1) h /\ queue_ok h q1 /\ vq_pending h q1 = rest.
Proof.
  intros Hq Hp q1. rewrite virtqueue_pop_run, Hp by done. split; [done|].
  split; [by apply later_pop|]. rewrite vq_pending_cons in Hp; [by injection Hp|done|].
  intros He. apply (vq_pending_nil h q Hq) in He. congruence.
Qed.

(** What a push shows of the queue it completes on, from a host whose heap is
    known. *)
Lemma push_result h dev q id len :
  queue_ok h q -> vq_dev q = true ->
  let slot := used_idx h q mod vq_size q in
  exists q' h', virtqueue_push dev q id len h = Ok q' h' /\
  used_idx h' q' = u16 (used_idx h q + 1) /\ used_elem h' q' slot = (u32 id, u32 len) /\
  vq_pending h' q' = vq_pending h q /\
  (forall p n, range_ok h p n -> disjoint_ranges (vq_used q) (4 + 8 * vq_size q) p n ->
     bytes_at h' p n = bytes_at h p n) /\
  trace h' = (if irq_fd dev <? 0 then [] else [EvWrite (irq_fd dev) (le_enc 8 1)]) ++ trace h.
Proof.
  intros Hq Hdev slot. destruct (virtqueue_push_ok h dev q id len Hq Hdev) as (h' & Hrun & Hh & Ht).
  destruct (pushed_frame h q id len Hq) as (_ & _ & Hf).
  destruct (pushed_used h q id len Hq) as (Hi & He & _).
  assert (forall n p off, field_at h' n p off = field_at (pushed h q id len) n p off) as Hfld
    by (intros; unfold field_at, bytes_at; by rewrite Hh).
  eexists _, h'. split; [exact Hrun|]. split_and!; [..|exact Ht].
  - unfold used_idx. rewrite Hfld. exact Hi.
  - unfold used_elem. rewrite !Hfld. exact He.
  - rewrite <- (vq_pending_frame h (pushed h q id len) q Hq Hf). by rewrite <- (vq_pending_heap _ h' q Hh).
  - intros p n Hp Hd. rewrite <- (Hf p n Hp Hd). unfold bytes_at. by rewrite Hh.
Qed.
(** Filling a buffer, then completing: the end of every request. *)
Lemma fill_and_push h h1 q dev p d id len :
  queue_ok h q -> vq_dev q = true -> heap h1 = heap h -> range_ok h p (Z.of_nat (length d)) ->
  bytes_ok d -> off_rings q p (Z.of_nat (length d)) ->
  exists q' h', (store p d;; q ← virtqueue_push dev q id len; mret (0, q)) h1 = Ok (0, q') h' /\
    vq_pending h' q' = vq_pending h q /\ used_idx h' q' = u16 (used_idx h q + 1) /\
    used_elem h' q' (used_idx h q mod vq_size q) = (u32 id, u32 len) /\
    bytes_at h' p (Z.of_nat (length d)) = d /\
    (forall p' n, range_ok h p' n -> disjoint_ranges (vq_used q) (4 + 8 * vq_size q) p' n ->
       disjoint_ranges p (Z.of_nat (length d)) p' n -> bytes_at h' p' n = bytes_at h p' n) /\
    trace h' = (if irq_fd dev <? 0 then [] else [EvWrite (irq_fd dev) (le_enc 8 1)]) ++ trace h1.
Proof.
  intros Hq Hdev He Hr Hd Hoff.
  assert (queue_ok h1 q) as Hq1 by (by eapply queue_ok_heap).
  assert (forall p n, range_ok h p n -> range_ok h1 p n) as Hr1 by (intros ??; unfold range_ok; by rewrite He).
  destruct (store_off_rings h1 q p d Hq1 (Hr1 _ _ Hr) Hd Hoff) as (Hq2 & Hp2 & Hu2).
  erewrite bind_Ok by (apply store_ok; by apply Hr1).
  set (h2 := stored h1 p d) in *.
  destruct (push_result h2 dev q id len Hq2 Hdev) as (q' & h' & Hrun & Hi & Hel & Hp & Hf & Ht).
  erewrite bind_Ok by exact Hrun. exists q', h'. split; [done|]. rewrite Hu2 in Hi, Hel.
  assert (used_idx h1 q = used_idx h q) as Hu1 by (unfold used_idx, field_at, bytes_at; by rewrite He).
  rewrite Hu1 in Hi, Hel.
  split_and!; auto.
  - rewrite Hp, Hp2. by apply vq_pending_heap.
  - rewrite Hf; [|apply range_ok_stored; by apply Hr1|by apply disjoint_ranges_sym, Hoff].
    unfold h2. apply bytes_at_stored_eq. by apply Hr1.
  - intros p' n Hpn Hd1 Hd'. rewrite Hf; [|apply range_ok_stored; auto|done].
    unfold h2. rewrite bytes_at_stored_ne; auto. unfold bytes_at. by rewrite He.
  - rewrite Ht. unfold h2. by autorewrite with vmm.
Qed.
End descriptors.

(** ** The register file as a state machine *)

(** What the framework needs from a device's callbacks: a queue that is not
    ready is not processed, and the configuration space is apart from the
    transport's own state. *)
Class VirtioLaws {P} (fns : virtio_fns P) : Prop := {
  vl_notify_idle f vmp i v q h :
    vf_queue_notify fns = Some f -> queues v !! i = Some q -> vq_ready q = 0 ->
    f vmp i v h = Ok (0, v) h;
  vl_notify_device f vmp i v h r v' h' :
    vf_queue_notify fns = Some f -> f vmp i v h = Ok (r, v') h' -> vd_device v' = vd_device v;
  vl_config_read f v off d n h r d' h' :
    vf_config_read fns = Some f -> f v off d n h = Ok (r, d') h' -> h' = h;
  vl_config_write f v off d n h r v' h' :
    vf_config_write fns = Some f -> f v off d n h = Ok (r, v') h' ->
    h' = h /\ v' = set_priv (vd_priv v') v
}.

Inductive reg_access := RegRead (offset size : Z) | RegWrite (offset val size : Z).

(** An idle queue yields nothing, in every environment. *)
Lemma virtqueue_pop_idle q h : vq_ready q = 0 -> virtqueue_pop q h = Ok (Null, q) h.
Proof. intros Hr. unfold virtqueue_pop. by rewrite Hr. Qed.

Lemma set_queue_same {P} (v : virtio_dev P) i q : queues v !! i = Some q -> set_queue i q v = v.
Proof. intros Hq. unfold set_queue. rewrite list_insert_id by done. by destruct v. Qed.

Lemma set_priv_same {P} (v : virtio_dev P) : set_priv (vd_priv v) v = v.
Proof. by destruct v. Qed.

Lemma buf_load_inv n d h x h' : buf_load n d h = Ok x h' -> h' = h.
Proof. unfold buf_load. destruct (in_range _ _ _); intros H; minv H; by simplify_eq. Qed.
Lemma buf_store_inv d x h d' h' : buf_store d x h = Ok d' h' -> h' = h.
Proof. unfold buf_store. destruct (in_range _ _ _); intros H; minv H; by simplify_eq. Qed.

Section registers.
Context {E : Env} {P : Type} (fns : virtio_fns P) (vmp : option vm).

(** A driver's accesses, one after the other; the buffer is the vCPU's eight
    bytes.  Each access answers with its code and, for a read, the number the buffer
    then holds. *)
Fixpoint virtio_run (l : list reg_access) (v : virtio_dev P) : M (list (Z * Z) * virtio_dev P) :=
  match l with
  | [] => mret ([], v)
  | RegRead off n :: l' =>
      '(r, d, v) ← virtio_dev_read fns vmp off (replicate 8 0) n v;
      '(rs, v) ← virtio_run l' v; mret ((r, le_dec d) :: rs, v)
  | RegWrite off val n :: l' =>
      '(r, v) ← virtio_dev_write fns vmp off (le_enc 8 val) n v;
      '(rs, v) ← virtio_run l' v; mret ((r, 0) :: rs, v)
  end.

(** The value last stored in the register at [reg] by an accepted access. *)
Fixpoint last_stored (reg : Z) (l : list reg_access) (dflt : Z) : Z :=
  match l with
  | [] => dflt
  | RegWrite off val n :: l' =>
      last_stored reg l' (if (n =? 4) && (off =? reg) then u32 val else dflt)
  | RegRead _ _ :: l' => last_stored reg l' dflt
  end.

(** What the transport registers of a device whose queues are not ready show, at a moment
    when its status is [status]. *)
Definition reg_shows (v : virtio_dev P) (status off : Z) : Z :=
  if off =? 0x00 then VIRTIO_MMIO_MAGIC_VALUE
  else if off =? 0x04 then 1
  else if off =? 0x08 then u32 (vd_device_id v)
  else if off =? 0x10 then u32 (device_features v)
  else if off =? 0x20 then 32
  else if off =? 0x24 then
    u32 (from_option vq_size 0 (queues v !! Z.to_nat (if num_queues v >? 0 then num_queues v - 1 else 0)))
  else if off =? 0x38 then 1
  else if off =? 0x40 then status
  else 0.

(** The answers to a sequence of accesses: reads of the transport registers are answered
    from [reg_shows], accesses that are not of four bytes are refused, and the status
    register takes what is stored in it.  The device's own configuration ([0x100] and up)
    is left open. *)
Fixpoint answered (v : virtio_dev P) (status : Z) (l : list reg_access) (rs : list (Z * Z)) : Prop :=
  match l, rs with
  | [], [] => True
  | RegRead off n :: l, r :: rs =>
      (n <> 4 -> r = (-1, 0)) /\ (n = 4 -> off < 0x100 -> r = (0, reg_shows v status off)) /\ answered v status l rs
  | RegWrite off val n :: l, r :: rs =>
      (n <> 4 -> r = (-1, 0)) /\ (n = 4 -> off < 0x100 -> r = (0, 0)) /\
      answered v (if (n =? 4) && (off =? 0x40) then u8 (u32 val) else status) l rs
  | _, _ => False
  end.

Definition no_queue_ready (v : virtio_dev P) : Prop := Forall (fun q => vq_ready q = 0) (queues v).

(** The transport state the driver can see. *)
Definition transport (v : virtio_dev P) : Z * Z * Z * device * list virtqueue :=
  (device_features v, driver_features v, device_status v, vd_device v, queues v).

Lemma buf_load_4 val : buf_load 4 (le_enc 8 val) = mret (u32 val).
Proof.
  unfold buf_load. replace (in_range (le_enc 8 val) 0 4) with true
    by (symmetry; apply in_range_spec; rewrite length_le_enc; lia).
  f_equal. change (slice (le_enc 8 val) 0 (Z.to_nat 4)) with (le_enc 4 val).
  by rewrite le_dec_enc.
Qed.

Lemma virtio_write_step `{!VirtioLaws fns} off val n v h r v' h' :
  no_queue_ready v ->
  virtio_dev_write fns vmp off (le_enc 8 val) n v h = Ok (r, v') h' ->
  heap h' = heap h /\ (trace h' = trace h \/ trace h' = EvRead (irq_fd (vd_device v)) 8 :: trace h) /\
  vd_device v' = vd_device v /\ queues v' = queues v /\ num_queues v' = num_queues v /\ vd_device_id v' = vd_device_id v /\
  device_features v' = device_features v /\
  driver_features v' = (if (n =? 4) && (off =? 0x18) then u32 val else driver_features v) /\
  device_status v' = (if (n =? 4) && (off =? 0x40) then u8 (u32 val) else device_status v).
Proof.
  intros Hn H. unfold virtio_dev_write, virtio_mmio_write in H. rewrite buf_load_4, bind_ret in H.
  destruct (n =? 4) eqn:Hn4; cbn [negb andb] in *; [|minv H; simplify_eq; auto 14].
  repeat match type of H with
  | (if off =? ?k then _ else _) _ = _ =>
      destruct (off =? k) eqn:?; bool_prop; [subst off; cbn [Z.eqb Pos.eqb]|]
  end; try (apply ret_inv in H as [? ?]; simplify_eq; by auto 14).
  - destruct (vf_queue_notify fns) as [f|] eqn:Hf; [|minv H; simplify_eq; by auto 14].
    destruct (queues v !! Z.to_nat (Z.land (u32 val) 255)) as [q|] eqn:Hq; simpl in H; [|done].
    rewrite bind_ret in H.
    rewrite (bind_Ok _ _ _ _ _ (vl_notify_idle f vmp _ v q h Hf Hq (Forall_lookup_1 _ _ _ _ Hn Hq))) in H.
    minv H. simplify_eq. by auto 14.
  - apply bind_inv in H as (r' & h1 & Hd & H). minv H. simplify_eq.
    unfold device_deassert_irq in Hd. destruct (irq_fd (vd_device v') <? 0); minv Hd; by auto 14.
  - destruct (vf_config_write fns) as [f|] eqn:Hf; [|minv H; simplify_eq; by auto 14].
    destruct (off >=? 256) eqn:Ho; [|minv H; simplify_eq; by auto 14].
    apply (vl_config_write f) in H as [-> Hv']; [|done]. rewrite Hv'. by auto 14.
Qed.

Lemma virtio_read_step `{!VirtioLaws fns} off d n v h r d' v' h' :
  virtio_dev_read fns vmp off d n v h = Ok (r, d', v') h' -> h' = h /\ v' = v.
Proof.
  unfold virtio_dev_read. intros H. apply bind_inv in H as ([r1 d1] & h1 & H1 & H). minv H. simplify_eq.
  split; [|done]. unfold virtio_mmio_read in H1.
  assert (forall x r d' h', (data' ← buf_store d x; mret (0, data')) h = Ok (r, d') h' -> h' = h) as Hbs.
  { intros x ??? Hx. apply bind_inv in Hx as (? & ? & Hb & Hx). minv Hx. simplify_eq.
    by apply buf_store_inv in Hb. }
  destruct (negb (n =? 4)); [minv H1; by simplify_eq|].
  repeat match type of H1 with
  | (if off =? ?k then _ else _) _ = _ => destruct (off =? k) eqn:?
  end; eauto using Hbs.
  - apply bind_inv in H1 as (q & h2 & Hq & H1). unfold current_queue in Hq. minv Hq. simplify_eq. eauto.
  - apply bind_inv in H1 as (q & h2 & Hq & H1). unfold current_queue in Hq. minv Hq. simplify_eq. eauto.
  - destruct (vf_config_read fns) as [f|] eqn:Hf; [|eauto].
    destruct (off >=? 256); [|eauto]. by eapply vl_config_read.
Qed.

Lemma last_stored_u8 reg l x : u8 (last_stored reg l (u8 x)) = u8 (last_stored reg l x).
Proof.
  revert x. induction l as [|[? ?|? ? ?] l IHl]; intros x; cbn [last_stored]; auto; [ulia|].
  case_match; auto.
Qed.

(** What a read answers. *)
Lemma virtio_read_shows off n v h r d v' h' :
  no_queue_ready v -> is_u8 (device_status v) ->
  virtio_dev_read fns vmp off (replicate 8 0) n v h = Ok (r, d, v') h' ->
  (n <> 4 -> (r, le_dec d) = (-1, 0)) /\ (n = 4 -> off < 0x100 -> (r, le_dec d) = (0, reg_shows v (device_status v) off)).
Proof.
  intros Hn Hs Hrun. assert (exists h1, virtio_mmio_read fns v off (replicate 8 0) n h = Ok (r, d) h1) as [h1 H].
  { unfold virtio_dev_read in Hrun. apply bind_inv in Hrun as ([r1 d1] & h1 & H & Hr). exists h1. minv Hr; by simplify_eq. }
  clear Hrun. unfold virtio_mmio_read in H. destruct (n =? 4) eqn:Hn4; cbn [negb] in H; bool_prop; [|by minv H; simplify_eq].
  split; [done|]. intros _ Hoff. subst n. cbv zeta in H.
  assert (forall x h r d h', (data' ← buf_store (replicate 8 0) (le_enc 4 x); mret (0, data')) h = Ok (r, d) h' ->
    (r, le_dec d) = (0, u32 x)) as Hbs.
  { clear. intros x h r d h' Hx. unfold buf_store in Hx. rewrite (proj2 (in_range_spec _ _ _)) in Hx by (rewrite length_le_enc; simpl; lia).
    rewrite bind_ret in Hx. minv Hx; simplify_eq. f_equal. change (splice _ _ _) with (le_enc 4 x ++ replicate 4 0).
    transitivity (le_dec (le_enc 4 x)); [cbn; lia|by rewrite le_dec_enc]. }
  assert (forall g, (q ← current_queue v; data' ← buf_store (replicate 8 0) (le_enc 4 (g q)); mret (0, data')) h = Ok (r, d) h1 ->
    exists q, queues v !! Z.to_nat (if num_queues v >? 0 then num_queues v - 1 else 0) = Some q /\ (r, le_dec d) = (0, u32 (g q))) as Hq.
  { intros g Hx. apply bind_inv in Hx as (q & h2 & Hq & Hx). unfold current_queue in Hq.
    destruct (queues v !! _) as [q0|]; minv Hq; simplify_eq. exists q. split; [done|]. by eapply Hbs. }
  unfold reg_shows.
  repeat match type of H with
  | (if off =? ?k then _ else _) _ = _ => destruct (off =? k) eqn:?; bool_prop; [subst off; cbn [Z.eqb Pos.eqb]|]
  end; try (by rewrite (Hbs _ _ _ _ _ H)).
  - apply Hq in H as (q & -> & ->). done.
  - apply (Hq (fun q => u32 (vq_ready q))) in H as (q & Hl & ->). by rewrite (Forall_lookup_1 _ _ _ _ Hn Hl).
  - erewrite Hbs by exact H. f_equal. apply u32_small. ulia.
  - rewrite Z.geb_leb, (proj2 (Z.leb_gt _ _)) in H by lia. by destruct (vf_config_read fns); rewrite (Hbs _ _ _ _ _ H).
Qed.

(** What a write answers. *)
Lemma virtio_write_answers off val n v h r v' h' :
  virtio_dev_write fns vmp off (le_enc 8 val) n v h = Ok (r, v') h' ->
  (n <> 4 -> r = -1) /\ (n = 4 -> off < 0x100 -> r = 0).
Proof.
  intros H. unfold virtio_dev_write, virtio_mmio_write in H. rewrite buf_load_4, bind_ret in H.
  destruct (n =? 4) eqn:Hn; cbn [negb] in H; bool_prop; [|by minv H; simplify_eq]. split; [done|]. intros _ Hoff.
  repeat match type of H with
  | (if off =? ?k then _ else _) _ = _ => destruct (off =? k); [by minv H; simplify_eq|]
  end.
  destruct (vf_config_write fns); [|by minv H; simplify_eq].
  destruct (off >=? 256) eqn:Hbig; [bool_prop; lia|by minv H; simplify_eq].
Qed.

Lemma answered_same v v' status l rs :
  queues v' = queues v -> num_queues v' = num_queues v -> vd_device_id v' = vd_device_id v ->
  device_features v' = device_features v -> answered v' status l rs -> answered v status l rs.
Proof.
  intros Hq Hn Hi Hf. assert (forall st off, reg_shows v' st off = reg_shows v st off) as Hshow
    by (intros; unfold reg_shows; by rewrite Hq, Hn, Hi, Hf).
  revert status rs. induction l as [|[off n|off val n] l IH]; intros status [|r rs]; cbn [answered]; try done.
  - intros (H1 & H2 & H3). rewrite <- Hshow. auto.
  - intros (H1 & H2 & H3). auto.
Qed.

End registers.

(** The notify register trusts the driver.  A 32-bit write to it selects
    [queues[val & 0xFF]]: with a device that handles notifications, any value
    whose low byte is 8 or more is an access outside the array of eight queues,
    before the queue's readiness is looked at. *)
Theorem virtio_notify_out_of_bounds `{E : Env} {P} (fns : virtio_fns P) f vmp v val h :
  vf_queue_notify fns = Some f -> length (queues v) = VIRTIO_NUM_QUEUES ->
  8 <= u8 val -> virtio_dev_write fns vmp 0x34 (le_enc 8 val) 4 v h = Ub OutOfBounds.
Proof.
  intros Hf Hl Hv. unfold virtio_dev_write, virtio_mmio_write. rewrite buf_load_4, bind_ret.
  cbn [Z.eqb Pos.eqb negb]. rewrite Hf. change 255 with (2 ^ 8 - 1). rewrite land_ones_mod by lia.
  rewrite lookup_ge_None_2; [done|]. rewrite Hl. unfold VIRTIO_NUM_QUEUES. change (2 ^ 8) with 256. ulia.
Qed.

(** ** A small queue, for witnesses

    Two descriptors in block 1, both made available in block 2; an empty used
    ring in block 3. *)

Definition demo_queue : virtqueue := mk_virtqueue true 0 2 0 0 0 (Ptr 1 0) (Ptr 2 0) (Ptr 3 0) 0 0 1.
Definition demo_descs : list byte :=
  le_enc 8 0 ++ le_enc 4 3 ++ [0; 0; 0; 0] ++ le_enc 8 3 ++ le_enc 4 2 ++ [0; 0; 0; 0].
Definition demo_queue_host : host :=
  mk_host (<[1%positive := demo_descs]> (<[2%positive := [0; 0; 2; 0; 0; 0; 1; 0]]>
    (<[3%positive := replicate 20 0]> {[ 4%positive := [72; 105; 33; 79; 75; 0; 0; 0] ]}))) [] 0.

Lemma demo_queue_ok : queue_ok demo_queue_host demo_queue.
Proof.
  split; simpl; try done.
  - repeat apply map_Forall_insert_2; try apply map_Forall_empty;
      repeat constructor; done.
  - by exists 1%positive, 0, demo_descs.
  - by exists 2%positive, 0, [0; 0; 2; 0; 0; 0; 1; 0].
  - by exists 3%positive, 0, (replicate 20 0).
  - by left.
  - by left.
Qed.

Lemma virtqueue_pop_fifo_witness :
  vq_pending demo_queue_host demo_queue = [0; 1] /\
  exists q', virtqueue_pop demo_queue demo_queue_host = Ok (Ptr 1 0, q') demo_queue_host /\
             vq_pending demo_queue_host q' = [1].
Proof.
  split; [vm_compute; reflexivity|].
  destruct (virtqueue_pop_fifo demo_queue_host demo_queue demo_queue_ok) as (p & q' & Hrun & _ & _ & Hp).
  replace (vq_pending demo_queue_host demo_queue) with [0; 1] in Hp by (vm_compute; reflexivity).
  destruct Hp as [-> Hp]. exists q'. split; [exact Hrun|exact Hp].
Defined.

Lemma virtqueue_push_completes_witness :
  exists q' h', virtqueue_push (E := good_env) zero_device demo_queue 1 2 demo_queue_host = Ok q' h' /\
    used_idx h' q' = 1 /\ used_elem h' q' 0 = (1, 2).
Proof.
  destruct (virtqueue_push_completes (E := good_env) demo_queue_host zero_device demo_queue 1 2
    demo_queue_ok eq_refl) as (q' & h' & Hrun & _ & _ & Hi & He & _).
  exists q', h'. split; [exact Hrun|]. split; [exact Hi|exact He].
Defined.
