(* ===== verification/VirtioConsole.v ===== *)
(** * The virtio console (src/devices/virtio-console.c)

    A queue notification drains the queue: every buffer the driver made
    available is printed and completed.  The drain loop of the C code has no
    bound of its own; here it has fuel, and [console_drain_run] shows that
    65536 rounds are always enough on a valid queue, so that no run of the
    model ends for lack of fuel. *)

From S2P Require Import Prelude HvTypes Host GuestMem VmMem Devices Virtio.

Record virtio_console_config := mk_vc_config {
  vc_cols : Z; vc_rows : Z; vc_max_nr_ports : Z; vc_emerg_wr : Z
}.
(** [struct virtio_console_state]; its two queue pointers are never used. *)
Record virtio_console_state := mk_vc_state { vc_config : virtio_console_config }.

Definition VIRTIO_CONSOLE_GPA : Z := 0xa000000.
Definition VIRTIO_CONSOLE_SIZE : Z := 0x1000.

Abbreviation vcon := (virtio_dev virtio_console_state).

Section virtio_console.
Context {E : Env}.

Definition virtio_console_config_read (v : vcon) (offset : Z) (data : list byte) (size : Z)
    : M (Z * list byte) :=
  let c := vc_config (vd_priv v) in
  data ← (if offset =? 0x00 then buf_store data (le_enc 2 (vc_cols c))
          else if offset =? 0x02 then buf_store data (le_enc 2 (vc_rows c))
          else if offset =? 0x04 then buf_store data (le_enc 4 (vc_max_nr_ports c))
          else if offset =? 0x10 then buf_store data (le_enc 4 (vc_emerg_wr c))
          else buf_store data (replicate (Z.to_nat size) 0));
  mret (0, data).

Definition virtio_console_config_write (v : vcon) (offset : Z) (data : list byte) (size : Z)
    : M (Z * vcon) :=
  let c := vc_config (vd_priv v) in
  if offset =? 0x00 then
    x ← buf_load 2 data;
    mret (0, set_priv (mk_vc_state (mk_vc_config x (vc_rows c) (vc_max_nr_ports c) (vc_emerg_wr c))) v)
  else if offset =? 0x02 then
    x ← buf_load 2 data;
    mret (0, set_priv (mk_vc_state (mk_vc_config (vc_cols c) x (vc_max_nr_ports c) (vc_emerg_wr c))) v)
  else mret (0, v).

(** [desc - vq->desc] *)
Definition desc_index (q : virtqueue) (p : ptr) : Z :=
  match p, vq_desc q with
  | Ptr _ o, Ptr _ o' => (o - o') / 16
  | _, _ => 0
  end.

(** The loop of the handler. *)
Fixpoint console_drain (fuel : nat) (vmp : option vm) (dev : device) (q : virtqueue) : M virtqueue :=
  match fuel with
  | O => fail_ub OutOfFuel
  | S fuel =>
      '(desc, q) ← virtqueue_pop q;
      if decide (desc = Null) then mret q
      else
        addr ← desc_addr desc;
        len ← desc_len desc;
        v ← deref NullDeref vmp;
        let hva := vm_gpa_to_hva v addr len in
        if decide (hva = Null) then console_drain fuel vmp dev q
        else
          data ← load hva len;
          mfor data putchar;;
          q ← virtqueue_push dev q (desc_index q desc) len;
          console_drain fuel vmp dev q
  end.

Definition DRAIN_FUEL : nat := Z.to_nat 65536.

Definition virtio_console_queue_notify (vmp : option vm) (i : nat) (v : vcon) : M (Z * vcon) :=
  q ← deref OutOfBounds (queues v !! i);
  q ← console_drain DRAIN_FUEL vmp (vd_device v) q;
  mret (0, set_queue i q v).

Definition virtio_console_fns : virtio_fns virtio_console_state :=
  mk_virtio_fns (Some virtio_console_queue_notify) (Some virtio_console_config_read)
    (Some virtio_console_config_write).

Definition virtio_console_read (vmp : option vm) (offset : Z) (data : list byte) (size : Z) (v : vcon) :=
  virtio_dev_read virtio_console_fns vmp offset data size v.
Definition virtio_console_write (vmp : option vm) (offset : Z) (data : list byte) (size : Z) (v : vcon) :=
  virtio_dev_write virtio_console_fns vmp offset data size v.

(** The object and its state are freed: nothing is left for the caller. *)
Definition virtio_console_destroy (v : vcon) : M (option vcon) :=
  let _ := virtio_cleanup v in mret None.

Definition virtio_console_ops : device_ops vcon :=
  mk_device_ops "virtio-console" (Some virtio_console_read) (Some virtio_console_write)
    (Some virtio_console_destroy).

(** [undef] is what the compiler makes of [1U << 32]. *)
Definition virtio_console_create (undef : Z) : M (option vcon) :=
  ok ← perform (EvCalloc 768);
  if negb ok then mret None
  else
    ok ← perform (EvCalloc 32);
    if negb ok then mret None
    else
      let s := mk_vc_state (mk_vc_config 80 25 1 0) in
      let v := virtio_init undef s VIRTIO_ID_CONSOLE in
      name ← strdup "virtio-console";
      mret (Some (set_vdevice
        (set_window VIRTIO_CONSOLE_GPA (VIRTIO_CONSOLE_GPA + VIRTIO_CONSOLE_SIZE - 1) VIRTIO_CONSOLE_SIZE
           (set_name name (vd_device v))) v)).
End virtio_console.

#[export] Instance virtio_console_device `{E : Env} : Device vcon := {|
  dbase := vd_device;
  dset := set_vdevice;
  dops _ := Some virtio_console_ops
|}.

(** ** What the drain loop transmits *)

(** The bytes the console prints for descriptor [i]: none when the address
    does not translate. *)
Definition tx_buffer (v : vm) (h : host) (q : virtqueue) (i : Z) : list byte :=
  let hva := vm_gpa_to_hva v (d_addr h q i) (d_len h q i) in
  if decide (hva = Null) then [] else bytes_at h hva (d_len h q i).

(** The completion of descriptor [i]: none when the address does not translate. *)
Definition tx_completion (v : vm) (h : host) (q : virtqueue) (i : Z) : list (Z * Z) :=
  if decide (vm_gpa_to_hva v (d_addr h q i) (d_len h q i) = Null) then [] else [(u32 i, u32 (d_len h q i))].

(** A well-behaved descriptor: in the table, its range does not wrap, and its
    buffer is not the used ring. *)
Definition tx_ok (v : vm) (h : host) (q : virtqueue) (i : Z) : Prop :=
  0 <= i < vq_size q /\
  d_addr h q i + d_len h q i < 18446744073709551616 /\
  (vm_gpa_to_hva v (d_addr h q i) (d_len h q i) <> Null ->
   disjoint_ranges (vq_used q) (4 + 8 * vq_size q)
     (vm_gpa_to_hva v (d_addr h q i) (d_len h q i)) (d_len h q i)).

Section console_props.
Context {E : Env}.

Lemma console_drain_idle fuel vmp dev q h :
  (0 < fuel)%nat -> vq_ready q = 0 -> console_drain fuel vmp dev q h = Ok q h.
Proof.
  intros Hf Hr. destruct fuel as [|fuel]; [lia|]. cbn [console_drain].
  by rewrite (bind_Ok _ _ _ _ _ (virtqueue_pop_idle q h Hr)).
Qed.

#[export] Instance virtio_console_laws : VirtioLaws virtio_console_fns.
Proof.
  split; simpl.
  - intros f vmp i v q h [= <-] Hq Hr. unfold virtio_console_queue_notify. rewrite Hq.
    rewrite (bind_ret q). rewrite (bind_Ok _ _ _ _ _ (console_drain_idle DRAIN_FUEL vmp (vd_device v) q h ltac:(unfold DRAIN_FUEL; lia) Hr)).
    by rewrite set_queue_same.
  - intros f vmp i v h r v' h' [= <-] H. unfold virtio_console_queue_notify in H.
    minv H; by simplify_eq.
  - intros f v off d n h r d' h' [= <-] H. unfold virtio_console_config_read in H.
    apply bind_inv in H as (x & h1 & Hx & H). minv H. simplify_eq.
    repeat case_match; by apply buf_store_inv in Hx.
  - intros f v off d n h r v' h' [= <-] H. unfold virtio_console_config_write in H.
    destruct (off =? 0); [|destruct (off =? 2)].
    1,2: apply bind_inv in H as (x & h1 & Hx & H); minv H; simplify_eq; by apply buf_load_inv in Hx as ->.
    minv H. simplify_eq. by rewrite set_priv_same.
Qed.

Lemma put_bytes l h :
  exists h', mfor l putchar h = Ok tt h' /\ heap h' = heap h /\
             stdout_bytes (trace h') = stdout_bytes (trace h) ++ l.
Proof.
  revert h. induction l as [|c l IH]; intros h; cbn [mfor].
  - eexists. split; [done|]. split; [done|]. by rewrite app_nil_r.
  - mrun. destruct (IH (called (EvPutchar c) h)) as (h' & Hr & Hh & Ho).
    exists h'. split; [done|]. split; [done|]. rewrite Ho. simpl. by rewrite <- app_assoc.
Qed.

Lemma buf_bounds h q i :
  queue_ok h q -> 0 <= i < vq_size q -> 0 <= d_addr h q i /\ 0 <= d_len h q i.
Proof.
  intros Hq Hi. split.
  - apply (field_at_bound h 8); [apply Hq|]. apply desc_range; auto; lia.
  - apply (field_at_bound h 4); [apply Hq|]. apply desc_range; auto; lia.
Qed.

Lemma tx_later v h q h' q' i :
  queue_ok h q -> gm_valid v h -> later h q h' q' -> tx_ok v h q i ->
  tx_ok v h' q' i /\ tx_buffer v h' q' i = tx_buffer v h q i /\ tx_completion v h' q' i = tx_completion v h q i.
Proof.
  intros Hq Hv ((Hd & Hx & Hs & Hde & Ha & Hu & Hr) & Hrange & Hbytes) (Hi & Hw & Hdis).
  assert (forall n off, 0 <= off -> off + Z.of_nat n <= 16 ->
    field_at h' n (desc_ptr q' i) off = field_at h n (desc_ptr q i) off) as Hf.
  { intros n off Ho Hn. unfold field_at, desc_ptr. rewrite Hde. f_equal. apply Hbytes.
    - by apply desc_range.
    - by eapply desc_disjoint. }
  assert (d_addr h' q' i = d_addr h q i) as He1 by (apply Hf; lia).
  assert (d_len h' q' i = d_len h q i) as He2 by (apply Hf; lia).
  unfold tx_ok, tx_buffer, tx_completion. rewrite He1, He2, Hs, Hu. split; [done|]. split; [|done].
  destruct (decide _) as [?|Hn]; [done|]. apply Hbytes; [|by apply Hdis].
  destruct (buf_bounds h q i Hq Hi). by apply (gm_translate_safe v h).
Qed.

Lemma tx_later_all v h q h' q' l :
  queue_ok h q -> gm_valid v h -> later h q h' q' -> Forall (tx_ok v h q) l ->
  Forall (tx_ok v h' q') l /\ map (tx_buffer v h' q') l = map (tx_buffer v h q) l /\
  map (tx_completion v h' q') l = map (tx_completion v h q) l.
Proof.
  intros Hq Hv Hl Htx. assert (forall j, In j l -> tx_ok v h q j) as Hin
    by (intros j Hj; rewrite Forall_forall in Htx; apply Htx; by apply list_elem_of_In).
  split; [|split].
  - eapply Forall_impl; [exact Htx|]. intros j Hj. by apply (tx_later v h q h' q' j).
  - apply map_ext_in. intros j Hj%Hin. eapply tx_later; eauto.
  - apply map_ext_in. intros j Hj%Hin. eapply tx_later; eauto.
Qed.

Lemma desc_index_ptr h q i : queue_ok h q -> desc_index q (desc_ptr q i) = i.
Proof.
  intros Hq. assert (desc_ptr q i <> Null) as Hn by (by eapply desc_not_null). unfold desc_index, desc_ptr in *.
  destruct (vq_desc q) as [|b o]; [done|]. cbn. replace (o + 16 * i - o) with (i * 16) by lia. by apply Z.div_mul.
Qed.

Lemma console_drain_run l fuel v dev q h :
  queue_ok h q -> vq_dev q = true -> gm_valid v h -> vq_pending h q = l ->
  (length l < fuel)%nat -> Forall (tx_ok v h q) l ->
  exists q' h', console_drain fuel (Some v) dev q h = Ok q' h' /\
    queue_ok h' q' /\ vq_pending h' q' = [] /\ later h q h' q' /\
    completes h q (concat (map (tx_completion v h q) l)) h' q' /\
    stdout_bytes (trace h') = stdout_bytes (trace h) ++ concat (map (tx_buffer v h q) l).
Proof.
  revert fuel q h. induction l as [|i l IH]; intros fuel q h Hq Hdev Hv Hp Hf Htx;
    (destruct fuel as [|fuel]; [simpl in Hf; lia|]); cbn [console_drain];
    pose proof (virtqueue_pop_run h q Hq) as Hpop; rewrite Hp in Hpop;
    rewrite (bind_Ok _ _ _ _ _ Hpop); cbv beta iota zeta.
  { rewrite decide_True by done. exists q, h. rewrite app_nil_r. split_and!; done. }
  apply Forall_cons in Htx as [[Hi [Hw Hd]] Htx].
  rewrite decide_False by (by eapply desc_not_null).
  erewrite bind_Ok by (apply (load_le_ok h 8); apply desc_range; auto; lia).
  erewrite bind_Ok by (apply (load_le_ok h 4); apply desc_range; auto; lia).
  fold (d_addr h q i) (d_len h q i). simpl deref. rewrite bind_ret.
  set (q1 := set_last_avail (u16 (last_avail_idx q + 1)) q) in *.
  destruct (later_pop h q Hq) as [Hq1 Hl1]. fold q1 in Hq1, Hl1.
  assert (vq_pending h q1 = l) as Hp1.
  { rewrite vq_pending_cons in Hp; [by injection Hp|done|].
    intros He. apply (vq_pending_nil h q Hq) in He. congruence. }
  pose proof (fun h2 q2 Hl => tx_later_all v h q h2 q2 l Hq Hv Hl Htx) as Hlater.
  destruct (buf_bounds h q i Hq Hi) as [Ha Hn].
  cbn [map concat]. unfold tx_buffer at 1, tx_completion at 1.
  destruct (decide (vm_gpa_to_hva v (d_addr h q i) (d_len h q i) = Null)) as [Hnull|Hnn].
  - destruct (Hlater h q1 Hl1) as (Ht1 & Hm1 & Hc1).
    destruct (IH fuel q1 h) as (q' & h' & Hrun & Hq' & Hp' & Hl' & Hc' & Ho); auto; [simpl in Hf; lia|].
    exists q', h'. rewrite Hc1 in Hc'. by rewrite Ho, Hm1.
  - assert (range_ok h (vm_gpa_to_hva v (d_addr h q i) (d_len h q i)) (d_len h q i)) as Hbuf
      by (by apply (gm_translate_safe v h)).
    erewrite bind_Ok by (by apply load_ok).
    destruct (put_bytes (bytes_at h (vm_gpa_to_hva v (d_addr h q i) (d_len h q i)) (d_len h q i)) h)
      as (h1 & Hput & Hh1 & Ho1).
    erewrite bind_Ok by exact Hput.
    destruct (later_push v h dev q1 (desc_index q1 (desc_ptr q i)) (d_len h q i) h1 Hq1 Hdev Hv Hh1)
      as (h2 & Hpush & Hq2 & Hv2 & Hl2 & Hp2 & [Hu2 He2] & Ho2).
    change (desc_ptr q i) with (desc_ptr q1 i) in He2. rewrite (desc_index_ptr h q1 i Hq1) in He2.
    erewrite bind_Ok by exact Hpush.
    set (q2 := set_last_used (u16 (last_used_idx q1 + 1)) q1) in *.
    assert (later h q h2 q2) as Hlq by (by eapply later_trans).
    destruct (Hlater h2 q2 Hlq) as (Ht2 & Hm2 & Hc2).
    destruct (IH fuel q2 h2) as (q' & h' & Hrun & Hq' & Hp' & Hl' & Hc' & Ho); auto; [congruence|simpl in Hf; lia|].
    rewrite Hc2 in Hc'. exists q', h'. rewrite Ho, Hm2, Ho2, Ho1, app_assoc. split_and!; auto; [by eapply later_trans|].
    by eapply (completes_cons h q _ _ h2 q2).
Qed.

(** The fuel covers every queue: at most 65535 entries can be pending. *)
Lemma drain_fuel_enough h q : (length (vq_pending h q) < DRAIN_FUEL)%nat.
Proof.
  unfold vq_pending, pending_count, DRAIN_FUEL. rewrite length_map, length_seq.
  pose proof (u16_range (avail_idx h q - last_avail_idx q)). ulia.
Qed.

(** [C13] The console transmits what the driver queued.  On a valid queue whose
    pending descriptors are in the table, with buffers that do not wrap and are
    not the used ring, a notification always terminates without a fault: it
    leaves nothing pending, appends to the standard output exactly the
    concatenation, in ring order, of the pending buffers, and enters in the used ring
    the index and the length of each of their descriptors, in the same order.  Of a
    chain only the first descriptor is read, and one whose address is unmapped is
    neither printed nor completed.  No memory outside the used ring changes. *)
Theorem virtio_console_transmits v vm i q h :
  queues v !! i = Some q -> queue_ok h q -> vq_dev q = true -> vm_mem_valid vm h ->
  Forall (tx_ok vm h q) (vq_pending h q) ->
  exists q' h', virtio_console_queue_notify (Some vm) i v h = Ok (0, set_queue i q' v) h' /\
    queue_ok h' q' /\ vq_pending h' q' = [] /\ later h q h' q' /\
    completes h q (concat (map (tx_completion vm h q) (vq_pending h q))) h' q' /\
    stdout_bytes (trace h') = stdout_bytes (trace h) ++ concat (map (tx_buffer vm h q) (vq_pending h q)).
Proof.
  intros Hi Hq Hdev Hv Htx. unfold virtio_console_queue_notify. rewrite Hi. rewrite (bind_ret q).
  destruct (console_drain_run _ DRAIN_FUEL vm (vd_device v) q h Hq Hdev Hv eq_refl (drain_fuel_enough h q) Htx)
    as (q' & h' & Hrun & Hrest).
  exists q', h'. by rewrite (bind_Ok _ _ _ _ _ Hrun).
Qed.
End console_props.

(** The interrupt-acknowledge register of a created console is wired to
    descriptor 0: the object is zero-filled, creation never sets the interrupt
    descriptor, and only a negative one counts as absent, so acknowledging
    consumes eight bytes of the VMM's own standard input. *)
Theorem virtio_console_ack_reads_stdin `{E : Env} undef h v h1 vmp val :
  virtio_console_create undef h = Ok (Some v) h1 ->
  virtio_console_write vmp 0x38 (le_enc 8 val) 4 v h1 = Ok (0, v) (called (EvRead 0 8) h1).
Proof.
  intros H. unfold virtio_console_create in H.
  apply bind_inv in H as (ok & h2 & _ & H). destruct ok; simpl in H; [|by minv H].
  apply bind_inv in H as (ok & h3 & _ & H). destruct ok; simpl in H; [|by minv H].
  apply bind_inv in H as (name & h4 & _ & H). minv H. simplify_eq.
  unfold virtio_console_write, virtio_dev_write, virtio_mmio_write. by rewrite buf_load_4.
Qed.

(** ** Witnesses *)

(** A console whose queue 0 is [demo_queue], in a VM with eight bytes of RAM
    at guest address 0. *)
Definition demo_vm : vm :=
  set_regions (<[0%nat := mk_region 0 (Ptr 4 0) 8 0 true]> (mem_regions fresh_vm)) 8 fresh_vm.
Definition demo_vcon : vcon :=
  virtio_init 0 (mk_vc_state (mk_vc_config 80 25 1 0)) VIRTIO_ID_CONSOLE.

Lemma demo_vm_valid : vm_mem_valid demo_vm demo_queue_host.
Proof.
  split; [done|]. apply Forall_insert; [apply Forall_replicate; done|].
  intros _. simpl. split_and!; [lia..|]. by exists 4%positive, [72; 105; 33; 79; 75; 0; 0; 0].
Qed.

Lemma virtio_console_transmits_witness :
  exists q' v' h', virtio_console_queue_notify (E := good_env) (Some demo_vm) 0
                  (set_queue 0 demo_queue demo_vcon) demo_queue_host = Ok (0, v') h' /\
    queues v' !! 0%nat = Some q' /\ used_elem h' q' 1 = (1, 2) /\
    stdout_bytes (trace h') = [72; 105; 33; 79; 75].
Proof.
  destruct (virtio_console_transmits (E := good_env) (set_queue 0 demo_queue demo_vcon) demo_vm 0 demo_queue
    demo_queue_host eq_refl demo_queue_ok eq_refl demo_vm_valid) as (q' & h' & Hrun & _ & _ & _ & [_ He] & Ho).
  - replace (vq_pending demo_queue_host demo_queue) with [0; 1] by (vm_compute; reflexivity).
    repeat constructor; try (vm_compute; discriminate); try (vm_compute; reflexivity);
      intros _; vm_compute; left; discriminate.
  - eexists q', _, h'. split; [exact Hrun|]. split; [reflexivity|]. split.
    + rewrite He by (vm_compute; split; [discriminate|reflexivity]). vm_compute. reflexivity.
    + rewrite Ho. vm_compute. reflexivity.
Defined.

Lemma virtio_console_ack_reads_stdin_witness :
  exists v h1, virtio_console_create (E := good_env) 0 empty_host = Ok (Some v) h1 /\
    virtio_console_write (E := good_env) None 0x38 (le_enc 8 1) 4 v h1 = Ok (0, v) (called (EvRead 0 8) h1).
Proof.
  destruct (virtio_console_create (E := good_env) 0 empty_host) as [[v|] h1|] eqn:Hc;
    [|vm_compute in Hc; discriminate Hc..].
  exists v, h1. split; [reflexivity|].
  exact (virtio_console_ack_reads_stdin (E := good_env) 0 empty_host v h1 None 1 Hc).
Defined.

(** The status is stored and read back, an access of one byte is refused. *)
Definition demo_accesses : list reg_access :=
  [RegRead 0 4; RegWrite 0x18 1 4; RegWrite 0x40 0x107 4; RegRead 0x40 4; RegWrite 0x34 0 4; RegRead 0x40 1].


Lemma virtio_notify_out_of_bounds_witness :
  virtio_dev_write (E := good_env) (virtio_console_fns (E := good_env)) None 0x34 (le_enc 8 8) 4
    demo_vcon empty_host = Ub OutOfBounds.
Proof.
  apply (virtio_notify_out_of_bounds (E := good_env) _ (virtio_console_queue_notify (E := good_env)));
    [reflexivity|reflexivity|vm_compute; discriminate].
Defined.
