(* ===== verification/VirtioBlk.v ===== *)
(** * The virtio block device (src/devices/virtio-block.c)

    One request per notification: a header, a data and a status descriptor,
    chained.  The disk is a host file, reached through [pread]/[pwrite]. *)

From S2P Require Import Prelude HvTypes Host GuestMem VmMem Devices Virtio.

Definition VIRTIO_BLK_T_IN : Z := 0.
Definition VIRTIO_BLK_T_OUT : Z := 1.
Definition VIRTIO_BLK_T_FLUSH : Z := 4.
Definition VIRTIO_BLK_S_OK : Z := 0.
Definition VIRTIO_BLK_S_IOERR : Z := 1.
Definition VIRTIO_BLK_S_UNSUPP : Z := 2.
Definition VIRTIO_BLOCK_GPA : Z := 0xa001000.
Definition VIRTIO_BLOCK_SIZE : Z := 0x1000.

Record virtio_blk_config := mk_blk_config {
  bc_capacity : Z; bc_size_max : Z; bc_seg_max : Z;
  bc_cylinders : Z; bc_heads : Z; bc_sectors : Z;
  bc_blk_size : Z
}.
Record virtio_blk_state := mk_blk_state {
  bs_config : virtio_blk_config; bs_disk_fd : Z; bs_disk_size : Z; bs_blk_size : Z
}.

(** The packed structure as the bytes [cfg + offset] reads. *)
Definition blk_config_bytes (c : virtio_blk_config) : list byte :=
  le_enc 8 (bc_capacity c) ++ le_enc 4 (bc_size_max c) ++ le_enc 4 (bc_seg_max c) ++
  le_enc 2 (bc_cylinders c) ++ le_enc 1 (bc_heads c) ++ le_enc 1 (bc_sectors c) ++
  le_enc 4 (bc_blk_size c).

(** The fields of [struct virtio_blk_req], from its 16 bytes. *)
Definition req_type (req : list byte) : Z := le_dec (slice req 0 4).
Definition req_sector (req : list byte) : Z := le_dec (slice req 8 8).

Abbreviation vblk := (virtio_dev virtio_blk_state).

Section virtio_blk.
Context {E : Env}.

Definition virtio_blk_config_read (v : vblk) (offset : Z) (data : list byte) (size : Z)
    : M (Z * list byte) :=
  let cfg := bs_config (vd_priv v) in
  data ← (if offset =? 0x00 then buf_store data (le_enc 4 (Z.land (bc_capacity cfg) 0xFFFFFFFF))
          else if offset =? 0x04 then
            buf_store data (le_enc 4 (Z.land (Z.shiftr (bc_capacity cfg) 32) 0xFFFFFFFF))
          else if offset =? 0x08 then buf_store data (le_enc 4 (bc_size_max cfg))
          else if offset =? 0x0C then buf_store data (le_enc 4 (bc_seg_max cfg))
          else if offset =? 0x10 then
            let bytes := blk_config_bytes cfg in
            if in_range bytes offset size
            then buf_store data (slice bytes (Z.to_nat offset) (Z.to_nat size))
            else fail_ub OutOfBounds
          else if offset =? 0x18 then buf_store data (le_enc 4 (bc_blk_size cfg))
          else buf_store data (replicate (Z.to_nat size) 0));
  mret (0, data).

(** The switch on the request type; the length of the transfer is the one of
    the descriptor [desc] points to at that moment. *)
Definition blk_transfer (s : virtio_blk_state) (req : list byte) (desc data_hva : ptr) : M Z :=
  let offset := req_sector req *64 bs_blk_size s in
  if req_type req =? VIRTIO_BLK_T_IN then
    len ← desc_len desc;
    '(ret, bytes) ← perform (EvPread (bs_disk_fd s) len offset);
    if ret <? 0 then mret VIRTIO_BLK_S_IOERR
    else store data_hva bytes;; mret VIRTIO_BLK_S_OK
  else if req_type req =? VIRTIO_BLK_T_OUT then
    len ← desc_len desc;
    data ← load data_hva len;
    ret ← perform (EvPwrite (bs_disk_fd s) data offset);
    mret (if ret <? 0 then VIRTIO_BLK_S_IOERR else VIRTIO_BLK_S_OK)
  else if req_type req =? VIRTIO_BLK_T_FLUSH then mret VIRTIO_BLK_S_OK
  else mret VIRTIO_BLK_S_UNSUPP.

(** The handler after the pop; the result is the return value and the queue. *)
Definition blk_request (vmp : option vm) (dev : device) (s : virtio_blk_state) (desc : ptr)
    (q : virtqueue) : M (Z * virtqueue) :=
  addr ← desc_addr desc;
  v ← deref NullDeref vmp;
  let req_hva := vm_gpa_to_hva v addr 16 in
  if decide (req_hva = Null) then mret (-1, q)
  else
    req ← load req_hva 16;
    next ← chain_next q desc;
    match next with
    | None => mret (-1, q)
    | Some desc =>
        addr ← desc_addr desc;
        len ← desc_len desc;
        let data_hva := vm_gpa_to_hva v addr len in
        if decide (data_hva = Null) then mret (-1, q)
        else
          next ← chain_next q desc;
          match next with
          | None => mret (-1, q)
          | Some desc =>
              addr ← desc_addr desc;
              let status_hva := vm_gpa_to_hva v addr 1 in
              if decide (status_hva = Null) then mret (-1, q)
              else
                status ← blk_transfer s req desc data_hva;
                store status_hva (le_enc 1 status);;
                q ← virtqueue_push dev q 0 1;
                mret (0, q)
          end
    end.

Definition virtio_blk_queue_notify (vmp : option vm) (i : nat) (v : vblk) : M (Z * vblk) :=
  q ← deref OutOfBounds (queues v !! i);
  '(desc, q) ← virtqueue_pop q;
  if decide (desc = Null) then mret (0, set_queue i q v)
  else
    '(ret, q) ← blk_request vmp (vd_device v) (vd_priv v) desc q;
    mret (ret, set_queue i q v).

Definition virtio_blk_fns : virtio_fns virtio_blk_state :=
  mk_virtio_fns (Some virtio_blk_queue_notify) (Some virtio_blk_config_read) None.

Definition virtio_blk_read (vmp : option vm) (offset : Z) (data : list byte) (size : Z) (v : vblk) :=
  virtio_dev_read virtio_blk_fns vmp offset data size v.
Definition virtio_blk_write (vmp : option vm) (offset : Z) (data : list byte) (size : Z) (v : vblk) :=
  virtio_dev_write virtio_blk_fns vmp offset data size v.

Definition virtio_blk_destroy (v : vblk) : M (option vblk) :=
  (if bs_disk_fd (vd_priv v) >=? 0 then perform (EvClose (bs_disk_fd (vd_priv v))) else mret tt);;
  let _ := virtio_cleanup v in mret None.

Definition virtio_blk_ops : device_ops vblk :=
  mk_device_ops "virtio-block" (Some virtio_blk_read) (Some virtio_blk_write) (Some virtio_blk_destroy).

(** Read-write if possible, else read-only. *)
Definition open_disk (disk_path : string) : M Z :=
  fd ← perform (EvOpen disk_path O_RDWR);
  if fd <? 0 then perform (EvOpen disk_path O_RDONLY) else mret fd.

Definition virtio_blk_create (undef : Z) (disk_path : string) : M (option vblk) :=
  ok ← perform (EvCalloc 768);
  if negb ok then mret None
  else
    ok ← perform (EvCalloc 48);
    if negb ok then mret None
    else
      fd ← open_disk disk_path;
      if fd <? 0 then mret None
      else
        st ← perform (EvFstat fd);
        match st with
        | None => perform (EvClose fd);; mret None
        | Some st_size =>
            let disk_size := u64 st_size in
            let config := mk_blk_config (disk_size / 512) 65535 128 0 0 0 512 in
            let s := mk_blk_state config fd disk_size 512 in
            let v := virtio_init undef s VIRTIO_ID_BLOCK in
            name ← strdup "virtio-block";
            mret (Some (set_vdevice
              (set_window VIRTIO_BLOCK_GPA (VIRTIO_BLOCK_GPA + VIRTIO_BLOCK_SIZE - 1) VIRTIO_BLOCK_SIZE
                 (set_name name (vd_device v))) v))
        end.
End virtio_blk.

#[export] Instance virtio_blk_device `{E : Env} : Device vblk := {|
  dbase := vd_device;
  dset := set_vdevice;
  dops _ := Some virtio_blk_ops
|}.

(** ** A request, as the driver lays it out *)

Section blk_props.
Context {E : Env}.

(** The chain [i -> d -> st]: header at [hdr], data of [d_len d] bytes at
    [data], status byte at [stat], each mapped, apart from
    each other and from the rings. *)
Record blk_chain (v : vm) (h : host) (q : virtqueue) (i d st : Z) (hdr data stat : ptr) : Prop := {
  ch_i : 0 <= i < vq_size q; ch_d : 0 <= d < vq_size q; ch_st : 0 <= st < vq_size q;
  ch_i_next : d_has_next h q i; ch_i_d : d_next h q i = d;
  ch_d_next : d_has_next h q d; ch_d_st : d_next h q d = st;
  ch_hdr : buffer_at v (d_addr h q i) 16 hdr;
  ch_data : buffer_at v (d_addr h q d) (d_len h q d) data;
  ch_stat : buffer_at v (d_addr h q st) 1 stat;
  ch_off_data : off_rings q data (d_len h q d);
  ch_off_stat : off_rings q stat 1;
  ch_data_stat : disjoint_ranges data (d_len h q d) stat 1
}.

(** Down to the transfer, a well-formed chain passes every check. *)
Lemma blk_request_run v h q dev s i d st hdr data stat :
  queue_ok h q -> vm_mem_valid v h -> blk_chain v h q i d st hdr data stat ->
  blk_request (Some v) dev s (desc_ptr q i) q h =
  (status ← blk_transfer s (bytes_at h hdr 16) (desc_ptr q st) data;
   store stat (le_enc 1 status);;
   q ← virtqueue_push dev q 0 1;
   mret (0, q)) h.
Proof.
  intros Hq Hv [Hi Hd Hst Hin Hid Hdn Hds Hhdr Hdata Hstat _ _ _]. unfold blk_request.
  destruct (desc_field_bound h q i 0 8 Hq Hi ltac:(lia) ltac:(lia)) as [Ha _].
  pose proof (buffer_range v h _ _ _ Hv Ha (ltac:(lia) : 0 <= 16) Hhdr) as Hr.
  destruct Hhdr as (Hh & Hhn & _), Hdata as (Hda & Hdan & _), Hstat as (Hs & Hsn & _).
  erewrite bind_Ok by (apply (load_le_ok h 8); apply desc_range; auto; lia).
  fold (d_addr h q i). simpl deref. rewrite bind_ret. rewrite Hh, decide_False by done.
  erewrite bind_Ok by (by apply load_ok).
  erewrite bind_Ok by (by apply chain_next_run). rewrite Hid.
  erewrite bind_Ok by (apply (load_le_ok h 8); apply desc_range; auto; lia).
  erewrite bind_Ok by (apply (load_le_ok h 4); apply desc_range; auto; lia).
  fold (d_addr h q d) (d_len h q d). rewrite Hda, decide_False by done.
  erewrite bind_Ok by (by apply chain_next_run). rewrite Hds.
  erewrite bind_Ok by (apply (load_le_ok h 8); apply desc_range; auto; lia).
  fold (d_addr h q st). rewrite Hs, decide_False by done. done.
Qed.

(** What the host is asked for, the status it makes, and the bytes read. *)
Definition blk_outcome (tr : list event) (s : virtio_blk_state) (req : list byte) (len : Z)
    (data : list byte) : list event * Z * list byte :=
  let off := req_sector req *64 bs_blk_size s in
  if req_type req =? VIRTIO_BLK_T_IN then
    let e := EvPread (bs_disk_fd s) len off in
    let '(ret, bytes) := env_answer tr e in
    ([e], if ret <? 0 then VIRTIO_BLK_S_IOERR else VIRTIO_BLK_S_OK, if ret <? 0 then [] else bytes)
  else if req_type req =? VIRTIO_BLK_T_OUT then
    let e := EvPwrite (bs_disk_fd s) data off in
    ([e], if env_answer tr e <? 0 then VIRTIO_BLK_S_IOERR else VIRTIO_BLK_S_OK, [])
  else if req_type req =? VIRTIO_BLK_T_FLUSH then ([], VIRTIO_BLK_S_OK, [])
  else ([], VIRTIO_BLK_S_UNSUPP, []).

(** [pread] returns bytes, no more than asked for. *)
Definition pread_bounded : Prop :=
  forall tr fd n off, 0 <= n ->
    let '(_, bytes) := env_answer tr (EvPread fd n off) in
    Z.of_nat (length bytes) <= n /\ bytes_ok bytes.

Lemma range_ok_le h p n m : range_ok h p n -> 0 <= m <= n -> range_ok h p m.
Proof. intros Hr Hm. rewrite <- (padd_0 p). eapply range_ok_sub; [exact Hr|lia..]. Qed.

Lemma stored_nil h p : range_ok h p 0 -> stored h p [] = h.
Proof.
  intros (b & o & l & -> & Hl & Ho & _ & Hn). destruct h as [hp tr e]. unfold stored, set_heap. simpl in *.
  rewrite Hl. simpl. f_equal. apply insert_id. rewrite Hl. f_equal. unfold splice. simpl.
  by rewrite Nat.add_0_r, take_drop.
Qed.

(** The transfer as its outcome. *)
Lemma blk_transfer_run h q s req st data :
  pread_bounded -> queue_ok h q -> 0 <= st < vq_size q -> range_ok h data (d_len h q st) ->
  let '(events, status, filled) :=
    blk_outcome (trace h) s req (d_len h q st) (bytes_at h data (d_len h q st)) in
  exists h1, blk_transfer s req (desc_ptr q st) data h = Ok status h1 /\
    heap h1 = heap (stored h data filled) /\ trace h1 = events ++ trace h /\
    Z.of_nat (length filled) <= d_len h q st /\ bytes_ok filled.
Proof.
  intros Hk Hq Hst Hr. destruct (desc_field_bound h q st 8 4 Hq Hst ltac:(lia) ltac:(lia)) as [Hn _].
  fold (d_len h q st) in Hn. assert (range_ok h data 0) as Hr0 by (eapply range_ok_le; [exact Hr|lia]).
  assert (load_le 4 (desc_ptr q st) 8 h = Ok (d_len h q st) h) as Hlen
    by (apply (load_le_ok h 4); apply desc_range; auto; lia).
  assert (heap (stored h data []) = heap h) as H0 by (by rewrite stored_nil).
  unfold blk_outcome, blk_transfer, desc_len.
  destruct (req_type req =? VIRTIO_BLK_T_IN).
  { rewrite (bind_Ok _ _ _ _ _ Hlen). set (e := EvPread _ _ _).
    pose proof (Hk (trace h) (bs_disk_fd s) (d_len h q st) (req_sector req *64 bs_blk_size s) Hn) as Hb.
    fold e in Hb. destruct (env_answer (trace h) e) as [ret bytes] eqn:He. destruct Hb as [Hl Hby].
    erewrite bind_Ok by (unfold perform; by rewrite He). cbv beta iota.
    destruct (ret <? 0).
    - eexists. split; [done|]. rewrite H0. split_and!; [done..|simpl; lia|constructor].
    - erewrite bind_Ok by (apply store_ok; eapply (range_ok_le (called e h)); [exact Hr|lia]).
      eexists. split; [done|]. by destruct data. }
  destruct (req_type req =? VIRTIO_BLK_T_OUT).
  { rewrite (bind_Ok _ _ _ _ _ Hlen). rewrite (bind_Ok _ _ _ _ _ (load_ok _ _ _ Hr)). mrun.
    eexists. split; [done|]. rewrite H0. split_and!; [done..|simpl; lia|constructor]. }
  destruct (req_type req =? VIRTIO_BLK_T_FLUSH);
    (eexists; split; [done|]; rewrite H0; split_and!; [done..|simpl; lia|constructor]).
Qed.

Lemma blk_outcome_status tr s req len data events status filled :
  blk_outcome tr s req len data = (events, status, filled) -> is_u8 status.
Proof.
  unfold blk_outcome, is_u8, VIRTIO_BLK_S_OK, VIRTIO_BLK_S_IOERR, VIRTIO_BLK_S_UNSUPP.
  intros Ho. repeat case_hyp Ho; simplify_eq; lia.
Qed.

(** [C14] A block request.  With a well-formed three-descriptor chain at the head
    of a valid queue, and a status descriptor whose length is at most the data
    descriptor's, a notification serves exactly that request: the host sees one
    [pread]/[pwrite] at the request's sector (none for a flush or an unknown
    type), the status byte is OK, IOERR or UNSUPP as its answer dictates, the
    bytes read land at the start of the data buffer, and the completion (0, 1)
    is appended to the used ring.  The length of the transfer is the length of
    the status descriptor, not of the data descriptor. *)
Theorem virtio_blk_request_spec v vm k q h i rest d st hdr data stat :
  pread_bounded -> queues v !! k = Some q -> queue_ok h q -> vq_dev q = true -> vm_mem_valid vm h ->
  vq_pending h q = i :: rest -> blk_chain vm h q i d st hdr data stat -> d_len h q st <= d_len h q d ->
  let '(events, status, filled) :=
    blk_outcome (trace h) (vd_priv v) (bytes_at h hdr 16) (d_len h q st) (bytes_at h data (d_len h q st)) in
  exists q' h', virtio_blk_queue_notify (Some vm) k v h = Ok (0, set_queue k q' v) h' /\
    vq_pending h' q' = rest /\ used_idx h' q' = u16 (used_idx h q + 1) /\
    used_elem h' q' (used_idx h q mod vq_size q) = (0, 1) /\
    bytes_at h' stat 1 = [status] /\
    bytes_at h' data (Z.of_nat (length filled)) = filled /\
    trace h' = (if irq_fd (vd_device v) <? 0 then [] else [EvWrite (irq_fd (vd_device v)) (le_enc 8 1)])
               ++ events ++ trace h.
Proof.
  intros Hk Hqk Hq Hdev Hv Hp Hch Hle. pose proof Hch as [Hi Hd Hst _ _ _ _ _ Hbd Hbs Hod Hos Hds].
  destruct (pop_head h q i rest Hq Hp) as (Hpop & Hq1 & Hp1).
  set (q1 := set_last_avail (u16 (last_avail_idx q + 1)) q) in *.
  destruct (desc_field_bound h q d 0 8 Hq Hd ltac:(lia) ltac:(lia)) as [Had _].
  destruct (desc_field_bound h q d 8 4 Hq Hd ltac:(lia) ltac:(lia)) as [Hld _].
  destruct (desc_field_bound h q st 0 8 Hq Hst ltac:(lia) ltac:(lia)) as [Has _].
  destruct (desc_field_bound h q st 8 4 Hq Hst ltac:(lia) ltac:(lia)) as [Hls _].
  fold (d_len h q d) in Hld. fold (d_len h q st) in Hls.
  pose proof (buffer_range vm h _ _ _ Hv Had Hld Hbd) as Hrd.
  pose proof (buffer_range vm h _ _ _ Hv Has (ltac:(lia) : 0 <= 1) Hbs) as Hrs.
  pose proof (blk_transfer_run h q (vd_priv v) (bytes_at h hdr 16) st data Hk Hq Hst
    ltac:(eapply range_ok_le; [exact Hrd|lia])) as Htr.
  destruct (blk_outcome _ _ _ _ _) as [[events status] filled] eqn:Hout.
  destruct Htr as (h1 & Htr & Hh1 & Ht1 & Hlf & Hbf).
  assert (range_ok h data (Z.of_nat (length filled))) as Hrf by (eapply range_ok_le; [exact Hrd|lia]).
  destruct (store_off_rings h q1 data filled Hq1 Hrf Hbf ltac:(eapply off_rings_le; [exact Hod|lia]))
    as (Hq2 & Hp2 & Hu2).
  destruct (fill_and_push (stored h data filled) h1 q1 (vd_device v) stat (le_enc 1 status) 0 1 Hq2 Hdev Hh1
    ltac:(by apply range_ok_stored) (le_enc_ok _ _) Hos) as (q' & h' & Hrun & Hp' & Hi' & Hel & Hstat & Hf & Ht).
  pose proof (blk_outcome_status _ _ _ _ _ _ _ _ Hout) as Hu8.
  exists q', h'. unfold virtio_blk_queue_notify. rewrite Hqk, (bind_ret q).
  rewrite (bind_Ok _ _ _ _ _ Hpop). cbv beta iota.
  rewrite decide_False by (by eapply desc_not_null).
  assert (blk_request (Some vm) (vd_device v) (vd_priv v) (desc_ptr q i) q1 h = Ok (0, q') h') as Hreq.
  { change (desc_ptr q i) with (desc_ptr q1 i).
    rewrite (blk_request_run vm h q1 _ _ i d st hdr data stat Hq1 Hv) by (by destruct Hch).
    by rewrite (bind_Ok _ _ _ _ _ Htr). }
  rewrite (bind_Ok _ _ _ _ _ Hreq). split; [done|]. rewrite Hu2 in Hi', Hel.
  split_and!; auto; [congruence| | |by rewrite Ht, Ht1].
  { etransitivity; [exact Hstat|]. cbn [le_enc]. f_equal. by apply Z.mod_small. }
  rewrite Hf; [by apply bytes_at_stored_eq|by apply range_ok_stored| |].
  - apply disjoint_ranges_sym. by eapply off_rings_le; [exact Hod|lia].
  - apply disjoint_ranges_sym. rewrite <- (padd_0 data), <- (padd_0 stat).
    eapply disjoint_sub; [exact Hds|simpl; lia..].
Qed.

(** [C15] The length that is checked is not the length that is used.  For a read
    request whose status descriptor is longer than the RAM left behind the data
    buffer, and a disk that delivers all the bytes asked for, the transfer
    writes past the end of guest RAM in the VMM's own memory. *)
Theorem virtio_blk_overflow v vm k q h i rest d st hdr data stat ret bytes :
  queues v !! k = Some q -> queue_ok h q -> vm_mem_valid vm h ->
  vq_pending h q = i :: rest -> blk_chain vm h q i d st hdr data stat ->
  req_type (bytes_at h hdr 16) = VIRTIO_BLK_T_IN ->
  env_answer (trace h) (EvPread (bs_disk_fd (vd_priv v)) (d_len h q st)
    (req_sector (bytes_at h hdr 16) *64 bs_blk_size (vd_priv v))) = (ret, bytes) ->
  0 <= ret -> Z.of_nat (length bytes) = d_len h q st -> ~ range_ok h data (d_len h q st) ->
  virtio_blk_queue_notify (Some vm) k v h = Ub OutOfBounds.
Proof.
  intros Hqk Hq Hv Hp Hch Hty Hans Hret Hlen Hnr. pose proof Hch as [Hi Hd Hst _ _ _ _ _ Hbd _ _ _ _].
  destruct (pop_head h q i rest Hq Hp) as (Hpop & Hq1 & Hp1).
  set (q1 := set_last_avail (u16 (last_avail_idx q + 1)) q) in *.
  unfold virtio_blk_queue_notify. rewrite Hqk, (bind_ret q), (bind_Ok _ _ _ _ _ Hpop). cbv beta iota.
  rewrite decide_False by (by eapply desc_not_null). apply bind_Ub.
  change (desc_ptr q i) with (desc_ptr q1 i).
  rewrite (blk_request_run vm h q1 _ _ i d st hdr data stat Hq1 Hv) by (by destruct Hch). apply bind_Ub.
  unfold blk_transfer, desc_len. rewrite Hty, Z.eqb_refl.
  erewrite bind_Ok by (apply (load_le_ok h 4); apply (desc_range h q); auto; lia).
  change (field_at h 4 (desc_ptr q1 st) 8) with (d_len h q st).
  erewrite bind_Ok by (unfold perform; by rewrite Hans). cbv beta iota.
  rewrite (proj2 (Z.ltb_ge _ _)) by lia. apply bind_Ub.
  destruct (desc_field_bound h q d 0 8 Hq Hd ltac:(lia) ltac:(lia)) as [Had _].
  destruct (desc_field_bound h q d 8 4 Hq Hd ltac:(lia) ltac:(lia)) as [Hld _].
  destruct (buffer_range vm h _ _ _ Hv Had Hld Hbd) as (b & o & l & -> & Hl & Ho & _ & _).
  unfold store. simpl heap. rewrite Hl, Hlen.
  destruct (in_range l o (d_len h q st)) eqn:Hin; [|done].
  apply in_range_spec in Hin as (? & ? & ?). destruct Hnr. by exists b, o, l.
Qed.

(** Descriptor accounting of the block device.  Creation leaves exactly the
    disk's descriptor open when it succeeds and none when it fails, on every
    failure path; destruction closes that descriptor. *)
Theorem virtio_blk_fd_accounting undef path h :
  (forall r h', virtio_blk_create undef path h = Ok r h' ->
     match r with
     | Some v => 0 <= bs_disk_fd (vd_priv v) /\
                 open_fds (trace h') = bs_disk_fd (vd_priv v) :: open_fds (trace h)
     | None => open_fds (trace h') = open_fds (trace h)
     end) /\
  (forall v, 0 <= bs_disk_fd (vd_priv v) ->
     exists h', virtio_blk_destroy v h = Ok None h' /\
       open_fds (trace h') = remove_one (bs_disk_fd (vd_priv v)) (open_fds (trace h))).
Proof.
  split.
  - intros r h' H. unfold virtio_blk_create, open_disk, strdup in H. minv H; simplify_eq; fd_count; auto.
    all: split; [bool_prop; lia|auto].
  - intros v Hfd. unfold virtio_blk_destroy. rewrite (proj2 (Z.geb_le _ _)) by done. mrun. by eexists.
Qed.

#[export] Instance virtio_blk_laws : VirtioLaws virtio_blk_fns.
Proof.
  split; simpl; try done.
  - intros f vmp i v q h [= <-] Hq Hr. unfold virtio_blk_queue_notify. rewrite Hq, (bind_ret q).
    rewrite (bind_Ok _ _ _ _ _ (virtqueue_pop_idle q h Hr)). cbv beta iota.
    by rewrite decide_True, set_queue_same.
  - intros f vmp i v h r v' h' [= <-] H. unfold virtio_blk_queue_notify in H. minv H; by simplify_eq.
  - intros f v off d n h r d' h' [= <-] H. unfold virtio_blk_config_read in H.
    apply bind_inv in H as (x & h1 & Hx & H). minv H. simplify_eq.
    repeat case_match; by (apply buf_store_inv in Hx || discriminate Hx).
Qed.
End blk_props.

(** ** Witnesses

    A request of [type] whose status descriptor has length [slen]: header at
    guest address 0, four data bytes at 16, the status byte at 20, in 24 bytes
    of RAM. *)
Definition demo_blk_descs (slen : Z) : list byte :=
  le_enc 8 0 ++ le_enc 4 16 ++ [1; 0; 1; 0] ++ le_enc 8 16 ++ le_enc 4 4 ++ [1; 0; 2; 0] ++
  le_enc 8 20 ++ le_enc 4 slen ++ [0; 0; 0; 0].
Definition demo_blk_ram (type : Z) : list byte :=
  le_enc 4 type ++ le_enc 4 0 ++ le_enc 8 5 ++ [1; 2; 3; 4] ++ [255; 0; 0; 0].
Definition demo_blk_host (type slen : Z) : host :=
  mk_host (<[1%positive := demo_blk_descs slen]> (<[2%positive := [0; 0; 1; 0; 0; 0; 0; 0; 0; 0]]>
    (<[3%positive := replicate 28 0]> {[ 4%positive := demo_blk_ram type ]}))) [] 0.
Definition demo_blk_queue : virtqueue := mk_virtqueue true 0 3 0 0 0 (Ptr 1 0) (Ptr 2 0) (Ptr 3 0) 0 0 1.
Definition demo_blk_vm : vm :=
  set_regions (<[0%nat := mk_region 0 (Ptr 4 0) 24 0 true]> (mem_regions fresh_vm)) 24 fresh_vm.
Definition demo_vblk : vblk :=
  set_queue 0 demo_blk_queue
    (virtio_init 0 (mk_blk_state (mk_blk_config 2048 65535 128 0 0 0 512) 7 1048576 512) VIRTIO_ID_BLOCK).

Lemma demo_blk_queue_ok type slen : queue_ok (demo_blk_host type slen) demo_blk_queue.
Proof.
  split; simpl; try done.
  - repeat apply map_Forall_insert_2; try apply map_Forall_empty; try (repeat constructor; done).
    all: unfold demo_blk_descs, demo_blk_ram;
      repeat (apply Forall_app; split); try apply le_enc_ok; repeat constructor; done.
  - by exists 1%positive, 0, (demo_blk_descs slen).
  - by exists 2%positive, 0, [0; 0; 1; 0; 0; 0; 0; 0; 0; 0].
  - by exists 3%positive, 0, (replicate 28 0).
  - by left.
  - by left.
Qed.

Lemma demo_blk_vm_valid type slen : vm_mem_valid demo_blk_vm (demo_blk_host type slen).
Proof.
  split; [done|]. apply Forall_insert; [apply Forall_replicate; done|].
  intros _. simpl. split_and!; [lia..|]. by exists 4%positive, (demo_blk_ram type).
Qed.

Lemma demo_blk_chain type slen :
  blk_chain demo_blk_vm (demo_blk_host type slen) demo_blk_queue 0 1 2 (Ptr 4 0) (Ptr 4 16) (Ptr 4 20).
Proof.
  split; simpl; try lia; try done.
  all: try (split_and!; [done..|vm_compute; reflexivity]).
  - split; by left.
  - split; by left.
  - right; left. vm_compute. discriminate.
Qed.

Lemma virtio_blk_request_spec_witness :
  exists v' h', virtio_blk_queue_notify (E := good_env) (Some demo_blk_vm) 0 demo_vblk (demo_blk_host 1 1)
                  = Ok (0, v') h' /\
    bytes_at h' (Ptr 4 20) 1 = [0] /\
    trace h' = [EvWrite 0 (le_enc 8 1); EvPwrite 7 [1] 2560].
Proof.
  destruct (virtio_blk_request_spec (E := good_env) demo_vblk demo_blk_vm 0 demo_blk_queue (demo_blk_host 1 1)
    0 [] 1 2 (Ptr 4 0) (Ptr 4 16) (Ptr 4 20)) as (q' & h' & Hrun & _ & _ & _ & Hs & _ & Ht);
    try (vm_compute; reflexivity); try exact (demo_blk_queue_ok 1 1);
    try exact (demo_blk_vm_valid 1 1); try exact (demo_blk_chain 1 1).
  - intros tr fd n off Hn. simpl. rewrite length_replicate. split; [lia|]. by apply Forall_replicate.
  - vm_compute. discriminate.
  - exists (set_queue 0 q' demo_vblk), h'. split; [exact Hrun|]. split; [exact Hs|exact Ht].
Defined.

Lemma virtio_blk_overflow_witness :
  virtio_blk_queue_notify (E := good_env) (Some demo_blk_vm) 0 demo_vblk (demo_blk_host 0 100) = Ub OutOfBounds.
Proof.
  apply (virtio_blk_overflow (E := good_env) demo_vblk demo_blk_vm 0 demo_blk_queue (demo_blk_host 0 100)
    0 [] 1 2 (Ptr 4 0) (Ptr 4 16) (Ptr 4 20) 100 (replicate 100 0));
    try (vm_compute; reflexivity); try exact (demo_blk_queue_ok 0 100);
    try exact (demo_blk_vm_valid 0 100); try exact (demo_blk_chain 0 100); try lia.
  intros (b & o & l & [= <- <-] & Hl & _ & _ & Hb). vm_compute in Hl. injection Hl as <-.
  vm_compute in Hb. by apply Hb.
Defined.
