(* ===== verification/VirtioNet.v ===== *)
(** * The virtio network device (src/devices/virtio-net.c)

    One packet per notification: queue 0 receives from a TAP descriptor, queue
    1 sends to it.  A buffer is a two-descriptor chain, header then data. *)

From S2P Require Import Prelude HvTypes Host GuestMem VmMem Devices Virtio.

Record virtio_net_config := mk_net_config { nc_mac : list byte; nc_status : Z; nc_max_pairs : Z }.
(** [struct virtio_net_state]; [tap_name] is never set. *)
Record virtio_net_state := mk_net_state { ns_config : virtio_net_config; ns_tap_fd : Z }.

Definition VIRTIO_NET_GPA : Z := 0xa002000.
Definition VIRTIO_NET_SIZE : Z := 0x1000.
Definition IFNAMSIZ : nat := 16.
(** [sizeof(struct virtio_net_hdr)] *)
Definition NET_HDR_SIZE : Z := 10.

Abbreviation vnet := (virtio_dev virtio_net_state).

Section virtio_net.
Context {E : Env}.

(** [strncpy] into the zeroed [ifr_name] keeps at most 15 characters. *)
Definition open_tap (ifname : option string) : M Z :=
  fd ← perform (EvOpen "/dev/net/tun" O_RDWR);
  if fd <? 0 then mret (-1)
  else
    ret ← perform (EvTunSetIff fd (String.substring 0 (IFNAMSIZ - 1) <$> ifname));
    if ret <? 0 then perform (EvClose fd);; mret (-1)
    else mret fd.

Definition virtio_net_config_read (v : vnet) (offset : Z) (data : list byte) (size : Z)
    : M (Z * list byte) :=
  let cfg := ns_config (vd_priv v) in
  data ← (if offset =? 0x00 then
            if size <=? 6 then buf_store data (slice (nc_mac cfg) 0 (Z.to_nat size)) else mret data
          else if offset =? 0x06 then buf_store data (le_enc 2 (nc_status cfg))
          else if offset =? 0x08 then buf_store data (le_enc 2 (nc_max_pairs cfg))
          else buf_store data (replicate (Z.to_nat size) 0));
  mret (0, data).

Definition set_net_config (c : virtio_net_config) (v : vnet) : vnet :=
  set_priv (mk_net_state c (ns_tap_fd (vd_priv v))) v.

Definition virtio_net_config_write (v : vnet) (offset : Z) (data : list byte) (size : Z)
    : M (Z * vnet) :=
  let cfg := ns_config (vd_priv v) in
  if offset =? 0x00 then
    if size <=? 6 then
      if in_range data 0 size then
        mret (0, set_net_config (mk_net_config (splice (nc_mac cfg) 0 (slice data 0 (Z.to_nat size)))
                                   (nc_status cfg) (nc_max_pairs cfg)) v)
      else fail_ub OutOfBounds
    else mret (0, v)
  else if offset =? 0x06 then
    x ← buf_load 2 data;
    mret (0, set_net_config (mk_net_config (nc_mac cfg) x (nc_max_pairs cfg)) v)
  else mret (0, v).

Definition virtio_net_handle_rx (vmp : option vm) (dev : device) (s : virtio_net_state) (q : virtqueue)
    : M (Z * virtqueue) :=
  '(desc, q) ← virtqueue_pop q;
  if decide (desc = Null) then mret (0, q)
  else
    addr ← desc_addr desc;
    v ← deref NullDeref vmp;
    let hdr := vm_gpa_to_hva v addr NET_HDR_SIZE in
    if decide (hdr = Null) then mret (-1, q)
    else
      store hdr (replicate (Z.to_nat NET_HDR_SIZE) 0);;
      next ← chain_next q desc;
      match next with
      | None => mret (-1, q)
      | Some desc =>
          addr ← desc_addr desc;
          len ← desc_len desc;
          let data := vm_gpa_to_hva v addr len in
          if decide (data = Null) then mret (-1, q)
          else
            '(ret, packet) ← perform (EvRead (ns_tap_fd s) len);
            if ret <? 0 then mret (-1, q)
            else
              store data packet;;
              q ← virtqueue_push dev q 0 (u32 (NET_HDR_SIZE + ret));
              mret (0, q)
      end.

Definition virtio_net_handle_tx (vmp : option vm) (dev : device) (s : virtio_net_state) (q : virtqueue)
    : M (Z * virtqueue) :=
  '(desc, q) ← virtqueue_pop q;
  if decide (desc = Null) then mret (0, q)
  else
    addr ← desc_addr desc;
    v ← deref NullDeref vmp;
    let hdr := vm_gpa_to_hva v addr NET_HDR_SIZE in
    if decide (hdr = Null) then mret (-1, q)
    else
      next ← chain_next q desc;
      match next with
      | None => mret (-1, q)
      | Some desc =>
          addr ← desc_addr desc;
          len ← desc_len desc;
          let data := vm_gpa_to_hva v addr len in
          if decide (data = Null) then mret (-1, q)
          else
            packet ← load data len;
            ret ← perform (EvWrite (ns_tap_fd s) packet);
            if ret <? 0 then mret (-1, q)
            else
              q ← virtqueue_push dev q 0 0;
              mret (0, q)
      end.

Definition virtio_net_queue_notify (vmp : option vm) (i : nat) (v : vnet) : M (Z * vnet) :=
  q ← deref OutOfBounds (queues v !! i);
  if vq_index q =? 0 then
    '(ret, q) ← virtio_net_handle_rx vmp (vd_device v) (vd_priv v) q; mret (ret, set_queue i q v)
  else if vq_index q =? 1 then
    '(ret, q) ← virtio_net_handle_tx vmp (vd_device v) (vd_priv v) q; mret (ret, set_queue i q v)
  else mret (0, v).

Definition virtio_net_fns : virtio_fns virtio_net_state :=
  mk_virtio_fns (Some virtio_net_queue_notify) (Some virtio_net_config_read) (Some virtio_net_config_write).

Definition virtio_net_read (vmp : option vm) (offset : Z) (data : list byte) (size : Z) (v : vnet) :=
  virtio_dev_read virtio_net_fns vmp offset data size v.
Definition virtio_net_write (vmp : option vm) (offset : Z) (data : list byte) (size : Z) (v : vnet) :=
  virtio_dev_write virtio_net_fns vmp offset data size v.

Definition virtio_net_destroy (v : vnet) : M (option vnet) :=
  (if ns_tap_fd (vd_priv v) >=? 0 then perform (EvClose (ns_tap_fd (vd_priv v))) else mret tt);;
  let _ := virtio_cleanup v in mret None.

Definition virtio_net_ops : device_ops vnet :=
  mk_device_ops "virtio-net" (Some virtio_net_read) (Some virtio_net_write) (Some virtio_net_destroy).

Definition virtio_net_create (undef : Z) (tap_name : option string) : M (option vnet) :=
  ok ← perform (EvCalloc 768);
  if negb ok then mret None
  else
    ok ← perform (EvCalloc 32);
    if negb ok then mret None
    else
      fd ← open_tap tap_name;
      if fd <? 0 then mret None
      else
        perform (EvSetNonblock fd);;
        let config := mk_net_config [0x02; 0x00; 0x00; 0x00; 0x00; 0x01] 0x01 1 in
        let v := virtio_init undef (mk_net_state config fd) VIRTIO_ID_NET in
        name ← strdup "virtio-net";
        mret (Some (set_vdevice
          (set_window VIRTIO_NET_GPA (VIRTIO_NET_GPA + VIRTIO_NET_SIZE - 1) VIRTIO_NET_SIZE
             (set_name name (vd_device v))) v)).
End virtio_net.

#[export] Instance virtio_net_device `{E : Env} : Device vnet := {|
  dbase := vd_device;
  dset := set_vdevice;
  dops _ := Some virtio_net_ops
|}.

Section net_laws.
Context {E : Env}.

#[export] Instance virtio_net_laws : VirtioLaws virtio_net_fns.
Proof.
  split; simpl.
  - intros f vmp i v q h [= <-] Hq Hr. unfold virtio_net_queue_notify, virtio_net_handle_rx, virtio_net_handle_tx.
    rewrite Hq, (bind_ret q). destruct (vq_index q =? 0); [|destruct (vq_index q =? 1)].
    1,2: rewrite bind_assoc, (bind_Ok _ _ _ _ _ (virtqueue_pop_idle q h Hr)); cbv beta iota;
      by rewrite decide_True, bind_ret, set_queue_same.
    done.
  - intros f vmp i v h r v' h' [= <-] H. unfold virtio_net_queue_notify in H. minv H; by simplify_eq.
  - intros f v off d n h r d' h' [= <-] H. unfold virtio_net_config_read in H.
    apply bind_inv in H as (x & h1 & Hx & H). minv H. simplify_eq.
    repeat case_match; try by apply buf_store_inv in Hx. by minv Hx.
  - intros f v off d n h r v' h' [= <-] H. unfold virtio_net_config_write in H.
    destruct (off =? 0); [|destruct (off =? 6)].
    + repeat case_match; minv H; simplify_eq; [done|by rewrite set_priv_same].
    + apply bind_inv in H as (x & h1 & Hx & H). minv H. simplify_eq. by apply buf_load_inv in Hx as ->.
    + minv H. simplify_eq. by rewrite set_priv_same.
Qed.
End net_laws.

(** ** Packets *)

Section net_props.
Context {E : Env}.

(** The chain [i -> d]: header at [hdr], packet of [d_len d] bytes at [data],
    apart from each other and from the three rings. *)
Record net_chain (v : vm) (h : host) (q : virtqueue) (i d : Z) (hdr data : ptr) : Prop := {
  nch_i : 0 <= i < vq_size q; nch_d : 0 <= d < vq_size q;
  nch_next : d_has_next h q i; nch_i_d : d_next h q i = d;
  nch_hdr : buffer_at v (d_addr h q i) NET_HDR_SIZE hdr;
  nch_data : buffer_at v (d_addr h q d) (d_len h q d) data;
  nch_off_hdr : off_rings q hdr NET_HDR_SIZE;
  nch_off_data : off_rings q data (d_len h q d);
  nch_hdr_desc : disjoint_ranges hdr NET_HDR_SIZE (vq_desc q) (16 * vq_size q);
  nch_hdr_data : disjoint_ranges hdr NET_HDR_SIZE data (d_len h q d)
}.

Lemma net_chain_ranges v h q i d hdr data :
  queue_ok h q -> vm_mem_valid v h -> net_chain v h q i d hdr data ->
  range_ok h hdr NET_HDR_SIZE /\ range_ok h data (d_len h q d) /\ 0 <= d_len h q d < 4294967296.
Proof.
  intros Hq Hv [Hi Hd _ _ Hh Hda _ _ _ _].
  destruct (desc_field_bound h q i 0 8 Hq Hi ltac:(lia) ltac:(lia)) as [Hai _].
  destruct (desc_field_bound h q d 0 8 Hq Hd ltac:(lia) ltac:(lia)) as [Had _].
  pose proof (desc_field_bound h q d 8 4 Hq Hd ltac:(lia) ltac:(lia)) as Hld.
  change (256 ^ Z.of_nat 4) with 4294967296 in Hld. fold (d_len h q d) in Hld.
  pose proof (buffer_range v h _ _ _ Hv Hai (ltac:(unfold NET_HDR_SIZE; lia) : 0 <= NET_HDR_SIZE) Hh).
  by pose proof (buffer_range v h _ _ _ Hv Had (proj1 Hld) Hda).
Qed.

Lemma net_chain_pop v h q i d hdr data n :
  net_chain v h q i d hdr data -> net_chain v h (set_last_avail n q) i d hdr data.
Proof. by intros []. Qed.

(** The transmit path of a well-formed chain, down to the host's write. *)
Lemma net_tx_run v h q dev s i rest d hdr data :
  queue_ok h q -> vm_mem_valid v h -> vq_pending h q = i :: rest -> net_chain v h q i d hdr data ->
  let q1 := set_last_avail (u16 (last_avail_idx q + 1)) q in
  virtio_net_handle_tx (Some v) dev s q h =
  (ret ← perform (EvWrite (ns_tap_fd s) (bytes_at h data (d_len h q d)));
   if ret <? 0 then mret (-1, q1)
   else q ← virtqueue_push dev q1 0 0; mret (0, q)) h.
Proof.
  intros Hq Hv Hp Hch q1. destruct (net_chain_ranges v h q i d hdr data Hq Hv Hch) as (Hrh & Hrd & _).
  destruct Hch as [Hi Hd Hn Hid (Hh & Hhn & _) (Hda & Hdn & _) _ _ _ _].
  destruct (pop_head h q i rest Hq Hp) as (Hpop & Hq1 & _). fold q1 in Hpop, Hq1.
  unfold virtio_net_handle_tx. rewrite (bind_Ok _ _ _ _ _ Hpop). cbv beta iota.
  rewrite decide_False by (by eapply desc_not_null).
  erewrite bind_Ok by (apply (load_le_ok h 8); apply (desc_range h q); auto; lia).
  fold (d_addr h q i). simpl deref. rewrite (bind_ret v). rewrite Hh, decide_False by done.
  erewrite bind_Ok by (by apply (chain_next_run h q1)). change (d_next h q1 i) with (d_next h q i). rewrite Hid.
  change (desc_ptr q1 d) with (desc_ptr q d).
  erewrite bind_Ok by (apply (load_le_ok h 8); apply (desc_range h q); auto; lia).
  erewrite bind_Ok by (apply (load_le_ok h 4); apply (desc_range h q); auto; lia).
  fold (d_addr h q d) (d_len h q d). rewrite Hda, decide_False by done.
  by rewrite (bind_Ok _ _ _ _ _ (load_ok _ _ _ Hrd)).
Qed.

(** [C16] Transmission.  With a well-formed chain at the head of a valid transmit
    queue, a notification hands the host exactly the bytes of the data buffer,
    without the header, in one write to the TAP descriptor.  When the host
    accepts it the chain is completed with (0, 0); when the host refuses, the
    handler returns -1 and the chain is gone from the pending list without ever
    being completed. *)
Theorem virtio_net_transmits v vm k q h i rest d hdr data :
  queues v !! k = Some q -> vq_index q = 1 -> queue_ok h q -> vq_dev q = true -> vm_mem_valid vm h ->
  vq_pending h q = i :: rest -> net_chain vm h q i d hdr data ->
  let e := EvWrite (ns_tap_fd (vd_priv v)) (bytes_at h data (d_len h q d)) in
  exists ret q' h', virtio_net_queue_notify (Some vm) k v h = Ok (ret, set_queue k q' v) h' /\
    vq_pending h' q' = rest /\
    if env_answer (trace h) e <? 0 then
      ret = -1 /\ used_idx h' q' = used_idx h q /\ trace h' = e :: trace h
    else
      ret = 0 /\ used_idx h' q' = u16 (used_idx h q + 1) /\
      used_elem h' q' (used_idx h q mod vq_size q) = (0, 0) /\
      trace h' = (if irq_fd (vd_device v) <? 0 then [] else [EvWrite (irq_fd (vd_device v)) (le_enc 8 1)])
                 ++ e :: trace h.
Proof.
  intros Hk Hix Hq Hdev Hv Hp Hch e. destruct (pop_head h q i rest Hq Hp) as (_ & Hq1 & Hp1).
  pose proof (net_tx_run vm h q (vd_device v) (vd_priv v) i rest d hdr data Hq Hv Hp Hch) as Htx.
  cbv zeta in Htx. set (q1 := set_last_avail (u16 (last_avail_idx q + 1)) q) in *. fold e in Htx.
  unfold virtio_net_queue_notify. rewrite Hk, (bind_ret q), Hix. cbn [Z.eqb Pos.eqb].
  destruct (push_result (called e h) (vd_device v) q1 0 0) as (q' & h' & Hrun & Hi & He & Hpp & _ & Ht);
    [by apply (queue_ok_heap h)|done|].
  destruct (env_answer (trace h) e <? 0) eqn:Hret.
  - exists (-1), q1, (called e h). split; [|done].
    unfold mbind at 1, M_bind at 1. rewrite Htx. mrun. by rewrite Hret.
  - exists 0, q', h'. split; [|split; [by rewrite Hpp|done]].
    unfold mbind at 1, M_bind at 1. rewrite Htx. mrun. rewrite Hret.
    by rewrite (bind_Ok _ _ _ _ _ Hrun).
Qed.

(** Writing a buffer apart from the descriptor table leaves the table. *)
Lemma desc_field_stored h q p x i off n :
  queue_ok h q -> 0 <= i < vq_size q -> 0 <= off -> off + Z.of_nat n <= 16 ->
  range_ok h p (Z.of_nat (length x)) ->
  disjoint_ranges p (Z.of_nat (length x)) (vq_desc q) (16 * vq_size q) ->
  field_at (stored h p x) n (desc_ptr q i) off = field_at h n (desc_ptr q i) off.
Proof.
  intros Hq Hi Ho Hn Hr Hd. apply field_at_stored_ne; [done|by apply desc_range|].
  rewrite <- (padd_0 p). unfold desc_ptr.
  replace (padd (padd (vq_desc q) (16 * i)) off) with (padd (vq_desc q) (16 * i + off))
    by (destruct (vq_desc q); simpl; [done|f_equal; lia]).
  eapply disjoint_sub; [exact Hd|lia..].
Qed.

Definition zero_hdr : list byte := replicate (Z.to_nat NET_HDR_SIZE) 0.

(** The receive path of a well-formed chain, down to the host's read. *)
Lemma net_rx_run v h q dev s i rest d hdr data :
  queue_ok h q -> vm_mem_valid v h -> vq_pending h q = i :: rest -> net_chain v h q i d hdr data ->
  let q1 := set_last_avail (u16 (last_avail_idx q + 1)) q in
  virtio_net_handle_rx (Some v) dev s q h =
  ('(ret, packet) ← perform (EvRead (ns_tap_fd s) (d_len h q d));
   if ret <? 0 then mret (-1, q1)
   else store data packet;; q ← virtqueue_push dev q1 0 (u32 (NET_HDR_SIZE + ret)); mret (0, q))
  (stored h hdr zero_hdr).
Proof.
  intros Hq Hv Hp Hch q1. destruct (net_chain_ranges v h q i d hdr data Hq Hv Hch) as (Hrh & Hrd & _).
  destruct Hch as [Hi Hd Hn Hid (Hh & Hhn & _) (Hda & Hdn & _) Hoh _ Hhd _].
  destruct (pop_head h q i rest Hq Hp) as (Hpop & Hq1 & _). fold q1 in Hpop, Hq1.
  destruct (store_off_rings h q1 hdr zero_hdr Hq1 Hrh ltac:(by apply Forall_replicate) Hoh) as (Hq2 & _).
  set (h1 := stored h hdr zero_hdr) in *.
  assert (forall j off n, 0 <= j < vq_size q -> 0 <= off -> off + Z.of_nat n <= 16 ->
    field_at h1 n (desc_ptr q j) off = field_at h n (desc_ptr q j) off) as Hf
    by (intros; by apply desc_field_stored).
  unfold virtio_net_handle_rx. rewrite (bind_Ok _ _ _ _ _ Hpop). cbv beta iota.
  rewrite decide_False by (by eapply desc_not_null).
  erewrite bind_Ok by (apply (load_le_ok h 8); apply (desc_range h q); auto; lia).
  fold (d_addr h q i). simpl deref. rewrite (bind_ret v). rewrite Hh, decide_False by done.
  rewrite (bind_Ok _ _ _ _ _ (store_ok h hdr zero_hdr Hrh)). fold h1.
  assert (d_has_next h1 q1 i /\ d_next h1 q1 i = d) as [Hn1 Hd1]
    by (unfold d_has_next, d_next; change (desc_ptr q1 i) with (desc_ptr q i); rewrite !Hf by lia; done).
  change (desc_ptr q i) with (desc_ptr q1 i).
  erewrite bind_Ok by (by apply (chain_next_run h1 q1)). rewrite Hd1.
  erewrite bind_Ok by (apply (load_le_ok h1 8); apply (desc_range h1 q1); auto; lia).
  erewrite bind_Ok by (apply (load_le_ok h1 4); apply (desc_range h1 q1); auto; lia).
  change (desc_ptr q1 d) with (desc_ptr q d). rewrite !Hf by lia.
  fold (d_addr h q d) (d_len h q d). by rewrite Hda, decide_False.
Qed.

(** [C17] Reception.  With a well-formed chain at the head of a valid receive
    queue, and a host whose read returns a packet no longer than the data buffer
    or an error: the header is zeroed; a packet lands at the start of the data
    buffer and the chain is completed with its length plus the header's; on an
    error, the empty TAP queue included, the handler returns -1 and the chain is
    gone from the pending list without being completed. *)
Theorem virtio_net_receives v vm k q h i rest d hdr data ret packet :
  queues v !! k = Some q -> vq_index q = 0 -> queue_ok h q -> vq_dev q = true -> vm_mem_valid vm h ->
  vq_pending h q = i :: rest -> net_chain vm h q i d hdr data ->
  env_answer (trace h) (EvRead (ns_tap_fd (vd_priv v)) (d_len h q d)) = (ret, packet) ->
  (0 <= ret -> Z.of_nat (length packet) = ret /\ ret <= d_len h q d /\ bytes_ok packet) ->
  exists r q' h', virtio_net_queue_notify (Some vm) k v h = Ok (r, set_queue k q' v) h' /\
    vq_pending h' q' = rest /\
    if ret <? 0 then r = -1 /\ used_idx h' q' = used_idx h q
    else r = 0 /\ used_idx h' q' = u16 (used_idx h q + 1) /\
         used_elem h' q' (used_idx h q mod vq_size q) = (0, u32 (NET_HDR_SIZE + ret)) /\
         bytes_at h' data ret = packet /\ bytes_at h' hdr NET_HDR_SIZE = zero_hdr.
Proof.
  intros Hk Hix Hq Hdev Hv Hp Hch Hans Hpk. destruct (pop_head h q i rest Hq Hp) as (_ & Hq1 & Hp1).
  destruct (net_chain_ranges vm h q i d hdr data Hq Hv Hch) as (Hrh & Hrd & Hld).
  pose proof Hch as [_ _ _ _ _ _ Hoh Hod _ Hdis].
  pose proof (net_rx_run vm h q (vd_device v) (vd_priv v) i rest d hdr data Hq Hv Hp Hch) as Hrx.
  cbv zeta in Hrx. set (q1 := set_last_avail (u16 (last_avail_idx q + 1)) q) in *.
  destruct (store_off_rings h q1 hdr zero_hdr Hq1 Hrh ltac:(by apply Forall_replicate) Hoh) as (Hq2 & Hp2 & Hu2).
  unfold virtio_net_queue_notify. rewrite Hk, (bind_ret q), Hix. cbn [Z.eqb].
  unfold mbind at 1, M_bind at 1. rewrite Hrx. set (h1 := stored h hdr zero_hdr) in *.
  assert (trace h1 = trace h) as Ht1 by (unfold h1; by autorewrite with vmm).
  erewrite bind_Ok by (unfold perform; rewrite Ht1, Hans; reflexivity). cbv beta iota.
  set (h2 := called _ h1).
  destruct (ret <? 0) eqn:Hret.
  { exists (-1), q1, h2. split; [done|]. split; [|done].
    rewrite <- Hp1, <- Hp2. by apply vq_pending_heap. }
  bool_prop. destruct (Hpk ltac:(lia)) as (Hlen & Hle & Hby).
  assert (range_ok h data ret) as Hrp by (rewrite <- (padd_0 data); eapply range_ok_sub; [exact Hrd|lia..]).
  destruct (fill_and_push h1 h2 q1 (vd_device v) data packet 0 (u32 (NET_HDR_SIZE + ret)) Hq2 Hdev eq_refl)
    as (q' & h' & Hrun & Hpp & Hi & He & Hb & Hf & _); rewrite ?Hlen; auto.
  { by apply range_ok_stored. }
  { eapply off_rings_le; [exact Hod|lia]. }
  rewrite Hu2 in Hi, He. rewrite Hlen in Hb, Hf. exists 0, q', h'. rewrite Hrun. split; [done|].
  split; [congruence|]. split_and!; auto.
  - etransitivity; [exact He|]. f_equal. unfold u32. by rewrite Z.mod_mod.
  - rewrite Hf; [by apply (bytes_at_stored_eq h hdr zero_hdr)|by apply range_ok_stored| |].
    + by apply disjoint_ranges_sym, Hoh.
    + apply disjoint_ranges_sym. rewrite <- (padd_0 hdr), <- (padd_0 data).
      eapply disjoint_sub; [exact Hdis|unfold NET_HDR_SIZE; lia..].
Qed.
End net_props.

(** ** Witnesses

    One chain of a header at guest address 0 and six packet bytes at 10, in 16
    bytes of RAM, on queue [index]. *)
Definition demo_net_descs : list byte :=
  le_enc 8 0 ++ le_enc 4 10 ++ [1; 0; 1; 0] ++ le_enc 8 10 ++ le_enc 4 6 ++ [0; 0; 0; 0].
Definition demo_net_ram : list byte := replicate 10 9 ++ [1; 2; 3; 4; 5; 6].
Definition demo_net_host : host :=
  mk_host (<[1%positive := demo_net_descs]> (<[2%positive := [0; 0; 1; 0; 0; 0; 0; 0]]>
    (<[3%positive := replicate 20 0]> {[ 4%positive := demo_net_ram ]}))) [] 0.
Definition demo_net_queue (index : Z) : virtqueue :=
  mk_virtqueue true index 2 0 0 0 (Ptr 1 0) (Ptr 2 0) (Ptr 3 0) 0 0 1.
Definition demo_net_vm : vm :=
  set_regions (<[0%nat := mk_region 0 (Ptr 4 0) 16 0 true]> (mem_regions fresh_vm)) 16 fresh_vm.
Definition demo_vnet (index : Z) : vnet :=
  set_queue 0 (demo_net_queue index)
    (virtio_init 0 (mk_net_state (mk_net_config [2; 0; 0; 0; 0; 1] 1 1) 7) VIRTIO_ID_NET).

Lemma demo_net_queue_ok index : queue_ok demo_net_host (demo_net_queue index).
Proof.
  split; simpl; try done.
  - repeat apply map_Forall_insert_2; try apply map_Forall_empty; repeat constructor; done.
  - by exists 1%positive, 0, demo_net_descs.
  - by exists 2%positive, 0, [0; 0; 1; 0; 0; 0; 0; 0].
  - by exists 3%positive, 0, (replicate 20 0).
  - by left.
  - by left.
Qed.

Lemma demo_net_vm_valid : vm_mem_valid demo_net_vm demo_net_host.
Proof.
  split; [done|]. apply Forall_insert; [apply Forall_replicate; done|].
  intros _. simpl. split_and!; [lia..|]. by exists 4%positive, demo_net_ram.
Qed.

Lemma demo_net_chain index :
  net_chain demo_net_vm demo_net_host (demo_net_queue index) 0 1 (Ptr 4 0) (Ptr 4 10).
Proof.
  split; simpl; try lia; try done.
  - split; by left.
  - split; by left.
  - right; left. vm_compute. discriminate.
Qed.

Lemma virtio_net_transmits_witness :
  exists v' h', virtio_net_queue_notify (E := good_env) (Some demo_net_vm) 0 (demo_vnet 1) demo_net_host
                  = Ok (0, v') h' /\
    trace h' = [EvWrite 0 (le_enc 8 1); EvWrite 7 [1; 2; 3; 4; 5; 6]].
Proof.
  destruct (virtio_net_transmits (E := good_env) (demo_vnet 1) demo_net_vm 0 (demo_net_queue 1) demo_net_host
    0 [] 1 (Ptr 4 0) (Ptr 4 10) eq_refl eq_refl (demo_net_queue_ok 1) eq_refl demo_net_vm_valid
    ltac:(vm_compute; reflexivity) (demo_net_chain 1)) as (ret & q' & h' & Hrun & _ & Hcase).
  lazymatch type of Hcase with if ?b then _ else _ =>
    replace b with false in Hcase by (vm_compute; reflexivity) end.
  destruct Hcase as (-> & _ & _ & Ht).
  exists (set_queue 0 q' (demo_vnet 1)), h'. split; [exact Hrun|exact Ht].
Defined.

Lemma virtio_net_receives_witness :
  exists v' h', virtio_net_queue_notify (E := good_env) (Some demo_net_vm) 0 (demo_vnet 0) demo_net_host
                  = Ok (0, v') h' /\
    bytes_at h' (Ptr 4 10) 6 = [0; 0; 0; 0; 0; 0].
Proof.
  destruct (virtio_net_receives (E := good_env) (demo_vnet 0) demo_net_vm 0 (demo_net_queue 0) demo_net_host
    0 [] 1 (Ptr 4 0) (Ptr 4 10) 6 (replicate 6 0) eq_refl eq_refl (demo_net_queue_ok 0) eq_refl
    demo_net_vm_valid ltac:(vm_compute; reflexivity) (demo_net_chain 0) ltac:(vm_compute; reflexivity))
    as (r & q' & h' & Hrun & _ & Hcase).
  - intros _. split; [reflexivity|]. split; [vm_compute; discriminate|]. repeat constructor; done.
  - destruct Hcase as (-> & _ & _ & Hb & _).
    exists (set_queue 0 q' (demo_vnet 0)), h'. split; [exact Hrun|exact Hb].
Defined.
