(* ===== verification/Vfio.v ===== *)
(** * VFIO passthrough: the device side (src/vfio.c, include/vfio.h)

    The container, opening and closing a device, its region and interrupt
    tables, PCI configuration space, and the MMIO handlers.  [VfioVm] attaches a
    device to a VM.  The kernel's VFIO interface is a set of [event]s; a mapped
    region is a heap block, whose content a real device may change at any
    time. *)

From Stdlib Require Import Ascii.
From S2P Require Import Prelude HvTypes Host Utils CString VmMem Devices.

Definition VFIO_API_VERSION : Z := 0.
Definition VFIO_MAX_REGIONS : nat := 8.
Definition VFIO_MAX_IRQS : nat := 32.
Definition VFIO_REGION_INFO_FLAG_MMAP : Z := 4.
Definition VFIO_GROUP_FLAGS_VIABLE : Z := 1.
Definition VFIO_IRQ_SET_ACTION_TRIGGER : Z := 1.
Definition VFIO_IRQ_SET_DATA_NONE : Z := 0.
Definition VFIO_IRQ_SET_DATA_EVENTFD : Z := 2.
Definition PCI_VENDOR_ID : Z := 0x00.
Definition PCI_DEVICE_ID : Z := 0x02.
Definition VFIO_PCI_INTX_IRQ_INDEX : Z := 0.
Definition VFIO_PCI_MSIX_IRQ_INDEX : Z := 2.

(** The part of [struct vfio_region_info] the program reads. *)
Record vfio_region_info := mk_region_info { ri_flags : Z; ri_size : Z; ri_offset : Z }.

Record vfio_region := mk_vfio_region {
  vr_index : Z; vr_size : Z; vr_offset : Z; vr_gpa : Z; vr_hva : ptr; vr_flags : Z
}.
Definition zero_vregion : vfio_region := mk_vfio_region 0 0 0 0 Null 0.

Record vfio_irq := mk_vfio_irq {
  vi_index : Z; vi_count : Z; vi_type : Z; vi_fds : list Z (* [VFIO_MAX_IRQS] *); vi_enabled : Z
}.
Definition zero_virq : vfio_irq := mk_vfio_irq 0 0 0 (replicate VFIO_MAX_IRQS 0) 0.

Record vfio_dev := mk_vfio_dev {
  vf_container_fd : Z;
  vf_group_fd : Z;
  vf_device_fd : Z;
  vendor_id : Z;
  vf_device_id : Z;
  vf_regions : list vfio_region;   (* [VFIO_MAX_REGIONS] *)
  num_regions : Z;                 (* int *)
  vf_irqs : list vfio_irq;         (* [VFIO_MAX_IRQS] *)
  num_irqs : Z;
  iommu_group : Z
}.

Definition set_vregions (l : list vfio_region) (v : vfio_dev) : vfio_dev :=
  mk_vfio_dev (vf_container_fd v) (vf_group_fd v) (vf_device_fd v) (vendor_id v) (vf_device_id v)
    l (num_regions v) (vf_irqs v) (num_irqs v) (iommu_group v).
Definition set_virqs (l : list vfio_irq) (v : vfio_dev) : vfio_dev :=
  mk_vfio_dev (vf_container_fd v) (vf_group_fd v) (vf_device_fd v) (vendor_id v) (vf_device_id v)
    (vf_regions v) (num_regions v) l (num_irqs v) (iommu_group v).
Definition set_counts (r i : Z) (v : vfio_dev) : vfio_dev :=
  mk_vfio_dev (vf_container_fd v) (vf_group_fd v) (vf_device_fd v) (vendor_id v) (vf_device_id v)
    (vf_regions v) r (vf_irqs v) i (iommu_group v).
Definition set_ids (vendor dev : Z) (v : vfio_dev) : vfio_dev :=
  mk_vfio_dev (vf_container_fd v) (vf_group_fd v) (vf_device_fd v) vendor dev
    (vf_regions v) (num_regions v) (vf_irqs v) (num_irqs v) (iommu_group v).

(** ** Bus:Device.Function strings *)

(** [sscanf(bdf, "%x:%x:%x.%d", ...)] and the short form, which leaves the
    domain 0. *)
Definition scan_bdf_long (bdf : string) : option (Z * Z * Z * Z) :=
  '(domain, s) ← scan_x bdf;
  s ← scan_lit ":"%char s;
  '(bus, s) ← scan_x s;
  s ← scan_lit ":"%char s;
  '(slot, s) ← scan_x s;
  s ← scan_lit "."%char s;
  '(func, _) ← scan_d s;
  Some (domain, bus, slot, func).
Definition scan_bdf_short (bdf : string) : option (Z * Z * Z * Z) :=
  '(bus, s) ← scan_x bdf;
  s ← scan_lit ":"%char s;
  '(slot, s) ← scan_x s;
  s ← scan_lit "."%char s;
  '(func, _) ← scan_d s;
  Some (0, bus, slot, func).

Definition parse_bdf (bdf : string) : option (Z * Z * Z * Z) :=
  match scan_bdf_long bdf with Some r => Some r | None => scan_bdf_short bdf end.

(** [snprintf(path, 64, ...)] keeps 63 characters. *)
Definition iommu_group_path (domain bus slot func : Z) : string :=
  String.substring 0 63
    ("/sys/bus/pci/devices/" +:+ print_x 4 domain +:+ ":" +:+ print_x 2 bus +:+ ":" +:+ print_x 2 slot
     +:+ "." +:+ print_d func +:+ "/iommu_group").
Definition group_path (group : Z) : string := "/dev/vfio/" +:+ print_d group.

Section vfio.
Context {E : Env}.

(** ** The container *)

Definition vfio_container_create : M (option Z) :=
  fd ← perform (EvOpen "/dev/vfio/vfio" O_RDWR);
  if fd <? 0 then mret None
  else
    version ← perform (EvVfioGetApiVersion fd);
    if negb (version =? VFIO_API_VERSION) then perform (EvClose fd);; mret None
    else
      ext ← perform (EvVfioCheckExtension fd);
      if ext =? 0 then perform (EvClose fd);; mret None
      else
        ok ← perform (EvCalloc 4);
        if negb ok then perform (EvClose fd);; mret None
        else mret (Some fd).

Definition vfio_container_destroy (container : option Z) : M unit :=
  match container with
  | None => mret tt
  | Some fd => if fd >=? 0 then perform (EvClose fd) else mret tt
  end.

(** ** Regions *)

Definition munmap (p : ptr) (size : Z) : M unit := perform (EvMunmapDevice p size);; free p.

(** Unmapping loop of [vfio_device_close], [n] regions to go from index [i]. *)
Fixpoint unmap_regions (l : list vfio_region) (n i : nat) : M unit :=
  match n with
  | 0%nat => mret tt
  | S n =>
      r ← deref OutOfBounds (l !! i);
      (if decide (vr_hva r = Null) then mret tt else munmap (vr_hva r) (vr_size r));;
      unmap_regions l n (S i)
  end.

Definition vfio_device_close (vdev : option vfio_dev) : M unit :=
  match vdev with
  | None => mret tt
  | Some v =>
      unmap_regions (vf_regions v) (Z.to_nat (num_regions v)) 0;;
      (if vf_device_fd v >=? 0 then perform (EvClose (vf_device_fd v)) else mret tt);;
      (if vf_group_fd v >=? 0 then perform (EvVfioGroupUnsetContainer (vf_group_fd v) (vf_container_fd v))
       else mret tt);;
      (if vf_group_fd v >=? 0 then perform (EvClose (vf_group_fd v)) else mret tt)
  end.

Definition vfio_device_get_info (v : vfio_dev) : M (option (Z * Z)) :=
  '(ret, info) ← perform (EvVfioDeviceGetInfo (vf_device_fd v));
  mret (if ret <? 0 then None else Some info).

(** Fills [info] and the cached entry; [None] when the ioctl fails. *)
Definition vfio_device_get_region_info (v : vfio_dev) (index : Z)
    : M (option vfio_region_info * vfio_dev) :=
  '(ret, (flags, size, offset)) ← perform (EvVfioGetRegionInfo (vf_device_fd v) index);
  if ret <? 0 then mret (None, v)
  else
    let info := mk_region_info (u32 flags) (u64 size) (u64 offset) in
    let v :=
      match vf_regions v !! Z.to_nat index with
      | Some r =>
          set_vregions (<[Z.to_nat index := mk_vfio_region index (ri_size info) (ri_offset info) (vr_gpa r)
            (vr_hva r) (ri_flags info)]> (vf_regions v)) v
      | None => v
      end in
    mret (Some info, v).

Definition vfio_map_region (v : vfio_dev) (index gpa : Z) : M (Z * vfio_dev) :=
  if index >=? Z.of_nat VFIO_MAX_REGIONS then mret (-1, v)
  else
    '(info, v) ← vfio_device_get_region_info v index;
    match info with
    | None => mret (-1, v)
    | Some info =>
        if Z.land (ri_flags info) VFIO_REGION_INFO_FLAG_MMAP =? 0 then mret (-1, v)
        else
          m ← perform (EvMmapDevice (vf_device_fd v) (ri_size info) (ri_offset info));
          match m with
          | None => mret (-1, v)
          | Some l =>
              hva ← alloc_block (resize (Z.to_nat (ri_size info)) 0 l);
              r ← deref OutOfBounds (vf_regions v !! Z.to_nat index);
              mret (0, set_vregions (<[Z.to_nat index := mk_vfio_region (vr_index r) (vr_size r) (vr_offset r)
                gpa hva (vr_flags r)]> (vf_regions v)) v)
          end
    end.

Definition vfio_unmap_region (v : vfio_dev) (index : Z) : M (Z * vfio_dev) :=
  if index >=? Z.of_nat VFIO_MAX_REGIONS then mret (-1, v)
  else
    r ← deref OutOfBounds (vf_regions v !! Z.to_nat index);
    if decide (vr_hva r = Null) then mret (0, v)
    else
      munmap (vr_hva r) (vr_size r);;
      mret (0, set_vregions (<[Z.to_nat index := mk_vfio_region (vr_index r) (vr_size r) (vr_offset r)
        (vr_gpa r) Null (vr_flags r)]> (vf_regions v)) v).

(** ** Interrupts *)

Definition vfio_setup_irqs (v : vfio_dev) (index type : Z) : M (Z * vfio_dev) :=
  '(ret, count) ← perform (EvVfioGetIrqInfo (vf_device_fd v) index);
  if ret <? 0 then mret (-1, v)
  else mret (0, match vf_irqs v !! Z.to_nat index with
                | Some q => set_virqs (<[Z.to_nat index := mk_vfio_irq index (u32 count) type (vi_fds q) 0]> (vf_irqs v)) v
                | None => v
                end).

(** [fds[subindex]] is not checked. *)
Definition vfio_irq_enable (v : vfio_dev) (index subindex fd : Z) : M (Z * vfio_dev) :=
  ret ← perform (EvVfioSetIrqs (vf_device_fd v)
         (Z.lor VFIO_IRQ_SET_ACTION_TRIGGER VFIO_IRQ_SET_DATA_EVENTFD) index subindex 1 fd);
  if ret <? 0 then mret (-1, v)
  else
    match vf_irqs v !! Z.to_nat index with
    | None => mret (0, v)
    | Some q =>
        _ ← deref OutOfBounds (vi_fds q !! Z.to_nat subindex);
        mret (0, set_virqs (<[Z.to_nat index := mk_vfio_irq (vi_index q) (vi_count q) (vi_type q)
          (<[Z.to_nat subindex := fd]> (vi_fds q)) 1]> (vf_irqs v)) v)
    end.

Definition vfio_irq_disable (v : vfio_dev) (index : Z) : M (Z * vfio_dev) :=
  ret ← perform (EvVfioSetIrqs (vf_device_fd v) VFIO_IRQ_SET_DATA_NONE index 0 0 0);
  if ret <? 0 then mret (-1, v)
  else mret (0, match vf_irqs v !! Z.to_nat index with
                | Some q => set_virqs (<[Z.to_nat index := mk_vfio_irq (vi_index q) (vi_count q) (vi_type q) (vi_fds q) 0]>
                              (vf_irqs v)) v
                | None => v
                end).

(** ** Configuration space: the whole of region 0 is read (and written) *)

(** [int ret = pread(...)]: the count is truncated to 32 bits. *)
Definition read_config (v : vfio_dev) (info : vfio_region_info) (cfg : ptr) : M bool :=
  '(ret, l) ← perform (EvPread (vf_device_fd v) (ri_size info) (ri_offset info));
  if i32 ret <? 0 then mret false else store cfg l;; mret true.

(** Returns the code, the caller's buffer and the device. *)
Definition vfio_pci_cfg_read (v : vfio_dev) (offset : Z) (data : list byte) (size : Z)
    : M (Z * list byte * vfio_dev) :=
  '(info, v) ← vfio_device_get_region_info v 0;
  match info with
  | None => mret (-1, data, v)
  | Some info =>
      cfg ← calloc (ri_size info);
      if decide (cfg = Null) then mret (-1, data, v)
      else
        ok ← read_config v info cfg;
        if negb ok then free cfg;; mret (-1, data, v)
        else
          d ← load (padd cfg offset) size;
          data ← buf_store data d;
          free cfg;;
          mret (0, data, v)
  end.

Definition vfio_pci_cfg_write (v : vfio_dev) (offset : Z) (data : list byte) (size : Z)
    : M (Z * vfio_dev) :=
  '(info, v) ← vfio_device_get_region_info v 0;
  match info with
  | None => mret (-1, v)
  | Some info =>
      cfg ← calloc (ri_size info);
      if decide (cfg = Null) then mret (-1, v)
      else
        ok ← read_config v info cfg;
        if negb ok then free cfg;; mret (-1, v)
        else
          (if in_range data 0 size then mret tt else fail_ub OutOfBounds);;
          store (padd cfg offset) (slice data 0 (Z.to_nat size));;
          out ← load cfg (ri_size info);
          ret ← perform (EvPwrite (vf_device_fd v) out (ri_offset info));
          free cfg;;
          mret (if i32 ret <? 0 then -1 else 0, v)
  end.

(** ** Opening a device

    The group number is taken to be the bus number; the IOMMU group's path in
    sysfs is opened only to see that it exists. *)
Definition vfio_group_open (container group : Z) : M (option Z) :=
  group_fd ← perform (EvOpen (group_path group) O_RDWR);
  if group_fd <? 0 then mret None
  else
    '(ret, flags) ← perform (EvVfioGroupGetStatus group_fd);
    if ret <? 0 then perform (EvClose group_fd);; mret None
    else if Z.land flags VFIO_GROUP_FLAGS_VIABLE =? 0 then perform (EvClose group_fd);; mret None
    else
      ret ← perform (EvVfioGroupSetContainer group_fd container);
      if ret <? 0 then perform (EvClose group_fd);; mret None
      else
        ret ← perform (EvVfioSetIommu container);
        if ret <? 0 then
          perform (EvVfioGroupUnsetContainer group_fd container);;
          perform (EvClose group_fd);; mret None
        else mret (Some group_fd).

(** The two identifiers are read as the program does, one full configuration
    read each; a failed read leaves 0. *)
Definition read_ids (v : vfio_dev) : M vfio_dev :=
  '(_, d, v) ← vfio_pci_cfg_read v PCI_VENDOR_ID (le_enc 2 0) 2;
  let v := set_ids (le_dec d) 0 v in
  '(_, d, v) ← vfio_pci_cfg_read v PCI_DEVICE_ID (le_enc 2 0) 2;
  mret (set_ids (vendor_id v) (le_dec d) v).

Definition vfio_device_open (container : Z) (bdf : string) : M (option vfio_dev) :=
  match parse_bdf bdf with
  | None => mret None
  | Some (domain, bus, slot, func) =>
      let path := iommu_group_path domain bus slot func in
      fp ← perform (EvFopen path "r");
      if negb fp then mret None
      else
        perform (EvFclose path);;
        g ← vfio_group_open container bus;
        match g with
        | None => mret None
        | Some group_fd =>
            device_fd ← perform (EvVfioGroupGetDeviceFd group_fd bdf);
            if device_fd <? 0 then
              perform (EvVfioGroupUnsetContainer group_fd container);;
              perform (EvClose group_fd);; mret None
            else
              ok ← perform (EvCalloc 5168);
              if negb ok then
                perform (EvClose device_fd);;
                perform (EvVfioGroupUnsetContainer group_fd container);;
                perform (EvClose group_fd);; mret None
              else
                let v := mk_vfio_dev container group_fd device_fd 0 0 (replicate VFIO_MAX_REGIONS zero_vregion) 0
                           (replicate VFIO_MAX_IRQS zero_virq) 0 bus in
                info ← vfio_device_get_info v;
                match info with
                | None => vfio_device_close (Some v);; mret None
                | Some (nr, ni) =>
                    v ← read_ids (set_counts (i32 nr) (i32 ni) v);
                    mret (Some v)
                end
        end
  end.

(** ** MMIO handlers

    The object is the [struct device] that [vfio_register_with_vm] allocates,
    with the [vfio_dev] behind its [data] pointer.  The scan over the regions
    starts at 1 and trusts [num_regions]. *)
Record vfio_object := mk_vfio_object { vo_dev : device; vo_vdev : vfio_dev }.

Fixpoint find_region (l : list vfio_region) (n i : nat) (offset : Z) : M (option vfio_region) :=
  match n with
  | 0%nat => mret None
  | S n =>
      r ← deref OutOfBounds (l !! i);
      if (vr_gpa r <=? offset) && (offset <? vr_gpa r +64 vr_size r) then mret (Some r)
      else find_region l n (S i) offset
  end.

Definition vfio_device_read (_ : option vm) (offset : Z) (data : list byte) (size : Z) (o : vfio_object)
    : M (Z * list byte * vfio_object) :=
  let v := vo_vdev o in
  r ← find_region (vf_regions v) (Z.to_nat (num_regions v - 1)) 1 offset;
  match r with
  | None => mret (-1, data, o)
  | Some r =>
      let region_offset := i32 (offset -64 vr_gpa r) in
      if decide (vr_hva r = Null) then
        '(ret, l) ← perform (EvPread (vf_device_fd v) size (vr_offset r +64 region_offset));
        if ret <? 0 then mret (-1, data, o)
        else data ← buf_store data l; mret (0, data, o)
      else
        l ← load (padd (vr_hva r) region_offset) size;
        data ← buf_store data l;
        mret (0, data, o)
  end.

Definition vfio_device_write (_ : option vm) (offset : Z) (data : list byte) (size : Z) (o : vfio_object)
    : M (Z * vfio_object) :=
  let v := vo_vdev o in
  r ← find_region (vf_regions v) (Z.to_nat (num_regions v - 1)) 1 offset;
  match r with
  | None => mret (-1, o)
  | Some r =>
      let region_offset := i32 (offset -64 vr_gpa r) in
      (if in_range data 0 size then mret tt else fail_ub OutOfBounds);;
      let d := slice data 0 (Z.to_nat size) in
      if decide (vr_hva r = Null) then
        ret ← perform (EvPwrite (vf_device_fd v) d (vr_offset r +64 region_offset));
        mret (if ret <? 0 then -1 else 0, o)
      else
        store (padd (vr_hva r) region_offset) d;;
        mret (0, o)
  end.

(** Closes the device and frees the [struct device]. *)
Definition vfio_device_destroy_wrapper (o : vfio_object) : M (option vfio_object) :=
  vfio_device_close (Some (vo_vdev o));; mret None.

Definition vfio_device_ops : device_ops vfio_object :=
  mk_device_ops "vfio-device" (Some vfio_device_read) (Some vfio_device_write) (Some vfio_device_destroy_wrapper).
End vfio.

#[export] Instance vfio_object_device `{E : Env} : Device vfio_object := {|
  dbase := vo_dev;
  dset d o := mk_vfio_object d (vo_vdev o);
  dops _ := Some vfio_device_ops
|}.

(** ** Properties *)

(** [C38] [parse_bdf] reads back every address in the two formats it documents:
    the full form with a domain, and the short form, whose domain is 0. *)
Theorem parse_bdf_roundtrip domain bus slot func :
  0 <= domain < 2147483648 -> 0 <= bus < 2147483648 -> 0 <= slot < 2147483648 -> 0 <= func < 2147483648 ->
  let short := print_x 2 bus +:+ ":" +:+ print_x 2 slot +:+ "." +:+ print_d func in
  parse_bdf (print_x 4 domain +:+ ":" +:+ short) = Some (domain, bus, slot, func) /\
  parse_bdf short = Some (0, bus, slot, func).
Proof.
  intros Hd Hb Hs Hf. cbv zeta.
  assert (forall r, stops 16 (":" +:+ r)) as Hcolon by (intros; by split_and!).
  assert (forall r, stops 16 ("." +:+ r)) as Hdot by (intros; by split_and!).
  assert (scan_d (print_d func) = Some (func, ""%string)) as Hfunc.
  { rewrite <- (scan_d_print func "" Hf I). f_equal. induction (print_d func) as [|c s IH]; [done|].
    rewrite append_cons. by f_equal. }
  assert (forall c r, scan_lit c (String c "" +:+ r) = Some r) as Hlit
    by (intros; rewrite append_cons, append_nil; unfold scan_lit; by rewrite Ascii.eqb_refl).
  unfold parse_bdf, scan_bdf_long, scan_bdf_short. split.
  - rewrite scan_x_print by done. cbn [mbind option_bind]. rewrite Hlit. cbn [mbind option_bind].
    rewrite scan_x_print by done. cbn [mbind option_bind]. rewrite Hlit. cbn [mbind option_bind].
    rewrite scan_x_print by done. cbn [mbind option_bind]. rewrite Hlit. cbn [mbind option_bind].
    by rewrite Hfunc.
  - rewrite scan_x_print by done. cbn [mbind option_bind]. rewrite Hlit. cbn [mbind option_bind].
    rewrite scan_x_print by done. cbn [mbind option_bind].
    change (scan_lit ":"%char ("." +:+ print_d func)) with (@None string). cbn [mbind option_bind].
    rewrite Hlit. cbn [mbind option_bind]. by rewrite Hfunc.
Qed.

Lemma parse_bdf_roundtrip_witness :
  print_x 4 0 +:+ ":" +:+ print_x 2 26 +:+ ":" +:+ print_x 2 0 +:+ "." +:+ print_d 1 = "0000:1a:00.1"%string /\
  parse_bdf "0000:1a:00.1" = Some (0, 26, 0, 1).
Proof.
  split; [reflexivity|].
  exact (proj1 (parse_bdf_roundtrip 0 26 0 1 ltac:(lia) ltac:(lia) ltac:(lia) ltac:(lia))).
Defined.

(** What a device keeps through configuration accesses. *)
Record same_device (v v' : vfio_dev) : Prop := {
  sd_fds : vf_container_fd v' = vf_container_fd v /\ vf_group_fd v' = vf_group_fd v /\ vf_device_fd v' = vf_device_fd v;
  sd_counts : num_regions v' = num_regions v /\ num_irqs v' = num_irqs v;
  sd_regions : forall i, i <> 0%nat -> vf_regions v' !! i = vf_regions v !! i;
  sd_hva : (vr_hva <$> vf_regions v') = (vr_hva <$> vf_regions v)
}.

Lemma same_device_refl v : same_device v v.
Proof. by split. Qed.
Lemma same_device_trans v1 v2 v3 : same_device v1 v2 -> same_device v2 v3 -> same_device v1 v3.
Proof.
  intros [(A1&A2&A3) [A4 A5] A6 A7] [(B1&B2&B3) [B4 B5] B6 B7].
  split; [split_and!; congruence..|intros i Hi; by rewrite B6, A6|congruence].
Qed.

Section vfio_props.
Context {E : Env}.

(** [pread] never stores more than it was asked for. *)
Definition pread_within : Prop :=
  forall tr fd n off ret l, env_answer tr (EvPread fd n off) = (ret, l) -> 0 <= n -> 0 <= i32 ret ->
    Z.of_nat (length l) <= n.

(** After the calls of [h], and perhaps others, the kernel describes region 0, which the
    program takes for the configuration space, as shorter than four bytes.  Region 0 is
    BAR 0, and its size is 0 on a device that does not implement it. *)
Definition region0_short (h : host) : Prop :=
  exists tr fd ret flags size off, trace h `suffix_of` tr /\
    env_answer tr (EvVfioGetRegionInfo fd 0) = (ret, (flags, size, off)) /\ 0 <= ret /\ u64 size < 4.

(** The computation returns a result with [Q], or reads beyond a region 0 that is too
    short. *)
Definition returns_unless_short {A} (m : M A) (Q : A -> host -> Prop) (h : host) : Prop :=
  match m h with
  | Ok a h' => Q a h' /\ trace h `suffix_of` trace h'
  | Ub u => u = OutOfBounds /\ region0_short h
  end.

Lemma region0_short_earlier h h' : trace h `suffix_of` trace h' -> region0_short h' -> region0_short h.
Proof. intros Ht (tr & fd & ret & fl & sz & off & Hs & H). exists tr, fd, ret, fl, sz, off. split; [by etrans|done]. Qed.

Lemma ru_ret {A} (a : A) (Q : A -> host -> Prop) h : Q a h -> returns_unless_short (mret a) Q h.
Proof. done. Qed.
Lemma ru_bind {A B} (m : M A) (f : A -> M B) (Q : A -> host -> Prop) (R : B -> host -> Prop) h :
  returns_unless_short m Q h ->
  (forall a h', Q a h' -> trace h `suffix_of` trace h' -> returns_unless_short (f a) R h') ->
  returns_unless_short (m ≫= f) R h.
Proof.
  unfold returns_unless_short, mbind, M_bind. destruct (m h) as [a h1|u]; [|done]. intros [Hq Ht] Hf.
  specialize (Hf a h1 Hq Ht). destruct (f a h1) as [b h2|u]; destruct Hf as [H1 H2].
  - split; [done|by etrans].
  - split; [done|by eapply region0_short_earlier].
Qed.
Lemma ru_Ok {A} (m : M A) (Q : A -> host -> Prop) h a h' :
  m h = Ok a h' -> Q a h' -> trace h `suffix_of` trace h' -> returns_unless_short m Q h.
Proof. unfold returns_unless_short. by intros -> ? ?. Qed.
Lemma ru_perform {A} e (f : answer e -> M A) (R : A -> host -> Prop) h :
  returns_unless_short (f (env_answer (trace h) e)) R (called e h) -> returns_unless_short (perform e ≫= f) R h.
Proof.
  unfold returns_unless_short, mbind, M_bind, perform. destruct (f _ _) as [b h2|u]; intros [H1 H2].
  - split; [done|]. etrans; [|exact H2]. by apply suffix_cons_r.
  - split; [done|]. eapply region0_short_earlier; [|exact H2]. by apply suffix_cons_r.
Qed.

Lemma region_info_run v h :
  exists r v', vfio_device_get_region_info v 0 h = Ok (r, v') (called (EvVfioGetRegionInfo (vf_device_fd v) 0) h) /\
    same_device v v' /\ (forall info, r = Some info -> 0 <= ri_size info /\ (ri_size info < 4 -> region0_short h)).
Proof.
  unfold vfio_device_get_region_info.
  destruct (env_answer (trace h) (EvVfioGetRegionInfo (vf_device_fd v) 0)) as [ret [[flags size] off]] eqn:Ha.
  mrun by (unfold perform; rewrite Ha; reflexivity).
  destruct (ret <? 0) eqn:Hr; bool_prop.
  - exists None, v. split_and!; [done|apply same_device_refl|done].
  - eexists _, _. split; [reflexivity|]. split.
    + change (Z.to_nat 0) with 0%nat. destruct (vf_regions v !! 0%nat) as [r|] eqn:Hr0; [|apply same_device_refl].
      split; [done..| |].
      * intros i Hi. simpl. by rewrite list_lookup_insert_ne.
      * simpl. rewrite list_fmap_insert. apply list_insert_id. by rewrite list_lookup_fmap, Hr0.
    + intros info [= <-]. simpl. split; [apply u64_range|]. intros Hsz. by exists (trace h), (vf_device_fd v), ret, flags, size, off.
Qed.

(** Reading within the first four bytes keeps the heap and opens nothing, if region 0 is
    that long. *)
Lemma cfg_read_run v offset data size h :
  pread_within -> 0 <= offset -> 0 <= size -> offset + size <= 4 -> size <= Z.of_nat (length data) ->
  returns_unless_short (vfio_pci_cfg_read v offset data size)
    (fun '(_, _, v') h' => heap h' = heap h /\ same_device v v' /\ open_fds (trace h') = open_fds (trace h)) h.
Proof.
  intros Hok Ho Hs Hb Hd. unfold vfio_pci_cfg_read, returns_unless_short.
  destruct (region_info_run v h) as ([info|] & v' & Hrun & Hsame & Hinfo); rewrite (bind_Ok _ _ _ _ _ Hrun);
    cbv beta iota; [|split; [done|by apply suffix_cons_r]].
  destruct (Hinfo info eq_refl) as [Hpos Hshort]. set (h1 := called _ h). unfold calloc. rewrite bind_assoc. mrun.
  destruct (env_answer (trace h1) (EvCalloc (ri_size info)));
    [|rewrite (bind_ret Null), decide_True by done; split; [done|by do 2 apply suffix_cons_r]].
  set (h2 := called _ h1).
  destruct (alloc_block_spec (replicate (Z.to_nat (ri_size info)) 0) h2) as (b & Hb' & Hfresh).
  rewrite (bind_Ok _ _ _ _ _ Hb'), decide_False by done. set (h3 := set_heap _ h2).
  unfold read_config. rewrite bind_assoc.
  destruct (env_answer (trace h3) (EvPread (vf_device_fd v') (ri_size info) (ri_offset info))) as [ret l] eqn:Hp.
  mrun by (unfold perform; rewrite Hp; reflexivity). set (h4 := called _ h3).
  assert (heap h4 !! b = Some (replicate (Z.to_nat (ri_size info)) 0)) as Hl4
    by (simpl; apply lookup_insert_eq).
  destruct (i32 ret <? 0) eqn:Hr; bool_prop.
  - rewrite (bind_ret false). cbn [negb]. rewrite (bind_Ok _ _ _ _ _ (free_ok _ _ _ Hl4)). split; [|by do 3 apply suffix_cons_r].
    split; [simpl; rewrite delete_insert_eq; by apply delete_id|done].
  - pose proof (Hok _ _ _ _ _ _ Hp Hpos Hr) as Hlen. rewrite bind_assoc.
    mrun by (apply store_ok; exists b, 0; eexists; split_and!; [done|exact Hl4|lia..|rewrite length_replicate; lia]).
    rewrite (bind_ret true). cbn [negb]. unfold stored. rewrite Hl4. cbn [from_option id]. set (h5 := set_heap _ h4).
    set (cfg := splice _ _ l) in h5.
    assert (heap h5 !! b = Some cfg) as Hl5 by (simpl; apply lookup_insert_eq).
    assert (length cfg = Z.to_nat (ri_size info)) as Hcfg
      by (subst cfg; rewrite length_splice; rewrite length_replicate; simpl; lia).
    destruct (in_range cfg (0 + offset) size) eqn:Hin.
    + assert (range_ok h5 (padd (Ptr b 0) offset) size) as Hrange
        by (apply in_range_spec in Hin as (? & ? & ?); by exists b, (0 + offset), cfg).
      mrun by (by apply load_ok).
      mrun by (unfold buf_store; rewrite (proj2 (in_range_spec _ _ _)) by (rewrite length_bytes_at by done; lia); reflexivity).
      rewrite (bind_Ok _ _ _ _ _ (free_ok _ _ _ Hl5)). split; [|by do 3 apply suffix_cons_r].
      split; [simpl; rewrite !delete_insert_eq; by apply delete_id|done].
    + assert (load (padd (Ptr b 0) offset) size h5 = Ub OutOfBounds) as Hover by (unfold load, padd; by rewrite Hl5, Hin).
      rewrite (bind_Ub _ _ _ _ Hover). split; [done|]. apply Hshort. destruct (decide (ri_size info < 4)); [done|].
      rewrite (proj2 (in_range_spec _ _ _)) in Hin by (rewrite Hcfg; lia). done.
Qed.

Lemma read_ids_run v h :
  pread_within ->
  returns_unless_short (read_ids v)
    (fun v' h' => heap h' = heap h /\ same_device v v' /\ open_fds (trace h') = open_fds (trace h)) h.
Proof.
  intros Hok. unfold read_ids. eapply ru_bind; [by apply cfg_read_run|].
  intros [[r1 d1] v1] h1 (Hh1 & Hv1 & Ho1) _. cbv beta iota zeta. eapply ru_bind; [by apply cfg_read_run|].
  intros [[r2 d2] v2] h2 (Hh2 & Hv2 & Ho2) _. cbv beta iota. apply ru_ret. split_and!; [congruence| |congruence].
  eapply same_device_trans; [exact Hv1|]. destruct Hv2. by split.
Qed.

(** Opening a group: on failure the descriptor is closed again. *)
Lemma group_open_run c g h :
  exists r h', vfio_group_open c g h = Ok r h' /\ heap h' = heap h /\
    open_fds (trace h') = match r with Some fd => fd :: open_fds (trace h) | None => open_fds (trace h) end /\
    (forall fd, r = Some fd -> 0 <= fd) /\ trace h `suffix_of` trace h'.
Proof.
  unfold vfio_group_open, mbind, M_bind, perform, mret, M_ret.
  repeat case_match; simplify_eq; eexists _, _; (split; [reflexivity|]); fd_count; bool_prop; split_and!; try done.
  all: try (intros ? [= <-]; lia). all: cbn [trace called]; by repeat apply suffix_cons_r.
Qed.

(** A device as [calloc] and the opening ioctls leave it. *)
Definition opened_dev (c g d nr ni bus : Z) : vfio_dev :=
  mk_vfio_dev c g d 0 0 (replicate VFIO_MAX_REGIONS zero_vregion) nr (replicate VFIO_MAX_IRQS zero_virq) ni bus.

(** What [vfio_device_open] leaves behind. *)
Definition open_result (c : Z) (h : host) (r : option vfio_dev) (h' : host) : Prop :=
  heap h' = heap h /\
  match r with
  | None => open_fds (trace h') = open_fds (trace h)
  | Some v =>
      open_fds (trace h') = vf_device_fd v :: vf_group_fd v :: open_fds (trace h) /\
      vf_container_fd v = c /\ vr_hva <$> vf_regions v = replicate VFIO_MAX_REGIONS Null /\
      (forall i, (0 < i < VFIO_MAX_REGIONS)%nat -> vf_regions v !! i = Some zero_vregion)
  end.

Lemma vfio_device_open_run c bdf h :
  pread_within -> returns_unless_short (vfio_device_open c bdf) (open_result c h) h.
Proof.
  intros Hok. unfold vfio_device_open.
  destruct (parse_bdf bdf) as [[[[domain bus] slot] func]|]; [|done]. unfold returns_unless_short.
  set (path := iommu_group_path _ _ _ _). mrun. destruct (env_answer (trace h) (EvFopen path "r")); cbn [negb]; [|split; [done|by grown_trace]].
  set (h1 := called _ h). mrun by (unfold perform; by destruct (env_answer (trace h1) (EvFclose path))).
  set (h2 := called _ h1).
  destruct (group_open_run c bus h2) as ([g|] & h3 & Hg & Hh3 & Ho3 & Hpos & Ht3); rewrite (bind_Ok _ _ _ _ _ Hg);
    assert (trace h `suffix_of` trace h3) as Ht by (etrans; [|exact Ht3]; by grown_trace); [|done].
  specialize (Hpos g eq_refl). mrun. set (h4 := called _ h3).
  destruct (env_answer (trace h3) (EvVfioGroupGetDeviceFd g bdf) <? 0) eqn:Hd.
  { unfold mbind, M_bind, perform, mret, M_ret. split; [|by grown_trace]. split; [exact Hh3|].
    subst h4. fd_count. rewrite Ho3. apply remove_one_head. }
  set (d := env_answer (trace h3) (EvVfioGroupGetDeviceFd g bdf)) in *. bool_prop.
  assert (open_fds (trace h4) = d :: g :: open_fds (trace h)) as Ho4.
  { subst h4. cbn [trace called open_fds]. unfold opened. fold d. by rewrite (proj2 (Z.ltb_ge _ _)), Ho3. }
  mrun. set (h5 := called _ h4). destruct (env_answer (trace h4) (EvCalloc 5168)); cbn [negb].
  2:{ unfold mbind, M_bind, perform, mret, M_ret. split; [|by grown_trace]. split; [exact Hh3|].
      change (remove_one g (remove_one d (open_fds (trace h4))) = open_fds (trace h)).
      by rewrite Ho4, !remove_one_head. }
  cbv zeta. unfold vfio_device_get_info. rewrite bind_assoc. mrun.
  destruct (env_answer (trace h5) _) as [ret [nr ni]]. set (h6 := called _ h5).
  cbn [vf_device_fd]. rewrite bind_ret. destruct (ret <? 0).
  - unfold vfio_device_close. cbn [num_regions vf_device_fd vf_group_fd unmap_regions Z.to_nat].
    rewrite !(proj2 (Z.geb_le _ _)) by lia.
    unfold mbind, M_bind, perform, mret, M_ret. split; [|by grown_trace]. split; [exact Hh3|].
    change (remove_one g (remove_one d (open_fds (trace h4))) = open_fds (trace h)).
    by rewrite Ho4, !remove_one_head.
  - assert (trace h `suffix_of` trace h6) as Ht6 by grown_trace.
    pose proof (read_ids_run (opened_dev c g d (i32 nr) (i32 ni) bus) h6 Hok) as Hids. unfold returns_unless_short in Hids.
    destruct (read_ids (opened_dev c g d (i32 nr) (i32 ni) bus) h6) as [v h7|u] eqn:Hr;
      [rewrite (bind_Ok _ _ _ _ _ Hr)|rewrite (bind_Ub _ _ _ _ Hr); destruct Hids as [-> Hs]; split; [done|by eapply region0_short_earlier]].
    destruct Hids as [(Hh7 & [Hfds _ Hreg Hhva] & Ho7) Ht7]. split; [|by etrans]. split; [by rewrite Hh7|].
    destruct Hfds as (-> & -> & ->). split_and!; [rewrite Ho7; exact Ho4|done|by rewrite Hhva|].
    intros i Hi. rewrite Hreg by lia.
    change (replicate VFIO_MAX_REGIONS zero_vregion !! i = Some zero_vregion). apply lookup_replicate_2, Hi.
Qed.

(** [C37] Opening a device, on every path and for every description of its regions.
    Either it returns and gives every buffer back: when it fails, every descriptor it
    opened is closed again; when it succeeds exactly the group's and the device's
    descriptor are open more, they are the ones in the structure, no region is mapped,
    and every entry of the region table but the first is still empty.  Or it reads
    beyond its copy of the configuration space, and this only when the kernel describes
    region 0, which is BAR 0 and may be missing, as shorter than four bytes. *)
Theorem vfio_device_open_spec c bdf h :
  pread_within ->
  match vfio_device_open c bdf h with
  | Ok r h' =>
      heap h' = heap h /\
      match r with
      | None => open_fds (trace h') = open_fds (trace h)
      | Some v =>
          open_fds (trace h') = vf_device_fd v :: vf_group_fd v :: open_fds (trace h) /\
          vf_container_fd v = c /\ vr_hva <$> vf_regions v = replicate VFIO_MAX_REGIONS Null /\
          (forall i, (0 < i < VFIO_MAX_REGIONS)%nat -> vf_regions v !! i = Some zero_vregion)
      end
  | Ub u => u = OutOfBounds /\ region0_short h
  end.
Proof.
  intros Hok. pose proof (vfio_device_open_run c bdf h Hok) as H. unfold returns_unless_short, open_result in H.
  destruct (vfio_device_open c bdf h) as [r h'|u]; [by destruct H|done].
Qed.

(** And then it does: on a device without BAR 0, once the group and the device have been
    opened and [calloc] of no bytes and the [pread] of no bytes succeed, reading the
    vendor reads beyond the buffer. *)
Theorem vfio_missing_bar0_overread v ret flags off ret2 l data h :
  env_answer (trace h) (EvVfioGetRegionInfo (vf_device_fd v) 0) = (ret, (flags, 0, off)) -> 0 <= ret ->
  let h1 := called (EvVfioGetRegionInfo (vf_device_fd v) 0) h in
  env_answer (trace h1) (EvCalloc 0) = true ->
  env_answer (EvCalloc 0 :: trace h1) (EvPread (vf_device_fd v) 0 (u64 off)) = (ret2, l) -> 0 <= i32 ret2 -> l = [] ->
  vfio_pci_cfg_read v PCI_VENDOR_ID data 2 h = Ub OutOfBounds.
Proof.
  intros Ha Hr h1 Hc Hp Hr2 ->. unfold vfio_pci_cfg_read, vfio_device_get_region_info. rewrite bind_assoc.
  mrun by (unfold perform; rewrite Ha; reflexivity). cbv beta iota. rewrite (proj2 (Z.ltb_ge _ _)), bind_ret by lia. cbv beta iota.
  set (v' := if vf_regions v !! _ is Some _ then _ else _). assert (vf_device_fd v' = vf_device_fd v) as Hfd by (by subst v'; case_match).
  cbn [ri_size ri_offset]. change (u64 0) with 0. unfold calloc. fold h1. rewrite bind_assoc. mrun by (unfold perform; rewrite Hc; reflexivity).
  unfold read_config, mbind, M_bind, perform, alloc_block, mret, M_ret. cbv beta iota zeta.
  rewrite decide_False by done. cbn [ri_size ri_offset trace called set_heap]. rewrite Hfd.
  change (trace (set_heap _ _)) with (EvCalloc 0 :: trace h1). rewrite Hp. rewrite (proj2 (Z.ltb_ge _ _)) by lia.
  unfold store. cbn [heap called set_heap length Z.of_nat]. rewrite lookup_insert_eq.
  cbn [negb padd]. unfold load. change (in_range (replicate (Z.to_nat 0) 0) 0 (Z.of_nat 0)) with true.
  cbn [heap set_heap negb]. by rewrite lookup_insert_eq.
Qed.

(** A device of more regions than the table has entries. *)
Lemma unmap_regions_overrun l n i h :
  Forall (fun r => vr_hva r = Null) l -> (length l < i + n)%nat -> (i <= length l)%nat ->
  unmap_regions l n i h = Ub OutOfBounds.
Proof.
  intros Hl. revert i. induction n as [|n IH]; intros i Hn Hi; [lia|]. cbn [unmap_regions].
  destruct (l !! i) as [r|] eqn:Hr; cbn [deref]; [|by apply bind_Ub].
  rewrite (bind_ret r), decide_True by (exact (Forall_lookup_1 _ _ _ _ Hl Hr)).
  rewrite (bind_ret tt). apply lookup_lt_Some in Hr. apply IH; lia.
Qed.

Lemma find_region_overrun l n i off h :
  (forall j r, (i <= j)%nat -> l !! j = Some r -> vr_size r = 0 /\ 0 <= vr_gpa r < 18446744073709551616) ->
  (length l < i + n)%nat -> (i <= length l)%nat ->
  find_region l n i off h = Ub OutOfBounds.
Proof.
  intros Hl. revert i Hl. induction n as [|n IH]; intros i Hl Hn Hi; [lia|]. cbn [find_region].
  destruct (l !! i) as [r|] eqn:Hr; cbn [deref]; [|by apply bind_Ub].
  rewrite (bind_ret r). destruct (Hl i r ltac:(lia) Hr) as [-> Hg].
  replace ((vr_gpa r <=? off) && (off <? vr_gpa r +64 0)) with false.
  - apply lookup_lt_Some in Hr. apply IH; [|lia..]. intros j r' Hj. apply Hl. lia.
  - symmetry. apply andb_false_iff. rewrite Z.add_0_r, u64_small by done.
    destruct (Z.leb_spec (vr_gpa r) off); [right; apply Z.ltb_ge; lia|by left].
Qed.

(** The region count comes from the kernel and is never compared with the
    size of the table: for a freshly opened device that reports more than 8
    regions, closing it, and every guest access to it, indexes the table out of
    bounds. *)
Theorem vfio_region_count_unchecked v dev off data size vmp h :
  length (vf_regions v) = VFIO_MAX_REGIONS -> Forall (fun r => vr_hva r = Null) (vf_regions v) ->
  (forall i, (0 < i < VFIO_MAX_REGIONS)%nat -> vf_regions v !! i = Some zero_vregion) ->
  8 < num_regions v ->
  vfio_device_close (Some v) h = Ub OutOfBounds /\
  vfio_device_read vmp off data size (mk_vfio_object dev v) h = Ub OutOfBounds /\
  vfio_device_write vmp off data size (mk_vfio_object dev v) h = Ub OutOfBounds.
Proof.
  intros Hlen Hnull Hzero Hn. unfold VFIO_MAX_REGIONS in *.
  assert (find_region (vf_regions v) (Z.to_nat (num_regions v - 1)) 1 off h = Ub OutOfBounds) as Hf.
  { apply find_region_overrun; [|lia..]. intros j r Hj Hr. pose proof (lookup_lt_Some _ _ _ Hr).
    rewrite Hzero in Hr by lia. by injection Hr as <-. }
  split_and!; apply bind_Ub; [|exact Hf..]. apply unmap_regions_overrun; [done|lia..].
Qed.
End vfio_props.

(** ** Witnesses *)

Lemma good_env_pread_within : pread_within (E := good_env).
Proof. intros tr fd n off ret l [= <- <-] Hn _. rewrite length_replicate. lia. Qed.

Lemma vfio_device_open_spec_witness :
  exists r h', vfio_device_open (E := good_env) 9 "1a:00.1" empty_host = Ok r h' /\ heap h' = ∅ /\ is_Some r.
Proof.
  pose proof (vfio_device_open_spec (E := good_env) 9 "1a:00.1" empty_host good_env_pread_within) as H.
  destruct (vfio_device_open (E := good_env) 9 "1a:00.1" empty_host) as [r h'|u] eqn:Hrun; [|vm_compute in Hrun; discriminate Hrun].
  exists r, h'. split; [reflexivity|]. split; [exact (proj1 H)|].
  destruct r as [v|]; [by exists v|]. vm_compute in Hrun. discriminate Hrun.
Defined.

Lemma vfio_region_count_unchecked_witness :
  vfio_device_close (E := good_env) (Some (opened_dev 3 4 5 9 5 26)) empty_host = Ub OutOfBounds.
Proof.
  refine (proj1 (vfio_region_count_unchecked (E := good_env) (opened_dev 3 4 5 9 5 26) zero_device 0 [] 4 None
    empty_host eq_refl _ _ _)).
  - apply Forall_replicate. reflexivity.
  - intros i Hi. apply lookup_replicate_2. lia.
  - reflexivity.
Defined.
