(* ===== verification/Machine.v ===== *)
(** * The machine's devices as one object type

    [struct device *] points to the base part of one of the program's device
    structures.  [object] is the sum of those structures, [container_of] is the
    projection to a summand, and the [Device] instance is the dynamic dispatch
    through [dev->ops].  The framework of [Devices], written against the class,
    thus runs on the real devices. *)

From S2P Require Import Prelude HvTypes Host Utils GuestMem VmMem Devices MmioConsole Virtio VirtioConsole VirtioBlk VirtioNet Vfio.

Inductive object :=
| ObjPlain (d : device)             (* device_create without ops *)
| ObjUart (o : mmio_console)
| ObjCon (o : vcon)
| ObjBlk (o : vblk)
| ObjNet (o : vnet)
| ObjVfio (o : vfio_object).

Definition as_uart (o : object) : option mmio_console := match o with ObjUart a => Some a | _ => None end.
Definition as_con (o : object) : option vcon := match o with ObjCon a => Some a | _ => None end.
Definition as_blk (o : object) : option vblk := match o with ObjBlk a => Some a | _ => None end.
Definition as_net (o : object) : option vnet := match o with ObjNet a => Some a | _ => None end.
Definition as_vfio (o : object) : option vfio_object := match o with ObjVfio a => Some a | _ => None end.

(** The operation table of a summand, behind [container_of]. *)
Definition lift_ops {A} (prj : object -> option A) (inj : A -> object) (ops : device_ops A)
    : device_ops object :=
  mk_device_ops (dop_name ops)
    (match dop_read ops with
     | Some f => Some (fun vmp off buf n o =>
         a ← deref BadMember (prj o); '(r, buf, a) ← f vmp off buf n a; mret (r, buf, inj a))
     | None => None
     end)
    (match dop_write ops with
     | Some f => Some (fun vmp off buf n o =>
         a ← deref BadMember (prj o); '(r, a) ← f vmp off buf n a; mret (r, inj a))
     | None => None
     end)
    (match dop_destroy ops with
     | Some f => Some (fun o => a ← deref BadMember (prj o); r ← f a; mret (option_map inj r))
     | None => None
     end).

#[export] Instance object_device `{E : Env} : Device object := {|
  dbase o :=
    match o with
    | ObjPlain d => d | ObjUart a => dbase a | ObjCon a => dbase a | ObjBlk a => dbase a | ObjNet a => dbase a
    | ObjVfio a => dbase a
    end;
  dset d o :=
    match o with
    | ObjPlain _ => ObjPlain d | ObjUart a => ObjUart (dset d a) | ObjCon a => ObjCon (dset d a)
    | ObjBlk a => ObjBlk (dset d a) | ObjNet a => ObjNet (dset d a)
    | ObjVfio a => ObjVfio (dset d a)
    end;
  dops o :=
    match o with
    | ObjPlain _ => None
    | ObjUart a => lift_ops as_uart ObjUart <$> dops a
    | ObjCon a => lift_ops as_con ObjCon <$> dops a
    | ObjBlk a => lift_ops as_blk ObjBlk <$> dops a
    | ObjNet a => lift_ops as_net ObjNet <$> dops a
    | ObjVfio a => lift_ops as_vfio ObjVfio <$> dops a
    end
|}.

(** ** Handlers keep their device's window *)

Section laws.
Context {E : Env}.

Lemma uart_write_base vmp off data n o h r o' h' :
  mmio_console_write vmp off data n o h = Ok (r, o') h' -> mc_dev o' = mc_dev o.
Proof.
  unfold mmio_console_write. intros H.
  apply bind_inv in H as (x & h1 & _ & H). minv H; by simplify_eq.
Qed.

Lemma uart_read_base vmp off data n o h r d' o' h' :
  mmio_console_read vmp off data n o h = Ok (r, d', o') h' -> mc_dev o' = mc_dev o.
Proof.
  unfold mmio_console_read. intros H. destruct (uart_read _ _) as [val s].
  minv H; by simplify_eq.
Qed.

#[export] Instance uart_laws : DeviceLaws mmio_console.
Proof.
  split; [done|..]; simpl.
  - intros o ops f v off buf n h r buf' o' h' [= <-] [= <-] H. simpl.
    by rewrite (uart_read_base _ _ _ _ _ _ _ _ _ _ H).
  - intros o ops f v off buf n h r o' h' [= <-] [= <-] H. simpl.
    by rewrite (uart_write_base _ _ _ _ _ _ _ _ _ H).
Qed.

Lemma virtio_read_base {P} (fns : virtio_fns P) vmp off d n v h r d' v' h' :
  virtio_dev_read fns vmp off d n v h = Ok (r, d', v') h' -> v' = v.
Proof. unfold virtio_dev_read. intros H. minv H. by simplify_eq. Qed.

Lemma virtio_write_base {P} (fns : virtio_fns P) `{!VirtioLaws fns} vmp off d n v h r v' h' :
  virtio_dev_write fns vmp off d n v h = Ok (r, v') h' -> vd_device v' = vd_device v.
Proof.
  unfold virtio_dev_write, virtio_mmio_write. intros H. apply bind_inv in H as (val & h1 & _ & H).
  repeat match type of H with
  | (if ?b then _ else _) _ = _ => destruct b eqn:?
  end; try (minv H; by simplify_eq).
  - destruct (vf_queue_notify fns) as [f|] eqn:Hf; [|minv H; by simplify_eq].
    apply bind_inv in H as (q & h2 & _ & H). apply bind_inv in H as ([r2 v2] & h3 & Hn & H).
    minv H. simplify_eq. by eapply vl_notify_device.
  - destruct (vf_config_write fns) as [f|] eqn:Hf; [|minv H; by simplify_eq].
    destruct (off >=? 256); [|minv H; by simplify_eq].
    apply (vl_config_write f) in H as [_ ->]; done.
Qed.

#[export] Instance con_laws : DeviceLaws vcon.
Proof.
  split; [done|..]; simpl.
  - intros o ops f v off buf n h r buf' o' h' [= <-] [= <-] H. by apply virtio_read_base in H as ->.
  - intros o ops f v off buf n h r o' h' [= <-] [= <-] H. apply virtio_write_base in H as ->; [done|apply _].
Qed.
#[export] Instance blk_laws : DeviceLaws vblk.
Proof.
  split; [done|..]; simpl.
  - intros o ops f v off buf n h r buf' o' h' [= <-] [= <-] H. by apply virtio_read_base in H as ->.
  - intros o ops f v off buf n h r o' h' [= <-] [= <-] H. apply virtio_write_base in H as ->; [done|apply _].
Qed.
#[export] Instance net_laws : DeviceLaws vnet.
Proof.
  split; [done|..]; simpl.
  - intros o ops f v off buf n h r buf' o' h' [= <-] [= <-] H. by apply virtio_read_base in H as ->.
  - intros o ops f v off buf n h r o' h' [= <-] [= <-] H. apply virtio_write_base in H as ->; [done|apply _].
Qed.

#[export] Instance vfio_laws : DeviceLaws vfio_object.
Proof.
  split; [done|..]; simpl.
  - intros o ops f v off buf n h r buf' o' h' [= <-] [= <-] H. unfold vfio_device_read in H.
    minv H; by simplify_eq.
  - intros o ops f v off buf n h r o' h' [= <-] [= <-] H. unfold vfio_device_write in H.
    minv H; by simplify_eq.
Qed.

(** Lifting through [container_of] keeps the laws. *)
Lemma lift_read_window {A} `{DeviceLaws A} (prj : object -> option A) inj (a : A) ops f v off buf n o h r buf' o' h' :
  prj o = Some a -> (forall a, dbase (inj a) = dbase a) -> dbase o = dbase a ->
  lift_ops prj inj <$> dops a = Some ops -> dop_read ops = Some f ->
  f v off buf n o h = Ok (r, buf', o') h' ->
  gpa_start (dbase o') = gpa_start (dbase o) /\ gpa_end (dbase o') = gpa_end (dbase o).
Proof.
  intros Hp Hi Hb Hops Hf Hrun. destruct (dops a) as [ops0|] eqn:Ha; [|done]. injection Hops as <-.
  simpl in Hf. destruct (dop_read ops0) as [f0|] eqn:Hf0; [|done]. injection Hf as <-.
  rewrite Hp in Hrun. simpl deref in Hrun. rewrite (bind_ret a) in Hrun.
  apply bind_inv in Hrun as ([[r0 b0] a0] & h1 & Hrun & Hret). minv Hret. simplify_eq.
  rewrite Hi, Hb. by eapply dops_read_window.
Qed.

Lemma lift_write_window {A} `{DeviceLaws A} (prj : object -> option A) inj (a : A) ops f v off buf n o h r o' h' :
  prj o = Some a -> (forall a, dbase (inj a) = dbase a) -> dbase o = dbase a ->
  lift_ops prj inj <$> dops a = Some ops -> dop_write ops = Some f ->
  f v off buf n o h = Ok (r, o') h' ->
  gpa_start (dbase o') = gpa_start (dbase o) /\ gpa_end (dbase o') = gpa_end (dbase o).
Proof.
  intros Hp Hi Hb Hops Hf Hrun. destruct (dops a) as [ops0|] eqn:Ha; [|done]. injection Hops as <-.
  simpl in Hf. destruct (dop_write ops0) as [f0|] eqn:Hf0; [|done]. injection Hf as <-.
  rewrite Hp in Hrun. simpl deref in Hrun. rewrite (bind_ret a) in Hrun.
  apply bind_inv in Hrun as ([r0 a0] & h1 & Hrun & Hret). minv Hret. simplify_eq.
  rewrite Hi, Hb. by eapply dops_write_window.
Qed.

#[export] Instance object_laws : DeviceLaws object.
Proof.
  split.
  - by intros d [].
  - intros [d|a|a|a|a|a] ops f v off buf n h r buf' o' h' Hops Hf Hrun; [done|..];
      (eapply (lift_read_window _ _ a); [..|exact Hops|exact Hf|exact Hrun]); done.
  - intros [d|a|a|a|a|a] ops f v off buf n h r o' h' Hops Hf Hrun; [done|..];
      (eapply (lift_write_window _ _ a); [..|exact Hops|exact Hf|exact Hrun]); done.
Qed.
End laws.

Lemma mmio_console_destroy_run `{E : Env} c h :
  exists h', mmio_console_destroy c h = Ok (Some c) h' /\ heap h' = heap h.
Proof.
  unfold mmio_console_destroy.
  destruct (stdin_fd (mc_st c) >=? 0), (log_file (mc_st c)); by eexists.
Qed.

(** Destroying a device depends on who frees it.  [device_destroy] calls the
    device's own destructor and then still reads the structure's interrupt
    descriptor: for the plain device and the UART, whose destructors leave the
    structure alone, it deletes the object and closes that descriptor if there
    is one; for every virtio device and for a passed-through one, whose
    destructors free the structure themselves, it is a use after free. *)
Theorem device_destroy_by_kind `{E : Env} (st : gmap positive object) i o h :
  st !! i = Some o ->
  match o with
  | ObjPlain d =>
      exists h', device_destroy st (Some i) h = Ok (delete i st) h' /\
        trace h' = (if irq_fd d >=? 0 then [EvClose (irq_fd d)] else []) ++ trace h
  | ObjUart c =>
      exists h', device_destroy st (Some i) h = Ok (delete i st) h' /\ heap h' = heap h
  | ObjCon _ | ObjBlk _ | ObjNet _ => device_destroy st (Some i) h = Ub UseAfterFree
  | ObjVfio c =>
      forall h1, vfio_device_close (Some (vo_vdev c)) h = Ok tt h1 -> device_destroy st (Some i) h = Ub UseAfterFree
  end.
Proof.
  intros Ho. unfold device_destroy, get_obj. rewrite Ho.
  destruct o as [d|c|c|c|c|c]; simpl deref; rewrite bind_ret; simpl dops.
  - cbn [mbind option_bind]. rewrite bind_ret. simpl. rewrite bind_ret. simpl dbase.
    destruct (irq_fd d >=? 0); by eexists.
  - destruct (mmio_console_destroy_run c h) as (h1 & Hd & Hh).
    cbn. cbv [mbind M_bind mret M_ret deref]. rewrite Hd. cbn.
    destruct (irq_fd (mc_dev c) >=? 0); by eexists.
  - done.
  - cbn. cbv [mbind M_bind mret M_ret deref virtio_blk_destroy]. by destruct (bs_disk_fd (vd_priv c) >=? 0).
  - cbn. cbv [mbind M_bind mret M_ret deref virtio_net_destroy]. by destruct (ns_tap_fd (vd_priv c) >=? 0).
  - intros h1 Hc. cbn [fmap option_fmap option_map mbind option_bind lift_ops dop_destroy vfio_device_ops as_vfio deref].
    unfold vfio_device_destroy_wrapper. rewrite !bind_assoc. by rewrite (bind_ret c), !bind_assoc, (bind_Ok _ _ _ _ _ Hc).
Qed.

(** ** A machine with a UART and a virtio console, for witnesses *)

#[local] Existing Instance good_env.

Definition demo_uart : mmio_console :=
  mk_mmio_console (set_dev_vm true (mc_dev demo_console)) (mc_st demo_console).
Definition demo_con : vcon :=
  set_vdevice (set_window VIRTIO_CONSOLE_GPA (VIRTIO_CONSOLE_GPA + VIRTIO_CONSOLE_SIZE - 1) VIRTIO_CONSOLE_SIZE
    zero_device) demo_vcon.
Definition demo_objects : gmap positive object :=
  <[1%positive := ObjUart demo_uart]> {[ 2%positive := ObjCon demo_con ]}.
Definition demo_devices_vm : vm :=
  set_devices (Some 1%positive :: Some 2%positive :: replicate 14 None) 2 fresh_vm.

Lemma demo_devices_wf : devices_wf demo_devices_vm demo_objects.
Proof.
  split; [done|unfold VM_MAX_DEVICES; simpl; lia|].
  repeat constructor; eexists _, _; (split; [reflexivity|]); vm_compute; reflexivity.
Qed.

Lemma device_unregister_spec_witness :
  exists v' st' h', device_unregister (E := good_env) demo_devices_vm demo_objects (Some 1%positive) empty_host
                      = Ok (v', st') h' /\
    live_devices v' = [Some 2%positive].
Proof.
  destruct (device_unregister (E := good_env) demo_devices_vm demo_objects (Some 1%positive) empty_host)
    as [[v' st'] h'|] eqn:Hrun; [|vm_compute in Hrun; discriminate Hrun].
  exists v', st', h'. split; [reflexivity|].
  destruct (device_unregister_spec (E := good_env) demo_devices_vm demo_objects 1
    (ObjUart demo_uart) empty_host v' st' h' demo_devices_wf
    ltac:(apply (bool_decide_eq_true_1 _); reflexivity)
    ltac:(apply (bool_decide_eq_true_1 _); reflexivity)
    ltac:(vm_compute; reflexivity) Hrun) as (Hl & _ & _).
  rewrite Hl. vm_compute. reflexivity.
Defined.

(** A byte sent to the UART's transmit register through the bus. *)
Lemma device_handle_mmio_spec_witness :
  exists data' st' h', device_handle_mmio demo_devices_vm demo_objects 0x90000000 1
                         (le_enc 8 65) 1 empty_host = Ok (0, data', st') h' /\
    devices_wf demo_devices_vm st' /\ stdout_bytes (trace h') = [65].
Proof.
  destruct (device_handle_mmio demo_devices_vm demo_objects 0x90000000 1 (le_enc 8 65) 1 empty_host)
    as [[[ret data'] st'] h'|] eqn:Hrun; [|vm_compute in Hrun; discriminate Hrun].
  destruct (device_handle_mmio_spec demo_devices_vm demo_objects 0x90000000 1 (le_enc 8 65) 1
    empty_host ret data' st' h' demo_devices_wf Hrun) as [Hwf _].
  exists data', st', h'. split; [|split; [exact Hwf|]].
  - vm_compute in Hrun. injection Hrun as <- <- <- <-. reflexivity.
  - vm_compute in Hrun. injection Hrun as <- <- <- <-. reflexivity.
Defined.

Lemma device_destroy_by_kind_witness :
  device_destroy (E := good_env) demo_objects (Some 2%positive) empty_host = Ub UseAfterFree.
Proof.
  exact (device_destroy_by_kind (E := good_env) demo_objects 2 (ObjCon demo_con) empty_host
    ltac:(vm_compute; reflexivity)).
Defined.
