(* ===== verification/VfioVm.v ===== *)
(** * VFIO passthrough: attaching a device to the VM (src/vfio.c)

    [vfio_register_with_vm] maps the device's BARs one after the other from a
    fixed guest address on and registers a device whose window is the area they
    fill.  What follows from it: where the BARs lie, and that a device that has
    just been opened gets an empty window, because the sizes of its BARs have
    not been asked for. *)

From S2P Require Import Prelude HvTypes Host Utils CString VmMem Devices Vfio Machine.

Definition VFIO_GPA_BASE : Z := 0xb000000.

Section register.
Context {E : Env}.
Local Abbreviation store := (gmap positive object).

(** The loop over BAR0 to BAR5, [n] to go from region [i], the next one at
    [gpa]. *)
Fixpoint map_bars (v : vfio_dev) (n i : nat) (gpa : Z) : M (Z * vfio_dev) :=
  match n with
  | 0%nat => mret (gpa, v)
  | S n =>
      if negb (Z.of_nat i <? num_regions v) then mret (gpa, v)
      else
        r ← deref OutOfBounds (vf_regions v !! i);
        if vr_size r =? 0 then map_bars v n (S i) gpa
        else
          '(ret, v) ← vfio_map_region v (Z.of_nat i) gpa;
          if ret <? 0 then map_bars v n (S i) gpa
          else
            r ← deref OutOfBounds (vf_regions v !! i);
            map_bars v n (S i) (gpa +64 ALIGN_UP_int (vr_size r) 0x10000)
  end.

(** Store into the structure behind a registered device's [data] pointer. *)
Definition set_vdev (vdev : vfio_dev) (i : positive) (st : store) : store :=
  alter (fun o => match o with ObjVfio o => ObjVfio (mk_vfio_object (vo_dev o) vdev) | o => o end) i st.

(** Returns the code, the VM, the objects, and the passed-through device as the
    caller's pointer sees it. *)
Definition vfio_register_with_vm (v : vm) (st : store) (vdev : vfio_dev) (bdf : string)
    : M (Z * vm * store * vfio_dev) :=
  ok ← perform (EvCalloc 72);
  if negb ok then mret (-1, v, st, vdev)
  else
    n ← strdup bdf;
    '(gpa, vdev) ← map_bars vdev 6 1 VFIO_GPA_BASE;
    let d := set_window VFIO_GPA_BASE (gpa -64 1) (gpa -64 VFIO_GPA_BASE) (set_name n zero_device) in
    let i := fresh (dom st) in
    '(ret, v, st) ← device_register v (<[i := ObjVfio (mk_vfio_object d vdev)]> st) (Some i);
    if ret <? 0 then mret (ret, v, delete i st, vdev)
    else
      '(_, vdev) ← vfio_setup_irqs vdev VFIO_PCI_INTX_IRQ_INDEX 0;
      '(_, vdev) ← vfio_setup_irqs vdev VFIO_PCI_MSIX_IRQ_INDEX 0;
      mret (0, v, set_vdev vdev i st, vdev).
End register.

(** ** Where the BARs lie *)

Section layout.
Context {E : Env}.

(** Every region the kernel describes is smaller than 4 GiB. *)
Definition small_regions : Prop :=
  forall tr fd k ret flags size off,
  env_answer tr (EvVfioGetRegionInfo fd k) = (ret, (flags, size, off)) -> u64 size < 4294967296.

(** A mapped region: an area of guest addresses from [lo] on that ends at or
    below [hi], starts at a multiple of 64 KiB, and is backed by a host block of
    its size. *)
Record bar_mapped (lo hi : Z) (h : host) (r : vfio_region) : Prop := {
  bm_aligned : vr_gpa r mod 65536 = 0;
  bm_range : lo <= vr_gpa r /\ 0 <= vr_size r /\ vr_gpa r + vr_size r <= hi;
  bm_backed : exists b l, vr_hva r = Ptr b 0 /\ heap h !! b = Some l /\ Z.of_nat (length l) = vr_size r
}.

(** The regions from 1 up to [n] are mapped or not, and the mapped ones follow
    each other in the order of their numbers. *)
Record bars_laid (lo hi : Z) (n : nat) (v : vfio_dev) (h : host) : Prop := {
  bl_mapped j r : (1 <= j < n)%nat -> vf_regions v !! j = Some r -> vr_hva r <> Null -> bar_mapped lo hi h r;
  bl_order j k r r' : (1 <= j < k)%nat -> (k < n)%nat -> vf_regions v !! j = Some r -> vf_regions v !! k = Some r' ->
    vr_hva r <> Null -> vr_hva r' <> Null -> vr_gpa r + vr_size r <= vr_gpa r'
}.

Lemma bars_laid_skip lo hi n m v h :
  (forall j r, (n <= j)%nat -> vf_regions v !! j = Some r -> vr_hva r = Null) ->
  bars_laid lo hi n v h -> bars_laid lo hi m v h.
Proof.
  intros Hn [H1 H2].
  assert (forall j r, vf_regions v !! j = Some r -> vr_hva r <> Null -> (j < n)%nat) as Hlt.
  { intros j r Hr Hm. destruct (decide (j < n)%nat); [done|]. destruct Hm. apply (Hn j); [lia|done]. }
  split.
  - intros j r Hj Hr Hm. pose proof (Hlt j r Hr Hm). apply (H1 j); [lia|done..].
  - intros j k r r' Hj Hk Hr Hr' Hm Hm'. pose proof (Hlt k r' Hr' Hm'). apply (H2 j k); [lia..|done|done|done|done].
Qed.

(** [same_but i v v']: only entry [i] of the region table differs. *)
Definition same_but (i : nat) (v v' : vfio_dev) : Prop :=
  length (vf_regions v') = length (vf_regions v) /\ num_regions v' = num_regions v /\
  forall j, j <> i -> vf_regions v' !! j = vf_regions v !! j.

Lemma same_but_set i r v : same_but i v (set_vregions (<[i := r]> (vf_regions v)) v).
Proof. split_and!; [apply length_insert|done|]. intros j Hj. simpl. by rewrite list_lookup_insert_ne. Qed.

Lemma region_info_entry v (i : nat) r0 h :
  vf_regions v !! i = Some r0 ->
  exists info v', vfio_device_get_region_info v (Z.of_nat i) h
      = Ok (info, v') (called (EvVfioGetRegionInfo (vf_device_fd v) (Z.of_nat i)) h) /\
    vf_device_fd v' = vf_device_fd v /\ same_but i v v' /\
    exists r, vf_regions v' !! i = Some r /\ vr_hva r = vr_hva r0 /\
      (small_regions -> forall n, info = Some n -> vr_size r = ri_size n /\ 0 <= ri_size n < 4294967296).
Proof.
  intros Hr0. unfold vfio_device_get_region_info.
  destruct (env_answer (trace h) (EvVfioGetRegionInfo (vf_device_fd v) (Z.of_nat i))) as [ret [[flags size] off]] eqn:Ha.
  mrun by (unfold perform; rewrite Ha; reflexivity). destruct (ret <? 0).
  - exists None, v. split_and!; [done..|]. by exists r0.
  - rewrite Nat2Z.id, Hr0. eexists _, _. split; [reflexivity|]. split; [done|]. split; [apply same_but_set|].
    eexists. split; [apply list_lookup_insert_eq; by eapply lookup_lt_Some|]. split; [done|].
    intros Hs n [= <-]. cbn [ri_size vr_size]. split; [done|]. split; [apply u64_range|]. by eapply Hs.
Qed.

Lemma map_region_run v (i : nat) r0 gpa h :
  small_regions -> (i < 8)%nat -> vf_regions v !! i = Some r0 ->
  exists ret v' h' r, vfio_map_region v (Z.of_nat i) gpa h = Ok (ret, v') h' /\ same_but i v v' /\
    vf_regions v' !! i = Some r /\
    (ret < 0 /\ vr_hva r = vr_hva r0 /\ heap h' = heap h \/
     ret = 0 /\ vr_gpa r = gpa /\ 0 <= vr_size r < 4294967296 /\
       exists b l, vr_hva r = Ptr b 0 /\ heap h !! b = None /\ heap h' = <[b := l]> (heap h) /\
         Z.of_nat (length l) = vr_size r).
Proof.
  intros Hs Hi Hr0. unfold vfio_map_region.
  replace (Z.of_nat i >=? Z.of_nat VFIO_MAX_REGIONS) with false
    by (symmetry; rewrite Z.geb_leb; apply Z.leb_gt; unfold VFIO_MAX_REGIONS; lia).
  destruct (region_info_entry v i r0 h Hr0) as (info & v1 & Hrun & Hfd & Hsame & r1 & Hr1 & Hva & Hsize).
  rewrite (bind_Ok _ _ _ _ _ Hrun). cbv beta iota. clear Hrun. set (h1 := called _ h).
  destruct info as [info|]; [specialize (Hsize Hs info eq_refl)|by eexists _, _, _, r1; split_and!; [done..|left]].
  destruct (Z.land (ri_flags info) VFIO_REGION_INFO_FLAG_MMAP =? 0).
  { eexists _, _, _, r1. split_and!; [done..|by left]. }
  mrun. set (h2 := called _ h1). destruct (env_answer (trace h1) _) as [l|].
  2:{ eexists _, _, _, r1. split_and!; [done..|by left]. }
  destruct (alloc_block_spec (resize (Z.to_nat (ri_size info)) 0 l) h2) as (b & Hb & Hfresh).
  rewrite (bind_Ok _ _ _ _ _ Hb), Nat2Z.id, Hr1. cbn [deref]. rewrite (bind_ret r1).
  eexists _, _, _, _. split; [reflexivity|]. destruct Hsame as (Hlen & Hnum & Hother). split_and!.
  - split_and!; [by rewrite <- Hlen; apply length_insert|done|].
    intros j Hj. simpl. rewrite list_lookup_insert_ne by done. by apply Hother.
  - apply list_lookup_insert_eq. by eapply lookup_lt_Some.
  - right. simpl. split_and!; [done..|lia|lia|]. eexists b, _. split_and!; [done..|].
    rewrite length_resize. lia.
Qed.

(** One BAR is placed behind the others. *)
Lemma bars_laid_add lo gpa i v v' h h' r :
  bars_laid lo gpa i v h -> same_but i v v' -> vf_regions v' !! i = Some r ->
  lo <= gpa -> gpa mod 65536 = 0 -> vr_gpa r = gpa -> 0 <= vr_size r ->
  (exists b l, vr_hva r = Ptr b 0 /\ heap h !! b = None /\ heap h' = <[b := l]> (heap h) /\
     Z.of_nat (length l) = vr_size r) ->
  forall hi, gpa + vr_size r <= hi -> bars_laid lo hi (S i) v' h'.
Proof.
  intros [H1 H2] (_ & _ & Hsame) Hr Hlo Hal Hg Hs (b & l & Hva & Hnone & Hheap & Hlen) hi Hhi. split.
  - intros j r' Hj Hr' Hm. destruct (decide (j = i)) as [->|Hne].
    + rewrite Hr in Hr'. injection Hr' as <-. split; [congruence|lia|]. exists b, l.
      rewrite Hheap, lookup_insert_eq. done.
    + rewrite Hsame in Hr' by done. destruct (H1 j r' ltac:(lia) Hr' Hm) as [Ha Hb (b' & l' & E1 & E2 & E3)].
      split; [done|lia|]. exists b', l'. rewrite Hheap, lookup_insert_ne; [done|]. intros ->. congruence.
  - intros j k r1 r2 Hj Hk Hr1 Hr2 Hm1 Hm2. rewrite Hsame in Hr1 by lia. destruct (decide (k = i)) as [->|Hne].
    + rewrite Hr in Hr2. injection Hr2 as <-. destruct (H1 j r1 ltac:(lia) Hr1 Hm1) as [_ Hb _]. lia.
    + rewrite Hsame in Hr2 by done. apply (H2 j k); [lia..|done|done|done|done].
Qed.

Lemma bars_laid_same lo hi i v v' h h' :
  bars_laid lo hi i v h -> same_but i v v' -> heap h' = heap h -> bars_laid lo hi i v' h'.
Proof.
  intros [H1 H2] (_ & _ & Hsame) Hh. split.
  - intros j r Hj Hr Hm. rewrite Hsame in Hr by lia. destruct (H1 j r Hj Hr Hm) as [? ? Hb]. split; [done..|].
    by rewrite Hh.
  - intros j k r r' Hj Hk Hr Hr'. rewrite Hsame in Hr, Hr' by lia. by apply (H2 j k).
Qed.

Lemma map_bars_run n i v gpa h :
  small_regions -> length (vf_regions v) = 8%nat -> (1 <= i)%nat -> (i + n <= 8)%nat ->
  (forall j r, (i <= j)%nat -> vf_regions v !! j = Some r -> vr_hva r = Null) ->
  VFIO_GPA_BASE <= gpa <= VFIO_GPA_BASE + Z.of_nat (i - 1) * 4294967296 -> gpa mod 65536 = 0 ->
  bars_laid VFIO_GPA_BASE gpa i v h ->
  exists gpa' v' h', map_bars v n i gpa h = Ok (gpa', v') h' /\ bars_laid VFIO_GPA_BASE gpa' 8 v' h' /\
    gpa <= gpa' <= VFIO_GPA_BASE + Z.of_nat (i + n - 1) * 4294967296 /\
    length (vf_regions v') = 8%nat /\ num_regions v' = num_regions v.
Proof.
  intros Hs. revert i v gpa h. induction n as [|n IH]; intros i v gpa h Hlen Hi1 Hin Hnull Hg Hal Hlaid;
    cbn [map_bars].
  { eexists _, _, _. split; [reflexivity|]. split; [by eapply bars_laid_skip|]. split; [lia|done]. }
  destruct (Z.of_nat i <? num_regions v); cbn [negb].
  2:{ eexists _, _, _. split; [reflexivity|]. split; [by eapply bars_laid_skip|]. split; [lia|done]. }
  assert (is_Some (vf_regions v !! i)) as [r0 Hr0] by (apply lookup_lt_is_Some_2; lia). rewrite Hr0. cbn [deref]. rewrite (bind_ret r0).
  assert (forall gpa' v' h', same_but i v v' -> VFIO_GPA_BASE <= gpa' <= VFIO_GPA_BASE + Z.of_nat i * 4294967296 ->
    gpa <= gpa' -> gpa' mod 65536 = 0 -> bars_laid VFIO_GPA_BASE gpa' (S i) v' h' ->
    exists gpa2 v2 h2, map_bars v' n (S i) gpa' h' = Ok (gpa2, v2) h2 /\ bars_laid VFIO_GPA_BASE gpa2 8 v2 h2 /\
    gpa <= gpa2 <= VFIO_GPA_BASE + Z.of_nat (i + S n - 1) * 4294967296 /\
    length (vf_regions v2) = 8%nat /\ num_regions v2 = num_regions v) as Hnext.
  { intros gpa' v' h' (Hl' & Hn' & Ho') Hg' Hle Ha' Hb'.
    destruct (IH (S i) v' gpa' h') as (gpa2 & v2 & h2 & Hrun & Hlaid2 & Hb2 & Hl2 & Hn2);
      [congruence|lia|lia| |simpl; by rewrite Nat.sub_0_r|done|done|].
    - intros j r Hj Hr. rewrite Ho' in Hr by lia. apply (Hnull j); [lia|done].
    - exists gpa2, v2, h2. split_and!; [done|done|lia|lia|done|congruence]. }
  assert (bars_laid VFIO_GPA_BASE gpa (S i) v h) as Hlaid' by by eapply bars_laid_skip.
  destruct (vr_size r0 =? 0).
  { apply Hnext; [by split_and!|lia|lia|done|done]. }
  destruct (map_region_run v i r0 gpa h Hs ltac:(lia) Hr0) as (ret & v1 & h1 & r & Hrun & Hsame & Hr & Hcase).
  rewrite (bind_Ok _ _ _ _ _ Hrun). cbv beta iota. clear Hrun.
  destruct Hcase as [(Hneg & Hva & Hheap) | (-> & Hgpa & Hsize & Hback)].
  - rewrite (proj2 (Z.ltb_lt ret 0) Hneg). apply Hnext; [done|lia|lia|done|].
    apply (bars_laid_skip _ _ i); [|by apply (bars_laid_same _ _ i v _ h)]. intros j r' Hj Hr'.
    destruct (decide (j = i)) as [->|Hne].
    + rewrite Hr in Hr'. injection Hr' as <-. rewrite Hva. by apply (Hnull i).
    + destruct Hsame as (_ & _ & Ho). rewrite Ho in Hr' by done. by apply (Hnull j).
  - change (0 <? 0) with false. cbn iota. rewrite Hr. cbn [deref]. rewrite (bind_ret r).
    assert (ALIGN_UP_int (vr_size r) 65536 = (vr_size r + 65535) / 65536 * 65536) as Hup
      by (rewrite ALIGN_UP_64K_eq, u64_small by ulia; done).
    unfold VFIO_GPA_BASE in *.
    assert (Z.of_nat i <= 8) by lia.
    rewrite Hup, u64_small by (unfold is_u64; Z.to_euclidean_division_equations; lia).
    apply Hnext; [done|Z.to_euclidean_division_equations; lia..| |].
    + by rewrite Z.add_mod, Hal, Z.mod_mul by done.
    + apply (bars_laid_add _ gpa i v _ h _ r); [done|done|done|lia|done|done|lia|exact Hback|].
      Z.to_euclidean_division_equations; lia.
Qed.


(** A guest access to a mapped BAR is refused, because the handler compares the
    offset into the window with the BAR's absolute address. *)
Definition bars_only (v : vfio_dev) : Prop :=
  forall j r, (1 <= j)%nat -> vf_regions v !! j = Some r -> vr_hva r <> Null \/ r = zero_vregion.

Lemma find_region_none l n i off h :
  (forall j r, (i <= j < i + n)%nat -> l !! j = Some r -> off < vr_gpa r \/ vr_gpa r +64 vr_size r <= off) ->
  (i + n <= length l)%nat -> find_region l n i off h = Ok None h.
Proof.
  revert i. induction n as [|n IH]; intros i Hl Hn; [done|]. cbn [find_region].
  destruct (lookup_lt_is_Some_2 l i ltac:(lia)) as [r Hr]. rewrite Hr. cbn [deref]. rewrite (bind_ret r).
  replace ((vr_gpa r <=? off) && (off <? vr_gpa r +64 vr_size r)) with false.
  - apply IH; [|lia]. intros j r' Hj. apply Hl. lia.
  - symmetry. apply andb_false_iff. destruct (Hl i r ltac:(lia) Hr); [left; by apply Z.leb_gt|right; by apply Z.ltb_ge].
Qed.

(** What the guest reaches behind a passed-through device's window.  The
    framework passes the handlers the offset into the window, and the handlers
    look for the region whose absolute address contains that offset: when every
    region but the first is a BAR laid out by the registration or empty, every
    read and every write in the window's first 184 MiB answers -1 without
    touching the device or the buffer. *)
Theorem vfio_bar_access_refused v dev hi off data size vmp h :
  bars_laid VFIO_GPA_BASE hi VFIO_MAX_REGIONS v h -> bars_only v ->
  length (vf_regions v) = VFIO_MAX_REGIONS -> num_regions v <= 8 -> 0 <= off < VFIO_GPA_BASE ->
  let o := mk_vfio_object dev v in
  vfio_device_read vmp off data size o h = Ok (-1, data, o) h /\
  vfio_device_write vmp off data size o h = Ok (-1, o) h.
Proof.
  intros [Hm _] Honly Hlen Hnum Hoff. cbv zeta.
  assert (find_region (vf_regions v) (Z.to_nat (num_regions v - 1)) 1 off h = Ok None h) as Hf.
  { unfold VFIO_MAX_REGIONS in *. apply find_region_none; [|lia]. intros j r Hj Hr.
    pose proof (lookup_lt_Some _ _ _ Hr). destruct (Honly j r ltac:(lia) Hr) as [Hva| ->].
    - left. destruct (Hm j r ltac:(lia) Hr Hva) as [_ Hb _]. lia.
    - right. change (0 <= off). lia. }
  unfold vfio_device_read, vfio_device_write. cbn [vo_vdev]. by rewrite !(bind_Ok _ _ _ _ _ Hf).
Qed.
End layout.

(** ** A device that has just been opened *)

Section opened.
Context {E : Env}.
Local Abbreviation store := (gmap positive object).

Lemma map_bars_empty v n i gpa h :
  (forall j, (i <= j < i + n)%nat -> vf_regions v !! j = Some zero_vregion) -> map_bars v n i gpa h = Ok (gpa, v) h.
Proof.
  revert i. induction n as [|n IH]; intros i Hz; [done|]. cbn [map_bars].
  destruct (Z.of_nat i <? num_regions v); cbn [negb]; [|done].
  rewrite (Hz i) by lia. cbn [deref]. rewrite (bind_ret zero_vregion). apply IH. intros j Hj. apply Hz. lia.
Qed.

Lemma setup_irqs_run v index type h :
  exists ret v' h', vfio_setup_irqs v index type h = Ok (ret, v') h' /\ heap h' = heap h /\
    vf_regions v' = vf_regions v /\ num_regions v' = num_regions v.
Proof.
  unfold vfio_setup_irqs. destruct (env_answer (trace h) (EvVfioGetIrqInfo (vf_device_fd v) index)) as [ret count] eqn:Ha.
  mrun by (unfold perform; rewrite Ha; reflexivity). destruct (ret <? 0); eexists _, _, _; (split; [reflexivity|]); [done|].
  by destruct (vf_irqs v !! Z.to_nat index).
Qed.

(** An object whose window is empty is invisible to the lookup. *)
Lemma find_at_gpa_app (st : store) gpa l i (o : object) h :
  Forall (fun p => exists i o, p = Some i /\ st !! i = Some o) l -> st !! i = None ->
  gpa_end (dbase o) < gpa_start (dbase o) ->
  find_at_gpa (<[i := o]> st) gpa (l ++ [Some i]) h = find_at_gpa st gpa l h.
Proof.
  intros Hl Hi Hw. induction Hl as [|p l (j & oj & -> & Hj) _ IH]; cbn [app find_at_gpa get_obj].
  - rewrite lookup_insert_eq. cbn [deref]. rewrite (bind_ret o).
    destruct (_ && _) eqn:Hwin; [|done]. bool_prop. lia.
  - rewrite lookup_insert_ne by congruence. rewrite Hj. cbn [deref]. rewrite !(bind_ret oj). by destruct (_ && _).
Qed.

Lemma live_devices_snoc v p :
  length (vm_devices v) = 16%nat -> 0 <= num_devices v < VM_MAX_DEVICES ->
  live_devices (set_devices (<[Z.to_nat (num_devices v) := p]> (vm_devices v)) (num_devices v + 1) v)
  = live_devices v ++ [p].
Proof.
  unfold VM_MAX_DEVICES. intros Hlen Hn. unfold live_devices. simpl.
  rewrite Z2Nat.inj_add by lia. change (Z.to_nat 1) with 1%nat. rewrite Nat.add_1_r.
  rewrite (take_S_r _ _ p) by (apply list_lookup_insert_eq; lia).
  by rewrite take_insert_ge by lia.
Qed.

(** Registering an object without an interrupt descriptor to create. *)
Lemma device_register_run v (st : store) i (o : object) h :
  st !! i = Some o -> 0 <= irq_fd (dbase o) -> num_devices v < VM_MAX_DEVICES ->
  device_register v st (Some i) h =
    Ok (0, set_devices (<[Z.to_nat (num_devices v) := Some i]> (vm_devices v)) (num_devices v + 1) v,
        <[i := dset (set_dev_vm true (dbase o)) o]> st) h.
Proof.
  intros Ho Hfd Hn. unfold device_register, get_obj. rewrite Z.geb_leb, (proj2 (Z.leb_gt _ _)), Ho by done. cbn [deref].
  rewrite (bind_ret o). cbv zeta. rewrite dbase_dset. cbn [irq_fd set_dev_vm].
  by rewrite (proj2 (Z.ltb_ge _ _)) by done.
Qed.

(** [C35] Passing a device through, from opening it to its registration, whatever the
    kernel says of its regions, when the opening returned a device and the device array
    is not full.  The registration always returns; when it succeeds the
    device is in the array, but none of its BARs has been mapped, its window is
    empty, and every lookup by guest address answers exactly what it answered
    before: the guest cannot reach the device. *)
Theorem vfio_passthrough_unreachable c bdf v (st : store) vdev h h1 :
  pread_within -> devices_wf v st -> num_devices v < VM_MAX_DEVICES ->
  vfio_device_open c bdf h = Ok (Some vdev) h1 ->
  exists ret v' st' vdev' h2, vfio_register_with_vm v st vdev bdf h1 = Ok (ret, v', st', vdev') h2 /\
    heap h2 = heap h /\
    if ret <? 0 then v' = v /\ st' = st
    else
      devices_wf v' st' /\ num_devices v' = num_devices v + 1 /\
      vr_hva <$> vf_regions vdev' = replicate VFIO_MAX_REGIONS Null /\
      forall gpa h', device_find_at_gpa v' st' gpa h' = device_find_at_gpa v st gpa h'.
Proof.
  intros Hok Hwf Hn Hopen. pose proof (vfio_device_open_run c bdf h Hok) as Hrun. unfold returns_unless_short in Hrun.
  rewrite Hopen in Hrun. destruct Hrun as [[Hheap (_ & _ & Hva & Hzero)] _].
  unfold vfio_register_with_vm. mrun. set (h2 := called _ h1). destruct (env_answer (trace h1) _); cbn [negb].
  2:{ by eexists _, _, _, _, _. }
  unfold strdup. rewrite bind_assoc. mrun. rewrite bind_ret. set (h3 := called _ h2).
  rewrite (bind_Ok _ _ _ _ _ (map_bars_empty vdev 6 1 VFIO_GPA_BASE h3 ltac:(intros; apply Hzero; unfold VFIO_MAX_REGIONS; lia))).
  cbv beta iota zeta. set (i := fresh (dom st)). set (o := ObjVfio _).
  assert (st !! i = None) as Hi by (apply not_elem_of_dom, is_fresh).
  mrun by (apply (device_register_run v _ i o); [apply lookup_insert_eq|done|done]). rewrite insert_insert_eq. change (0 <? 0) with false. cbn iota.
  destruct (setup_irqs_run vdev VFIO_PCI_INTX_IRQ_INDEX 0 h3) as (r1 & v1 & h4 & Hs1 & Hh4 & Hr1 & _).
  rewrite (bind_Ok _ _ _ _ _ Hs1). cbv beta iota.
  destruct (setup_irqs_run v1 VFIO_PCI_MSIX_IRQ_INDEX 0 h4) as (r2 & v2 & h5 & Hs2 & Hh5 & Hr2 & _).
  rewrite (bind_Ok _ _ _ _ _ Hs2). cbv beta iota.
  unfold set_vdev. rewrite alter_insert_eq. eexists _, _, _, _, _. split; [reflexivity|].
  split; [rewrite Hh5, Hh4; exact Hheap|]. change (0 <? 0) with false. cbn iota.
  destruct Hwf as [Hlen Hnum Hlive].
  assert (live_devices (set_devices (<[Z.to_nat (num_devices v) := Some i]> (vm_devices v)) (num_devices v + 1) v)
    = live_devices v ++ [Some i]) as Hsnoc by (apply live_devices_snoc; [done|lia]).
  split_and!.
  - split; [simpl; by rewrite length_insert|simpl; unfold VM_MAX_DEVICES in *; lia|]. rewrite Hsnoc.
    apply Forall_app. split.
    + eapply Forall_impl; [exact Hlive|]. intros p (j & oj & -> & Hj). exists j, oj. split; [done|].
      rewrite lookup_insert_ne by congruence. done.
    + constructor; [|done]. eexists i, _. by rewrite lookup_insert_eq.
  - done.
  - by rewrite Hr2, Hr1.
  - intros gpa h'. unfold device_find_at_gpa. rewrite Hsnoc. by apply find_at_gpa_app.
Qed.
End opened.

(** ** Witnesses *)

#[local] Existing Instance good_env.

Lemma good_env_small : small_regions (E := good_env).
Proof. intros tr fd k ret flags size off [= <- <- <- <-]. reflexivity. Qed.

(** A device whose BARs 0 and 2 have been measured, and the same once mapped. *)
Definition demo_bar : vfio_region := mk_vfio_region 1 256 0 0 Null 7.
Definition demo_vdev : vfio_dev :=
  set_vregions (<[1%nat := demo_bar]> (<[3%nat := demo_bar]> (replicate VFIO_MAX_REGIONS zero_vregion)))
    (opened_dev 3 4 5 7 5 26).
Definition demo_mapped : vfio_dev :=
  set_vregions (<[1%nat := mk_vfio_region 1 256 0 VFIO_GPA_BASE (Ptr 1 0) 7]> (replicate VFIO_MAX_REGIONS zero_vregion))
    (opened_dev 3 4 5 7 5 26).

Lemma demo_vdev_unmapped j r : vf_regions demo_vdev !! j = Some r -> vr_hva r = Null.
Proof. intros Hr. repeat (destruct j as [|j]; [by injection Hr as <-|]). discriminate Hr. Qed.


Lemma vfio_bar_access_refused_witness :
  vfio_device_read None 16 (le_enc 8 0) 4 (mk_vfio_object zero_device demo_mapped)
    (mk_host {[ 1%positive := replicate 256 0 ]} [] 0)
  = Ok (-1, le_enc 8 0, mk_vfio_object zero_device demo_mapped) (mk_host {[ 1%positive := replicate 256 0 ]} [] 0).
Proof.
  refine (proj1 (vfio_bar_access_refused demo_mapped zero_device (VFIO_GPA_BASE + 65536) 16 (le_enc 8 0) 4 None
    (mk_host {[ 1%positive := replicate 256 0 ]} [] 0) _ _ eq_refl _ _)).
  - split.
    + intros j r Hj Hr Hm. destruct j as [|[|j]]; [lia| |].
      * injection Hr as <-. split; [reflexivity|vm_compute; repeat split; discriminate|].
        exists 1%positive, (replicate 256 0). by split_and!.
      * destruct Hm. repeat (destruct j as [|j]; [by injection Hr as <-|]). discriminate Hr.
    + intros j k r r' Hj Hk Hr Hr' Hm Hm'. destruct Hm'. destruct k as [|[|k]]; [lia|lia|].
      repeat (destruct k as [|k]; [by injection Hr' as <-|]). discriminate Hr'.
  - intros j r Hj Hr. repeat (destruct j as [|j]; [injection Hr as <-; by auto|]). discriminate Hr.
  - vm_compute. discriminate.
  - vm_compute. split; discriminate || reflexivity.
Defined.

Lemma vfio_passthrough_unreachable_witness :
  exists vdev h1, vfio_device_open 9 "1a:00.1" empty_host = Ok (Some vdev) h1 /\
  exists v' st' vdev' h2, vfio_register_with_vm demo_devices_vm demo_objects vdev "1a:00.1" h1
      = Ok (0, v', st', vdev') h2 /\ num_devices v' = 3 /\
    forall gpa h', device_find_at_gpa v' st' gpa h' = device_find_at_gpa demo_devices_vm demo_objects gpa h'.
Proof.
  destruct (vfio_device_open 9 "1a:00.1" empty_host) as [[vdev|] h1|] eqn:Hopen;
    [|vm_compute in Hopen; discriminate Hopen..].
  exists vdev, h1. split; [reflexivity|].
  destruct (vfio_passthrough_unreachable 9 "1a:00.1" demo_devices_vm demo_objects vdev empty_host h1
    good_env_pread_within demo_devices_wf ltac:(reflexivity) Hopen) as (ret & v' & st' & vdev' & h2 & Hrun & _ & Hcase).
  assert (ret = 0) as ->.
  { clear -Hopen Hrun. vm_compute in Hopen. injection Hopen as <- <-.
    destruct (vfio_register_with_vm _ _ _ _ _) as [[[[r2 x1] x2] x3] x4|] eqn:Heq; [|discriminate Hrun].
    injection Hrun as <- <- <- <- <-. vm_compute in Heq. injection Heq as <-. reflexivity. }
  destruct Hcase as (_ & Hn & _ & Hfind). exists v', st', vdev', h2. split; [exact Hrun|]. split; [exact Hn|exact Hfind].
Defined.
