(* ===== verification/Vcpu.v ===== *)
(** * Virtual CPUs: state, exit handling, the thread's loop (src/vcpu.c)

    A vCPU runs until an exit handler asks it to stop, fails, or the exit limit
    is reached.  The loop is [vcpu_loop], over fuel; [vcpu_loop_terminates] shows
    that the exit limit bounds it, so that enough fuel never runs out.

    MMIO exits are dispatched to device objects of any type with the [Device]
    operations. *)

From S2P Require Import Prelude HvTypes Host Hypervisor VmMem Devices.

Definition LOG_LEVEL_INFO : Z := 3.
Definition LOG_LEVEL_DEBUG : Z := 4.

Inductive vcpu_state := VCPU_STATE_STOPPED | VCPU_STATE_RUNNING | VCPU_STATE_WAITING | VCPU_STATE_ERROR.

#[export] Instance vcpu_state_eq_dec : EqDecision vcpu_state.
Proof. solve_decision. Defined.

(** The statistics counters of [struct vcpu], all [uint64_t]. *)
Record vcpu_stats := mk_stats {
  exit_count : Z; io_count : Z; mmio_count : Z; halt_count : Z; shutdown_count : Z;
  exception_count : Z; canceled_count : Z; vtimer_count : Z; unknown_count : Z;
  total_run_time_us : Z; instructions_executed : Z
}.
Definition zero_stats : vcpu_stats := mk_stats 0 0 0 0 0 0 0 0 0 0 0.

(** [struct vcpu].  [vc_vm] tells whether [vcpu->vm] points to the VM. *)
Record vcpu := mk_vcpu {
  vc_hv : option hv_vcpu;
  vc_vm : bool;
  vc_index : Z;
  vc_state : vcpu_state;
  should_stop : Z;
  initial_rip : Z;
  has_initial_state : Z;
  vc_stats : vcpu_stats
}.

Definition set_hv (x : option hv_vcpu) (c : vcpu) : vcpu :=
  mk_vcpu x (vc_vm c) (vc_index c) (vc_state c) (should_stop c) (initial_rip c) (has_initial_state c) (vc_stats c).
Definition set_vc_state (x : vcpu_state) (c : vcpu) : vcpu :=
  mk_vcpu (vc_hv c) (vc_vm c) (vc_index c) x (should_stop c) (initial_rip c) (has_initial_state c) (vc_stats c).
Definition set_should_stop (x : Z) (c : vcpu) : vcpu :=
  mk_vcpu (vc_hv c) (vc_vm c) (vc_index c) (vc_state c) x (initial_rip c) (has_initial_state c) (vc_stats c).
Definition set_initial (rip has : Z) (c : vcpu) : vcpu :=
  mk_vcpu (vc_hv c) (vc_vm c) (vc_index c) (vc_state c) (should_stop c) rip has (vc_stats c).
Definition set_stats (x : vcpu_stats) (c : vcpu) : vcpu :=
  mk_vcpu (vc_hv c) (vc_vm c) (vc_index c) (vc_state c) (should_stop c) (initial_rip c) (has_initial_state c) x.

(** One increment per counter. *)
Definition inc_exit s := mk_stats (exit_count s +64 1) (io_count s) (mmio_count s) (halt_count s) (shutdown_count s) (exception_count s) (canceled_count s) (vtimer_count s) (unknown_count s) (total_run_time_us s) (instructions_executed s).
Definition inc_io s := mk_stats (exit_count s) (io_count s +64 1) (mmio_count s) (halt_count s) (shutdown_count s) (exception_count s) (canceled_count s) (vtimer_count s) (unknown_count s) (total_run_time_us s) (instructions_executed s).
Definition inc_mmio s := mk_stats (exit_count s) (io_count s) (mmio_count s +64 1) (halt_count s) (shutdown_count s) (exception_count s) (canceled_count s) (vtimer_count s) (unknown_count s) (total_run_time_us s) (instructions_executed s).
Definition inc_halt s := mk_stats (exit_count s) (io_count s) (mmio_count s) (halt_count s +64 1) (shutdown_count s) (exception_count s) (canceled_count s) (vtimer_count s) (unknown_count s) (total_run_time_us s) (instructions_executed s).
Definition inc_shutdown s := mk_stats (exit_count s) (io_count s) (mmio_count s) (halt_count s) (shutdown_count s +64 1) (exception_count s) (canceled_count s) (vtimer_count s) (unknown_count s) (total_run_time_us s) (instructions_executed s).
Definition inc_exception s := mk_stats (exit_count s) (io_count s) (mmio_count s) (halt_count s) (shutdown_count s) (exception_count s +64 1) (canceled_count s) (vtimer_count s) (unknown_count s) (total_run_time_us s) (instructions_executed s).
Definition inc_canceled s := mk_stats (exit_count s) (io_count s) (mmio_count s) (halt_count s) (shutdown_count s) (exception_count s) (canceled_count s +64 1) (vtimer_count s) (unknown_count s) (total_run_time_us s) (instructions_executed s).
Definition inc_vtimer s := mk_stats (exit_count s) (io_count s) (mmio_count s) (halt_count s) (shutdown_count s) (exception_count s) (canceled_count s) (vtimer_count s +64 1) (unknown_count s) (total_run_time_us s) (instructions_executed s).
Definition inc_unknown s := mk_stats (exit_count s) (io_count s) (mmio_count s) (halt_count s) (shutdown_count s) (exception_count s) (canceled_count s) (vtimer_count s) (unknown_count s +64 1) (total_run_time_us s) (instructions_executed s).
Definition count (f : vcpu_stats -> vcpu_stats) (c : vcpu) : vcpu := set_stats (f (vc_stats c)) c.

Definition vcpu_reset_stats (c : vcpu) : vcpu := set_stats zero_stats c.

(** The rate [vcpu_print_stats] prints, when there is a run time. *)
Definition exits_per_sec (s : vcpu_stats) : option Z :=
  if total_run_time_us s >? 0
  then Some ((exit_count s *64 1000000) / total_run_time_us s) else None.

(** ** Lifecycle *)

Section lifecycle.
Context {E : Env} (plat : platform) (hs : hv_state).

Definition vcpu_create (hvm : hv_vm) (index : Z) : M (option vcpu) :=
  ok ← perform (EvCalloc 144);
  if negb ok then mret None
  else
    let fresh hv := mk_vcpu hv true index VCPU_STATE_STOPPED 0 0 0 zero_stats in
    match plat with
    | MacArm => mret (Some (fresh None))
    | _ =>
        hv ← hv_create_vcpu hs hvm index;
        match hv with
        | None => mret None
        | Some _ => mret (Some (fresh hv))
        end
    end.

Definition vcpu_start (c : vcpu) : M (Z * vcpu) :=
  if decide (vc_state c = VCPU_STATE_RUNNING) then mret (0, c)
  else
    let c := set_should_stop 0 c in
    ret ← perform (EvPthreadCreate (vc_index c));
    if negb (ret =? 0) then mret (-1, c) else mret (0, set_vc_state VCPU_STATE_RUNNING c).

Definition vcpu_stop (c : vcpu) : M (Z * vcpu) :=
  if negb (bool_decide (vc_state c = VCPU_STATE_RUNNING)) then mret (0, c)
  else
    let c := set_should_stop 1 c in
    (match plat, vc_hv c with
     | MacArm, Some hv => hv_vcpu_exit hs hv;; mret tt
     | _, _ => mret tt
     end);;
    perform (EvPthreadCancelJoin (vc_index c));;
    mret (0, set_vc_state VCPU_STATE_STOPPED c).

(** After [free(vcpu)] the log line reads [vcpu->index] again, if the level
    prints it. *)
Definition vcpu_destroy (log_level : Z) (vcpu : option vcpu) : M unit :=
  match vcpu with
  | None => mret tt
  | Some c =>
      '(_, c) ← (if decide (vc_state c = VCPU_STATE_RUNNING) then vcpu_stop c else mret (0, c));
      hv_destroy_vcpu hs (vc_hv c);;
      if log_level >=? LOG_LEVEL_INFO then fail_ub UseAfterFree else mret tt
  end.

(** Registers at the kernel's entry point. *)
Definition entry_regs (entry : Z) : hv_regs :=
  mk_hv_regs 0 0 0 0 0 0 0 0 0 0 0 0 0 0 0 0 entry 0x2.

Definition vcpu_reset (c : vcpu) : M Z :=
  hv ← deref NullDeref (vc_hv c);
  ret ← hv_set_regs hs hv (entry_regs 0x100000);
  mret (if ret <? 0 then -1 else 0).

Definition vcpu_get_regs (c : vcpu) (regs : hv_regs) : M (Z * hv_regs) :=
  hv ← deref NullDeref (vc_hv c); hv_get_regs hs hv regs.
Definition vcpu_set_regs (c : vcpu) (regs : hv_regs) : M Z :=
  hv ← deref NullDeref (vc_hv c); hv_set_regs hs hv regs.
Definition vcpu_get_sregs (c : vcpu) (sregs : hv_sregs) : M (Z * hv_sregs) :=
  hv ← deref NullDeref (vc_hv c); hv_get_sregs hs hv sregs.
Definition vcpu_set_sregs (c : vcpu) (sregs : hv_sregs) : M Z :=
  hv ← deref NullDeref (vc_hv c); hv_set_sregs hs hv sregs.

Definition vcpu_run (c : vcpu) : M (Z * vcpu) :=
  hv ← deref NullDeref (vc_hv c);
  '(ret, hv) ← hv_run hs hv;
  mret (ret, set_hv (Some hv) c).
End lifecycle.

(** ** Exit handlers *)

Section exits.
Context {E : Env} {O : Type} `{!Device O}.
Local Abbreviation store := (gmap positive O).

(** One byte of a port write: [io->data >> (i * 8)] is a shift of 32 bits. *)
Definition out_byte (data i : Z) : M unit :=
  if i * 8 <? 32 then putchar (Z.land (Z.shiftr data (i * 8)) 0xff) else fail_ub BadShift.

(** Returns the code and the exit's [io] member. *)
Definition vcpu_handle_io_exit (io : hv_io) : M (Z * hv_io) :=
  if (io_port io =? 0x3f8) || (io_port io =? 0x3f9) then
    match io_direction io with
    | HV_IO_OUT =>
        mfor (Z.of_nat <$> seq 0 (Z.to_nat (io_size io))) (out_byte (io_data io));;
        mret (0, io)
    | HV_IO_IN => mret (0, mk_hv_io (io_port io) (io_size io) (io_direction io) 0)
    end
  else if (io_port io >=? 0x3c0) && (io_port io <=? 0x3da) then
    match io_direction io with
    | HV_IO_IN => mret (0, mk_hv_io (io_port io) (io_size io) (io_direction io) 0)
    | HV_IO_OUT => mret (0, io)
    end
  else mret (0, io).

Definition vm_find_device_at_gpa (v : vm) (st : store) (gpa : Z) : M (option positive) :=
  find_at_gpa st gpa (live_devices v).

(** The handler is called through [dev->ops] without the checks of
    [device_handle_mmio].  A write passes the address of the exit's data, a
    read that of a local copy whose content is dropped. *)
Definition vcpu_handle_mmio_exit (v : vm) (st : store) (mmio : hv_mmio) : M (Z * store) :=
  dev ← vm_find_device_at_gpa v st (mmio_addr mmio);
  match dev with
  | None => mret (0, st)
  | Some i =>
      o ← get_obj st dev;
      ops ← deref NullDeref (dops o);
      let offset := mmio_addr mmio -64 gpa_start (dbase o) in
      let buf := le_enc 8 (mmio_data mmio) in
      if negb (mmio_is_write mmio =? 0) then
        f ← deref NullCall (dop_write ops);
        '(ret, o) ← f (vm_of v (dbase o)) offset buf (mmio_size mmio) o;
        mret (ret, <[i := o]> st)
      else
        f ← deref NullCall (dop_read ops);
        '(ret, _, o) ← f (vm_of v (dbase o)) offset buf (mmio_size mmio) o;
        mret (ret, <[i := o]> st)
  end.

Definition vcpu_handle_halt (c : vcpu) : Z := 0.
Definition vcpu_handle_shutdown (c : vcpu) : Z * vcpu := (0, set_should_stop 1 c).
Definition vcpu_handle_fail_entry (c : vcpu) (error : Z) : Z * vcpu := (-1, set_should_stop 1 c).

(** The vCPU's view of its VM: [vcpu->vm]. *)
Definition vcpu_handle_exit (v : vm) (st : store) (c : vcpu) (exit : hv_exit)
    : M (Z * vcpu * store) :=
  let c := count inc_exit c in
  match ex_reason exit with
  | HV_EXIT_HLT => mret (vcpu_handle_halt c, count inc_halt c, st)
  | HV_EXIT_IO =>
      io ← deref BadMember (u_io (ex_u exit));
      '(ret, _) ← vcpu_handle_io_exit io;
      mret (ret, count inc_io c, st)
  | HV_EXIT_MMIO =>
      mmio ← deref BadMember (u_mmio (ex_u exit));
      if negb (vc_vm c) then fail_ub NullDeref
      else
        '(ret, st) ← vcpu_handle_mmio_exit v st mmio;
        mret (ret, count inc_mmio c, st)
  | HV_EXIT_EXTERNAL => mret (0, c, st)
  | HV_EXIT_SHUTDOWN =>
      let '(ret, c) := vcpu_handle_shutdown (set_should_stop 1 (count inc_shutdown c)) in
      mret (ret, c, st)
  | HV_EXIT_FAIL_ENTRY =>
      e ← deref BadMember (u_error (ex_u exit));
      let '(ret, c) := vcpu_handle_fail_entry c e in mret (ret, c, st)
  | HV_EXIT_INTERNAL_ERROR => mret (-1, set_should_stop 1 c, st)
  | HV_EXIT_EXCEPTION => mret (0, set_should_stop 1 (count inc_exception c), st)
  | HV_EXIT_IRQ_WINDOW_OPEN | HV_EXIT_SET_TPR | HV_EXIT_TPR_ACCESS | HV_EXIT_NMI => mret (0, c, st)
  | HV_EXIT_SYSTEM_EVENT => mret (0, set_should_stop 1 (count inc_shutdown c), st)
  | HV_EXIT_X86_RDMSR | HV_EXIT_X86_WRMSR | HV_EXIT_X86_HYPERCALL | HV_EXIT_DIRTY_LOG_FULL
  | HV_EXIT_X86_BUS_LOCK => mret (0, c, st)
  | HV_EXIT_ARM_EXCEPTION => mret (-1, count inc_exception c, st)
  | HV_EXIT_ARM_TRAP => mret (0, c, st)
  | HV_EXIT_ARM_MMIO => mret (0, count inc_mmio c, st)
  | HV_EXIT_ARM_IRQ => mret (0, c, st)
  | HV_EXIT_CANCELED => mret (0, set_should_stop 1 (count inc_canceled c), st)
  | HV_EXIT_VTIMER => mret (0, count inc_vtimer c, st)
  | HV_EXIT_DCR | HV_EXIT_OSI | HV_EXIT_PAPR_HCALL | HV_EXIT_S390_SIEIC | HV_EXIT_S390_RESET
  | HV_EXIT_S390_UCONTROL | HV_EXIT_WATCHDOG | HV_EXIT_S390_TSCH | HV_EXIT_EPR | HV_EXIT_S390_STSI
  | HV_EXIT_IOAPIC_EOI | HV_EXIT_HYPERV | HV_EXIT_ARM_NISV => mret (0, count inc_unknown c, st)
  | HV_EXIT_UNKNOWN | HV_EXIT_NONE | HV_EXIT_HVF_VMX => mret (-1, count inc_unknown c, st)
  end.

(** ** The thread *)

Context (plat : platform) (hs : hv_state).

Inductive loop_end := Stopped | RunFailed | GetExitFailed | HandlerFailed | TooManyExits.

Definition errno_now : M Z := fun h => Ok (errno h) h.

(** One turn of the loop: [inl] goes round again, [inr] leaves it.  [exit0] is
    what the uninitialised local [exit] holds. *)
Definition vcpu_turn (exit0 : hv_exit) (v : vm) (st : store) (c : vcpu)
    : M ((vcpu + loop_end * vcpu) * store) :=
  if negb (should_stop c =? 0) then mret (inr (Stopped, c), st)
  else
    '(ret, c) ← vcpu_run hs c;
    if ret <? 0 then
      e ← errno_now;
      if e =? EINTR then mret (inl c, st) else mret (inr (RunFailed, c), st)
    else
      hv ← deref NullDeref (vc_hv c);
      '(ret, exit, hv) ← hv_get_exit hs hv exit0;
      let c := set_hv (Some hv) c in
      if ret <? 0 then mret (inr (GetExitFailed, c), st)
      else
        '(ret, c, st) ← vcpu_handle_exit v st c exit;
        if ret <? 0 then mret (inr (HandlerFailed, c), st)
        else
          let c := count inc_exit c in
          if exit_count (vc_stats c) >? 1000 then mret (inr (TooManyExits, c), st)
          else mret (inl c, st).

Fixpoint vcpu_loop (fuel : nat) (exit0 : hv_exit) (v : vm) (st : store) (c : vcpu)
    : M (loop_end * vcpu * store) :=
  match fuel with
  | 0%nat => fail_ub OutOfFuel
  | S fuel =>
      '(r, st) ← vcpu_turn exit0 v st c;
      match r with
      | inl c => vcpu_loop fuel exit0 v st c
      | inr (e, c) => mret (e, c, st)
      end
  end.

(** What the thread does before its loop: on ARM64 the hypervisor's vCPU is
    created here.  [false] when that fails, or when the framework refuses the
    registers, which leaves the new vCPU in the structure. *)
Definition vcpu_thread_init (v : vm) (c : vcpu) : M (bool * vcpu) :=
  match plat, vc_hv c with
  | MacArm, None =>
      hv ← hv_create_vcpu hs (vm_hv v) (vc_index c);
      match hv with
      | None => mret (false, c)
      | Some h =>
          let c := set_hv hv c in
          if negb (has_initial_state c =? 0) then
            ret ← hv_set_regs hs h (entry_regs (initial_rip c));
            if ret <? 0 then mret (false, c) else mret (true, c)
          else mret (true, c)
      end
  | _, _ => mret (true, c)
  end.

(** How the loop ended; [None] when the thread did not get there. *)
Definition vcpu_thread_func (fuel : nat) (exit0 : hv_exit) (v : vm) (st : store) (c : vcpu)
    : M (option loop_end * vcpu * store) :=
  '(ok, c) ← vcpu_thread_init v c;
  if negb ok then mret (None, c, st)
  else '(e, c, st) ← vcpu_loop fuel exit0 v st c; mret (Some e, c, st).
End exits.

(** ** Properties of the handlers *)

Section handler_props.
Context {E : Env} {O : Type} `{!Device O}.
Local Abbreviation store := (gmap positive O).

Definition le_byte (x i : Z) : byte := Z.land (Z.shiftr x (i * 8)) 0xff.

Lemma out_byte_run data i h :
  i * 8 < 32 -> out_byte data i h = Ok tt (called (EvPutchar (le_byte data i)) h).
Proof.
  intros Hi. unfold out_byte. rewrite (proj2 (Z.ltb_lt _ _) Hi).
  unfold putchar, perform, le_byte. by destruct (env_answer _ _).
Qed.

Lemma out_bytes data n k h :
  (k + n <= 4)%nat ->
  exists h', mfor (Z.of_nat <$> seq k n) (out_byte data) h = Ok tt h' /\ heap h' = heap h /\
    stdout_bytes (trace h') = stdout_bytes (trace h) ++ map (le_byte data) (Z.of_nat <$> seq k n).
Proof.
  revert k h. induction n as [|n IH]; intros k h Hk; cbn [seq fmap list_fmap map mfor].
  - eexists. split; [done|]. split; [done|]. by rewrite app_nil_r.
  - rewrite (bind_Ok _ _ _ _ _ (out_byte_run data (Z.of_nat k) h ltac:(lia))).
    destruct (IH (S k) (called (EvPutchar (le_byte data (Z.of_nat k))) h) ltac:(lia)) as (h' & Hr & Hh & Ho).
    exists h'. split; [done|]. split; [done|]. rewrite Ho. simpl. by rewrite <- app_assoc.
Qed.

Lemma le_byte_enc x i : 0 <= i -> le_byte x i = (x / 256 ^ i) mod 256.
Proof.
  intros Hi. unfold le_byte. rewrite Z.shiftr_div_pow2 by lia.
  change 255 with (2 ^ 8 - 1). rewrite land_ones_mod by lia.
  replace (2 ^ (i * 8)) with (256 ^ i); [done|]. change 256 with (2 ^ 8).
  rewrite <- Z.pow_mul_r by lia. f_equal. lia.
Qed.

Lemma le_bytes_enc n x : map (le_byte x) (Z.of_nat <$> seq 0 n) = le_enc n x.
Proof.
  enough (forall k, map (le_byte x) (Z.of_nat <$> seq k n) = le_enc n (x / 256 ^ Z.of_nat k)) as H.
  { rewrite H. simpl. by rewrite Z.div_1_r. }
  induction n as [|n IH]; intros k; [done|]. simpl. rewrite le_byte_enc by lia. f_equal.
  rewrite IH. f_equal. rewrite Nat2Z.inj_succ, Z.pow_succ_r, Z.mul_comm, Z.div_div by lia. done.
Qed.

Lemma io_exit_run io h :
  0 <= io_size io <= 4 ->
  exists io' h', vcpu_handle_io_exit io h = Ok (0, io') h' /\ heap h' = heap h /\
    stdout_bytes (trace h') = stdout_bytes (trace h) ++
      (if ((io_port io =? 0x3f8) || (io_port io =? 0x3f9)) && bool_decide (io_direction io = HV_IO_OUT)
       then le_enc (Z.to_nat (io_size io)) (io_data io) else []).
Proof.
  intros Hs. unfold vcpu_handle_io_exit.
  destruct ((io_port io =? 0x3f8) || (io_port io =? 0x3f9)) eqn:Hp.
  - destruct (io_direction io) eqn:Hd; cbn [andb].
    + eexists _, _. split; [done|]. split; [done|]. by rewrite bool_decide_eq_false_2, app_nil_r.
    + destruct (out_bytes (io_data io) (Z.to_nat (io_size io)) 0 h ltac:(lia)) as (h' & Hr & Hh & Ho).
      rewrite (bind_Ok _ _ _ _ _ Hr). eexists _, h'. split; [done|]. split; [done|].
      by rewrite Ho, le_bytes_enc, bool_decide_eq_true_2.
  - cbn [andb]. destruct ((io_port io >=? 0x3c0) && (io_port io <=? 0x3da)); [destruct (io_direction io)|];
      eexists _, h; (split; [done|]); by rewrite app_nil_r.
Qed.

(** Port I/O.  An exit of up to four bytes never faults and always answers
    0; a write to the debug console's two ports puts exactly its bytes, low byte
    first, on the standard output, and every other port access prints nothing;
    a read from a console or VGA port yields 0. *)
Theorem vcpu_handle_io_exit_spec io h :
  0 <= io_size io <= 4 ->
  exists io' h', vcpu_handle_io_exit io h = Ok (0, io') h' /\ heap h' = heap h /\
    stdout_bytes (trace h') = stdout_bytes (trace h) ++
      (if ((io_port io =? 0x3f8) || (io_port io =? 0x3f9)) && bool_decide (io_direction io = HV_IO_OUT)
       then le_enc (Z.to_nat (io_size io)) (io_data io) else []) /\
    (io_direction io = HV_IO_IN ->
     io_port io = 0x3f8 \/ io_port io = 0x3f9 \/ 0x3c0 <= io_port io <= 0x3da -> io_data io' = 0).
Proof.
  intros Hs. destruct (io_exit_run io h Hs) as (io' & h' & Hr & Hh & Ho).
  exists io', h'. split_and!; auto. intros Hd Hp. unfold vcpu_handle_io_exit in Hr. rewrite Hd in Hr.
  destruct ((io_port io =? 0x3f8) || (io_port io =? 0x3f9)) eqn:Hc.
  - injection Hr as <- _. done.
  - bool_prop. replace ((io_port io >=? 0x3c0) && (io_port io <=? 0x3da)) with true in Hr.
    + injection Hr as <- _. done.
    + symmetry. rewrite andb_true_iff, Z.geb_le, Z.leb_le. lia.
Qed.

(** [C22] The two MMIO dispatchers agree.  When every device has both handlers,
    the exit handler runs the same handler on the same object, buffer and
    offset as [device_handle_mmio]; it differs in ignoring an address that no
    device claims (0 instead of -1) and in dropping the data a read returned. *)
Theorem vcpu_mmio_agrees v (st : store) m h :
  (forall i o, Some i ∈ live_devices v -> st !! i = Some o ->
     exists ops r w, dops o = Some ops /\ dop_read ops = Some r /\ dop_write ops = Some w) ->
  devices_wf v st ->
  vcpu_handle_mmio_exit v st m h =
  match vm_find_device_at_gpa v st (mmio_addr m) h with
  | Ok None h' => Ok (0, st) h'
  | _ => ('(ret, _, st') ← device_handle_mmio v st (mmio_addr m) (mmio_is_write m) (le_enc 8 (mmio_data m))
                             (mmio_size m); mret (ret, st')) h
  end.
Proof.
  intros Hops [_ _ Hlive]. unfold vcpu_handle_mmio_exit, device_handle_mmio, vm_find_device_at_gpa, device_find_at_gpa.
  destruct (find_at_gpa_spec st (mmio_addr m) _ h Hlive) as (r & Hr & Hspec).
  rewrite Hr. rewrite (bind_Ok _ _ _ _ _ Hr). destruct r as [i|]; [|done].
  destruct Hspec as (k & o & Hk & Ho & _ & _).
  destruct (Hops i o) as (ops & rd & wr & Hop & Hrd & Hwr); [by eapply list_elem_of_lookup_2|done|].
  rewrite bind_assoc, (bind_Ok _ _ _ _ _ Hr). cbv beta iota. unfold get_obj. rewrite Ho. simpl deref.
  rewrite bind_assoc, !bind_ret. rewrite Hop. simpl deref. rewrite bind_ret.
  destruct (negb (mmio_is_write m =? 0)).
  - rewrite Hwr. simpl. rewrite Hwr. simpl deref. rewrite bind_ret, bind_assoc.
    unfold mbind, M_bind. by destruct (wr _ _ _ _ _ h) as [[ret o'] h'|].
  - rewrite Hrd. simpl. rewrite Hrd. simpl deref. rewrite bind_ret, bind_assoc.
    unfold mbind, M_bind. by destruct (rd _ _ _ _ _ h) as [[[ret b] o'] h'|].
Qed.
End handler_props.

(** ** One turn, once the backend has answered *)

Section turns.
Context {E : Env} {O : Type} `{!Device O} (hs : hv_state).
Local Abbreviation store := (gmap positive O).

(** What a turn does with the result of the exit handler. *)
Definition after_handler (r : Z * vcpu * store) : (vcpu + loop_end * vcpu) * store :=
  let '(ret, c, st) := r in
  if ret <? 0 then (inr (HandlerFailed, c), st)
  else
    let c := count inc_exit c in
    (if exit_count (vc_stats c) >? 1000 then inr (TooManyExits, c) else inl c, st).

Lemma vcpu_turn_exit exit0 v (st : store) c hv hv1 hv2 e h h1 h2 :
  vc_hv c = Some hv -> should_stop c = 0 ->
  hv_run hs hv h = Ok (0, hv1) h1 -> hv_get_exit hs hv1 exit0 h1 = Ok (0, e, hv2) h2 ->
  vcpu_turn hs exit0 v st c h =
    (r ← vcpu_handle_exit v st (set_hv (Some hv2) c) e; mret (after_handler r)) h2.
Proof.
  intros Hhv Hs Hrun Hget. unfold vcpu_turn, vcpu_run. rewrite Hs, Hhv. cbn [Z.eqb negb deref].
  rewrite bind_assoc, bind_ret, bind_assoc, (bind_Ok _ _ _ _ _ Hrun). cbv beta iota. rewrite bind_ret.
  cbv beta iota. change (0 <? 0) with false. cbn iota. cbn [vc_hv set_hv deref]. rewrite bind_ret, (bind_Ok _ _ _ _ _ Hget).
  cbv beta iota zeta. change (0 <? 0) with false. cbn iota.
  change (set_hv (Some hv2) (set_hv (Some hv1) c)) with (set_hv (Some hv2) c).
  unfold mbind, M_bind. destruct (vcpu_handle_exit _ _ _ _ _) as [[[ret c1] st1] h3|]; [|done].
  unfold after_handler. destruct (ret <? 0); [done|]. by destruct (_ >? _).
Qed.

Lemma vcpu_turn_run_failed exit0 v (st : store) c hv hv1 h h1 :
  vc_hv c = Some hv -> should_stop c = 0 -> hv_run hs hv h = Ok (-1, hv1) h1 -> errno h1 <> EINTR ->
  vcpu_turn hs exit0 v st c h = Ok (inr (RunFailed, set_hv (Some hv1) c), st) h1.
Proof.
  intros Hhv Hs Hrun Herr. unfold vcpu_turn, vcpu_run. rewrite Hs, Hhv. cbn [Z.eqb negb deref].
  rewrite bind_assoc, bind_ret, bind_assoc, (bind_Ok _ _ _ _ _ Hrun). cbv beta iota. rewrite bind_ret.
  cbv beta iota. change (-1 <? 0) with true. cbn iota. unfold errno_now, mbind, M_bind.
  by rewrite (proj2 (Z.eqb_neq _ _) Herr).
Qed.
End turns.

(** ** Properties of the loop *)

Section loop_props.
Context {E : Env} {O : Type} `{!Device O} (hs : hv_state) `{HvRun : !HvRunLaws hs}.
Local Abbreviation store := (gmap positive O).

(** The exits the statistics attribute to a class. *)
Definition class_total (s : vcpu_stats) : Z :=
  io_count s + mmio_count s + halt_count s + shutdown_count s + exception_count s +
  canceled_count s + vtimer_count s + unknown_count s.
Definition stats_ok (s : vcpu_stats) : Prop :=
  Forall (fun x => 0 <= x) [exit_count s; io_count s; mmio_count s; halt_count s; shutdown_count s;
    exception_count s; canceled_count s; vtimer_count s; unknown_count s].

Lemma stats_ok_step s s' :
  stats_ok s -> 
  s' ∈ [s; inc_io s; inc_mmio s; inc_halt s; inc_shutdown s; inc_exception s; inc_canceled s;
        inc_vtimer s; inc_unknown s] ->
  stats_ok s' /\ exit_count s' = exit_count s /\ class_total s' <= class_total s + 1.
Proof.
  unfold stats_ok, class_total. rewrite !Forall_cons. intros Hok Hin.
  destruct Hok as (?&?&?&?&?&?&?&?&?&_).
  repeat (apply elem_of_cons in Hin as [->|Hin]; [simpl; rewrite ?Forall_cons, ?Forall_nil; ulia|]).
  by apply elem_of_nil in Hin.
Qed.

Lemma handle_exit_hv v (st : store) c e h r c' st' h' :
  vcpu_handle_exit v st c e h = Ok (r, c', st') h' -> vc_hv c' = vc_hv c.
Proof.
  unfold vcpu_handle_exit, vcpu_handle_shutdown, vcpu_handle_fail_entry. intros H.
  destruct (ex_reason e); minv H; by simplify_eq.
Qed.

Lemma handle_exit_vm v (st : store) c e h r c' st' h' :
  vcpu_handle_exit v st c e h = Ok (r, c', st') h' -> vc_vm c' = vc_vm c.
Proof.
  unfold vcpu_handle_exit, vcpu_handle_shutdown, vcpu_handle_fail_entry. intros H.
  destruct (ex_reason e); minv H; by simplify_eq.
Qed.

(** Every handled exit counts once, in at most one class, and leaves the
    hypervisor's handle (with KVM's shared page) alone. *)
Lemma handle_exit_stats v (st : store) c e h ret c' st' h' :
  stats_ok (vc_stats c) -> vcpu_handle_exit v st c e h = Ok (ret, c', st') h' ->
  vc_hv c' = vc_hv c /\ stats_ok (vc_stats c') /\
  exit_count (vc_stats c') = exit_count (vc_stats c) +64 1 /\
  class_total (vc_stats c') <= class_total (vc_stats c) + 1.
Proof.
  intros Hok H. assert (stats_ok (inc_exit (vc_stats c))) as Hok1.
  { unfold stats_ok in *. rewrite !Forall_cons in *. simpl. pose proof (u64_range (exit_count (vc_stats c) + 1)) as Hr.
    unfold is_u64 in Hr. intuition lia. }
  assert (vc_hv c' = vc_hv c /\ vc_stats c' ∈ (let s := inc_exit (vc_stats c) in
    [s; inc_io s; inc_mmio s; inc_halt s; inc_shutdown s; inc_exception s; inc_canceled s;
     inc_vtimer s; inc_unknown s])) as [Hhv Hin].
  { unfold vcpu_handle_exit, vcpu_handle_shutdown, vcpu_handle_fail_entry in H.
    destruct (ex_reason e); minv H; simplify_eq; (split; [done|]);
      cbv zeta; simpl; repeat (first [by apply list_elem_of_here | apply list_elem_of_further]). }
  split; [done|]. destruct (stats_ok_step _ _ Hok1 Hin) as (? & He & Hc).
  split_and!; [done|by rewrite He|exact Hc].
Qed.

Lemma turn_again exit0 v (st : store) c h c' st' h' :
  stats_ok (vc_stats c) -> exit_count (vc_stats c) < 18446744073709551614 ->
  vcpu_turn hs exit0 v st c h = Ok (inl c', st') h' ->
  should_stop c = 0 /\ stats_ok (vc_stats c') /\
  exit_count (vc_stats c') = exit_count (vc_stats c) + 2 /\ exit_count (vc_stats c') <= 1000 /\
  class_total (vc_stats c') <= class_total (vc_stats c) + 1.
Proof using Type HvRun.
  intros Hok Hb H. unfold vcpu_turn in H. destruct (negb (should_stop c =? 0)) eqn:Hs; [by minv H|].
  unfold vcpu_run in H. destruct (vc_hv c) as [hv|] eqn:Hhv; [|done]. simpl deref in H.
  rewrite bind_assoc, bind_ret, bind_assoc in H. destruct (hvl_run hv h) as (ret & hv' & h1 & Hrun & Hret & _).
  rewrite (bind_Ok _ _ _ _ _ Hrun) in H. cbv beta iota in H. rewrite bind_ret in H. cbv beta iota in H.
  destruct Hret as [->|[-> Herr]].
  2:{ change (-1 <? 0) with true in H. cbv iota in H. unfold errno_now in H. unfold mbind, M_bind in H.
      rewrite (proj2 (Z.eqb_neq _ _) Herr) in H. discriminate H. }
  change (0 <? 0) with false in H. cbv iota in H. simpl deref in H. rewrite bind_ret in H.
  apply bind_inv in H as ([[r2 e] hv2] & h2 & _ & H). cbv beta iota zeta in H.
  destruct (r2 <? 0); [by minv H|].
  apply bind_inv in H as ([[r3 c3] st3] & h3 & Hx & H). cbv beta iota zeta in H.
  apply handle_exit_stats in Hx as (_ & Hok3 & Hc3 & Hcl); [|done]. simpl in Hc3, Hcl.
  destruct (r3 <? 0); [by minv H|].
  destruct (_ >? 1000) eqn:Hlim; [by minv H|]. minv H. simplify_eq.
  assert (0 <= exit_count (vc_stats c)) as H0 by (unfold stats_ok in Hok; rewrite Forall_cons in Hok; apply Hok).
  simpl in *. bool_prop. split_and!; auto; try ulia.
  unfold stats_ok in *. rewrite !Forall_cons in *. simpl. 
  pose proof (u64_range (exit_count (vc_stats c3) + 1)) as Hr. unfold is_u64 in Hr. intuition lia.
Qed.

(** Successive turns, another thread setting [should_stop] before the turns
    marked [true]; [None] when one of them left the loop. *)
Fixpoint vcpu_rounds (l : list bool) (exit0 : hv_exit) (v : vm) (st : store) (c : vcpu)
    : M (option (vcpu * store)) :=
  match l with
  | [] => mret (Some (c, st))
  | b :: l =>
      '(r, st) ← vcpu_turn hs exit0 v st (if b then set_should_stop 1 c else c);
      match r with
      | inl c => vcpu_rounds l exit0 v st c
      | inr _ => mret None
      end
  end.

(** The loop is bounded, and counts double.  Whatever the guest and the
    devices do and whenever another thread asks to stop, a fresh vCPU goes round
    its loop at most 500 times, since each turn increments [exit_count] twice
    against the limit of 1000; no turn after a stop request goes round; and the
    total the statistics print is twice the number of exits, while the classes
    together count each exit at most once. *)
Theorem vcpu_loop_bounded l exit0 v (st : store) c h c' st' h' :
  vc_stats c = zero_stats -> vcpu_rounds l exit0 v st c h = Ok (Some (c', st')) h' ->
  (length l <= 500)%nat /\ Forall (eq false) l /\
  exit_count (vc_stats c') = 2 * Z.of_nat (length l) /\
  class_total (vc_stats c') <= Z.of_nat (length l).
Proof using Type HvRun.
  enough (forall l st c h, stats_ok (vc_stats c) -> exit_count (vc_stats c) <= 1000 ->
    vcpu_rounds l exit0 v st c h = Ok (Some (c', st')) h' ->
    Forall (eq false) l /\ exit_count (vc_stats c') = exit_count (vc_stats c) + 2 * Z.of_nat (length l) /\
    exit_count (vc_stats c') <= 1000 /\
    class_total (vc_stats c') <= class_total (vc_stats c) + Z.of_nat (length l)) as Hgen.
  { intros Hz H. apply Hgen in H as (Hf & He & Hle & Hc);
      [|rewrite Hz; repeat constructor; done|rewrite Hz; simpl; lia].
    rewrite Hz in He, Hc. unfold class_total in *. simpl in *. split_and!; [lia|done|lia|lia]. }
  clear - HvRun. induction l as [|b l IH]; intros st c h Hok Hle H; cbn [vcpu_rounds length] in *.
  { minv H. simplify_eq. split_and!; [constructor|lia..]. }
  apply bind_inv in H as ([r st1] & h1 & Ht & H). destruct r as [c1|]; [|by minv H].
  apply turn_again in Ht as (Hs & Hok1 & He1 & Hle1 & Hc1); [|by destruct b|destruct b; simpl; lia].
  destruct b; [done|]. apply IH in H as (Hf & He & Hle' & Hc); [|done|lia].
  split_and!; [by constructor|lia..].
Qed.

Lemma vcpu_loop_run n exit0 v (st : store) c h :
  stats_ok (vc_stats c) -> exit_count (vc_stats c) <= 1000 ->
  1000 < exit_count (vc_stats c) + 2 * Z.of_nat (S n) ->
  match vcpu_loop hs (S n) exit0 v st c h with
  | Ok _ _ => True
  | Ub u => exists m c1 st1 h1, vcpu_rounds (replicate m false) exit0 v st c h = Ok (Some (c1, st1)) h1 /\
              vcpu_turn hs exit0 v st1 c1 h1 = Ub u
  end.
Proof using Type HvRun.
  revert st c h. induction n as [|n IH]; intros st c h Hok Hle Hn;
    change (vcpu_loop hs (S ?n) exit0 v st c) with
      ('(r, st) ← vcpu_turn hs exit0 v st c;
       match r with inl c => vcpu_loop hs n exit0 v st c | inr (e, c) => mret (e, c, st) end).
  all: unfold mbind at 1, M_bind at 1; destruct (vcpu_turn hs exit0 v st c h) as [[[c1|[e c1]] st1] h1|u] eqn:Ht;
    [|done|by exists 0%nat, c, st, h].
  all: destruct (turn_again _ _ _ _ _ _ _ _ Hok ltac:(lia) Ht) as (_ & Hok1 & He1 & Hle1 & _).
  - lia.
  - specialize (IH st1 c1 h1 Hok1 Hle1 ltac:(lia)).
    destruct (vcpu_loop hs (S n) exit0 v st1 c1 h1) as [?|u]; [done|].
    destruct IH as (m & c2 & st2 & h2 & Hr & Hu). exists (S m), c2, st2, h2. split; [|done].
    cbn [replicate vcpu_rounds]. by rewrite (bind_Ok _ _ _ _ _ Ht).
Qed.

(** [C21] The loop terminates.  For every guest, host and device set, the loop of
    a fresh vCPU returns within 501 turns, unless one of the turns it reaches
    faults: the model's fuel is never what ends it. *)
Theorem vcpu_loop_terminates exit0 v (st : store) c h :
  vc_stats c = zero_stats ->
  (exists r h', vcpu_loop hs 501 exit0 v st c h = Ok r h') \/
  (exists u n c1 st1 h1, vcpu_loop hs 501 exit0 v st c h = Ub u /\
     vcpu_rounds (replicate n false) exit0 v st c h = Ok (Some (c1, st1)) h1 /\
     vcpu_turn hs exit0 v st1 c1 h1 = Ub u).
Proof using Type HvRun.
  intros Hz. pose proof (vcpu_loop_run 500 exit0 v st c h) as H.
  specialize (H ltac:(rewrite Hz; repeat constructor; done) ltac:(rewrite Hz; simpl; lia)
                ltac:(rewrite Hz; simpl; lia)).
  destruct (vcpu_loop hs 501 exit0 v st c h) as [r h'|u]; [by left; exists r, h'|].
  right. destruct H as (n & c1 & st1 & h1 & Hr & Hu). by exists u, n, c1, st1, h1.
Qed.
End loop_props.
