(* ===== verification/KvmExits.v ===== *)
(** * From the kernel's exit page to the exit handlers

    What a vCPU on KVM does with the [kvm_run] page the kernel filled in:
    [kvm_get_exit] (kvm.c) followed by [vcpu_handle_exit] (vcpu.c), for any page, and what
    [kvm_get_exit] makes of the pages that Linux documents. *)

From S2P Require Import Prelude HvTypes Host Hypervisor Kvm VmMem Devices Machine Vcpu.

Section kvm_exits.
Context {E : Env} {O : Type} `{!Device O}.
Local Abbreviation store := (gmap positive O).

(** A field of the page. *)
Definition run_field (page : list byte) (n : nat) (off : Z) : Z :=
  le_dec (slice page (Z.to_nat off) n).

Lemma page_field_run page n off h :
  0 <= off -> off + Z.of_nat n <= Z.of_nat (length page) ->
  page_field (Z.of_nat n) page off h = Ok (run_field page n off) h.
Proof.
  intros Ho Hn. unfold page_field, page_read. rewrite (proj2 (in_range_spec _ _ _)) by lia.
  by rewrite (bind_ret (slice _ _ _)), Nat2Z.id.
Qed.

(** A handle whose page is at least as long as the structure. *)
Definition on_page (hv : hv_vcpu) (page : list byte) : Prop :=
  hvc_data hv = KvmVcpuData page /\ 128 <= Z.of_nat (length page).

Lemma kvm_get_exit_out hv page h :
  on_page hv page -> run_field page 4 RUN_exit_reason = KVM_EXIT_IO ->
  run_field page 2 RUN_io_direction <> 0 ->
  kvm_get_exit hv h =
    Ok (0, mk_hv_exit HV_EXIT_IO (UIo (mk_hv_io (run_field page 2 RUN_io_port)
              (u8 (run_field page 2 RUN_io_size)) HV_IO_OUT 0)), hv) h.
Proof.
  intros [Hd Hl] Hr Hdir. unfold kvm_get_exit, kvm_vcpu_run. rewrite Hd, bind_ret.
  erewrite bind_Ok by (apply (page_field_run page 4 8); lia).
  change (run_field page 4 8) with (run_field page 4 RUN_exit_reason). rewrite Hr. cbn [Z.eqb Pos.eqb KVM_EXIT_IO].
  rewrite bind_assoc. erewrite bind_Ok by (apply (page_field_run page 2 16); lia).
  rewrite bind_assoc. erewrite bind_Ok by (apply (page_field_run page 2 18); lia).
  rewrite bind_assoc. erewrite bind_Ok by (apply (page_field_run page 2 20); lia).
  change (run_field page 2 16) with (run_field page 2 RUN_io_direction).
  by rewrite (proj2 (Z.eqb_neq _ _) Hdir).
Qed.

(** The bytes a guest writes to a port are lost, even on a page laid out as the source's
    structure declares it.  The KVM backend copies the data of a port access only for
    reads, so for a write of up to four bytes to the debug console, whatever bytes the page
    holds, the VMM prints that many zero bytes. *)
Theorem kvm_port_write_prints_zeros hv page v (st : store) c h :
  on_page hv page -> run_field page 4 RUN_exit_reason = KVM_EXIT_IO ->
  run_field page 2 RUN_io_direction = 1 -> run_field page 2 RUN_io_port = 0x3f8 ->
  0 <= run_field page 2 RUN_io_size <= 4 ->
  exists e c' h', kvm_get_exit hv h = Ok (0, e, hv) h /\
    vcpu_handle_exit v st c e h = Ok (0, c', st) h' /\
    stdout_bytes (trace h') =
      stdout_bytes (trace h) ++ replicate (Z.to_nat (run_field page 2 RUN_io_size)) 0.
Proof.
  intros Hp Hr Hdir Hport Hsz. set (e := mk_hv_exit HV_EXIT_IO (UIo (mk_hv_io (run_field page 2 RUN_io_port)
    (u8 (run_field page 2 RUN_io_size)) HV_IO_OUT 0))).
  assert (u8 (run_field page 2 RUN_io_size) = run_field page 2 RUN_io_size) as Hu by (apply u8_small; ulia).
  destruct (io_exit_run (mk_hv_io (run_field page 2 RUN_io_port) (u8 (run_field page 2 RUN_io_size)) HV_IO_OUT 0) h)
    as (io' & h' & Hrun & _ & Ho); [simpl; lia|].
  exists e, (count inc_io (count inc_exit c)), h'. split_and!.
  - by apply kvm_get_exit_out; [done..|rewrite Hdir].
  - unfold vcpu_handle_exit, e. cbn [ex_reason ex_u u_io deref]. rewrite (bind_ret (mk_hv_io _ _ _ _)).
    by rewrite (bind_Ok _ _ _ _ _ Hrun).
  - rewrite Ho. simpl. rewrite Hport, Hu. simpl. f_equal.
    generalize (Z.to_nat (run_field page 2 RUN_io_size)). clear.
    induction n as [|n IH]; [done|]. cbn [le_enc replicate]. by rewrite Z.mod_0_l, Z.div_0_l, IH by done.
Qed.

(** The reasons [kvm_convert_exit_reason] knows. *)
Definition kvm_known : list Z :=
  [KVM_EXIT_HLT; KVM_EXIT_IO; KVM_EXIT_MMIO; KVM_EXIT_INTR; KVM_EXIT_FAIL_ENTRY; KVM_EXIT_SHUTDOWN;
   KVM_EXIT_INTERNAL_ERROR; KVM_EXIT_EXCEPTION].

Lemma convert_unknown r : r ∉ kvm_known -> kvm_convert_exit_reason r = HV_EXIT_UNKNOWN.
Proof.
  unfold kvm_known. rewrite !not_elem_of_cons. intros (?&?&?&?&?&?&?&?&_).
  unfold kvm_convert_exit_reason. by rewrite !(proj2 (Z.eqb_neq _ _)) by done.
Qed.

(** Exit reasons the backend does not translate stop the guest.  For every
    KVM reason other than the eight of [kvm_convert_exit_reason] (an interrupt
    window, an NMI window and a system event among them, for which the handler
    has cases that return 0), the exit is reported as unknown, the handler
    returns -1, and the turn leaves the loop. *)
Theorem kvm_untranslated_exit_stops fd exit0 hv page v (st : store) c h r err ws old h1 :
  vc_hv c = Some hv -> hvc_data hv = KvmVcpuData old -> should_stop c = 0 ->
  env_answer (trace h) (EvKvmRun (hvc_fd hv)) = (r, err, page, ws) -> 0 <= r ->
  guest_stores ws (called (EvKvmRun (hvc_fd hv)) h) = Ok tt h1 ->
  128 <= Z.of_nat (length page) -> run_field page 4 RUN_exit_reason ∉ kvm_known ->
  exists c', vcpu_turn (kvm_state fd) exit0 v st c h = Ok (inr (HandlerFailed, c'), st) h1 /\
             unknown_count (vc_stats c') = unknown_count (vc_stats c) +64 1.
Proof.
  intros Hhv Hd Hs Hans Hr Hg Hl Hk.
  set (hv1 := set_vcpu_data (KvmVcpuData page) hv).
  assert (kvm_run hv h = Ok (0, hv1) h1) as Hrun.
  { unfold kvm_run, kvm_set_run. erewrite bind_Ok by (unfold perform; rewrite Hans; reflexivity).
    cbv beta iota. rewrite (bind_Ok _ _ _ _ _ Hg), Hd. by rewrite (proj2 (Z.ltb_ge _ _)) by lia. }
  assert (kvm_get_exit hv1 h1 = Ok (0, mk_hv_exit HV_EXIT_UNKNOWN UZero, hv1) h1) as Hget.
  { unfold kvm_get_exit, kvm_vcpu_run. simpl hvc_data. cbv iota. rewrite bind_ret.
    erewrite bind_Ok by (apply (page_field_run page 4 8); lia).
    change (run_field page 4 8) with (run_field page 4 RUN_exit_reason).
    rewrite (convert_unknown _ Hk). unfold kvm_known in Hk. rewrite !not_elem_of_cons in Hk.
    destruct Hk as (?&?&?&?&?&?&?&?&_). by rewrite !(proj2 (Z.eqb_neq _ _)) by done. }
  rewrite (vcpu_turn_exit (kvm_state fd) exit0 v st c hv hv1 hv1 _ h h1 h1 Hhv Hs Hrun Hget).
  eexists. split; [reflexivity|]. done.
Qed.
End kvm_exits.

(** ** The page as Linux lays it out

    The [kvm_run] of the kernel (linux/kvm.h, and the KVM API document) has two fields that
    the source's structure lacks, [cr8] at 16 and [apic_base] at 24; its union starts at
    32, where the source's starts at 16.  [cr8] is the task priority, of four bits. *)

Definition LINUX_cr8 : Z := 16.
Definition LINUX_apic_base : Z := 24.
Definition LINUX_mmio_phys_addr : Z := 32.
Definition LINUX_mmio_data : Z := 40.
Definition LINUX_mmio_len : Z := 48.
Definition LINUX_mmio_is_write : Z := 52.

Record documented (page : list byte) : Prop := {
  dc_bytes : bytes_ok page;
  dc_length : 128 <= Z.of_nat (length page);
  dc_cr8 : run_field page 8 LINUX_cr8 < 16
}.

(** What the backend's decoding makes of such a page. *)
Definition decoded (page : list byte) : hv_exit :=
  let reason := run_field page 4 RUN_exit_reason in
  let cr8 := run_field page 8 LINUX_cr8 in
  let apic_base := run_field page 8 LINUX_apic_base in
  let phys_addr := run_field page 8 LINUX_mmio_phys_addr in
  mk_hv_exit (kvm_convert_exit_reason reason)
    (if reason =? KVM_EXIT_IO then UIo (mk_hv_io 0 0 (if cr8 =? 0 then HV_IO_IN else HV_IO_OUT) 0)
     else if reason =? KVM_EXIT_MMIO then
       let is_write := (phys_addr `div` 2 ^ 32) `mod` 256 in
       UMmio (mk_hv_mmio cr8 (u8 phys_addr) is_write
         (if is_write =? 0 then 0 else apic_base `mod` 256 ^ (u32 phys_addr)))
     else if reason =? KVM_EXIT_FAIL_ENTRY then UError (run_field page 8 0)
     else if reason =? KVM_EXIT_INTERNAL_ERROR then UError (run_field page 4 RUN_internal_ndata)
     else UZero).

(** The pages on which it copies from or to outside an object: a port access while the
    task priority is 0, when the APIC base is used as an offset into the page, and an
    MMIO access whose address has bits 32 to 39 set and a low half above 8, which is used
    as the number of bytes to copy. *)
Definition decoding_faults (page : list byte) : bool :=
  let reason := run_field page 4 RUN_exit_reason in
  let phys_addr := run_field page 8 LINUX_mmio_phys_addr in
  (reason =? KVM_EXIT_IO) && (run_field page 8 LINUX_cr8 =? 0) &&
    (run_field page 8 LINUX_apic_base >? Z.of_nat (length page)) ||
  (reason =? KVM_EXIT_MMIO) && negb ((phys_addr `div` 2 ^ 32) `mod` 256 =? 0) && (u32 phys_addr >? 8).

Lemma le_dec_app l1 l2 : le_dec (l1 ++ l2) = le_dec l1 + 256 ^ Z.of_nat (length l1) * le_dec l2.
Proof.
  induction l1 as [|b l1 IH]; cbn [app le_dec length]; [lia|]. rewrite IH, Nat2Z.inj_succ, Z.pow_succ_r by lia. lia.
Qed.

Lemma le_dec_split k l : bytes_ok l -> (k <= length l)%nat ->
  le_dec (take k l) = le_dec l `mod` 256 ^ Z.of_nat k /\ le_dec (drop k l) = le_dec l `div` 256 ^ Z.of_nat k.
Proof.
  intros Hl Hk. pose proof (le_dec_bound (take k l) (Forall_take _ _ _ Hl)) as Hb. rewrite length_take, Nat.min_l in Hb by done.
  assert (le_dec l = le_dec (take k l) + le_dec (drop k l) * 256 ^ Z.of_nat k) as ->.
  { rewrite <- (take_drop k l) at 1. rewrite le_dec_app, length_take, Nat.min_l by done. by rewrite Z.mul_comm. }
  rewrite Z.mod_add, Z.mod_small, Z.div_add, Z.div_small by lia. split; [done|]. lia.
Qed.

(** A field inside the eight bytes at [off]. *)
Lemma run_field_inner page n k off :
  bytes_ok page -> 0 <= off -> off + 8 <= Z.of_nat (length page) -> (n + k <= 8)%nat ->
  run_field page n (off + Z.of_nat k) = (run_field page 8 off `div` 256 ^ Z.of_nat k) `mod` 256 ^ Z.of_nat n.
Proof.
  intros Hb Ho Hl Hn. unfold run_field, slice. set (d := drop (Z.to_nat off) page).
  assert (bytes_ok d) as Hd by (by apply Forall_drop). assert (8 <= length d)%nat as Hld by (unfold d; rewrite length_drop; lia).
  replace (drop (Z.to_nat (off + Z.of_nat k)) page) with (drop k d) by (unfold d; rewrite drop_drop; f_equal; lia).
  assert (bytes_ok (take 8 d)) as Ht by (by apply Forall_take).
  assert (take n (drop k d) = take n (drop k (take 8 d))) as ->
    by (rewrite skipn_firstn_comm, take_take; f_equal; lia).
  destruct (le_dec_split k (take 8 d) Ht) as [_ He]; [rewrite length_take; lia|].
  destruct (le_dec_split n (drop k (take 8 d)) (Forall_drop _ _ _ Ht)) as [-> _]; [rewrite length_drop, length_take; lia|].
  by rewrite He.
Qed.

(** The fields the backend reads, in terms of those the kernel wrote. *)
Lemma documented_fields page :
  documented page ->
  let cr8 := run_field page 8 LINUX_cr8 in
  let phys_addr := run_field page 8 LINUX_mmio_phys_addr in
  0 <= cr8 /\ 0 <= run_field page 8 LINUX_apic_base /\
  run_field page 2 RUN_io_direction = cr8 /\ run_field page 2 RUN_io_size = 0 /\ run_field page 2 RUN_io_port = 0 /\
  run_field page 4 RUN_mmio_len = u32 phys_addr /\
  run_field page 1 RUN_mmio_is_write = (phys_addr `div` 2 ^ 32) `mod` 256 /\
  forall n, (n <= 8)%nat -> run_field page n RUN_mmio_data = run_field page 8 LINUX_apic_base `mod` 256 ^ Z.of_nat n.
Proof.
  intros [Hb Hl Hc]. cbv zeta. unfold LINUX_cr8, LINUX_apic_base, LINUX_mmio_phys_addr in *.
  assert (forall off, 0 <= run_field page 8 off) as Hpos.
  { intros off. apply le_dec_bound, slice_ok, Hb. }
  pose proof (fun n k off => run_field_inner page n k off Hb) as Hin. pose proof (Hpos 16) as Hc0.
  split_and!; [done|done|..].
  - etrans; [apply (Hin 2%nat 0%nat 16); lia|]. rewrite Z.div_1_r, Z.mod_small by lia. done.
  - etrans; [apply (Hin 2%nat 2%nat 16); lia|]. rewrite Z.div_small by lia. done.
  - etrans; [apply (Hin 2%nat 4%nat 16); lia|]. rewrite Z.div_small by lia. done.
  - etrans; [apply (Hin 4%nat 0%nat 32); lia|]. by rewrite Z.div_1_r.
  - etrans; [apply (Hin 1%nat 4%nat 32); lia|]. done.
  - intros n Hn. etrans; [apply (Hin n 0%nat 24); lia|]. by rewrite Z.div_1_r.
Qed.

Lemma kvm_get_exit_documented_run hv page h :
  hvc_data hv = KvmVcpuData page -> documented page ->
  kvm_get_exit hv h = if decoding_faults page then Ub OutOfBounds else Ok (0, decoded page, hv) h.
Proof.
  intros Hd Hpage. pose proof (dc_length _ Hpage) as Hl.
  destruct (documented_fields page Hpage) as (Hc0 & Ha0 & Hdir & Hsz & Hport & Hlen & Hwr & Hdata).
  unfold kvm_get_exit, kvm_vcpu_run, decoded, decoding_faults. rewrite Hd, bind_ret.
  erewrite bind_Ok by (apply (page_field_run page 4 8); lia).
  change (run_field page 4 8) with (run_field page 4 RUN_exit_reason).
  destruct (_ =? KVM_EXIT_IO) eqn:Hio; [bool_prop; rewrite Hio; cbn [andb orb]|].
  { do 3 (rewrite bind_assoc; erewrite bind_Ok by (first [apply (page_field_run page 2 16)|apply (page_field_run page 2 18)|apply (page_field_run page 2 20)]; lia)).
    change (run_field page 2 16) with (run_field page 2 RUN_io_direction).
    change (run_field page 2 18) with (run_field page 2 RUN_io_size).
    change (run_field page 2 20) with (run_field page 2 RUN_io_port). rewrite Hdir, Hsz, Hport.
    destruct (_ =? 0) eqn:Hz; cbn [andb]; [|by rewrite bind_assoc, !bind_ret, orb_false_r].
    rewrite !bind_assoc. erewrite bind_Ok by (apply (page_field_run page 8 24); lia).
    change (run_field page 8 24) with (run_field page 8 LINUX_apic_base).
    unfold page_read. destruct (in_range _ _ _) eqn:Hr.
    - apply in_range_spec in Hr. rewrite Z.gtb_ltb, (proj2 (Z.ltb_ge _ _)) by lia. by rewrite !bind_assoc, !bind_ret.
    - rewrite Z.gtb_ltb, (proj2 (Z.ltb_lt _ _)); [done|].
      apply not_true_iff_false in Hr. rewrite in_range_spec in Hr. lia. }
  destruct (_ =? KVM_EXIT_MMIO) eqn:Hm; [|].
  { cbn [andb orb]. rewrite bind_assoc. erewrite bind_Ok by (apply (page_field_run page 8 16); lia).
    rewrite bind_assoc. erewrite bind_Ok by (apply (page_field_run page 4 32); lia).
    rewrite bind_assoc. erewrite bind_Ok by (apply (page_field_run page 1 36); lia).
    change (run_field page 4 32) with (run_field page 4 RUN_mmio_len).
    change (run_field page 1 36) with (run_field page 1 RUN_mmio_is_write).
    change (run_field page 8 16) with (run_field page 8 LINUX_cr8). rewrite Hlen, Hwr. set (a := run_field page 8 LINUX_mmio_phys_addr).
    pose proof (u32_range a) as Hu. unfold is_u32 in Hu.
    replace (u8 (u32 a)) with (u8 a) by (unfold u8, u32; ulia).
    destruct (_ =? 0) eqn:Hz; cbn [negb andb]; [by rewrite bind_assoc, !bind_ret|].
    unfold page_read, RUN_mmio_data. rewrite !bind_assoc. destruct (_ >? 8) eqn:Hbig; bool_prop.
    - destruct (in_range _ _ _); [|done]. by rewrite bind_ret, (proj2 (Z.leb_gt _ 8)) by lia.
    - rewrite (proj2 (in_range_spec _ _ _)) by lia. rewrite bind_ret, (proj2 (Z.leb_le _ 8)) by lia. rewrite !bind_ret.
      do 6 f_equal. specialize (Hdata (Z.to_nat (u32 a)) ltac:(lia)). rewrite Z2Nat.id in Hdata by lia. exact Hdata. }
  cbn [andb orb]. destruct (_ =? KVM_EXIT_FAIL_ENTRY) eqn:Hf; [|destruct (_ =? KVM_EXIT_INTERNAL_ERROR) eqn:He].
  - rewrite bind_assoc. erewrite bind_Ok by (apply (page_field_run page 8 0); lia). by rewrite !bind_ret.
  - rewrite bind_assoc. erewrite bind_Ok by (apply (page_field_run page 4 64); lia). by rewrite !bind_ret.
  - by rewrite bind_ret.
Qed.

(** [C6] What [kvm_get_exit] makes of an exit on Linux.  On every page that the kernel lays
    out as it documents, the backend takes the task priority for the guest address of an
    MMIO access, the APIC base for the data, the low half of the real address for the
    length and bits 32 to 39 of it for the direction; of a port access it sees port 0 and
    no bytes.  So an access below 4 GiB is reported as a load from an address below 16, and
    what the guest accessed is lost.  It faults in exactly two cases: when an MMIO address has
    a bit of 32 to 39 set and a low half above 8, and when a port is accessed at priority 0
    with the APIC base beyond the page. *)
Theorem kvm_get_exit_documented hv page h :
  hvc_data hv = KvmVcpuData page -> documented page ->
  kvm_get_exit hv h = if decoding_faults page then Ub OutOfBounds else Ok (0, decoded page, hv) h.
Proof. apply kvm_get_exit_documented_run. Qed.

(** ** Witnesses: a kernel that reports the same exit for ever *)

Definition exit_page (reason : Z) (body : list byte) : list byte :=
  replicate 8 0 ++ le_enc 4 reason ++ replicate 4 0 ++ body ++ replicate (112 - length body) 0.
Definition exit_env (reason : Z) (body : list byte) : Env := fun tr e =>
  match e return answer e with
  | EvKvmRun _ => (0, 0, exit_page reason body, [])
  | e => good_env tr e
  end.

(** A page as Linux lays it out, and the body of an MMIO access. *)
Definition linux_page (reason cr8 apic_base : Z) (body : list byte) : list byte :=
  replicate 8 0 ++ le_enc 4 reason ++ replicate 4 0 ++ le_enc 8 cr8 ++ le_enc 8 apic_base ++ body
    ++ replicate (96 - length body) 0.
Definition mmio_body (addr data len is_write : Z) : list byte := le_enc 8 addr ++ le_enc 8 data ++ le_enc 4 len ++ [is_write].

Lemma linux_page_documented reason cr8 apic_base body :
  0 <= cr8 < 16 -> bytes_ok body -> (length body <= 96)%nat -> documented (linux_page reason cr8 apic_base body).
Proof.
  intros Hc Hb Hl. split.
  - unfold linux_page, bytes_ok. repeat apply Forall_app_2; [by apply Forall_replicate|apply le_enc_ok|by apply Forall_replicate
      |apply le_enc_ok..|done|by apply Forall_replicate].
  - unfold linux_page. rewrite !length_app, !length_replicate, !length_le_enc. lia.
  - unfold run_field, slice, linux_page.
    rewrite (app_assoc (replicate 8 0)), (app_assoc (_ ++ le_enc 4 reason)), drop_app_length', take_app_length'
      by (by rewrite ?length_app, ?length_replicate, ?length_le_enc).
    rewrite le_dec_enc_u64 by ulia. lia.
Qed.

Lemma mmio_page_documented addr data len w :
  is_u8 w -> documented (linux_page KVM_EXIT_MMIO 0 0xfee00900 (mmio_body addr data len w)).
Proof.
  intros Hw. apply linux_page_documented; [lia|unfold mmio_body, bytes_ok; repeat apply Forall_app_2|].
  1-3: apply le_enc_ok.
  - by apply Forall_singleton.
  - unfold mmio_body. rewrite !length_app, !length_le_enc. simpl. lia.
Qed.

(** A letter stored in the transmit register of the UART, and one above 4 GiB. *)
Definition store_page (addr : Z) : list byte := linux_page KVM_EXIT_MMIO 0 0xfee00900 (mmio_body addr 72 1 1).
Lemma store_page_documented addr : documented (store_page addr).
Proof. by apply mmio_page_documented. Qed.

Lemma kvm_get_exit_documented_witness :
  (let hv := set_vcpu_data (KvmVcpuData (store_page 0x90000000)) demo_vcpu in
   kvm_get_exit hv empty_host = Ok (0, mk_hv_exit HV_EXIT_MMIO (UMmio (mk_hv_mmio 0 0 0 0)), hv) empty_host) /\
  kvm_get_exit (set_vcpu_data (KvmVcpuData (store_page 0x190000000)) demo_vcpu) empty_host = Ub OutOfBounds.
Proof.
  split.
  - cbv zeta. rewrite (kvm_get_exit_documented (set_vcpu_data (KvmVcpuData (store_page 0x90000000)) demo_vcpu) (store_page 0x90000000) empty_host eq_refl (store_page_documented _)).
    vm_compute. reflexivity.
  - rewrite (kvm_get_exit_documented (set_vcpu_data (KvmVcpuData (store_page 0x190000000)) demo_vcpu) (store_page 0x190000000) empty_host eq_refl (store_page_documented _)).
    vm_compute. reflexivity.
Defined.

Definition demo_cpu : vcpu := mk_vcpu (Some demo_vcpu) true 0 VCPU_STATE_RUNNING 0 0 0 zero_stats.
Definition no_objects : gmap positive object := ∅.
Definition no_exit : hv_exit := mk_hv_exit HV_EXIT_NONE UZero.

Lemma vcpu_loop_bounded_witness :
  exists c' h', vcpu_rounds (E := exit_env 5 []) (Device0 := object_device (E := exit_env 5 []))
      (kvm_state (E := exit_env 5 []) 3) [false; false] no_exit fresh_vm no_objects demo_cpu empty_host
    = Ok (Some (c', no_objects)) h' /\ exit_count (vc_stats c') = 4.
Proof.
  pose (E := exit_env 5 []).
  destruct (vcpu_rounds (E := E) (Device0 := object_device (E := E)) (kvm_state (E := E) 3) [false; false]
    no_exit fresh_vm no_objects demo_cpu empty_host) as [[[c' st']|] h'|] eqn:Hr;
    [|vm_compute in Hr; discriminate Hr..].
  destruct (vcpu_loop_bounded (E := E) (kvm_state (E := E) 3) [false; false] no_exit fresh_vm no_objects
    demo_cpu empty_host c' st' h' eq_refl Hr) as (_ & _ & He & _).
  exists c', h'. split; [|exact He].
  assert (st' = no_objects) as -> by (vm_compute in Hr; injection Hr as _ <- _; reflexivity). exact Hr.
Defined.

(** The HLT exit goes round until the limit. *)
Lemma vcpu_loop_terminates_witness :
  exists c' h', vcpu_loop (E := exit_env 5 []) (Device0 := object_device (E := exit_env 5 []))
      (kvm_state (E := exit_env 5 []) 3) 501 no_exit fresh_vm no_objects demo_cpu empty_host
    = Ok (TooManyExits, c', no_objects) h'.
Proof.
  pose (E := exit_env 5 []).
  destruct (vcpu_loop_terminates (E := E) (kvm_state (E := E) 3) no_exit fresh_vm no_objects demo_cpu empty_host
    eq_refl) as [(r & h' & Hr)|(u & n & c1 & st1 & h1 & Hr & _)].
  - destruct r as [[e c'] st']. exists c', h'.
    assert (match vcpu_loop (E := E) (Device0 := object_device (E := E)) (kvm_state (E := E) 3) 501 no_exit
              fresh_vm no_objects demo_cpu empty_host with
            | Ok (e, _, st) _ => e = TooManyExits /\ st = no_objects | Ub _ => False end) as Hc
      by (vm_compute; split; reflexivity).
    rewrite Hr in Hc. destruct Hc as [-> ->]. exact Hr.
  - exfalso. assert (match vcpu_loop (E := E) (Device0 := object_device (E := E)) (kvm_state (E := E) 3) 501 no_exit
              fresh_vm no_objects demo_cpu empty_host with Ok _ _ => True | Ub _ => False end) as Hc
      by (vm_compute; exact I).
    rewrite Hr in Hc. exact Hc.
Defined.

Lemma vcpu_handle_io_exit_spec_witness :
  exists io' h', vcpu_handle_io_exit (E := good_env) (mk_hv_io 0x3f8 2 HV_IO_OUT 0x4241) empty_host = Ok (0, io') h' /\
    stdout_bytes (trace h') = [0x41; 0x42].
Proof.
  destruct (vcpu_handle_io_exit_spec (E := good_env) (mk_hv_io 0x3f8 2 HV_IO_OUT 0x4241) empty_host
    ltac:(simpl; lia)) as (io' & h' & Hr & _ & Ho & _).
  exists io', h'. split; [exact Hr|exact Ho].
Defined.

Lemma vcpu_mmio_agrees_witness :
  exists st' h', vcpu_handle_mmio_exit (Device0 := object_device (E := good_env)) demo_devices_vm demo_objects
    (mk_hv_mmio 0x90000000 1 1 66) empty_host = Ok (0, st') h' /\ stdout_bytes (trace h') = [66].
Proof.
  rewrite (vcpu_mmio_agrees (Device0 := object_device (E := good_env)) demo_devices_vm demo_objects
    (mk_hv_mmio 0x90000000 1 1 66) empty_host).
  - destruct (vm_find_device_at_gpa (Device0 := object_device (E := good_env)) demo_devices_vm demo_objects
      (mmio_addr (mk_hv_mmio 0x90000000 1 1 66)) empty_host) as [[i|] h1|] eqn:Hf;
      [|vm_compute in Hf; discriminate Hf..].
    destruct (('(ret, _, st') ← device_handle_mmio (Device0 := object_device (E := good_env)) demo_devices_vm
      demo_objects 0x90000000 1 (le_enc 8 66) 1; mret (ret, st')) empty_host) as [[r st'] h'|] eqn:Hr;
      [|vm_compute in Hr; discriminate Hr].
    exists st', h'. vm_compute in Hr. injection Hr as <- <- <-. split; vm_compute; reflexivity.
  - intros i o _ Ho. unfold demo_objects in Ho.
    apply lookup_insert_Some in Ho as [[_ <-]|[_ Ho]]; [by eexists _, _, _|].
    apply lookup_singleton_Some in Ho as [_ <-]. by eexists _, _, _.
  - exact demo_devices_wf.
Defined.

(** Two bytes written to port 0x3f8, at the page's data offset 48. *)
Definition port_write_page : list byte :=
  exit_page KVM_EXIT_IO (le_enc 2 1 ++ le_enc 2 2 ++ le_enc 4 0x3f8 ++ le_enc 8 48 ++ replicate 16 0 ++ [72; 105]).

Lemma kvm_port_write_prints_zeros_witness :
  exists e c' h', kvm_get_exit (set_vcpu_data (KvmVcpuData port_write_page) demo_vcpu) empty_host
      = Ok (0, e, set_vcpu_data (KvmVcpuData port_write_page) demo_vcpu) empty_host /\
    vcpu_handle_exit (E := good_env) (Device0 := object_device (E := good_env)) fresh_vm no_objects demo_cpu e
      empty_host = Ok (0, c', no_objects) h' /\
    stdout_bytes (trace h') = [0; 0].
Proof.
  destruct (kvm_port_write_prints_zeros (E := good_env) (Device0 := object_device (E := good_env))
    (set_vcpu_data (KvmVcpuData port_write_page) demo_vcpu) port_write_page fresh_vm no_objects demo_cpu empty_host
    ltac:(split; [reflexivity|vm_compute; discriminate]) ltac:(vm_compute; reflexivity)
    ltac:(vm_compute; reflexivity) ltac:(vm_compute; reflexivity) ltac:(vm_compute; split; discriminate))
    as (e & c' & h' & Hg & Hx & Ho).
  exists e, c', h'. split; [exact Hg|]. split; [exact Hx|exact Ho].
Defined.

(** KVM_EXIT_SYSTEM_EVENT *)
Lemma kvm_untranslated_exit_stops_witness :
  exists c', vcpu_turn (E := exit_env 24 []) (Device0 := object_device (E := exit_env 24 []))
      (kvm_state (E := exit_env 24 []) 3) no_exit fresh_vm no_objects demo_cpu empty_host
    = Ok (inr (HandlerFailed, c'), no_objects) (called (EvKvmRun 5) empty_host).
Proof.
  destruct (kvm_untranslated_exit_stops (E := exit_env 24 []) (Device0 := object_device (E := exit_env 24 []))
    3 no_exit demo_vcpu (exit_page 24 []) fresh_vm no_objects demo_cpu empty_host 0 0 [] (replicate 128 0)
    (called (EvKvmRun 5) empty_host) eq_refl eq_refl eq_refl eq_refl ltac:(lia) eq_refl
    ltac:(vm_compute; discriminate) ltac:(apply (bool_decide_eq_true_1 _); vm_compute; reflexivity)) as (c' & Hr & _).
  exists c'. exact Hr.
Defined.
