(* ===== verification/LinuxGuest.v ===== *)
(** * A guest on Linux, from the kernel's page to the end of its thread (src/vcpu.c, src/hypervisor/kvm.c)

    The vCPU loop over the KVM backend, for pages that the kernel lays out as it documents
    ([KvmExits.documented]): every exit that the backend can decode is answered without
    reaching a device, so a guest that drives the UART prints nothing. *)

From S2P Require Import Prelude HvTypes Host Hypervisor Kvm VmMem Devices MmioConsole Machine Vcpu KvmExits.

(** ** The answer to a decoded exit *)

Section handler.
Context {E : Env} {O : Type} `{!Device O}.
Local Abbreviation store := (gmap positive O).

(** Every entry of the array leads to a live device, whose window starts above the
    addresses that a task priority can be mistaken for. *)
Definition high_array (st : store) (l : list (option positive)) : Prop :=
  Forall (fun p => exists i o, p = Some i /\ st !! i = Some o /\ 16 <= gpa_start (dbase o)) l.
Definition high_devices (v : vm) (st : store) : Prop := high_array st (live_devices v).

Lemma find_low_none (st : store) l gpa h :
  high_array st l -> gpa < 16 ->
  find_at_gpa st gpa l h = Ok None h.
Proof.
  intros Hl Hg. induction Hl as [|p l (i & o & -> & Ho & Hw) _ IH]; [done|]. cbn [find_at_gpa get_obj]. rewrite Ho. cbn [deref].
  by rewrite (bind_ret o), (proj2 (Z.leb_gt _ gpa)) by lia.
Qed.

Lemma decoded_exit_run v (st : store) c page h :
  high_devices v st -> vc_vm c = true -> documented page ->
  exists r c', vcpu_handle_exit v st c (decoded page) h = Ok (r, c', st) h /\ vc_vm c' = true /\ vc_hv c' = vc_hv c.
Proof.
  intros Hd Hvm [_ _ Hc8]. enough (exists r c', vcpu_handle_exit v st c (decoded page) h = Ok (r, c', st) h) as (r & c' & H).
  { exists r, c'. split; [done|]. by rewrite (handle_exit_vm _ _ _ _ _ _ _ _ _ H), (handle_exit_hv _ _ _ _ _ _ _ _ _ H). }
  unfold decoded. cbv zeta. set (reason := run_field page 4 RUN_exit_reason).
  destruct (reason =? KVM_EXIT_IO) eqn:Hio; [bool_prop; rewrite Hio; by eexists _, _|].
  destruct (reason =? KVM_EXIT_MMIO) eqn:Hm.
  { bool_prop. rewrite Hm. unfold vcpu_handle_exit. cbn [kvm_convert_exit_reason ex_reason ex_u].
    change (kvm_convert_exit_reason KVM_EXIT_MMIO) with HV_EXIT_MMIO. cbv iota. cbn [u_mmio deref].
    rewrite bind_ret. cbn [vc_vm count set_stats]. rewrite Hvm. cbn [negb]. unfold vcpu_handle_mmio_exit, vm_find_device_at_gpa.
    rewrite bind_assoc. cbn [mmio_addr]. rewrite (bind_Ok _ _ _ _ _ (find_low_none st _ _ h Hd Hc8)). by eexists _, _. }
  destruct (reason =? KVM_EXIT_FAIL_ENTRY) eqn:Hf; [bool_prop; rewrite Hf; by eexists _, _|].
  destruct (reason =? KVM_EXIT_INTERNAL_ERROR) eqn:He; [bool_prop; rewrite He; by eexists _, _|].
  unfold kvm_convert_exit_reason, vcpu_handle_exit. rewrite Hio, Hm, Hf, He. cbn [ex_reason ex_u].
  repeat match goal with |- context [if reason =? ?k then _ else _] => destruct (reason =? k); [by eexists _, _|] end.
  by eexists _, _.
Qed.
End handler.

(** ** The script of a guest *)

(** Times a vCPU was entered. *)
Fixpoint runs_on (fd : Z) (tr : list event) : nat :=
  match tr with
  | [] => 0
  | EvKvmRun x :: tr => (if decide (x = fd) then 1 else 0) + runs_on fd tr
  | _ :: tr => runs_on fd tr
  end.

Inductive guest_exit := GConsole (a : uart_access) | GHalt | GShutdown.

Definition access_offset (a : uart_access) : Z := match a with UartRead off | UartWrite off _ => off end.

(** The page of an exit, as Linux documents it: an access to a register of the UART with
    the address, the length, the direction and the stored bytes in the MMIO part. *)
Definition page_shows (page : list byte) (g : guest_exit) : Prop :=
  documented page /\
  match g with
  | GConsole a =>
      0 <= access_offset a < MMIO_CONSOLE_SIZE /\
      run_field page 4 RUN_exit_reason = KVM_EXIT_MMIO /\
      run_field page 8 LINUX_mmio_phys_addr = MMIO_CONSOLE_GPA + access_offset a /\
      0 <= run_field page 4 LINUX_mmio_len <= 8 /\
      match a with
      | UartRead _ => run_field page 1 LINUX_mmio_is_write = 0
      | UartWrite _ x => run_field page 1 LINUX_mmio_is_write = 1 /\
                         run_field page (Z.to_nat (run_field page 4 LINUX_mmio_len)) LINUX_mmio_data = x
      end
  | GHalt => run_field page 4 RUN_exit_reason = KVM_EXIT_HLT
  | GShutdown => run_field page 4 RUN_exit_reason = KVM_EXIT_SHUTDOWN
  end.

(** From its [n]th run on, the guest leaves with the exits of [l], in order, whatever
    it stores in memory meanwhile. *)
Definition follows `{E : Env} (fd : Z) (n : nat) (l : list guest_exit) : Prop :=
  forall tr k g, runs_on fd tr = (n + k)%nat -> l !! k = Some g ->
  exists r err page ws, env_answer tr (EvKvmRun fd) = (r, err, page, ws) /\ 0 <= r /\ page_shows page g.

Lemma follows_next `{E : Env} vfd n g l : follows vfd n (g :: l) -> follows vfd (S n) l.
Proof. intros H tr k g' Hr Hk. apply (H tr (S k) g'); [lia|done]. Qed.

Section script.
Context {E : Env} {O : Type} `{!Device O} (fd : Z) (exit0 : hv_exit) (v : vm) (st : gmap positive O).
Hypothesis Hdevices : high_devices v st.
Local Abbreviation hs := (kvm_state fd).

Lemma kvm_run_run hv old page r err ws h :
  hvc_data hv = KvmVcpuData old -> env_answer (trace h) (EvKvmRun (hvc_fd hv)) = (r, err, page, ws) -> 0 <= r ->
  exists h1, hv_run hs hv h = Ok (0, set_vcpu_data (KvmVcpuData page) hv) h1 /\
    trace h1 = EvKvmRun (hvc_fd hv) :: trace h.
Proof using Type.
  intros Hd Hans Hr. destruct (guest_stores ws (called (EvKvmRun (hvc_fd hv)) h)) as [[] h1|] eqn:Hg; [|done].
  exists h1. split; [|by apply guest_stores_layout in Hg as (_ & ? & _)].
  unfold hv_run, via. cbn [kvm_state g_hv_ops kvm_ops op_run]. unfold kvm_run, kvm_set_run.
  erewrite bind_Ok by (unfold perform; rewrite Hans; reflexivity). cbv beta iota.
  rewrite (bind_Ok _ _ _ _ _ Hg), Hd. by rewrite (proj2 (Z.ltb_ge _ _)) by lia.
Qed.

(** A vCPU on its [k]th turn. *)
Record at_turn (k : nat) (c : vcpu) (vfd : Z) : Prop := {
  tn_handle : exists hv old, vc_hv c = Some hv /\ hvc_data hv = KvmVcpuData old /\ hvc_fd hv = vfd;
  tn_vm : vc_vm c = true;
  tn_go : should_stop c = 0;
  tn_exits : exit_count (vc_stats c) = 2 * Z.of_nat k
}.

(** The exit of a page of a script: nothing happens but the counting. *)
Lemma shown_exit page g c k h :
  page_shows page g -> vc_vm c = true -> exit_count (vc_stats c) = 2 * Z.of_nat k ->
  decoding_faults page = false /\
  exists c', vcpu_handle_exit v st c (decoded page) h = Ok (0, c', st) h /\ vc_hv c' = vc_hv c /\ vc_vm c' = vc_vm c /\
    (should_stop c' = match g with GShutdown => 1 | _ => should_stop c end) /\
    exit_count (vc_stats c') = u64 (2 * Z.of_nat k + 1).
Proof using Hdevices.
  intros [Hdoc Hg] Hvm Hn. unfold decoding_faults. cbv zeta. destruct g as [a| |].
  - destruct Hg as (Hoff & Hr & Haddr & _). rewrite Hr.
    assert ((run_field page 8 LINUX_mmio_phys_addr `div` 2 ^ 32) `mod` 256 = 0) as Hw.
    { rewrite Haddr, Z.div_small; [done|]. unfold MMIO_CONSOLE_GPA, MMIO_CONSOLE_SIZE in *. lia. }
    rewrite Hw. split; [done|]. unfold decoded. rewrite Hr. unfold vcpu_handle_exit. cbn [ex_reason ex_u u_mmio deref].
    change (kvm_convert_exit_reason KVM_EXIT_MMIO) with HV_EXIT_MMIO. cbv iota.
    change (KVM_EXIT_MMIO =? KVM_EXIT_IO) with false. change (KVM_EXIT_MMIO =? KVM_EXIT_MMIO) with true. cbv iota.
    cbn [u_mmio deref]. rewrite bind_ret. cbn [vc_vm count set_stats]. rewrite Hvm. cbn [negb].
    unfold vcpu_handle_mmio_exit, vm_find_device_at_gpa. rewrite bind_assoc. cbn [mmio_addr].
    rewrite (bind_Ok _ _ _ _ _ (find_low_none st _ _ h Hdevices (dc_cr8 _ Hdoc))).
    eexists. split; [reflexivity|]. split_and!; [done..|by cbn; rewrite Hn].
  - rewrite Hg. split; [done|]. unfold decoded. rewrite Hg. eexists. split; [reflexivity|]. split_and!; [done..|by cbn; rewrite Hn].
  - rewrite Hg. split; [done|]. unfold decoded. rewrite Hg. eexists. split; [reflexivity|]. split_and!; [done..|by cbn; rewrite Hn].
Qed.

(** One turn of a script. *)
Lemma script_turn k c vfd g l h :
  (k < 501)%nat -> at_turn k c vfd -> follows vfd (runs_on vfd (trace h)) (g :: l) ->
  exists c' h',
    vcpu_turn hs exit0 v st c h = Ok (if decide (k = 500%nat) then inr (TooManyExits, c') else inl c', st) h' /\
    trace h' = EvKvmRun vfd :: trace h /\
    (if g is GShutdown then should_stop c' = 1 else at_turn (S k) c' vfd).
Proof using Hdevices.
  intros Hk [(hv & old & Hhv & Hd & Hfd) Hvm Hgo Hex] Hfol.
  destruct (Hfol (trace h) 0%nat g ltac:(lia) eq_refl) as (r & err & page & ws & Hans & Hr & Hshow). rewrite <- Hfd in Hans.
  destruct (kvm_run_run hv old page r err ws h Hd Hans Hr) as (h1 & Hrun & Ht1). rewrite Hfd in Ht1.
  set (hv1 := set_vcpu_data _ hv) in *.
  destruct (shown_exit page g (set_hv (Some hv1) c) k h1 Hshow Hvm Hex) as (Hf & c2 & Hx & Hhv2 & Hvm2 & Hs2 & Hn2).
  assert (kvm_get_exit hv1 h1 = Ok (0, decoded page, hv1) h1) as Hget
    by (by rewrite (kvm_get_exit_documented_run hv1 page h1 eq_refl (proj1 Hshow)), Hf).
  assert (exit_count (vc_stats (count inc_exit c2)) = 2 * Z.of_nat (S k)) as Hn by (cbn; rewrite Hn2, !u64_small by ulia; lia).
  exists (count inc_exit c2), h1. split; [|split; [done|]].
  - rewrite (vcpu_turn_exit hs exit0 v st c hv hv1 hv1 _ h h1 h1 Hhv Hgo Hrun Hget), (bind_Ok _ _ _ _ _ Hx).
    unfold after_handler. change (0 <? 0) with false. cbv iota zeta. rewrite Hn. rewrite Z.gtb_ltb.
    case_decide as Hd2; [by rewrite (proj2 (Z.ltb_lt _ _)) by lia|by rewrite (proj2 (Z.ltb_ge _ _)) by lia].
  - cbn in Hhv2, Hvm2, Hs2.
    destruct g; [| |done]; (split; [exists hv1, page; by rewrite <- Hfd|cbn; congruence|cbn; congruence|exact Hn]).
Qed.

(** A script that ends in a shutdown, from the [k]th turn on. *)
Lemma script_run l k c vfd h f :
  (k + f = 501)%nat -> (0 < f)%nat -> at_turn k c vfd ->
  Forall (fun g => g <> GShutdown) l -> follows vfd (runs_on vfd (trace h)) (l ++ [GShutdown]) ->
  exists e c' h',
    vcpu_loop hs f exit0 v st c h = Ok (e, c', st) h' /\
    e = (if decide (k + length l < 500)%nat then Stopped else TooManyExits) /\
    trace h' = replicate (S (length l) `min` f) (EvKvmRun vfd) ++ trace h.
Proof using Hdevices.
  revert k c h f. induction l as [|g l IH]; intros k c h f Hf Hpos Hat Hns Hfol; (destruct f as [|f]; [lia|]); cbn [vcpu_loop].
  - destruct (script_turn k c vfd GShutdown [] h ltac:(lia) Hat Hfol) as (c1 & h1 & Hturn & Ht & Hs).
    rewrite (bind_Ok _ _ _ _ _ Hturn). cbn [length]. rewrite Nat.min_l by lia.
    case_decide as Hk; cbv beta iota.
    + rewrite decide_False by lia. by eexists _, _, _.
    + rewrite decide_True by lia. destruct f as [|f]; [lia|]. cbn [vcpu_loop]. unfold vcpu_turn. rewrite Hs. cbn [Z.eqb negb].
      rewrite bind_ret. by eexists _, _, _.
  - apply Forall_cons in Hns as [Hg Hns].
    destruct (script_turn k c vfd g (l ++ [GShutdown]) h ltac:(lia) Hat Hfol) as (c1 & h1 & Hturn & Ht & Hcase).
    assert (at_turn (S k) c1 vfd) as Hat1 by (by destruct g).
    rewrite (bind_Ok _ _ _ _ _ Hturn). cbn [length]. case_decide as Hk; cbv beta iota.
    + rewrite decide_False by lia. assert (f = 0%nat) as -> by lia. rewrite Nat.min_r by lia. by eexists _, _, _.
    + destruct (IH (S k) c1 h1 f ltac:(lia) ltac:(lia) Hat1 Hns) as (e & c' & h' & Hrun & He & Htr).
      { rewrite Ht. cbn [runs_on]. rewrite decide_True by done. eapply follows_next, Hfol. }
      eexists e, c', h'. split; [exact Hrun|]. split; [rewrite He; apply decide_ext; lia|].
      rewrite Htr, Ht. change (S (S (length l)) `min` S f)%nat with (S (S (length l) `min` f)).
      cbn [replicate]. by rewrite replicate_cons_app, <- app_assoc.
Qed.
End script.
