(* ===== verification/HvfExits.v ===== *)
(** * Exits of the HVF backends through the vCPU loop

    What the loop of vcpu.c makes of the exits the two HVF backends report: on
    Intel nothing but HLT, on Apple Silicon data aborts that are all taken for
    one-byte stores, and the cancellation that stops a vCPU. *)

From S2P Require Import Prelude HvTypes Host Hypervisor Hvf HvfArm64 VmMem Devices MmioConsole Machine Vcpu.

Section intel.
Context {E : Env} {O : Type} `{!Device O}.
Local Abbreviation store := (gmap positive O).

Lemma hvf_run_run fd hv id buf created h ret xi ws h1 :
  hvc_data hv = HvfVcpuData id buf created ->
  env_answer (trace h) (EvHvVcpuRun id) = (ret, xi, ws) -> guest_stores ws (called (EvHvVcpuRun id) h) = Ok tt h1 ->
  hv_run (hvf_state true fd) hv h = Ok (if decide (ret = HV_ERROR) then -1 else 0, hv) h1.
Proof.
  intros Hd Hans Hg. unfold hv_run, via. cbn [hvf_state g_hv_ops hvf_ops op_run]. unfold hvf_run, hvf_vcpu_data.
  rewrite Hd, bind_ret. cbv beta iota. mrun by (unfold perform; rewrite Hans; reflexivity).
  by rewrite (bind_Ok _ _ _ _ _ Hg).
Qed.

(** The statistics after [n] handled exits, all of them HLT. *)
Definition halt_stats (n : nat) : vcpu_stats := mk_stats (2 * Z.of_nat n) 0 0 (Z.of_nat n) 0 0 0 0 0 0 0.

Lemma halt_stats_S n (c : vcpu) :
  (n < 1000)%nat ->
  count inc_exit (count inc_halt (count inc_exit (set_stats (halt_stats n) c))) = set_stats (halt_stats (S n)) c.
Proof.
  intros Hn. unfold count, inc_halt, inc_exit, halt_stats. simpl. unfold set_stats. simpl. f_equal. f_equal.
  - rewrite !u64_small by ulia. lia.
  - rewrite u64_small by ulia. lia.
Qed.

Lemma hvf_intel_halts_run fd exit0 v (st : store) c hv id buf created h :
  vc_hv c = Some hv -> hvc_data hv = HvfVcpuData id buf created ->
  should_stop c = 0 -> vc_stats c = zero_stats -> errno h <> EINTR ->
  exists e n m h', vcpu_loop (hvf_state true fd) 501 exit0 v st c h = Ok (e, set_stats (halt_stats n) c, st) h' /\
    trace h' = replicate m (EvHvVcpuRun id) ++ trace h /\ same_layout h h' /\
    (e = TooManyExits /\ n = 501%nat /\ m = 501%nat \/ e = RunFailed /\ (n < 501)%nat /\ m = S n).
Proof.
  intros Hhv Hd Hs Hz Herr.
  enough (forall f n h1, (n + f = 501)%nat -> (0 < f)%nat -> errno h1 <> EINTR -> same_layout h h1 ->
    trace h1 = replicate n (EvHvVcpuRun id) ++ trace h ->
    exists e n' m h', vcpu_loop (hvf_state true fd) f exit0 v st (set_stats (halt_stats n) c) h1
        = Ok (e, set_stats (halt_stats n') c, st) h' /\
      trace h' = replicate m (EvHvVcpuRun id) ++ trace h /\ same_layout h h' /\
      (e = TooManyExits /\ n' = 501%nat /\ m = 501%nat \/ e = RunFailed /\ (n' < 501)%nat /\ m = S n')) as Hgen.
  { destruct (Hgen 501%nat 0%nat h) as (e & n & m & h' & Hrun & Hrest); [lia|lia|done|done|done|].
    exists e, n, m, h'. split; [|exact Hrest]. rewrite <- Hrun. f_equal. destruct c. simpl in Hz. by subst. }
  induction f as [|f IH]; intros n h1 Hn Hf He Hl Ht; [lia|]. cbn [vcpu_loop].
  destruct (env_answer (trace h1) (EvHvVcpuRun id)) as [[ret xi] ws] eqn:Hans.
  destruct (guest_stores ws (called (EvHvVcpuRun id) h1)) as [[] h2|] eqn:Hg; [|done].
  pose proof (hvf_run_run fd hv id buf created h1 ret xi ws h2 Hd Hans Hg) as Hrun.
  apply guest_stores_layout in Hg as (Hl2 & Ht2 & He2). cbn [trace errno called] in Ht2, He2.
  assert (trace h2 = replicate (S n) (EvHvVcpuRun id) ++ trace h) as Ht2' by (rewrite Ht2, Ht; done).
  assert (same_layout h h2) as Hl2' by (eapply same_layout_trans; [exact Hl|exact Hl2]).
  assert (set_hv (Some hv) (set_stats (halt_stats n) c) = set_stats (halt_stats n) c) as Hc
    by (destruct c; simpl in Hhv; by subst).
  case_decide as Hret.
  - rewrite (bind_Ok _ _ _ _ _ (vcpu_turn_run_failed (hvf_state true fd) exit0 v st (set_stats (halt_stats n) c)
      hv hv h1 h2 Hhv Hs Hrun ltac:(congruence))). cbv beta iota.
    rewrite Hc. exists RunFailed, n, (S n), h2. split; [reflexivity|]. split_and!; [done|done|]. right. split; [done|lia].
  - pose proof (vcpu_turn_exit (hvf_state true fd) exit0 v st (set_stats (halt_stats n) c) hv hv hv
      (mk_hv_exit HV_EXIT_HLT UZero) h1 h2 h2 Hhv Hs Hrun eq_refl) as Hturn.
    rewrite Hc in Hturn. unfold vcpu_handle_exit in Hturn. cbn [ex_reason vcpu_handle_halt] in Hturn.
    rewrite bind_ret in Hturn. unfold after_handler in Hturn. change (0 <? 0) with false in Hturn. cbv iota zeta in Hturn.
    rewrite halt_stats_S in Hturn by lia. change (exit_count (vc_stats (set_stats (halt_stats (S n)) c)))
      with (2 * Z.of_nat (S n)) in Hturn. rewrite (bind_Ok _ _ _ _ _ Hturn). cbv beta iota. clear Hturn.
    destruct (_ >? 1000) eqn:Hlim; bool_prop.
    + exists TooManyExits, (S n), (S n), h2. split; [reflexivity|]. split_and!; [done|done|]. left. split; [done|lia].
    + destruct (IH (S n) h2 ltac:(lia) ltac:(lia) ltac:(congruence) Hl2' Ht2') as (e & n' & m & h' & Hloop & Hrest).
      by exists e, n', m, h'.
Qed.

(** The Intel HVF backend hears nothing of its guest.  Whatever the guest does, a
    vCPU that has just started either stops when the framework reports an error,
    or is halted by the limit in its 501st turn; every exit before that was taken
    for a HLT, no device was called, nothing was printed, and the only calls to
    the host are the runs themselves.  Port and memory-mapped devices are
    unreachable, and no guest runs longer than 501 exits. *)
Theorem hvf_intel_only_halts fd exit0 v (st : store) c hv id buf created h :
  vc_hv c = Some hv -> hvc_data hv = HvfVcpuData id buf created ->
  should_stop c = 0 -> vc_stats c = zero_stats -> errno h <> EINTR ->
  exists e n m h', vcpu_loop (hvf_state true fd) 501 exit0 v st c h = Ok (e, set_stats (halt_stats n) c, st) h' /\
    trace h' = replicate m (EvHvVcpuRun id) ++ trace h /\ same_layout h h' /\
    (e = TooManyExits /\ n = 501%nat /\ m = 501%nat \/ e = RunFailed /\ (n < 501)%nat /\ m = S n).
Proof. intros. by eapply hvf_intel_halts_run. Qed.
End intel.

Section arm.
Context {E : Env}.
Local Abbreviation store := (gmap positive object).

(** A handle of a created vCPU, and the same with a new exit in its structure. *)
Definition arm_handle (hv : hv_vcpu) (id : Z) : Prop :=
  exists b exit, hvc_data hv = HvfArmVcpuData id (Ptr b 0) exit true.
Definition with_exit (xi : hv_vcpu_exit_t) (hv : hv_vcpu) : hv_vcpu :=
  match hvc_data hv with
  | HvfArmVcpuData id info _ created => set_vcpu_data (HvfArmVcpuData id info xi created) hv
  | _ => hv
  end.

Lemma arm_run_run fd hv id h ret xi ws h1 :
  arm_handle hv id -> env_answer (trace h) (EvHvVcpuRun id) = (ret, xi, ws) ->
  ret <> HV_ERROR -> ret <> HV_UNSUPPORTED -> guest_stores ws (called (EvHvVcpuRun id) h) = Ok tt h1 ->
  hv_run (hvf_arm64_state fd) hv h = Ok (0, with_exit xi hv) h1.
Proof.
  intros (b & exit & Hd) Hans H1 H2 Hg. unfold hv_run, via. cbn [hvf_arm64_state g_hv_ops hvf_arm64_ops op_run].
  unfold hvf_arm64_run, hvf_arm64_data, with_exit. rewrite Hd, bind_ret. cbn [deref]. rewrite bind_ret. cbv beta iota.
  mrun by (unfold perform; rewrite Hans; reflexivity). rewrite (bind_Ok _ _ _ _ _ Hg).
  rewrite decide_False; [done|]. by intros [?|?].
Qed.


(** A one-byte store to the transmit register of the first device. *)
Lemma uart_store_run v (st : store) i rest u x h :
  live_devices v = Some i :: rest -> st !! i = Some (ObjUart u) -> uart_wf (mc_st u) -> dlab (mc_st u) = 0 ->
  0 <= x < 256 -> gpa_start (mc_dev u) <= gpa_end (mc_dev u) ->
  exists u' h', vcpu_handle_mmio_exit v st (mk_hv_mmio (gpa_start (mc_dev u)) 1 1 x) h
      = Ok (0, <[i := ObjUart u']> st) h' /\
    stdout_bytes (trace h') = stdout_bytes (trace h) ++ [x].
Proof.
  intros Hlive Hst Hwf Hdlab Hx Hwin. unfold vcpu_handle_mmio_exit, vm_find_device_at_gpa. cbn [mmio_addr mmio_data mmio_size mmio_is_write].
  rewrite Hlive. cbn [find_at_gpa get_obj]. rewrite Hst. cbn [deref]. rewrite bind_assoc, bind_ret. cbn [dbase object_device mmio_console_device].
  rewrite (proj2 (Z.leb_le _ _) Hwin), Z.leb_refl. cbn [andb]. rewrite bind_ret. cbn [get_obj]. rewrite Hst. cbn [deref].
  rewrite bind_ret. cbv zeta. cbn [dops object_device mmio_console_device fmap option_fmap option_map deref]. rewrite bind_ret.
  change (negb (1 =? 0)) with true. cbv iota. cbn [dop_write lift_ops mmio_console_ops deref as_uart]. rewrite bind_ret.
  cbn [deref as_uart]. rewrite !bind_assoc, bind_ret. unfold mmio_console_write.
  cbn [dbase object_device mmio_console_device]. rewrite Z.sub_diag. change (u64 0) with UART_TX.
  destruct (uart_write_step UART_TX x (mc_st u) h Hwf Hx) as (s' & h' & Hw & _ & _ & _ & Hout & _).
  rewrite !bind_assoc. mrun by reflexivity. change (slice (le_enc 8 x) 0 (Z.to_nat 1)) with [x mod 256]. cbn [le_dec].
  rewrite Z.mod_small, Z.mul_0_r, Z.add_0_r by done. rewrite !bind_assoc, (bind_Ok _ _ _ _ _ Hw), !bind_ret. cbv beta iota.
  eexists _, _. split; [reflexivity|]. rewrite Hout, Z.eqb_refl, Hdlab. done.
Qed.

End arm.

(** ** Witnesses *)

#[local] Existing Instance good_env.

Definition intel_cpu : vcpu := mk_vcpu (Some demo_hvf_vcpu) true 0 VCPU_STATE_RUNNING 0 0 0 zero_stats.
Definition arm_cpu : vcpu := mk_vcpu (Some demo_arm_vcpu) true 0 VCPU_STATE_RUNNING 0 0 0 zero_stats.

(** A framework whose vCPUs all leave the guest with the exit [xi], X0 being 65. *)
Definition arm_env (xi : hv_vcpu_exit_t) : Env := fun tr e =>
  match e return answer e with
  | EvHvVcpuRun _ => (HV_SUCCESS, xi, [])
  | EvHvGetReg _ _ => (HV_SUCCESS, 65)
  | e => good_env tr e
  end.

Lemma hvf_intel_only_halts_witness :
  exists h', vcpu_loop (hvf_state true (-1)) 501 (mk_hv_exit HV_EXIT_NONE UZero) demo_devices_vm demo_objects intel_cpu empty_host
      = Ok (TooManyExits, set_stats (halt_stats 501) intel_cpu, demo_objects) h' /\
    trace h' = replicate 501 (EvHvVcpuRun 7).
Proof.
  destruct (hvf_intel_only_halts (-1) (mk_hv_exit HV_EXIT_NONE UZero) demo_devices_vm demo_objects intel_cpu demo_hvf_vcpu
    7 (Ptr 1 0) true empty_host eq_refl eq_refl eq_refl eq_refl ltac:(discriminate)) as (e & n & m & h' & Hrun & Ht & _ & Hcase).
  destruct Hcase as [(-> & -> & ->)|(-> & Hn & ->)].
  - exists h'. split; [exact Hrun|]. rewrite Ht. apply app_nil_r.
  - exfalso. clear Ht. destruct (vcpu_loop _ _ _ _ _ _ _) as [[[e2 c2] s2] h2|] eqn:Heq; [|discriminate Hrun].
    injection Hrun as -> _ _ _. vm_compute in Heq. discriminate Heq.
Defined.


