(* ===== verification/Vm.v ===== *)
(** * The VM's lifecycle (src/vm.c)

    Creation, the vCPU array, start and stop, the device array, destruction.
    vCPU and device objects live in stores indexed by the pointers that
    [struct vm] holds; destroying an object removes it from its store. *)

From S2P Require Import Prelude HvTypes Host Hypervisor Kvm GuestMem VmMem Devices Machine Vcpu.

Section vm.
Context {E : Env} {O : Type} `{!Device O} (plat : platform) (hs : hv_state) (log_level : Z).
Local Abbreviation vcpus := (gmap positive vcpu).
Local Abbreviation store := (gmap positive O).

Definition new_vm (hv : hv_vm) : vm :=
  mk_vm hv VM_STATE_STOPPED (replicate VM_MAX_SLOTS zero_region) 0 (replicate 8 None) 0
    (replicate 16 None) 0 None None None 5.

Definition vm_create : M (option vm) :=
  hv ← hv_create_vm hs;
  match hv with
  | None => mret None
  | Some hvm =>
      ok ← perform (EvCalloc 1288);
      if negb ok then hv_destroy_vm hs hv;; mret None
      else mret (Some (new_vm hvm))
  end.

(** ** vCPUs *)

Definition get_vcpu (vs : vcpus) (p : option positive) : M vcpu :=
  match p with
  | None => fail_ub NullDeref
  | Some i => deref UseAfterFree (vs !! i)
  end.

Definition live_vcpus (v : vm) : list (option positive) := take (Z.to_nat (num_vcpus v)) (vm_vcpus v).

(** [vcpu_stop] of each vCPU of [l], NULL entries skipped. *)
Fixpoint stop_vcpus (l : list (option positive)) (vs : vcpus) : M vcpus :=
  match l with
  | [] => mret vs
  | None :: l => stop_vcpus l vs
  | Some i :: l =>
      c ← deref UseAfterFree (vs !! i);
      '(_, c) ← vcpu_stop plat hs c;
      stop_vcpus l (<[i := c]> vs)
  end.

(** The start loop: [done] are the vCPUs already started, stopped again when
    one fails. *)
Fixpoint start_vcpus (done l : list (option positive)) (vs : vcpus) : M (Z * vcpus) :=
  match l with
  | [] => mret (0, vs)
  | p :: l =>
      c ← get_vcpu vs p;
      '(ret, c) ← vcpu_start c;
      let vs := match p with Some i => <[i := c]> vs | None => vs end in
      if ret <? 0 then vs ← stop_vcpus done vs; mret (-1, vs)
      else start_vcpus (done ++ [p]) l vs
  end.

Definition vm_start (v : vm) (vs : vcpus) : M (Z * vm * vcpus) :=
  if decide (vm_st v = VM_STATE_RUNNING) then mret (0, v, vs)
  else
    '(ret, vs) ← start_vcpus [] (live_vcpus v) vs;
    if ret <? 0 then mret (-1, v, vs) else mret (0, set_state VM_STATE_RUNNING v, vs).

Definition vm_stop (v : vm) (vs : vcpus) : M (Z * vm * vcpus) :=
  if decide (vm_st v = VM_STATE_STOPPED) then mret (0, v, vs)
  else
    vs ← stop_vcpus (live_vcpus v) vs;
    mret (0, set_state VM_STATE_STOPPED v, vs).

(** Destroy the vCPUs of [l] and drop them from the store. *)
Fixpoint destroy_vcpus (l : list (option positive)) (vs : vcpus) : M vcpus :=
  match l with
  | [] => mret vs
  | None :: l => destroy_vcpus l vs
  | Some i :: l =>
      c ← deref UseAfterFree (vs !! i);
      vcpu_destroy plat hs log_level (Some c);;
      destroy_vcpus l (delete i vs)
  end.

(** The creation loop at index [i], [n] vCPUs to go. *)
Fixpoint create_vcpus (n : nat) (i : Z) (v : vm) (vs : vcpus) : M (Z * vm * vcpus) :=
  match n with
  | 0%nat => mret (0, v, vs)
  | S n =>
      c ← vcpu_create plat hs (vm_hv v) i;
      match c with
      | None =>
          (* vm->vcpus[i] = NULL; destroy and clear the entries below i *)
          vs ← destroy_vcpus (take (Z.to_nat i) (vm_vcpus v)) vs;
          mret (-1, set_vcpus (replicate (Z.to_nat i + 1) None ++ drop (Z.to_nat i + 1) (vm_vcpus v))
                      (num_vcpus v) v, vs)
      | Some c =>
          let k := fresh (dom vs) in
          create_vcpus n (i + 1) (set_vcpus (<[Z.to_nat i := Some k]> (vm_vcpus v)) (num_vcpus v) v)
            (<[k := c]> vs)
      end
  end.

Definition vm_create_vcpus (v : vm) (vs : vcpus) (num : Z) : M (Z * vm * vcpus) :=
  if num >? VM_MAX_VCPUS then mret (-1, v, vs)
  else
    '(ret, v, vs) ← create_vcpus (Z.to_nat num) 0 v vs;
    if ret <? 0 then mret (-1, v, vs) else mret (0, set_vcpus (vm_vcpus v) num v, vs).

Definition vm_pause (v : vm) : Z := 0.

(** ** Devices *)

(** The pointer is stored as it is: [dev->vm] is not set, and a NULL pointer is
    dereferenced by the log line. *)
Definition vm_register_device (v : vm) (st : store) (dev : option positive) : M (Z * vm) :=
  if num_devices v >=? VM_MAX_DEVICES then mret (-1, v)
  else
    let v := set_devices (<[Z.to_nat (num_devices v) := dev]> (vm_devices v)) (num_devices v + 1) v in
    if log_level >=? LOG_LEVEL_INFO then get_obj st dev;; mret (0, v) else mret (0, v).

(** [for (i = 0; i < vm->num_devices; i++) device_unregister(vm->devices[i])]:
    the bound is read again at each turn, after the array may have shrunk. *)
Fixpoint unregister_devices (fuel : nat) (i : nat) (v : vm) (st : store) : M (vm * store) :=
  match fuel with
  | 0%nat => fail_ub OutOfFuel
  | S fuel =>
      if Z.of_nat i <? num_devices v then
        p ← deref OutOfBounds (vm_devices v !! i);
        '(v, st) ← (match p with Some _ => device_unregister v st p | None => mret (v, st) end);
        unregister_devices fuel (S i) v st
      else mret (v, st)
  end.

(** ** Configuration strings: the old one is freed, then the copy is made. *)

Definition dup_arg (path : option string) : M (option string) :=
  match path with Some s => strdup s | None => fail_ub NullDeref end.

Definition set_strings (k i c : option string) (v : vm) : vm :=
  mk_vm (vm_hv v) (vm_st v) (mem_regions v) (mem_size v) (vm_vcpus v) (num_vcpus v)
    (vm_devices v) (num_devices v) k i c (irq_base v).

Definition vm_set_kernel (v : vm) (path : option string) : M (Z * vm) :=
  s ← dup_arg path;
  mret (match s with None => -1 | _ => 0 end, set_strings s (initrd_path v) (vm_cmdline v) v).
Definition vm_set_initrd (v : vm) (path : option string) : M (Z * vm) :=
  s ← dup_arg path;
  mret (match s with None => -1 | _ => 0 end, set_strings (kernel_path v) s (vm_cmdline v) v).
Definition vm_set_cmdline (v : vm) (cmdline : option string) : M (Z * vm) :=
  s ← dup_arg cmdline;
  mret (match s with None => -1 | _ => 0 end, set_strings (kernel_path v) (initrd_path v) s v).

(** ** Destruction *)

Fixpoint free_regions (hv : hv_vm) (l : list vm_mem_region) : M unit :=
  match l with
  | [] => mret tt
  | r :: l =>
      (if rg_used r then hv_unmap_mem hs hv (rg_slot r);; free (rg_hva r) else mret tt);;
      free_regions hv l
  end.

(** What is left: the vCPU and device objects nobody destroyed. *)
Definition vm_destroy (vmp : option vm) (vs : vcpus) (st : store) : M (vcpus * store) :=
  match vmp with
  | None => mret (vs, st)
  | Some v =>
      '(_, v, vs) ← (if decide (vm_st v = VM_STATE_RUNNING) then vm_stop v vs else mret (0, v, vs));
      vs ← destroy_vcpus (live_vcpus v) vs;
      '(v, st) ← unregister_devices 17 0 v st;
      free_regions (vm_hv v) (mem_regions v);;
      hv_destroy_vm hs (Some (vm_hv v));;
      mret (vs, st)
  end.
End vm.

(** Starting and stopping change the state of the VM and nothing else of it. *)
Section only_state.
Context {E : Env} (plat : platform) (hs : hv_state).
Local Abbreviation vcpus := (gmap positive vcpu).

Lemma set_state_same v : v = set_state (vm_st v) v.
Proof. by destruct v. Qed.
Lemma vm_start_state v (vs : vcpus) h r v' vs' h' :
  vm_start plat hs v vs h = Ok (r, v', vs') h' -> exists x, v' = set_state x v.
Proof.
  unfold vm_start. intros H. case_decide; [minv H; simplify_eq; eexists; apply set_state_same|].
  apply bind_inv in H as ([r1 vs1] & h1 & _ & H). destruct (r1 <? 0); minv H; simplify_eq; eexists; [apply set_state_same|done].
Qed.
Lemma vm_stop_state v (vs : vcpus) h r v' vs' h' :
  vm_stop plat hs v vs h = Ok (r, v', vs') h' -> exists x, v' = set_state x v.
Proof.
  unfold vm_stop. intros H. case_decide; [minv H; simplify_eq; eexists; apply set_state_same|].
  apply bind_inv in H as (vs1 & h1 & _ & H). minv H; simplify_eq. by eexists.
Qed.
(** As [vm_destroy] does it. *)
Lemma stop_running_state v (vs : vcpus) h r v' vs' h' :
  (if decide (vm_st v = VM_STATE_RUNNING) then vm_stop plat hs v vs else mret (0, v, vs)) h = Ok (r, v', vs') h' ->
  exists x, v' = set_state x v.
Proof. intros H. case_decide; [by eapply vm_stop_state|]. minv H; simplify_eq. eexists. apply set_state_same. Qed.
End only_state.

(** ** Start and stop *)

Section run_state.
Context {E : Env} {O : Type} `{!Device O} (plat : platform) (hs : hv_state) `{HvExit : !HvExitLaws hs}.
Local Abbreviation vcpus := (gmap positive vcpu).

Definition vcpus_live (l : list (option positive)) (vs : vcpus) : Prop :=
  Forall (fun p => exists i c, p = Some i /\ vs !! i = Some c) l.
Definition in_state (P : vcpu -> Prop) (l : list (option positive)) (vs : vcpus) : Prop :=
  forall i c, Some i ∈ l -> vs !! i = Some c -> P c.
Definition running (c : vcpu) : Prop := vc_state c = VCPU_STATE_RUNNING.
Definition not_running (c : vcpu) : Prop := vc_state c <> VCPU_STATE_RUNNING.
(** The vCPUs outside [l] are the same. *)
Definition same_outside (l : list (option positive)) (vs vs' : vcpus) : Prop :=
  dom vs' = dom vs /\ forall i, Some i ∉ l -> vs' !! i = vs !! i.

Lemma vcpus_live_insert l vs i c : vcpus_live l vs -> vcpus_live l (<[i := c]> vs).
Proof.
  intros Hl. eapply Forall_impl; [exact Hl|]. intros p (j & cj & -> & Hj).
  destruct (decide (i = j)) as [<-|Hne]; [exists i, c; by rewrite lookup_insert_eq|].
  exists j, cj. by rewrite lookup_insert_ne.
Qed.

Lemma in_state_insert (P : vcpu -> Prop) l vs i c :
  Some i ∉ l -> in_state P l vs -> in_state P l (<[i := c]> vs).
Proof.
  intros Hi HP j cj Hj Hlk. rewrite lookup_insert_ne in Hlk; [by eapply HP|]. by intros ->.
Qed.

Lemma same_outside_insert l vs i c c0 :
  vs !! i = Some c0 -> Some i ∈ l -> same_outside l vs (<[i := c]> vs).
Proof.
  intros Hi Hin. split.
  - rewrite dom_insert_L. apply elem_of_dom_2 in Hi. apply leibniz_equiv.
    rewrite subseteq_union_1; [done|]. by apply singleton_subseteq_l.
  - intros j Hj. apply lookup_insert_ne. by intros ->.
Qed.

Lemma same_outside_trans l1 l vs1 vs2 vs3 :
  l1 ⊆ l -> same_outside l vs1 vs2 -> same_outside l1 vs2 vs3 -> same_outside l vs1 vs3.
Proof.
  intros Hsub [D1 S1] [D2 S2]. split; [congruence|]. intros j Hj. rewrite S2, S1; auto.
Qed.

Lemma vcpu_stop_run c h :
  exists c' h', vcpu_stop plat hs c h = Ok (0, c') h' /\ not_running c' /\ vc_hv c' = vc_hv c /\ heap h' = heap h.
Proof using Type HvExit.
  unfold vcpu_stop, not_running. destruct (decide (vc_state c = VCPU_STATE_RUNNING)) as [Hr|Hr].
  - rewrite bool_decide_eq_true_2 by done. cbn [negb].
    destruct plat, (vc_hv (set_should_stop 1 c)) as [hv|]; try (eexists _, _; split; [reflexivity|done]).
    destruct (hvl_exit hv h) as (r & h1 & Hx & Hh1). rewrite bind_assoc, (bind_Ok _ _ _ _ _ Hx).
    eexists _, _; split; [reflexivity|]. by rewrite <- Hh1.
  - rewrite bool_decide_eq_false_2 by done. by eexists _, _.
Qed.

Lemma stop_vcpus_run l vs h :
  vcpus_live l vs ->
  exists vs' h', stop_vcpus plat hs l vs h = Ok vs' h' /\ in_state not_running l vs' /\ same_outside l vs vs' /\
    vc_hv <$> vs' = vc_hv <$> vs /\ heap h' = heap h.
Proof using Type HvExit.
  revert vs h. induction l as [|p l IH]; intros vs h Hl; cbn [stop_vcpus].
  - exists vs, h. split_and!; [done|by intros ? ? ?%elem_of_nil|by split|done|done].
  - apply Forall_cons in Hl as [(i & c & -> & Hi) Hl]. rewrite Hi. simpl deref. rewrite bind_ret.
    destruct (vcpu_stop_run c h) as (c' & h1 & Hs & Hn & Hhv & Hh1). rewrite (bind_Ok _ _ _ _ _ Hs). cbv beta iota.
    destruct (IH _ h1 (vcpus_live_insert _ _ i c' Hl)) as (vs' & h' & Hr & Hst & Hso & Hk & Hh).
    exists vs', h'. split; [done|]. split_and!.
    + intros j cj Hj Hlk. destruct (decide (Some j ∈ l)) as [Hin|Hnin]; [eauto|].
      apply elem_of_cons in Hj as [[= ->]|?]; [|done].
      rewrite (proj2 Hso), lookup_insert_eq in Hlk by done. by injection Hlk as <-.
    + eapply same_outside_trans; [|by eapply same_outside_insert; [|apply list_elem_of_here]|exact Hso].
      intros x Hx. by apply list_elem_of_further.
    + rewrite Hk, fmap_insert. apply insert_id. by rewrite lookup_fmap, Hi, Hhv.
    + congruence.
Qed.

Lemma start_vcpus_run dn l vs h :
  vcpus_live (dn ++ l) vs -> NoDup (dn ++ l) ->
  in_state running dn vs -> in_state not_running l vs ->
  exists ret vs' h', start_vcpus plat hs dn l vs h = Ok (ret, vs') h' /\ same_outside (dn ++ l) vs vs' /\
    (ret = 0 /\ in_state running (dn ++ l) vs' \/ ret = -1 /\ in_state not_running (dn ++ l) vs').
Proof using Type HvExit.
  revert dn vs h. induction l as [|p l IH]; intros dn vs h Hl Hnd Hdn Hn; cbn [start_vcpus].
  { exists 0, vs, h. rewrite app_nil_r in *. split_and!; [done|by split|by left]. }
  pose proof Hl as Hl0. apply Forall_app in Hl as [Hld Hl]. apply Forall_cons in Hl as [(i & c & -> & Hi) Hl].
  unfold get_vcpu. rewrite Hi. simpl deref. rewrite bind_ret.
  assert (vc_state c <> VCPU_STATE_RUNNING) as Hc by (apply (Hn i c); [by apply list_elem_of_here|done]).
  unfold vcpu_start. rewrite decide_False by done. rewrite bind_assoc. mrun.
  apply NoDup_app in Hnd as (Hndd & Hdisj & Hndl). apply NoDup_cons in Hndl as [Hil Hndl].
  assert (Some i ∉ dn) as Hid by (intros ?; by eapply Hdisj; [|apply list_elem_of_here]).
  assert (Some i ∈ dn ++ Some i :: l) as Hin0 by (apply elem_of_app; right; apply list_elem_of_here).
  pose proof (fun c' => same_outside_insert _ vs i c' c Hi Hin0) as Hsame.
  destruct (negb _) eqn:Hret; cbv beta iota zeta; rewrite bind_ret; cbv beta iota zeta.
  - change (-1 <? 0) with true. cbv iota. set (c' := set_should_stop 0 c).
    destruct (stop_vcpus_run dn (<[i := c']> vs) (called (EvPthreadCreate (vc_index c')) h)
      (vcpus_live_insert _ _ _ _ Hld)) as (vs' & h' & Hr & Hst & Hso & _).
    rewrite (bind_Ok _ _ _ _ _ Hr). exists (-1), vs', h'. split; [done|]. split.
    { eapply same_outside_trans; [|apply Hsame|exact Hso]. intros x Hx. apply elem_of_app. by left. }
    right. split; [done|]. intros j cj Hj Hlk.
    destruct (decide (Some j ∈ dn)) as [Hin|Hnin]; [by eapply Hst|].
    rewrite (proj2 Hso) in Hlk by done. apply elem_of_app in Hj as [?|Hj]; [done|].
    destruct (decide (i = j)) as [<-|Hne].
    + rewrite lookup_insert_eq in Hlk. by injection Hlk as <-.
    + rewrite lookup_insert_ne in Hlk by done. by eapply Hn.
  - change (0 <? 0) with false. cbv iota. set (c' := set_vc_state VCPU_STATE_RUNNING (set_should_stop 0 c)).
    destruct (IH (dn ++ [Some i]) (<[i := c']> vs) (called (EvPthreadCreate (vc_index (set_should_stop 0 c))) h))
      as (ret & vs' & h' & Hr & Hso & Hcase); rewrite <- ?app_assoc; simpl app; auto using vcpus_live_insert.
    + apply NoDup_app. split_and!; [done| |by apply NoDup_cons]. intros x Hx Hx2. by eapply Hdisj.
    + intros j cj Hj Hlk. apply elem_of_app in Hj as [Hj|Hj%list_elem_of_singleton].
      * eapply (in_state_insert running dn); eauto.
      * injection Hj as ->. rewrite lookup_insert_eq in Hlk. by injection Hlk as <-.
    + apply in_state_insert; [done|]. intros j cj Hj. apply Hn. by apply list_elem_of_further.
    + rewrite <- app_assoc in Hso, Hcase. simpl app in Hso, Hcase. exists ret, vs', h'. split; [done|].
      split; [|done]. by eapply same_outside_trans; [|apply Hsame|exact Hso].
Qed.

Lemma vm_start_stop_run v (vs : vcpus) h :
  vcpus_live (live_vcpus v) vs -> NoDup (live_vcpus v) ->
  (vm_st v <> VM_STATE_RUNNING -> in_state not_running (live_vcpus v) vs ->
   exists ret v' vs' h', vm_start plat hs v vs h = Ok (ret, v', vs') h' /\ same_outside (live_vcpus v) vs vs' /\
     (ret = 0 /\ v' = set_state VM_STATE_RUNNING v /\ in_state running (live_vcpus v) vs' \/
      ret = -1 /\ v' = v /\ in_state not_running (live_vcpus v) vs')) /\
  (vm_st v <> VM_STATE_STOPPED ->
   exists vs' h', vm_stop plat hs v vs h = Ok (0, set_state VM_STATE_STOPPED v, vs') h' /\
     same_outside (live_vcpus v) vs vs' /\ in_state not_running (live_vcpus v) vs').
Proof using Type HvExit.
  intros Hl Hnd. split.
  - intros Hst Hn. unfold vm_start. rewrite decide_False by done.
    destruct (start_vcpus_run [] (live_vcpus v) vs h Hl Hnd) as (ret & vs' & h' & Hr & Hso & Hcase);
      [by intros ? ? ?%elem_of_nil|done|].
    rewrite (bind_Ok _ _ _ _ _ Hr). cbv beta iota.
    destruct Hcase as [[-> Hrun]|[-> Hrun]]; eexists _, _, vs', h'; (split; [reflexivity|]); auto.
  - intros Hst. unfold vm_stop. rewrite decide_False by done.
    destruct (stop_vcpus_run (live_vcpus v) vs h Hl) as (vs' & h' & Hr & Hns & Hso & _).
    rewrite (bind_Ok _ _ _ _ _ Hr). by exists vs', h'.
Qed.

(** Starting is all or nothing, and stopping stops everything.  With live,
    distinct, idle vCPUs, [vm_start] always returns: either 0 with the VM and
    every vCPU running, or -1 with the VM's state as it was and no vCPU running,
    those already started having been stopped again.  From any state but stopped,
    [vm_stop] leaves the VM stopped and no vCPU running.  Neither touches a vCPU
    of another VM. *)
Theorem vm_start_stop v (vs : vcpus) h :
  vcpus_live (live_vcpus v) vs -> NoDup (live_vcpus v) ->
  (vm_st v <> VM_STATE_RUNNING -> in_state not_running (live_vcpus v) vs ->
   exists ret v' vs' h', vm_start plat hs v vs h = Ok (ret, v', vs') h' /\ same_outside (live_vcpus v) vs vs' /\
     (ret = 0 /\ v' = set_state VM_STATE_RUNNING v /\ in_state running (live_vcpus v) vs' \/
      ret = -1 /\ v' = v /\ in_state not_running (live_vcpus v) vs')) /\
  (vm_st v <> VM_STATE_STOPPED ->
   exists vs' h', vm_stop plat hs v vs h = Ok (0, set_state VM_STATE_STOPPED v, vs') h' /\
     same_outside (live_vcpus v) vs vs' /\ in_state not_running (live_vcpus v) vs').
Proof using Type HvExit. intros. by apply vm_start_stop_run. Qed.
End run_state.

(** ** Destruction *)

Section destroy_props.
Context {E : Env} {O : Type} `{!Device O} (plat : platform) (hs : hv_state) (log_level : Z).
Local Abbreviation vcpus := (gmap positive vcpu).
Local Abbreviation store := (gmap positive O).

(** The blocks behind the used regions. *)
Definition region_block (r : vm_mem_region) : option positive :=
  if rg_used r then match rg_hva r with Ptr b _ => Some b | Null => None end else None.
Definition region_blocks (l : list vm_mem_region) : list positive := omap region_block l.

Definition without (bs : list positive) (m : gmap positive (list byte)) : gmap positive (list byte) :=
  foldl (fun m b => delete b m) m bs.

Lemma without_lookup bs m b :
  (b ∈ bs -> without bs m !! b = None) /\ (b ∉ bs -> without bs m !! b = m !! b).
Proof.
  revert m. induction bs as [|b0 bs IH]; intros m; simpl.
  - split; [by intros ?%elem_of_nil|done].
  - destruct (IH (delete b0 m)) as [IH1 IH2]. split.
    + intros [->|Hin]%elem_of_cons; [|auto]. destruct (decide (b0 ∈ bs)); [auto|].
      rewrite IH2 by done. apply lookup_delete_eq.
    + intros [Hne Hn]%not_elem_of_cons. rewrite IH2 by done. by apply lookup_delete_ne.
Qed.

(** The blocks a region table owns: live, and each in one region. *)
Definition owns_blocks (l : list vm_mem_region) (m : gmap positive (list byte)) : Prop :=
  Forall (fun r => rg_used r = true -> exists b d, rg_hva r = Ptr b 0 /\ m !! b = Some d) l /\
  NoDup (region_blocks l).

Lemma owns_blocks_tail r l b m :
  rg_used r = true -> rg_hva r = Ptr b 0 -> owns_blocks (r :: l) m -> owns_blocks l (delete b m).
Proof.
  intros Hu Hb [Hl Hnd]. apply Forall_cons in Hl as [_ Hl].
  assert (region_blocks (r :: l) = b :: region_blocks l) as Heq
    by (unfold region_blocks; simpl; unfold region_block at 1; by rewrite Hu, Hb).
  rewrite Heq in Hnd. apply NoDup_cons in Hnd as [Hbn Hnd]. split; [|done].
  rewrite Forall_forall in Hl |- *. intros r' Hin Hu'. destruct (Hl r' Hin Hu') as (b' & d' & Hb' & Hd').
  exists b', d'. split; [done|]. rewrite lookup_delete_ne; [done|]. intros ->.
  apply Hbn, list_elem_of_omap. exists r'. split; [done|]. unfold region_block. by rewrite Hu', Hb'.
Qed.

Lemma free_regions_run `{!HvMapLaws hs} hv l h :
  owns_blocks l (heap h) ->
  exists h', free_regions hs hv l h = Ok tt h' /\ heap h' = without (region_blocks l) (heap h).
Proof.
  revert h. induction l as [|r l IH]; intros h Ho; cbn [free_regions]; [by exists h|].
  destruct (rg_used r) eqn:Hu.
  - destruct (proj1 (Forall_cons _ _ _) (proj1 Ho)) as [Hr _]. destruct (Hr Hu) as (b & d & Hb & Hd).
    destruct (hvl_unmap hv (rg_slot r) h) as (ret & h1 & Hun & _ & Hh1).
    rewrite bind_assoc, (bind_Ok _ _ _ _ _ Hun), Hb.
    erewrite bind_Ok by (eapply free_ok; rewrite Hh1; exact Hd).
    destruct (IH (set_heap (delete b) h1)) as (h' & Hf & Hh').
    { simpl. rewrite Hh1. by eapply owns_blocks_tail. }
    exists h'. split; [done|]. rewrite Hh'. simpl. rewrite Hh1.
    unfold region_blocks. simpl. unfold region_block at 2. by rewrite Hu, Hb.
  - rewrite bind_ret. destruct (IH h) as (h' & Hf & Hh').
    { destruct Ho as [Hl Hnd]. apply Forall_cons in Hl as [_ Hl]. split; [done|].
      unfold region_blocks in *. simpl in Hnd. unfold region_block in Hnd at 1. by rewrite Hu in Hnd. }
    exists h'. split; [done|]. rewrite Hh'. unfold region_blocks. simpl.
    unfold region_block at 2. by rewrite Hu.
Qed.

(** A handle the backend can dispose of. *)
Definition disposable (c : vcpu) : Prop :=
  forall h, exists h', hv_destroy_vcpu hs (vc_hv c) h = Ok tt h' /\ heap h' = heap h.

Lemma destroy_vcpus_run l vs h :
  log_level < LOG_LEVEL_INFO -> vcpus_live l vs -> NoDup l -> in_state not_running l vs -> in_state disposable l vs ->
  exists vs' h', destroy_vcpus plat hs log_level l vs h = Ok vs' h' /\ heap h' = heap h /\
    (forall i, Some i ∈ l -> vs' !! i = None) /\ (forall i, Some i ∉ l -> vs' !! i = vs !! i).
Proof.
  intros Hlog. revert vs h. induction l as [|p l IH]; intros vs h Hl Hnd Hn Hd; cbn [destroy_vcpus].
  { exists vs, h. split_and!; try done. by intros ? ?%elem_of_nil. }
  apply Forall_cons in Hl as [(i & c & -> & Hi) Hl]. apply NoDup_cons in Hnd as [Hil Hnd].
  rewrite Hi. simpl deref. rewrite bind_ret.
  assert (vc_state c <> VCPU_STATE_RUNNING) as Hc by (apply (Hn i c); [by apply list_elem_of_here|done]).
  destruct (Hd i c ltac:(by apply list_elem_of_here) Hi h) as (h1 & Hdes & Hh1).
  unfold vcpu_destroy. rewrite decide_False by done. rewrite bind_assoc, bind_ret.
  rewrite bind_assoc, (bind_Ok _ _ _ _ _ Hdes). cbv beta iota.
  replace (log_level >=? LOG_LEVEL_INFO) with false by (symmetry; rewrite Z.geb_leb; apply Z.leb_gt; lia).
  rewrite bind_ret.
  assert (forall (P : vcpu -> Prop), in_state P (Some i :: l) vs -> in_state P l (delete i vs)) as Htail.
  { intros P HP j cj Hj Hlk. apply lookup_delete_Some in Hlk as [_ Hlk]. eapply HP; [|done].
    by apply list_elem_of_further. }
  destruct (IH (delete i vs) h1) as (vs' & h' & Hr & Hh & Hgone & Hkeep); auto.
  { unfold vcpus_live in *. rewrite Forall_forall in Hl |- *. intros p Hp. destruct (Hl p Hp) as (j & cj & -> & Hj).
    exists j, cj. rewrite lookup_delete_ne; [done|]. by intros ->. }
  exists vs', h'. split; [done|]. split; [congruence|]. split.
  - intros j [[= ->]|Hj]%elem_of_cons; [|auto]. rewrite Hkeep by done. apply lookup_delete_eq.
  - intros j [Hne Hj]%not_elem_of_cons. rewrite Hkeep by done. apply lookup_delete_ne. congruence.
Qed.

(** Devices whose [vm] pointer was never set are left alone. *)
Lemma unregister_devices_skip fuel i v (st : store) h :
  length (vm_devices v) = 16%nat -> num_devices v <= VM_MAX_DEVICES -> (17 <= fuel + i)%nat ->
  (forall k o, Some k ∈ live_devices v -> st !! k = Some o -> dev_vm (dbase o) = false) ->
  (forall k, Some k ∈ live_devices v -> is_Some (st !! k)) ->
  (0 < fuel)%nat -> unregister_devices fuel i v st h = Ok (v, st) h.
Proof.
  unfold VM_MAX_DEVICES. intros Hlen Hnum. revert i. induction fuel as [|fuel IH]; intros i Hf Hvm Hlive H0; [lia|].
  cbn [unregister_devices]. destruct (Z.of_nat i <? num_devices v) eqn:Hi; bool_prop; [|done].
  destruct (lookup_lt_is_Some_2 (vm_devices v) i ltac:(lia)) as [p Hp]. rewrite Hp. simpl deref. rewrite bind_ret.
  assert ((match p with Some _ => device_unregister v st p | None => mret (v, st) end) h = Ok (v, st) h) as Hstep.
  { destruct p as [k|]; [|done]. assert (Some k ∈ live_devices v) as Hk.
    { apply list_elem_of_lookup_2 with i. unfold live_devices. rewrite lookup_take_lt; [done|lia]. }
    unfold device_unregister, get_obj. destruct (Hlive k Hk) as [o Ho]. rewrite Ho. simpl deref. rewrite bind_ret.
    by rewrite (Hvm k o Hk Ho). }
  rewrite (bind_Ok _ _ _ _ _ Hstep). cbv beta iota. apply IH; auto; lia.
Qed.

(** Devices registered the way [vm_register_device] leaves them. *)
Definition devices_unowned (v : vm) (st : store) : Prop :=
  forall k, Some k ∈ live_devices v -> exists o, st !! k = Some o /\ dev_vm (dbase o) = false.

Lemma vm_destroy_run `{!HvMapLaws hs, !HvExitLaws hs, !HvDestroyLaws hs} v (vs : vcpus) (st : store) h :
  log_level < LOG_LEVEL_INFO ->
  vcpus_live (live_vcpus v) vs -> NoDup (live_vcpus v) -> in_state disposable (live_vcpus v) vs ->
  (vm_st v <> VM_STATE_RUNNING -> in_state not_running (live_vcpus v) vs) ->
  devices_unowned v st -> length (vm_devices v) = 16%nat -> num_devices v <= VM_MAX_DEVICES ->
  owns_blocks (mem_regions v) (heap h) ->
  exists vs' h', vm_destroy plat hs log_level (Some v) vs st h = Ok (vs', st) h' /\
    (forall i, Some i ∈ live_vcpus v -> vs' !! i = None) /\
    (forall i, Some i ∉ live_vcpus v -> vs' !! i = vs !! i) /\
    heap h' = without (region_blocks (mem_regions v)) (heap h).
Proof.
  intros Hlog Hl Hnd Hdis Hidle Hdev Hlen Hnum Hown. unfold vm_destroy.
  assert (exists v1 vs1 h1, (if decide (vm_st v = VM_STATE_RUNNING) then vm_stop plat hs v vs else mret (0, v, vs)) h
      = Ok (0, v1, vs1) h1 /\ heap h1 = heap h /\ (v1 = v \/ v1 = set_state VM_STATE_STOPPED v) /\
      in_state not_running (live_vcpus v) vs1 /\ same_outside (live_vcpus v) vs vs1 /\ vc_hv <$> vs1 = vc_hv <$> vs)
    as (v1 & vs1 & h1 & Hrun & Hh1 & Hv1 & Hnr & [Hdom Hout] & Hk).
  { destruct (decide _) as [Hr|Hr]; [|exists v, vs, h; split_and!; auto; by split].
    unfold vm_stop. rewrite decide_False by congruence.
    destruct (stop_vcpus_run plat hs (live_vcpus v) vs h Hl) as (vs1 & h1 & Hs & Hn & Hso & Hk & Hh).
    rewrite (bind_Ok _ _ _ _ _ Hs). exists (set_state VM_STATE_STOPPED v), vs1, h1. split_and!; auto. }
  rewrite (bind_Ok _ _ _ _ _ Hrun). cbv beta iota.
  assert (live_vcpus v1 = live_vcpus v /\ live_devices v1 = live_devices v /\ mem_regions v1 = mem_regions v /\
          vm_devices v1 = vm_devices v /\ num_devices v1 = num_devices v) as (El & Ed & Em & Evd & En)
    by (destruct Hv1 as [-> | ->]; done). rewrite El.
  destruct (destroy_vcpus_run (live_vcpus v) vs1 h1 Hlog) as (vs2 & h2 & Hdes & Hh2 & Hgone & Hkeep); auto.
  { eapply Forall_impl; [exact Hl|]. intros p (j & cj & -> & Hj). apply elem_of_dom_2 in Hj.
    rewrite <- Hdom in Hj. apply elem_of_dom in Hj as [c' Hc']. by exists j, c'. }
  { intros j c' Hj Hc'. apply (f_equal (lookup j)) in Hk. rewrite !lookup_fmap, Hc' in Hk.
    destruct (vs !! j) as [c|] eqn:Hc; [|done]. injection Hk as Hk. unfold disposable. rewrite Hk. by apply (Hdis j). }
  rewrite (bind_Ok _ _ _ _ _ Hdes).
  rewrite (bind_Ok _ _ _ _ _ (unregister_devices_skip 17 0 v1 st h2 ltac:(congruence) ltac:(congruence) ltac:(lia)
    ltac:(rewrite Ed; intros k o Hin Ho; destruct (Hdev k Hin) as (o' & Ho' & Hvm); congruence)
    ltac:(rewrite Ed; intros k Hin; destruct (Hdev k Hin) as (o' & Ho' & _); eauto) ltac:(lia))).
  cbv beta iota. rewrite Em.
  destruct (free_regions_run (vm_hv v1) (mem_regions v) h2) as (h3 & Hf & Hh3); [by rewrite Hh2, Hh1|].
  rewrite (bind_Ok _ _ _ _ _ Hf). destruct (hvl_destroy (Some (vm_hv v1)) h3) as (h4 & Hd4 & Hh4).
  rewrite (bind_Ok _ _ _ _ _ Hd4). exists vs2, h4. split_and!; auto.
  - intros i Hi. rewrite Hkeep by done. by apply Hout.
  - by rewrite Hh4, Hh3, Hh2, Hh1.
Qed.

(** [C30] Destruction gives the memory and the vCPUs back, and loses the devices.
    With the log level below INFO, and a VM whose vCPUs are live and whose
    regions own their blocks, [vm_destroy] always returns: every vCPU is gone
    from the store, exactly the blocks of the used regions are gone from the
    heap, and every device registered through [vm_register_device], which never
    set the device's [vm] pointer, is still allocated. *)
Theorem vm_destroy_spec `{!HvMapLaws hs, !HvExitLaws hs, !HvDestroyLaws hs} v (vs : vcpus) (st : store) h :
  log_level < LOG_LEVEL_INFO ->
  vcpus_live (live_vcpus v) vs -> NoDup (live_vcpus v) -> in_state disposable (live_vcpus v) vs ->
  (vm_st v <> VM_STATE_RUNNING -> in_state not_running (live_vcpus v) vs) ->
  devices_unowned v st -> length (vm_devices v) = 16%nat -> num_devices v <= VM_MAX_DEVICES ->
  owns_blocks (mem_regions v) (heap h) ->
  exists vs' h', vm_destroy plat hs log_level (Some v) vs st h = Ok (vs', st) h' /\
    (forall i, Some i ∈ live_vcpus v -> vs' !! i = None) /\
    (forall i, Some i ∉ live_vcpus v -> vs' !! i = vs !! i) /\
    heap h' = without (region_blocks (mem_regions v)) (heap h).
Proof. intros. by apply vm_destroy_run. Qed.

(** Destroying a vCPU with INFO logging on, the program's default, reads
    the structure it has just freed: whenever the backend disposes of the
    handle, [vcpu_destroy] is a use after free. *)
Theorem vcpu_destroy_log_use_after_free c h :
  LOG_LEVEL_INFO <= log_level -> not_running c -> disposable c ->
  vcpu_destroy plat hs log_level (Some c) h = Ub UseAfterFree.
Proof.
  intros Hlog Hn Hd. unfold vcpu_destroy. rewrite decide_False by exact Hn. rewrite bind_ret.
  destruct (Hd h) as (h1 & Hdes & _). rewrite (bind_Ok _ _ _ _ _ Hdes).
  by replace (log_level >=? LOG_LEVEL_INFO) with true by (symmetry; rewrite Z.geb_le; lia).
Qed.
End destroy_props.

(** ** Building the VM *)

Section build_props.
Context {E : Env} {O : Type} `{!Device O} (plat : platform) (hs : hv_state) (log_level : Z).
Local Abbreviation vcpus := (gmap positive vcpu).
Local Abbreviation store := (gmap positive O).

(** What creating a vCPU may do: fail, or hand out a handle that can be
    disposed of; the VMM's memory is left alone. *)
Definition creates_vcpus (hvm : hv_vm) : Prop :=
  forall i h, exists r h', hv_create_vcpu hs hvm i h = Ok r h' /\ heap h' = heap h /\
    match r with
    | None => True
    | Some hv => forall h, exists h', hv_destroy_vcpu hs (Some hv) h = Ok tt h' /\ heap h' = heap h
    end.

(** Nothing to dispose of: the ARM64 vCPU before its thread runs. *)
Definition disposes_null : Prop :=
  forall h, exists h', hv_destroy_vcpu hs None h = Ok tt h' /\ heap h' = heap h.

(** The vCPU array after [length ks] creations over the store [vs0]. *)
Record created (vs0 : vcpus) (ks : list positive) (l : list (option positive)) (vs : vcpus) : Prop := {
  cr_array : l = (Some <$> ks) ++ replicate (8 - length ks) None;
  cr_length : (length ks <= 8)%nat;
  cr_nodup : NoDup ks;
  cr_new : forall n k, ks !! n = Some k -> vs0 !! k = None /\
    exists c, vs !! k = Some c /\ not_running c /\ disposable hs c /\ vc_index c = Z.of_nat n;
  cr_old : forall k, k ∉ ks -> vs !! k = vs0 !! k
}.

Lemma vcpu_create_run hvm i h :
  creates_vcpus hvm -> disposes_null ->
  exists r h', vcpu_create plat hs hvm i h = Ok r h' /\ heap h' = heap h /\
    match r with None => True | Some c => not_running c /\ disposable hs c /\ vc_index c = i end.
Proof.
  intros Hcr Hnull. unfold vcpu_create. mrun. destruct (env_answer _ _); cbn [negb].
  2:{ by eexists _, _. }
  assert (forall hv, not_running (mk_vcpu hv true i VCPU_STATE_STOPPED 0 0 0 zero_stats)) as Hn by done.
  destruct plat.
  1,2: destruct (Hcr i (called (EvCalloc 144) h)) as (r & h' & Hr & Hh & Hd); rewrite (bind_Ok _ _ _ _ _ Hr);
    destruct r as [hv|]; eexists _, h'; (split; [reflexivity|]); auto.
  eexists _, _. split; [reflexivity|]. auto.
Qed.

Lemma created_fail vs0 ks l vs h :
  log_level < LOG_LEVEL_INFO -> created vs0 ks l vs ->
  exists h', destroy_vcpus plat hs log_level (take (length ks) l) vs h = Ok vs0 h'.
Proof.
  intros Hlog [-> Hlen Hnd Hnew Hold].
  rewrite take_app_le by (rewrite length_fmap; lia). rewrite take_ge by (rewrite length_fmap; lia).
  assert (forall i, Some i ∈ Some <$> ks -> exists n, ks !! n = Some i) as Hin.
  { intros i (k & [= ->] & Hk)%list_elem_of_fmap. by apply list_elem_of_lookup_1. }
  destruct (destroy_vcpus_run plat hs log_level (Some <$> ks) vs h Hlog) as (vs' & h' & Hr & _ & Hgone & Hkeep).
  - apply Forall_forall. intros p (k & -> & Hk)%list_elem_of_fmap. apply list_elem_of_lookup_1 in Hk as [n Hn].
    destruct (Hnew n k Hn) as (_ & c & Hc & _). by exists k, c.
  - by apply (NoDup_fmap_2 Some).
  - intros i c Hi Hc. destruct (Hin i Hi) as [n Hn]. destruct (Hnew n i Hn) as (_ & c' & Hc' & ? & _). by simplify_eq.
  - intros i c Hi Hc. destruct (Hin i Hi) as [n Hn]. destruct (Hnew n i Hn) as (_ & c' & Hc' & _ & ? & _). by simplify_eq.
  - exists h'. rewrite Hr. f_equal. apply map_eq. intros i. destruct (decide (i ∈ ks)) as [Hi|Hi].
    + rewrite Hgone by (apply list_elem_of_fmap; eauto). apply list_elem_of_lookup_1 in Hi as [n Hn].
      symmetry. by apply (Hnew n i Hn).
    + rewrite Hkeep; [by apply Hold|]. intros (k & [= ->] & Hk)%list_elem_of_fmap. done.
Qed.

Lemma created_step vs0 ks l vs c :
  (length ks < 8)%nat -> created vs0 ks l vs -> not_running c -> disposable hs c ->
  vc_index c = Z.of_nat (length ks) ->
  let k := fresh (dom vs) in
  created vs0 (ks ++ [k]) (<[length ks := Some k]> l) (<[k := c]> vs).
Proof.
  intros Hlt [-> Hlen Hnd Hnew Hold] Hn Hd Hi k.
  assert (vs !! k = None) as Hk by (apply not_elem_of_dom, is_fresh).
  assert (k ∉ ks) as Hkn.
  { intros Hin. apply list_elem_of_lookup_1 in Hin as [n Hn']. destruct (Hnew n k Hn') as (_ & c' & Hc' & _). congruence. }
  split.
  - rewrite length_app. simpl. rewrite <- (length_fmap Some ks) at 1.
    rewrite insert_app_r_alt by lia. rewrite Nat.sub_diag.
    replace (8 - length ks)%nat with (S (8 - (length ks + 1))) by lia. simpl. by rewrite fmap_app, <- app_assoc.
  - rewrite length_app. simpl. lia.
  - apply NoDup_app. split_and!; [done| |apply NoDup_singleton]. intros x Hx ->%list_elem_of_singleton. done.
  - intros n k' Hk'. apply lookup_app_Some in Hk' as [Hk'|[Hge Hk']].
    + destruct (Hnew n k' Hk') as (H0 & c' & Hc' & H1). split; [done|]. exists c'.
      rewrite lookup_insert_ne; [done|]. intros <-. apply Hkn. by eapply list_elem_of_lookup_2.
    + apply list_lookup_singleton_Some in Hk' as [Hn0 <-]. split; [by rewrite <- Hold|].
      exists c. rewrite lookup_insert_eq. split_and!; auto. rewrite Hi. f_equal. lia.
  - intros k' Hk'. apply not_elem_of_app in Hk' as [Hk1 Hk2].
    rewrite lookup_insert_ne; [by apply Hold|]. intros <-. by apply Hk2, list_elem_of_singleton.
Qed.

Lemma create_vcpus_run vs0 n ks v vs h :
  log_level < LOG_LEVEL_INFO -> creates_vcpus (vm_hv v) -> disposes_null ->
  created vs0 ks (vm_vcpus v) vs -> (length ks + n <= 8)%nat ->
  exists ret v' vs' h', create_vcpus plat hs log_level n (Z.of_nat (length ks)) v vs h = Ok (ret, v', vs') h' /\
    v' = set_vcpus (vm_vcpus v') (num_vcpus v) v /\
    (ret = 0 /\ (exists ks', length ks' = (length ks + n)%nat /\ created vs0 ks' (vm_vcpus v') vs') \/
     ret = -1 /\ vs' = vs0 /\ vm_vcpus v' = replicate 8 None).
Proof.
  intros Hlog Hcr Hnull. revert ks v vs h Hcr. induction n as [|n IH]; intros ks v vs h Hcr Hc Hle; cbn [create_vcpus].
  { exists 0, v, vs, h. split; [done|]. split; [by destruct v|]. left. split; [done|]. exists ks. split; [lia|done]. }
  destruct (vcpu_create_run (vm_hv v) (Z.of_nat (length ks)) h Hcr Hnull) as (r & h1 & Hr & _ & Hd).
  rewrite (bind_Ok _ _ _ _ _ Hr). destruct r as [c|].
  - destruct Hd as (Hn & Hdi & Hi). rewrite Nat2Z.id.
    pose proof (created_step vs0 ks _ vs c ltac:(lia) Hc Hn Hdi Hi) as Hc'. cbv zeta in Hc'.
    set (k := fresh (dom vs)) in *.
    destruct (IH (ks ++ [k]) (set_vcpus (<[length ks := Some k]> (vm_vcpus v)) (num_vcpus v) v) _ h1 Hcr Hc')
      as (ret & v' & vs' & h' & Hrun & Hv' & Hcase); [rewrite length_app; simpl; lia|].
    rewrite length_app in Hrun. simpl in Hrun. rewrite Nat2Z.inj_add in Hrun.
    exists ret, v', vs', h'. split; [exact Hrun|]. split; [by rewrite Hv' at 1|].
    rewrite length_app in Hcase. simpl in Hcase.
    destruct Hcase as [(-> & ks' & Hl & Hc2)|?]; [|by right]. left. split; [done|]. exists ks'. split; [lia|done].
  - rewrite Nat2Z.id. destruct (created_fail vs0 ks _ vs h1 Hlog Hc) as (h2 & Hdes). rewrite (bind_Ok _ _ _ _ _ Hdes).
    eexists _, _, _, h2. split; [reflexivity|]. split; [done|]. right. split; [done|]. split; [done|]. simpl.
    rewrite (cr_array _ _ _ _ Hc). replace (Z.to_nat (Z.of_nat (length ks) + 1)) with (S (length ks)) by lia.
    rewrite drop_app_ge by (rewrite length_fmap; lia). rewrite length_fmap, drop_replicate, <- replicate_add.
    change [None; None; None; None; None; None; None; None] with (replicate 8 (@None positive)). f_equal. lia.
Qed.

(** [C29] Creating the vCPUs is all or nothing.  For a VM without vCPUs, a count
    of at most 8, and logging below INFO, [vm_create_vcpus] always returns:
    either 0 with exactly that many live, distinct, idle vCPUs in the array,
    indexed by their position, or -1 with the VM and the vCPU store exactly as
    they were; a count above 8 is refused with -1 and changes nothing. *)
Theorem vm_create_vcpus_spec v (vs : vcpus) num h :
  log_level < LOG_LEVEL_INFO -> creates_vcpus (vm_hv v) -> disposes_null ->
  vm_vcpus v = replicate 8 None -> num_vcpus v = 0 -> 0 <= num ->
  exists ret v' vs' h', vm_create_vcpus plat hs log_level v vs num h = Ok (ret, v', vs') h' /\
    (ret = 0 /\ num <= 8 /\ num_vcpus v' = num /\
       (exists ks, length ks = Z.to_nat num /\ created vs ks (vm_vcpus v') vs' /\ live_vcpus v' = Some <$> ks) \/
     ret = -1 /\ v' = v /\ vs' = vs).
Proof.
  intros Hlog Hcr Hnull Harr Hnum Hpos. unfold vm_create_vcpus, VM_MAX_VCPUS.
  destruct (num >? 8) eqn:Hmax; bool_prop; [by eexists _, _, _, _; split; [reflexivity|]; right|].
  assert (created vs [] (vm_vcpus v) vs) as Hc0.
  { split; simpl; [done|lia|apply NoDup_nil_2|by intros [|n] k|done]. }
  destruct (create_vcpus_run vs (Z.to_nat num) [] v vs h Hlog Hcr Hnull Hc0) as (ret & v' & vs' & h' & Hrun & Hv' & Hcase);
    [simpl; lia|].
  change (Z.of_nat (length [])) with 0 in Hrun. rewrite (bind_Ok _ _ _ _ _ Hrun). cbv beta iota.
  destruct Hcase as [(-> & ks & Hl & Hc)|(-> & -> & Ha)]; eexists _, _, _, h'; (split; [reflexivity|]).
  - left. split_and!; auto. exists ks. simpl in Hl. split; [done|]. split; [done|].
    unfold live_vcpus. simpl. rewrite (cr_array _ _ _ _ Hc). rewrite take_app_le by (rewrite length_fmap; lia).
    apply take_ge. rewrite length_fmap. lia.
  - right. split; [done|]. split; [|done]. rewrite Hv', Ha. rewrite <- Harr. by destruct v.
Qed.
End build_props.

(** ** KVM discharges what creation needs *)

Lemma kvm_disposes `{E : Env} fd vmfd n hv :
  hvc_vm hv = mk_hv_vm vmfd (KvmVmData n) -> (exists page, hvc_data hv = KvmVcpuData page) ->
  forall h, exists h', hv_destroy_vcpu (kvm_state fd) (Some hv) h = Ok tt h' /\ heap h' = heap h.
Proof.
  intros Hvm [page Hp] h. unfold hv_destroy_vcpu, via. simpl. unfold kvm_vm_data. rewrite Hp, Hvm. simpl.
  rewrite bind_assoc, bind_ret. mrun. destruct (hvc_fd hv >=? 0).
  - eexists. split; [apply perform_close|reflexivity].
  - eexists _. split; reflexivity.
Qed.

Lemma kvm_creates_vcpus `{E : Env} fd vmfd n : creates_vcpus (kvm_state fd) (mk_hv_vm vmfd (KvmVmData n)).
Proof.
  intros i h. unfold hv_create_vcpu, via. simpl. unfold kvm_create_vcpu. mrun. simpl hvm_fd.
  destruct (_ <? 0); [by eexists None, _|]. mrun.
  destruct (env_answer _ (EvCalloc 40)); cbn [negb]; [|mrun; by eexists None, _]. mrun.
  destruct (env_answer _ (EvCalloc 8)); cbn [negb]; [|mrun; by eexists None, _].
  unfold kvm_vm_data. simpl hvm_data. cbv iota. rewrite bind_ret. mrun.
  destruct (env_answer _ (EvMmapRun _ _)) as [page|]; [|mrun; by eexists None, _].
  eexists (Some _), _. split; [reflexivity|]. split; [reflexivity|].
  apply (kvm_disposes fd vmfd n); [done|by exists page].
Qed.

Lemma kvm_disposes_null `{E : Env} fd : disposes_null (kvm_state fd).
Proof. intros h. by exists h. Qed.

(** ** Witnesses: a VM on KVM with one vCPU, one region and one device *)

#[local] Existing Instance good_env.

Definition cpu0 : vcpu := mk_vcpu (Some demo_vcpu) true 0 VCPU_STATE_STOPPED 0 0 0 zero_stats.
Definition demo_cpus : gmap positive vcpu := {[ 1%positive := cpu0 ]}.
Definition plain_objects : gmap positive object := {[ 2%positive := ObjPlain zero_device ]}.
Definition full_vm : vm :=
  set_devices (Some 2%positive :: replicate 15 None) 1
    (set_vcpus (Some 1%positive :: replicate 7 None) 1 small_vm).

Lemma full_vm_live : vcpus_live (live_vcpus full_vm) demo_cpus.
Proof. repeat constructor. by exists 1%positive, cpu0. Qed.
Lemma full_vm_idle : in_state not_running (live_vcpus full_vm) demo_cpus.
Proof. intros i c _ Hc. unfold demo_cpus in Hc. apply lookup_singleton_Some in Hc as [_ <-]. discriminate. Qed.
Lemma cpu0_disposable : disposable (kvm_state 3) cpu0.
Proof. intros h. apply (kvm_disposes 3 4 128 demo_vcpu); [done|by exists (replicate 128 0)]. Qed.

Lemma vm_start_stop_witness :
  exists v' vs' h', vm_start LinuxX86 (kvm_state 3) full_vm demo_cpus empty_host = Ok (0, v', vs') h' /\
    in_state running (live_vcpus full_vm) vs'.
Proof.
  destruct (vm_start_stop LinuxX86 (kvm_state 3) full_vm demo_cpus empty_host full_vm_live
    ltac:(apply (bool_decide_eq_true_1 _); reflexivity)) as [Hstart _].
  destruct (Hstart ltac:(discriminate) full_vm_idle) as (ret & v' & vs' & h' & Hr & _ & [(-> & _ & Hrun)|(-> & _ & _)]).
  - exists v', vs', h'. split; [exact Hr|exact Hrun].
  - exfalso. vm_compute in Hr. discriminate Hr.
Defined.

Lemma vm_destroy_spec_witness :
  exists vs' h', vm_destroy LinuxX86 (kvm_state 3) 2 (Some full_vm) demo_cpus plain_objects small_host
      = Ok (vs', plain_objects) h' /\ heap h' !! 1%positive = None /\ vs' !! 1%positive = None.
Proof.
  destruct (vm_destroy_spec LinuxX86 (kvm_state 3) 2 full_vm demo_cpus plain_objects small_host)
    as (vs' & h' & Hr & Hgone & _ & Hh).
  - vm_compute. reflexivity.
  - exact full_vm_live.
  - apply (bool_decide_eq_true_1 _). reflexivity.
  - intros i c _ Hc. unfold demo_cpus in Hc. apply lookup_singleton_Some in Hc as [_ <-]. exact cpu0_disposable.
  - intros _. exact full_vm_idle.
  - intros k Hk. exists (ObjPlain zero_device).
    assert (k = 2%positive) as -> by (apply list_elem_of_singleton in Hk; congruence). split; reflexivity.
  - reflexivity.
  - vm_compute. discriminate.
  - split.
    + repeat constructor; [|discriminate..]. intros _. by exists 1%positive, (replicate 64 0).
    + apply (bool_decide_eq_true_1 _). reflexivity.
  - exists vs', h'. split; [exact Hr|]. split.
    + rewrite Hh. vm_compute. reflexivity.
    + apply Hgone. apply (bool_decide_eq_true_1 _). reflexivity.
Defined.

Lemma vcpu_destroy_log_use_after_free_witness :
  vcpu_destroy LinuxX86 (kvm_state 3) 3 (Some cpu0) empty_host = Ub UseAfterFree.
Proof.
  apply (vcpu_destroy_log_use_after_free LinuxX86 (kvm_state 3) 3 cpu0 empty_host);
    [vm_compute; discriminate|discriminate|exact cpu0_disposable].
Defined.

Lemma vm_create_vcpus_spec_witness :
  exists v' vs' h', vm_create_vcpus LinuxX86 (kvm_state 3) 2 fresh_vm ∅ 2 empty_host = Ok (0, v', vs') h' /\
    num_vcpus v' = 2.
Proof.
  destruct (vm_create_vcpus_spec LinuxX86 (kvm_state 3) 2 fresh_vm ∅ 2 empty_host
    ltac:(vm_compute; reflexivity) (kvm_creates_vcpus 3 4 128) (kvm_disposes_null 3) eq_refl eq_refl ltac:(lia))
    as (ret & v' & vs' & h' & Hr & [(-> & _ & Hn & _)|(-> & _ & _)]).
  - exists v', vs', h'. split; [exact Hr|exact Hn].
  - exfalso. vm_compute in Hr. discriminate Hr.
Defined.
