(* ===== verification/Threads.v ===== *)
(** * The vCPU threads beside the main thread (src/vcpu.c, src/vm.c, src/main.c)

    [vm_start] gives every vCPU a thread that runs [vcpu_thread_func]; the main
    thread polls, asks the threads to stop, joins them and frees their vCPUs.  The
    threads share the vCPU structures ([should_stop], the statistics), the devices
    and memory.  Here the program is a transition system: a thread moves by one of
    four segments of its function (creation, the test of [should_stop], the run, the
    exit with its handler), the main thread by one iteration of the loops of
    [vm_start], [main], [vm_stop] and [vm_destroy], in any order.  A segment is
    atomic; within a segment the definitions are those of [Vcpu]. *)

From S2P Require Import Prelude HvTypes Host Hypervisor Kvm GuestMem VmMem Devices Machine Vcpu Vm.

(** ** One thread *)

(** Where a thread stands: before the creation of its vCPU, at the head of its loop,
    before [vcpu_run], before [hv_get_exit], or ended, with the reason its loop
    gave. *)
Inductive pc := AtStart | AtTest | AtRun | AtExit | Ended (e : option loop_end).

Definition ended (p : pc) : bool := match p with Ended _ => true | _ => false end.

Section thread.
Context {E : Env} {O : Type} `{!Device O} (plat : platform) (hs : hv_state) (exit0 : hv_exit).
Local Abbreviation store := (gmap positive O).

(** [vcpu_run] and what the loop makes of its result. *)
Definition run_segment (c : vcpu) : M (pc * vcpu) :=
  '(ret, c) ← vcpu_run hs c;
  if ret <? 0 then
    e ← errno_now;
    mret (if e =? EINTR then AtTest else Ended (Some RunFailed), c)
  else mret (AtExit, c).

(** The rest of the loop's body. *)
Definition exit_segment (v : vm) (st : store) (c : vcpu) : M (pc * vcpu * store) :=
  hv ← deref NullDeref (vc_hv c);
  '(ret, exit, hv) ← hv_get_exit hs hv exit0;
  let c := set_hv (Some hv) c in
  if ret <? 0 then mret (Ended (Some GetExitFailed), c, st)
  else
    '(ret, c, st) ← vcpu_handle_exit v st c exit;
    if ret <? 0 then mret (Ended (Some HandlerFailed), c, st)
    else
      let c := count inc_exit c in
      mret (if exit_count (vc_stats c) >? 1000 then Ended (Some TooManyExits) else AtTest, c, st).

Definition thread_step (v : vm) (p : pc) (st : store) (c : vcpu) : M (pc * vcpu * store) :=
  match p with
  | AtStart => '(ok, c) ← vcpu_thread_init plat hs v c; mret (if ok : bool then AtTest else Ended None, c, st)
  | AtTest => mret (if negb (should_stop c =? 0) then Ended (Some Stopped) else AtRun, c, st)
  | AtRun => '(p, c) ← run_segment c; mret (p, c, st)
  | AtExit => exit_segment v st c
  | Ended e => mret (Ended e, c, st)
  end.

(** The thread left alone. *)
Fixpoint thread_steps (n : nat) (v : vm) (p : pc) (st : store) (c : vcpu) : M (pc * vcpu * store) :=
  match n with
  | 0%nat => mret (p, c, st)
  | S n => '(p, c, st) ← thread_step v p st c; thread_steps n v p st c
  end.

Lemma thread_steps_add n m v p st c h :
  thread_steps (n + m) v p st c h = ('(p, c, st) ← thread_steps n v p st c; thread_steps m v p st c) h.
Proof.
  revert p st c h. induction n as [|n IH]; intros p st c h; [done|]. cbn [Nat.add thread_steps].
  rewrite bind_assoc. unfold mbind, M_bind. destruct (thread_step v p st c h) as [[[p1 c1] st1] h1|]; [|done].
  apply IH.
Qed.

Lemma thread_steps_ended n v e st c h : thread_steps n v (Ended e) st c h = Ok (Ended e, c, st) h.
Proof. induction n as [|n IH]; [done|]. cbn [thread_steps thread_step]. by rewrite bind_ret. Qed.

(** A turn of the loop is two or three segments. *)
Lemma turn_segments v st c h :
  vcpu_turn hs exit0 v st c h =
  (if negb (should_stop c =? 0) then mret (inr (Stopped, c), st)
   else
     '(p, c) ← run_segment c;
     '(p, c, st) ← (match p with AtExit => exit_segment v st c | _ => mret (p, c, st) end);
     mret (match p with Ended (Some e) => inr (e, c) | _ => inl c end, st)) h.
Proof.
  unfold vcpu_turn. destruct (negb _); [done|]. unfold run_segment, errno_now, exit_segment.
  unfold mbind, M_bind, mret, M_ret. destruct (vcpu_run hs c h) as [[ret c1] h1|]; [|done].
  destruct (ret <? 0); [by destruct (_ =? EINTR)|].
  destruct (deref _ _ h1) as [hv h2|]; [|done]. destruct (hv_get_exit _ _ _ h2) as [[[r e] hv'] h3|]; [|done].
  destruct (r <? 0); [done|]. destruct (vcpu_handle_exit _ _ _ _ h3) as [[[r2 c2] st2] h4|]; [|done].
  destruct (r2 <? 0); [done|]. by destruct (_ >? 1000).
Qed.

(** What a turn leaves behind, as a state of the thread. *)
Definition turn_end (r : outcome ((vcpu + loop_end * vcpu) * store)) : outcome (pc * vcpu * store) :=
  match r with
  | Ok (inl c, st) h => Ok (AtTest, c, st) h
  | Ok (inr (e, c), st) h => Ok (Ended (Some e), c, st) h
  | Ub u => Ub u
  end.

Lemma turn_steps v st c h :
  exists k, (0 < k)%nat /\ thread_steps k v AtTest st c h = turn_end (vcpu_turn hs exit0 v st c h).
Proof.
  rewrite turn_segments. destruct (negb (should_stop c =? 0)) eqn:Hs.
  { exists 1%nat. split; [lia|]. cbn [thread_steps thread_step]. by rewrite Hs. }
  enough (exists k, (0 < k)%nat /\ thread_steps k v AtRun st c h = turn_end (('(p, c0) ← run_segment c;
     '(p0, c1, st0) ← (match p with AtExit => exit_segment v st c0 | _ => mret (p, c0, st) end);
     mret (match p0 with Ended (Some e) => inr (e, c1) | _ => inl c1 end, st0)) h)) as (k & Hk & Hrun).
  { exists (S k). split; [lia|]. cbn [thread_steps thread_step]. rewrite Hs, bind_ret. exact Hrun. }
  unfold run_segment, errno_now, exit_segment, mbind, M_bind, mret, M_ret.
  destruct (vcpu_run hs c h) as [[ret c1] h1|u] eqn:Hv.
  2:{ exists 1%nat. split; [lia|]. cbn [thread_steps thread_step]. unfold run_segment, mbind, M_bind. by rewrite Hv. }
  destruct (ret <? 0) eqn:Hr.
  { exists 1%nat. split; [lia|]. cbn [thread_steps thread_step]. unfold run_segment, errno_now, mbind, M_bind, mret, M_ret.
    rewrite Hv, Hr. by destruct (_ =? EINTR). }
  exists 2%nat. split; [lia|]. cbn [thread_steps thread_step]. unfold run_segment, exit_segment, mbind, M_bind, mret, M_ret.
  rewrite Hv, Hr. cbn [thread_step]. unfold exit_segment, mbind, M_bind, mret, M_ret.
  destruct (deref _ _ h1) as [hv h2|]; [|done].
  destruct (hv_get_exit _ _ _ h2) as [[[r e] hv'] h3|]; [|done]. destruct (r <? 0); [done|].
  destruct (vcpu_handle_exit _ _ _ _ h3) as [[[r2 c2] st2] h4|]; [|done]. destruct (r2 <? 0); [done|].
  by destruct (_ >? 1000).
Qed.

Lemma thread_steps_more n m v p st c h e c' st' h' :
  (n <= m)%nat -> thread_steps n v p st c h = Ok (Ended e, c', st') h' ->
  thread_steps m v p st c h = Ok (Ended e, c', st') h'.
Proof.
  intros Hle H. replace m with (n + (m - n))%nat by lia. rewrite thread_steps_add, (bind_Ok _ _ _ _ _ H).
  apply thread_steps_ended.
Qed.

Lemma loop_segments v st c h e c' st' h' :
  (exists fuel e', e = Some e' /\ vcpu_loop hs fuel exit0 v st c h = Ok (e', c', st') h') <->
  exists n, thread_steps n v AtTest st c h = Ok (Ended e, c', st') h'.
Proof.
  split.
  - intros (fuel & e' & -> & H). revert st c h H. induction fuel as [|fuel IH]; intros st c h H; [done|].
    cbn [vcpu_loop] in H. apply bind_inv in H as ([r st1] & h1 & Ht & H).
    destruct (turn_steps v st c h) as (k & _ & Hk). rewrite Ht in Hk. destruct r as [c1|[e1 c1]]; cbn [turn_end] in Hk.
    + destruct (IH _ _ _ H) as (n & Hn). exists (k + n)%nat. by rewrite thread_steps_add, (bind_Ok _ _ _ _ _ Hk).
    + minv H. simplify_eq. by exists k.
  - intros (n & H). revert st c h H. induction (lt_wf n) as [n _ IH]. intros st c h H.
    destruct (turn_steps v st c h) as (k & Hpos & Hk).
    destruct (vcpu_turn hs exit0 v st c h) as [[[c1|[e1 c1]] st1] h1|u] eqn:Ht; cbn [turn_end] in Hk.
    + destruct (decide (k <= n)%nat) as [Hle|Hgt].
      * replace n with (k + (n - k))%nat in H by lia. rewrite thread_steps_add, (bind_Ok _ _ _ _ _ Hk) in H.
        destruct (IH (n - k)%nat ltac:(lia) _ _ _ H) as (fuel & e' & -> & Hl). exists (S fuel), e'. split; [done|].
        cbn [vcpu_loop]. by rewrite (bind_Ok _ _ _ _ _ Ht).
      * apply (thread_steps_more _ k) in H; [|lia]. congruence.
    + apply (thread_steps_more _ (n + k)) in H; [|lia]. rewrite Nat.add_comm, thread_steps_add, (bind_Ok _ _ _ _ _ Hk) in H.
      rewrite thread_steps_ended in H. simplify_eq. exists 1%nat, e1. split; [done|]. cbn [vcpu_loop].
      by rewrite (bind_Ok _ _ _ _ _ Ht).
    + apply (thread_steps_more _ (n + k)) in H; [|lia]. by rewrite Nat.add_comm, thread_steps_add, (bind_Ub _ _ _ _ Hk) in H.
Qed.

(** The segments of a thread are its function.  Run alone from its start, the
    thread ends with a result exactly when [vcpu_thread_func] returns it, with the
    same reason, vCPU, devices and host. *)
Theorem thread_alone v st c h e c' st' h' :
  (exists fuel, vcpu_thread_func plat hs fuel exit0 v st c h = Ok (e, c', st') h') <->
  exists n, thread_steps n v AtStart st c h = Ok (Ended e, c', st') h'.
Proof.
  unfold vcpu_thread_func. destruct (vcpu_thread_init plat hs v c h) as [[ok c1] h1|u] eqn:Hi.
  2:{ split; intros [n H]; [by rewrite (bind_Ub _ _ _ _ Hi) in H|]. destruct n as [|n]; [done|].
      cbn [thread_steps thread_step] in H. rewrite bind_assoc in H. by rewrite (bind_Ub _ _ _ _ Hi) in H. }
  assert (forall n, thread_steps (S n) v AtStart st c h = thread_steps n v (if ok then AtTest else Ended None) st c1 h1) as Hstep.
  { intros n. cbn [thread_steps thread_step]. by rewrite bind_assoc, (bind_Ok _ _ _ _ _ Hi). }
  split.
  - intros [fuel H]. rewrite (bind_Ok _ _ _ _ _ Hi) in H. destruct ok; cbn [negb] in H.
    + apply bind_inv in H as ([[e1 c2] st2] & h2 & Hl & H). minv H. simplify_eq.
      destruct (proj1 (loop_segments v st c1 h1 (Some e1) c' st' h')) as [n Hn]; [by eauto|]. exists (S n). by rewrite Hstep.
    + minv H. simplify_eq. exists 1%nat. by rewrite Hstep.
  - intros [[|n] H]; [done|]. rewrite Hstep in H. destruct ok.
    + destruct (proj2 (loop_segments v st c1 h1 e c' st' h')) as (fuel & e' & -> & Hl); [by eauto|].
      exists fuel. rewrite (bind_Ok _ _ _ _ _ Hi). cbn [negb]. by rewrite (bind_Ok _ _ _ _ _ Hl).
    + rewrite thread_steps_ended in H. simplify_eq. exists 0%nat. by rewrite (bind_Ok _ _ _ _ _ Hi).
Qed.
End thread.

(** ** The whole program while its VM runs *)

(** Who called the loop of [vm_stop]: [vm_start], to undo a partial start, or the end
    of the run ([vm_destroy], or the signal handler before it). *)
Inductive after := Rollback | Shutdown.

(** Where the main thread stands: in the loop of [vm_start] with the vCPUs already
    started and those to go, in the loop of [main], in the loop of [vm_stop] before a
    vCPU or in its [pthread_join], in the destruction loop of [vm_destroy] before a
    vCPU or in the [pthread_join] of its [vcpu_stop], or past them. *)
Inductive main_pc :=
| MStart (dn todo : list positive)
| MWait
| MStop (l : list positive) (k : after)
| MJoin (i : positive) (l : list positive) (k : after)
| MDestroy (l : list positive)
| MDestroyJoin (i : positive) (l : list positive)
| MEnd.

Section world.
Context {E : Env} {O : Type} `{!Device O} (plat : platform) (hs : hv_state) (exit0 : hv_exit) (log_level : Z).
(** The vCPUs of the VM, in the order of [vm->vcpus]. *)
Context (ps : list positive).

Record world := mk_world {
  w_vm : vm;
  w_cpus : gmap positive vcpu;
  w_objs : gmap positive O;
  w_threads : gmap positive pc;      (* created and not yet joined *)
  w_cancel : gset positive;          (* cancellation requested *)
  w_main : main_pc;
  w_host : host
}.

(** The two halves of [vcpu_stop] on a running vCPU. *)
Definition stop_request (c : vcpu) : M vcpu :=
  let c := set_should_stop 1 c in
  (match plat, vc_hv c with
   | MacArm, Some hv => hv_vcpu_exit hs hv;; mret tt
   | _, _ => mret tt
   end);;
  mret c.
Definition stop_join (c : vcpu) : M vcpu :=
  perform (EvPthreadCancelJoin (vc_index c));;
  mret (set_vc_state VCPU_STATE_STOPPED c).

Lemma vcpu_stop_halves c h :
  vcpu_stop plat hs c h =
  (if negb (bool_decide (vc_state c = VCPU_STATE_RUNNING)) then mret (0, c)
   else c ← stop_request c; c ← stop_join c; mret (0, c)) h.
Proof.
  unfold vcpu_stop, stop_request, stop_join. destruct (negb _); [done|]. cbv zeta.
  unfold mbind, M_bind, mret, M_ret. destruct plat, (vc_hv (set_should_stop 1 c)); try done.
  by destruct (hv_vcpu_exit _ _ _).
Qed.

(** Who moves: the main thread (waiting another second or not), the thread of a vCPU
    from a place in its function, or the cancellation of a thread. *)
Inductive label := LMain | LPoll | LThread (i : positive) (p : pc) | LCancel (i : positive).

(** Where a deferred cancellation can act: in the input and output of the exit handlers,
    which come after [vcpu_run], and in the debug messages around the other segments.  The
    run itself is an [ioctl] that no cancellation interrupts. *)
Definition cancel_point (p : pc) : bool :=
  match p with
  | AtExit => true
  | AtStart | AtTest | AtRun => log_level >=? LOG_LEVEL_DEBUG
  | Ended _ => false
  end.

Lemma cancel_live p : cancel_point p = true -> ended p = false.
Proof using Type. by destruct p. Qed.

Inductive wstep : label -> world -> world -> Prop :=
(* a segment of a vCPU's thread *)
| ws_thread v cs st ts cn m h i p c p' c' st' h' :
    ts !! i = Some p -> ended p = false -> cs !! i = Some c ->
    thread_step plat hs exit0 v p st c h = Ok (p', c', st') h' ->
    wstep (LThread i p) (mk_world v cs st ts cn m h) (mk_world v (<[i := c']> cs) st' (<[i := p']> ts) cn m h')
(* a cancelled thread ends, where it comes to a cancellation point *)
| ws_cancel v cs st ts cn m h i p :
    ts !! i = Some p -> cancel_point p = true -> i ∈ cn ->
    wstep (LCancel i) (mk_world v cs st ts cn m h) (mk_world v cs st (<[i := Ended None]> ts) cn m h)
(* vm_start *)
| ws_start v cs st ts cn dn i todo h c c' h' :
    cs !! i = Some c -> vcpu_start c h = Ok (0, c') h' ->
    wstep LMain (mk_world v cs st ts cn (MStart dn (i :: todo)) h)
      (mk_world v (<[i := c']> cs) st (if decide (vc_state c = VCPU_STATE_RUNNING) then ts else <[i := AtStart]> ts) cn
         (MStart (dn ++ [i]) todo) h')
| ws_start_fails v cs st ts cn dn i todo h c r c' h' :
    cs !! i = Some c -> vcpu_start c h = Ok (r, c') h' -> r < 0 ->
    wstep LMain (mk_world v cs st ts cn (MStart dn (i :: todo)) h)
      (mk_world v (<[i := c']> cs) st ts cn (MStop dn Rollback) h')
| ws_started v cs st ts cn dn h :
    wstep LMain (mk_world v cs st ts cn (MStart dn []) h) (mk_world (set_state VM_STATE_RUNNING v) cs st ts cn MWait h)
(* the loop of main: a second passes, and then no vCPU is seen to stop; or one is,
   or a signal arrives *)
| ws_poll v cs st ts cn h h' l :
    perform EvSleep h = Ok (false, l) h' ->
    (forall i c, i ∈ ps -> cs !! i = Some c -> should_stop c = 0) ->
    wstep LPoll (mk_world v cs st ts cn MWait h) (mk_world v cs st ts cn MWait h')
| ws_poll_stopped v cs st ts cn h h' i c a :
    perform EvSleep h = Ok a h' -> i ∈ ps -> cs !! i = Some c -> should_stop c <> 0 ->
    wstep LMain (mk_world v cs st ts cn MWait h) (mk_world v cs st ts cn (MStop ps Shutdown) h')
| ws_signal v cs st ts cn h h' l :
    perform EvSleep h = Ok (true, l) h' ->
    wstep LMain (mk_world v cs st ts cn MWait h) (mk_world v cs st ts cn (MStop ps Shutdown) h')
(* vm_stop *)
| ws_stop_skip v cs st ts cn i l k h c :
    cs !! i = Some c -> vc_state c <> VCPU_STATE_RUNNING ->
    wstep LMain (mk_world v cs st ts cn (MStop (i :: l) k) h) (mk_world v cs st ts cn (MStop l k) h)
| ws_stop v cs st ts cn i l k h c c' h' :
    cs !! i = Some c -> vc_state c = VCPU_STATE_RUNNING -> stop_request c h = Ok c' h' ->
    wstep LMain (mk_world v cs st ts cn (MStop (i :: l) k) h) (mk_world v (<[i := c']> cs) st ts ({[ i ]} ∪ cn) (MJoin i l k) h')
| ws_join v cs st ts cn i l k h e c c' h' :
    ts !! i = Some (Ended e) -> cs !! i = Some c -> stop_join c h = Ok c' h' ->
    wstep LMain (mk_world v cs st ts cn (MJoin i l k) h)
      (mk_world v (<[i := c']> cs) st (delete i ts) (cn ∖ {[ i ]}) (MStop l k) h')
| ws_rolled_back v cs st ts cn h :
    wstep LMain (mk_world v cs st ts cn (MStop [] Rollback) h) (mk_world v cs st ts cn (MDestroy ps) h)
| ws_stopped v cs st ts cn h :
    wstep LMain (mk_world v cs st ts cn (MStop [] Shutdown) h)
      (mk_world (set_state VM_STATE_STOPPED v) cs st ts cn (MDestroy ps) h)
(* vm_destroy *)
| ws_destroy v cs st ts cn i l h c h' :
    cs !! i = Some c -> vc_state c <> VCPU_STATE_RUNNING -> vcpu_destroy plat hs log_level (Some c) h = Ok tt h' ->
    wstep LMain (mk_world v cs st ts cn (MDestroy (i :: l)) h) (mk_world v (delete i cs) st ts cn (MDestroy l) h')
| ws_destroy_stop v cs st ts cn i l h c c' h' :
    cs !! i = Some c -> vc_state c = VCPU_STATE_RUNNING -> stop_request c h = Ok c' h' ->
    wstep LMain (mk_world v cs st ts cn (MDestroy (i :: l)) h)
      (mk_world v (<[i := c']> cs) st ts ({[ i ]} ∪ cn) (MDestroyJoin i l) h')
| ws_destroy_join v cs st ts cn i l h e c c' h' :
    ts !! i = Some (Ended e) -> cs !! i = Some c -> stop_join c h = Ok c' h' ->
    wstep LMain (mk_world v cs st ts cn (MDestroyJoin i l) h)
      (mk_world v (<[i := c']> cs) st (delete i ts) (cn ∖ {[ i ]}) (MDestroy (i :: l)) h')
| ws_end v cs st ts cn h :
    wstep LMain (mk_world v cs st ts cn (MDestroy []) h) (mk_world v cs st ts cn MEnd h).

(** Executions, with who moved. *)
Inductive path : list label -> world -> world -> Prop :=
| path_nil w : path [] w w
| path_cons a w1 w2 l w3 : wstep a w1 w2 -> path l w2 w3 -> path (a :: l) w1 w3.

Lemma path_app l1 l2 w1 w2 w3 : path l1 w1 w2 -> path l2 w2 w3 -> path (l1 ++ l2) w1 w3.
Proof using Type. induction 1 as [|a w1 w2 l w0 Hs _ IH]; [done|]. intros H2. eapply path_cons; [exact Hs|by apply IH]. Qed.

(** What [vm_create_vcpus] leaves before [vm_start]: distinct idle vCPUs, no
    thread. *)
Record initial (w : world) : Prop := {
  in_main : w_main w = MStart [] ps;
  in_threads : w_threads w = ∅;
  in_cancel : w_cancel w = ∅;
  in_dom : dom (w_cpus w) = list_to_set ps;
  in_idle : forall i c, w_cpus w !! i = Some c -> vc_state c = VCPU_STATE_STOPPED /\ vc_stats c = zero_stats;
  in_nodup : NoDup ps
}.
End world.

(** ** What the steps keep *)

Section keeps.
Context {E : Env} {O : Type} `{!Device O} (plat : platform) (hs : hv_state) (exit0 : hv_exit).
Local Abbreviation store := (gmap positive O).

Lemma handle_exit_keeps v (st : store) c e h r c' st' h' :
  vcpu_handle_exit v st c e h = Ok (r, c', st') h' ->
  vc_state c' = vc_state c /\ (should_stop c <> 0 -> should_stop c' <> 0).
Proof.
  unfold vcpu_handle_exit, vcpu_handle_shutdown, vcpu_handle_fail_entry. intros H.
  destruct (ex_reason e); minv H; by simplify_eq.
Qed.

(** A thread leaves the lifecycle state to the main thread, and never takes back a
    request to stop. *)
Lemma thread_step_keeps v p (st : store) c h p' c' st' h' :
  thread_step plat hs exit0 v p st c h = Ok (p', c', st') h' ->
  vc_state c' = vc_state c /\ (should_stop c <> 0 -> should_stop c' <> 0).
Proof.
  destruct p; cbn [thread_step]; intros H.
  - unfold vcpu_thread_init in H. destruct plat; minv H; by simplify_eq.
  - minv H. by simplify_eq.
  - unfold run_segment, vcpu_run, errno_now in H. minv H; by simplify_eq.
  - unfold exit_segment in H. apply bind_inv in H as (hv & h1 & _ & H). apply bind_inv in H as ([[r e] hv'] & h2 & _ & H).
    cbv beta iota zeta in H. destruct (r <? 0); [minv H; by simplify_eq|].
    apply bind_inv in H as ([[r2 c2] st2] & h3 & Hx & H). cbv beta iota zeta in H. apply handle_exit_keeps in Hx as [Hs Hst].
    destruct (r2 <? 0); minv H; simplify_eq; by split.
  - minv H. by simplify_eq.
Qed.

Lemma vcpu_start_state c h r c' h' :
  vcpu_start c h = Ok (r, c') h' ->
  r = 0 /\ vc_state c' = VCPU_STATE_RUNNING /\ (vc_state c = VCPU_STATE_RUNNING -> c' = c) /\ vc_stats c' = vc_stats c \/
  r < 0 /\ vc_state c' = vc_state c.
Proof.
  unfold vcpu_start. intros H. case_decide; [minv H; simplify_eq; by left|]. minv H; simplify_eq; [by right|by left].
Qed.

Lemma stop_request_keeps c h c' h' :
  stop_request plat hs c h = Ok c' h' -> c' = set_should_stop 1 c.
Proof. unfold stop_request. intros H. by minv H. Qed.
Lemma stop_join_keeps c h c' h' : stop_join c h = Ok c' h' -> c' = set_vc_state VCPU_STATE_STOPPED c.
Proof. unfold stop_join. intros H. by minv H. Qed.
End keeps.

(** ** Threads and vCPUs stay tied *)

(** Every thread belongs to a vCPU that is marked as running, and conversely. *)
Record tied (cs : gmap positive vcpu) (ts : gmap positive pc) : Prop := {
  td_cpu : forall i p, ts !! i = Some p -> exists c, cs !! i = Some c /\ vc_state c = VCPU_STATE_RUNNING;
  td_thread : forall i c, cs !! i = Some c -> vc_state c = VCPU_STATE_RUNNING -> is_Some (ts !! i)
}.

Section tied.
Context (cs : gmap positive vcpu) (ts : gmap positive pc) (i : positive) (c c' : vcpu).
Context (Htied : tied cs ts) (Hi : cs !! i = Some c).

Ltac tied_at j :=
  destruct (decide (i = j)) as [<-|?];
    rewrite ?lookup_insert_eq, ?lookup_insert_ne, ?lookup_delete_eq, ?lookup_delete_ne in * by done.

Lemma tied_keep : vc_state c' = vc_state c -> tied (<[i := c']> cs) ts.
Proof using Htied Hi.
  intros Hc. split.
  - intros j p Hp. destruct (td_cpu _ _ Htied j p Hp) as (cj & Hj & Hr). tied_at j; [|by exists cj].
    exists c'. split; [done|]. congruence.
  - intros j cj Hj Hr. tied_at j; [|by eapply td_thread]. eapply td_thread; [exact Htied|exact Hi|congruence].
Qed.
Lemma tied_move p' : is_Some (ts !! i) -> tied cs (<[i := p']> ts).
Proof using Htied.
  intros [p Hp]. split.
  - intros j q Hq. tied_at j; by eapply td_cpu.
  - intros j cj Hj Hr. tied_at j; [done|by eapply td_thread].
Qed.
Lemma tied_spawn p : vc_state c' = VCPU_STATE_RUNNING -> tied (<[i := c']> cs) (<[i := p]> ts).
Proof using Htied.
  intros Hc. split.
  - intros j q Hq. tied_at j; [by exists c'|by eapply td_cpu].
  - intros j cj Hj Hr. tied_at j; [done|by eapply td_thread].
Qed.
Lemma tied_join : vc_state c' <> VCPU_STATE_RUNNING -> tied (<[i := c']> cs) (delete i ts).
Proof using Htied.
  intros Hc. split.
  - intros j q Hq. tied_at j; [done|by eapply td_cpu].
  - intros j cj Hj Hr. tied_at j; [congruence|by eapply td_thread].
Qed.
Lemma tied_delete : vc_state c <> VCPU_STATE_RUNNING -> tied (delete i cs) ts.
Proof using Htied Hi.
  intros Hc. split.
  - intros j q Hq. destruct (td_cpu _ _ Htied j q Hq) as (cj & Hj & Hr). tied_at j; [congruence|by exists cj].
  - intros j cj Hj Hr. tied_at j; [done|by eapply td_thread].
Qed.
Lemma not_running_no_thread : vc_state c <> VCPU_STATE_RUNNING -> ts !! i = None.
Proof using Htied Hi.
  intros Hc. destruct (ts !! i) as [p|] eqn:Hp; [|done]. destruct (td_cpu _ _ Htied i p Hp) as (c0 & H0 & Hr). congruence.
Qed.
End tied.

(** *** The invariant *)

Section invariant.
Context {E : Env} {O : Type} `{!Device O} (plat : platform) (hs : hv_state) (exit0 : hv_exit) (log_level : Z).
Context (ps : list positive) (Hnodup : NoDup ps).
Local Abbreviation world := (@world O).
Local Abbreviation wstep := (wstep plat hs exit0 log_level ps).
Local Abbreviation path := (path plat hs exit0 log_level ps).

(** The pointers of a map are those of a list; or at most those. *)
Definition keys {A} (l : list positive) (m : gmap positive A) : Prop := forall j, is_Some (m !! j) <-> j ∈ l.
Definition keys_in {A} (l : list positive) (m : gmap positive A) : Prop := forall j, is_Some (m !! j) -> j ∈ l.

(** What holds at each place of the main thread. *)
Definition main_inv (m : main_pc) (cs : gmap positive vcpu) (ts : gmap positive pc) : Prop :=
  match m with
  | MStart dn todo => ps = dn ++ todo /\ keys ps cs /\ keys_in dn ts
  | MWait => keys ps cs /\ keys_in ps ts
  | MStop l _ => keys ps cs /\ keys_in l ts /\ l ⊆ ps
  | MJoin i l _ => keys ps cs /\ keys_in (i :: l) ts /\ i :: l ⊆ ps /\ is_Some (ts !! i)
  | MDestroy l => keys l cs /\ ts = ∅ /\ NoDup l
  | MDestroyJoin _ _ => False
  | MEnd => cs = ∅ /\ ts = ∅
  end.

Definition world_inv (w : world) : Prop :=
  tied (w_cpus w) (w_threads w) /\ main_inv (w_main w) (w_cpus w) (w_threads w) /\
  forall i, i ∈ w_cancel w -> is_Some (w_threads w !! i).

Lemma keys_insert {A} l (m : gmap positive A) i x : is_Some (m !! i) -> keys l m -> keys l (<[i := x]> m).
Proof using Type.
  intros Hi Hk j. destruct (decide (i = j)) as [<-|Hne]; [rewrite lookup_insert_eq|by rewrite lookup_insert_ne].
  rewrite <- (Hk i). split; [done|by eexists].
Qed.
Lemma keys_in_insert {A} l (m : gmap positive A) i x : i ∈ l -> keys_in l m -> keys_in l (<[i := x]> m).
Proof using Type.
  intros Hi Hk j Hj. destruct (decide (i = j)) as [<-|Hne]; [done|]. rewrite lookup_insert_ne in Hj by done. by apply Hk.
Qed.
Lemma keys_in_mono {A} l l' (m : gmap positive A) : l ⊆ l' -> keys_in l m -> keys_in l' m.
Proof using Type. intros Hsub Hk j Hj. by apply Hsub, Hk. Qed.

Lemma empty_threads (ts : gmap positive pc) : keys_in [] ts -> ts = ∅.
Proof using Type.
  intros Hk. apply map_empty. intros i. destruct (ts !! i) as [p|] eqn:Hp; [|done].
  destruct (proj1 (elem_of_nil i) (Hk i (ex_intro _ p Hp))).
Qed.

(** The head of the list goes. *)
Lemma keys_in_drop {A} i l (m : gmap positive A) : m !! i = None -> keys_in (i :: l) m -> keys_in l m.
Proof using Type.
  intros Hn Hk j Hj. apply Hk in Hj as Hj'. apply elem_of_cons in Hj' as [->|?]; [|done]. rewrite Hn in Hj. by destruct Hj.
Qed.
Lemma keys_in_delete {A} i l (m : gmap positive A) : keys_in (i :: l) m -> keys_in l (delete i m).
Proof using Type.
  intros Hk j Hj. destruct (decide (i = j)) as [<-|Hne]; [rewrite lookup_delete_eq in Hj; by destruct Hj|].
  rewrite lookup_delete_ne in Hj by done. apply Hk, elem_of_cons in Hj as [?|?]; [congruence|done].
Qed.
Lemma keys_delete {A} i l (m : gmap positive A) : i ∉ l -> keys (i :: l) m -> keys l (delete i m).
Proof using Type.
  intros Hil Hk j. destruct (decide (i = j)) as [<-|Hne]; [rewrite lookup_delete_eq; split; [intros []; done|done]|].
  rewrite lookup_delete_ne by done. rewrite (Hk j), elem_of_cons. split; [intros [?|?]; congruence|by right].
Qed.
Lemma keys_nil {A} (m : gmap positive A) : keys [] m -> m = ∅.
Proof using Type.
  intros Hk. apply map_empty. intros j. destruct (m !! j) as [c|] eqn:Hj; [|done].
  destruct (proj1 (elem_of_nil j) (proj1 (Hk j) (ex_intro _ c Hj))).
Qed.

(** Moving a thread that is there. *)
Lemma main_inv_move m cs ts i c' p' :
  is_Some (cs !! i) -> is_Some (ts !! i) -> main_inv m cs ts -> main_inv m (<[i := c']> cs) (<[i := p']> ts).
Proof using Type.
  intros Hc Ht. destruct m; cbn [main_inv].
  - intros (? & Hk & Hin). split_and!; [done|by apply keys_insert|]. apply keys_in_insert; [by apply Hin|done].
  - intros (Hk & Hin). split; [by apply keys_insert|]. apply keys_in_insert; [by apply Hin|done].
  - intros (Hk & Hin & ?). split_and!; [by apply keys_insert| |done]. apply keys_in_insert; [by apply Hin|done].
  - intros (Hk & Hin & ? & Hi). split_and!; [by apply keys_insert| |done|].
    + apply keys_in_insert; [by apply Hin|done].
    + destruct (decide (i = i0)) as [<-|Hne]; [rewrite lookup_insert_eq; by eexists|by rewrite lookup_insert_ne].
  - intros (? & -> & ?). rewrite lookup_empty in Ht. by destruct Ht.
  - done.
  - intros (? & ->). rewrite lookup_empty in Ht. by destruct Ht.
Qed.

Lemma cancel_insert (cn : gset positive) (ts : gmap positive pc) i p :
  (forall j, j ∈ cn -> is_Some (ts !! j)) -> forall j, j ∈ cn -> is_Some (<[i := p]> ts !! j).
Proof using Type.
  intros H j Hj. destruct (decide (i = j)) as [<-|Hne]; [rewrite lookup_insert_eq; by eexists|rewrite lookup_insert_ne by done; by apply H].
Qed.

(** A turn of the loop of [vm_start]. *)
Lemma start_inv dn i todo cs ts c c' :
  tied cs ts -> main_inv (MStart dn (i :: todo)) cs ts -> cs !! i = Some c ->
  vc_state c' = VCPU_STATE_RUNNING -> (vc_state c = VCPU_STATE_RUNNING -> c' = c) ->
  let ts' := if decide (vc_state c = VCPU_STATE_RUNNING) then ts else <[i := AtStart]> ts in
  tied (<[i := c']> cs) ts' /\ main_inv (MStart (dn ++ [i]) todo) (<[i := c']> cs) ts'.
Proof using Type.
  intros Ht (Hps & Hk & Hin) Hi Hr Hsame. cbn [main_inv].
  assert (keys_in (dn ++ [i]) ts) as Hin' by (eapply keys_in_mono; [|exact Hin]; apply list_subseteq_app_l; done).
  case_decide as Hcr.
  - rewrite (Hsame Hcr), insert_id by done. split_and!; [done|by rewrite <- app_assoc|done..].
  - split_and!; [by eapply tied_spawn|by rewrite <- app_assoc|by apply keys_insert|].
    apply keys_in_insert; [apply elem_of_app; right; apply list_elem_of_here|done].
Qed.

Lemma world_inv_step a w w' : wstep a w w' -> world_inv w -> world_inv w'.
Proof using Hnodup.
  intros Hstep (Ht & Hm & Hc).
  destruct Hstep; unfold world_inv in *; cbn [w_cpus w_threads w_main w_cancel main_inv] in *.
  - (* thread *)
    destruct (thread_step_keeps _ _ _ _ _ _ _ _ _ _ _ _ H2) as [Hst _].
    split_and!; [|by apply main_inv_move|by apply cancel_insert].
    eapply tied_move; [by eapply tied_keep|by eexists].
  - (* cancel *)
    split_and!; [eapply tied_move; [done|by eexists]| |by apply cancel_insert].
    destruct (td_cpu _ _ Ht i p H) as (c & Hi & _).
    rewrite <- (insert_id cs i c Hi). by apply main_inv_move.
  - (* start *)
    destruct (vcpu_start_state _ _ _ _ _ H0) as [(_ & Hr & Hsame & _)|[? _]]; [|lia].
    destruct (start_inv _ _ _ _ _ _ _ Ht Hm H Hr Hsame) as [Ht' Hm']. split; [done|]. split; [done|].
    case_decide; [done|by apply cancel_insert].
  - (* start fails *)
    destruct Hm as (Hps & Hk & Hin). destruct (vcpu_start_state _ _ _ _ _ H0) as [(? & _)|[_ Hs]]; [lia|].
    split_and!; [by eapply tied_keep|by apply keys_insert|done| |done]. rewrite Hps. by apply list_subseteq_app_l.
  - (* started *)
    destruct Hm as (Hps & Hk & Hin). rewrite app_nil_r in Hps. by subst.
  - done.
  - by destruct Hm.
  - by destruct Hm.
  - (* stop skip *)
    destruct Hm as (Hk & Hin & Hsub). pose proof (not_running_no_thread _ _ _ _ Ht H H0) as Hn.
    split_and!; [done|done|by eapply keys_in_drop|by intros j Hj; apply Hsub, list_elem_of_further|done].
  - (* stop *)
    destruct Hm as (Hk & Hin & Hsub). apply stop_request_keeps in H1 as ->.
    destruct (td_thread _ _ Ht i c H H0) as [p Hp].
    split_and!; [by eapply tied_keep|by apply keys_insert|done|done|by eexists|].
    intros j Hj. apply elem_of_union in Hj as [->%elem_of_singleton|Hj]; [by eexists|by apply Hc].
  - (* join *)
    destruct Hm as (Hk & Hin & Hsub & Hi). apply stop_join_keeps in H1 as ->.
    split_and!; [by eapply tied_join|by apply keys_insert|by apply keys_in_delete|by intros j Hj; apply Hsub, list_elem_of_further|].
    intros j [Hj Hne%not_elem_of_singleton]%elem_of_difference. rewrite lookup_delete_ne by done. by apply Hc.
  - (* rolled back, stopped *)
    destruct Hm as (Hk & Hin & _). by apply empty_threads in Hin.
  - destruct Hm as (Hk & Hin & _). by apply empty_threads in Hin.
  - (* destroy *)
    destruct Hm as (Hk & -> & [Hil Hnd]%NoDup_cons). split_and!; [by eapply tied_delete|by apply keys_delete|done..].
  - (* destroy of a running vCPU *)
    destruct Hm as (_ & -> & _). destruct (td_thread _ _ Ht i c H H0) as [p Hp]. by rewrite lookup_empty in Hp.
  - done.
  - (* end *)
    destruct Hm as (Hk & -> & _). split_and!; [done|by apply keys_nil|done..].
Qed.

Lemma world_inv_path l w w' : path l w w' -> world_inv w -> world_inv w'.
Proof using Hnodup. induction 1 as [|a w1 w2 l w3 Hs _ IH]; [done|]. intros Hw. by apply IH, (world_inv_step a w1). Qed.

Lemma world_inv_initial (w : world) : initial ps w -> world_inv w.
Proof using Type.
  intros [Hm Ht Hc Hd Hi _]. unfold world_inv. rewrite Hm, Ht, Hc. cbn [main_inv]. split_and!.
  - split; [done|]. intros i c Hci Hr. apply Hi in Hci as [Hs _]. congruence.
  - done.
  - intros j. rewrite <- elem_of_dom, Hd. apply elem_of_list_to_set.
  - intros j [? Hj]. by rewrite lookup_empty in Hj.
  - intros i Hin. by apply elem_of_empty in Hin.
Qed.
End invariant.

(** *** One thread in the world *)

Section view.
Context {E : Env} {O : Type} `{!Device O} (plat : platform) (hs : hv_state) (exit0 : hv_exit) (log_level : Z).
Context (ps : list positive) (Hnodup : NoDup ps) (i : positive).
Local Abbreviation world := (@world O).
Local Abbreviation wstep := (wstep plat hs exit0 log_level ps).

(** A vCPU that [vm_start] has not reached yet. *)
Definition startable (m : main_pc) : bool :=
  match m with MStart _ todo => bool_decide (i ∈ todo) | _ => false end.

(** Where the thread of [i] is, or will be when it is created. *)
Definition pc_of (w : world) : pc :=
  default (if startable (w_main w) then AtStart else Ended None) (w_threads w !! i).

Definition step_by (a : label) : nat :=
  match a with LThread j _ => if decide (i = j) then 1 else 0 | _ => 0 end.
Definition run_by (a : label) : nat :=
  match a with LThread j AtRun => if decide (i = j) then 1 else 0 | _ => 0 end.

(** What a step is to the thread of [i]: one of its segments; or another's step,
    which ends it or leaves it where it is, its statistics unread and a request to
    stop it in place. *)
Inductive moved : label -> world -> world -> Prop :=
| mv_thread w w' p c p' c' v st st' h h' :
    w_threads w !! i = Some p -> ended p = false -> w_cpus w !! i = Some c ->
    thread_step plat hs exit0 v p st c h = Ok (p', c', st') h' ->
    w_threads w' !! i = Some p' -> w_cpus w' !! i = Some c' ->
    moved (LThread i p) w w'
| mv_ended a w w' : step_by a = 0%nat -> run_by a = 0%nat -> ended (pc_of w') = true -> moved a w w'
| mv_other a w w' c c' :
    step_by a = 0%nat -> run_by a = 0%nat -> pc_of w' = pc_of w ->
    w_cpus w !! i = Some c -> w_cpus w' !! i = Some c' -> vc_stats c' = vc_stats c ->
    (is_Some (w_threads w !! i) ->
      is_Some (w_threads w' !! i) /\ (should_stop c <> 0 -> should_stop c' <> 0)) ->
    moved a w w'.

Lemma live_cpu (w : world) : world_inv ps w -> ended (pc_of w) = false -> is_Some (w_cpus w !! i).
Proof using Type.
  intros ([Ht _] & Hm & _) He. unfold pc_of in He. destruct (w_threads w !! i) as [p|] eqn:Hp.
  - destruct (Ht i p Hp) as (c & Hc & _). by exists c.
  - cbn [default] in He. unfold startable in He. destruct (w_main w) as [dn todo| | | | | |]; try done.
    case_bool_decide as Hin; [|done]. destruct Hm as (Hps & Hk & _). apply (Hk i). rewrite Hps. apply elem_of_app. by right.
Qed.

(** A step that leaves the thread's entry alone. *)
Lemma moved_rest a (w w' : world) :
  world_inv ps w -> step_by a = 0%nat -> run_by a = 0%nat ->
  w_threads w' !! i = w_threads w !! i ->
  startable (w_main w') = startable (w_main w) \/ startable (w_main w') = false ->
  (forall c, w_cpus w !! i = Some c -> exists c', w_cpus w' !! i = Some c' /\ vc_stats c' = vc_stats c /\
     (is_Some (w_threads w !! i) -> should_stop c <> 0 -> should_stop c' <> 0)) ->
  moved a w w'.
Proof using Type.
  intros Hw Hs Hr Ht Hst Hc. destruct (ended (pc_of w')) eqn:He; [by apply mv_ended|].
  assert (pc_of w' = pc_of w) as Hpc.
  { unfold pc_of in *. rewrite Ht in *. destruct (w_threads w !! i); [done|]. cbn [default] in *.
    destruct Hst as [->|Hf]; [done|]. by rewrite Hf in He. }
  destruct (live_cpu w Hw) as [c Hci]; [by rewrite <- Hpc|]. destruct (Hc c Hci) as (c' & Hc' & Hstat & Hstop).
  eapply mv_other; eauto. intros H. rewrite Ht. auto.
Qed.

(** A step that leaves every thread and vCPU alone. *)
Lemma moved_main a (w w' : world) :
  world_inv ps w -> step_by a = 0%nat -> run_by a = 0%nat -> w_threads w' = w_threads w -> w_cpus w' = w_cpus w ->
  startable (w_main w') = false -> moved a w w'.
Proof using Type.
  intros Hw Hs Hr Ht Hc Hst. apply moved_rest; [done..|by rewrite Ht|by right|]. intros c Hci. exists c. by rewrite Hc.
Qed.

Lemma not_started dn todo (ts : gmap positive pc) : ps = dn ++ i :: todo -> keys_in dn ts -> ts !! i = None.
Proof using Hnodup.
  intros Hps Hk. destruct (ts !! i) as [p|] eqn:Hp; [|done]. pose proof (Hk i ltac:(by eexists)) as Hin.
  rewrite Hps in Hnodup. apply NoDup_app in Hnodup as (_ & Hdis & _). destruct (Hdis i Hin (list_elem_of_here _ _)).
Qed.

Lemma step_moved a w w' : world_inv ps w -> wstep a w w' -> moved a w w'.
Proof using Hnodup.
  intros Hw Hstep. pose proof Hw as (Ht & Hm & _).
  destruct Hstep; cbn [w_cpus w_threads w_main w_cancel main_inv] in *; try by apply moved_main.
  - (* thread *)
    destruct (decide (i = i0)) as [<-|Hne].
    { eapply mv_thread; cbn; [done|done|done|eassumption|apply lookup_insert_eq|apply lookup_insert_eq]. }
    apply moved_rest; cbn; [done|by rewrite decide_False|destruct p; by rewrite ?decide_False|by rewrite lookup_insert_ne|by left|].
    intros c0 Hc0. exists c0. by rewrite lookup_insert_ne.
  - (* cancel *)
    destruct (decide (i = i0)) as [<-|Hne].
    { apply mv_ended; [done..|]. unfold pc_of. cbn. by rewrite lookup_insert_eq. }
    apply moved_rest; cbn; [done..|by rewrite lookup_insert_ne|by left|]. intros c0 Hc0. by exists c0.
  - (* start *)
    destruct Hm as (Hps & Hk & Hin). destruct (vcpu_start_state _ _ _ _ _ H0) as [(_ & Hr & _ & Hstat)|[? _]]; [|lia].
    destruct (decide (i = i0)) as [<-|Hne].
    + assert (ts !! i = None) as Hn by (by eapply not_started).
      rewrite decide_False by (intros Hcr; destruct (td_thread _ _ Ht i c H Hcr) as [p Hp]; congruence).
      eapply mv_other; cbn; [done|done| |done|apply lookup_insert_eq|done|by rewrite Hn; intros []].
      unfold pc_of, startable. cbn. rewrite lookup_insert_eq, Hn. cbn. rewrite bool_decide_eq_true_2; [done|apply list_elem_of_here].
    + apply moved_rest; cbn; [done..| | |].
      * case_decide; [done|]. by rewrite lookup_insert_ne.
      * left. apply bool_decide_ext. rewrite elem_of_cons. intuition congruence.
      * intros c0 Hc0. exists c0. by rewrite lookup_insert_ne.
  - (* start fails *)
    destruct Hm as (Hps & Hk & Hin). destruct (decide (i = i0)) as [<-|Hne].
    + apply mv_ended; [done..|]. unfold pc_of. cbn. by erewrite not_started.
    + apply moved_rest; cbn; [done..|by right|]. intros c0 Hc0. exists c0. by rewrite lookup_insert_ne.
  - (* stop *)
    apply stop_request_keeps in H1 as ->. apply moved_rest; cbn; [done..|by right|]. intros c0 Hc0.
    destruct (decide (i = i0)) as [<-|Hne]; [|exists c0; by rewrite lookup_insert_ne].
    rewrite lookup_insert_eq. eexists. split; [done|]. by simplify_eq.
  - (* join *)
    destruct (decide (i = i0)) as [<-|Hne].
    { apply mv_ended; [done..|]. unfold pc_of. cbn. by rewrite lookup_delete_eq. }
    apply moved_rest; cbn; [done..|by rewrite lookup_delete_ne|by right|]. intros c0 Hc0. exists c0. by rewrite lookup_insert_ne.
  - (* destroy *)
    destruct Hm as (_ & -> & _). apply mv_ended; [done..|]. unfold pc_of. cbn. by rewrite lookup_empty.
  - (* destroy of a running vCPU *)
    destruct Hm as (_ & -> & _). destruct (td_thread _ _ Ht i0 c H H0) as [p Hp]. by rewrite lookup_empty in Hp.
Qed.
End view.

(** ** The loops of [Vm] as executions *)

(** ** The properties *)

Section properties.
Context {E : Env} {O : Type} `{!Device O} (plat : platform) (hs : hv_state) (exit0 : hv_exit) (log_level : Z).
Context (ps : list positive).
Local Abbreviation world := (@world O).
Local Abbreviation wstep := (wstep plat hs exit0 log_level ps).
Local Abbreviation path := (path plat hs exit0 log_level ps).

(** [C11] No thread outlives its vCPU, in any interleaving.  From the idle vCPUs that
    [vm_create_vcpus] leaves, whatever the guests, the devices and the scheduler do
    and wherever the start fails: each thread that has not been joined has its vCPU,
    in the running state; each vCPU in the running state has its thread; so
    [vm_destroy] frees no vCPU under a thread, never has to stop one itself, and
    when the main thread is through, no vCPU and no thread is left. *)
Theorem no_thread_outlives (w w' : world) l :
  initial ps w -> path l w w' ->
  (forall i p, w_threads w' !! i = Some p -> exists c, w_cpus w' !! i = Some c /\ vc_state c = VCPU_STATE_RUNNING) /\
  (forall i c, w_cpus w' !! i = Some c -> vc_state c = VCPU_STATE_RUNNING -> is_Some (w_threads w' !! i)) /\
  (forall i l', w_main w' <> MDestroyJoin i l') /\
  (w_main w' = MEnd -> w_cpus w' = ∅ /\ w_threads w' = ∅).
Proof.
  intros Hi Hp. pose proof (in_nodup _ _ Hi) as Hnd. apply world_inv_initial in Hi.
  destruct (world_inv_path _ _ _ _ _ Hnd _ _ _ Hp Hi) as ([H1 H2] & Hm & _).
  split_and!; [exact H1|exact H2| |].
  - intros i l' Heq. by rewrite Heq in Hm.
  - intros Heq. by rewrite Heq in Hm.
Qed.
End properties.
