(* ===== verification/Schedules.v ===== *)
(** * What every schedule of the threads ends with (src/vcpu.c, src/vm.c, src/main.c)

    Budgets over the executions of [Threads]: what a thread has left once it is asked
    to stop, what the limit on exits leaves it, what the main thread has left to do;
    and that before its end the main thread, or the thread it waits for, can move. *)

From S2P Require Import Prelude HvTypes Host Hypervisor Kvm GuestMem VmMem Devices Machine Vcpu Vm Threads.

(** ** What a segment spends *)

Section spending.
Context {E : Env} {O : Type} `{!Device O} (plat : platform) (hs : hv_state) (exit0 : hv_exit).
Local Abbreviation store := (gmap positive O).

(** After a request to stop: the steps a thread has left, and its guest entries. *)
Definition stop_steps (p : pc) : nat :=
  match p with AtStart => 2 | AtTest => 1 | AtRun => 3 | AtExit => 2 | Ended _ => 0 end.
Definition stop_runs (p : pc) : nat := match p with AtRun => 1 | _ => 0 end.

Lemma stopped_segment v p (st : store) c h p' c' st' h' :
  thread_step plat hs exit0 v p st c h = Ok (p', c', st') h' -> ended p = false -> should_stop c <> 0 ->
  (S (stop_steps p') <= stop_steps p /\ stop_runs p' = 0)%nat.
Proof.
  intros H He Hs. destruct p; [..|done]; cbn [thread_step] in H.
  - apply bind_inv in H as ([ok c1] & h1 & _ & H). minv H. simplify_eq. destruct ok; cbn; lia.
  - rewrite (proj2 (Z.eqb_neq _ _) Hs) in H. minv H. simplify_eq. cbn. lia.
  - unfold run_segment, errno_now in H. minv H; simplify_eq; cbn; try case_match; cbn; lia.
  - unfold exit_segment in H. minv H; simplify_eq; cbn; try case_match; cbn; lia.
Qed.

(** Against the limit on exits: the turns a vCPU has left, each of three steps. *)
Definition turns_left (c : vcpu) : nat := Z.to_nat ((1002 - exit_count (vc_stats c)) / 2).
Definition steps_left (p : pc) (c : vcpu) : nat :=
  match p with
  | AtStart => 3 * turns_left c + 1 | AtTest => 3 * turns_left c | AtRun => 3 * turns_left c - 1
  | AtExit => 3 * turns_left c - 2 | Ended _ => 0
  end.
Definition runs_left (p : pc) (c : vcpu) : nat :=
  match p with AtStart | AtTest | AtRun => turns_left c | AtExit => turns_left c - 1 | Ended _ => 0 end.

Definition within (c : vcpu) : Prop := stats_ok (vc_stats c) /\ exit_count (vc_stats c) <= 1000.

Lemma within_turns c : within c -> (1 <= turns_left c)%nat.
Proof. intros [_ Hle]. unfold turns_left. ulia. Qed.

Lemma exit_spends v (st : store) c h p' c' st' h' :
  exit_segment hs exit0 v st c h = Ok (p', c', st') h' -> within c ->
  ended p' = true \/ p' = AtTest /\ within c' /\ turns_left c' = (turns_left c - 1)%nat.
Proof.
  intros H [Hok Hle]. unfold exit_segment in H. apply bind_inv in H as (hv & h1 & _ & H).
  apply bind_inv in H as ([[r e] hv'] & h2 & _ & H). cbv beta iota zeta in H. destruct (r <? 0); [left; by minv H; simplify_eq|].
  apply bind_inv in H as ([[r2 c2] st2] & h3 & Hx & H). cbv beta iota zeta in H. destruct (r2 <? 0); [left; by minv H; simplify_eq|].
  apply handle_exit_stats in Hx as (_ & Hok2 & He2 & _); [|done]. cbn in He2.
  destruct (_ >? 1000) eqn:Hlim; [left; by minv H; simplify_eq|]. right. minv H. simplify_eq. split; [done|].
  assert (0 <= exit_count (vc_stats c)) as H0 by (unfold stats_ok in Hok; rewrite Forall_cons in Hok; apply Hok).
  assert (exit_count (vc_stats c2) = exit_count (vc_stats c) + 1) as He3 by ulia.
  cbn in *. bool_prop. unfold turns_left, within. cbn. split_and!; [|ulia|ulia].
  unfold stats_ok in *. rewrite !Forall_cons in *. cbn. intuition ulia.
Qed.

Lemma segment_spends `{HvRun : !HvRunLaws hs} v p (st : store) c h p' c' st' h' :
  thread_step plat hs exit0 v p st c h = Ok (p', c', st') h' -> ended p = false -> within c ->
  (S (steps_left p' c') <= steps_left p c)%nat /\
  ((if p is AtRun then 1 else 0) + runs_left p' c' <= runs_left p c)%nat /\
  (ended p' = true \/ within c').
Proof using Type.
  intros H He Hw. pose proof (within_turns c Hw) as Hpos.
  enough (ended p' = true \/ within c' /\
    ((S (steps_left p' c') <= steps_left p c)%nat /\ ((if p is AtRun then 1 else 0) + runs_left p' c' <= runs_left p c)%nat))
    as [Hend|(Hw' & Hs & Hr)]; [|by auto|].
  { destruct p' as [| | | |e]; [done..|]. split_and!; [| |by left]; destruct p; cbn in *; lia || done. }
  destruct p; [..|done]; cbn [thread_step] in H.
  - apply bind_inv in H as ([ok c1] & h1 & Hi & H). minv H. simplify_eq. destruct ok; [|by left]. right.
    assert (vc_stats c' = vc_stats c) as Hst by (unfold vcpu_thread_init in Hi; destruct plat; minv Hi; by simplify_eq).
    unfold within, turns_left in *. cbn. unfold turns_left. rewrite Hst in *. split_and!; [apply Hw|apply Hw|lia..].
  - minv H. simplify_eq. case_match; [by left|right]. split; [done|]. cbn. lia.
  - unfold run_segment, vcpu_run in H. destruct (vc_hv c) as [hv|]; [|done]. cbn [deref] in H.
    rewrite !bind_assoc, bind_ret in H. destruct (hvl_run hv h) as (ret & hv' & h1 & Hrun & Hret & _).
    rewrite !bind_assoc, (bind_Ok _ _ _ _ _ Hrun) in H. cbv beta iota in H. rewrite !bind_ret in H. cbv beta iota in H.
    destruct Hret as [->|[-> Herr]].
    + change (0 <? 0) with false in H. cbv iota in H. minv H. simplify_eq. right. split; [exact Hw|]. cbn. unfold turns_left in *. cbn. lia.
    + change (-1 <? 0) with true in H. cbv iota in H. unfold errno_now, mbind, M_bind in H.
      rewrite (proj2 (Z.eqb_neq _ _) Herr) in H. unfold mret, M_ret in H. left. by simplify_eq.
  - destruct (exit_spends _ _ _ _ _ _ _ _ H Hw) as [?|(-> & Hw' & Ht)]; [by left|right]. split; [done|]. cbn. lia.
Qed.
End spending.

(** ** Executions *)

Section schedules.
Context {E : Env} {O : Type} `{!Device O} (plat : platform) (hs : hv_state) (exit0 : hv_exit) (log_level : Z).
Context (ps : list positive).
Local Abbreviation world := (@world O).
Local Abbreviation wstep := (wstep plat hs exit0 log_level ps).
Local Abbreviation path := (path plat hs exit0 log_level ps).

(** How many steps the thread of [i] takes along an execution, and how many of them
    enter the guest. *)
Definition steps_of (i : positive) (l : list label) : nat := sum_list_with (step_by i) l.
Definition runs_of (i : positive) (l : list label) : nat := sum_list_with (run_by i) l.

(** What every step pays for from a budget, an execution does. *)
Lemma path_budget (I : world -> Prop) (B : world -> nat) (f : label -> nat) :
  (forall a w w', I w -> wstep a w w' -> I w' /\ (f a + B w' <= B w)%nat) ->
  forall l w w', I w -> path l w w' -> I w' /\ (sum_list_with f l + B w' <= B w)%nat.
Proof using Type.
  intros Hstep l w w' Hw Hp. induction Hp as [w|a w1 w2 l w3 Hs _ IH]; [done|].
  destruct (Hstep _ _ _ Hw Hs) as [H2 Hle]. destruct (IH H2) as [H3 Hle']. split; [done|].
  change (f a + sum_list_with f l + B w3 <= B w1)%nat. lia.
Qed.

(** The thread of [i] is over, or asked to stop. *)
Definition stopping (i : positive) (w : world) : Prop :=
  world_inv ps w /\ (ended (pc_of i w) = true \/
    exists c, w_cpus w !! i = Some c /\ should_stop c <> 0 /\ is_Some (w_threads w !! i)).

Lemma stopping_step i a (w w' : world) :
  NoDup ps -> stopping i w -> wstep a w w' ->
  stopping i w' /\
  (step_by i a + stop_steps (pc_of i w') <= stop_steps (pc_of i w))%nat /\
  (run_by i a + stop_runs (pc_of i w') <= stop_runs (pc_of i w))%nat.
Proof using Type.
  intros Hnd [Hw HI] Hstep. pose proof (world_inv_step _ _ _ _ _ Hnd _ _ _ Hstep Hw) as Hw'. unfold stopping.
  destruct (step_moved _ _ _ _ _ Hnd i _ _ _ Hw Hstep) as
    [w w' p c p' c' v st st' h h' Ht He Hc Hx Ht' Hc'|a w w' Hs Hr He|a w w' c c' Hs Hr Hpc Hc Hc' _ Hstop].
  - assert (pc_of i w = p /\ pc_of i w' = p') as [Hpw Hpw'] by (unfold pc_of; by rewrite Ht, Ht'). rewrite Hpw, Hpw' in *. clear Hpw Hpw'.
    destruct HI as [?|(c0 & Hc0 & Hs & _)]; [congruence|]. simplify_eq.
    destruct (stopped_segment _ _ _ _ _ _ _ _ _ _ _ _ Hx He Hs) as [H1 H2]. split.
    + split; [done|right]. exists c'. split_and!; [done| |by eexists]. by apply (thread_step_keeps _ _ _ _ _ _ _ _ _ _ _ _ Hx).
    + cbn [step_by run_by]. rewrite H2. destruct p; rewrite ?decide_True by done; cbn in *; lia.
  - rewrite Hs, Hr. destruct (pc_of i w'); try done. split; [by split; [|left]|cbn; lia].
  - rewrite Hs, Hr, Hpc. split; [|lia]. split; [done|]. destruct HI as [?|(c0 & Hc0 & Hs0 & Hth)]; [by left|right].
    simplify_eq. destruct (Hstop Hth) as [? Hk]. exists c'. auto.
Qed.

(** [C20] A request to stop is honoured at once.  However the threads are interleaved
    and whoever set [should_stop] of a vCPU (its own exits, [vm_stop], the signal
    handler), its thread takes at most three more segments, at most one of them in the
    guest, and is then over; nothing starts it again. *)
Theorem stopped_soon (w0 w w' : world) l0 l i p c :
  initial ps w0 -> path l0 w0 w ->
  w_threads w !! i = Some p -> w_cpus w !! i = Some c -> should_stop c <> 0 ->
  path l w w' ->
  (steps_of i l <= 3)%nat /\ (runs_of i l <= 1)%nat.
Proof using Type.
  intros Hi Hp0 Hp Hc Hs Hl. pose proof (in_nodup _ _ Hi) as Hnd. apply world_inv_initial in Hi.
  apply (world_inv_path _ _ _ _ _ Hnd _ _ _ Hp0) in Hi.
  assert (stopping i w) as HI by (split; [done|right; exists c; split_and!; [done|done|by eexists]]).
  assert (pc_of i w = p) as Hpc by (unfold pc_of; by rewrite Hp). split.
  - destruct (path_budget (stopping i) (fun w => stop_steps (pc_of i w)) (step_by i) ltac:(intros; edestruct stopping_step as (? & ? & _); eauto) _ _ _ HI Hl) as [_ Hb].
    rewrite Hpc in Hb. unfold steps_of. destruct p; cbn in Hb; lia.
  - destruct (path_budget (stopping i) (fun w => stop_runs (pc_of i w)) (run_by i) ltac:(intros; edestruct stopping_step as (? & _ & ?); eauto) _ _ _ HI Hl) as [_ Hb].
    rewrite Hpc in Hb. unfold runs_of. destruct p; cbn in Hb; lia.
Qed.

(** The thread of [i] is over, or within the limit on exits; and what it has left. *)
Definition limited (i : positive) (w : world) : Prop :=
  world_inv ps w /\ (ended (pc_of i w) = true \/ exists c, w_cpus w !! i = Some c /\ within c).
Definition left_of (f : pc -> vcpu -> nat) (i : positive) (w : world) : nat :=
  match w_cpus w !! i with Some c => f (pc_of i w) c | None => 0 end.

Lemma limited_step `{HvRun : !HvRunLaws hs} i a (w w' : world) :
  NoDup ps -> limited i w -> wstep a w w' ->
  limited i w' /\
  (step_by i a + left_of steps_left i w' <= left_of steps_left i w)%nat /\
  (run_by i a + left_of runs_left i w' <= left_of runs_left i w)%nat.
Proof using Type.
  intros Hnd [Hw HI] Hstep. pose proof (world_inv_step _ _ _ _ _ Hnd _ _ _ Hstep Hw) as Hw'. unfold limited, left_of.
  destruct (step_moved _ _ _ _ _ Hnd i _ _ _ Hw Hstep) as
    [w w' p c p' c' v st st' h h' Ht He Hc Hx Ht' Hc'|a w w' Hs Hr He|a w w' c c' Hs Hr Hpc Hc Hc' Hstat _].
  - assert (pc_of i w = p /\ pc_of i w' = p') as [Hpw Hpw'] by (unfold pc_of; by rewrite Ht, Ht').
    rewrite Hpw, Hpw', Hc, Hc' in *. clear Hpw Hpw'. destruct HI as [?|(c0 & Hc0 & Hin)]; [congruence|]. simplify_eq.
    destruct (segment_spends _ _ _ _ _ _ _ _ _ _ _ _ Hx He Hin) as (H1 & H2 & H3). split; [|split].
    + split; [done|]. destruct H3 as [?|?]; [by left|right; by exists c'].
    + cbn [step_by]. rewrite decide_True by done. lia.
    + cbn [run_by]. destruct p; rewrite ?decide_True by done; cbn in *; lia.
  - rewrite Hs, Hr. destruct (pc_of i w'); try done. split; [by split; [|left]|]. split; destruct (w_cpus w' !! i); cbn; lia.
  - rewrite Hs, Hr, Hpc, Hc, Hc'. assert (turns_left c' = turns_left c) as Htl by (unfold turns_left; by rewrite Hstat).
    split; [|split; destruct (pc_of i w); cbn [steps_left runs_left]; rewrite ?Htl; lia]. split; [done|].
    destruct HI as [?|(c0 & Hc0 & Hin)]; [by left|right]. simplify_eq. exists c'. split; [done|]. unfold within. by rewrite Hstat.
Qed.

Lemma limited_initial i (w : world) :
  initial ps w -> limited i w /\ (left_of steps_left i w <= 1504)%nat /\ (left_of runs_left i w <= 501)%nat.
Proof using Type.
  intros Hi. pose proof (world_inv_initial _ _ Hi) as Hw. destruct Hi as [Hm Ht _ Hd Hidle _]. unfold limited, left_of, pc_of.
  rewrite Hm, Ht, lookup_empty. cbn [default startable].
  destruct (w_cpus w !! i) as [c|] eqn:Hc.
  - destruct (Hidle i c Hc) as [_ Hz]. assert (turns_left c = 501%nat) as Htl by (unfold turns_left; by rewrite Hz).
    split; [split; [done|right; exists c; split; [done|]]|split].
    + unfold within. rewrite Hz. split; [repeat constructor|]; cbn; lia.
    + case_bool_decide; cbn [steps_left]; rewrite ?Htl; lia.
    + case_bool_decide; cbn [runs_left]; rewrite ?Htl; lia.
  - split; [split; [done|left]|split; lia]. rewrite bool_decide_eq_false_2; [done|].
    rewrite <- (elem_of_list_to_set (C:=gset positive)), <- Hd, elem_of_dom, Hc. by intros [].
Qed.

(** Every thread ends, under every schedule.  From the idle vCPUs of
    [vm_create_vcpus], with a backend whose run is not interrupted by signals, no
    interleaving of the threads, the stops and the main thread lets the thread of a
    vCPU make more than 1504 steps or enter the guest more than 501 times. *)
Theorem threads_terminate `{HvRun : !HvRunLaws hs} (w w' : world) l i :
  initial ps w -> path l w w' -> (steps_of i l <= 1504)%nat /\ (runs_of i l <= 501)%nat.
Proof using Type.
  intros Hi Hl. pose proof (in_nodup _ _ Hi) as Hnd. destruct (limited_initial i w Hi) as (HI & Hs & Hr). split.
  - destruct (path_budget (limited i) (left_of steps_left i) (step_by i)
      ltac:(intros; edestruct limited_step as (? & ? & _); eauto) _ _ _ HI Hl) as [_ Hb]. unfold steps_of. lia.
  - destruct (path_budget (limited i) (left_of runs_left i) (run_by i)
      ltac:(intros; edestruct limited_step as (? & _ & ?); eauto) _ _ _ HI Hl) as [_ Hb]. unfold runs_of. lia.
Qed.

(** *** The main thread *)

(** The steps of the main thread left, its waits apart. *)
Definition main_left (m : main_pc) : nat :=
  match m with
  | MStart _ todo => length todo + 3 * length ps + 4
  | MWait => 3 * length ps + 3
  | MStop l _ => 2 * length l + length ps + 2
  | MJoin _ l _ => 2 * length l + length ps + 3
  | MDestroy l => length l + 1
  | MDestroyJoin _ l => length l + 2
  | MEnd => 0
  end.
Definition by_main (a : label) : nat := match a with LMain => 1 | _ => 0 end.

Lemma main_left_step a (w w' : world) :
  world_inv ps w -> wstep a w w' -> (by_main a + main_left (w_main w') <= main_left (w_main w))%nat.
Proof using Type.
  intros (Ht & Hm & _) Hstep. destruct Hstep; cbn in *; try lia.
  - destruct Hm as (-> & _). rewrite length_app. lia.
  - destruct Hm as (_ & -> & _). destruct (td_thread _ _ Ht i c H H0) as [p Hp]. by rewrite lookup_empty in Hp.
Qed.

(** Who acts for vCPU [i]: its thread, or the cancellation that ends it. *)
Definition act_by (i : positive) (a : label) : nat :=
  match a with LThread j _ | LCancel j => if decide (i = j) then 1 else 0 | _ => 0 end.
(** Everything but another second of waiting. *)
Definition work (a : label) : nat := match a with LPoll => 0 | _ => 1 end.
Definition work_of (l : list label) : nat := sum_list_with work l.

Lemma steps_left_pos p c : within c -> ended p = false -> (1 <= steps_left p c)%nat.
Proof using Type. intros Hw He. pose proof (within_turns c Hw). destruct p; cbn in *; lia || done. Qed.

Lemma act_spends `{HvRun : !HvRunLaws hs} i a (w w' : world) :
  NoDup ps -> limited i w -> wstep a w w' ->
  (act_by i a + left_of steps_left i w' <= left_of steps_left i w)%nat.
Proof using Type.
  intros Hnd Hl Hstep. destruct (limited_step i a w w' Hnd Hl Hstep) as (_ & Hle & _).
  destruct a as [| |j p|j]; try exact Hle. cbn [act_by]. case_decide as Heq; [subst j|exact Hle].
  inversion Hstep as [|v cs st ts cn m h j p Hp He%cancel_live Hin| | | | | | | | | | | | | | |]; subst.
  destruct Hl as [_ [Hend|(c & Hc & Hw)]]; unfold left_of, pc_of in *; cbn in *; rewrite ?Hp in *; cbn in *; [congruence|].
  rewrite Hc, lookup_insert_eq. cbn. pose proof (steps_left_pos p c Hw He). lia.
Qed.

Lemma sum_le {A} (g f f' : A -> nat) l :
  (forall x, x ∈ l -> (g x + f' x <= f x)%nat) -> (sum_list_with g l + sum_list_with f' l <= sum_list_with f l)%nat.
Proof using Type.
  induction l as [|x l IH]; intros H; [done|]. cbn. pose proof (H x (list_elem_of_here _ _)).
  specialize (IH (fun y Hy => H y (list_elem_of_further _ _ _ Hy))). lia.
Qed.

Lemma sum_le_const {A} (f : A -> nat) n l : (forall x, (f x <= n)%nat) -> (sum_list_with f l <= n * length l)%nat.
Proof using Type. intros H. induction l as [|x l IH]; cbn [length sum_list_with]; [lia|]. specialize (H x). lia. Qed.

(** What the whole program has left. *)
Definition total_left (w : world) : nat :=
  (sum_list_with (fun i => left_of steps_left i w) ps + main_left (w_main w))%nat.

Lemma actor_known a (w w' : world) :
  world_inv ps w -> wstep a w w' -> work a = by_main a \/ exists i, i ∈ ps /\ act_by i a = 1%nat.
Proof using Type.
  intros Hw Hstep. assert (forall i p, w_threads w !! i = Some p -> ended p = false -> i ∈ ps) as Hin.
  { intros i p Hp He. pose proof Hw as (_ & Hm & _).
    destruct (w_main w) as [dn todo| |l k|j l k|l|j l|]; cbn [main_inv] in Hm.
    - destruct Hm as (-> & _ & Hk). apply elem_of_app. left. apply Hk. by eexists.
    - apply (proj2 Hm). by eexists.
    - apply Hm, Hm. by eexists.
    - apply Hm, Hm. by eexists.
    - destruct Hm as (_ & Hts & _). by rewrite Hts, lookup_empty in Hp.
    - done.
    - destruct Hm as (_ & Hts). by rewrite Hts, lookup_empty in Hp. }
  destruct Hstep; try (by left); right; exists i;
    (split; [eapply Hin; first [eassumption|by eapply cancel_live]|]); cbn; by rewrite decide_True.
Qed.

Lemma total_step `{HvRun : !HvRunLaws hs} a (w w' : world) :
  NoDup ps -> (forall i, limited i w) -> wstep a w w' ->
  (forall i, limited i w') /\ (work a + total_left w' <= total_left w)%nat.
Proof using Type.
  intros Hnd Hl Hstep. split; [intros i; by apply (limited_step i a w w' Hnd (Hl i) Hstep)|].
  pose proof (proj1 (Hl 1%positive)) as Hw. pose proof (main_left_step a w w' Hw Hstep) as Hmain.
  pose proof (sum_le (fun i => act_by i a) (fun i => left_of steps_left i w) (fun i => left_of steps_left i w') ps
    (fun i _ => act_spends i a w w' Hnd (Hl i) Hstep)) as Hsum. unfold total_left.
  destruct (actor_known a w w' Hw Hstep) as [->|(i & Hi & Hact)]; [lia|].
  pose proof (sum_list_with_in i (fun i => act_by i a) ps Hi) as Hone. cbn beta in Hone.
  destruct a; cbn in *; try lia; discriminate Hact.
Qed.

(** *** Never stuck *)

(** The hypervisor's vCPUs can be disposed of. *)
Definition cpus_live `{HvD : !HvDisposeLaws hs} (w : world) : Prop :=
  forall i c hv, w_cpus w !! i = Some c -> vc_hv c = Some hv -> hvd_live hv.

Lemma thread_step_live `{HvD : !HvDisposeLaws hs} v p (st : gmap positive O) c h p' c' st' h' :
  thread_step plat hs exit0 v p st c h = Ok (p', c', st') h' ->
  (forall hv, vc_hv c = Some hv -> hvd_live hv) -> forall hv, vc_hv c' = Some hv -> hvd_live hv.
Proof using Type.
  intros H Hl. destruct p; cbn [thread_step] in H.
  - apply bind_inv in H as ([ok c1] & h1 & Hi & H). minv H. simplify_eq. unfold vcpu_thread_init in Hi.
    destruct plat, (vc_hv c) as [x|] eqn:Hc; try (minv Hi; simplify_eq; by rewrite Hc).
    apply bind_inv in Hi as ([x|] & h2 & Hcr & Hi); [|minv Hi; simplify_eq; by rewrite Hc].
    pose proof (hvd_create _ _ _ _ _ Hcr) as Hx. minv Hi; simplify_eq; cbn; intros hv [= <-]; done.
  - minv H. by simplify_eq.
  - unfold run_segment, vcpu_run in H. destruct (vc_hv c) as [x|] eqn:Hc; [|done]. cbn [deref] in H.
    rewrite !bind_assoc, bind_ret, !bind_assoc in H. apply bind_inv in H as ([r x'] & h1 & Hrun & H).
    cbv beta iota in H. rewrite !bind_ret in H. cbv beta iota in H. apply hvd_run in Hrun; [|by apply Hl].
    unfold errno_now in H. destruct (r <? 0); minv H; simplify_eq; cbn; intros hv [= <-]; done.
  - unfold exit_segment in H. destruct (vc_hv c) as [x|] eqn:Hc; [|done]. cbn [deref] in H. rewrite bind_ret in H.
    apply bind_inv in H as ([[r e] x'] & h1 & Hget & H). cbv beta iota zeta in H. apply hvd_get_exit in Hget; [|by apply Hl].
    destruct (r <? 0); [minv H; simplify_eq; cbn; intros hv [= <-]; done|].
    apply bind_inv in H as ([[r2 c2] st2] & h2 & Hx & H). cbv beta iota zeta in H. apply handle_exit_hv in Hx.
    intros hv Hhv. enough (vc_hv c2 = Some hv) as H2 by (rewrite Hx in H2; cbn in H2; by simplify_eq).
    destruct (r2 <? 0); minv H; by simplify_eq.
  - minv H. by simplify_eq.
Qed.

Lemma live_step `{HvD : !HvDisposeLaws hs} a (w w' : world) : cpus_live w -> wstep a w w' -> cpus_live w'.
Proof using Type.
  intros Hl Hstep.
  assert (forall i c c', w_cpus w !! i = Some c -> (forall hv, vc_hv c' = Some hv -> hvd_live hv) ->
    forall j d hv, <[i := c']> (w_cpus w) !! j = Some d -> vc_hv d = Some hv -> hvd_live hv) as Hins.
  { intros i c c' Hc Hc' j d hv Hj Hd. destruct (decide (i = j)) as [<-|Hne].
    - rewrite lookup_insert_eq in Hj. simplify_eq. by apply Hc'.
    - rewrite lookup_insert_ne in Hj by done. by eapply Hl. }
  destruct Hstep; unfold cpus_live in *; cbn [w_cpus] in *; try exact Hl.
  - eapply Hins; [done|]. eapply thread_step_live; [done|]. intros hv Hhv. by eapply Hl.
  - eapply Hins; [done|]. intros hv Hhv. eapply Hl; [done|]. unfold vcpu_start in H0. case_decide; minv H0; by simplify_eq.
  - eapply Hins; [done|]. intros hv Hhv. eapply Hl; [done|]. unfold vcpu_start in H0. case_decide; minv H0; by simplify_eq.
  - apply stop_request_keeps in H1 as ->. eapply Hins; [done|]. intros hv Hhv. by eapply Hl.
  - apply stop_join_keeps in H1 as ->. eapply Hins; [done|]. intros hv Hhv. by eapply Hl.
  - intros j d hv Hj. apply lookup_delete_Some in Hj as [_ Hj]. by eapply Hl.
  - apply stop_request_keeps in H1 as ->. eapply Hins; [done|]. intros hv Hhv. by eapply Hl.
  - apply stop_join_keeps in H1 as ->. eapply Hins; [done|]. intros hv Hhv. by eapply Hl.
Qed.

Lemma vcpu_start_returns c h : exists r c' h', vcpu_start c h = Ok (r, c') h' /\ (r = 0 \/ r < 0).
Proof using Type.
  unfold vcpu_start. case_decide; [eexists _, _, _; split; [done|by left]|].
  unfold perform, mbind, M_bind. destruct (negb _); eexists _, _, _; (split; [reflexivity|lia]).
Qed.
Lemma info_not_printed : log_level < LOG_LEVEL_INFO -> (log_level >=? LOG_LEVEL_INFO) = false.
Proof using Type. rewrite Z.geb_leb. apply Z.leb_gt. Qed.
Lemma main_pc_end (m : main_pc) : m = MEnd \/ m <> MEnd.
Proof using Type. destruct m; (by left) || (by right). Qed.

Lemma stop_request_returns `{!HvExitLaws hs} c h : exists c' h', stop_request plat hs c h = Ok c' h'.
Proof using Type.
  unfold stop_request. destruct plat, (vc_hv (set_should_stop 1 c)) as [hv|]; try by eexists _, _.
  destruct (hvl_exit hv h) as (r & h1 & Hr & _). rewrite bind_assoc, (bind_Ok _ _ _ _ _ Hr). by eexists _, _.
Qed.

Lemma polls (v : vm) cs (st : gmap positive O) ts cn h :
  keys ps cs -> exists a w', wstep a (mk_world v cs st ts cn MWait h) w' /\ (a = LMain \/ a = LPoll).
Proof using Type.
  intros Hk. destruct (perform EvSleep h) as [[b l] h'|] eqn:Hp; [|done]. destruct b.
  { eexists LMain, _. split; [by eapply ws_signal|by left]. }
  set (stops := fun i => match cs !! i with Some c => negb (should_stop c =? 0) | None => false end).
  destruct (existsb stops ps) eqn:Hex.
  - apply existsb_exists in Hex as (i & Hi%list_elem_of_In & Hs). unfold stops in Hs. destruct (cs !! i) as [c|] eqn:Hc; [|done].
    eexists LMain, _. split; [|by left]. eapply ws_poll_stopped; [done|done|done|]. intros H0. by rewrite H0 in Hs.
  - eexists LPoll, _. split; [|by right]. eapply ws_poll; [done|]. intros i c Hi Hc.
    destruct (decide (should_stop c = 0)) as [?|Hs]; [done|]. enough (existsb stops ps = true) by congruence.
    apply existsb_exists. exists i. split; [by apply list_elem_of_In|]. unfold stops. rewrite Hc. by apply Z.eqb_neq in Hs as ->.
Qed.

(** A step that the main thread waits for: its own, or one of the thread it joins. *)
Definition awaited (m : main_pc) (a : label) : Prop :=
  match a, m with
  | LMain, _ | LPoll, _ => True
  | LThread i _, MJoin j _ _ => i = j
  | _, _ => False
  end.
(** The thread that the main thread joins has run into undefined behaviour. *)
Definition joins_fault (w : world) : Prop :=
  exists i l k p c u, w_main w = MJoin i l k /\ w_threads w !! i = Some p /\ w_cpus w !! i = Some c /\
    thread_step plat hs exit0 (w_vm w) p (w_objs w) c (w_host w) = Ub u.

Lemma can_step `{HvD : !HvDisposeLaws hs, !HvExitLaws hs} (w : world) :
  log_level < LOG_LEVEL_INFO -> world_inv ps w -> cpus_live w -> w_main w <> MEnd ->
  (exists a w', wstep a w w' /\ awaited (w_main w) a) \/ joins_fault w.
Proof using Type.
  intros Hlog (Ht & Hm & _) Hl He. destruct w as [v cs st ts cn m h]. cbn [w_cpus w_threads w_main] in *.
  destruct m as [dn todo| |l k|i l k|l|i l|]; cbn [main_inv] in Hm; try done.
  - left. destruct Hm as (Hps & Hk & _). destruct todo as [|i todo]; [eexists LMain, _; split; [by apply ws_started|done]|].
    destruct (proj2 (Hk i)) as [c Hc]; [rewrite Hps; apply elem_of_app; right; apply list_elem_of_here|].
    destruct (vcpu_start_returns c h) as (r & c' & h' & Hr & [->|Hneg]); eexists LMain, _; (split; [|done]).
    + by eapply ws_start.
    + by eapply ws_start_fails.
  - left. destruct (polls v cs st ts cn h (proj1 Hm)) as (a & w' & Hs & Ha). exists a, w'. split; [done|]. by destruct Ha as [->| ->].
  - left. destruct Hm as (Hk & _ & Hsub). destruct l as [|i l].
    { destruct k; eexists LMain, _; (split; [by constructor|done]). }
    destruct (proj2 (Hk i)) as [c Hc]; [apply Hsub, list_elem_of_here|].
    destruct (decide (vc_state c = VCPU_STATE_RUNNING)); [|eexists LMain, _; split; [by eapply ws_stop_skip|done]].
    destruct (stop_request_returns c h) as (c' & h' & Hr). eexists LMain, _. split; [by eapply ws_stop|done].
  - destruct Hm as (_ & _ & _ & [p Hp]). destruct (td_cpu _ _ Ht i p Hp) as (c & Hc & _). destruct (ended p) eqn:Hend.
    + left. destruct p; try done. eexists LMain, _. split; [by eapply ws_join|done].
    + destruct (thread_step plat hs exit0 v p st c h) as [[[p' c'] st'] h'|u] eqn:Hstep; [left|right].
      * eexists (LThread i p), _. split; [by eapply ws_thread|done].
      * by exists i, l, k, p, c, u.
  - left. destruct Hm as (Hk & -> & _). destruct l as [|i l]; [eexists LMain, _; split; [by constructor|done]|].
    destruct (proj2 (Hk i)) as [c Hc]; [apply list_elem_of_here|].
    destruct (decide (vc_state c = VCPU_STATE_RUNNING)) as [Hr|Hr].
    { destruct (td_thread _ _ Ht i c Hc Hr) as [p Hp]. by rewrite lookup_empty in Hp. }
    destruct (hvd_destroy (vc_hv c) h) as (h' & Hd & _); [intros hv Hhv; by eapply Hl|].
    eexists LMain, _. split; [|done]. eapply ws_destroy; [done|done|]. unfold vcpu_destroy. rewrite decide_False by done.
    rewrite bind_ret. cbv beta iota. rewrite (bind_Ok _ _ _ _ _ Hd). by rewrite info_not_printed.
Qed.

(** [C19] The program's threads and its shutdown complete, if its guests leave.  From the
    idle vCPUs of [vm_create_vcpus], whatever the guests and devices do, whichever thread
    creation fails and however the steps are interleaved: apart from the seconds the main
    thread waits, an execution has at most 1508 steps per vCPU and four more; and until the
    main thread has freed the last vCPU there is a next step, of its own or of the thread
    it is joining, unless that thread has run into undefined behaviour.  No cancellation is
    needed for it, and none interrupts a guest: the step of a thread in [vcpu_run] is the
    return of that call, so a guest that never leaves keeps the join waiting. *)
Theorem shutdown_completes `{HvRun : !HvRunLaws hs, HvD : !HvDisposeLaws hs, !HvExitLaws hs} (w w' : world) l :
  log_level < LOG_LEVEL_INFO -> initial ps w -> cpus_live w -> path l w w' ->
  (work_of l <= 1508 * length ps + 4)%nat /\
  (w_main w' = MEnd \/ (exists a w'', wstep a w' w'' /\ awaited (w_main w') a) \/ joins_fault w').
Proof using Type.
  intros Hlog Hi Hl Hp. pose proof (in_nodup _ _ Hi) as Hnd. split.
  - destruct (path_budget (fun w => forall i, limited i w) total_left work
      ltac:(intros a w1 w2 H1 H2; exact (total_step a w1 w2 Hnd H1 H2)) l w w'
      (fun i => proj1 (limited_initial i w Hi)) Hp) as [_ Hb].
    enough (total_left w <= 1508 * length ps + 4)%nat by (unfold work_of; lia).
    unfold total_left. rewrite (in_main _ _ Hi). cbn [main_left].
    enough (sum_list_with (fun i => left_of steps_left i w) ps <= 1504 * length ps)%nat by lia.
    apply sum_le_const. intros i. apply (limited_initial i w Hi).
  - assert (world_inv ps w' /\ cpus_live w') as (Hw & Hl').
    { apply world_inv_initial in Hi as Hw. clear - Hnd Hp Hw Hl. induction Hp as [w|a w1 w2 l w3 Hs _ IH]; [done|].
      apply IH; [by eapply live_step|by eapply world_inv_step]. }
    destruct (main_pc_end (w_main w')) as [?|He]; [by left|right]. by apply can_step.
Qed.
End schedules.

(** ** Witnesses: one vCPU on KVM, from its start to the end of the program *)

(** A host on which the first second of waiting brings a signal. *)
Definition signal_env : Env := fun tr e =>
  match e return answer e with
  | EvSleep => (true, [])
  | e => good_env tr e
  end.

Section witnesses.
#[local] Existing Instance signal_env.

Definition demo_world : world := mk_world full_vm demo_cpus plain_objects ∅ ∅ (MStart [] [1%positive]) empty_host.
Definition demo_exit : hv_exit := mk_hv_exit HV_EXIT_NONE UZero.
Local Abbreviation demo_path := (path LinuxX86 (kvm_state 3) demo_exit 1 [1%positive]).

Lemma demo_initial : initial [1%positive] demo_world.
Proof.
  split; try reflexivity.
  - intros i c Hc. cbn in Hc. unfold demo_cpus in Hc. apply lookup_singleton_Some in Hc as [_ <-]. by split.
  - apply NoDup_singleton.
Qed.

Ltac runs := lazy; reflexivity.

(** The signal arrives before the thread has run. *)
Lemma demo_stopped :
  exists w c w', demo_path [LMain; LMain; LMain; LMain] demo_world w /\
    w_threads w !! 1%positive = Some AtStart /\ w_cpus w !! 1%positive = Some c /\ should_stop c <> 0 /\
    demo_path [LThread 1 AtStart; LThread 1 AtTest; LMain; LMain; LMain; LMain] w w' /\ w_main w' = MEnd.
Proof.
  eexists _, _, _. split.
  { eapply path_cons; [eapply ws_start; [reflexivity|runs]|]. eapply path_cons; [eapply ws_started|].
    eapply path_cons; [eapply ws_signal; runs|]. eapply path_cons; [eapply ws_stop; [reflexivity|reflexivity|runs]|]. apply path_nil. }
  split; [reflexivity|]. split; [reflexivity|]. split; [discriminate|]. split; [|shelve].
  eapply path_cons; [eapply ws_thread; [reflexivity|reflexivity|reflexivity|runs]|]. eapply path_cons; [eapply ws_thread; [reflexivity|reflexivity|reflexivity|runs]|].
  eapply path_cons; [eapply ws_join; [reflexivity|reflexivity|runs]|]. eapply path_cons; [eapply ws_stopped|].
  eapply path_cons; [eapply ws_destroy; [reflexivity|discriminate|runs]|]. eapply path_cons; [eapply ws_end|]. apply path_nil.
  Unshelve. reflexivity.
Qed.

Lemma demo_runs : exists l w', demo_path l demo_world w' /\ w_main w' = MEnd /\ steps_of 1 l = 2%nat /\ work_of l = 10%nat.
Proof.
  destruct demo_stopped as (w & c & w' & H1 & _ & _ & _ & H2 & He). eexists _, w'.
  split; [exact (path_app _ _ _ _ _ _ _ _ _ _ H1 H2)|]. split; [exact He|]. by split.
Qed.

Lemma no_thread_outlives_witness :
  exists l w', demo_path l demo_world w' /\ w_cpus w' = ∅ /\ w_threads w' = ∅.
Proof.
  destruct demo_runs as (l & w' & Hp & He & _). exists l, w'. split; [exact Hp|].
  destruct (no_thread_outlives LinuxX86 (kvm_state 3) demo_exit 1 [1%positive] demo_world w' l demo_initial Hp)
    as (_ & _ & _ & Hend). exact (Hend He).
Defined.

Lemma stopped_soon_witness :
  exists w w' l, demo_path l w w' /\ w_main w' = MEnd /\ (steps_of 1 l <= 3)%nat /\ (runs_of 1 l <= 1)%nat.
Proof.
  destruct demo_stopped as (w & c & w' & H1 & Ht & Hc & Hs & H2 & He). eexists w, w', _. split; [exact H2|]. split; [exact He|].
  exact (stopped_soon LinuxX86 (kvm_state 3) demo_exit 1 [1%positive] demo_world w w' _ _ 1%positive AtStart c
    demo_initial H1 Ht Hc Hs H2).
Defined.

Lemma threads_terminate_witness :
  exists l w', demo_path l demo_world w' /\ w_main w' = MEnd /\ (steps_of 1 l <= 1504)%nat /\ (runs_of 1 l <= 501)%nat.
Proof.
  destruct demo_runs as (l & w' & Hp & He & _). exists l, w'. split; [exact Hp|]. split; [exact He|].
  exact (threads_terminate LinuxX86 (kvm_state 3) demo_exit 1 [1%positive] demo_world w' l 1%positive demo_initial Hp).
Defined.

Lemma demo_live : cpus_live (kvm_state 3) demo_world.
Proof.
  intros i c hv Hc Hv. cbn in Hc. unfold demo_cpus in Hc. apply lookup_singleton_Some in Hc as [_ <-]. cbn in Hv. simplify_eq.
  split; [by exists 128|by eexists].
Qed.

Lemma shutdown_completes_witness :
  exists l w', demo_path l demo_world w' /\ w_main w' = MEnd /\ (work_of l <= 1512)%nat.
Proof.
  destruct demo_runs as (l & w' & Hp & He & _). exists l, w'. split; [exact Hp|]. split; [exact He|].
  exact (proj1 (shutdown_completes LinuxX86 (kvm_state 3) demo_exit 1 [1%positive] demo_world w' l ltac:(reflexivity)
    demo_initial demo_live Hp)).
Defined.
End witnesses.
