(* ===== verification/Boot.v ===== *)
(** * The boot loader (src/boot.c)

    Loading a bzImage or a raw binary into guest RAM, the initrd, the kernel
    command line, the E820 map, and the first vCPU's registers.  A file is read
    whole into a heap buffer whose size is what [ftell] reported. *)

From Stdlib Require Import Ascii.
From S2P Require Import Prelude HvTypes Host Utils Hypervisor Kvm GuestMem VmMem Devices Vcpu Vm.

Definition BZIMAGE_MAGIC : Z := 0x53726448.
Definition HEADER_ADDR : Z := 0x1F1.
Definition RAMDISK_IMAGE_ADDR : Z := 0x218.
Definition RAMDISK_SIZE_ADDR : Z := 0x21C.
Definition CMDLINE_PTR_ADDR : Z := 0x228.
Definition E820_RAM : Z := 1.
Definition E820_RESERVED : Z := 2.

(** Offsets of the packed [struct linux_header], from [HEADER_ADDR]. *)
Definition HDR_setup_sects : Z := 0.
Definition HDR_boot_flag : Z := 13.
Definition HDR_header : Z := 17.
Definition HDR_version : Z := 21.
Definition HDR_code32_start : Z := 35.

(** The characters of a C string, without its terminator. *)
Fixpoint string_bytes (s : string) : list byte :=
  match s with
  | EmptyString => []
  | String c s => Z.of_N (N_of_ascii c) :: string_bytes s
  end.

Section boot.
Context {E : Env} (plat : platform) (hs : hv_state) (log_level : Z).
Local Abbreviation vcpus := (gmap positive vcpu).

(** [malloc]: a block of the size asked for, with arbitrary content. *)
Definition malloc (n : Z) : M ptr :=
  r ← perform (EvMalloc n);
  match r with
  | None => mret Null
  | Some l => alloc_block (resize (Z.to_nat n) 0 l)
  end.

(** [fread(buf, 1, n, fp)]: at most [n] bytes land in the buffer. *)
Definition fread (path : string) (buf : ptr) (n : Z) : M unit :=
  l ← perform (EvFread path n);
  store buf (take (Z.to_nat n) l).

(** The prefix the three loaders share: open, measure, allocate, read, close. *)
Definition read_file (path : string) : M (option (ptr * Z)) :=
  fp ← perform (EvFopen path "rb");
  if negb fp then mret None
  else
    size ← perform (EvFtell path);
    let size := u64 size in
    buf ← malloc size;
    if decide (buf = Null) then perform (EvFclose path);; mret None
    else
      fread path buf size;;
      perform (EvFclose path);;
      mret (Some (buf, size)).

(** [memcpy(dst, src, n)] *)
Definition memcpy (dst src : ptr) (n : Z) : M unit := d ← load src n; store dst d.

Definition load_bzimage (v : vm) (path : string) : M Z :=
  f ← read_file path;
  match f with
  | None => mret (-1)
  | Some (kernel_buf, kernel_size) =>
      if kernel_size <? 0x200 then free kernel_buf;; mret (-1)
      else
        let hdr := padd kernel_buf HEADER_ADDR in
        boot_flag ← load_le 2 hdr HDR_boot_flag;
        if negb (boot_flag =? 0xAA55) then free kernel_buf;; mret (-1)
        else
          header ← load_le 4 hdr HDR_header;
          if negb (header =? BZIMAGE_MAGIC) then free kernel_buf;; mret (-1)
          else
            (if log_level >=? LOG_LEVEL_INFO then load_le 2 hdr HDR_version;; mret tt else mret tt);;
            setup_sects ← load_le 1 hdr HDR_setup_sects;
            let setup_size := (setup_sects + 1) * 512 in
            let boot_size := kernel_size -64 setup_size in
            let hva := vm_gpa_to_hva v 0x10000 setup_size in
            if decide (hva = Null) then free kernel_buf;; mret (-1)
            else
              memcpy hva kernel_buf setup_size;;
              code32 ← load_le 4 hdr HDR_code32_start;
              let code32_start := if code32 =? 0 then 0x100000 else code32 in
              let hva := vm_gpa_to_hva v code32_start boot_size in
              if decide (hva = Null) then free kernel_buf;; mret (-1)
              else
                memcpy hva (padd kernel_buf setup_size) boot_size;;
                free kernel_buf;;
                mret 0
  end.

Definition load_initrd (v : vm) (path : string) (max_addr : Z) : M Z :=
  f ← read_file path;
  match f with
  | None => mret (-1)
  | Some (initrd_buf, initrd_size) =>
      let addr := and_not_int (max_addr -64 initrd_size) 0xfff in
      let initrd_addr := if addr <? 0x100000 then 0x10000000 else addr in
      let hva := vm_gpa_to_hva v initrd_addr initrd_size in
      if decide (hva = Null) then free initrd_buf;; mret (-1)
      else
        memcpy hva initrd_buf initrd_size;;
        free initrd_buf;;
        let hva := vm_gpa_to_hva v 0x10000 4 in
        (if decide (hva = Null) then mret tt
         else
           store_le 4 hva RAMDISK_IMAGE_ADDR initrd_addr;;
           store_le 4 hva RAMDISK_SIZE_ADDR initrd_size);;
        mret 0
  end.

Definition setup_cmdline (v : vm) (cmdline : string) : M Z :=
  let cmdline_addr := 0x20000 in
  let len := Z.of_nat (String.length cmdline) + 1 in
  let hva := vm_gpa_to_hva v cmdline_addr len in
  if decide (hva = Null) then mret (-1)
  else
    store hva (string_bytes cmdline ++ [0]);;
    let hva := vm_gpa_to_hva v 0x10000 4 in
    (if decide (hva = Null) then mret tt else store_le 4 hva CMDLINE_PTR_ADDR cmdline_addr);;
    mret 0.

(** One packed [struct e820_entry], written field by field. *)
Definition put_e820 (e820 : ptr) (i addr size type : Z) : M unit :=
  store_le 8 e820 (20 * i) addr;;
  store_le 8 e820 (20 * i + 8) size;;
  store_le 4 e820 (20 * i + 16) type.

Definition setup_e820 (v : vm) : M Z :=
  let hva := vm_gpa_to_hva v 0x10000 0x1000 in
  if decide (hva = Null) then mret (-1)
  else
    let e820 := padd hva 0x2D0 in
    put_e820 e820 0 0 0xA0000 E820_RAM;;
    put_e820 e820 1 0xA0000 0x60000 E820_RESERVED;;
    put_e820 e820 2 0x100000 (mem_size v -64 0x100000) E820_RAM;;
    store_le 1 hva 0x1E8 3;;
    mret 0.

(** The boot register files: protected mode for Linux, and for raw binaries the
    long-mode values. *)
Definition boot_sregs (cs_ar ds_ar : Z) (gdt idt : hv_dtable) (cr0 cr4 efer : Z) : hv_sregs :=
  let cs := mk_hv_segment 0x10 0 0xFFFFFFFF cs_ar in
  let ds := mk_hv_segment 0x18 0 0xFFFFFFFF ds_ar in
  mk_hv_sregs cs ds ds ds ds ds zero_segment zero_segment gdt idt cr0 0 0 cr4 0 efer 0.

Definition linux_sregs : hv_sregs :=
  boot_sregs 0x409B 0x4093 (mk_hv_dtable 0x5000 0x7 0) (mk_hv_dtable 0 0xFFFF 0) 0x11 0 0.
Definition linux_regs : hv_regs :=
  mk_hv_regs 0 0 0 0 0x10000 0 0 0 0 0 0 0 0 0 0 0 0x100000 0x2.
Definition raw_sregs : hv_sregs :=
  boot_sregs 0xA09B 0xC093 zero_dtable zero_dtable 0x80010001 0x620 0x1000.

Definition setup_vcpu_regs (c : vcpu) : M Z :=
  hv ← deref NullDeref (vc_hv c);
  ret ← hv_set_regs hs hv linux_regs;
  if ret <? 0 then mret (-1)
  else
    ret ← hv_set_sregs hs hv linux_sregs;
    if ret <? 0 then mret (-1) else mret 0.

(** A step of [boot_setup_linux] that is skipped when its input is NULL. *)
Definition optional_step {A} (o : option A) (f : A -> M Z) : M Z :=
  match o with Some a => f a | None => mret 0 end.

Definition boot_setup_linux (v : vm) (vs : vcpus) : M Z :=
  match kernel_path v with
  | None => mret (-1)
  | Some kernel =>
      ret ← load_bzimage v kernel;
      if ret <? 0 then mret (-1)
      else
        ret ← optional_step (initrd_path v) (fun p => load_initrd v p (mem_size v));
        if ret <? 0 then mret (-1)
        else
          ret ← optional_step (vm_cmdline v) (setup_cmdline v);
          if ret <? 0 then mret (-1)
          else
            ret ← setup_e820 v;
            if ret <? 0 then mret (-1)
            else
              c ← get_vcpu vs (default None (vm_vcpus v !! 0%nat));
              ret ← setup_vcpu_regs c;
              if ret <? 0 then mret (-1) else mret 0
  end.

(** vCPU 0 of a raw binary.  On ARM64 the entry point is stored for the vCPU's
    thread. *)
Definition setup_raw_entry (v : vm) (vs : vcpus) (entry : Z) : M (Z * vcpus) :=
  let p := default None (vm_vcpus v !! 0%nat) in
  match plat with
  | MacArm =>
      c ← get_vcpu vs p;
      mret (0, match p with Some i => <[i := set_initial entry 1 c]> vs | None => vs end)
  | _ =>
      c ← get_vcpu vs p;
      hv ← deref NullDeref (vc_hv c);
      hv_set_sregs hs hv raw_sregs;;
      hv_set_regs hs hv (entry_regs entry);;
      mret (0, vs)
  end.

Definition boot_setup_raw_binary (v : vm) (vs : vcpus) (path : string) (entry : Z) : M (Z * vcpus) :=
  f ← read_file path;
  match f with
  | None => mret (-1, vs)
  | Some (code, size) =>
      let hva := vm_gpa_to_hva v entry size in
      if decide (hva = Null) then free code;; mret (-1, vs)
      else
        memcpy hva code size;;
        free code;;
        setup_raw_entry v vs entry
  end.
End boot.

(** ** Files and RAM images

    [reads_file path data]: the file can be opened and has the content [data],
    and a buffer of its size can be allocated. *)
Definition reads_file {E : Env} (path : string) (data : list byte) : Prop :=
  forall tr,
    env_answer tr (EvFopen path "rb") = true /\
    env_answer tr (EvFtell path) = Z.of_nat (length data) /\
    (exists l, env_answer tr (EvMalloc (Z.of_nat (length data))) = Some l) /\
    env_answer tr (EvFread path (Z.of_nat (length data))) = data.

(** Guest RAM as one block [g] at guest address 0, with the content [ram]. *)
Record guest_ram (v : vm) (h : host) (g : positive) (ram : list byte) : Prop := {
  gr_region : ram_at_zero v g (Z.of_nat (length ram));
  gr_block : heap h !! g = Some ram;
  gr_small : Z.of_nat (length ram) < 18446744073709551616
}.

(** [put ram a d]: the image with the bytes [d] at guest address [a]. *)
Definition put (ram : list byte) (a : Z) (d : list byte) : list byte := splice ram (Z.to_nat a) d.

(** Little-endian field of a file image. *)
Definition file_field (data : list byte) (n : nat) (off : Z) : Z := le_dec (slice data (Z.to_nat off) n).

Lemma length_put ram a d :
  0 <= a -> a + Z.of_nat (length d) <= Z.of_nat (length ram) -> length (put ram a d) = length ram.
Proof. intros. apply length_splice. lia. Qed.

Lemma ram_translate v h g ram gpa n :
  guest_ram v h g ram -> 0 <= gpa -> 0 <= n -> gpa + n <= Z.of_nat (length ram) ->
  vm_gpa_to_hva v gpa n = Ptr g gpa.
Proof.
  intros [H0 _ Hs] ???. unfold ram_at_zero, vm_gpa_to_hva in *.
  destruct (mem_regions v) as [|r l]; [done|]. injection H0 as ->. simpl.
  rewrite decide_True; [simpl; f_equal; ulia|].
  unfold region_has. simpl. rewrite andb_true_iff, !Z.leb_le. ulia.
Qed.

Lemma guest_ram_put v h h' g ram a d :
  guest_ram v h g ram -> 0 <= a -> a + Z.of_nat (length d) <= Z.of_nat (length ram) ->
  heap h' = <[g := put ram a d]> (heap h) -> guest_ram v h' g (put ram a d).
Proof.
  intros [H0 Hg Hs] ?? Hh. split; rewrite ?length_put by done; [done| |done].
  by rewrite Hh, lookup_insert_eq.
Qed.

(** Another block does not matter. *)
Lemma guest_ram_heap v h h' g ram :
  guest_ram v h g ram -> heap h' !! g = heap h !! g -> guest_ram v h' g ram.
Proof. intros [H0 Hg Hs] Hh. split; [done| |done]. by rewrite Hh. Qed.

Lemma store_ram v h g ram a d :
  guest_ram v h g ram -> 0 <= a -> a + Z.of_nat (length d) <= Z.of_nat (length ram) ->
  store (Ptr g a) d h = Ok tt (set_heap (insert g (put ram a d)) h).
Proof.
  intros [_ Hg _] Ha Hb. unfold store. rewrite Hg.
  by rewrite (proj2 (in_range_spec _ _ _) (conj Ha (conj (Nat2Z.is_nonneg _) Hb))).
Qed.

Lemma load_block h b l o n :
  heap h !! b = Some l -> 0 <= o -> 0 <= n -> o + n <= Z.of_nat (length l) ->
  load (Ptr b o) n h = Ok (slice l (Z.to_nat o) (Z.to_nat n)) h.
Proof.
  intros Hl ???. unfold load. rewrite Hl. by rewrite (proj2 (in_range_spec _ _ _)).
Qed.

Lemma load_le_block h b l n o off :
  heap h !! b = Some l -> 0 <= o + off -> o + off + Z.of_nat n <= Z.of_nat (length l) ->
  load_le n (Ptr b o) off h = Ok (file_field l n (o + off)) h.
Proof.
  intros. unfold load_le. simpl.
  rewrite (bind_Ok _ _ _ _ _ (load_block h b l (o + off) (Z.of_nat n) ltac:(done) ltac:(lia) ltac:(lia) ltac:(lia))).
  by rewrite Nat2Z.id.
Qed.

Lemma splice_all (l d : list byte) : length d = length l -> splice l 0 d = d.
Proof.
  intros Hl. unfold splice. simpl. rewrite Hl, drop_ge by lia. apply app_nil_r.
Qed.

Lemma set_block_twice g x y h : set_heap (insert g y) (set_heap (insert g x) h) = set_heap (insert g y) h.
Proof. unfold set_heap. simpl. by rewrite insert_insert_eq. Qed.

Lemma set_block_id v h g ram : guest_ram v h g ram -> set_heap (insert g ram) h = h.
Proof.
  intros [_ Hg _]. unfold set_heap. rewrite insert_id by done. by destruct h.
Qed.

Section files.
Context {E : Env}.

Lemma read_file_ok path data h :
  reads_file path data -> Z.of_nat (length data) < 18446744073709551616 ->
  exists b h', read_file path h = Ok (Some (Ptr b 0, Z.of_nat (length data))) h' /\
    heap h !! b = None /\ heap h' = <[b := data]> (heap h).
Proof.
  intros Hf Hsz. unfold read_file.
  set (h1 := called (EvFopen path "rb") h). set (h2 := called (EvFtell path) h1).
  set (h3 := called (EvMalloc (Z.of_nat (length data))) h2).
  rewrite (bind_Ok _ _ _ true h1) by (unfold perform; by rewrite (proj1 (Hf _))). cbn [negb].
  rewrite (bind_Ok _ _ _ (Z.of_nat (length data)) h2)
    by (unfold perform; by rewrite (proj1 (proj2 (Hf _)))).
  cbv zeta. rewrite u64_small by ulia.
  destruct (Hf (trace h2)) as (_ & _ & [l Hm] & _).
  destruct (alloc_block_spec (resize (length data) 0 l) h3) as (b & Hb & Hfresh).
  assert (malloc (Z.of_nat (length data)) h2 = Ok (Ptr b 0) (set_heap (insert b (resize (length data) 0 l)) h3)) as Hmal.
  { unfold malloc. rewrite (bind_Ok _ _ _ (Some l) h3) by (unfold perform; by rewrite Hm).
    cbn iota. by rewrite Nat2Z.id. }
  rewrite (bind_Ok _ _ _ _ _ Hmal), decide_False by done.
  set (h4 := set_heap _ h3). set (h5 := called (EvFread path (Z.of_nat (length data))) h4).
  assert (fread path (Ptr b 0) (Z.of_nat (length data)) h4 = Ok tt (set_heap (insert b data) h5)) as Hfr.
  { unfold fread. rewrite (bind_Ok _ _ _ data h5)
      by (unfold perform; by rewrite (proj2 (proj2 (proj2 (Hf _))))).
    rewrite Nat2Z.id, firstn_all. unfold store.
    replace (heap h5 !! b) with (Some (resize (length data) 0 l)) by (simpl; by rewrite lookup_insert_eq).
    rewrite (proj2 (in_range_spec _ _ _)) by (rewrite length_resize; lia).
    by rewrite splice_all by by rewrite length_resize. }
  rewrite (bind_Ok _ _ _ _ _ Hfr). mrun. eexists b, _. split; [reflexivity|]. split; [done|].
  simpl. by rewrite insert_insert_eq.
Qed.

Lemma memcpy_ram v h g ram a b l o n :
  guest_ram v h g ram -> heap h !! b = Some l ->
  0 <= a -> 0 <= o -> 0 <= n -> a + n <= Z.of_nat (length ram) -> o + n <= Z.of_nat (length l) ->
  memcpy (Ptr g a) (Ptr b o) n h
  = Ok tt (set_heap (insert g (put ram a (slice l (Z.to_nat o) (Z.to_nat n)))) h).
Proof.
  intros Hr Hb ?????. unfold memcpy.
  rewrite (bind_Ok _ _ _ _ _ (load_block h b l o n Hb ltac:(lia) ltac:(lia) ltac:(lia))).
  eapply store_ram; [done..|]. rewrite length_slice; lia.
Qed.
End files.

(** ** The loaders, stage by stage, as functions on the RAM image *)

(** The fields of a bzImage. *)
Definition bz_setup_size (data : list byte) : Z := (file_field data 1 0x1F1 + 1) * 512.
Definition bz_code32 (data : list byte) : Z :=
  let c := file_field data 4 0x214 in if c =? 0 then 0x100000 else c.
Definition bz_magic (data : list byte) : Prop :=
  file_field data 2 0x1FE = 0xAA55 /\ file_field data 4 0x202 = BZIMAGE_MAGIC.

(** The setup part at 64 KiB, the rest where the header asks for. *)
Definition bzimage_image (data ram : list byte) : list byte :=
  let ss := Z.to_nat (bz_setup_size data) in
  put (put ram 0x10000 (take ss data)) (bz_code32 data) (drop ss data).
Definition bzimage_fits (data ram : list byte) : Prop :=
  bz_setup_size data <= Z.of_nat (length data) /\
  0x10000 + bz_setup_size data <= Z.of_nat (length ram) /\
  bz_code32 data + (Z.of_nat (length data) - bz_setup_size data) <= Z.of_nat (length ram).

Lemma file_field_bound data n off :
  bytes_ok data -> (Z.to_nat off + n <= length data)%nat -> 0 <= file_field data n off < 256 ^ Z.of_nat n.
Proof.
  intros Hd Hn. unfold file_field.
  pose proof (le_dec_bound _ (slice_ok data (Z.to_nat off) n Hd)) as Hb.
  by rewrite length_slice in Hb.
Qed.

Lemma bz_setup_bound data :
  bytes_ok data -> 0x200 <= Z.of_nat (length data) -> 512 <= bz_setup_size data <= 131072.
Proof.
  intros Hd Hl. unfold bz_setup_size.
  pose proof (file_field_bound data 1 0x1F1 Hd ltac:(lia)) as Hb.
  change (256 ^ Z.of_nat 1) with 256 in Hb. lia.
Qed.

Lemma bz_code32_bound data :
  bytes_ok data -> 0x218 <= Z.of_nat (length data) -> 0 < bz_code32 data < 4294967296.
Proof.
  intros Hd Hl. unfold bz_code32.
  pose proof (file_field_bound data 4 0x214 Hd ltac:(lia)) as Hb.
  change (256 ^ Z.of_nat 4) with 4294967296 in Hb.
  destruct (_ =? 0) eqn:H0; bool_prop; lia.
Qed.

Lemma slice_prefix (l : list byte) n : slice l 0 n = take n l.
Proof. done. Qed.
Lemma slice_suffix (l : list byte) o n : (o + n = length l)%nat -> slice l o n = drop o l.
Proof. intros. unfold slice. apply take_ge. rewrite length_drop. lia. Qed.

(** The heap once the file buffer is gone. *)
Lemma drop_buffer (m : gmap positive (list byte)) b l g x :
  m !! b = None -> is_Some (m !! g) -> delete b (<[g := x]> (<[b := l]> m)) = <[g := x]> m.
Proof.
  intros Hb [y Hg]. rewrite delete_insert_ne by congruence.
  by rewrite delete_insert_eq, delete_id.
Qed.

Section load_bzimage.
Context {E : Env} (v : vm) (path : string) (data : list byte) (log_level : Z).
Context (h : host) (g : positive) (ram : list byte).
Context (Hram : guest_ram v h g ram) (Hfile : reads_file path data) (Hdata : bytes_ok data).
Context (Hsize : Z.of_nat (length data) < 18446744073709551616).

(** The run once the file is in its buffer [b]. *)
Definition bz_buffer (b : positive) (h1 : host) : Prop :=
  heap h !! b = None /\ heap h1 = <[b := data]> (heap h).

Lemma bz_free b h1 :
  bz_buffer b h1 -> exists h', (free (Ptr b 0);; (mret (-1) : M Z)) h1 = Ok (-1) h' /\ heap h' = heap h.
Proof using Type.
  intros [Hb Hh]. mrun by (eapply free_ok; rewrite Hh; apply lookup_insert_eq).
  eexists. split; [reflexivity|]. simpl. rewrite Hh, delete_insert_eq. by apply delete_id.
Qed.

Lemma bz_field b h1 n off :
  bz_buffer b h1 -> 0 <= off -> 0x1F1 + off + Z.of_nat n <= Z.of_nat (length data) ->
  load_le n (padd (Ptr b 0) HEADER_ADDR) off h1 = Ok (file_field data n (0x1F1 + off)) h1.
Proof using Type.
  intros [_ Hh] ??. unfold HEADER_ADDR. simpl padd. eapply load_le_block; [|lia..].
  rewrite Hh. apply lookup_insert_eq.
Qed.

(** A file that is too small, or lacks the boot flag or the magic. *)
Lemma load_bzimage_rejects :
  Z.of_nat (length data) < 0x200 \/ 0x206 <= Z.of_nat (length data) /\ ~ bz_magic data ->
  exists h', load_bzimage log_level v path h = Ok (-1) h' /\ heap h' = heap h.
Proof using Hfile Hsize.
  intros Hc. destruct (read_file_ok path data h Hfile Hsize) as (b & h1 & Hrun & Hb).
  unfold load_bzimage. rewrite (bind_Ok _ _ _ _ _ Hrun). cbv beta iota.
  destruct (_ <? 0x200) eqn:Hs; bool_prop; [by apply bz_free|].
  destruct Hc as [?|[Hl Hm]]; [lia|]. cbv zeta.
  rewrite (bind_Ok _ _ _ _ _ (bz_field b h1 2 HDR_boot_flag Hb ltac:(done) ltac:(unfold HDR_boot_flag; lia))).
  change (0x1F1 + HDR_boot_flag) with 0x1FE.
  destruct (file_field data 2 0x1FE =? 0xAA55) eqn:Hf; [|by apply bz_free]. cbn [negb].
  rewrite (bind_Ok _ _ _ _ _ (bz_field b h1 4 HDR_header Hb ltac:(done) ltac:(unfold HDR_header; lia))).
  change (0x1F1 + HDR_header) with 0x202.
  destruct (file_field data 4 0x202 =? BZIMAGE_MAGIC) eqn:Hg; [|by apply bz_free].
  bool_prop. by destruct Hm.
Qed.

(** The size check lets through files that end before the magic. *)
Lemma load_bzimage_cut :
  0x200 <= Z.of_nat (length data) < 0x206 -> file_field data 2 0x1FE = 0xAA55 ->
  load_bzimage log_level v path h = Ub OutOfBounds.
Proof using Hfile Hsize.
  intros Hl Hf. destruct (read_file_ok path data h Hfile Hsize) as (b & h1 & Hrun & Hb & Hh).
  unfold load_bzimage. rewrite (bind_Ok _ _ _ _ _ Hrun). cbv beta iota.
  rewrite (proj2 (Z.ltb_ge _ _)) by lia. cbv zeta.
  rewrite (bind_Ok _ _ _ _ _ (bz_field b h1 2 HDR_boot_flag (conj Hb Hh) ltac:(done) ltac:(unfold HDR_boot_flag; lia))).
  change (0x1F1 + HDR_boot_flag) with 0x1FE. rewrite Hf, Z.eqb_refl. cbn [negb].
  apply bind_Ub. unfold load_le. apply bind_Ub. unfold load. cbn [padd HEADER_ADDR]. rewrite Hh, lookup_insert_eq.
  replace (in_range _ _ _) with false; [done|]. symmetry. apply not_true_iff_false. rewrite in_range_spec.
  unfold HEADER_ADDR, HDR_header. lia.
Qed.

(** Up to the first copy, for a file with the right magic. *)
Lemma load_bzimage_prefix :
  bz_magic data -> 0x208 <= Z.of_nat (length data) ->
  exists b h1, bz_buffer b h1 /\
  load_bzimage log_level v path h =
  (let setup_size := bz_setup_size data in
   let boot_size := Z.of_nat (length data) -64 setup_size in
   let hva := vm_gpa_to_hva v 0x10000 setup_size in
   if decide (hva = Null) then free (Ptr b 0);; mret (-1)
   else
     memcpy hva (Ptr b 0) setup_size;;
     code32 ← load_le 4 (padd (Ptr b 0) HEADER_ADDR) HDR_code32_start;
     let code32_start := if code32 =? 0 then 0x100000 else code32 in
     let hva := vm_gpa_to_hva v code32_start boot_size in
     if decide (hva = Null) then free (Ptr b 0);; mret (-1)
     else
       memcpy hva (padd (Ptr b 0) setup_size) boot_size;;
       free (Ptr b 0);;
       mret 0) h1.
Proof using Hfile Hsize.
  intros [Hf Hg] Hl. destruct (read_file_ok path data h Hfile Hsize) as (b & h1 & Hrun & Hb).
  exists b, h1. split; [exact Hb|].
  unfold load_bzimage. rewrite (bind_Ok _ _ _ _ _ Hrun). cbv beta iota.
  rewrite (proj2 (Z.ltb_ge _ _)) by lia. cbv zeta.
  rewrite (bind_Ok _ _ _ _ _ (bz_field b h1 2 HDR_boot_flag Hb ltac:(done) ltac:(unfold HDR_boot_flag; lia))).
  change (0x1F1 + HDR_boot_flag) with 0x1FE. rewrite Hf, Z.eqb_refl. cbn [negb].
  rewrite (bind_Ok _ _ _ _ _ (bz_field b h1 4 HDR_header Hb ltac:(done) ltac:(unfold HDR_header; lia))).
  change (0x1F1 + HDR_header) with 0x202. rewrite Hg, Z.eqb_refl. cbn [negb].
  assert ((if log_level >=? LOG_LEVEL_INFO
           then load_le 2 (padd (Ptr b 0) HEADER_ADDR) HDR_version;; mret tt else mret tt) h1 = Ok tt h1) as Hlog.
  { destruct (_ >=? _); [|done].
    by rewrite (bind_Ok _ _ _ _ _ (bz_field b h1 2 HDR_version Hb ltac:(done) ltac:(unfold HDR_version; lia))). }
  rewrite (bind_Ok _ _ _ _ _ Hlog).
  by rewrite (bind_Ok _ _ _ _ _ (bz_field b h1 1 HDR_setup_sects Hb ltac:(done) ltac:(unfold HDR_setup_sects; lia))).
Qed.

(** A kernel whose setup part claims more than the file has. *)
Lemma load_bzimage_truncated :
  bz_magic data -> 0x208 <= Z.of_nat (length data) < bz_setup_size data ->
  0x10000 + bz_setup_size data <= Z.of_nat (length ram) ->
  load_bzimage log_level v path h = Ub OutOfBounds.
Proof using All.
  intros Hm Hl Hr. pose proof (bz_setup_bound data Hdata ltac:(lia)) as Hss.
  destruct (load_bzimage_prefix Hm ltac:(lia)) as (b & h1 & [Hb Hh] & ->). cbv zeta.
  rewrite (ram_translate v h g ram) by (done || lia). rewrite decide_False by done.
  apply bind_Ub. unfold memcpy. apply bind_Ub. unfold load. rewrite Hh, lookup_insert_eq.
  replace (in_range data 0 (bz_setup_size data)) with false; [done|].
  symmetry. apply not_true_iff_false. rewrite in_range_spec. lia.
Qed.

Lemma load_bzimage_loads :
  bz_magic data -> 0x218 <= Z.of_nat (length data) -> bzimage_fits data ram ->
  exists h', load_bzimage log_level v path h = Ok 0 h' /\
    heap h' = <[g := bzimage_image data ram]> (heap h).
Proof using All.
  intros Hm Hl (Hf1 & Hf2 & Hf3).
  pose proof (bz_setup_bound data Hdata ltac:(lia)) as Hss.
  pose proof (bz_code32_bound data Hdata Hl) as Hc.
  destruct (load_bzimage_prefix Hm ltac:(lia)) as (b & h1 & [Hb Hh] & ->). cbv zeta.
  assert (b <> g) as Hne by (intros ->; rewrite (gr_block _ _ _ _ Hram) in Hb; done).
  assert (guest_ram v h1 g ram) as Hram1
    by (eapply guest_ram_heap; [exact Hram|]; by rewrite Hh, lookup_insert_ne).
  rewrite (ram_translate v h1 g ram) by (done || lia). rewrite decide_False by done.
  mrun by (eapply memcpy_ram; [exact Hram1|rewrite Hh; apply lookup_insert_eq|lia..]).
  change (slice data (Z.to_nat 0) ?n) with (take n data).
  set (ss := bz_setup_size data) in *. set (ram1 := put ram _ _). set (h2 := set_heap _ _).
  assert (length ram1 = length ram) as Hlen
    by (apply length_put; [lia|rewrite length_take; lia]).
  assert (guest_ram v h2 g ram1) as Hram2
    by (eapply guest_ram_put; [exact Hram1|lia|rewrite length_take; lia|done]).
  assert (heap h2 !! b = Some data) as Hb2
    by (simpl; rewrite lookup_insert_ne by done; rewrite Hh; apply lookup_insert_eq).
  rewrite (bind_Ok _ _ h2 (file_field data 4 0x214) h2)
    by (apply (load_le_block h2 b data 4 (0 + HEADER_ADDR) HDR_code32_start Hb2);
        unfold HEADER_ADDR, HDR_code32_start; lia).
  fold (bz_code32 data). rewrite (u64_small (_ - ss)) by ulia.
  rewrite (ram_translate v h2 g ram1) by (done || lia). rewrite decide_False by done.
  mrun by (eapply (memcpy_ram _ _ _ _ _ b data (0 + ss)); [exact Hram2|exact Hb2|lia..]).
  rewrite slice_suffix by lia. set (h3 := set_heap _ _).
  rewrite (bind_Ok _ _ _ _ _ (free_ok h3 b data ltac:(simpl; by rewrite lookup_insert_ne))).
  eexists. split; [reflexivity|]. simpl. rewrite insert_insert_eq, Hh.
  rewrite Z.add_0_l. apply drop_buffer; [done|]. rewrite (gr_block _ _ _ _ Hram). by eexists.
Qed.
End load_bzimage.

(** The initrd ends within a page of [max], and its address and size go to the
    boot parameters. *)
Definition initrd_place (max size : Z) : Z := (max - size) / 4096 * 4096.
Definition initrd_image (max : Z) (data ram : list byte) : list byte :=
  let a := initrd_place max (Z.of_nat (length data)) in
  put (put (put ram a data) (0x10000 + RAMDISK_IMAGE_ADDR) (le_enc 4 a))
    (0x10000 + RAMDISK_SIZE_ADDR) (le_enc 4 (Z.of_nat (length data))).

(** Storing a boot parameter at [0x10000 + off]. *)
Lemma store_param v h g ram n off x :
  guest_ram v h g ram -> 0 <= off -> 0x10000 + off + Z.of_nat n <= Z.of_nat (length ram) ->
  store_le n (Ptr g 0x10000) off x h
  = Ok tt (set_heap (insert g (put ram (0x10000 + off) (le_enc n x))) h).
Proof.
  intros. unfold store_le. simpl padd. eapply store_ram; [done|lia|]. rewrite length_le_enc. lia.
Qed.

Section load_initrd.
Context {E : Env} (v : vm) (path : string) (data : list byte) (max : Z).
Context (h : host) (g : positive) (ram : list byte).
Context (Hram : guest_ram v h g ram) (Hfile : reads_file path data).
Context (Hsize : Z.of_nat (length data) < 18446744073709551616).

Lemma load_initrd_prefix :
  exists b h1, heap h !! b = None /\ heap h1 = <[b := data]> (heap h) /\ b <> g /\
  guest_ram v h1 g ram /\
  load_initrd v path max h =
  (let initrd_size := Z.of_nat (length data) in
   let addr := (max -64 initrd_size) / 4096 * 4096 in
   let initrd_addr := if addr <? 0x100000 then 0x10000000 else addr in
   let hva := vm_gpa_to_hva v initrd_addr initrd_size in
   if decide (hva = Null) then free (Ptr b 0);; mret (-1)
   else
     memcpy hva (Ptr b 0) initrd_size;;
     free (Ptr b 0);;
     let hva := vm_gpa_to_hva v 0x10000 4 in
     (if decide (hva = Null) then mret tt
      else
        store_le 4 hva RAMDISK_IMAGE_ADDR initrd_addr;;
        store_le 4 hva RAMDISK_SIZE_ADDR initrd_size);;
     mret 0) h1.
Proof using Hram Hfile Hsize.
  destruct (read_file_ok path data h Hfile Hsize) as (b & h1 & Hrun & Hb & Hh).
  assert (b <> g) as Hne by (intros ->; rewrite (gr_block _ _ _ _ Hram) in Hb; done).
  exists b, h1. split_and!; auto.
  - eapply guest_ram_heap; [exact Hram|]. by rewrite Hh, lookup_insert_ne.
  - unfold load_initrd. rewrite (bind_Ok _ _ _ _ _ Hrun). cbv beta iota.
    by rewrite and_not_fff_eq by apply u64_range.
Qed.

Lemma load_initrd_loads :
  0x100000 + Z.of_nat (length data) <= max -> max <= Z.of_nat (length ram) ->
  exists h', load_initrd v path max h = Ok 0 h' /\ heap h' = <[g := initrd_image max data ram]> (heap h).
Proof using Hram Hfile Hsize.
  intros Hl Hm. destruct load_initrd_prefix as (b & h1 & Hb & Hh & Hne & Hram1 & ->). cbv zeta.
  pose proof (gr_small _ _ _ _ Hram) as Hsm.
  set (n := Z.of_nat (length data)) in *.
  rewrite (u64_small (max - n)) by (unfold is_u64; lia). fold (initrd_place max n).
  assert (0x100000 <= initrd_place max n <= max - n) as [Ha Ha'] by (unfold initrd_place; ulia).
  unfold initrd_image. fold n.
  set (a := initrd_place max n) in *. rewrite (proj2 (Z.ltb_ge _ _)) by lia.
  rewrite (ram_translate v h1 g ram) by (done || lia). rewrite decide_False by done.
  mrun by (eapply memcpy_ram; [exact Hram1|rewrite Hh; apply lookup_insert_eq|lia..]).
  rewrite slice_suffix by lia. change (drop (Z.to_nat 0) data) with data.
  set (ram1 := put ram a data). set (h2 := set_heap _ h1).
  assert (length ram1 = length ram) as Hlen by (apply length_put; lia).
  rewrite (bind_Ok _ _ _ _ _ (free_ok h2 b data ltac:(simpl; rewrite lookup_insert_ne by done;
    rewrite Hh; apply lookup_insert_eq))).
  set (h3 := set_heap _ h2).
  assert (guest_ram v h3 g ram1) as Hram3.
  { eapply guest_ram_heap; [eapply (guest_ram_put v h1 h2); [exact Hram1|lia..|reflexivity]|].
    simpl. by rewrite lookup_delete_ne. }
  rewrite (ram_translate v h3 g ram1) by (done || lia). rewrite decide_False by done.
  rewrite bind_assoc. mrun by (eapply store_param; [exact Hram3|done|rewrite Hlen; unfold RAMDISK_IMAGE_ADDR; simpl; lia]).
  mrun by (eapply store_param; [eapply guest_ram_put; [exact Hram3| | |reflexivity];
    rewrite ?length_le_enc, ?Hlen; unfold RAMDISK_IMAGE_ADDR; simpl; lia
    |done|rewrite length_put; rewrite ?length_le_enc, ?Hlen; unfold RAMDISK_IMAGE_ADDR, RAMDISK_SIZE_ADDR; simpl; lia]).
  eexists. split; [reflexivity|]. simpl. rewrite !insert_insert_eq, Hh, drop_buffer; [|done|].
  - by rewrite insert_insert_eq.
  - rewrite (gr_block _ _ _ _ Hram). by eexists.
Qed.

(** [load_initrd] does not stop an initrd larger than RAM: [max_addr - size]
    wraps, the address lies just below 2^64, its range comes back into RAM so
    that [vm_gpa_to_hva] accepts it, and the copy starts far outside the host
    block. *)
Theorem load_initrd_wraps :
  max = Z.of_nat (length ram) -> 4096 <= max < Z.of_nat (length data) ->
  Z.of_nat (length data) - max < 9223372036854775808 ->
  load_initrd v path max h = Ub OutOfBounds.
Proof using Hram Hfile Hsize.
  intros Hm Hl Hd. destruct load_initrd_prefix as (b & h1 & Hb & Hh & Hne & Hram1 & ->). cbv zeta.
  pose proof (gr_small _ _ _ _ Hram) as Hsm.
  set (n := Z.of_nat (length data)) in *.
  replace (u64 (max - n)) with (18446744073709551616 + max - n) by ulia.
  set (a := _ / 4096 * 4096).
  assert (18446744073709551616 + max - n - 4095 <= a <= 18446744073709551616 + max - n) as [Ha Ha']
    by (subst a; ulia).
  rewrite (proj2 (Z.ltb_ge _ _)) by lia.
  assert (vm_gpa_to_hva v a n = Ptr g a) as ->.
  { destruct Hram as [H0 _ _]. unfold ram_at_zero, vm_gpa_to_hva in *.
    destruct (mem_regions v) as [|r l]; [done|]. injection H0 as ->. simpl.
    rewrite decide_True; [simpl; f_equal; ulia|].
    unfold region_has. simpl. rewrite andb_true_iff, !Z.leb_le. ulia. }
  rewrite decide_False by done. apply bind_Ub. unfold memcpy.
  rewrite (bind_Ok _ _ _ _ _ (load_block h1 b data 0 n ltac:(rewrite Hh; apply lookup_insert_eq)
    ltac:(lia) ltac:(lia) ltac:(lia))).
  rewrite slice_suffix by lia. change (drop (Z.to_nat 0) data) with data.
  unfold store. rewrite (gr_block _ _ _ _ Hram1).
  replace (in_range ram a _) with false; [done|].
  symmetry. apply not_true_iff_false. rewrite in_range_spec. lia.
Qed.
End load_initrd.

(** The command line at 128 KiB, its address in the boot parameters. *)
Definition cmdline_image (s : string) (ram : list byte) : list byte :=
  put (put ram 0x20000 (string_bytes s ++ [0])) (0x10000 + CMDLINE_PTR_ADDR) (le_enc 4 0x20000).

Lemma length_string_bytes s : length (string_bytes s) = String.length s.
Proof. induction s as [|c s IH]; simpl; congruence. Qed.

Lemma setup_cmdline_stores v s h g ram :
  guest_ram v h g ram -> 0x20000 + Z.of_nat (String.length s) + 1 <= Z.of_nat (length ram) ->
  exists h', setup_cmdline v s h = Ok 0 h' /\ heap h' = <[g := cmdline_image s ram]> (heap h).
Proof.
  intros Hram Hl. unfold setup_cmdline.
  assert (Z.of_nat (length (string_bytes s ++ [0])) = Z.of_nat (String.length s) + 1) as Hn
    by (rewrite length_app, length_string_bytes; simpl; lia).
  rewrite (ram_translate v h g ram) by (done || lia). rewrite decide_False by done.
  mrun by (eapply store_ram; [exact Hram|lia..]). set (ram1 := put ram _ _).
  assert (length ram1 = length ram) as Hlen by (apply length_put; lia).
  eassert (guest_ram v (set_heap _ h) g ram1) as Hram1
    by (eapply guest_ram_put; [exact Hram|lia..|reflexivity]).
  rewrite (ram_translate v _ g ram1 _ _ Hram1) by lia. rewrite decide_False by done.
  mrun by (eapply store_param; [exact Hram1|done|rewrite Hlen; unfold CMDLINE_PTR_ADDR; simpl; lia]).
  rewrite set_block_twice. eexists. split; [reflexivity|]. unfold cmdline_image. fold ram1. reflexivity.
Qed.

(** The memory map: low RAM, the hole below 1 MiB, the rest of RAM. *)
Definition e820_map (mem : Z) : list (Z * Z * Z) :=
  [(0, 0xA0000, E820_RAM); (0xA0000, 0x60000, E820_RESERVED); (0x100000, mem -64 0x100000, E820_RAM)].
Definition e820_bytes (e : Z * Z * Z) : list byte :=
  let '(addr, size, type) := e in le_enc 8 addr ++ le_enc 8 size ++ le_enc 4 type.
Definition e820_image (mem : Z) (ram : list byte) : list byte :=
  put (put ram 0x102D0 (concat (map e820_bytes (e820_map mem)))) 0x101E8 [3].

(** Adjacent writes make one. *)
Lemma put_app ram a d e :
  0 <= a -> a + Z.of_nat (length d) + Z.of_nat (length e) <= Z.of_nat (length ram) ->
  put (put ram a d) (a + Z.of_nat (length d)) e = put ram a (d ++ e).
Proof.
  intros Ha Hb. unfold put, splice.
  replace (Z.to_nat (a + Z.of_nat (length d))) with (Z.to_nat a + length d)%nat by lia.
  rewrite (assoc_L (++) (take (Z.to_nat a) ram) d), take_app_length'
    by (rewrite length_app, length_take; lia).
  rewrite drop_app_ge by (rewrite length_app, length_take; lia).
  rewrite !length_app, length_take, drop_drop, <- !(assoc_L (++)).
  do 4 f_equal. lia.
Qed.

Lemma append_ram v h g ram a d off e :
  guest_ram v h g ram -> 0 <= a -> off = a + Z.of_nat (length d) ->
  a + Z.of_nat (length d) + Z.of_nat (length e) <= Z.of_nat (length ram) ->
  store (Ptr g off) e (set_heap (insert g (put ram a d)) h)
  = Ok tt (set_heap (insert g (put ram a (d ++ e))) h).
Proof.
  intros Hram Ha -> Hb.
  rewrite (store_ram v _ g (put ram a d)); [|eapply guest_ram_put; [exact Hram|lia..|done]|lia|rewrite length_put; lia].
  by rewrite set_block_twice, put_app.
Qed.

Lemma append_e820 v h g ram d i addr size type :
  guest_ram v h g ram -> Z.of_nat (length d) = 20 * i -> 0x102D0 + 20 * i + 20 <= Z.of_nat (length ram) ->
  put_e820 (Ptr g 0x102D0) i addr size type (set_heap (insert g (put ram 0x102D0 d)) h)
  = Ok tt (set_heap (insert g (put ram 0x102D0 (d ++ e820_bytes (addr, size, type)))) h).
Proof.
  intros Hram Hd Hl. unfold put_e820, store_le, e820_bytes. simpl padd.
  mrun by (eapply (append_ram v h g ram 0x102D0 d); [exact Hram|lia|lia|rewrite length_le_enc; lia]).
  mrun by (eapply (append_ram v h g ram 0x102D0 (d ++ le_enc 8 addr)); [exact Hram|lia|..];
    rewrite ?length_app, ?length_le_enc; lia).
  rewrite (append_ram v h g ram 0x102D0 ((d ++ le_enc 8 addr) ++ le_enc 8 size) _ (le_enc 4 type) Hram)
    by (rewrite ?length_app, ?length_le_enc; lia).
  by rewrite <- !(assoc_L (++)).
Qed.

Lemma setup_e820_stores v h g ram :
  guest_ram v h g ram -> 0x11000 <= Z.of_nat (length ram) ->
  exists h', setup_e820 v h = Ok 0 h' /\ heap h' = <[g := e820_image (mem_size v) ram]> (heap h).
Proof.
  intros Hram Hl. unfold setup_e820.
  rewrite (ram_translate v h g ram) by (done || lia). rewrite decide_False by done.
  cbv zeta. change (padd (Ptr g 0x10000) 0x2D0) with (Ptr g 0x102D0).
  assert (put ram 0x102D0 [] = ram) as Hnil
    by (unfold put, splice; rewrite Nat.add_0_r; apply take_drop).
  pose proof (append_e820 v h g ram [] 0 0 0xA0000 E820_RAM Hram eq_refl ltac:(lia)) as H0.
  rewrite Hnil, (set_block_id v h g ram Hram) in H0. rewrite (bind_Ok _ _ _ _ _ H0).
  mrun by (eapply append_e820; [exact Hram|done|lia]).
  mrun by (eapply append_e820; [exact Hram|done|lia]).
  rewrite app_nil_l, <- (assoc_L (++)). set (h1 := set_heap _ h). set (ram1 := put ram _ _) in h1.
  assert (guest_ram v h1 g ram1) as Hram1
    by (eapply guest_ram_put; [exact Hram|lia|simpl; lia|reflexivity]).
  assert (length ram1 = length ram) as Hlen by (apply length_put; [lia|simpl; lia]).
  mrun by (unfold store_le; simpl padd; eapply store_ram; [exact Hram1|lia|simpl; lia]).
  eexists. split; [reflexivity|]. subst h1. rewrite set_block_twice.
  unfold e820_image. cbn [map e820_map concat]. rewrite app_nil_r. reflexivity.
Qed.

(** ** Reading an image back *)

Lemma slice_put_in ram a d k n :
  0 <= a -> a + Z.of_nat (length d) <= Z.of_nat (length ram) -> (k + n <= length d)%nat ->
  slice (put ram a d) (Z.to_nat a + k) n = slice d k n.
Proof.
  intros. unfold put, splice, slice.
  rewrite drop_app_ge by (rewrite length_take; lia). rewrite length_take.
  replace (Z.to_nat a + k - _)%nat with k by lia.
  rewrite drop_app_le by lia. rewrite take_app_le by (rewrite length_drop; lia). done.
Qed.

Lemma slice_put_eq ram a d :
  0 <= a -> a + Z.of_nat (length d) <= Z.of_nat (length ram) ->
  slice (put ram a d) (Z.to_nat a) (length d) = d.
Proof.
  intros. rewrite <- (Nat.add_0_r (Z.to_nat a)), slice_put_in by lia. apply slice_all.
Qed.

Lemma slice_put_ne ram a d o n :
  0 <= a -> 0 <= o -> a + Z.of_nat (length d) <= Z.of_nat (length ram) ->
  o + Z.of_nat n <= a \/ a + Z.of_nat (length d) <= o ->
  slice (put ram a d) (Z.to_nat o) n = slice ram (Z.to_nat o) n.
Proof. intros. apply slice_splice_ne; lia. Qed.

Lemma length_e820_bytes e : length (e820_bytes e) = 20%nat.
Proof. by destruct e as [[??]?]. Qed.

(** Entry [i] of the table is where the kernel looks for it. *)
Lemma e820_entry mem i e :
  e820_map mem !! i = Some e ->
  slice (concat (map e820_bytes (e820_map mem))) (20 * i) 20 = e820_bytes e.
Proof.
  destruct i as [|[|[|i]]]; simpl; intros H; [injection H as <-..|]; try reflexivity. done.
Qed.

(** The length of nested [put]s within bounds. *)
Ltac put_length :=
  repeat rewrite length_put;
  rewrite ?length_le_enc, ?length_take, ?length_drop, ?length_app, ?length_string_bytes;
  cbn [length]; solve [lia | put_length].

Lemma length_bzimage_image data ram :
  bytes_ok data -> 0x218 <= Z.of_nat (length data) -> bzimage_fits data ram ->
  length (bzimage_image data ram) = length ram.
Proof.
  intros Hd Hl (?&?&?). pose proof (bz_setup_bound data Hd ltac:(lia)).
  pose proof (bz_code32_bound data Hd Hl). unfold bzimage_image. cbv zeta.
  put_length.
Qed.

Lemma initrd_place_spec max size :
  0x100000 + size <= max -> 0 <= size ->
  0x100000 <= initrd_place max size /\ initrd_place max size mod 4096 = 0 /\
  initrd_place max size + size <= max < initrd_place max size + size + 4096.
Proof. unfold initrd_place. intros. ulia. Qed.

Lemma length_initrd_image max data ram :
  0x100000 + Z.of_nat (length data) <= max -> max <= Z.of_nat (length ram) ->
  length (initrd_image max data ram) = length ram.
Proof.
  intros H1 H2. destruct (initrd_place_spec max _ H1 ltac:(lia)) as (?&_&?).
  unfold initrd_image, RAMDISK_IMAGE_ADDR, RAMDISK_SIZE_ADDR. cbv zeta.
  put_length.
Qed.

Lemma length_cmdline_image s ram :
  0x20000 + Z.of_nat (String.length s) + 1 <= Z.of_nat (length ram) ->
  length (cmdline_image s ram) = length ram.
Proof.
  intros. unfold cmdline_image, CMDLINE_PTR_ADDR.
  put_length.
Qed.

(** ** Properties *)

(** [C33] [load_bzimage] on a readable file, RAM being one block at guest address
    0.  A file below 512 bytes, or one that lacks the boot flag or the magic, is
    rejected with the memory unchanged and the buffer freed.  A bzImage that
    fits is loaded: the setup sectors at 64 KiB, the rest at [code32_start] (1
    MiB when that is zero); no other byte of memory changes, and the buffer is
    freed.  A bzImage shorter than the setup sectors its header announces makes
    the loader read beyond its buffer, and so does a file of 512 to 517 bytes with the
    boot flag, which ends before the magic. *)
Theorem load_bzimage_spec `{E : Env} log_level v path data h g ram :
  guest_ram v h g ram -> reads_file path data -> bytes_ok data ->
  Z.of_nat (length data) < 18446744073709551616 ->
  (Z.of_nat (length data) < 0x200 \/ 0x206 <= Z.of_nat (length data) /\ ~ bz_magic data ->
     exists h', load_bzimage log_level v path h = Ok (-1) h' /\ heap h' = heap h) /\
  (bz_magic data -> 0x218 <= Z.of_nat (length data) -> bzimage_fits data ram ->
     exists h', load_bzimage log_level v path h = Ok 0 h' /\
       heap h' = <[g := bzimage_image data ram]> (heap h)) /\
  (bz_magic data -> 0x208 <= Z.of_nat (length data) < bz_setup_size data ->
     0x10000 + bz_setup_size data <= Z.of_nat (length ram) ->
     load_bzimage log_level v path h = Ub OutOfBounds) /\
  (0x200 <= Z.of_nat (length data) < 0x206 -> file_field data 2 0x1FE = 0xAA55 ->
     load_bzimage log_level v path h = Ub OutOfBounds).
Proof.
  intros. split_and!; intros;
    eauto using load_bzimage_rejects, load_bzimage_loads, load_bzimage_truncated, load_bzimage_cut.
Qed.

(** [C34] [load_initrd] of a file that leaves 1 MiB free below [max_addr]: the
    initrd is placed page-aligned, above 1 MiB, ending less than a page below
    [max_addr]; its address and size are in the boot parameters; nothing else
    changes and the buffer is freed. *)
Theorem load_initrd_spec `{E : Env} v path data max h g ram :
  guest_ram v h g ram -> reads_file path data ->
  0x100000 + Z.of_nat (length data) <= max -> max <= Z.of_nat (length ram) -> max < 4294967296 ->
  let n := Z.of_nat (length data) in
  let a := initrd_place max n in
  let image := initrd_image max data ram in
  (0x100000 <= a /\ a mod 4096 = 0 /\ a + n <= max < a + n + 4096) /\
  slice image (Z.to_nat a) (length data) = data /\
  file_field image 4 0x10218 = a /\ file_field image 4 0x1021C = n /\
  exists h', load_initrd v path max h = Ok 0 h' /\ heap h' = <[g := image]> (heap h).
Proof.
  intros Hram Hf Hl Hm Hmax. cbv zeta. pose proof (gr_small _ _ _ _ Hram).
  pose proof (initrd_place_spec max _ Hl ltac:(lia)) as Hp. split; [exact Hp|].
  destruct Hp as (Ha & _ & Hb). unfold initrd_image, RAMDISK_IMAGE_ADDR, RAMDISK_SIZE_ADDR, file_field.
  set (n := Z.of_nat (length data)) in *. set (a := initrd_place max n) in *.
  change (0x10000 + 0x218) with 0x10218. change (0x10000 + 0x21C) with 0x1021C.
  assert (length (put ram a data) = length ram) as Hl1 by (apply length_put; lia).
  assert (forall x, length (put (put ram a data) 0x10218 (le_enc 4 x)) = length ram) as Hl2
    by (intros; rewrite length_put; rewrite ?length_le_enc, ?Hl1; lia).
  split_and!.
  - rewrite 2!slice_put_ne; rewrite ?length_le_enc, ?Hl1, ?Hl2; try lia. apply slice_put_eq; lia.
  - rewrite slice_put_ne; rewrite ?length_le_enc, ?Hl2; try lia.
    rewrite <- (length_le_enc 4 a) at 2. rewrite slice_put_eq; rewrite ?length_le_enc, ?Hl1; try lia.
    apply le_dec_enc_u32. unfold is_u32. lia.
  - rewrite <- (length_le_enc 4 n) at 2. rewrite slice_put_eq; rewrite ?length_le_enc, ?Hl2; try lia.
    apply le_dec_enc_u32. unfold is_u32. lia.
  - apply load_initrd_loads; auto. lia.
Qed.

(** [setup_e820] writes a table of three entries at offset 0x2D0 of the
    zero page, each readable where the protocol puts it, sets the count to 3 and
    changes nothing else.  For a VM of at least 1 MiB the entries are
    consecutive and cover exactly [0, mem_size); for a smaller VM the size of the
    last entry wraps around. *)
Theorem setup_e820_spec v h g ram :
  guest_ram v h g ram -> 0x11000 <= Z.of_nat (length ram) -> is_u64 (mem_size v) ->
  let image := e820_image (mem_size v) ram in
  (exists h', setup_e820 v h = Ok 0 h' /\ heap h' = <[g := image]> (heap h)) /\
  (forall i e, e820_map (mem_size v) !! i = Some e ->
     slice image (Z.to_nat 0x102D0 + 20 * i) 20 = e820_bytes e) /\
  file_field image 1 0x101E8 = 3 /\
  exists last, e820_map (mem_size v) = [(0, 0xA0000, 1); (0xA0000, 0x60000, 2); (0x100000, last, 1)] /\
    (0x100000 <= mem_size v -> 0x100000 + last = mem_size v) /\
    (mem_size v < 0x100000 -> last = 18446744073709551616 - (0x100000 - mem_size v)).
Proof.
  intros Hram Hl Hmem. cbv zeta. split; [by apply setup_e820_stores|].
  set (tab := concat (map e820_bytes (e820_map (mem_size v)))).
  assert (length tab = 60%nat) as Htab by done.
  assert (length (put ram 0x102D0 tab) = length ram) as Hl1 by (apply length_put; lia).
  split_and!.
  - intros i e He. assert (i < 3)%nat by (apply lookup_lt_Some in He; exact He).
    unfold e820_image. fold tab.
    replace (Z.to_nat 0x102D0 + 20 * i)%nat with (Z.to_nat (0x102D0 + 20 * Z.of_nat i)) by lia.
    rewrite slice_put_ne; cbn [length]; rewrite ?Hl1; try lia.
    replace (Z.to_nat (0x102D0 + 20 * Z.of_nat i)) with (Z.to_nat 0x102D0 + 20 * i)%nat by lia.
    rewrite slice_put_in by lia. by apply e820_entry.
  - unfold file_field, e820_image. fold tab. change 1%nat with (length [3]).
    rewrite slice_put_eq; cbn [length]; rewrite ?Hl1; try lia. done.
  - exists (mem_size v -64 0x100000). split; [done|]. split; ulia.
Qed.

(** What the four stages of [boot_setup_linux] make of RAM. *)
Definition linux_image (v : vm) (kernel : list byte) (initrd : option (list byte)) (ram : list byte)
    : list byte :=
  let r := bzimage_image kernel ram in
  let r := match initrd with Some d => initrd_image (mem_size v) d r | None => r end in
  let r := match vm_cmdline v with Some s => cmdline_image s r | None => r end in
  e820_image (mem_size v) r.

(** The inputs of a boot that fits in RAM. *)
Record linux_inputs `{E : Env} (v : vm) (kp : string) (kernel : list byte) (initrd : option (list byte))
    (ram : list byte) : Prop := {
  li_path : kernel_path v = Some kp;
  li_kernel : reads_file kp kernel /\ bytes_ok kernel /\
    0x218 <= Z.of_nat (length kernel) < 18446744073709551616 /\ bz_magic kernel /\ bzimage_fits kernel ram;
  li_initrd :
    match initrd_path v, initrd with
    | Some p, Some d =>
        reads_file p d /\ 0x100000 + Z.of_nat (length d) <= mem_size v <= Z.of_nat (length ram)
    | None, None => True
    | _, _ => False
    end;
  li_cmdline :
    forall s, vm_cmdline v = Some s -> 0x20000 + Z.of_nat (String.length s) + 1 <= Z.of_nat (length ram);
  li_ram : 0x11000 <= Z.of_nat (length ram)
}.

Lemma setup_vcpu_regs_kvm `{E : Env} kfd c hv h :
  vc_hv c = Some hv ->
  (forall tr r, 0 <= env_answer tr (EvKvmSetRegs (hvc_fd hv) r)) ->
  (forall tr r, 0 <= env_answer tr (EvKvmSetSregs (hvc_fd hv) r)) ->
  setup_vcpu_regs (kvm_state kfd) c h =
  Ok 0 (called (EvKvmSetSregs (hvc_fd hv) (kvm_of_sregs linux_sregs))
         (called (EvKvmSetRegs (hvc_fd hv) (kvm_of_regs linux_regs)) h)).
Proof.
  intros Hhv H1 H2. unfold setup_vcpu_regs, hv_set_regs, hv_set_sregs, via. rewrite Hhv.
  cbn [deref kvm_state g_hv_ops kvm_ops op_set_regs op_set_sregs].
  rewrite (bind_ret hv). unfold kvm_set_regs, kvm_set_sregs. rewrite bind_assoc. mrun.
  specialize (H1 (trace h) (kvm_of_regs linux_regs)).
  rewrite (proj2 (Z.ltb_ge _ _) H1), (bind_ret 0). cbn [Z.ltb Z.compare].
  rewrite bind_assoc. mrun.
  set (h1 := called _ h). specialize (H2 (trace h1) (kvm_of_sregs linux_sregs)).
  rewrite (proj2 (Z.ltb_ge _ _) H2), (bind_ret 0). reflexivity.
Qed.

Section boot_linux.
Context {E : Env} (v : vm) (h : host) (g : positive) (ram : list byte).
Context (Hram : guest_ram v h g ram).

(** A stage that rewrites RAM leaves RAM in place for the next one. *)
Lemma guest_ram_next h' ram' :
  heap h' = <[g := ram']> (heap h) -> length ram' = length ram -> guest_ram v h' g ram'.
Proof using Hram.
  destruct Hram as [H0 _ Hs]. intros Hh Hl. split; rewrite ?Hl; [done| |done].
  by rewrite Hh, lookup_insert_eq.
Qed.

Lemma cmdline_stage :
  (forall s, vm_cmdline v = Some s -> 0x20000 + Z.of_nat (String.length s) + 1 <= Z.of_nat (length ram)) ->
  let ram' := match vm_cmdline v with Some s => cmdline_image s ram | None => ram end in
  exists h', optional_step (vm_cmdline v) (setup_cmdline v) h = Ok 0 h' /\
    heap h' = <[g := ram']> (heap h) /\ length ram' = length ram.
Proof using Hram.
  intros Hs. destruct (vm_cmdline v) as [s|]; cbn [optional_step].
  - destruct (setup_cmdline_stores v s h g ram Hram (Hs s eq_refl)) as (h' & H1 & H2).
    exists h'. split_and!; [done..|]. by apply length_cmdline_image, Hs.
  - exists h. split_and!; [done| |done]. by rewrite insert_id by apply Hram.
Qed.

Lemma initrd_stage initrd :
  match initrd_path v, initrd with
  | Some p, Some d =>
      reads_file p d /\ 0x100000 + Z.of_nat (length d) <= mem_size v <= Z.of_nat (length ram)
  | None, None => True
  | _, _ => False
  end ->
  let ram' := match initrd with Some d => initrd_image (mem_size v) d ram | None => ram end in
  exists h', optional_step (initrd_path v) (fun p => load_initrd v p (mem_size v)) h = Ok 0 h' /\
    heap h' = <[g := ram']> (heap h) /\ length ram' = length ram.
Proof using Hram.
  pose proof (gr_small _ _ _ _ Hram). intros Hi.
  destruct (initrd_path v) as [p|], initrd as [d|]; try done; cbn [optional_step].
  - destruct Hi as (Hf & Hl & Hm).
    destruct (load_initrd_loads v p d (mem_size v) h g ram Hram Hf ltac:(lia) Hl Hm) as (h' & H1 & H2).
    exists h'. split_and!; [done..|]. by apply length_initrd_image.
  - exists h. split_and!; [done| |done]. by rewrite insert_id by apply Hram.
Qed.
End boot_linux.


(** ** Witnesses *)

(** A host on which every file named [p] has the content [files p]. *)
Definition file_env (files : string -> list byte) : Env := fun tr e =>
  match e return answer e with
  | EvFtell p => Z.of_nat (length (files p))
  | EvFread p n => take (Z.to_nat n) (files p)
  | e => good_env tr e
  end.

Lemma file_env_reads files p : reads_file (E := file_env files) p (files p).
Proof.
  intros tr. split; [done|]. split; [done|]. split; [by eexists|].
  unfold env_answer, file_env. rewrite Nat2Z.id. apply firstn_all.
Qed.

(** A kernel of one setup sector, to be loaded at 128 KiB, and the same header
    in a file that is cut short. *)
Definition demo_header (sects : Z) : list byte :=
  put (put (put (put (replicate 536 0) 0x1F1 [sects]) 0x1FE (le_enc 2 0xAA55)) 0x202 (le_enc 4 BZIMAGE_MAGIC))
    0x214 (le_enc 4 0x20000).
Definition demo_kernel : list byte := demo_header 0.
Definition demo_files (p : string) : list byte :=
  if decide (p = "initrd"%string) then [1; 2; 3; 4; 5] else demo_kernel.

Definition demo_ram (n : Z) : list byte := replicate (Z.to_nat n) 0.
Definition demo_boot_vm (n : Z) : vm :=
  set_vcpus (Some 1%positive :: replicate 7 None) 1
    (set_regions (<[0%nat := mk_region 0 (Ptr 1 0) n 0 true]> (mem_regions fresh_vm)) n fresh_vm).
Definition demo_linux_vm : vm :=
  mk_vm (vm_hv fresh_vm) VM_STATE_STOPPED (mem_regions (demo_boot_vm 0x30000)) 0x30000
    (vm_vcpus (demo_boot_vm 0x30000)) 1 (vm_devices fresh_vm) 0 (Some "bzImage"%string) None
    (Some "console=ttyS0"%string) 5.
Definition demo_boot_host (n : Z) : host := mk_host {[ 1%positive := demo_ram n ]} [] 0.
Definition demo_boot_cpu : vcpu := mk_vcpu (Some demo_vcpu) true 0 VCPU_STATE_STOPPED 0 0 0 zero_stats.

Lemma demo_guest_ram v n :
  mem_regions v !! 0%nat = Some (mk_region 0 (Ptr 1 0) n 0 true) -> 0 <= n < 18446744073709551616 ->
  guest_ram v (demo_boot_host n) 1 (demo_ram n).
Proof.
  intros Hv Hn. unfold demo_ram. split; rewrite ?length_replicate, ?Z2Nat.id by lia; [exact Hv| |lia].
  apply lookup_singleton_eq.
Qed.

Lemma demo_boot_ram n :
  0 <= n < 18446744073709551616 -> guest_ram (demo_boot_vm n) (demo_boot_host n) 1 (demo_ram n).
Proof. by apply demo_guest_ram. Qed.

Lemma length_demo_ram n : 0 <= n -> Z.of_nat (length (demo_ram n)) = n.
Proof. intros. unfold demo_ram. rewrite length_replicate. lia. Qed.

Lemma demo_header_ok s : is_u8 s -> bytes_ok (demo_header s).
Proof.
  intros. unfold demo_header, put. repeat apply splice_ok; try apply le_enc_ok.
  - by apply Forall_replicate.
  - by apply Forall_singleton.
Qed.

Lemma demo_kernel_magic : bz_magic demo_kernel.
Proof. by vm_compute. Qed.

Lemma demo_kernel_fits n : 0x30000 <= n -> bzimage_fits demo_kernel (demo_ram n).
Proof.
  intros. unfold bzimage_fits. rewrite length_demo_ram by lia.
  change (bz_setup_size demo_kernel) with 512. change (bz_code32 demo_kernel) with 0x20000.
  change (Z.of_nat (length demo_kernel)) with 536. lia.
Qed.

Lemma load_bzimage_spec_witness :
  (exists h', load_bzimage (E := file_env demo_files) 3 (demo_boot_vm 0x30000) "bzImage" (demo_boot_host 0x30000)
              = Ok 0 h' /\ heap h' = <[1%positive := bzimage_image demo_kernel (demo_ram 0x30000)]>
                             (heap (demo_boot_host 0x30000))) /\
  load_bzimage (E := file_env (fun _ => demo_header 3)) 3 (demo_boot_vm 0x30000) "bzImage" (demo_boot_host 0x30000)
  = Ub OutOfBounds.
Proof.
  split.
  - refine (proj1 (proj2 (load_bzimage_spec (E := file_env demo_files) 3 (demo_boot_vm 0x30000) "bzImage" demo_kernel
      (demo_boot_host 0x30000) 1 (demo_ram 0x30000) (demo_boot_ram _ _) (file_env_reads demo_files _)
      (demo_header_ok 0 _) _)) demo_kernel_magic _ (demo_kernel_fits _ _)); by vm_compute.
  - refine (proj1 (proj2 (proj2 (load_bzimage_spec (E := file_env (fun _ => demo_header 3)) 3 (demo_boot_vm 0x30000)
      "bzImage" (demo_header 3) (demo_boot_host 0x30000) 1 (demo_ram 0x30000) (demo_boot_ram _ _)
      (file_env_reads (fun _ => demo_header 3) _) (demo_header_ok 3 _) _))) _ _ _); by vm_compute.
Defined.

Lemma load_initrd_spec_witness :
  exists h', load_initrd (E := file_env demo_files) (demo_boot_vm 0x102000) "initrd" 0x102000 (demo_boot_host 0x102000)
             = Ok 0 h' /\
    heap h' = <[1%positive := initrd_image 0x102000 [1; 2; 3; 4; 5] (demo_ram 0x102000)]>
                (heap (demo_boot_host 0x102000)).
Proof.
  refine (proj2 (proj2 (proj2 (proj2 (load_initrd_spec (E := file_env demo_files) (demo_boot_vm 0x102000) "initrd"
    [1; 2; 3; 4; 5] 0x102000 (demo_boot_host 0x102000) 1 (demo_ram 0x102000) (demo_boot_ram _ _)
    (file_env_reads demo_files _) _ _ _))))); rewrite ?length_demo_ram by lia; cbn [length]; lia.
Defined.

Lemma load_initrd_wraps_witness :
  load_initrd (E := file_env (fun _ => replicate 5000 7)) (demo_boot_vm 4096) "initrd" 4096 (demo_boot_host 4096)
  = Ub OutOfBounds.
Proof.
  apply (load_initrd_wraps (E := file_env (fun _ => replicate 5000 7)) (demo_boot_vm 4096) "initrd" (replicate 5000 7)
    4096 (demo_boot_host 4096) 1 (demo_ram 4096) (demo_boot_ram 4096 ltac:(lia))
    (file_env_reads (fun _ => replicate 5000 7) _));
    rewrite ?length_demo_ram, ?length_replicate by lia; lia.
Defined.

Lemma setup_e820_spec_witness :
  exists h', setup_e820 (demo_boot_vm 0x11000) (demo_boot_host 0x11000) = Ok 0 h' /\
    heap h' = <[1%positive := e820_image 0x11000 (demo_ram 0x11000)]> (heap (demo_boot_host 0x11000)).
Proof.
  refine (proj1 (setup_e820_spec (demo_boot_vm 0x11000) (demo_boot_host 0x11000) 1 (demo_ram 0x11000)
    (demo_boot_ram _ _) _ _)); rewrite ?length_demo_ram by lia; try split; simpl; lia.
Defined.

