(* ===== verification/RawBoot.v ===== *)
(** * Booting a raw binary, from the file to the first instruction

    [boot_setup_raw_binary] (src/boot.c) on every branch and platform, and its
    composition with the start of the vCPU's thread on Apple Silicon (src/vcpu.c,
    src/hypervisor/hvf_arm64.c), where the entry point is handed over in the vCPU
    structure. *)

From S2P Require Import Prelude HvTypes Host Hypervisor Kvm HvfArm64 GuestMem VmMem Devices Machine Vcpu Vm Boot.

Section raw.
Context {E : Env}.
Local Abbreviation vcpus := (gmap positive vcpu).

(** The loading part: a file that can be read and fits. *)
Lemma raw_binary_loads plat hs v (vs : vcpus) path data entry h g ram :
  guest_ram v h g ram -> reads_file path data -> Z.of_nat (length data) < 18446744073709551616 ->
  0 <= entry -> entry + Z.of_nat (length data) <= Z.of_nat (length ram) ->
  exists h1, heap h1 = <[g := put ram entry data]> (heap h) /\
    boot_setup_raw_binary plat hs v vs path entry h = setup_raw_entry plat hs v vs entry h1.
Proof.
  intros Hram Hf Hsz He Hfit. destruct (read_file_ok path data h Hf Hsz) as (b & h1 & Hrun & Hb & Hh).
  unfold boot_setup_raw_binary. rewrite (bind_Ok _ _ _ _ _ Hrun). cbv beta iota zeta.
  assert (g <> b) as Hne by (intros ->; rewrite (gr_block _ _ _ _ Hram) in Hb; discriminate).
  assert (guest_ram v h1 g ram) as Hram1 by (eapply guest_ram_heap; [exact Hram|by rewrite Hh, lookup_insert_ne]).
  rewrite (ram_translate v h1 g ram) by (done || lia). rewrite decide_False by done.
  assert (heap h1 !! b = Some data) as Hb1 by (rewrite Hh; apply lookup_insert_eq).
  rewrite (bind_Ok _ _ _ _ _ (memcpy_ram v h1 g ram entry b data 0 (Z.of_nat (length data)) Hram1 Hb1
    ltac:(lia) ltac:(lia) ltac:(lia) ltac:(lia) ltac:(lia))).
  rewrite slice_suffix by lia. change (drop (Z.to_nat 0) data) with data. set (h2 := set_heap _ h1).
  assert (heap h2 !! b = Some data) as Hb2 by (unfold h2; simpl; by rewrite lookup_insert_ne).
  rewrite (bind_Ok _ _ _ _ _ (free_ok _ _ _ Hb2)). eexists. split; [|reflexivity].
  unfold h2. simpl. rewrite Hh. apply drop_buffer; [exact Hb|]. rewrite (gr_block _ _ _ _ Hram). by eexists.
Qed.

(** Loading a raw binary, on every platform.  A file that cannot be opened, or
    whose range does not translate, is refused with -1, memory as before and the
    vCPUs untouched.  A file that fits is at its entry point in guest RAM
    afterwards, byte by byte, nothing else changes, and its buffer is freed.  With
    KVM the vCPU has then been handed the long-mode system registers and after them
    general registers that are 0 but for the entry point and the reserved flag,
    and the answer is 0 even when the kernel refused both. *)
Theorem boot_setup_raw_binary_spec kfd plat hs v (vs : vcpus) path data entry h g ram :
  guest_ram v h g ram -> Z.of_nat (length data) < 18446744073709551616 ->
  (env_answer (trace h) (EvFopen path "rb") = false ->
     boot_setup_raw_binary plat hs v vs path entry h = Ok (-1, vs) (called (EvFopen path "rb") h)) /\
  (reads_file path data -> vm_gpa_to_hva v entry (Z.of_nat (length data)) = Null ->
     exists h', boot_setup_raw_binary plat hs v vs path entry h = Ok (-1, vs) h' /\ heap h' = heap h) /\
  (reads_file path data -> 0 <= entry -> entry + Z.of_nat (length data) <= Z.of_nat (length ram) ->
   forall i c hv, vm_vcpus v !! 0%nat = Some (Some i) -> vs !! i = Some c -> vc_hv c = Some hv ->
     exists h' tr, boot_setup_raw_binary LinuxX86 (kvm_state kfd) v vs path entry h = Ok (0, vs) h' /\
       heap h' = <[g := put ram entry data]> (heap h) /\
       trace h' = EvKvmSetRegs (hvc_fd hv) (kvm_of_regs (entry_regs entry)) ::
                  EvKvmSetSregs (hvc_fd hv) (kvm_of_sregs raw_sregs) :: tr).
Proof.
  intros Hram Hsz. split_and!.
  - intros Hopen. unfold boot_setup_raw_binary, read_file. rewrite !bind_assoc. mrun. by rewrite Hopen.
  - intros Hf Hnull. destruct (read_file_ok path data h Hf Hsz) as (b & h1 & Hrun & Hb & Hh).
    unfold boot_setup_raw_binary. rewrite (bind_Ok _ _ _ _ _ Hrun). cbv beta iota zeta. rewrite Hnull, decide_True by done.
    assert (heap h1 !! b = Some data) as Hb1 by (rewrite Hh; apply lookup_insert_eq).
    rewrite (bind_Ok _ _ _ _ _ (free_ok _ _ _ Hb1)). eexists. split; [reflexivity|].
    simpl. rewrite Hh, delete_insert_eq. by apply delete_id.
  - intros Hf He Hfit i c hv Hv Hi Hhv.
    destruct (raw_binary_loads LinuxX86 (kvm_state kfd) v vs path data entry h g ram Hram Hf Hsz He Hfit) as (h1 & Hh1 & ->).
    unfold setup_raw_entry. rewrite Hv. change (get_vcpu vs _) with (deref UseAfterFree (vs !! i)). rewrite Hi. cbn [deref]. rewrite bind_ret, Hhv. cbn [deref]. rewrite bind_ret.
    unfold hv_set_sregs, hv_set_regs, via. cbn [kvm_state g_hv_ops kvm_ops op_set_regs op_set_sregs].
    unfold kvm_set_sregs, kvm_set_regs. rewrite !bind_assoc. mrun. rewrite bind_ret, !bind_assoc. mrun. rewrite bind_ret.
    eexists _, _. split; [reflexivity|]. by split.
Qed.

(** [C23] A raw binary on Apple Silicon, from the file to the first instruction.  The
    vCPU does not exist yet when the file is loaded; whenever its thread, started
    at any later time, gets as far as its loop, the framework's vCPU was given the
    entry point as program counter, EL1h with interrupts masked, a stack at
    0x50000 and 0 in the other registers, and guest RAM has held the file at that
    entry point since the set-up. *)
Theorem raw_binary_first_instruction fd v (vs : vcpus) path data entry h g ram i c :
  guest_ram v h g ram -> reads_file path data -> Z.of_nat (length data) < 18446744073709551616 ->
  0 <= entry -> entry + Z.of_nat (length data) <= Z.of_nat (length ram) ->
  vm_vcpus v !! 0%nat = Some (Some i) -> vs !! i = Some c -> vc_hv c = None ->
  exists h1, boot_setup_raw_binary MacArm (hvf_arm64_state fd) v vs path entry h = Ok (0, <[i := set_initial entry 1 c]> vs) h1 /\
    heap h1 = <[g := put ram entry data]> (heap h) /\
    slice (put ram entry data) (Z.to_nat entry) (length data) = data /\
    forall v2 h2 c2 h3, vcpu_thread_init MacArm (hvf_arm64_state fd) v2 (set_initial entry 1 c) h2 = Ok (true, c2) h3 ->
      exists hv id info exit, vc_hv c2 = Some hv /\ hvc_data hv = HvfArmVcpuData id info exit true /\
        arm_written (trace h3) id HV_REG_PC = Some entry /\
        arm_written (trace h3) id HV_REG_CPSR = Some 0x3C5 /\
        arm_written (trace h3) id HV_SYS_REG_SP_EL1 = Some 0x50000 /\
        forall n, (n < 31)%nat -> n <> 29%nat -> arm_written (trace h3) id (HV_REG_X n) = Some 0.
Proof.
  intros Hram Hf Hsz He Hfit Hv Hi Hc.
  destruct (raw_binary_loads MacArm (hvf_arm64_state fd) v vs path data entry h g ram Hram Hf Hsz He Hfit) as (h1 & Hh1 & Hrun).
  exists h1. rewrite Hrun. unfold setup_raw_entry. rewrite Hv. change (get_vcpu vs _) with (deref UseAfterFree (vs !! i)). rewrite Hi. cbn [deref].
  rewrite bind_ret. split; [reflexivity|]. split; [exact Hh1|]. split; [by apply slice_put_eq|].
  intros v2 h2 c2 h3 H. unfold vcpu_thread_init in H. cbn [vc_hv set_initial] in H. rewrite Hc in H.
  apply bind_inv in H as ([hv|] & h4 & Hcreate & H); [|by minv H].
  unfold hv_create_vcpu, via in Hcreate. cbn [hvf_arm64_state g_hv_ops hvf_arm64_ops op_create_vcpu] in Hcreate.
  apply hvf_arm64_create_shape in Hcreate as (id & b1 & b2 & exit & Hd & _).
  cbn [has_initial_state initial_rip set_initial set_hv negb] in H. change (negb (1 =? 0)) with true in H. cbv iota in H.
  apply bind_inv in H as (ret & h5 & Hset & H). unfold hv_set_regs, via in Hset.
  cbn [hvf_arm64_state g_hv_ops hvf_arm64_ops op_set_regs] in Hset.
  destruct (hvf_arm64_set_regs_run hv (entry_regs entry) id (Ptr b2 0) exit h4 Hd) as (ret' & h6 & Hset' & _ & Hcase).
  rewrite Hset in Hset'. injection Hset' as <- <-. destruct Hcase as [(_ & -> & Hx & Hpc & Hcpsr & Hsp)|[_ ->]]; [|by minv H].
  change (0 <? 0) with false in H. cbv iota in H. apply ret_inv in H as [[= <-] <-].
  exists hv, id, (Ptr b2 0), exit. split_and!; [done|done|exact Hpc|exact Hcpsr|exact Hsp|].
  intros n Hn H29. rewrite (Hx n Hn). by rewrite decide_False.
Qed.
End raw.

(** ** Witnesses *)

(** 64 KiB of RAM and a file of eight bytes. *)
Definition raw_file (p : string) : list byte := [1; 2; 3; 4; 5; 6; 7; 8].

Section witnesses.
#[local] Existing Instance good_env.
#[local] Instance raw_env : Env := file_env raw_file.

Definition raw_cpu : vcpu := mk_vcpu None true 0 VCPU_STATE_STOPPED 0 0 0 zero_stats.

Lemma boot_setup_raw_binary_spec_witness :
  (exists h', boot_setup_raw_binary LinuxX86 (kvm_state 3) (demo_boot_vm 0x10000) {[ 1%positive := demo_boot_cpu ]} "a.bin" 0x1000
       (demo_boot_host 0x10000) = Ok (0, {[ 1%positive := demo_boot_cpu ]}) h' /\
     heap h' = <[1%positive := put (demo_ram 0x10000) 0x1000 [1; 2; 3; 4; 5; 6; 7; 8]]> (heap (demo_boot_host 0x10000))) /\
  exists h', boot_setup_raw_binary MacArm (kvm_state 3) (demo_boot_vm 0x10000) {[ 1%positive := demo_boot_cpu ]} "a.bin" 0xfffc
       (demo_boot_host 0x10000) = Ok (-1, {[ 1%positive := demo_boot_cpu ]}) h' /\ heap h' = heap (demo_boot_host 0x10000).
Proof.
  pose proof (demo_boot_ram 0x10000 ltac:(lia)) as Hram.
  split.
  - destruct (boot_setup_raw_binary_spec 3 LinuxX86 (kvm_state 3) (demo_boot_vm 0x10000) {[ 1%positive := demo_boot_cpu ]} "a.bin"
      [1; 2; 3; 4; 5; 6; 7; 8] 0x1000 (demo_boot_host 0x10000) 1 (demo_ram 0x10000) Hram ltac:(reflexivity)) as (_ & _ & H).
    destruct (H (file_env_reads raw_file "a.bin") ltac:(lia) ltac:(rewrite length_demo_ram by lia; vm_compute; discriminate)
      1%positive demo_boot_cpu demo_vcpu eq_refl (lookup_singleton_eq _ _) eq_refl) as (h' & tr & Hrun & Hh & _).
    exists h'. split; [exact Hrun|exact Hh].
  - exact (proj1 (proj2 (boot_setup_raw_binary_spec 3 MacArm (kvm_state 3) (demo_boot_vm 0x10000) {[ 1%positive := demo_boot_cpu ]}
      "a.bin" [1; 2; 3; 4; 5; 6; 7; 8] 0xfffc (demo_boot_host 0x10000) 1 (demo_ram 0x10000) Hram ltac:(reflexivity)))
      (file_env_reads raw_file "a.bin") eq_refl).
Defined.

Lemma raw_binary_first_instruction_witness :
  let c1 := set_initial 0x1000 1 raw_cpu in
  exists h1 c2 h3, boot_setup_raw_binary MacArm (hvf_arm64_state (-1)) (demo_boot_vm 0x10000) {[ 1%positive := raw_cpu ]} "a.bin"
      0x1000 (demo_boot_host 0x10000) = Ok (0, <[1%positive := c1]> {[ 1%positive := raw_cpu ]}) h1 /\
    vcpu_thread_init MacArm (hvf_arm64_state (-1)) (demo_boot_vm 0x10000) c1 empty_host = Ok (true, c2) h3 /\
    arm_written (trace h3) 0 HV_REG_PC = Some 0x1000.
Proof.
  cbv zeta. pose proof (demo_boot_ram 0x10000 ltac:(lia)) as Hram.
  destruct (raw_binary_first_instruction (-1) (demo_boot_vm 0x10000) {[ 1%positive := raw_cpu ]} "a.bin" [1; 2; 3; 4; 5; 6; 7; 8]
    0x1000 (demo_boot_host 0x10000) 1 (demo_ram 0x10000) 1%positive raw_cpu Hram (file_env_reads raw_file "a.bin") ltac:(reflexivity)
    ltac:(lia) ltac:(rewrite length_demo_ram by lia; vm_compute; discriminate) eq_refl (lookup_singleton_eq _ _) eq_refl)
    as (h1 & Hrun & _ & _ & Hinit).
  destruct (vcpu_thread_init MacArm (hvf_arm64_state (-1)) (demo_boot_vm 0x10000) (set_initial 0x1000 1 raw_cpu) empty_host)
    as [[[|] c2] h3|] eqn:Ht; [|vm_compute in Ht; discriminate Ht..].
  destruct (Hinit _ _ _ _ Ht) as (hv & id & info & exit & Hhv & Hd & Hpc & _).
  exists h1, c2, h3. split; [exact Hrun|]. split; [reflexivity|].
  assert (id = 0) as -> by (vm_compute in Ht; injection Ht as <- _; injection Hhv as <-; by injection Hd as <- _ _).
  exact Hpc.
Defined.
End witnesses.
