(* ===== verification/Safety.v ===== *)
(** * Loaders that never fault (src/boot.c)

    The judgement of a run without a fault, and with it the boot loader over guest RAM
    that is one block of the heap: whatever the files hold, each loader keeps to its
    buffer and to RAM, frees the buffer and changes no other block. *)

From S2P Require Import Prelude HvTypes Host Utils Hypervisor Kvm GuestMem VmMem Devices Vcpu Vm Boot.

(** ** Runs without a fault

    [safe F m Q h]: from [h], [m] ends with a result in [Q]; or, if [F], the model's
    fuel ends it. *)
Definition safe (F : Prop) {A} (m : M A) (Q : A -> host -> Prop) (h : host) : Prop :=
  match m h with Ok a h' => Q a h' | Ub u => F /\ u = OutOfFuel end.

Section safe_rules.
Context (F : Prop) {A B : Type}.

Lemma safe_Ok (m : M A) (Q : A -> host -> Prop) h a h' : m h = Ok a h' -> Q a h' -> safe F m Q h.
Proof. unfold safe. by intros ->. Qed.
Lemma safe_ret (a : A) (Q : A -> host -> Prop) h : Q a h -> safe F (mret a) Q h.
Proof. done. Qed.
Lemma safe_bind (m : M A) (f : A -> M B) Q h : safe F m (fun a => safe F (f a) Q) h -> safe F (m ≫= f) Q h.
Proof. unfold safe, mbind, M_bind. by destruct (m h). Qed.
Lemma safe_mono (m : M A) (Q Q' : A -> host -> Prop) h :
  safe F m Q h -> (forall a h', Q a h' -> Q' a h') -> safe F m Q' h.
Proof. unfold safe. destruct (m h); eauto. Qed.
Lemma safe_perform `{E : Env} e (Q : answer e -> host -> Prop) h :
  Q (env_answer (trace h) e) (called e h) -> safe F (perform e) Q h.
Proof. done. Qed.
End safe_rules.

(** [safe] of a first call from a lemma about its result, then of the rest. *)
Ltac safe_call H := apply safe_bind; eapply safe_Ok; [exact H|]; cbv beta iota zeta.

(** Through calls whose answers do not matter, in all directions. *)
Ltac runs_through :=
  cbv beta iota zeta;
  lazymatch goal with
  | |- safe _ (_ ≫= _) _ _ => apply safe_bind; runs_through
  | |- safe _ (perform ?e) _ _ => apply (safe_perform _ e); runs_through
  | |- safe _ (mret _) _ _ => apply safe_ret; runs_through
  | |- safe _ (match ?x with _ => _ end) _ _ => destruct x; runs_through
  | _ => idtac
  end.

(** ** Code that leaves the heap alone *)

Section heapless.
Context {E : Env}.

Definition heapless {A} (m : M A) : Prop := forall h a h', m h = Ok a h' -> heap h' = heap h.

Lemma heapless_ret {A} (a : A) : heapless (mret a).
Proof. by intros h b h' [= _ <-]. Qed.
Lemma heapless_ub {A} u : heapless (@fail_ub A u).
Proof. done. Qed.
Lemma heapless_deref {A} u (o : option A) : heapless (deref u o).
Proof. destruct o; [apply heapless_ret|apply heapless_ub]. Qed.
Lemma heapless_perform e : heapless (perform e).
Proof. by intros h a h' [= _ <-]. Qed.
Lemma heapless_bind {A B} (m : M A) (f : A -> M B) : heapless m -> (forall a, heapless (f a)) -> heapless (m ≫= f).
Proof. intros Hm Hf h b h' (a & h1 & H1 & H2)%bind_inv. rewrite (Hf a _ _ _ H2). by eapply Hm. Qed.
End heapless.

Create HintDb heapless.
#[export] Hint Resolve heapless_ret heapless_ub heapless_deref : heapless.

Ltac heapless :=
  intros;
  repeat first
    [ solve [auto with heapless nocore]
    | match goal with |- heapless (perform ?e) => apply (heapless_perform e) end
    | apply heapless_bind; [|intros ?]
    | match goal with |- heapless (match ?x with _ => _ end) => destruct x end
    | progress cbv beta iota zeta ].

(** ** Guest RAM and a file's buffer *)

Section loaders.
Context {E : Env} (size : Z).
Local Abbreviation memory := (gmap positive (list byte)).
Context (base : memory).

(** The heap is [base] and guest RAM, [size] bytes at guest address 0. *)
Definition has_ram (v : vm) (m : memory) : Prop :=
  exists g ram, mem_regions v = mk_region 0 (Ptr g 0) size 0 true :: replicate 31 zero_region /\
    Z.of_nat (length ram) = size /\ base !! g = None /\ m = <[g := ram]> base /\
    mem_size v = size /\ size < 18446744073709551616.

(** The same, with the buffer [b] that holds [d]. *)
Definition loading (v : vm) (b : positive) (d : list byte) (h : host) : Prop :=
  heap h !! b = Some d /\ has_ram v (delete b (heap h)).

Lemma has_ram_guest v h :
  has_ram v (heap h) ->
  exists g ram, guest_ram v h g ram /\ Z.of_nat (length ram) = size /\
    forall ram' h', length ram' = length ram -> heap h' = <[g := ram']> (heap h) -> has_ram v (heap h').
Proof using Type.
  intros (g & ram & Hr & Hlen & Hg & Hm & Hs & Hsz). exists g, ram. split_and!; [|done|].
  - split; [unfold ram_at_zero; by rewrite Hr, Hlen|by rewrite Hm, lookup_insert_eq|lia].
  - intros ram' h' Hl Hh. exists g, ram'. split_and!; [done|by rewrite Hl|done|by rewrite Hh, Hm, insert_insert_eq|done|done].
Qed.

(** An access that translates lies in RAM. *)
Lemma ram_bound v m gpa n :
  has_ram v m -> 0 <= gpa -> 0 <= n -> gpa + n < 18446744073709551616 -> vm_gpa_to_hva v gpa n <> Null -> gpa + n <= size.
Proof using Type.
  intros (g & ram & Hr & Hlen & Hg & Hm & Hs & Hsz) Hgpa Hn Hw Hnn. unfold vm_gpa_to_hva in Hnn. rewrite Hr in Hnn.
  destruct (list_find _ _) as [[i r]|] eqn:Hf; [|done]. apply list_find_Some in Hf as (Hi & Hhas & _). destruct i as [|i].
  - cbn in Hi. injection Hi as <-. unfold region_has in Hhas. cbn in Hhas. bool_prop. ulia.
  - change (replicate 31 zero_region !! i = Some r) in Hi. apply lookup_replicate in Hi as [-> _]. by cbn in Hhas.
Qed.

(** A store into RAM through a translated pointer. *)
Lemma ram_store v h gpa n off d :
  has_ram v (heap h) -> 0 <= gpa -> 0 <= n -> gpa + n <= size -> 0 <= off -> gpa + off + Z.of_nat (length d) <= size ->
  exists h', store (padd (vm_gpa_to_hva v gpa n) off) d h = Ok tt h' /\ has_ram v (heap h').
Proof using Type.
  intros Hram ?????. destruct (has_ram_guest _ _ Hram) as (g & ram & Hg & Hlen & Hback).
  rewrite (ram_translate v h g ram) by (done || lia). eexists. split; [eapply store_ram; [exact Hg|lia..]|].
  eapply Hback; [|reflexivity]. apply length_put; lia.
Qed.

(** *** The buffer *)

Lemma loading_start v b d h h1 :
  has_ram v (heap h) -> heap h !! b = None -> heap h1 = <[b := d]> (heap h) -> loading v b d h1.
Proof using Type.
  intros Hram Hb Hh. pose proof Hram as (g & ram & _ & _ & _ & Hm & _). rewrite Hm in Hb.
  split; [by rewrite Hh, lookup_insert_eq|by rewrite Hh, delete_insert_id by (by rewrite Hm)].
Qed.

Lemma loading_free v b d h : loading v b d h -> exists h', free (Ptr b 0) h = Ok tt h' /\ has_ram v (heap h').
Proof using Type. intros (Hb & Hram). eexists. split; [exact (free_ok _ _ _ Hb)|exact Hram]. Qed.

Lemma loading_field v b d h n o off :
  loading v b d h -> 0 <= o + off -> o + off + Z.of_nat n <= Z.of_nat (length d) ->
  load_le n (Ptr b o) off h = Ok (file_field d n (o + off)) h.
Proof using Type. intros (Hb & _) ??. by apply load_le_block. Qed.

Lemma loading_copy v b d h gpa n o :
  loading v b d h -> 0 <= gpa -> 0 <= n -> gpa + n < 18446744073709551616 -> vm_gpa_to_hva v gpa n <> Null ->
  0 <= o -> o + n <= Z.of_nat (length d) ->
  exists h', memcpy (vm_gpa_to_hva v gpa n) (Ptr b o) n h = Ok tt h' /\ loading v b d h'.
Proof using Type.
  intros (Hb & Hram) Hg0 Hn Hw Hnn Ho Hfit. pose proof (ram_bound _ _ _ _ Hram Hg0 Hn Hw Hnn) as Hin.
  pose proof Hram as (g & ram & Hr & Hlen & Hg & Hm & Hs & Hsz).
  assert (g <> b) as Hne by (intros ->; apply (f_equal (lookup b)) in Hm; by rewrite lookup_delete_eq, lookup_insert_eq in Hm).
  assert (guest_ram v h g ram) as Hgr.
  { split; [unfold ram_at_zero; by rewrite Hr, Hlen| |lia].
    apply (f_equal (lookup g)) in Hm. by rewrite lookup_delete_ne, lookup_insert_eq in Hm by done. }
  rewrite (ram_translate v h g ram) by (done || lia). eexists. split; [eapply memcpy_ram; [exact Hgr|exact Hb|lia..]|].
  split; [cbn; by rewrite lookup_insert_ne|]. cbn. rewrite delete_insert_ne by done. rewrite Hm, insert_insert_eq.
  eexists g, _. split_and!; [exact Hr| |done|reflexivity|done|done]. rewrite length_put; [done|lia|]. rewrite length_slice; lia.
Qed.

(** *** Reading a file *)

(** What the host reports and stores: sizes that a [long] can hold, and bytes. *)
Record host_ok : Prop := {
  ho_sizes : forall tr path, 0 <= env_answer tr (EvFtell path) < 9223372036854775808;
  ho_read : forall tr path n, bytes_ok (env_answer tr (EvFread path n));
  ho_malloc : forall tr n l, env_answer tr (EvMalloc n) = Some l -> bytes_ok l
}.
Context (Hhost : host_ok).

Lemma read_file_safe F v path h (Q : option (ptr * Z) -> host -> Prop) :
  has_ram v (heap h) -> (forall h', has_ram v (heap h') -> Q None h') ->
  (forall b d tr h', loading v b d h' -> bytes_ok d -> Z.of_nat (length d) = env_answer tr (EvFtell path) ->
     Q (Some (Ptr b 0, Z.of_nat (length d))) h') ->
  safe F (read_file path) Q h.
Proof using Hhost.
  intros Hram HN HS. unfold read_file, malloc, fread. apply safe_bind, (safe_perform _ (EvFopen path "rb")).
  destruct (env_answer _ (EvFopen _ _)); cbn [negb]; [|by apply safe_ret, HN].
  apply safe_bind, (safe_perform _ (EvFtell path)). set (h2 := called _ (called _ h)).
  set (tr := trace (called (EvFopen path "rb") h)). pose proof (ho_sizes Hhost tr path) as Hn.
  set (n := env_answer tr (EvFtell path)) in *.
  cbv zeta. rewrite (u64_small n) by ulia. apply safe_bind, safe_bind, (safe_perform _ (EvMalloc n)).
  destruct (env_answer (trace h2) (EvMalloc n)) as [l|] eqn:Hl.
  2:{ apply safe_ret. rewrite decide_True by done. apply safe_bind, (safe_perform _ (EvFclose path)). by apply safe_ret, HN. }
  pose proof (ho_malloc Hhost _ _ _ Hl) as Hlok.
  set (h3 := called _ h2). set (buf := resize (Z.to_nat n) 0 l).
  assert (length buf = Z.to_nat n) as Hbl by apply length_resize.
  assert (bytes_ok buf) as Hbok by (apply Forall_resize; [done|exact Hlok]).
  destruct (alloc_block_spec buf h3) as (b & Hb & Hfresh).
  eapply safe_Ok; [exact Hb|]. rewrite decide_False by done. set (h4 := set_heap _ h3).
  apply safe_bind, safe_bind, (safe_perform _ (EvFread path n)). set (d := take _ _). set (h5 := called _ h4).
  assert (length d <= Z.to_nat n)%nat as Hdl by (unfold d; rewrite length_take; lia).
  assert (store (Ptr b 0) d h5 = Ok tt (set_heap (insert b (splice buf 0 d)) h5)) as Hst.
  { unfold store. replace (heap h5 !! b) with (Some buf) by (simpl; by rewrite lookup_insert_eq).
    rewrite (proj2 (in_range_spec _ _ _)); [done|]. lia. }
  eapply safe_Ok; [exact Hst|]. apply safe_bind, (safe_perform _ (EvFclose path)). apply safe_ret.
  assert (length (splice buf 0 d) = length buf) as Hsl by (apply length_splice; lia).
  assert (n = Z.of_nat (length (splice buf 0 d))) as Hnl by lia. rewrite Hnl.
  apply (HS _ _ tr); [|apply splice_ok; [done|by apply Forall_take, (ho_read Hhost)]|exact (eq_sym Hnl)].
  eapply loading_start; [exact Hram|exact Hfresh|]. cbn. by rewrite insert_insert_eq.
Qed.

(** *** The loaders *)

(** Every loader's failure with a buffer: free it and give up. *)
Lemma give_up_safe F v b d h (Q : Z -> host -> Prop) :
  loading v b d h -> (forall h', has_ram v (heap h') -> Q (-1) h') -> safe F (free (Ptr b 0);; mret (-1)) Q h.
Proof using Type. intros (h' & Hf & Hram)%loading_free HQ. safe_call Hf. by apply safe_ret, HQ. Qed.

(** A kernel of at least 128 KiB covers the largest setup part, [256 * 512] bytes. *)
Lemma load_bzimage_safe F log_level v path h (Q : Z -> host -> Prop) :
  (forall tr, 131072 <= env_answer tr (EvFtell path)) -> has_ram v (heap h) ->
  (forall ret h', has_ram v (heap h') -> Q ret h') ->
  safe F (load_bzimage log_level v path) Q h.
Proof using Hhost.
  intros Hbig Hram HQ. unfold load_bzimage. apply safe_bind. eapply read_file_safe; [exact Hram|by intros h' ?; apply safe_ret, HQ|].
  clear h Hram. intros b d tr h Hl Hd Hsz. specialize (Hbig tr). pose proof (ho_sizes Hhost tr path). cbv beta iota zeta.
  assert (131072 <= Z.of_nat (length d) < 9223372036854775808) as Hlen by lia.
  rewrite (proj2 (Z.ltb_ge _ _)) by lia. unfold HEADER_ADDR. cbn [padd].
  safe_call (loading_field v b d h 2 (0 + 0x1F1) HDR_boot_flag Hl ltac:(done) ltac:(unfold HDR_boot_flag; lia)).
  destruct (negb _); [by eapply give_up_safe; [exact Hl|intros; by apply HQ]|].
  safe_call (loading_field v b d h 4 (0 + 0x1F1) HDR_header Hl ltac:(done) ltac:(unfold HDR_header; lia)).
  destruct (negb _); [by eapply give_up_safe; [exact Hl|intros; by apply HQ]|].
  apply safe_bind. eapply (safe_mono _ _ (fun _ h' => h' = h)).
  { destruct (_ >=? _); [|by apply safe_ret].
    safe_call (loading_field v b d h 2 (0 + 0x1F1) HDR_version Hl ltac:(done) ltac:(unfold HDR_version; lia)). by apply safe_ret. }
  intros _ ? ->. safe_call (loading_field v b d h 1 (0 + 0x1F1) HDR_setup_sects Hl ltac:(done) ltac:(unfold HDR_setup_sects; lia)).
  pose proof (bz_setup_bound d Hd ltac:(lia)) as Hss. unfold bz_setup_size in Hss. change (0 + 0x1F1 + HDR_setup_sects) with 0x1F1.
  set (ss := (file_field d 1 0x1F1 + 1) * 512) in *. rewrite (u64_small (_ - ss)) by ulia.
  destruct (decide _) as [|Hnn]; [by eapply give_up_safe; [exact Hl|intros; by apply HQ]|].
  destruct (loading_copy v b d h 0x10000 ss 0 Hl ltac:(lia) ltac:(lia) ltac:(lia) Hnn ltac:(lia) ltac:(lia)) as (h1 & Hc & Hl1).
  safe_call Hc. safe_call (loading_field v b d h1 4 (0 + 0x1F1) HDR_code32_start Hl1 ltac:(done) ltac:(unfold HDR_code32_start; lia)).
  change (0 + 0x1F1 + HDR_code32_start) with 0x214.
  pose proof (bz_code32_bound d Hd ltac:(lia)) as Hcode. unfold bz_code32 in Hcode. cbv zeta in Hcode.
  set (code32 := if _ =? 0 then _ else _) in *.
  destruct (decide _) as [|Hnn2]; [by eapply give_up_safe; [exact Hl1|intros; by apply HQ]|]. cbn [padd].
  destruct (loading_copy v b d h1 code32 (Z.of_nat (length d) - ss) (0 + ss) Hl1 ltac:(lia) ltac:(lia) ltac:(lia) Hnn2 ltac:(lia) ltac:(lia)) as (h2 & Hc2 & Hl2).
  safe_call Hc2. destruct (loading_free _ _ _ _ Hl2) as (h3 & Hf & Hram). safe_call Hf. by apply safe_ret, HQ.
Qed.

(** A boot parameter, once the pointer to the parameters is not NULL. *)
Lemma ram_param F v gpa n off x h (Q : unit -> host -> Prop) :
  has_ram v (heap h) -> 0 <= gpa -> 0 <= off -> gpa + off + Z.of_nat n <= size -> gpa + 4 <= size ->
  (forall h', has_ram v (heap h') -> Q tt h') ->
  safe F (store_le n (vm_gpa_to_hva v gpa 4) off x) Q h.
Proof using Type.
  intros Hram ???? HQ. destruct (ram_store v h gpa 4 off (le_enc n x) Hram) as (h' & Hs & Hr); [rewrite ?length_le_enc; lia..|].
  eapply safe_Ok; [exact Hs|by apply HQ].
Qed.

(** An initrd no larger than RAM. *)
Lemma load_initrd_safe F v path h (Q : Z -> host -> Prop) :
  (forall tr, env_answer tr (EvFtell path) <= size) -> has_ram v (heap h) ->
  (forall ret h', has_ram v (heap h') -> Q ret h') ->
  safe F (load_initrd v path size) Q h.
Proof using Hhost.
  intros Hsmall Hram HQ. assert (0 <= size < 18446744073709551616) as Hsize by (destruct Hram as (g & ram & _ & ? & _ & _ & _ & ?); lia).
  unfold load_initrd. apply safe_bind. eapply read_file_safe; [exact Hram|by intros h' ?; apply safe_ret, HQ|].
  clear h Hram. intros b d tr h Hl Hd Hsz. specialize (Hsmall tr). cbv beta iota zeta.
  rewrite (u64_small (size - _)) by ulia. rewrite and_not_fff_eq by ulia.
  set (n := Z.of_nat (length d)) in *. set (a := (size - n) / 4096 * 4096).
  assert (0 <= a <= size - n) as Ha by (unfold a; ulia).
  set (addr := if a <? 0x100000 then 0x10000000 else a).
  pose proof (ho_sizes Hhost tr path).
  assert (0x100000 <= addr /\ addr + n < 18446744073709551616) as [Haddr Hw] by (unfold addr; destruct (Z.ltb_spec a 0x100000); lia).
  destruct (decide _) as [|Hnn]; [by eapply give_up_safe; [exact Hl|intros; by apply HQ]|].
  pose proof (ram_bound v _ addr n (proj2 Hl) ltac:(lia) ltac:(lia) Hw Hnn) as Hin.
  destruct (loading_copy v b d h addr n 0 Hl ltac:(lia) ltac:(lia) Hw Hnn ltac:(lia) ltac:(lia)) as (h1 & Hc & Hl1).
  safe_call Hc. destruct (loading_free _ _ _ _ Hl1) as (h2 & Hf & Hram). safe_call Hf.
  apply safe_bind. eapply (safe_mono _ _ (fun _ h' => has_ram v (heap h'))); [|by intros [] h' ?; apply safe_ret, HQ].
  destruct (decide _); [by apply safe_ret|]. apply safe_bind.
  apply ram_param; [done|lia|done|unfold RAMDISK_IMAGE_ADDR; lia|lia|]. intros h3 Hr3.
  apply ram_param; [done|lia|done|unfold RAMDISK_SIZE_ADDR; lia|lia|done].
Qed.

Lemma setup_cmdline_safe F v s h (Q : Z -> host -> Prop) :
  Z.of_nat (String.length s) < 9223372036854775808 -> has_ram v (heap h) ->
  (forall ret h', has_ram v (heap h') -> Q ret h') ->
  safe F (setup_cmdline v s) Q h.
Proof using Type.
  intros Hs Hram HQ. unfold setup_cmdline. cbv zeta. set (len := Z.of_nat _ + 1) in *.
  destruct (decide _) as [|Hnn]; [by apply safe_ret, HQ|].
  pose proof (ram_bound v _ 0x20000 len Hram ltac:(lia) ltac:(lia) ltac:(lia) Hnn) as Hin.
  destruct (ram_store v h 0x20000 len 0 (string_bytes s ++ [0]) Hram) as (h1 & Hst & Hr1).
  1-5: rewrite ?length_app, ?length_string_bytes; simpl length; lia.
  replace (padd _ 0) with (vm_gpa_to_hva v 0x20000 len) in Hst by (destruct (vm_gpa_to_hva _ _ _); cbn; f_equal; lia).
  safe_call Hst. apply safe_bind. eapply (safe_mono _ _ (fun _ h' => has_ram v (heap h'))); [|by intros [] h' ?; apply safe_ret, HQ].
  destruct (decide _); [by apply safe_ret|]. apply ram_param; [done|lia|done|unfold CMDLINE_PTR_ADDR; lia|lia|done].
Qed.

Lemma put_e820_safe F v i a n t h (Q : unit -> host -> Prop) :
  has_ram v (heap h) -> 0x11000 <= size -> 0 <= i < 100 ->
  (forall h', has_ram v (heap h') -> Q tt h') ->
  safe F (put_e820 (padd (vm_gpa_to_hva v 0x10000 0x1000) 0x2D0) i a n t) Q h.
Proof using Type.
  intros Hram Hsz Hi HQ. unfold put_e820, store_le.
  assert (forall off k x h0 (R : unit -> host -> Prop), has_ram v (heap h0) -> 0 <= off -> off + Z.of_nat k <= 2100 ->
    (forall h', has_ram v (heap h') -> R tt h') ->
    safe F (store (padd (padd (vm_gpa_to_hva v 0x10000 0x1000) 0x2D0) off) (le_enc k x)) R h0) as Hput.
  { intros off k x h0 R Hr ?? HR. replace (padd (padd _ 0x2D0) off) with (padd (vm_gpa_to_hva v 0x10000 0x1000) (0x2D0 + off))
      by (destruct (vm_gpa_to_hva _ _ _); cbn; f_equal; lia).
    destruct (ram_store v h0 0x10000 0x1000 (0x2D0 + off) (le_enc k x) Hr) as (h' & Hs & Hr'); [rewrite ?length_le_enc; lia..|].
    eapply safe_Ok; [exact Hs|by apply HR]. }
  apply safe_bind, Hput; [done|lia..|]. intros h1 H1. apply safe_bind, Hput; [done|lia..|]. intros h2 H2. apply Hput; [done|lia..|done].
Qed.

Lemma setup_e820_safe F v h (Q : Z -> host -> Prop) :
  has_ram v (heap h) -> (forall ret h', has_ram v (heap h') -> Q ret h') -> safe F (setup_e820 v) Q h.
Proof using Type.
  intros Hram HQ. unfold setup_e820. cbv zeta. destruct (decide _) as [|Hnn]; [by apply safe_ret, HQ|].
  pose proof (ram_bound v _ 0x10000 0x1000 Hram ltac:(lia) ltac:(lia) ltac:(lia) Hnn) as Hin.
  do 3 (apply safe_bind, put_e820_safe; [done|lia..|]; clear h Hram; intros h Hram). apply safe_bind.
  destruct (ram_store v h 0x10000 0x1000 0x1E8 (le_enc 1 3) Hram) as (h' & Hs & Hr'); [rewrite ?length_le_enc; lia..|].
  eapply safe_Ok; [exact Hs|]. by apply safe_ret, HQ.
Qed.

(** *** The whole boot, with KVM *)

Context (fd : Z).
Local Abbreviation hs := (kvm_state fd).
Context (v : vm) (vs : gmap positive vcpu) (i : positive) (c : vcpu) (hv : hv_vcpu).
Context (Hfirst : vm_vcpus v !! 0%nat = Some (Some i)) (Hc : vs !! i = Some c) (Hhv : vc_hv c = Some hv).

(** What the boot needs to know of the files and the command line. *)
Record loadable : Prop := {
  ld_kernel : forall p, kernel_path v = Some p -> forall tr, 131072 <= env_answer tr (EvFtell p);
  ld_initrd : forall p, initrd_path v = Some p -> forall tr, env_answer tr (EvFtell p) <= size;
  ld_cmdline : forall s, vm_cmdline v = Some s -> Z.of_nat (String.length s) < 9223372036854775808
}.

(** A step that keeps RAM, in front of the rest of the boot. *)
Lemma then_safe F (m k : M Z) h (Q : Z -> host -> Prop) :
  (forall h' (R : Z -> host -> Prop), has_ram v (heap h') -> (forall ret h', has_ram v (heap h') -> R ret h') -> safe F m R h') ->
  has_ram v (heap h) -> (forall ret h', has_ram v (heap h') -> Q ret h') ->
  (forall h', has_ram v (heap h') -> safe F k Q h') ->
  safe F (ret ← m; if ret <? 0 then mret (-1) else k) Q h.
Proof using Type.
  intros Hm Hram HQ Hk. apply safe_bind, Hm; [done|]. intros ret h' Hram'.
  destruct (ret <? 0); [by apply safe_ret, HQ|by apply Hk].
Qed.

Lemma setup_vcpu_regs_safe F h (Q : Z -> host -> Prop) :
  has_ram v (heap h) -> (forall ret h', has_ram v (heap h') -> Q ret h') -> safe F (setup_vcpu_regs hs c) Q h.
Proof using Hhv.
  intros Hram HQ. unfold setup_vcpu_regs. rewrite Hhv. cbn [deref]. apply safe_bind, safe_ret.
  unfold hv_set_sregs, hv_set_regs, via. cbn [kvm_state g_hv_ops kvm_ops op_set_regs op_set_sregs]. unfold kvm_set_sregs, kvm_set_regs.
  runs_through; by apply HQ.
Qed.

Lemma boot_linux_safe F log_level h (Q : Z -> host -> Prop) :
  loadable -> has_ram v (heap h) -> (forall ret h', has_ram v (heap h') -> Q ret h') ->
  safe F (boot_setup_linux hs log_level v vs) Q h.
Proof using Hhost Hfirst Hc Hhv.
  intros [Hk Hi Hs] Hram HQ. unfold boot_setup_linux. destruct (kernel_path v) as [kp|]; [|by apply safe_ret, HQ].
  assert (mem_size v = size) as -> by (destruct Hram as (? & ? & _ & _ & _ & _ & ? & _); done).
  apply then_safe; [intros h' R ? HR; apply load_bzimage_safe; by auto|done..|]. clear h Hram. intros h Hram.
  apply then_safe; [|done..|].
  { intros h' R ? HR. destruct (initrd_path v); [by apply load_initrd_safe; auto|by apply safe_ret, HR]. }
  clear h Hram. intros h Hram. apply then_safe; [|done..|].
  { intros h' R ? HR. destruct (vm_cmdline v); [by apply setup_cmdline_safe; auto|by apply safe_ret, HR]. }
  clear h Hram. intros h Hram. apply then_safe; [intros; by apply setup_e820_safe|done..|]. clear h Hram. intros h Hram.
  rewrite Hfirst. cbn [default id get_vcpu]. rewrite Hc. cbn [deref]. apply safe_bind, safe_ret.
  apply safe_bind, setup_vcpu_regs_safe; [done|]. intros ret h' Hram'. destruct (ret <? 0); by apply safe_ret, HQ.
Qed.

Lemma boot_raw_safe F path entry h (Q : Z * gmap positive vcpu -> host -> Prop) :
  has_ram v (heap h) -> 0 <= entry < 9223372036854775808 -> (forall ret h', has_ram v (heap h') -> Q (ret, vs) h') ->
  safe F (boot_setup_raw_binary LinuxX86 hs v vs path entry) Q h.
Proof using Hhost Hfirst Hc Hhv.
  intros Hram He HQ. unfold boot_setup_raw_binary. apply safe_bind. eapply read_file_safe; [exact Hram|by intros h' ?; apply safe_ret, HQ|].
  clear h Hram. intros b d tr h Hl _ Hsz. pose proof (ho_sizes Hhost tr path). cbv beta iota zeta.
  destruct (decide _) as [|Hnn].
  { destruct (loading_free _ _ _ _ Hl) as (h' & Hf & Hram). safe_call Hf. by apply safe_ret, HQ. }
  destruct (loading_copy v b d h entry (Z.of_nat (length d)) 0 Hl ltac:(lia) ltac:(lia) ltac:(lia) Hnn ltac:(lia) ltac:(lia)) as (h1 & Hcp & Hl1).
  safe_call Hcp. destruct (loading_free _ _ _ _ Hl1) as (h2 & Hf & Hram). safe_call Hf.
  unfold setup_raw_entry. rewrite Hfirst. cbn [default id get_vcpu]. rewrite Hc. cbn [deref]. apply safe_bind, safe_ret.
  rewrite Hhv. cbn [deref]. apply safe_bind, safe_ret. apply safe_bind.
  unfold hv_set_sregs, hv_set_regs, via. cbn [kvm_state g_hv_ops kvm_ops op_set_regs op_set_sregs]. unfold kvm_set_sregs, kvm_set_regs.
  runs_through; by apply HQ.
Qed.
End loaders.
