(* ===== verification/Main.v ===== *)
(** * The command line and the main program (src/main.c)

    Size and option parsing, the set-up of the machine as a sequence of stages
    that either go on or jump to the clean-up with the current [ret], the wait
    loop and the clean-up.  The options are what [getopt_long] delivers: a letter
    and its argument each.  The vCPU threads run beside [main]; what it sees of
    them are the [should_stop] flags, which it polls once a second. *)

From Stdlib Require Import Ascii.
From S2P Require Import Prelude HvTypes Host Utils CString Hypervisor Kvm Hvf GuestMem VmMem Devices MmioConsole Virtio VirtioConsole VirtioBlk VirtioNet Vfio Machine VfioVm Vcpu HvfExits Vm Boot.

Definition DEFAULT_MEM_SIZE : Z := 512 * 1024 * 1024.
Definition DEFAULT_NUM_VCPUS : Z := 1.
Definition LOG_LEVEL_NONE : Z := 0.
Definition EXIT_SUCCESS : Z := 0.
Definition EXIT_FAILURE : Z := 1.

Record cmdline_args := mk_args {
  a_kernel_path : option string;
  a_initrd_path : option string;
  a_cmdline : option string;
  a_mem_size : Z;           (* uint64_t *)
  a_num_vcpus : Z;          (* int *)
  a_disk_path : option string;
  a_net_tap : option string;
  a_vfio_bdf : option string;
  a_enable_console : Z;
  a_log_level : Z;
  a_binary_path : option string;
  a_binary_entry : Z        (* uint64_t *)
}.

Definition default_args : cmdline_args :=
  mk_args None None None DEFAULT_MEM_SIZE DEFAULT_NUM_VCPUS None None None 0 LOG_LEVEL_INFO None 0.

(** ** Sizes *)

Definition parse_size (str : string) : Z :=
  match ('(size, s) ← scan_lu str; '(suffix, _) ← scan_c s; Some (size, suffix)) with
  | Some (size, suffix) =>
      if Ascii.eqb suffix "G" || Ascii.eqb suffix "g" then size *64 (1024 * 1024 * 1024)
      else if Ascii.eqb suffix "M" || Ascii.eqb suffix "m" then size *64 (1024 * 1024)
      else if Ascii.eqb suffix "K" || Ascii.eqb suffix "k" then size *64 1024
      else size
  | None => u64 (atoi str)
  end.

(** ** Options *)

Section options.
Context {E : Env}.

Inductive opt_end := OptOk | OptError | OptHelp (* exit(0) *).

Definition has_prefix (p s : string) : bool := String.eqb (String.substring 0 (String.length p) s) p.
Definition skip (n : nat) (s : string) : string := String.substring n (String.length s - n) s.

(** One iteration of the [getopt_long] loop. *)
Definition parse_opt (opt : ascii) (optarg : string) (a : cmdline_args) : M (opt_end * cmdline_args) :=
  let 'mk_args k i c m n d t v C l b e := a in
  if Ascii.eqb opt "k" then x ← strdup optarg; mret (OptOk, mk_args x i c m n d t v C l b e)
  else if Ascii.eqb opt "i" then x ← strdup optarg; mret (OptOk, mk_args k x c m n d t v C l b e)
  else if Ascii.eqb opt "c" then x ← strdup optarg; mret (OptOk, mk_args k i x m n d t v C l b e)
  else if Ascii.eqb opt "m" then
    let x := parse_size optarg in
    mret (if x =? 0 then OptError else OptOk, mk_args k i c x n d t v C l b e)
  else if Ascii.eqb opt "n" then
    let x := atoi optarg in
    mret (if (x <=? 0) || (x >? VM_MAX_VCPUS) then OptError else OptOk, mk_args k i c m x d t v C l b e)
  else if Ascii.eqb opt "d" then x ← strdup optarg; mret (OptOk, mk_args k i c m n x t v C l b e)
  else if Ascii.eqb opt "t" then
    if has_prefix "tap=" optarg then x ← strdup (skip 4 optarg); mret (OptOk, mk_args k i c m n d x v C l b e)
    else mret (OptError, a)
  else if Ascii.eqb opt "v" then x ← strdup optarg; mret (OptOk, mk_args k i c m n d t x C l b e)
  else if Ascii.eqb opt "C" then mret (OptOk, mk_args k i c m n d t v 1 l b e)
  else if Ascii.eqb opt "b" then x ← strdup optarg; mret (OptOk, mk_args k i c m n d t v C l x e)
  else if Ascii.eqb opt "e" then mret (OptOk, mk_args k i c m n d t v C l b (strtoull16 optarg))
  else if Ascii.eqb opt "l" then
    let x := atoi optarg in
    mret (if (x <? LOG_LEVEL_NONE) || (x >? LOG_LEVEL_DEBUG) then OptError else OptOk, mk_args k i c m n d t v C x b e)
  else if Ascii.eqb opt "h" then mret (OptHelp, a)
  else mret (OptError, a).

Fixpoint parse_opts (l : list (ascii * string)) (a : cmdline_args) : M (opt_end * cmdline_args) :=
  match l with
  | [] => mret (OptOk, a)
  | (opt, optarg) :: l =>
      '(r, a) ← parse_opt opt optarg a;
      match r with OptOk => parse_opts l a | _ => mret (r, a) end
  end.

Definition set_cmdline (c : option string) (a : cmdline_args) : cmdline_args :=
  mk_args (a_kernel_path a) (a_initrd_path a) c (a_mem_size a) (a_num_vcpus a) (a_disk_path a) (a_net_tap a)
    (a_vfio_bdf a) (a_enable_console a) (a_log_level a) (a_binary_path a) (a_binary_entry a).

Definition parse_args (l : list (ascii * string)) : M (opt_end * cmdline_args) :=
  '(r, a) ← parse_opts l default_args;
  match r with
  | OptOk =>
      match a_kernel_path a, a_binary_path a with
      | None, None => mret (OptError, a)
      | k, b =>
          if bool_decide (b <> None) && (a_binary_entry a =? 0) then mret (OptError, a)
          else if bool_decide (k <> None) && bool_decide (a_cmdline a = None) then
            x ← strdup "console=hvc0 earlyprintk=serial panic=1";
            mret (OptOk, set_cmdline x a)
          else mret (OptOk, a)
      end
  | _ => mret (r, a)
  end.
End options.

(** ** The machine under construction *)

Record main_state := mk_ms {
  ms_vm : vm;
  ms_vcpus : gmap positive vcpu;
  ms_objects : gmap positive object;
  ms_vfio : option Z             (* vfio_cont *)
}.

Section main.
Context {E : Env} (plat : platform).
(** The hypervisor layer after [hv_init], the options, and what shifting a 32-bit
    one by 32 yields in [virtio_init]. *)
Context (hs : hv_state) (args : cmdline_args) (undef : Z).
Local Abbreviation log_level := (a_log_level args).

(** A part of [main]: it either falls through ([None]) or jumps to [cleanup] with
    the current [ret]. *)
Definition stage : Type := main_state -> M (option Z * main_state).
Definition and_then (f g : stage) : stage := fun s =>
  '(r, s) ← f s;
  match r with Some ret => mret (Some ret, s) | None => g s end.

(** The results of the three calls are ignored. *)
Definition stage_config : stage := fun s =>
  match a_kernel_path args with
  | None => mret (None, s)
  | k =>
      '(_, v) ← vm_set_kernel (ms_vm s) k;
      '(_, v) ← vm_set_initrd v (a_initrd_path args);
      '(_, v) ← vm_set_cmdline v (a_cmdline args);
      mret (None, mk_ms v (ms_vcpus s) (ms_objects s) (ms_vfio s))
  end.

Definition ram_size : Z :=
  if a_mem_size args <? 128 * 1024 * 1024 then a_mem_size args else 128 * 1024 * 1024.

Definition stage_memory : stage := fun s =>
  '(ret, v) ← vm_add_memory_region hs (ms_vm s) 0 ram_size;
  mret (if ret <? 0 then Some ret else None, mk_ms v (ms_vcpus s) (ms_objects s) (ms_vfio s)).

Definition stage_vcpus : stage := fun s =>
  '(ret, v, vs) ← vm_create_vcpus plat hs log_level (ms_vm s) (ms_vcpus s) (a_num_vcpus args);
  mret (if ret <? 0 then Some ret else None, mk_ms v vs (ms_objects s) (ms_vfio s)).

(** [if (dev) vm_register_device(vm, dev);] *)
Definition add_device (dev : option object) (s : main_state) : M main_state :=
  match dev with
  | None => mret s
  | Some o =>
      let i := fresh (dom (ms_objects s)) in
      let st := <[i := o]> (ms_objects s) in
      '(_, v) ← vm_register_device log_level (ms_vm s) st (Some i);
      mret (mk_ms v (ms_vcpus s) st (ms_vfio s))
  end.

Definition stage_devices : stage := fun s =>
  dev ← mmio_console_create;
  s ← add_device (ObjUart <$> dev) s;
  dev ← virtio_console_create undef;
  s ← add_device (ObjCon <$> dev) s;
  s ← (match a_disk_path args with
       | Some path => dev ← virtio_blk_create undef path; add_device (ObjBlk <$> dev) s
       | None => mret s
       end);
  s ← (match a_net_tap args with
       | Some tap => dev ← virtio_net_create undef (Some tap); add_device (ObjNet <$> dev) s
       | None => mret s
       end);
  mret (None, s).

(** The first two failures jump with the [ret] of the last call before, 0. *)
Definition stage_vfio : stage := fun s =>
  match a_vfio_bdf args with
  | None => mret (None, s)
  | Some bdf =>
      cont ← vfio_container_create;
      let s := mk_ms (ms_vm s) (ms_vcpus s) (ms_objects s) cont in
      match cont with
      | None => mret (Some 0, s)
      | Some fd =>
          vdev ← vfio_device_open fd bdf;
          match vdev with
          | None => mret (Some 0, s)
          | Some vdev =>
              '(ret, v, st, _) ← vfio_register_with_vm (ms_vm s) (ms_objects s) vdev bdf;
              mret (if ret <? 0 then Some ret else None, mk_ms v (ms_vcpus s) st cont)
          end
      end
  end.

Definition stage_boot : stage := fun s =>
  match a_kernel_path args, a_binary_path args with
  | Some _, _ =>
      ret ← boot_setup_linux hs log_level (ms_vm s) (ms_vcpus s);
      mret (if ret <? 0 then Some ret else None, s)
  | None, Some path =>
      '(ret, vs) ← boot_setup_raw_binary plat hs (ms_vm s) (ms_vcpus s) path (a_binary_entry args);
      mret (if ret <? 0 then Some ret else None, mk_ms (ms_vm s) vs (ms_objects s) (ms_vfio s))
  | None, None => mret (None, s)
  end.

Definition stage_start : stage := fun s =>
  '(ret, v, vs) ← vm_start plat hs (ms_vm s) (ms_vcpus s);
  mret (if ret <? 0 then Some ret else None, mk_ms v vs (ms_objects s) (ms_vfio s)).

(** *** Waiting *)

(** Stores of other threads to [should_stop]. *)
Definition request_stop (l : list nat) (v : vm) (vs : gmap positive vcpu) : gmap positive vcpu :=
  foldr (fun i vs => match live_vcpus v !! i with
                     | Some (Some k) => alter (set_should_stop 1) k vs
                     | _ => vs
                     end) vs l.

Definition signal_handler (v : vm) (vs : gmap positive vcpu) : M (vm * gmap positive vcpu) :=
  '(_, v, vs) ← vm_stop plat hs v vs; mret (v, vs).

(** Does some vCPU of [l] have [should_stop] set? *)
Fixpoint any_stopped (l : list (option positive)) (vs : gmap positive vcpu) : M bool :=
  match l with
  | [] => mret false
  | p :: l =>
      c ← get_vcpu vs p;
      if negb (should_stop c =? 0) then mret true else any_stopped l vs
  end.

Fixpoint wait_loop (fuel : nat) (g_running : bool) (v : vm) (vs : gmap positive vcpu)
    : M (vm * gmap positive vcpu) :=
  match fuel with
  | 0%nat => fail_ub OutOfFuel
  | S fuel =>
      if g_running && bool_decide (vm_st v = VM_STATE_RUNNING) then
        '(signal, stopped) ← perform EvSleep;
        let vs := request_stop stopped v vs in
        '(v, vs) ← (if signal : bool then signal_handler v vs else mret (v, vs));
        b ← any_stopped (live_vcpus v) vs;
        wait_loop fuel (g_running && negb signal && negb b) v vs
      else mret (v, vs)
  end.

(** The statistics are printed for every vCPU. *)
Fixpoint print_all_stats (l : list (option positive)) (vs : gmap positive vcpu) : M unit :=
  match l with
  | [] => mret tt
  | p :: l => get_vcpu vs p;; print_all_stats l vs
  end.

(** After [vm_start] returned 0, which [ret] still is at the end. *)
Definition stage_wait (fuel : nat) : stage := fun s =>
  '(v, vs) ← wait_loop fuel true (ms_vm s) (ms_vcpus s);
  print_all_stats (live_vcpus v) vs;;
  mret (Some 0, mk_ms v vs (ms_objects s) (ms_vfio s)).

Definition main_setup : stage :=
  and_then stage_config (and_then stage_memory (and_then stage_vcpus stage_devices)).
Definition main_stages (fuel : nat) : stage :=
  and_then main_setup (and_then stage_vfio (and_then stage_boot (and_then stage_start (stage_wait fuel)))).

(** [cleanup:] and the exit status, for the [ret] at the jump. *)
Definition main_cleanup (ret : Z) (s : main_state) : M Z :=
  vm_destroy plat hs log_level (Some (ms_vm s)) (ms_vcpus s) (ms_objects s);;
  vfio_container_destroy (ms_vfio s);;
  hv_cleanup hs;;
  mret (if ret <? 0 then EXIT_FAILURE else EXIT_SUCCESS).

(** From [hv_init] on. *)
Definition main_run (fuel : nat) : M Z :=
  v ← vm_create hs;
  match v with
  | None => hv_cleanup hs;; mret EXIT_FAILURE
  | Some v =>
      '(r, s) ← main_stages fuel (mk_ms v ∅ ∅ None);
      main_cleanup (default 0 r) s
  end.
End main.

Definition main `{E : Env} (plat : platform) (kvm_ops hvf_ops hvf_arm64_ops : hv_ops) (undef : Z) (fuel : nat)
    (opts : list (ascii * string)) : M Z :=
  '(r, args) ← parse_args opts;
  match r with
  | OptHelp => mret 0
  | OptError => mret EXIT_FAILURE
  | OptOk =>
      '(ret, hs) ← hv_init plat kvm_ops hvf_ops hvf_arm64_ops HV_TYPE_AUTO hv_initial;
      if ret <? 0 then mret EXIT_FAILURE
      else main_run plat hs args undef fuel
  end.

(** ** Parsing *)

(** What a suffix multiplies by. *)
Definition size_unit (c : ascii) : Z :=
  if Ascii.eqb c "G" || Ascii.eqb c "g" then 2 ^ 30
  else if Ascii.eqb c "M" || Ascii.eqb c "m" then 2 ^ 20
  else if Ascii.eqb c "K" || Ascii.eqb c "k" then 2 ^ 10
  else 1.

(** [C40] [parse_size] on every decimal numeral [t] of a number [n], with and without a
    suffix.  With one, the size is [n] times the unit of the suffix, reduced to
    64 bits, and an unknown suffix counts bytes; without one the number goes
    through an [int] first, so that sizes from 2 GiB on come out wrong: 4294967296
    is 0, and 2147483648 is almost 2^64. *)
Theorem parse_size_spec n t c rest :
  numeral 10 n t -> 0 <= n < 18446744073709551616 -> stops 10 (String c rest) ->
  parse_size (t +:+ String c rest) = n *64 size_unit c /\
  (n < 9223372036854775808 -> parse_size t = u64 (i32 n)).
Proof.
  intros Ht Hn Hc.
  assert (t = t +:+ "")%string as Hnil.
  { clear. induction t as [|x t IH]; [done|]. rewrite append_cons. by f_equal. }
  assert (sat_unsigned false n = n) as Hsat.
  { unfold sat_unsigned. rewrite (proj2 (Z.ltb_lt _ _)) by lia. by apply u64_small. }
  split.
  - unfold parse_size, scan_lu. rewrite (scan_num_numeral 10 n t _ Ht Hc). cbn [mbind option_bind scan_c]. rewrite Hsat.
    unfold size_unit. destruct (_ || _); [done|]. destruct (_ || _); [done|]. destruct (_ || _); [done|].
    by rewrite Z.mul_1_r, u64_small.
  - intros Hs. unfold parse_size, scan_lu, atoi. rewrite Hnil, (scan_num_numeral 10 n t "" Ht I).
    cbn [mbind option_bind scan_c]. unfold sat_signed. by rewrite Z.min_l by lia.
Qed.

Section options_props.
Context {E : Env}.

(** The ranges of the numeric options, whatever the strings were. *)
Record numbers_ok (a : cmdline_args) : Prop := {
  no_mem : 0 < a_mem_size a < 18446744073709551616;
  no_cpus : 1 <= a_num_vcpus a <= VM_MAX_VCPUS;
  no_log : LOG_LEVEL_NONE <= a_log_level a <= LOG_LEVEL_DEBUG
}.

Lemma parse_size_range s : 0 <= parse_size s < 18446744073709551616.
Proof.
  assert (forall x r, scan_lu s = Some (x, r) -> 0 <= x < 18446744073709551616) as Hlu.
  { intros x r. unfold scan_lu. destruct (scan_num 10 s) as [[[neg n] r']|]; [|done]. cbn. intros [= <- <-].
    unfold sat_unsigned. case_match; [apply u64_range|lia]. }
  unfold parse_size. destruct (scan_lu s) as [[x r]|]; cbn; [|apply u64_range].
  specialize (Hlu x r eq_refl). destruct (scan_c r) as [[c ?]|]; cbn; [|apply u64_range].
  repeat case_match; done || apply u64_range.
Qed.

Lemma parse_opt_ok opt s a h a' h' :
  numbers_ok a -> parse_opt opt s a h = Ok (OptOk, a') h' -> numbers_ok a'.
Proof.
  intros [Hm Hc Hl] H. destruct a. unfold parse_opt in H. pose proof (parse_size_range s).
  repeat match type of H with (if ?b then _ else _) _ = _ => destruct b eqn:? end; minv H; simplify_eq; split; simpl in *; try done.
  all: bool_prop; try lia; repeat case_match; bool_prop; simplify_eq; try lia.
Qed.
Lemma parse_opt_total opt s a h : exists r a' h', parse_opt opt s a h = Ok (r, a') h' /\ heap h' = heap h.
Proof.
  destruct a. unfold parse_opt, strdup, mbind, M_bind, perform, mret, M_ret. repeat case_match; simplify_eq; by eexists _, _, _.
Qed.

Lemma parse_opts_run l a h :
  exists r a' h', parse_opts l a h = Ok (r, a') h' /\ heap h' = heap h /\ (numbers_ok a -> r = OptOk -> numbers_ok a').
Proof.
  revert a h. induction l as [|[opt s] l IH]; intros a h; cbn [parse_opts].
  { by exists OptOk, a, h. }
  destruct (parse_opt_total opt s a h) as (r & a1 & h1 & Hrun & Hh). rewrite (bind_Ok _ _ _ _ _ Hrun). cbv beta iota.
  destruct r; [|by exists OptError, a1, h1|by exists OptHelp, a1, h1].
  destruct (IH a1 h1) as (r & a2 & h2 & Hrun2 & Hh2 & Hok). exists r, a2, h2. rewrite Hrun2. split; [done|].
  split; [congruence|]. intros Ha. apply Hok. by eapply parse_opt_ok.
Qed.

(** The configurations the rest of the program works with. *)
Record args_ok (a : cmdline_args) : Prop := {
  ao_numbers : numbers_ok a;
  ao_image : a_kernel_path a <> None \/ a_binary_path a <> None;
  ao_entry : a_binary_path a <> None -> a_binary_entry a <> 0
}.

Lemma parse_args_run l h :
  exists r a h', parse_args l h = Ok (r, a) h' /\ heap h' = heap h /\ (r = OptOk -> args_ok a).
Proof.
  unfold parse_args. destruct (parse_opts_run l default_args h) as (r & a & h1 & Hrun & Hh & Hok).
  rewrite (bind_Ok _ _ _ _ _ Hrun). cbv beta iota. destruct r; [|by eexists _, _, _..].
  assert (numbers_ok a) as Hnum.
  { apply Hok; [|done]. split; vm_compute; split; discriminate || reflexivity. }
  assert (a_kernel_path a <> None \/ a_binary_path a <> None ->
    exists r a' h', (if bool_decide (a_binary_path a <> None) && (a_binary_entry a =? 0) then mret (OptError, a)
      else if bool_decide (a_kernel_path a <> None) && bool_decide (a_cmdline a = None) then
        x ← strdup "console=hvc0 earlyprintk=serial panic=1"; mret (OptOk, set_cmdline x a)
      else mret (OptOk, a)) h1 = Ok (r, a') h' /\ heap h' = heap h /\ (r = OptOk -> args_ok a')) as Hgen.
  { intros Himg. destruct (bool_decide (a_binary_path a <> None) && (a_binary_entry a =? 0)) eqn:He;
      [by exists OptError, a, h1|].
    assert (a_binary_path a <> None -> a_binary_entry a <> 0) as Hentry.
    { intros Hb. rewrite bool_decide_true in He by done. by apply Z.eqb_neq. }
    destruct (bool_decide (a_kernel_path a <> None) && _).
    - unfold strdup, mbind, M_bind, perform, mret, M_ret. eexists _, _, _. split; [reflexivity|]. split; [done|].
      intros _. by split; [destruct Hnum; split|..].
    - exists OptOk, a, h1. by split_and!. }
  destruct (a_kernel_path a), (a_binary_path a); try (apply Hgen; by auto). by exists OptError, a, h1.
Qed.

(** [C39] Option parsing, for every sequence of options and arguments.  It always
    returns; when it accepts, the memory size is not zero, there are one to eight
    vCPUs, the log level is a valid one, there is a kernel or a raw binary, and a
    raw binary has an entry point other than 0. *)
Theorem parse_args_spec l h :
  exists r a h', parse_args l h = Ok (r, a) h' /\ heap h' = heap h /\ (r = OptOk -> args_ok a).
Proof. apply parse_args_run. Qed.
End options_props.

(** ** The physical address space of the machine *)

Section address_map.
Context {E : Env} (plat : platform) (hs : hv_state) (args : cmdline_args) (undef : Z).

(** Base and length of what [device_find_at_gpa] accepts for a device. *)
Definition window_of (o : object) : Z * Z := (gpa_start (dbase o), gpa_end (dbase o) - gpa_start (dbase o) + 1).
Definition device_windows (s : main_state) : list (option (Z * Z)) :=
  (fun p => window_of <$> (p ≫= fun i => ms_objects s !! i)) <$> live_devices (ms_vm s).
Definition ram_windows (s : main_state) : list (Z * Z) :=
  (fun r => (rg_gpa r, rg_size r)) <$> base.filter (fun r => rg_used r = true) (mem_regions (ms_vm s)).

(** The windows of the devices a configuration can have, in the order of their
    registration. *)
Definition device_map : list (Z * Z) :=
  [(MMIO_CONSOLE_GPA, MMIO_CONSOLE_SIZE); (VIRTIO_CONSOLE_GPA, VIRTIO_CONSOLE_SIZE);
   (VIRTIO_BLOCK_GPA, VIRTIO_BLOCK_SIZE); (VIRTIO_NET_GPA, VIRTIO_NET_SIZE)].
Definition within (gpa : Z) (w : Z * Z) : Prop := w.1 <= gpa < w.1 + w.2.

(** What the stages before the devices leave alone. *)
Definition kept (v v' : vm) : Prop :=
  mem_regions v' = mem_regions v /\ vm_devices v' = vm_devices v /\ num_devices v' = num_devices v.

Lemma stage_config_kept s h r s1 h1 :
  stage_config args s h = Ok (r, s1) h1 -> kept (ms_vm s) (ms_vm s1) /\ ms_objects s1 = ms_objects s.
Proof.
  unfold stage_config, vm_set_kernel, vm_set_initrd, vm_set_cmdline, dup_arg, strdup. intros H.
  destruct (a_kernel_path args); [|by minv H; simplify_eq].
  destruct (a_initrd_path args), (a_cmdline args); minv H; by simplify_eq.
Qed.

Lemma create_vcpus_kept ll n i v vs h ret v' vs' h' :
  create_vcpus plat hs ll n i v vs h = Ok (ret, v', vs') h' -> kept v v'.
Proof.
  revert i v vs h. induction n as [|n IH]; intros i v vs h H; cbn [create_vcpus] in H; [by minv H; simplify_eq|].
  apply bind_inv in H as ([c|] & h1 & _ & H); [by apply IH in H|].
  apply bind_inv in H as (vs1 & h2 & _ & H). by minv H; simplify_eq.
Qed.
Lemma stage_vcpus_kept s h r s1 h1 :
  stage_vcpus plat hs args s h = Ok (r, s1) h1 -> kept (ms_vm s) (ms_vm s1) /\ ms_objects s1 = ms_objects s.
Proof.
  unfold stage_vcpus, vm_create_vcpus. intros H. apply bind_inv in H as ([[ret v] vs] & h2 & Hc & H).
  cbn [mret M_ret] in H. minv H. simplify_eq. split; [|done]. simpl.
  destruct (_ >? _); [by minv Hc; simplify_eq|].
  apply bind_inv in Hc as ([[ret1 v1] vs1] & h3 & Hc & H2). apply create_vcpus_kept in Hc. destruct (_ <? 0); by minv H2; simplify_eq.
Qed.

Lemma stage_memory_ram s h s1 h1 :
  mem_regions (ms_vm s) = replicate VM_MAX_SLOTS zero_region ->
  stage_memory hs args s h = Ok (None, s1) h1 ->
  ram_windows s1 = [(0, ram_size args)] /\ ms_objects s1 = ms_objects s /\
  vm_devices (ms_vm s1) = vm_devices (ms_vm s) /\ num_devices (ms_vm s1) = num_devices (ms_vm s).
Proof.
  intros Hr. unfold stage_memory, vm_add_memory_region. rewrite Hr. cbn [free_slot]. intros H.
  change (free_slot (replicate VM_MAX_SLOTS zero_region)) with (Some 0%nat) in H. cbv iota beta in H.
  apply bind_inv in H as ([ret v] & h2 & Ha & H). cbn [mret M_ret] in H. minv H.
  destruct (ret <? 0) eqn:Hret; [done|]. simplify_eq. minv Ha; simplify_eq; try done.
Qed.

(** The device array and the objects behind it show exactly the windows [ws]. *)
Definition shows (ws : list (Z * Z)) (s : main_state) : Prop :=
  length (vm_devices (ms_vm s)) = 16%nat /\ num_devices (ms_vm s) = Z.of_nat (length ws) /\
  device_windows s = Some <$> ws.

Lemma add_device_shows ll ws o s h s1 h1 :
  shows ws s -> (length ws < 16)%nat -> add_device ll (Some o) s h = Ok s1 h1 ->
  shows (ws ++ [window_of o]) s1 /\ ram_windows s1 = ram_windows s.
Proof.
  intros (Hlen & Hnum & Hws) Hfew. unfold add_device, vm_register_device. rewrite Hnum.
  rewrite Z.geb_leb, (proj2 (Z.leb_gt _ _)) by (unfold VM_MAX_DEVICES; lia). rewrite Nat2Z.id. intros H.
  set (i := fresh (dom (ms_objects s))) in *.
  assert (ms_objects s !! i = None) as Hi by (apply not_elem_of_dom, is_fresh).
  apply bind_inv in H as ([ret v] & h2 & Hv & H). minv H.
  assert (v = set_devices (<[length ws := Some i]> (vm_devices (ms_vm s))) (Z.of_nat (length ws) + 1) (ms_vm s)) as ->.
  { destruct (_ >=? _); [|by minv Hv; simplify_eq]. apply bind_inv in Hv as (? & ? & _ & Hv). by minv Hv; simplify_eq. }
  split; [|done]. split_and!; simpl.
  - by rewrite length_insert.
  - rewrite length_app. simpl. lia.
  - unfold device_windows, live_devices in *. simpl. rewrite Hnum, Nat2Z.id in Hws.
    rewrite Z.add_1_r, <- Nat2Z.inj_succ, Nat2Z.id.
    rewrite (take_S_r _ _ (Some i)) by (apply list_lookup_insert_eq; lia).
    rewrite take_insert_ge by lia. rewrite !fmap_app. f_equal.
    + rewrite <- Hws. apply list_fmap_ext. intros k [j|] Hk; [|done]. cbn [mbind option_bind].
      destruct (decide (i = j)) as [<-|Hne]; [|by rewrite lookup_insert_ne].
      exfalso. apply (f_equal (.!! k)) in Hws. rewrite !list_lookup_fmap, Hk in Hws. cbn in Hws. rewrite Hi in Hws.
      by destruct (ws !! k).
    + cbn. by rewrite lookup_insert_eq.
Qed.

(** One device of [stage_devices]: created or not, it adds at most its window. *)
Lemma add_device_step {A} (f : M (option A)) (inj : A -> object) w ll ws dev s h h1 s1 h2 :
  f h = Ok dev h1 -> add_device ll (inj <$> dev) s h1 = Ok s1 h2 ->
  (forall o h h', f h = Ok (Some o) h' -> window_of (inj o) = w) -> shows ws s -> (length ws < 16)%nat ->
  exists ws', ws' `sublist_of` [w] /\ shows (ws ++ ws') s1 /\ ram_windows s1 = ram_windows s.
Proof.
  intros Hf H Hw Hs Hfew. destruct dev as [o|]; cbn [fmap option_fmap option_map] in H.
  - apply Hw in Hf. apply add_device_shows with (ws := ws) in H as [H1 H2]; [|done..]. rewrite Hf in H1. by exists [w].
  - unfold add_device in H. minv H. exists []. rewrite app_nil_r. split; [apply sublist_nil_l|done].
Qed.

(** A device the configuration may ask for. *)
Lemma optional_device {A} (c : option string) (f : string -> M (option A)) (inj : A -> object) w ll ws s h s1 h1 :
  (match c with Some x => dev ← f x; add_device ll (inj <$> dev) s | None => mret s end) h = Ok s1 h1 ->
  (forall x o h h', f x h = Ok (Some o) h' -> window_of (inj o) = w) -> shows ws s -> (length ws < 16)%nat ->
  exists ws', ws' `sublist_of` [w] /\ shows (ws ++ ws') s1 /\ ram_windows s1 = ram_windows s.
Proof.
  intros H Hw Hs Hfew. destruct c as [x|].
  - apply bind_inv in H as (dev & h2 & Hf & Ha). by eapply (add_device_step _ _ _ _ _ _ _ _ _ _ _ Hf Ha (Hw x)).
  - minv H. exists []. rewrite app_nil_r. split; [apply sublist_nil_l|done].
Qed.

Lemma uart_window o h h' : mmio_console_create h = Ok (Some o) h' -> window_of (ObjUart o) = (MMIO_CONSOLE_GPA, MMIO_CONSOLE_SIZE).
Proof. unfold mmio_console_create, device_create, strdup. intros H. by minv H; simplify_eq. Qed.
Lemma con_window o h h' :
  virtio_console_create undef h = Ok (Some o) h' -> window_of (ObjCon o) = (VIRTIO_CONSOLE_GPA, VIRTIO_CONSOLE_SIZE).
Proof. unfold virtio_console_create, strdup. intros H. by minv H; simplify_eq. Qed.
Lemma blk_window path o h h' :
  virtio_blk_create undef path h = Ok (Some o) h' -> window_of (ObjBlk o) = (VIRTIO_BLOCK_GPA, VIRTIO_BLOCK_SIZE).
Proof. unfold virtio_blk_create, strdup. intros H. by minv H; simplify_eq. Qed.
Lemma net_window tap o h h' :
  virtio_net_create undef tap h = Ok (Some o) h' -> window_of (ObjNet o) = (VIRTIO_NET_GPA, VIRTIO_NET_SIZE).
Proof. unfold virtio_net_create, strdup. intros H. by minv H; simplify_eq. Qed.

Lemma stage_devices_shows s h r s1 h1 :
  shows [] s -> stage_devices args undef s h = Ok (r, s1) h1 ->
  exists ws, ws `sublist_of` device_map /\ shows ws s1 /\ ram_windows s1 = ram_windows s.
Proof.
  intros Hs. unfold stage_devices. intros H.
  apply bind_inv in H as (d1 & h2 & Hd1 & H). apply bind_inv in H as (s2 & h3 & Ha1 & H).
  apply bind_inv in H as (d2 & h4 & Hd2 & H). apply bind_inv in H as (s3 & h5 & Ha2 & H).
  apply bind_inv in H as (s4 & h6 & H3 & H). apply bind_inv in H as (s5 & h7 & H4 & H). apply ret_inv in H as [[= <- <-] <-].
  destruct (add_device_step _ _ _ _ _ _ _ _ _ _ _ Hd1 Ha1 uart_window Hs ltac:(simpl; lia)) as (ws1 & Hsub1 & Hs1 & Hr1).
  pose proof (sublist_length _ _ Hsub1) as Hl1. simpl in Hl1, Hs1.
  destruct (add_device_step _ _ _ _ _ _ _ _ _ _ _ Hd2 Ha2 con_window Hs1 ltac:(lia)) as (ws2 & Hsub2 & Hs2 & Hr2).
  pose proof (sublist_length _ _ Hsub2) as Hl2. simpl in Hl2.
  destruct (optional_device _ _ _ _ _ _ _ _ _ _ H3 blk_window Hs2) as (ws3 & Hsub3 & Hs3 & Hr3); [rewrite length_app; lia|].
  pose proof (sublist_length _ _ Hsub3) as Hl3. simpl in Hl3.
  destruct (optional_device _ (fun tap => virtio_net_create undef (Some tap)) _ _ _ _ _ _ _ _ H4 (fun tap => net_window (Some tap)) Hs3)
    as (ws4 & Hsub4 & Hs4 & Hr4); [rewrite !length_app; lia|].
  exists (((ws1 ++ ws2) ++ ws3) ++ ws4). split_and!; [|done|congruence].
  change device_map with ((([(MMIO_CONSOLE_GPA, MMIO_CONSOLE_SIZE)] ++ [(VIRTIO_CONSOLE_GPA, VIRTIO_CONSOLE_SIZE)]) ++
    [(VIRTIO_BLOCK_GPA, VIRTIO_BLOCK_SIZE)]) ++ [(VIRTIO_NET_GPA, VIRTIO_NET_SIZE)]).
  by repeat apply sublist_app.
Qed.

(** What the four constructors give their objects, all objects of the machine have. *)
Record created_all (Q : object -> Prop) : Prop := {
  cr_uart o h h' : mmio_console_create h = Ok (Some o) h' -> Q (ObjUart o);
  cr_con o h h' : virtio_console_create undef h = Ok (Some o) h' -> Q (ObjCon o);
  cr_blk path o h h' : virtio_blk_create undef path h = Ok (Some o) h' -> Q (ObjBlk o);
  cr_net tap o h h' : virtio_net_create undef tap h = Ok (Some o) h' -> Q (ObjNet o)
}.

Lemma add_device_objects (Q : object -> Prop) {A} (inj : A -> object) dev s h s1 h1 :
  map_Forall (fun _ => Q) (ms_objects s) -> (forall o, dev = Some o -> Q (inj o)) -> add_device args (inj <$> dev) s h = Ok s1 h1 ->
  map_Forall (fun _ => Q) (ms_objects s1).
Proof.
  intros Hs Hdev H. unfold add_device in H. destruct dev as [o|]; cbn [fmap option_fmap option_map] in H; [|by minv H; simplify_eq].
  cbv zeta in H. apply bind_inv in H as ([r v] & h2 & _ & H). minv H; simplify_eq. cbn.
  apply map_Forall_insert_2; [by apply Hdev|done].
Qed.

Lemma stage_devices_objects (Q : object -> Prop) s h r s1 h1 :
  created_all Q -> map_Forall (fun _ => Q) (ms_objects s) -> stage_devices args undef s h = Ok (r, s1) h1 ->
  map_Forall (fun _ => Q) (ms_objects s1).
Proof.
  intros [Hu Hc Hb Hn] Hs H. unfold stage_devices in H.
  apply bind_inv in H as (d1 & h2 & Hd1 & H). apply bind_inv in H as (s2 & h3 & H2 & H).
  apply add_device_objects with (Q := Q) in H2; [|done|intros o ->; by eapply Hu].
  apply bind_inv in H as (d2 & h4 & Hd2 & H). apply bind_inv in H as (s3 & h5 & H3 & H).
  apply add_device_objects with (Q := Q) in H3; [|done|intros o ->; by eapply Hc].
  apply bind_inv in H as (s4 & h6 & H4 & H). apply bind_inv in H as (s5 & h7 & H5 & H). minv H; simplify_eq.
  assert (map_Forall (fun _ => Q) (ms_objects s4)) as Hs4.
  { destruct (a_disk_path args); [|by minv H4; simplify_eq]. apply bind_inv in H4 as (d3 & h8 & Hd3 & H4).
    apply add_device_objects with (Q := Q) in H4; [done|done|intros o ->; by eapply Hb]. }
  destruct (a_net_tap args); [|by minv H5; simplify_eq]. apply bind_inv in H5 as (d4 & h8 & Hd4 & H5).
  apply add_device_objects with (Q := Q) in H5; [done|done|intros o ->; by eapply Hn].
Qed.

Lemma main_setup_objects (Q : object -> Prop) hvm h s h' :
  created_all Q -> main_setup plat hs args undef (mk_ms (new_vm hvm) ∅ ∅ None) h = Ok (None, s) h' ->
  map_Forall (fun _ => Q) (ms_objects s).
Proof.
  unfold main_setup, and_then. intros HQ H.
  apply bind_inv in H as ([[?|] s1] & h1 & H1 & H); [by minv H|]. apply stage_config_kept in H1 as [(Hr1 & _) Ho1].
  apply bind_inv in H as ([[?|] s2] & h2 & H2 & H); [by minv H|]. apply stage_memory_ram in H2 as (_ & Ho2 & _); [|exact Hr1].
  apply bind_inv in H as ([[?|] s3] & h3 & H3 & H); [by minv H|]. apply stage_vcpus_kept in H3 as [_ Ho3].
  eapply stage_devices_objects; [exact HQ| |exact H]. rewrite Ho3, Ho2, Ho1. apply map_Forall_empty.
Qed.

Ltac map_lia :=
  unfold within, MMIO_CONSOLE_GPA, MMIO_CONSOLE_SIZE, VIRTIO_CONSOLE_GPA, VIRTIO_CONSOLE_SIZE, VIRTIO_BLOCK_GPA,
    VIRTIO_BLOCK_SIZE, VIRTIO_NET_GPA, VIRTIO_NET_SIZE in *; cbn [fst snd] in *; lia.

Lemma device_map_separate i j w w' gpa :
  device_map !! i = Some w -> device_map !! j = Some w' -> within gpa w -> within gpa w' -> i = j.
Proof.
  intros Hi Hj. destruct i as [|[|[|[|i]]]], j as [|[|[|[|j]]]]; cbn in Hi, Hj; simplify_eq; try done; map_lia.
Qed.
(** A sublist keeps the separation. *)
Lemma sublist_separate {A} (R : A -> A -> Prop) (k l : list A) :
  k `sublist_of` l -> (forall i j x y, l !! i = Some x -> l !! j = Some y -> R x y -> i = j) ->
  forall i j x y, k !! i = Some x -> k !! j = Some y -> R x y -> i = j.
Proof.
  intros Hsub. induction Hsub as [|z k l Hsub IH|z k l Hsub IH]; intros Hl i j x y Hi Hj Hxy.
  - done.
  - assert (forall i x, k !! i = Some x -> exists i', l !! i' = Some x) as Hin.
    { intros n u Hn. apply list_elem_of_lookup. eapply elem_of_submseteq; [by eapply list_elem_of_lookup_2|]. by apply sublist_submseteq. }
    destruct i as [|i], j as [|j]; cbn in Hi, Hj.
    + done.
    + destruct (Hin _ _ Hj) as [j' Hj']. discriminate (Hl 0%nat (S j') x y Hi Hj' Hxy).
    + destruct (Hin _ _ Hi) as [i' Hi']. discriminate (Hl (S i') 0%nat x y Hi' Hj Hxy).
    + f_equal. eapply IH; [|exact Hi|exact Hj|exact Hxy]. intros i' j' u v Hu Hv Huv.
      by injection (Hl (S i') (S j') u v Hu Hv Huv).
  - eapply IH; [|exact Hi|exact Hj|exact Hxy]. intros i' j' u v Hu Hv Huv. by injection (Hl (S i') (S j') u v Hu Hv Huv).
Qed.

(** The set-up as a whole. *)
Lemma main_setup_shows hvm h s h' :
  main_setup plat hs args undef (mk_ms (new_vm hvm) ∅ ∅ None) h = Ok (None, s) h' ->
  ram_windows s = [(0, ram_size args)] /\ exists ws, ws `sublist_of` device_map /\ shows ws s.
Proof.
  intros H. unfold main_setup, and_then in H.
  apply bind_inv in H as ([[?|] s1] & h2 & H1 & H); [by minv H|]. apply stage_config_kept in H1 as [(Hr1 & Hd1 & Hn1) Ho1].
  apply bind_inv in H as ([[?|] s2] & h3 & H2 & H); [by minv H|].
  apply stage_memory_ram in H2 as (Hram & Ho2 & Hd2 & Hn2); [|exact Hr1].
  apply bind_inv in H as ([[?|] s3] & h4 & H3 & H); [by minv H|]. apply stage_vcpus_kept in H3 as [(Hr3 & Hd3 & Hn3) Ho3].
  assert (shows [] s3) as Hs.
  { split_and!; [by rewrite Hd3, Hd2, Hd1|by rewrite Hn3, Hn2, Hn1|].
    unfold device_windows, live_devices. by rewrite Hn3, Hn2, Hn1. }
  destruct (stage_devices_shows _ _ _ _ _ Hs H) as (ws & Hsub & Hws & Hram4).
  split; [rewrite Hram4; unfold ram_windows; by rewrite Hr3|]. by exists ws.
Qed.

(** [C24] The physical address space [main] builds.  Whatever the options and the
    host, when the set-up succeeds the guest has one block of RAM at 0, of the
    requested size but at most 128 MiB; the device array shows windows among those
    of the UART, the virtio console, the disk and the network card, in this order
    ([device_map], from the addresses of the sources under src/devices/); no address
    belongs to two devices, and none to a device and to RAM.  The memory layouts in the
    repository's documents are another map, which the code does not build: they give up to
    256 MiB of low RAM, RAM above 4 GiB, and virtio windows from 0x00A00000, inside RAM. *)
Theorem machine_address_map v s h h0 h1 :
  vm_create hs h = Ok (Some v) h0 ->
  main_setup plat hs args undef (mk_ms v ∅ ∅ None) h0 = Ok (None, s) h1 ->
  ram_windows s = [(0, ram_size args)] /\ ram_size args <= 128 * 1024 * 1024 /\
  exists ws, device_windows s = Some <$> ws /\ ws `sublist_of` device_map /\
    (forall i j w w' gpa, ws !! i = Some w -> ws !! j = Some w' -> within gpa w -> within gpa w' -> i = j) /\
    (forall w gpa, w ∈ ws -> within gpa w -> ~ within gpa (0, ram_size args)).
Proof.
  intros Hv H. assert (exists hv, v = new_vm hv) as [hv ->].
  { unfold vm_create in Hv. minv Hv; simplify_eq; by eexists. }
  destruct (main_setup_shows _ _ _ _ H) as (Hram & ws & Hsub & _ & _ & Hws).
  assert (ram_size args <= 128 * 1024 * 1024) as Hcap by (unfold ram_size; case_match; bool_prop; lia).
  split; [done|]. split; [done|]. exists ws. split_and!; [done..| |].
  - intros i j w w' gpa Hi Hj Hw Hw'.
    eapply (sublist_separate (fun w w' => within gpa w /\ within gpa w')); [exact Hsub| |exact Hi|exact Hj|done].
    intros i' j' u u' Hu Hu' [? ?]. by eapply device_map_separate.
  - intros w gpa Hw Hin [_ Hlt]. cbn [fst snd] in Hlt.
    assert (w ∈ device_map) as Hmap by (eapply elem_of_submseteq; [done|by apply sublist_submseteq]).
    unfold device_map in Hmap. rewrite !elem_of_cons, elem_of_nil in Hmap.
    destruct Hmap as [->|[->|[->|[->|[]]]]]; map_lia.
Qed.
End address_map.

(** ** The main program *)

Section main_props.
Context {E : Env}.

Lemma and_then_stop f g s r s1 h h1 :
  f s h = Ok (Some r, s1) h1 -> and_then f g s h = Ok (Some r, s1) h1.
Proof. intros H. unfold and_then. by rewrite (bind_Ok _ _ _ _ _ H). Qed.
Lemma and_then_next f g s s1 h h1 :
  f s h = Ok (None, s1) h1 -> and_then f g s h = g s1 h1.
Proof. intros H. unfold and_then. by rewrite (bind_Ok _ _ _ _ _ H). Qed.
Lemma and_then_Ub f g s u h : f s h = Ub u -> and_then f g s h = Ub u.
Proof. intros H. unfold and_then. by apply bind_Ub. Qed.

(** A kernel without an initial ramdisk.  The options accept it, but [main] hands
    the missing path to [strdup]: once the backend is initialised and the VM
    created, every such run ends in a null dereference. *)
Theorem main_kernel_needs_initrd plat kvm hvf arm undef fuel opts args hs v k h h1 h2 h3 :
  parse_args opts h = Ok (OptOk, args) h1 ->
  hv_init plat kvm hvf arm HV_TYPE_AUTO hv_initial h1 = Ok (0, hs) h2 ->
  vm_create hs h2 = Ok (Some v) h3 ->
  a_kernel_path args = Some k -> a_initrd_path args = None ->
  main plat kvm hvf arm undef fuel opts h = Ub NullDeref.
Proof.
  intros Hargs Hinit Hvm Hk Hi. unfold main. rewrite (bind_Ok _ _ _ _ _ Hargs). cbv beta iota.
  rewrite (bind_Ok _ _ _ _ _ Hinit). cbv beta iota. change (0 <? 0) with false. cbn iota.
  unfold main_run. rewrite (bind_Ok _ _ _ _ _ Hvm). cbv beta iota. apply bind_Ub.
  unfold main_stages, main_setup. do 2 apply and_then_Ub. unfold stage_config. rewrite Hk, Hi.
  unfold vm_set_kernel, dup_arg, strdup. rewrite !bind_assoc. by mrun.
Qed.

(** A passthrough device that cannot be opened.  When the VFIO container cannot be
    created, or the device cannot be opened, [main] jumps to its clean-up while
    [ret] is still the 0 of the vCPU creation: if the run ends at all, the program
    reports success although the VM was never started. *)
Theorem main_vfio_failure_exits_success plat hs args undef fuel v bdf s1 h h0 h1 cont h2 :
  vm_create hs h = Ok (Some v) h0 -> main_setup plat hs args undef (mk_ms v ∅ ∅ None) h0 = Ok (None, s1) h1 ->
  a_vfio_bdf args = Some bdf -> vfio_container_create h1 = Ok cont h2 ->
  (cont = None \/ exists fd h3, cont = Some fd /\ vfio_device_open fd bdf h2 = Ok None h3) ->
  forall code h', main_run plat hs args undef fuel h = Ok code h' -> code = EXIT_SUCCESS.
Proof.
  intros Hvm Hsetup Hbdf Hcont Hfail code h' Hrun. unfold main_run in Hrun.
  rewrite (bind_Ok _ _ _ _ _ Hvm) in Hrun. cbv beta iota in Hrun.
  assert (exists s2 h3, main_stages plat hs args undef fuel (mk_ms v ∅ ∅ None) h0 = Ok (Some 0, s2) h3) as (s2 & h3 & Hst).
  { assert (exists s2 h3, stage_vfio args s1 h1 = Ok (Some 0, s2) h3) as (s2 & h3 & Hv).
    { unfold stage_vfio. rewrite Hbdf, (bind_Ok _ _ _ _ _ Hcont). cbv beta zeta.
      destruct Hfail as [->|(fd & h3 & -> & Hopen)]; [by eexists _, _|]. rewrite (bind_Ok _ _ _ _ _ Hopen). by eexists _, _. }
    exists s2, h3. unfold main_stages. rewrite (and_then_next _ _ _ _ _ _ Hsetup). by apply and_then_stop. }
  rewrite (bind_Ok _ _ _ _ _ Hst) in Hrun. cbv beta iota in Hrun. unfold main_cleanup in Hrun. cbn [default] in Hrun.
  apply bind_inv in Hrun as (? & ? & _ & Hrun). apply bind_inv in Hrun as (? & ? & _ & Hrun).
  apply bind_inv in Hrun as (? & ? & _ & Hrun). by minv Hrun.
Qed.

(** *** The wait loop *)

Lemma any_stopped_run l (vs : gmap positive vcpu) h :
  Forall (fun p => exists i c, p = Some i /\ vs !! i = Some c) l ->
  exists b, any_stopped l vs h = Ok b h /\
    (b = true <-> exists i c, Some i ∈ l /\ vs !! i = Some c /\ should_stop c <> 0).
Proof.
  induction 1 as [|p l (i & c & -> & Hc) _ (b & Hrun & Hb)]; cbn [any_stopped get_vcpu].
  { exists false. split; [done|]. split; [done|]. intros (i & c & Hi & _). by apply elem_of_nil in Hi. }
  rewrite Hc. cbn [deref]. rewrite (bind_ret c). destruct (should_stop c =? 0) eqn:Hs; bool_prop; cbn [negb].
  - exists b. split; [done|]. rewrite Hb. split; intros (i' & c' & Hi & Hc' & Hs'); exists i', c'.
    + split_and!; [by apply list_elem_of_further|done..].
    + apply elem_of_cons in Hi as [[= ->]|Hi]; [congruence|done].
  - exists true. split; [done|]. split; [|done]. intros _. exists i, c. split_and!; [apply list_elem_of_here|done..].
Qed.
(** Every vCPU of the VM is live and none has been asked to stop. *)
Definition vcpus_running (v : vm) (vs : gmap positive vcpu) : Prop :=
  vm_st v = VM_STATE_RUNNING /\
  Forall (fun p => exists i c, p = Some i /\ vs !! i = Some c /\ should_stop c = 0) (live_vcpus v).

Lemma wait_loop_idle plat hs fuel v vs h :
  vcpus_running v vs -> env_answer (trace h) EvSleep = (false, []) ->
  wait_loop plat hs (S fuel) true v vs h = wait_loop plat hs fuel true v vs (called EvSleep h).
Proof.
  intros [Hst Hall] Hans. cbn [wait_loop]. rewrite bool_decide_true by done. cbn [andb].
  mrun by (unfold perform; rewrite Hans; reflexivity). cbn [request_stop foldr]. rewrite bind_ret. cbv beta iota.
  destruct (any_stopped_run (live_vcpus v) vs (called EvSleep h)) as (b & Hrun & Hb).
  { eapply Forall_impl; [exact Hall|]. intros p (i & c & -> & Hc & _). by exists i, c. }
  rewrite (bind_Ok _ _ _ _ _ Hrun). destruct b; [|done]. exfalso.
  destruct (proj1 Hb eq_refl) as (i & c & Hi & Hc & Hs). rewrite Forall_forall in Hall.
  destruct (Hall _ Hi) as (i' & c' & [= <-] & Hc' & Hs'). congruence.
Qed.

Lemma wait_loop_state plat hs fuel g v (vs : gmap positive vcpu) h v' vs' h' :
  wait_loop plat hs fuel g v vs h = Ok (v', vs') h' -> exists x, v' = set_state x v.
Proof.
  revert g v vs h. induction fuel as [|fuel IH]; intros g v vs h H; [done|]. cbn [wait_loop] in H.
  destruct (g && _); [|minv H; simplify_eq; eexists; apply set_state_same].
  apply bind_inv in H as ([sig l] & h1 & _ & H). cbv beta iota zeta in H.
  apply bind_inv in H as ([v1 vs1] & h2 & Hs & H). apply bind_inv in H as (b & h3 & _ & H).
  apply IH in H as [x ->]. destruct sig; [|by minv Hs; simplify_eq; eexists].
  unfold signal_handler in Hs. apply bind_inv in Hs as ([[r v2] vs2] & h4 & H4 & Hs). minv Hs. simplify_eq.
  apply vm_stop_state in H4 as [y ->]. by eexists.
Qed.

(** The wait loop notices a stop.  While no vCPU thread has set [should_stop] and
    no signal arrives, [main] sleeps; the first sleep during which the thread of
    some vCPU sets it is the last one: the loop ends right after it, having slept
    once for each second and never touching the VM. *)
Theorem wait_loop_ends plat hs n v vs j h :
  vcpus_running v vs -> is_Some (live_vcpus v !! j) ->
  (forall k, (k < n)%nat -> env_answer (replicate k EvSleep ++ trace h) EvSleep = (false, [])) ->
  env_answer (replicate n EvSleep ++ trace h) EvSleep = (false, [j]) ->
  exists vs' h', wait_loop plat hs (S (S n)) true v vs h = Ok (v, vs') h' /\
    trace h' = replicate (S n) EvSleep ++ trace h /\ heap h' = heap h.
Proof.
  intros Hrun Hj. revert h. induction n as [|n IH]; intros h Hidle Hstop.
  - destruct Hrun as [Hst Hall]. cbn [wait_loop]. rewrite bool_decide_true by done. cbn [andb].
    mrun by (unfold perform; cbn [replicate app] in Hstop; rewrite Hstop; reflexivity). rewrite bind_ret. cbv beta iota.
    destruct Hj as [p Hp]. pose proof (proj1 (Forall_forall _ _) Hall p (list_elem_of_lookup_2 _ _ _ Hp)) as (k & c & -> & Hc & _).
    cbn [request_stop foldr]. rewrite Hp.
    destruct (any_stopped_run (live_vcpus v) (alter (set_should_stop 1) k vs) (called EvSleep h)) as (b & Ha & Hb).
    { eapply Forall_impl; [exact Hall|]. intros q (i & ci & -> & Hci & _). exists i.
      destruct (decide (i = k)) as [->|Hne]; [exists (set_should_stop 1 ci); by rewrite lookup_alter_eq, Hci|].
      exists ci. by rewrite lookup_alter_ne. }
    assert (b = true) as ->.
    { apply Hb. exists k, (set_should_stop 1 c). split; [by eapply list_elem_of_lookup_2|]. by rewrite lookup_alter_eq, Hc. }
    rewrite (bind_Ok _ _ _ _ _ Ha). cbn [negb andb]. by eexists _, _.
  - rewrite wait_loop_idle; [|done|exact (Hidle 0%nat ltac:(lia))].
    assert (forall k, replicate k EvSleep ++ trace (called EvSleep h) = replicate (S k) EvSleep ++ trace h) as Hshift.
    { intros k. cbn [trace called]. rewrite <- Nat.add_1_r, replicate_add, <- app_assoc. done. }
    destruct (IH (called EvSleep h)) as (vs' & h' & Hloop & Ht & Hh).
    + intros k Hk. rewrite Hshift. apply Hidle. lia.
    + by rewrite Hshift.
    + exists vs', h'. split; [exact Hloop|]. split; [by rewrite Ht, Hshift|done].
Qed.

(** Without a stop the loop sleeps for ever. *)
Lemma wait_loop_stalls plat hs fuel v vs h :
  vcpus_running v vs -> (forall tr, env_answer tr EvSleep = (false, [])) ->
  wait_loop plat hs fuel true v vs h = Ub OutOfFuel.
Proof.
  intros Hrun Hquiet. revert h. induction fuel as [|fuel IH]; intros h; [done|].
  rewrite wait_loop_idle by done. apply IH.
Qed.

(** [C26] A guest on an Intel Mac never ends the program.  Whatever it does, the thread
    of its vCPU gives up by the 501st turn, on the exit limit or on an error of the
    framework, and leaves [should_stop] at 0 and the VM in the running state; [main]
    polls just these two, so that without a signal no number of turns of its wait
    loop is enough. *)
Theorem hvf_intel_never_ends {O} `{!Device O} fd exit0 v (st : gmap positive O) vs i c hv id buf created h :
  live_vcpus v = [Some i] -> vs !! i = Some c -> vm_st v = VM_STATE_RUNNING ->
  vc_hv c = Some hv -> hvc_data hv = HvfVcpuData id buf created ->
  should_stop c = 0 -> vc_stats c = zero_stats -> errno h <> EINTR ->
  (forall tr, env_answer tr EvSleep = (false, [])) ->
  exists e c' h', vcpu_loop (hvf_state true fd) 501 exit0 v st c h = Ok (e, c', st) h' /\
    (e = TooManyExits \/ e = RunFailed) /\ should_stop c' = 0 /\
    forall fuel h2, wait_loop MacIntel (hvf_state true fd) fuel true v (<[i := c']> vs) h2 = Ub OutOfFuel.
Proof.
  intros Hlive Hi Hst Hhv Hd Hs Hz Herr Hquiet.
  destruct (hvf_intel_halts_run fd exit0 v st c hv id buf created h Hhv Hd Hs Hz Herr) as (e & n & m & h' & Hrun & _ & _ & He).
  exists e, (set_stats (halt_stats n) c), h'. split; [exact Hrun|]. split; [tauto|]. split; [exact Hs|].
  intros fuel h2. apply wait_loop_stalls; [|done]. split; [done|]. rewrite Hlive. constructor; [|constructor].
  exists i, (set_stats (halt_stats n) c). by rewrite lookup_insert_eq.
Qed.
End main_props.

(** ** Witnesses *)

Section witnesses.
#[local] Existing Instance good_env.

Lemma parse_size_spec_witness :
  parse_size "4294967296K" = 4398046511104 /\ parse_size "4294967296" = 0.
Proof.
  assert (numeral 10 4294967296 "4294967296") as Hnum.
  { change (numeral 10 (4294967296 * 10 ^ Z.of_nat (String.length "") + 0) (print_digits 10 10 4294967296 "")).
    apply print_numeral; [by left|simpl; lia|lia|by left]. }
  destruct (parse_size_spec 4294967296 "4294967296" "K" "" Hnum ltac:(lia) ltac:(repeat split; discriminate)) as [H1 H2].
  split; [exact H1|exact (H2 ltac:(lia))].
Defined.

(** A kernel and 64 bytes of memory, no initial ramdisk. *)
Definition kernel_options : list (ascii * string) :=
  [("k"%char, "bzImage"%string); ("m"%char, "64"%string); ("l"%char, "1"%string)].

Lemma main_kernel_needs_initrd_witness :
  main LinuxX86 kvm_ops kvm_ops kvm_ops 0 10 kernel_options empty_host = Ub NullDeref.
Proof.
  pose (args := mk_args (Some "bzImage"%string) None (Some "console=hvc0 earlyprintk=serial panic=1"%string) 64 1
    None None None 0 1 None 0).
  pose (h1 := called (EvStrdup "console=hvc0 earlyprintk=serial panic=1") (called (EvStrdup "bzImage") empty_host)).
  refine (main_kernel_needs_initrd LinuxX86 kvm_ops kvm_ops kvm_ops 0 10 kernel_options args (kvm_state 5)
    (new_vm (mk_hv_vm 7 (KvmVmData 128))) "bzImage" empty_host h1 _ _ _ _ _ eq_refl eq_refl); [reflexivity|reflexivity|reflexivity].
Defined.
End witnesses.

(** A host with KVM and without VFIO. *)
Definition no_vfio_env : Env := fun tr e =>
  match e return answer e with
  | EvOpen path _ => if String.eqb path "/dev/vfio/vfio" then -1 else 3 + Z.of_nat (length tr)
  | e => good_env tr e
  end.

Section vfio_witness.
#[local] Existing Instance no_vfio_env.

(** A raw binary, a disk and a passthrough device. *)
Definition vfio_args : cmdline_args :=
  mk_args None None None 64 1 (Some "disk.img"%string) None (Some "1a:00.1"%string) 0 1 (Some "a.bin"%string) 4096.

Lemma machine_address_map_witness :
  exists s, ram_windows s = [(0, 64)] /\
    device_windows s = Some <$> [(0x90000000, 0x1000); (0xa000000, 0x1000); (0xa001000, 0x1000)] /\
    exists ws, device_windows s = Some <$> ws /\ forall w gpa, w ∈ ws -> within gpa w -> ~ within gpa (0, 64).
Proof.
  destruct (vm_create (kvm_state 3) empty_host) as [[v|] h0|] eqn:Hv; [|vm_compute in Hv; discriminate Hv..].
  destruct (main_setup LinuxX86 (kvm_state 3) vfio_args 0 (mk_ms v ∅ ∅ None) h0) as [[[ret|] s] h1|] eqn:Hs;
    [vm_compute in Hv; injection Hv as <- <-; vm_compute in Hs; discriminate Hs| |
     vm_compute in Hv; injection Hv as <- <-; vm_compute in Hs; discriminate Hs].
  destruct (machine_address_map LinuxX86 (kvm_state 3) vfio_args 0 v s empty_host h0 h1 Hv Hs) as (Hram & _ & ws & Hws & _ & _ & Hsep).
  exists s. split; [exact Hram|]. split; [|exists ws; split; [exact Hws|exact Hsep]].
  vm_compute in Hv; injection Hv as <- <-; vm_compute in Hs. injection Hs as <- _. reflexivity.
Defined.

Lemma main_vfio_failure_exits_success_witness :
  exists h', main_run LinuxX86 (kvm_state 3) vfio_args 0 10 empty_host = Ok EXIT_SUCCESS h'.
Proof.
  destruct (main_run LinuxX86 (kvm_state 3) vfio_args 0 10 empty_host) as [code h'|] eqn:Hr;
    [|vm_compute in Hr; discriminate Hr].
  exists h'. f_equal.
  destruct (vm_create (kvm_state 3) empty_host) as [[v|] h0|] eqn:Hv; [|vm_compute in Hv; discriminate Hv..].
  destruct (main_setup LinuxX86 (kvm_state 3) vfio_args 0 (mk_ms v ∅ ∅ None) h0) as [[[ret|] s] h1|] eqn:Hs;
    [vm_compute in Hv; injection Hv as <- <-; vm_compute in Hs; discriminate Hs| |
     vm_compute in Hv; injection Hv as <- <-; vm_compute in Hs; discriminate Hs].
  destruct (vfio_container_create h1) as [cont h2|] eqn:Hc; [|vm_compute in Hv; injection Hv as <- <-;
    vm_compute in Hs; injection Hs as <- <-; vm_compute in Hc; discriminate Hc].
  refine (main_vfio_failure_exits_success LinuxX86 (kvm_state 3) vfio_args 0 10 v _ s _ _ _ cont _ Hv Hs eq_refl Hc _ code h' Hr).
  left. unfold vfio_container_create, mbind, M_bind, perform, mret, M_ret in Hc. cbn in Hc. by injection Hc as <- _.
Defined.
End vfio_witness.

Section wait_witness.
#[local] Existing Instance good_env.

(** The thread of the only vCPU stops in the first second. *)
Lemma wait_loop_ends_witness :
  exists vs' h', wait_loop LinuxX86 (kvm_state 3) 2 true (set_state VM_STATE_RUNNING full_vm) demo_cpus empty_host
    = Ok (set_state VM_STATE_RUNNING full_vm, vs') h' /\ trace h' = [EvSleep].
Proof.
  destruct (wait_loop_ends LinuxX86 (kvm_state 3) 0 (set_state VM_STATE_RUNNING full_vm) demo_cpus 0 empty_host)
    as (vs' & h' & Hrun & Ht & _).
  - split; [reflexivity|]. repeat constructor. exists 1%positive, cpu0. done.
  - by eexists.
  - intros k Hk. lia.
  - reflexivity.
  - exists vs', h'. split; [exact Hrun|exact Ht].
Defined.
End wait_witness.

(** A host on which no thread and no signal interrupts [main]. *)
Definition quiet_env : Env := fun tr e =>
  match e return answer e with
  | EvSleep => (false, [])
  | e => good_env tr e
  end.

Section quiet_witness.
#[local] Existing Instance quiet_env.

Lemma hvf_intel_never_ends_witness :
  exists c', should_stop c' = 0 /\
    wait_loop (E := quiet_env) MacIntel (hvf_state (E := quiet_env) true (-1)) 1000 true (set_state VM_STATE_RUNNING full_vm)
      (<[1%positive := c']> {[ 1%positive := intel_cpu ]}) empty_host = Ub OutOfFuel.
Proof.
  destruct (hvf_intel_never_ends (E := quiet_env) (-1) (mk_hv_exit HV_EXIT_NONE UZero) (set_state VM_STATE_RUNNING full_vm)
    (∅ : gmap positive object) {[ 1%positive := intel_cpu ]} 1%positive intel_cpu demo_hvf_vcpu 7 (Ptr 1 0) true empty_host
    eq_refl (lookup_singleton_eq _ _) eq_refl eq_refl eq_refl eq_refl eq_refl ltac:(discriminate) ltac:(reflexivity))
    as (e & c' & h' & _ & _ & Hs & Hw).
  exists c'. split; [exact Hs|exact (Hw _ _)].
Defined.
End quiet_witness.
