(* ===== verification/LogLevel.v ===== *)
(** * The program at its default log level (src/main.c, src/vcpu.c)

    [vcpu_destroy] logs the index of the vCPU it has just freed.  With INFO, the level
    the program starts with, every run that has created its vCPUs therefore reads freed
    memory in the clean-up.  The whole of [main] is followed for every platform, backend
    and behaviour of the host. *)

From Stdlib Require Import Ascii.
From S2P Require Import Prelude HvTypes Host Utils CString Hypervisor Kvm HvPlatforms GuestMem VmMem Devices MmioConsole Virtio VirtioConsole VirtioBlk VirtioNet Vfio Machine VfioVm Vcpu Vm Boot Main.

Section log_level.
Context {E : Env} (plat : platform) (hs : hv_state) (args : cmdline_args) (undef : Z).
Context (Hlog : LOG_LEVEL_INFO <= a_log_level args).
Local Abbreviation vcpus := (gmap positive vcpu).

(** ** Which operations keep the array of vCPUs *)

Definition same_cpus (v v' : vm) : Prop := vm_vcpus v' = vm_vcpus v /\ num_vcpus v' = num_vcpus v.

Lemma same_cpus_refl v : same_cpus v v.
Proof. done. Qed.
Lemma same_cpus_trans v1 v2 v3 : same_cpus v1 v2 -> same_cpus v2 v3 -> same_cpus v1 v3.
Proof. intros [? ?] [? ?]. split; congruence. Qed.

Lemma vm_start_cpus v (vs : vcpus) h r v' vs' h' : vm_start plat hs v vs h = Ok (r, v', vs') h' -> same_cpus v v'.
Proof. by intros [x ->]%vm_start_state. Qed.
Lemma wait_loop_cpus fuel g v (vs : vcpus) h v' vs' h' : wait_loop plat hs fuel g v vs h = Ok (v', vs') h' -> same_cpus v v'.
Proof. by intros [x ->]%wait_loop_state. Qed.

Lemma add_device_cpus dev s h s' h' : add_device args dev s h = Ok s' h' -> same_cpus (ms_vm s) (ms_vm s').
Proof.
  unfold add_device. destruct dev as [o|]; [|intros H; by minv H; simplify_eq]. intros H. cbv zeta in H.
  apply bind_inv in H as ([r v] & h1 & Hr & H). minv H. simplify_eq. cbn. unfold vm_register_device in Hr.
  destruct (_ >=? VM_MAX_DEVICES); [by minv Hr; simplify_eq|]. cbv zeta in Hr. destruct (_ >=? _); minv Hr; by simplify_eq.
Qed.

Lemma vfio_register_cpus v (st : gmap positive object) d bdf h r v' st' d' h' :
  vfio_register_with_vm v st d bdf h = Ok (r, v', st', d') h' -> same_cpus v v'.
Proof.
  unfold vfio_register_with_vm. intros H. apply bind_inv in H as (ok & h1 & _ & H). destruct (negb ok); [by minv H; simplify_eq|].
  apply bind_inv in H as (n & h2 & _ & H). apply bind_inv in H as ([gpa d1] & h3 & _ & H). cbv beta iota zeta in H.
  apply bind_inv in H as ([[r1 v1] st1] & h4 & Hr & H). cbv beta iota in H.
  assert (same_cpus v v1) as Hs by (unfold device_register in Hr; repeat (case_match; try done); minv Hr; by simplify_eq).
  destruct (r1 <? 0); [by minv H; simplify_eq|]. apply bind_inv in H as ([? ?] & h5 & _ & H).
  apply bind_inv in H as ([? ?] & h6 & _ & H). by minv H; simplify_eq.
Qed.

(** ** The vCPUs are there *)

Definition manned (v : vm) : Prop := exists i, Some i ∈ live_vcpus v.

Lemma manned_same v v' : same_cpus v v' -> manned v -> manned v'.
Proof. intros [Ha Hn] [i Hi]. exists i. unfold live_vcpus in *. by rewrite Ha, Hn. Qed.

Lemma create_vcpus_keeps n i v (vs : vcpus) h r v' vs' h' j k :
  0 <= r -> (j < i)%nat -> vm_vcpus v !! j = Some (Some k) ->
  create_vcpus plat hs (a_log_level args) n (Z.of_nat i) v vs h = Ok (r, v', vs') h' -> vm_vcpus v' !! j = Some (Some k).
Proof.
  intros Hr. revert i v vs h. induction n as [|n IH]; intros i v vs h Hj Hk H; cbn [create_vcpus] in H; [by minv H; simplify_eq|].
  apply bind_inv in H as ([c|] & h1 & _ & H); [|apply bind_inv in H as (vs1 & h2 & _ & H); minv H; simplify_eq; lia].
  rewrite Nat2Z.id in H. replace (Z.of_nat i + 1) with (Z.of_nat (S i)) in H by lia. eapply IH; [| |exact H]; [lia|].
  cbn. by rewrite list_lookup_insert_ne by lia.
Qed.

Lemma vm_create_vcpus_mans v (vs : vcpus) num h r v' vs' h' :
  (0 < length (vm_vcpus v))%nat -> 1 <= num -> vm_create_vcpus plat hs (a_log_level args) v vs num h = Ok (r, v', vs') h' ->
  r < 0 \/ manned v'.
Proof.
  unfold vm_create_vcpus. intros Hlen Hnum H. destruct (_ >? _); [minv H; simplify_eq; by left|].
  apply bind_inv in H as ([[r1 v1] vs1] & h1 & Hc & H). cbv beta iota in H.
  destruct (r1 <? 0) eqn:Hneg; minv H; simplify_eq; [by left|right]. bool_prop.
  replace (Z.to_nat num) with (S (Z.to_nat (num - 1))) in Hc by lia. cbn [create_vcpus] in Hc.
  apply bind_inv in Hc as ([c|] & h2 & _ & Hc); [|apply bind_inv in Hc as (vs2 & h3 & _ & Hc); minv Hc; simplify_eq; lia].
  eapply (create_vcpus_keeps _ 1%nat _ _ _ _ _ _ _ 0%nat) in Hc; [|done|lia|by apply list_lookup_insert_eq].
  eexists. unfold live_vcpus. cbn. replace (Z.to_nat num) with (S (Z.to_nat (num - 1))) by lia.
  destruct (vm_vcpus v1) as [|p l]; [done|]. injection Hc as ->. apply list_elem_of_here.
Qed.

(** ** The stages *)

(** A stage from [P]: it falls through to [Q], jumps with a failure, or jumps with its
    vCPUs there. *)
Definition fails_or_manned (P Q : vm -> Prop) (f : stage) : Prop :=
  forall s h r s' h', P (ms_vm s) -> f s h = Ok (r, s') h' ->
  match r with None => Q (ms_vm s') | Some ret => ret < 0 \/ manned (ms_vm s') end.

Lemma and_then_manned P Q R f g : fails_or_manned P Q f -> fails_or_manned Q R g -> fails_or_manned P R (and_then f g).
Proof.
  intros Hf Hg s h r s' h' HP H. unfold and_then in H. apply bind_inv in H as ([[ret|] s1] & h1 & H1 & H).
  - minv H. simplify_eq. exact (Hf _ _ _ _ _ HP H1).
  - exact (Hg _ _ _ _ _ (Hf _ _ _ _ _ HP H1) H).
Qed.

(** A stage after the creation of the vCPUs. *)
Lemma keeps_manned (f : stage) :
  (forall s h r s' h', f s h = Ok (r, s') h' -> same_cpus (ms_vm s) (ms_vm s')) -> fails_or_manned manned manned f.
Proof.
  intros Hf s h r s' h' HP H. pose proof (manned_same _ _ (Hf _ _ _ _ _ H) HP). destruct r; [by right|done].
Qed.

Definition unmanned (v : vm) : Prop := (0 < length (vm_vcpus v))%nat.

Lemma stage_config_unmanned : fails_or_manned unmanned unmanned (stage_config args).
Proof.
  intros s h r s' h' Hu H. unfold stage_config, vm_set_kernel, vm_set_initrd, vm_set_cmdline in H.
  destruct (a_kernel_path args); [|by minv H; simplify_eq].
  apply bind_inv in H as ([r1 v1] & h1 & H1 & H). apply bind_inv in H1 as (k & h1' & _ & H1r). minv H1r. simplify_eq.
  apply bind_inv in H as ([r2 v2] & h2 & H2 & H). apply bind_inv in H2 as (i & h2' & _ & H2r). minv H2r. simplify_eq.
  apply bind_inv in H as ([r3 v3] & h3 & H3 & H). apply bind_inv in H3 as (c & h3' & _ & H3r). minv H3r. simplify_eq.
  by minv H; simplify_eq.
Qed.

Lemma stage_memory_unmanned : fails_or_manned unmanned unmanned (stage_memory hs args).
Proof.
  intros s h r s' h' Hu H. unfold stage_memory in H. apply bind_inv in H as ([ret v] & h1 & Hm & H). minv H. simplify_eq.
  destruct (ret <? 0) eqn:Hneg; [left; by bool_prop|]. unfold vm_add_memory_region in Hm.
  destruct (free_slot _); minv Hm; by simplify_eq.
Qed.

Lemma stage_vcpus_manned : 1 <= a_num_vcpus args -> fails_or_manned unmanned manned (stage_vcpus plat hs args).
Proof.
  intros Hnum s h r s' h' Hu H. unfold stage_vcpus in H. apply bind_inv in H as ([[ret v] vs] & h1 & Hm & H). minv H. simplify_eq.
  apply vm_create_vcpus_mans in Hm as [Hneg|Hm]; [| |done|done].
  - rewrite (proj2 (Z.ltb_lt _ _) Hneg). by left.
  - destruct (ret <? 0); [by right|done].
Qed.

Lemma stage_devices_manned : fails_or_manned manned manned (stage_devices args undef).
Proof.
  apply keeps_manned. intros s h r s' h' H. unfold stage_devices in H.
  apply bind_inv in H as (d1 & h1 & _ & H). apply bind_inv in H as (s1 & h2 & H1%add_device_cpus & H).
  apply bind_inv in H as (d2 & h3 & _ & H). apply bind_inv in H as (s2 & h4 & H2%add_device_cpus & H).
  apply bind_inv in H as (s3 & h5 & H3 & H). apply bind_inv in H as (s4 & h6 & H4 & H). minv H. simplify_eq.
  do 2 (eapply same_cpus_trans; [eassumption|]). apply (same_cpus_trans _ (ms_vm s3)).
  - destruct (a_disk_path args); [|by minv H3; simplify_eq]. by apply bind_inv in H3 as (d & ? & _ & H3%add_device_cpus).
  - destruct (a_net_tap args); [|by minv H4; simplify_eq]. by apply bind_inv in H4 as (d & ? & _ & H4%add_device_cpus).
Qed.

Lemma stage_vfio_manned : fails_or_manned manned manned (stage_vfio args).
Proof.
  apply keeps_manned. intros s h r s' h' H. unfold stage_vfio in H. destruct (a_vfio_bdf args) as [bdf|]; [|by minv H; simplify_eq].
  apply bind_inv in H as ([fd|] & h1 & _ & H); [|by minv H; simplify_eq].
  apply bind_inv in H as ([d|] & h2 & _ & H); [|by minv H; simplify_eq].
  apply bind_inv in H as ([[[ret v] st] d'] & h3 & Hr & H). minv H. simplify_eq. by apply vfio_register_cpus in Hr.
Qed.

Lemma stage_boot_manned : fails_or_manned manned manned (stage_boot plat hs args).
Proof.
  apply keeps_manned. intros s h r s' h' H. unfold stage_boot in H.
  destruct (a_kernel_path args); [apply bind_inv in H as (ret & h1 & _ & H); by minv H; simplify_eq|].
  destruct (a_binary_path args); [|by minv H; simplify_eq]. apply bind_inv in H as ([ret vs] & h1 & _ & H). by minv H; simplify_eq.
Qed.

Lemma stage_start_manned : fails_or_manned manned manned (stage_start plat hs).
Proof.
  apply keeps_manned. intros s h r s' h' H. unfold stage_start in H.
  apply bind_inv in H as ([[ret v] vs] & h1 & Hs & H). minv H. simplify_eq. by apply vm_start_cpus in Hs.
Qed.

Lemma stage_wait_manned fuel : fails_or_manned manned manned (stage_wait plat hs fuel).
Proof.
  apply keeps_manned. intros s h r s' h' H. unfold stage_wait in H. apply bind_inv in H as ([v vs] & h1 & Hw & H).
  apply bind_inv in H as ([] & h2 & _ & H). minv H. simplify_eq. by apply wait_loop_cpus in Hw.
Qed.

Lemma main_stages_manned fuel : 1 <= a_num_vcpus args -> fails_or_manned unmanned manned (main_stages plat hs args undef fuel).
Proof.
  intros Hnum. unfold main_stages, main_setup.
  repeat first [ apply stage_config_unmanned | apply stage_memory_unmanned | by apply stage_vcpus_manned
               | apply stage_devices_manned | apply stage_vfio_manned | apply stage_boot_manned | apply stage_start_manned
               | apply stage_wait_manned | eapply and_then_manned ].
Qed.

(** ** The clean-up *)

Lemma destroy_vcpus_faults i l (vs : vcpus) h vs' h' :
  Some i ∈ l -> destroy_vcpus plat hs (a_log_level args) l vs h <> Ok vs' h'.
Proof using Hlog.
  intros Hi H. revert vs h H. induction l as [|[k|] l IH]; intros vs h H; [by apply elem_of_nil in Hi| |].
  - cbn [destroy_vcpus] in H. apply bind_inv in H as (c & h1 & _ & H). apply bind_inv in H as ([] & h2 & Hd & _).
    unfold vcpu_destroy in Hd. apply bind_inv in Hd as ([r c'] & h3 & _ & Hd). apply bind_inv in Hd as ([] & h4 & _ & Hd).
    by rewrite Z.geb_leb, (proj2 (Z.leb_le _ _) Hlog) in Hd.
  - cbn [destroy_vcpus] in H. apply elem_of_cons in Hi as [?|Hi]; [done|]. by eapply IH.
Qed.

Lemma vm_destroy_faults v (vs : vcpus) (st : gmap positive object) h r h' :
  manned v -> vm_destroy plat hs (a_log_level args) (Some v) vs st h <> Ok r h'.
Proof using Hlog.
  intros Hm H. unfold vm_destroy in H. apply bind_inv in H as ([[r1 v1] vs1] & h1 & Hs & H). cbv beta iota in H.
  assert (same_cpus v v1) as Hc by (by apply stop_running_state in Hs as [x ->]).
  destruct (manned_same _ _ Hc Hm) as [i Hi]. apply bind_inv in H as (vs2 & h2 & Hd & _). by eapply destroy_vcpus_faults.
Qed.

Lemma main_run_fails fuel h code h' :
  1 <= a_num_vcpus args -> main_run plat hs args undef fuel h = Ok code h' -> code = EXIT_FAILURE.
Proof using Hlog.
  intros Hnum H. unfold main_run in H. apply bind_inv in H as ([v|] & h1 & Hc & H).
  - apply bind_inv in H as ([r s] & h2 & Hst & H). unfold main_cleanup in H.
    apply bind_inv in H as (x & h3 & Hd & H). apply bind_inv in H as ([] & h4 & _ & H). apply bind_inv in H as ([] & h5 & _ & H).
    minv H. simplify_eq.
    assert (unmanned v) as Hu.
    { unfold vm_create in Hc. minv Hc; simplify_eq; unfold unmanned; cbn; lia. }
    apply (main_stages_manned fuel Hnum) in Hst; [|exact Hu].
    destruct r as [ret|]; [destruct Hst as [Hneg|Hm]|].
    + cbn [default id]. by rewrite (proj2 (Z.ltb_lt _ _) Hneg).
    + by apply vm_destroy_faults in Hd.
    + by apply vm_destroy_faults in Hd.
  - apply bind_inv in H as ([] & h2 & _ & H). by minv H; simplify_eq.
Qed.
End log_level.

(** [C9] At the default log level the program never ends well.  On every platform,
    for every backend, command line that sets up a machine and behaviour of the host:
    with logging at INFO, the level the program starts with, or above, [main] does not
    return success.  A run that created its vCPUs, whatever it did afterwards, reads the
    freed vCPU in the clean-up; only runs that failed before return at all. *)
Theorem default_log_never_succeeds `{E : Env} plat kvm hvf arm undef fuel opts h args h1 h' :
  parse_args opts h = Ok (OptOk, args) h1 -> LOG_LEVEL_INFO <= a_log_level args ->
  main plat kvm hvf arm undef fuel opts h <> Ok EXIT_SUCCESS h'.
Proof.
  intros Hp Hlog H. destruct (parse_args_run opts h) as (r & a & h2 & Hrun & _ & Hok). rewrite Hp in Hrun. simplify_eq.
  destruct (Hok eq_refl) as [[_ [Hnum _] _] _ _].
  unfold main in H. rewrite (bind_Ok _ _ _ _ _ Hp) in H. cbv beta iota in H.
  apply bind_inv in H as ([ret hs] & h2' & _ & H). cbv beta iota in H.
  destruct (ret <? 0); [by minv H|]. by apply main_run_fails in H.
Qed.

(** ** Witness: a raw binary and no option for the log level *)

Definition plain_opts : list (ascii * string) := [("b"%char, "a.bin"); ("e"%char, "10"); ("m"%char, "64")]%string.

Lemma default_log_never_succeeds_witness :
  main (E := good_env) LinuxX86 (kvm_ops (E := good_env)) hvf_stub_ops hvf_stub_ops 1 10 plain_opts empty_host = Ub UseAfterFree /\
  forall h', main (E := good_env) LinuxX86 (kvm_ops (E := good_env)) hvf_stub_ops hvf_stub_ops 1 10 plain_opts empty_host <> Ok 0 h'.
Proof.
  split; [vm_compute; reflexivity|]. intros h'.
  refine (default_log_never_succeeds (E := good_env) LinuxX86 (kvm_ops (E := good_env)) hvf_stub_ops hvf_stub_ops 1 10 plain_opts empty_host
    (mk_args None None None 64 1 None None None 0 LOG_LEVEL_INFO (Some "a.bin"%string) 16) (called (EvStrdup "a.bin") empty_host) h' _ _).
  - vm_compute. reflexivity.
  - vm_compute. discriminate.
Defined.
