(* ===== verification/MainConsole.v ===== *)
(** * The machine that main starts on Linux, and its console (src/main.c and what it calls)

    What [main] leaves when its guests begin to run: vCPUs as [vcpu_create] leaves them, and
    an array of live devices in high windows.  [LinuxGuest] applies to such a machine, so
    the thread of none of its vCPUs prints what a guest stores in the UART. *)

From S2P Require Import Prelude HvTypes Host Utils CString Hypervisor Kvm GuestMem VmMem Devices MmioConsole Virtio VirtioConsole VirtioBlk VirtioNet Vfio Machine VfioVm Vcpu KvmExits LinuxGuest Vm Boot Main.

Section machine.
Context {E : Env} (fd : Z) (args : cmdline_args) (undef : Z).
Local Abbreviation hs := (kvm_state fd).

(** ** The vCPUs *)

(** As [vcpu_create] leaves it, started or not. *)
Definition new_cpu (c : vcpu) : Prop :=
  vc_vm c = true /\ should_stop c = 0 /\ vc_stats c = zero_stats /\
  exists hv page, vc_hv c = Some hv /\ hvc_data hv = KvmVcpuData page.
Definition new_cpus (vs : gmap positive vcpu) : Prop := forall i c, vs !! i = Some c -> new_cpu c.

Lemma vcpu_create_new hvm index h c h' : vcpu_create LinuxX86 hs hvm index h = Ok (Some c) h' -> new_cpu c.
Proof.
  unfold vcpu_create, hv_create_vcpu, via. cbn [kvm_state g_hv_ops kvm_ops op_create_vcpu]. unfold kvm_create_vcpu, kvm_vm_data.
  intros H. minv H; simplify_eq; split; try done; (split; [done|]); (split; [done|]); by eexists _, _.
Qed.

Lemma create_vcpus_new n i v (vs : gmap positive vcpu) h ret v' vs' h' :
  new_cpus vs -> create_vcpus LinuxX86 hs (a_log_level args) n i v vs h = Ok (ret, v', vs') h' -> 0 <= ret ->
  new_cpus vs'.
Proof.
  revert i v vs h. induction n as [|n IH]; intros i v vs h Hvs H Hret; cbn [create_vcpus] in H; [by minv H; simplify_eq|].
  apply bind_inv in H as ([c|] & h1 & Hc & H); [|by apply bind_inv in H as (? & ? & _ & H); minv H; simplify_eq].
  apply IH in H; [done| |done]. intros k x [[_ <-]|[_ Hk]]%lookup_insert_Some; [by eapply vcpu_create_new|by eapply Hvs].
Qed.

Lemma vcpu_start_new c h r c' h' : new_cpu c -> vcpu_start c h = Ok (r, c') h' -> new_cpu c'.
Proof. unfold vcpu_start. intros (Hv & Hs & Hz & Hp) H. minv H; simplify_eq; by split_and!. Qed.

Lemma start_vcpus_new l dn (vs : gmap positive vcpu) h ret vs' h' :
  new_cpus vs -> start_vcpus LinuxX86 hs dn l vs h = Ok (ret, vs') h' -> 0 <= ret -> new_cpus vs'.
Proof.
  revert dn vs h. induction l as [|p l IH]; intros dn vs h Hvs H Hret; cbn [start_vcpus] in H; [by minv H; simplify_eq|].
  apply bind_inv in H as (c & h1 & Hc & H). apply bind_inv in H as ([r c'] & h2 & Hst & H). cbv beta iota zeta in H.
  destruct (r <? 0); [apply bind_inv in H as (? & ? & _ & H); by minv H; simplify_eq|].
  apply IH in H; [done| |done]. destruct p as [i|]; [|done]. unfold get_vcpu in Hc.
  intros k x [[_ <-]|[_ Hk]]%lookup_insert_Some; [|by eapply Hvs]. eapply vcpu_start_new; [|exact Hst].
  destruct (vs !! i) as [c0|] eqn:Hi; minv Hc; simplify_eq; by eapply Hvs.
Qed.

(** ** The devices *)

Lemma shows_high ws s : shows ws s -> ws `sublist_of` device_map -> high_devices (ms_vm s) (ms_objects s).
Proof.
  intros (_ & _ & Hw) Hsub. unfold high_devices, device_windows in *. apply Forall_lookup_2. intros k p Hk.
  apply (f_equal (.!! k)) in Hw. rewrite !list_lookup_fmap, Hk in Hw. cbn in Hw.
  destruct (ws !! k) as [w|] eqn:Hwk; [|done]. destruct p as [i|]; [|done]. cbn in Hw.
  destruct (ms_objects s !! i) as [o|] eqn:Ho; [|done]. injection Hw as <-. exists i, o. split; [done|]. split; [done|].
  apply list_elem_of_lookup_2 in Hwk.
  assert (Forall (fun w => 16 <= w.1) device_map) as Hmap by (repeat constructor; done).
  exact (proj1 (Forall_forall _ _) Hmap _ (elem_of_sublist _ _ _ Hwk Hsub)).
Qed.

(** ** The stages *)

Record built (s : main_state) : Prop := {
  bt_cpus : new_cpus (ms_vcpus s);
  bt_devices : high_devices (ms_vm s) (ms_objects s)
}.

Lemma add_device_vcpus dev s h s' h' : add_device args dev s h = Ok s' h' -> ms_vcpus s' = ms_vcpus s.
Proof.
  unfold add_device. destruct dev as [o|]; intros H; [|by minv H]. cbv zeta in H.
  apply bind_inv in H as ([r v] & h1 & _ & H). by minv H.
Qed.

Lemma stage_devices_vcpus s h r s' h' : stage_devices args undef s h = Ok (r, s') h' -> ms_vcpus s' = ms_vcpus s.
Proof.
  intros H. unfold stage_devices in H.
  apply bind_inv in H as (d1 & h1 & _ & H). apply bind_inv in H as (s1 & h2 & <-%add_device_vcpus & H).
  apply bind_inv in H as (d2 & h3 & _ & H). apply bind_inv in H as (s2 & h4 & <-%add_device_vcpus & H).
  apply bind_inv in H as (s3 & h5 & H3 & H). apply bind_inv in H as (s4 & h6 & H4 & H). minv H. simplify_eq.
  assert (ms_vcpus s3 = ms_vcpus s2) as <-.
  { destruct (a_disk_path args); [|by minv H3; simplify_eq]. by apply bind_inv in H3 as (d3 & h7 & _ & ?%add_device_vcpus). }
  destruct (a_net_tap args); [|by minv H4; simplify_eq]. by apply bind_inv in H4 as (d4 & h7 & _ & ?%add_device_vcpus).
Qed.

Lemma main_setup_built hvm h s h' :
  main_setup LinuxX86 hs args undef (mk_ms (new_vm hvm) ∅ ∅ None) h = Ok (None, s) h' -> built s.
Proof.
  intros H. destruct (main_setup_shows _ _ _ _ _ _ _ _ H) as (_ & ws & Hsub & Hws).
  split; [|by eapply shows_high]. clear ws Hsub Hws. unfold main_setup, and_then in H.
  apply bind_inv in H as ([[?|] s1] & h1 & H1 & H); [by minv H|].
  assert (ms_vcpus s1 = ∅) as Hvs1.
  { unfold stage_config in H1. destruct (a_kernel_path args); [|by minv H1; simplify_eq].
    apply bind_inv in H1 as ([? ?] & ? & _ & H1). apply bind_inv in H1 as ([? ?] & ? & _ & H1).
    apply bind_inv in H1 as ([? ?] & ? & _ & H1). by minv H1; simplify_eq. }
  apply stage_config_kept in H1 as [(Hr1 & Hd1 & Hn1) Ho1].
  apply bind_inv in H as ([[?|] s2] & h2 & H2 & H); [by minv H|].
  assert (ms_vcpus s2 = ∅) as Hvs2.
  { unfold stage_memory in H2. apply bind_inv in H2 as ([? ?] & ? & _ & H2). by minv H2; simplify_eq. }
  apply stage_memory_ram in H2 as (_ & Ho2 & Hd2 & Hn2); [|exact Hr1].
  apply bind_inv in H as ([[?|] s3] & h3 & H3 & H); [by minv H|].
  assert (new_cpus (ms_vcpus s3)) as Hnew.
  { unfold stage_vcpus, vm_create_vcpus in H3. apply bind_inv in H3 as ([[ret v] vs] & h4 & Hc & H3). cbn [mret M_ret] in H3. minv H3.
    destruct (ret <? 0) eqn:Hret; [done|]. simplify_eq. cbn. destruct (_ >? _); [by minv Hc; simplify_eq|].
    apply bind_inv in Hc as ([[ret1 v1] vs1] & h5 & Hc & Hc2). destruct (ret1 <? 0) eqn:Hneg; minv Hc2; simplify_eq.
    eapply create_vcpus_new; [|exact Hc|by bool_prop; lia]. rewrite Hvs2. intros i c Hi. by rewrite lookup_empty in Hi. }
  by rewrite (stage_devices_vcpus _ _ _ _ _ H).
Qed.

Lemma stage_boot_built s h r s' h' : built s -> stage_boot LinuxX86 hs args s h = Ok (r, s') h' -> built s'.
Proof.
  intros Hs H. unfold stage_boot in H. destruct (a_kernel_path args); [apply bind_inv in H as (? & ? & _ & H); by minv H; simplify_eq|].
  destruct (a_binary_path args) as [path|]; [|by minv H; simplify_eq].
  apply bind_inv in H as ([ret vs] & h1 & Hraw & H). minv H; simplify_eq.
  assert (vs = ms_vcpus s) as ->.
  { unfold boot_setup_raw_binary in Hraw. apply bind_inv in Hraw as ([[code size]|] & h2 & _ & Hraw); [|by minv Hraw; simplify_eq].
    cbv zeta in Hraw. case_decide; [apply bind_inv in Hraw as (? & ? & _ & Hraw); by minv Hraw; simplify_eq|].
    apply bind_inv in Hraw as (? & ? & _ & Hraw). apply bind_inv in Hraw as (? & ? & _ & Hraw). unfold setup_raw_entry in Hraw.
    do 4 apply bind_inv in Hraw as (? & ? & _ & Hraw). by minv Hraw; simplify_eq. }
  by destruct s, Hs.
Qed.

Lemma stage_start_built s h s' h' : built s -> stage_start LinuxX86 hs s h = Ok (None, s') h' -> built s'.
Proof.
  intros [Hc Hl] H. unfold stage_start in H. apply bind_inv in H as ([[ret v] vs] & h1 & Hst & H). cbn [mret M_ret] in H. minv H.
  destruct (ret <? 0) eqn:Hret; [done|]. simplify_eq. unfold vm_start in Hst.
  case_decide; [by minv Hst; simplify_eq; destruct s|].
  apply bind_inv in Hst as ([r vs1] & h2 & Hrun & Hst). destruct (r <? 0) eqn:Hneg; minv Hst; simplify_eq.
  split; [eapply start_vcpus_new; [exact Hc|exact Hrun|by bool_prop; lia]|exact Hl].
Qed.

(** ** The started machine *)

(** [main] up to its wait loop. *)
Definition main_start : stage :=
  and_then (main_setup LinuxX86 hs args undef)
    (and_then (stage_vfio args) (and_then (stage_boot LinuxX86 hs args) (stage_start LinuxX86 hs))).

Lemma main_stages_start fuel s h : main_stages LinuxX86 hs args undef fuel s h = and_then main_start (stage_wait LinuxX86 hs fuel) s h.
Proof.
  unfold main_stages, main_start, and_then. unfold mbind, M_bind.
  by repeat (case_match; simplify_eq; try done).
Qed.

Lemma main_start_built hvm h s h' :
  a_vfio_bdf args = None -> main_start (mk_ms (new_vm hvm) ∅ ∅ None) h = Ok (None, s) h' -> built s.
Proof.
  intros Hvf. unfold main_start. unfold and_then at 1 2 3. intros H.
  apply bind_inv in H as ([[?|] s1] & h1 & H1 & H); [by minv H|]. apply main_setup_built in H1.
  apply bind_inv in H as ([[?|] s2] & h2 & H2 & H); [by minv H|].
  assert (s2 = s1) as -> by (unfold stage_vfio in H2; rewrite Hvf in H2; by minv H2; simplify_eq).
  apply bind_inv in H as ([[?|] s3] & h3 & H3 & H); [by minv H|]. apply stage_boot_built in H3; [|done].
  by eapply stage_start_built.
Qed.

Lemma built_at_turn s k c : built s -> ms_vcpus s !! k = Some c -> exists vfd, at_turn 0 c vfd /\ hvc_fd <$> vc_hv c = Some vfd.
Proof.
  intros [Hc _] (Hvm & Hs & Hz & hv & page & Hhv & Hd)%Hc. exists (hvc_fd hv). rewrite Hhv. split; [|done].
  split; [by exists hv, page|done..|by rewrite Hz].
Qed.

(** [C5] What a guest prints through the UART on Linux: nothing.  Take the machine that
    [main] has started, for all options without a passthrough device and every host, and
    the thread of any of its vCPUs.  Let the guest there drive the UART with any sequence
    of loads, stores and halts and then shut down, and let the kernel fill the pages as it
    documents.  Whatever the guest stored in the transmit register, the thread calls
    nothing but [KVM_RUN]: no byte reaches stdout and no device changes.  It ends by the
    shutdown if there were fewer than 500 exits before it, and otherwise gives up after
    501 runs. *)
Theorem linux_console_silent v s h h0 h1 k c vfd l exit0 hc :
  a_vfio_bdf args = None -> vm_create hs h = Ok (Some v) h0 -> main_start (mk_ms v ∅ ∅ None) h0 = Ok (None, s) h1 ->
  ms_vcpus s !! k = Some c -> hvc_fd <$> vc_hv c = Some vfd ->
  Forall (fun g => g <> GShutdown) l -> follows vfd (runs_on vfd (trace hc)) (l ++ [GShutdown]) ->
  exists c' h',
    vcpu_thread_func LinuxX86 hs 501 exit0 (ms_vm s) (ms_objects s) c hc =
      Ok (Some (if decide (length l < 500)%nat then Stopped else TooManyExits), c', ms_objects s) h' /\
    trace h' = replicate (S (length l) `min` 501) (EvKvmRun vfd) ++ trace hc /\
    stdout_bytes (trace h') = stdout_bytes (trace hc).
Proof.
  intros Hvf Hv H Hk Hfd Hns Hfol.
  assert (exists hvm, v = new_vm hvm) as [hvm ->] by (unfold vm_create in Hv; minv Hv; simplify_eq; by eexists).
  pose proof (main_start_built _ _ _ _ Hvf H) as Hs.
  destruct (built_at_turn _ _ _ Hs Hk) as (vfd' & Hat & Hfd'). rewrite Hfd in Hfd'. injection Hfd' as <-.
  destruct (script_run fd exit0 (ms_vm s) (ms_objects s) (bt_devices _ Hs) l 0 c vfd hc 501 eq_refl ltac:(lia) Hat Hns Hfol)
    as (e & c' & h' & Hrun & -> & Htr).
  exists c', h'. unfold vcpu_thread_func, vcpu_thread_init. rewrite bind_ret. cbn [negb]. rewrite (bind_Ok _ _ _ _ _ Hrun).
  split; [done|]. split; [done|]. rewrite Htr. generalize (S (length l) `min` 501)%nat. clear.
  intros n. induction n as [|n IH]; [done|exact IH].
Qed.
End machine.

(** ** Witness: a machine with a raw binary and a disk, whose guests print two letters *)

Definition page_of (g : guest_exit) : list byte :=
  match g with
  | GConsole (UartRead off) => linux_page KVM_EXIT_MMIO 0 0xfee00900 (mmio_body (MMIO_CONSOLE_GPA + off) 0 1 0)
  | GConsole (UartWrite off x) => linux_page KVM_EXIT_MMIO 0 0xfee00900 (mmio_body (MMIO_CONSOLE_GPA + off) x 1 1)
  | GHalt => linux_page KVM_EXIT_HLT 0 0xfee00900 []
  | GShutdown => linux_page KVM_EXIT_SHUTDOWN 0 0xfee00900 []
  end.

(** A kernel on which every guest runs the script [l]. *)
Definition script_env (l : list guest_exit) : Env := fun tr e =>
  match e return answer e with
  | EvKvmRun fd => (0, 0, page_of (default GShutdown (l !! runs_on fd tr)), [])
  | e => good_env tr e
  end.

Definition demo_script : list guest_exit :=
  [GConsole (UartWrite 0 72); GHalt; GConsole (UartRead 20); GConsole (UartWrite 0 105)].

Definition printing_env : Env := script_env demo_script.

Section witness.
#[local] Existing Instance printing_env.

Lemma page_of_shows g : g ∈ demo_script ++ [GShutdown] -> page_shows (page_of g) g.
Proof.
  unfold demo_script. cbn [app]. intros Hg. split.
  - destruct g as [[off|off x]| |]; cbn [page_of]; first
      [apply mmio_page_documented; unfold is_u8; lia|apply linux_page_documented; [lia|by apply Forall_nil|simpl; lia]].
  - repeat (apply elem_of_cons in Hg as [->|Hg]; [vm_compute; repeat split; discriminate|]). by apply elem_of_nil in Hg.
Qed.

Lemma demo_follows fd : follows fd 0 (demo_script ++ [GShutdown]).
Proof.
  intros tr k g Hr Hk. exists 0, 0, (page_of g), []. split; [|split; [done|by eapply page_of_shows, list_elem_of_lookup_2]].
  unfold env_answer, printing_env, script_env. rewrite Hr. do 5 (destruct k as [|k]; [by injection Hk as <-|]). done.
Qed.

Definition disk_args : cmdline_args :=
  mk_args None None None 64 2 (Some "disk.img"%string) None None 0 1 (Some "a.bin"%string) 16.

(** The second of its two vCPUs. *)
Lemma linux_console_silent_witness :
  exists s c c' h', ms_vcpus s !! 2%positive = Some c /\ vc_index c = 1 /\
    vcpu_thread_func LinuxX86 (kvm_state 3) 501 no_exit (ms_vm s) (ms_objects s) c empty_host = Ok (Some Stopped, c', ms_objects s) h' /\
    trace h' = replicate 5 (EvKvmRun 16) /\ stdout_bytes (trace h') = [].
Proof.
  destruct (vm_create (kvm_state 3) empty_host) as [[v|] h0|] eqn:Hv; [|vm_compute in Hv; discriminate Hv..].
  destruct (main_start 3 disk_args 0 (mk_ms v ∅ ∅ None) h0) as [[[ret|] s] h1|] eqn:Hs;
    [vm_compute in Hv; injection Hv as <- <-; vm_compute in Hs; discriminate Hs| |
     vm_compute in Hv; injection Hv as <- <-; vm_compute in Hs; discriminate Hs].
  assert (exists c, ms_vcpus s !! 2%positive = Some c /\ vc_index c = 1 /\ hvc_fd <$> vc_hv c = Some 16) as (c & Hc & Hi & Hfd).
  { vm_compute in Hv; injection Hv as <- <-; vm_compute in Hs. injection Hs as <- _. by eexists. }
  destruct (linux_console_silent 3 disk_args 0 v s empty_host h0 h1 2 c 16 demo_script no_exit empty_host eq_refl Hv Hs Hc Hfd)
    as (c' & h' & Hrun & Ht & Hout); [repeat constructor; discriminate|apply demo_follows|].
  exists s, c, c', h'. split; [exact Hc|]. split; [exact Hi|]. split; [exact Hrun|]. split; [exact Ht|exact Hout].
Defined.
End witness.
