(* ===== verification/Passthrough.v ===== *)
(** * A run with a passed-through device (src/main.c, src/vfio.c, src/devices.c)

    [vfio_register_with_vm] is the only caller of [device_register], so the passed-through
    device is the only one that [vm_destroy] destroys rather than skips; its destructor
    frees the structure that [device_destroy] then still reads.  The whole of [main] is
    followed for every platform, backend and behaviour of the host. *)

From Stdlib Require Import Ascii.
From S2P Require Import Prelude HvTypes Host Utils CString Hypervisor Kvm HvPlatforms GuestMem VmMem Devices MmioConsole Virtio VirtioConsole VirtioBlk VirtioNet Vfio Machine VfioVm Vcpu Vm Boot Main.

Section passthrough.
Context {E : Env} (plat : platform) (hs : hv_state) (args : cmdline_args) (undef : Z).
Local Abbreviation vcpus := (gmap positive vcpu).
Local Abbreviation store := (gmap positive object).

(** ** New devices do not claim to be registered *)

Definition idle (o : object) : Prop := dev_vm (dbase o) = false.
Definition idle_option (dev : option object) : Prop := forall o, dev = Some o -> idle o.
Definition idle_devices (st : store) : Prop := forall i o, st !! i = Some o -> idle o.

Lemma uart_idle h r h' : mmio_console_create h = Ok r h' -> idle_option (ObjUart <$> r).
Proof. unfold mmio_console_create, device_create. intros H o Ho. minv H; simplify_eq; cbn in *; by simplify_eq. Qed.
Lemma con_idle h r h' : virtio_console_create undef h = Ok r h' -> idle_option (ObjCon <$> r).
Proof. unfold virtio_console_create. intros H o Ho. minv H; simplify_eq; cbn in *; by simplify_eq. Qed.
Lemma blk_idle path h r h' : virtio_blk_create undef path h = Ok r h' -> idle_option (ObjBlk <$> r).
Proof. unfold virtio_blk_create, open_disk, strdup. intros H o Ho. minv H; simplify_eq; cbn in *; by simplify_eq. Qed.
Lemma net_idle tap h r h' : virtio_net_create undef tap h = Ok r h' -> idle_option (ObjNet <$> r).
Proof. unfold virtio_net_create, open_tap, strdup. intros H o Ho. minv H; simplify_eq; cbn in *; by simplify_eq. Qed.

Lemma created_idle : created_all undef idle.
Proof.
  split; intros *; [intros H; by eapply (uart_idle _ _ _ H)|intros H; by eapply (con_idle _ _ _ H)| |]; intros H;
    [by eapply (blk_idle _ _ _ _ H)|by eapply (net_idle _ _ _ _ H)].
Qed.

(** ** The registered device *)

(** A passed-through device is in the array, and no other kind claims to be registered. *)
Definition attached (v : vm) (st : store) : Prop :=
  (exists k i o, Z.of_nat k < num_devices v /\ vm_devices v !! k = Some (Some i) /\ st !! i = Some o /\ dev_vm (dbase o) = true) /\
  forall i o, st !! i = Some o -> dev_vm (dbase o) = true -> is_Some (as_vfio o).

Lemma vfio_register_attached v (st : store) vdev bdf h ret v' st' vdev' h' :
  idle_devices st -> length (vm_devices v) = 16%nat -> 0 <= num_devices v ->
  vfio_register_with_vm v st vdev bdf h = Ok (ret, v', st', vdev') h' ->
  if ret <? 0 then v' = v /\ st' = st else attached v' st'.
Proof.
  intros Hidle Hlen Hn H. unfold vfio_register_with_vm in H. apply bind_inv in H as (ok & h1 & _ & H).
  destruct ok; cbn [negb] in H; [|by minv H; simplify_eq].
  apply bind_inv in H as (n & h2 & _ & H). apply bind_inv in H as ([gpa vdev1] & h3 & _ & H). cbv beta iota zeta in H.
  set (d := set_window _ _ _ _) in H. set (i := fresh (dom st)) in H. set (o := ObjVfio _) in H.
  assert (st !! i = None) as Hi by (apply not_elem_of_dom, is_fresh).
  apply bind_inv in H as ([[r v1] st1] & h4 & Hreg & H). cbv beta iota in H.
  assert (r = -1 /\ v1 = v /\ delete i st1 = st \/
    r = 0 /\ num_devices v < VM_MAX_DEVICES /\
      v1 = set_devices (<[Z.to_nat (num_devices v) := Some i]> (vm_devices v)) (num_devices v + 1) v /\
      st1 = <[i := dset (set_dev_vm true (dbase o)) o]> st) as Hcase.
  { unfold device_register in Hreg.
    destruct (_ >=? VM_MAX_DEVICES) eqn:Hfull; [minv Hreg; simplify_eq; left; by rewrite delete_insert_id|].
    cbn [get_obj] in Hreg. rewrite lookup_insert_eq in Hreg. cbn [deref] in Hreg. rewrite (bind_ret o) in Hreg. cbv zeta in Hreg.
    change (irq_fd (dbase (dset (set_dev_vm true (dbase o)) o)) <? 0) with false in Hreg. cbv iota in Hreg.
    minv Hreg; simplify_eq. right. rewrite insert_insert_eq. split; [done|]. split; [bool_prop; lia|done]. }
  destruct Hcase as [(-> & -> & Hst)|(-> & Hlt & -> & ->)].
  - change (-1 <? 0) with true in H. cbv iota in H. apply ret_inv in H as [[= <- <- <- _] _]. by split.
  - change (0 <? 0) with false in H. cbv iota in H.
    apply bind_inv in H as ([r1 v2] & h5 & _ & H). apply bind_inv in H as ([r2 v3] & h6 & _ & H). minv H; simplify_eq.
    change (0 <? 0) with false. cbv iota. unfold set_vdev. rewrite alter_insert_eq. unfold VM_MAX_DEVICES in Hlt. split.
    + exists (Z.to_nat (num_devices v)), i, (ObjVfio (mk_vfio_object (set_dev_vm true d) vdev')). cbn.
      split; [lia|]. split; [apply list_lookup_insert_eq; lia|]. split; [apply lookup_insert_eq|done].
    + intros j x [[_ <-]|[_ Hj]]%lookup_insert_Some Hx; [by eexists|]. apply Hidle in Hj. unfold idle in Hj. congruence.
Qed.

(** ** The clean-up *)

Lemma attached_same v v' st : vm_devices v' = vm_devices v -> num_devices v' = num_devices v -> attached v st -> attached v' st.
Proof. intros Ha Hn [(k & i & o & Hk) Ho]. split; [|done]. exists k, i, o. by rewrite Ha, Hn. Qed.

Lemma vfio_unregister_faults v (st : store) i o h r h' :
  st !! i = Some o -> dev_vm (dbase o) = true -> is_Some (as_vfio o) -> device_unregister v st (Some i) h <> Ok r h'.
Proof.
  intros Ho Hreg Hv H. unfold device_unregister, device_destroy in H. cbn [get_obj] in H. rewrite Ho in H. cbn [deref] in H.
  rewrite bind_ret, Hreg in H. cbn [negb] in H. destruct o as [| | | | |c]; cbn [as_vfio] in Hv; try by destruct Hv.
  apply bind_inv in H as (st1 & h1 & H & _). rewrite bind_ret in H. apply bind_inv in H as (o & h2 & Hd & H).
  cbn in Hd. rewrite bind_ret in Hd. apply bind_inv in Hd as (x & h3 & Hw & Hd).
  unfold vfio_device_destroy_wrapper in Hw. apply bind_inv in Hw as ([] & h4 & _ & Hw). by minv Hw; minv Hd.
Qed.

Lemma unregister_faults fuel n v (st : store) h r h' :
  (exists k i o, (n <= k)%nat /\ Z.of_nat k < num_devices v /\ vm_devices v !! k = Some (Some i) /\ st !! i = Some o /\
     dev_vm (dbase o) = true) ->
  (forall i o, st !! i = Some o -> dev_vm (dbase o) = true -> is_Some (as_vfio o)) ->
  unregister_devices fuel n v st h <> Ok r h'.
Proof.
  intros (k & i & o & Hnk & Hk & Hi & Ho & Hreg) Honly. revert n h Hnk.
  induction fuel as [|fuel IH]; intros n h Hnk H; [done|]. cbn [unregister_devices] in H.
  rewrite (proj2 (Z.ltb_lt _ _)) in H by lia. destruct (vm_devices v !! n) as [p|] eqn:Hp; [|done].
  cbn [deref] in H. rewrite bind_ret in H. apply bind_inv in H as ([v1 st1] & h1 & Hu & H). cbv beta iota in H.
  destruct p as [j|].
  - destruct (st !! j) as [oj|] eqn:Hj; [|unfold device_unregister in Hu; cbn [get_obj] in Hu; by rewrite Hj in Hu].
    destruct (dev_vm (dbase oj)) eqn:Hd; [by eapply (vfio_unregister_faults v st j oj); [..|exact Hu]; eauto|].
    unfold device_unregister in Hu. cbn [get_obj] in Hu. rewrite Hj in Hu. cbn [deref] in Hu. rewrite bind_ret, Hd in Hu.
    minv Hu; simplify_eq. eapply IH; [|exact H]. destruct (decide (k = n)); [|lia]. congruence.
  - minv Hu; simplify_eq. eapply IH; [|exact H]. destruct (decide (k = n)); [|lia]. congruence.
Qed.

Lemma vm_destroy_attached v (vs : vcpus) (st : store) h r h' :
  attached v st -> vm_destroy plat hs (a_log_level args) (Some v) vs st h <> Ok r h'.
Proof.
  intros Ha H. unfold vm_destroy in H. apply bind_inv in H as ([[r1 v1] vs1] & h1 & [x ->]%stop_running_state & H). cbv beta iota in H.
  apply bind_inv in H as (vs2 & h2 & _ & H). apply bind_inv in H as (p & h3 & Hu & _).
  destruct (attached_same _ (set_state x v) _ eq_refl eq_refl Ha) as [(k & i & o & Hk) Honly].
  eapply unregister_faults; [|exact Honly|exact Hu]. exists k, i, o. split; [lia|exact Hk].
Qed.

(** ** The stages *)

Definition stays (P : main_state -> Prop) (f : stage) : Prop := forall s h r s' h', P s -> f s h = Ok (r, s') h' -> P s'.
Lemma and_then_stays P f g : stays P f -> stays P g -> stays P (and_then f g).
Proof.
  intros Hf Hg s h r s' h' HP H. unfold and_then in H. apply bind_inv in H as ([[ret|] s1] & h1 & H1 & H).
  - minv H; simplify_eq. by eapply Hf.
  - eapply Hg; [|exact H]. by eapply Hf.
Qed.

Definition has_attached (s : main_state) : Prop := attached (ms_vm s) (ms_objects s).

Lemma stage_vfio_attached s h r s' h' bdf :
  idle_devices (ms_objects s) -> length (vm_devices (ms_vm s)) = 16%nat -> 0 <= num_devices (ms_vm s) ->
  a_vfio_bdf args = Some bdf -> stage_vfio args s h = Ok (r, s') h' ->
  match r with
  | None => has_attached s'
  | Some _ => exists cont, s' = mk_ms (ms_vm s) (ms_vcpus s) (ms_objects s) cont
  end.
Proof.
  intros Hi Hl Hn Hbdf H. unfold stage_vfio in H. rewrite Hbdf in H. apply bind_inv in H as (cont & h1 & _ & H). cbv zeta in H.
  destruct cont as [f|]; [|minv H; simplify_eq; by eexists].
  apply bind_inv in H as (vd & h2 & _ & H). destruct vd as [vd|]; [|minv H; simplify_eq; by eexists].
  apply bind_inv in H as ([[[ret v] st] vd'] & h3 & Hreg & H). cbn in H, Hreg.
  apply vfio_register_attached in Hreg; [|done..]. apply ret_inv in H as [[= <- <-] _].
  destruct (ret <? 0); [|done]. destruct Hreg as [-> ->]. by eexists.
Qed.

Lemma later_stages_attached fuel :
  stays has_attached (and_then (stage_boot plat hs args) (and_then (stage_start plat hs) (stage_wait plat hs fuel))).
Proof.
  assert (forall f, (forall s h r s' h', f s h = Ok (r, s') h' ->
      (exists x, ms_vm s' = set_state x (ms_vm s)) /\ ms_objects s' = ms_objects s) -> stays has_attached f) as Hstay.
  { intros f Hf s h r s' h' Ha H. apply Hf in H as [[x Hv] Ho]. unfold has_attached. rewrite Hv, Ho. by eapply attached_same. }
  repeat apply and_then_stays; apply Hstay; intros s h r s' h' H.
  - unfold stage_boot in H. destruct (a_kernel_path args); [|destruct (a_binary_path args)];
      [apply bind_inv in H as (? & ? & _ & H)|apply bind_inv in H as ([? ?] & ? & _ & H)|];
      minv H; simplify_eq; (split; [eexists; apply set_state_same|done]).
  - unfold stage_start in H. apply bind_inv in H as ([[ret v] vs] & h1 & Hs%vm_start_state & H). minv H; simplify_eq. by split.
  - unfold stage_wait in H. apply bind_inv in H as ([v vs] & h1 & Hw%wait_loop_state & H).
    apply bind_inv in H as (? & ? & _ & H). minv H; simplify_eq. by split.
Qed.

(** *** The whole run *)

(** When the program returns, the set-up or the passthrough stage has failed. *)
Lemma run_with_passthrough fuel hvm h r s h' bdf :
  a_vfio_bdf args = Some bdf ->
  main_stages plat hs args undef fuel (mk_ms (new_vm hvm) ∅ ∅ None) h = Ok (r, s) h' ->
  has_attached s \/
  (exists ret, r = Some ret /\ main_setup plat hs args undef (mk_ms (new_vm hvm) ∅ ∅ None) h = Ok (Some ret, s) h') \/
  (exists ret s1 h1, r = Some ret /\ main_setup plat hs args undef (mk_ms (new_vm hvm) ∅ ∅ None) h = Ok (None, s1) h1 /\
    stage_vfio args s1 h1 = Ok (Some ret, s) h' /\ exists cont, s = mk_ms (ms_vm s1) (ms_vcpus s1) (ms_objects s1) cont).
Proof.
  intros Hbdf H. unfold main_stages in H. unfold and_then at 1 in H. apply bind_inv in H as ([[ret|] s1] & h1 & H1 & H).
  { minv H; simplify_eq. right; left. by eexists. }
  pose proof (main_setup_objects _ _ _ _ _ _ _ _ _ created_idle H1 : idle_devices _) as Hidle. destruct (main_setup_shows _ _ _ _ _ _ _ _ H1) as (_ & ws & _ & Hlen & Hn & _).
  unfold and_then at 1 in H. apply bind_inv in H as ([r2 s2] & h2 & H2 & H).
  pose proof (stage_vfio_attached _ _ _ _ _ _ Hidle Hlen ltac:(lia) Hbdf H2) as Ha. destruct r2 as [ret|].
  - minv H; simplify_eq. right; right. by eexists _, s1, h1.
  - left. by eapply later_stages_attached.
Qed.
End passthrough.

(** [C10] A passed-through device keeps the program from ever exiting.  On every platform,
    for every backend, configuration and behaviour of the host: once the passthrough
    device has been attached to the VM, no run of [main] returns an exit status.  If the
    run gets to its clean-up, the device is destroyed there, alone among the devices, and
    [device_destroy] reads the structure that the destructor has freed. *)
Theorem passthrough_never_exits `{E : Env} plat hs args undef fuel v h h0 s1 h1 s2 h2 bdf :
  vm_create hs h = Ok (Some v) h0 -> main_setup plat hs args undef (mk_ms v ∅ ∅ None) h0 = Ok (None, s1) h1 ->
  a_vfio_bdf args = Some bdf -> stage_vfio args s1 h1 = Ok (None, s2) h2 ->
  forall code h', main_run plat hs args undef fuel h <> Ok code h'.
Proof.
  intros Hv Hsetup Hbdf Hvf code h' H. unfold main_run in H. rewrite (bind_Ok _ _ _ _ _ Hv) in H. cbv beta iota in H.
  assert (exists hvm, v = new_vm hvm) as [hvm ->] by (unfold vm_create in Hv; minv Hv; simplify_eq; by eexists).
  apply bind_inv in H as ([r s] & h3 & Hst & H). unfold main_cleanup in H. apply bind_inv in H as (x & h4 & Hd & _).
  destruct (run_with_passthrough _ _ _ _ _ _ _ _ _ _ _ Hbdf Hst) as [Ha|[(ret & -> & Hs)|(ret & s3 & h5 & -> & Hs & Hf & _)]].
  - by apply vm_destroy_attached in Hd.
  - by rewrite Hsetup in Hs.
  - rewrite Hsetup in Hs. simplify_eq. by rewrite Hvf in Hf.
Qed.

(** ** Witness: a raw binary and a device behind VFIO *)

Section witness.
#[local] Existing Instance good_env.

Definition passthrough_args : cmdline_args :=
  mk_args None None None 64 1 None None (Some "1a:00.1"%string) 0 1 (Some "a.bin"%string) 16.

Lemma passthrough_never_exits_witness :
  main_run LinuxX86 (kvm_state 3) passthrough_args 0 10 empty_host = Ub UseAfterFree /\
  forall code h', main_run LinuxX86 (kvm_state 3) passthrough_args 0 10 empty_host <> Ok code h'.
Proof.
  split; [vm_compute; reflexivity|].
  destruct (vm_create (kvm_state 3) empty_host) as [[v|] h0|] eqn:Hv; [|vm_compute in Hv; discriminate Hv..].
  destruct (main_setup LinuxX86 (kvm_state 3) passthrough_args 0 (mk_ms v ∅ ∅ None) h0) as [[[ret|] s] h1|] eqn:Hs;
    [vm_compute in Hv; injection Hv as <- <-; vm_compute in Hs; discriminate Hs| |
     vm_compute in Hv; injection Hv as <- <-; vm_compute in Hs; discriminate Hs].
  destruct (stage_vfio passthrough_args s h1) as [[[ret|] s2] h2|] eqn:Hf;
    [vm_compute in Hv; injection Hv as <- <-; vm_compute in Hs; injection Hs as <- <-; vm_compute in Hf; discriminate Hf| |
     vm_compute in Hv; injection Hv as <- <-; vm_compute in Hs; injection Hs as <- <-; vm_compute in Hf; discriminate Hf].
  exact (passthrough_never_exits LinuxX86 (kvm_state 3) passthrough_args 0 10 v empty_host h0 s h1 s2 h2 "1a:00.1" Hv Hs eq_refl Hf).
Defined.
End witness.
