(* ===== verification/GuestSafety.v ===== *)
(** * What the guests of the machine of main can do on Linux (src/vcpu.c, src/vm.c, src/hypervisor/kvm.c)

    The interleaved program of [Threads], on the machine that the set-up of [main] leaves,
    over a kernel that fills the vCPU pages as it documents: which exits fault, and what
    all the others do, which is nothing. *)

From S2P Require Import Prelude HvTypes Host Utils CString Hypervisor Kvm GuestMem VmMem Devices MmioConsole Virtio VirtioConsole VirtioBlk VirtioNet Vfio Machine VfioVm Vcpu KvmExits LinuxGuest Vm Threads Boot Main MainConsole.

(** ** Calls of the engine: running, starting, stopping and releasing vCPUs, and waiting *)

Definition engine_call (e : event) : Prop :=
  match e with
  | EvKvmRun _ | EvPthreadCreate _ | EvPthreadCancelJoin _ | EvSleep | EvMunmapRun _ _ | EvClose _ => True
  | _ => False
  end.
(** Between the two hosts nothing else was called. *)
Definition engine_only (h h' : host) : Prop := exists l, trace h' = l ++ trace h /\ Forall engine_call l.

Lemma engine_refl h : engine_only h h.
Proof. by exists []. Qed.
Lemma engine_trans h1 h2 h3 : engine_only h1 h2 -> engine_only h2 h3 -> engine_only h1 h3.
Proof. intros (l1 & H1 & P1) (l2 & H2 & P2). exists (l2 ++ l1). rewrite H2, H1, app_assoc. split; [done|by apply Forall_app_2]. Qed.
Lemma engine_called `{E : Env} e h h' : engine_only h h' -> engine_call e -> engine_only h (called e h').
Proof. intros (l & H & P) He. exists (e :: l). cbn [trace called]. rewrite H. split; [done|by constructor]. Qed.
Lemma engine_guest ws h u h' : guest_stores ws h = Ok u h' -> engine_only h h'.
Proof. destruct u. intros (_ & Ht & _)%guest_stores_layout. exists []. by rewrite Ht. Qed.

Section engine.
Context {E : Env}.

(** *** The main thread *)

Ltac calls := repeat first [apply engine_refl | apply engine_called; [|done]].

Lemma start_engine c h r c' h' :
  vcpu_start c h = Ok (r, c') h' -> engine_only h h' /\ vc_hv c' = vc_hv c /\ vc_vm c' = vc_vm c.
Proof. unfold vcpu_start. intros H. case_decide; minv H; simplify_eq; split; try done; calls. Qed.
Lemma request_engine fd c h c' h' :
  stop_request LinuxX86 (kvm_state fd) c h = Ok c' h' -> engine_only h h' /\ vc_hv c' = vc_hv c /\ vc_vm c' = vc_vm c.
Proof. unfold stop_request. intros H. minv H; simplify_eq; split; try done; calls. Qed.
Lemma join_engine c h c' h' : stop_join c h = Ok c' h' -> engine_only h h' /\ vc_hv c' = vc_hv c /\ vc_vm c' = vc_vm c.
Proof. unfold stop_join. intros H. minv H; simplify_eq; split; try done; calls. Qed.
Lemma destroy_engine fd ll c h h' :
  vc_state c <> VCPU_STATE_RUNNING -> vcpu_destroy LinuxX86 (kvm_state fd) ll (Some c) h = Ok tt h' -> engine_only h h'.
Proof.
  intros Hc H. unfold vcpu_destroy in H. rewrite decide_False in H by done. rewrite bind_ret in H.
  unfold hv_destroy_vcpu, via in H. cbn [kvm_state g_hv_ops kvm_ops op_destroy_vcpu] in H. unfold kvm_destroy_vcpu, kvm_vm_data in H.
  minv H; simplify_eq; calls.
Qed.
End engine.

(** ** The threads *)

Definition has_page (c : vcpu) (P : list byte -> Prop) : Prop :=
  exists hv page, vc_hv c = Some hv /\ hvc_data hv = KvmVcpuData page /\ P page.
Definition ready (c : vcpu) : Prop := vc_vm c = true /\ has_page c (fun _ => True).

(** The kernel fills the page as it documents whenever a vCPU runs. *)
Definition kernel_documented `{E : Env} : Prop :=
  forall tr f r err page ws, env_answer tr (EvKvmRun f) = (r, err, page, ws) -> documented page.

(** A thread that is about to decode a page on which the decoding faults. *)
Definition faulting (p : pc) (page : list byte) : bool := match p with AtExit => decoding_faults page | _ => false end.

Section threads.
Context {E : Env} (fd : Z) (exit0 : hv_exit) (ll : Z) (ps : list positive) (Hkernel : kernel_documented).
Local Abbreviation store := (gmap positive object).
Local Abbreviation hs := (kvm_state fd).

(** Where a segment may leave a thread. *)
Definition thread_ok (p : pc) (c : vcpu) : Prop := ready c /\ (p = AtExit -> has_page c documented).

Lemma run_segment_quiet c h :
  ready c -> exists p c' h', run_segment hs c h = Ok (p, c') h' /\ thread_ok p c' /\ engine_only h h'.
Proof using Hkernel.
  intros (Hvm & hv & old & Hhv & Hd & _). unfold run_segment, vcpu_run. rewrite Hhv. cbn [deref].
  unfold hv_run, via. cbn [kvm_state g_hv_ops kvm_ops op_run]. rewrite bind_assoc, (bind_ret hv), bind_assoc.
  destruct (env_answer (trace h) (EvKvmRun (hvc_fd hv))) as [[[r err] page] ws] eqn:Hans. pose proof (Hkernel _ _ _ _ _ _ Hans) as Hp.
  set (hv1 := set_vcpu_data (KvmVcpuData page) hv).
  assert (exists r' h', kvm_run hv h = Ok (r', hv1) h' /\ engine_only h h') as (r' & h' & Hrun & He).
  { unfold kvm_run, kvm_set_run. erewrite bind_Ok by (unfold perform; rewrite Hans; reflexivity). cbv beta iota. rewrite Hd.
    destruct (guest_stores ws (called (EvKvmRun (hvc_fd hv)) h)) as [[] h1|] eqn:Hg; [|done]. rewrite (bind_Ok _ _ _ _ _ Hg).
    assert (engine_only h h1) as He by (eapply engine_trans; [|exact (engine_guest _ _ _ _ Hg)]; by apply engine_called, I; apply engine_refl).
    unfold set_errno, mbind, M_bind, mret, M_ret. repeat case_match; by eexists _, _. }
  rewrite (bind_Ok _ _ _ _ _ Hrun). rewrite bind_ret.
  assert (forall p, thread_ok p (set_hv (Some hv1) c)) as Hok by (intros p; split; [split; [done|]|intros _]; by exists hv1, page).
  cbv beta iota. destruct (r' <? 0); [|by eexists _, _, _]. unfold errno_now, mbind, M_bind, mret, M_ret.
  eexists _, _, _. split; [reflexivity|]. by split; [apply Hok|].
Qed.

Lemma exit_segment_quiet v (st : store) c hv page h :
  high_devices v st -> vc_vm c = true -> vc_hv c = Some hv -> hvc_data hv = KvmVcpuData page -> documented page ->
  if decoding_faults page then exit_segment hs exit0 v st c h = Ub OutOfBounds
  else exists p c', exit_segment hs exit0 v st c h = Ok (p, c', st) h /\ thread_ok p c'.
Proof.
  intros Ha Hvm Hhv Hd Hp. unfold exit_segment. rewrite Hhv. cbn [deref].
  rewrite (bind_ret hv). unfold hv_get_exit, via. cbn [kvm_state g_hv_ops kvm_ops op_get_exit].
  pose proof (kvm_get_exit_documented_run hv page h Hd Hp) as Hget. destruct (decoding_faults page).
  { by rewrite (bind_Ub _ _ _ _ Hget). }
  rewrite (bind_Ok _ _ _ _ _ Hget). cbv beta iota zeta. change (0 <? 0) with false. cbv iota.
  destruct (decoded_exit_run v st (set_hv (Some hv) c) page h Ha Hvm Hp) as (r & c' & Hx & Hvm' & Hhv').
  rewrite (bind_Ok _ _ _ _ _ Hx). cbv beta iota zeta.
  assert (forall p f, p <> AtExit -> thread_ok p (count f c')) as Hok.
  { intros p f Hne. split; [|done]. split; [exact Hvm'|]. exists hv, page. split; [exact Hhv'|done]. }
  destruct (r <? 0); eexists _, _; (split; [reflexivity|]).
  - destruct c'. by apply (Hok _ id).
  - apply Hok. by case_match.
Qed.

(** The next segment of a thread: a fault in the decoding, or no effect on any device. *)
Lemma thread_step_quiet v p (st : store) c h :
  high_devices v st -> thread_ok p c ->
  exists hv page, vc_hv c = Some hv /\ hvc_data hv = KvmVcpuData page /\
    if faulting p page then thread_step LinuxX86 hs exit0 v p st c h = Ub OutOfBounds
    else exists p' c' h', thread_step LinuxX86 hs exit0 v p st c h = Ok (p', c', st) h' /\ thread_ok p' c' /\ engine_only h h'.
Proof using Hkernel.
  intros Ha [Hr Hpg]. pose proof Hr as (Hvm & hv & page & Hhv & Hd & _). exists hv, page. split; [done|]. split; [done|].
  destruct p as [| | | |e]; cbn [thread_step faulting].
  - eexists _, c, h. split; [reflexivity|]. split; [by split|apply engine_refl].
  - eexists _, c, h. split; [reflexivity|]. split; [split; [done|by case_match]|apply engine_refl].
  - destruct (run_segment_quiet c h Hr) as (p & c' & h' & H & Hok & He). rewrite (bind_Ok _ _ _ _ _ H). by eexists _, _, _.
  - destruct (Hpg eq_refl) as (hv2 & page2 & Hhv2 & Hd2 & Hdoc). simplify_eq.
    assert (page2 = page) as -> by congruence.
    pose proof (exit_segment_quiet v st c hv page h Ha Hvm Hhv Hd Hdoc) as H. destruct (decoding_faults page); [done|].
    destruct H as (p & c' & H & Hok). eexists p, c', h. split; [done|]. split; [done|apply engine_refl].
  - eexists _, c, h. split; [reflexivity|]. split; [by split|apply engine_refl].
Qed.

(** *** The whole program *)

Record world_quiet (devs : list (option positive)) (st : store) (h : host) (w : world) : Prop := {
  wq_array : live_devices (w_vm w) = devs;
  wq_objects : w_objs w = st;
  wq_calls : engine_only h (w_host w);
  wq_threads : forall i c, w_cpus w !! i = Some c -> ready c /\ (w_threads w !! i = Some AtExit -> has_page c documented)
}.

(** The main thread neither touches the page of a vCPU nor moves a thread to its exit. *)
Lemma main_keeps devs st0 h0 v v' cs cs' (st : store) ts ts' cn cn' m m' h h' :
  world_quiet devs st0 h0 (mk_world v cs st ts cn m h) ->
  live_devices v' = live_devices v -> engine_only h h' ->
  (forall i c', cs' !! i = Some c' -> exists c, cs !! i = Some c /\ vc_hv c' = vc_hv c /\ vc_vm c' = vc_vm c) ->
  (forall i, ts' !! i = Some AtExit -> ts !! i = Some AtExit) ->
  world_quiet devs st0 h0 (mk_world v' cs' st ts' cn' m' h').
Proof.
  intros [Ha Ho He Ht] Hv He' Hcs Hts. cbn in *. split; cbn; [congruence|done|by eapply engine_trans|].
  intros i c' (c & Hi & Hhv & Hvm)%Hcs. destruct (Ht _ _ Hi) as [[? (hv & page & ? & ? & ?)] Hp].
  split; [split; [congruence|exists hv, page; split; [congruence|done]]|].
  intros (hv2 & page2 & ? & ? & ?)%Hts%Hp. exists hv2, page2. split; [congruence|done].
Qed.

Lemma cpus_insert (cs : gmap positive vcpu) i c c' :
  cs !! i = Some c -> vc_hv c' = vc_hv c -> vc_vm c' = vc_vm c ->
  forall j x', <[i := c']> cs !! j = Some x' -> exists x, cs !! j = Some x /\ vc_hv x' = vc_hv x /\ vc_vm x' = vc_vm x.
Proof. intros Hi Hh Hv j x' [[<- <-]|[_ Hj]]%lookup_insert_Some; [by exists c|by exists x']. Qed.
Lemma cpus_same (cs : gmap positive vcpu) j x' :
  cs !! j = Some x' -> exists x, cs !! j = Some x /\ vc_hv x' = vc_hv x /\ vc_vm x' = vc_vm x.
Proof. by exists x'. Qed.
Lemma threads_insert (ts : gmap positive pc) i p j :
  p <> AtExit -> <[i := p]> ts !! j = Some AtExit -> ts !! j = Some AtExit.
Proof. by intros Hp [[_ ?]|[_ ?]]%lookup_insert_Some. Qed.
Lemma threads_delete (ts : gmap positive pc) i j : delete i ts !! j = Some AtExit -> ts !! j = Some AtExit.
Proof. by intros [_ ?]%lookup_delete_Some. Qed.

Lemma thread_keeps devs (st0 : store) h0 v cs ts cn m h i p c p' c' st' h' :
  high_array st0 devs ->
  world_quiet devs st0 h0 (mk_world v cs st0 ts cn m h) -> ts !! i = Some p -> cs !! i = Some c ->
  thread_step LinuxX86 hs exit0 v p st0 c h = Ok (p', c', st') h' ->
  world_quiet devs st0 h0 (mk_world v (<[i := c']> cs) st' (<[i := p']> ts) cn m h').
Proof using Hkernel.
  intros Hhigh [Ha Ho He Ht] Hi Hc Hrun. cbn in *. destruct (Ht _ _ Hc) as [Hr Hp].
  destruct (thread_step_quiet v p st0 c h) as (hv & page & _ & _ & H); [by unfold high_devices; rewrite Ha|by split; [|intros ->; auto]|].
  rewrite Hrun in H. destruct (faulting p page); [done|]. destruct H as (p2 & c2 & h2 & [= <- <- -> <-] & [Hr2 Hp2] & He2).
  split; cbn; [done|done|by eapply engine_trans|].
  intros j x [[<- <-]|[Hne Hj]]%lookup_insert_Some.
  - rewrite lookup_insert_eq. split; [done|]. intros [= ->]. by apply Hp2.
  - rewrite lookup_insert_ne by done. by apply Ht.
Qed.

Lemma step_quiet devs (st0 : store) h0 a (w w' : world) :
  high_array st0 devs ->
  world_quiet devs st0 h0 w -> wstep LinuxX86 hs exit0 ll ps a w w' -> world_quiet devs st0 h0 w'.
Proof using Hkernel.
  intros Hhigh Hw Hstep. pose proof (wq_objects _ _ _ _ Hw) as Hst. destruct Hstep; cbn in Hst; subst.
  1: by eapply thread_keeps.
  all: eapply main_keeps; [exact Hw|reflexivity|..].
  all: try match goal with H : vcpu_start _ _ = Ok _ _ |- _ => apply start_engine in H as (? & ? & ?) end.
  all: try match goal with H : stop_request _ _ _ _ = Ok _ _ |- _ => apply request_engine in H as (? & ? & ?) end.
  all: try match goal with H : stop_join _ _ = Ok _ _ |- _ => apply join_engine in H as (? & ? & ?) end.
  all: try match goal with H : perform EvSleep _ = Ok _ _ |- _ => injection H as _ <- end.
  all: try match goal with H : vcpu_destroy _ _ _ _ _ = Ok _ _ |- _ => apply destroy_engine in H; [|done] end.
  all: try first [done|apply engine_refl|by apply engine_called; [apply engine_refl|]].
  all: try (by eapply cpus_insert).
  all: try (by apply cpus_same).
  all: try (by intros j; repeat case_match; first [done|by apply threads_insert|by apply threads_delete]).
  by intros j x [_ ?]%lookup_delete_Some; exists x.
Qed.

Lemma path_quiet devs (st0 : store) h0 l (w w' : world) :
  high_array st0 devs ->
  path LinuxX86 hs exit0 ll ps l w w' -> world_quiet devs st0 h0 w -> world_quiet devs st0 h0 w'.
Proof using Hkernel. intros Hhigh. induction 1 as [|a w1 w2 l w3 Hs _ IH]; intros Hw; [done|]. apply IH. by eapply step_quiet. Qed.
End threads.

(** ** On the machine of main *)

(** A world whose guests have not begun to run on what the set-up left. *)
Record set_up (s : main_state) (w : world) : Prop := {
  su_vm : w_vm w = ms_vm s; su_cpus : w_cpus w = ms_vcpus s; su_objects : w_objs w = ms_objects s; su_threads : w_threads w = ∅
}.

Lemma set_up_quiet `{E : Env} s w : built s -> set_up s w -> world_quiet (live_devices (ms_vm s)) (ms_objects s) (w_host w) w.
Proof.
  intros [Hc _] [Hv Hcs Ho Ht]. split; [by rewrite Hv|done|apply engine_refl|]. rewrite Hcs, Ht. intros j x Hj.
  split; [|by rewrite lookup_empty]. destruct (Hc _ _ Hj) as (Hvm & _ & _ & hv & page & Hhv & Hd). split; [done|]. by exists hv, page.
Qed.

Section machine.
Context `{E : Env} (fd : Z) (args : cmdline_args) (undef : Z).
Local Abbreviation hs := (kvm_state fd).

Lemma reachable_quiet v s h h0 h1 exit0 ll ps l (w w' : world) :
  kernel_documented -> vm_create hs h = Ok (Some v) h0 ->
  main_setup LinuxX86 hs args undef (mk_ms v ∅ ∅ None) h0 = Ok (None, s) h1 ->
  set_up s w -> path LinuxX86 hs exit0 ll ps l w w' ->
  built s /\ world_quiet (live_devices (ms_vm s)) (ms_objects s) (w_host w) w'.
Proof.
  intros Hk Hv Hs Hw Hp.
  assert (exists hvm, v = new_vm hvm) as [hvm ->] by (unfold vm_create in Hv; minv Hv; simplify_eq; by eexists).
  pose proof (main_setup_built _ _ _ _ _ _ _ Hs) as Hb. split; [done|].
  eapply path_quiet; [exact Hk|exact (bt_devices _ Hb)|exact Hp|by apply set_up_quiet].
Qed.

(** [C7] Which exits of a guest fault on Linux.  Whatever the options and the host: take the
    machine that the set-up of [main] leaves and run the interleaved program on it, with
    any guests on any of its vCPUs and any schedule, against a kernel that fills the vCPU
    pages as it documents.  At every point of the execution, and for every thread: when the
    thread is about to decode an exit whose page [decoding_faults] tells, its next segment is
    an access outside an object; in every other case the segment returns, and leaves the
    devices as they are. *)
Theorem guests_fault_exactly v s h h0 h1 exit0 ll ps l (w w' : world) i p c :
  kernel_documented -> vm_create hs h = Ok (Some v) h0 ->
  main_setup LinuxX86 hs args undef (mk_ms v ∅ ∅ None) h0 = Ok (None, s) h1 ->
  set_up s w -> path LinuxX86 hs exit0 ll ps l w w' -> w_threads w' !! i = Some p -> w_cpus w' !! i = Some c ->
  exists hv page, vc_hv c = Some hv /\ hvc_data hv = KvmVcpuData page /\
    if faulting p page then thread_step LinuxX86 hs exit0 (w_vm w') p (w_objs w') c (w_host w') = Ub OutOfBounds
    else exists p' c' h', thread_step LinuxX86 hs exit0 (w_vm w') p (w_objs w') c (w_host w') = Ok (p', c', w_objs w') h'.
Proof.
  intros Hk Hv Hs Hw Hp Hi Hc. destruct (reachable_quiet _ _ _ _ _ _ _ _ _ _ _ Hk Hv Hs Hw Hp) as [Hb [Ha Ho _ Ht]].
  destruct (Ht _ _ Hc) as [Hr Hpg].
  destruct (thread_step_quiet fd exit0 Hk (w_vm w') p (w_objs w') c (w_host w')) as (hv & page & Hhv & Hd & H).
  - unfold high_devices. rewrite Ha, Ho. apply Hb.
  - split; [done|]. intros ->. auto.
  - exists hv, page. split; [done|]. split; [done|]. destruct (faulting p page); [done|]. destruct H as (p' & c' & h' & H & _). by exists p', c', h'.
Qed.

(** [C8] No guest reaches a device on Linux.  In the same executions, with any guests, any
    options and any schedule, up to any point: the devices are as the set-up left them, and
    the program has called nothing but [KVM_RUN] and what starts, stops, joins and releases
    vCPUs and their threads.  In particular it made no [pread], [pwrite], [read] or [write]
    on the disk image or the tap, printed no byte and raised no interrupt.  This includes the
    executions that end in a fault (C7): an exit either faults while its page is decoded,
    before a device is looked for, or its handler returns without calling anything. *)
Theorem guests_reach_no_device v s h h0 h1 exit0 ll ps l (w w' : world) :
  kernel_documented -> vm_create hs h = Ok (Some v) h0 ->
  main_setup LinuxX86 hs args undef (mk_ms v ∅ ∅ None) h0 = Ok (None, s) h1 ->
  set_up s w -> path LinuxX86 hs exit0 ll ps l w w' ->
  w_objs w' = ms_objects s /\ engine_only (w_host w) (w_host w') /\
  forall i c, w_threads w' !! i = Some AtExit -> w_cpus w' !! i = Some c ->
    exists hv page, vc_hv c = Some hv /\ hvc_data hv = KvmVcpuData page /\
    match kvm_get_exit hv (w_host w') with
    | Ub u => decoding_faults page = true /\ u = OutOfBounds
    | Ok (ret, e, hv) h => h = w_host w' /\
        exists r c', vcpu_handle_exit (w_vm w') (w_objs w') (set_hv (Some hv) c) e h = Ok (r, c', w_objs w') h
    end.
Proof.
  intros Hk Hv Hs Hw Hp. destruct (reachable_quiet _ _ _ _ _ _ _ _ _ _ _ Hk Hv Hs Hw Hp) as [Hb [Ha Ho He Ht]].
  split; [done|]. split; [done|]. intros i c Hi Hc. destruct (Ht _ _ Hc) as [[Hvm _] Hpg].
  destruct (Hpg Hi) as (hv & page & Hhv & Hd & Hdoc). exists hv, page. split; [done|]. split; [done|].
  rewrite (kvm_get_exit_documented_run hv page (w_host w') Hd Hdoc). destruct (decoding_faults page) eqn:Hf; [done|]. split; [done|].
  destruct (decoded_exit_run (w_vm w') (w_objs w') (set_hv (Some hv) c) page (w_host w')) as (r & c' & Hx & _);
    [unfold high_devices; rewrite Ha, Ho; apply Hb|done|done|by exists r, c'].
Qed.
End machine.

(** ** Witnesses: a guest notifies the first queue of its disk, or of a device above 4 GiB *)

Definition disk_machine_args : cmdline_args :=
  mk_args None None None 64 1 (Some "disk.img"%string) None None 0 1 (Some "a.bin"%string) 16.
Definition notify_page (addr : Z) : list byte := linux_page KVM_EXIT_MMIO 0 0xfee00900 (mmio_body addr 0 4 1).

(** A kernel whose guests all do this. *)
Definition notifying_env (addr : Z) : Env := fun tr e =>
  match e return answer e with
  | EvKvmRun _ => (0, 0, notify_page addr, [])
  | e => good_env tr e
  end.

Lemma notifying_documented addr : kernel_documented (E := notifying_env addr).
Proof. intros tr f r err page ws [= <- <- <- <-]. by apply mmio_page_documented. Qed.

(** The thread of its vCPU, from its creation to the exit. *)
Definition exit_path : list label := [LMain; LThread 1 AtStart; LThread 1 AtTest; LThread 1 AtRun].
Definition disk_notify : Z := VIRTIO_BLOCK_GPA + 0x34.
Definition high_notify : Z := 0x100000000 + disk_notify.

Lemma notifying_path addr (E : Env := notifying_env addr) :
  addr = disk_notify \/ addr = high_notify ->
  exists v s h h0 h1 (w w' : world) c,
    vm_create (kvm_state 3) h = Ok (Some v) h0 /\
    main_setup LinuxX86 (kvm_state 3) disk_machine_args 0 (mk_ms v ∅ ∅ None) h0 = Ok (None, s) h1 /\
    set_up s w /\ path LinuxX86 (kvm_state 3) no_exit 1 [1%positive] exit_path w w' /\
    w_threads w' !! 1%positive = Some AtExit /\ w_cpus w' !! 1%positive = Some c /\
    hvc_data <$> vc_hv c = Some (KvmVcpuData (notify_page addr)).
Proof.
  intros Haddr.
  destruct (vm_create (kvm_state 3) empty_host) as [[v|] h0|] eqn:Hv;
    [|destruct Haddr; subst addr; vm_compute in Hv; discriminate Hv..].
  destruct (main_setup LinuxX86 (kvm_state 3) disk_machine_args 0 (mk_ms v ∅ ∅ None) h0) as [[[ret|] s] h1|] eqn:Hs;
    [destruct Haddr; subst addr; vm_compute in Hv; injection Hv as <- <-; vm_compute in Hs; discriminate Hs| |
     destruct Haddr; subst addr; vm_compute in Hv; injection Hv as <- <-; vm_compute in Hs; discriminate Hs].
  exists v, s, empty_host, h0, h1, (mk_world (ms_vm s) (ms_vcpus s) (ms_objects s) ∅ ∅ (MStart [] [1%positive]) empty_host).
  destruct Haddr; subst addr; vm_compute in Hv; injection Hv as <- <-; pose proof Hs as Hs'; vm_compute in Hs'; injection Hs' as <- _.
  all: eexists _, _; split; [reflexivity|]; split; [exact Hs|]; split; [done|]; split.
  1, 3: eapply path_cons; [eapply ws_start; [vm_compute; reflexivity|vm_compute; reflexivity]|].
  1, 2: do 3 (eapply path_cons; [eapply ws_thread; [vm_compute; reflexivity|vm_compute; reflexivity|vm_compute; reflexivity|vm_compute; reflexivity]|]).
  1, 2: apply path_nil.
  all: split; [vm_compute; reflexivity|split; vm_compute; reflexivity].
Qed.

Lemma guests_fault_exactly_witness :
  (let _ : Env := notifying_env disk_notify in
   exists (w' : world) c p' c' h', w_threads w' !! 1%positive = Some AtExit /\
     thread_step LinuxX86 (kvm_state 3) no_exit (w_vm w') AtExit (w_objs w') c (w_host w') = Ok (p', c', w_objs w') h') /\
  (let _ : Env := notifying_env high_notify in
   exists (w' : world) c, w_threads w' !! 1%positive = Some AtExit /\
     thread_step LinuxX86 (kvm_state 3) no_exit (w_vm w') AtExit (w_objs w') c (w_host w') = Ub OutOfBounds).
Proof.
  split; intros E.
  - destruct (notifying_path disk_notify (or_introl eq_refl)) as (v & s & h & h0 & h1 & w & w' & c & Hv & Hs & Hw & Hp & Ht & Hc & Hd).
    destruct (guests_fault_exactly 3 disk_machine_args 0 v s h h0 h1 no_exit 1 [1%positive] exit_path w w' 1 AtExit c
      (notifying_documented _) Hv Hs Hw Hp Ht Hc) as (hv & page & Hhv & Hpage & H).
    rewrite Hhv in Hd. cbn in Hd. rewrite Hpage in Hd. injection Hd as ->.
    destruct H as (p' & c' & h' & H). by exists w', c, p', c', h'.
  - destruct (notifying_path high_notify (or_intror eq_refl)) as (v & s & h & h0 & h1 & w & w' & c & Hv & Hs & Hw & Hp & Ht & Hc & Hd).
    destruct (guests_fault_exactly 3 disk_machine_args 0 v s h h0 h1 no_exit 1 [1%positive] exit_path w w' 1 AtExit c
      (notifying_documented _) Hv Hs Hw Hp Ht Hc) as (hv & page & Hhv & Hpage & H).
    rewrite Hhv in Hd. cbn in Hd. rewrite Hpage in Hd. injection Hd as ->. by exists w', c.
Defined.

Lemma guests_reach_no_device_witness :
  let _ : Env := notifying_env disk_notify in
  exists (w w' : world), path LinuxX86 (kvm_state 3) no_exit 1 [1%positive] exit_path w w' /\
    w_threads w' !! 1%positive = Some AtExit /\ w_objs w' = w_objs w /\ engine_only (w_host w) (w_host w').
Proof.
  intros E. destruct (notifying_path disk_notify (or_introl eq_refl)) as (v & s & h & h0 & h1 & w & w' & c & Hv & Hs & Hw & Hp & Ht & Hc & Hd).
  destruct (guests_reach_no_device 3 disk_machine_args 0 v s h h0 h1 no_exit 1 [1%positive] exit_path w w'
    (notifying_documented _) Hv Hs Hw Hp) as (Ho & He & _).
  exists w, w'. split; [exact Hp|]. split; [exact Ht|]. split; [by rewrite Ho, (su_objects _ _ Hw)|exact He].
Defined.
