(* ===== verification/Resources.v ===== *)
(** * Descriptors over a whole run of the program (src/main.c and what it calls)

    Who holds which file descriptor at each stage of [main] on Linux: the KVM file,
    the VM, its vCPUs and the devices; and what is left open when [main] returns.
    Most of what the program does neither opens nor closes a descriptor ([quiet]); the
    rest of the file follows those who do. *)

From Stdlib Require Import Ascii.
From S2P Require Import Prelude HvTypes Host Utils CString Hypervisor Kvm HvPlatforms GuestMem VmMem Devices MmioConsole Virtio VirtioConsole VirtioBlk VirtioNet Vfio Machine VfioVm Vcpu Vm Boot Main Passthrough.

(** ** Bags of descriptors *)

Lemma remove_one_elem x l : x ∈ l -> l ≡ₚ x :: remove_one x l.
Proof.
  induction l as [|y l IH]; intros Hin; [by apply elem_of_nil in Hin|]. cbn [remove_one].
  destruct (decide (y = x)) as [->|Hne]; [done|]. apply elem_of_cons in Hin as [?|Hin]; [congruence|].
  rewrite (IH Hin) at 1. apply Permutation_swap.
Qed.
Lemma remove_one_perm x l r : l ≡ₚ x :: r -> remove_one x l ≡ₚ r.
Proof.
  intros Hl. apply (Permutation_cons_inv (a := x)). rewrite <- remove_one_elem; [done|].
  rewrite Hl. apply list_elem_of_here.
Qed.

(** What the values of a map hold. *)
Definition fds_of {A} (f : A -> list Z) (m : gmap positive A) : list Z := map_to_list m ≫= fun kx => f kx.2.

Section fds_of.
Context {A : Type} (f : A -> list Z).

Lemma fds_of_empty : fds_of f ∅ = [].
Proof. unfold fds_of. by rewrite map_to_list_empty. Qed.
Lemma fds_of_insert m i x : m !! i = None -> fds_of f (<[i := x]> m) ≡ₚ f x ++ fds_of f m.
Proof. intros Hi. unfold fds_of. by rewrite map_to_list_insert. Qed.
Lemma fds_of_delete m i x : m !! i = Some x -> fds_of f m ≡ₚ f x ++ fds_of f (delete i m).
Proof. intros Hi. unfold fds_of. by rewrite <- (map_to_list_delete m i x). Qed.
Lemma fds_of_update m i x y : m !! i = Some x -> f y = f x -> fds_of f (<[i := y]> m) ≡ₚ fds_of f m.
Proof.
  intros Hi Hf. rewrite <- insert_delete_eq, fds_of_insert by apply lookup_delete_eq.
  rewrite (fds_of_delete m i x Hi). by rewrite Hf.
Qed.
End fds_of.

(** ** Code that opens and closes nothing *)

Section quiet.
Context {E : Env}.

Definition quiet {A} (m : M A) : Prop := forall h a h', m h = Ok a h' -> open_fds (trace h') = open_fds (trace h).

Lemma quiet_ret {A} (a : A) : quiet (mret a).
Proof. by intros h b h' [= _ <-]. Qed.
Lemma quiet_ub {A} u : quiet (@fail_ub A u).
Proof. done. Qed.
Lemma quiet_deref {A} u (o : option A) : quiet (deref u o).
Proof. destruct o; [apply quiet_ret|apply quiet_ub]. Qed.
Lemma quiet_bind {A B} (m : M A) (f : A -> M B) : quiet m -> (forall a, quiet (f a)) -> quiet (m ≫= f).
Proof. intros Hm Hf h b h' (a & h1 & H1 & H2)%bind_inv. rewrite (Hf a _ _ _ H2). by eapply Hm. Qed.
Lemma quiet_perform e :
  (forall tr, opened tr e = None) -> match e with EvClose _ => False | _ => True end -> quiet (perform e).
Proof.
  intros Ho Hc h a h' [= _ <-]. cbn [trace called open_fds]. rewrite Ho. by destruct e.
Qed.
(** What leaves the history alone. *)
Lemma quiet_silent {A} (m : M A) : (forall h a h', m h = Ok a h' -> trace h' = trace h) -> quiet m.
Proof. intros Hm h a h' H. by rewrite (Hm _ _ _ H). Qed.

Lemma quiet_load p n : quiet (load p n).
Proof. apply quiet_silent. intros h l h' H. by apply load_inv in H as [_ ->]. Qed.
Lemma quiet_store p d : quiet (store p d).
Proof. apply quiet_silent. intros h [] h' H. unfold store in H. repeat case_match; by simplify_eq. Qed.
Lemma quiet_free p : quiet (free p).
Proof. apply quiet_silent. intros h [] h' H. unfold free in H. repeat case_match; by simplify_eq. Qed.
Lemma quiet_alloc l : quiet (alloc_block l).
Proof. apply quiet_silent. intros h p h' H. unfold alloc_block in H. by simplify_eq. Qed.
End quiet.

Create HintDb quiet.
#[export] Hint Resolve quiet_ret quiet_ub quiet_deref quiet_load quiet_store quiet_free quiet_alloc : quiet.

(** Along the structure of a program. *)
Ltac quiet :=
  intros;
  repeat first
    [ solve [auto with quiet nocore]
    | apply quiet_bind; [|intros ?]
    | match goal with |- quiet (perform ?e) => apply (quiet_perform e); [reflexivity|exact I] end
    | match goal with |- quiet (match ?x with _ => _ end) => destruct x end
    | progress cbv beta iota zeta
    | match goal with |- quiet (let _ := _ in _) => cbv zeta end ].

Section quiet_host.
Context {E : Env}.

Lemma quiet_calloc n : quiet (calloc n).
Proof. unfold calloc. quiet. Qed.
Lemma quiet_strdup s : quiet (strdup s).
Proof. unfold strdup. quiet. Qed.
Lemma quiet_mfor {A} (l : list A) f : (forall a, quiet (f a)) -> quiet (mfor l f).
Proof. intros Hf. induction l as [|a l IH]; cbn [mfor]; [apply quiet_ret|]. apply quiet_bind; [apply Hf|done]. Qed.
Lemma quiet_load_le n p off : quiet (load_le n p off).
Proof. unfold load_le. quiet. Qed.
Lemma quiet_store_le n p off x : quiet (store_le n p off x).
Proof. unfold store_le. quiet. Qed.
Lemma quiet_malloc n : quiet (malloc n).
Proof. unfold malloc. quiet. Qed.
Lemma quiet_memcpy d s n : quiet (memcpy d s n).
Proof. unfold memcpy. quiet. Qed.
End quiet_host.
#[export] Hint Resolve quiet_calloc quiet_strdup quiet_load_le quiet_store_le quiet_malloc quiet_memcpy : quiet.

(** ** Every call is recorded *)

Section grows.
Context {E : Env}.

Definition grows {A} (m : M A) : Prop := forall h a h', m h = Ok a h' -> trace h `suffix_of` trace h'.

Lemma grows_ret {A} (a : A) : grows (mret a).
Proof. by intros h b h' [= _ <-]. Qed.
Lemma grows_ub {A} u : grows (@fail_ub A u).
Proof. done. Qed.
Lemma grows_deref {A} u (o : option A) : grows (deref u o).
Proof. destruct o; [apply grows_ret|apply grows_ub]. Qed.
Lemma grows_bind {A B} (m : M A) (f : A -> M B) : grows m -> (forall a, grows (f a)) -> grows (m ≫= f).
Proof. intros Hm Hf h b h' (a & h1 & H1 & H2)%bind_inv. etrans; [by eapply Hm|by eapply Hf]. Qed.
Lemma grows_perform e : grows (perform e).
Proof. intros h a h' [= _ <-]. by apply suffix_cons_r. Qed.
Lemma grows_silent {A} (m : M A) : (forall h a h', m h = Ok a h' -> trace h' = trace h) -> grows m.
Proof. intros Hm h a h' H. by rewrite (Hm _ _ _ H). Qed.

Lemma grows_load p n : grows (load p n).
Proof. apply grows_silent. intros h l h' H. by apply load_inv in H as [_ ->]. Qed.
Lemma grows_store p d : grows (store p d).
Proof. apply grows_silent. intros h [] h' H. unfold store in H. repeat case_match; by simplify_eq. Qed.
Lemma grows_free p : grows (free p).
Proof. apply grows_silent. intros h [] h' H. unfold free in H. repeat case_match; by simplify_eq. Qed.
Lemma grows_alloc l : grows (alloc_block l).
Proof. apply grows_silent. intros h p h' H. unfold alloc_block in H. by simplify_eq. Qed.
Lemma grows_set_errno e : grows (set_errno e).
Proof. apply grows_silent. intros h p h' H. unfold set_errno in H. by simplify_eq. Qed.
End grows.

Create HintDb grows.
#[export] Hint Resolve grows_ret grows_ub grows_deref grows_perform grows_load grows_store grows_free grows_alloc grows_set_errno : grows.

Ltac grows_head m := match m with ?f _ => grows_head f | _ => m end.
Ltac grows :=
  intros;
  repeat first
    [ solve [auto with grows nocore]
    | apply grows_bind; [|intros ?]
    | match goal with |- grows (perform ?e) => exact (grows_perform e) end
    | match goal with |- grows (match ?x with _ => _ end) =>
        let y := eval hnf in x in match y with Some _ => idtac | None => idtac end; change x with y; cbv beta iota end
    | match goal with |- grows (match ?x with _ => _ end) => destruct x end
    | progress cbv beta iota zeta
    | match goal with |- grows (let _ := _ in _) => cbv zeta end
    | match goal with |- grows ?m => let f := grows_head m in progress (unfold f; cbv beta) end ].

Section grows_program.
Context {E : Env} (fd : Z).
Local Abbreviation hs := (kvm_state fd).
Local Abbreviation vcpus := (gmap positive vcpu).
Local Abbreviation store := (gmap positive object).

Lemma grows_mfor {A} (l : list A) f : (forall a, grows (f a)) -> grows (mfor l f).
Proof. intros Hf. induction l as [|a l IH]; cbn [mfor]; [apply grows_ret|]. apply grows_bind; [apply Hf|done]. Qed.
Hint Resolve grows_mfor : grows.

Lemma grows_stop_vcpus l (vs : vcpus) : grows (stop_vcpus LinuxX86 hs l vs).
Proof. revert vs. induction l as [|[i|] l IH]; intros vs; cbn [stop_vcpus]; grows. Qed.
Hint Resolve grows_stop_vcpus : grows.
Lemma grows_start_vcpus dn l (vs : vcpus) : grows (start_vcpus LinuxX86 hs dn l vs).
Proof. revert dn vs. induction l as [|p l IH]; intros dn vs; cbn [start_vcpus]; grows. Qed.
Lemma grows_destroy_vcpus log_level l (vs : vcpus) : grows (destroy_vcpus LinuxX86 hs log_level l vs).
Proof. revert vs. induction l as [|[i|] l IH]; intros vs; cbn [destroy_vcpus]; grows. Qed.
Hint Resolve grows_start_vcpus grows_destroy_vcpus : grows.
Lemma grows_create_vcpus log_level n i v (vs : vcpus) : grows (create_vcpus LinuxX86 hs log_level n i v vs).
Proof. revert i v vs. induction n as [|n IH]; intros i v vs; cbn [create_vcpus]; grows. Qed.
Lemma grows_free_regions hv l : grows (free_regions hs hv l).
Proof. induction l as [|x l IH]; cbn [free_regions]; grows. Qed.
Lemma grows_any_stopped l (vs : vcpus) : grows (any_stopped l vs).
Proof. induction l as [|p l IH]; cbn [any_stopped]; grows. Qed.
Lemma grows_print l (vs : vcpus) : grows (print_all_stats l vs).
Proof. induction l as [|p l IH]; cbn [print_all_stats]; grows. Qed.
Hint Resolve grows_create_vcpus grows_free_regions grows_any_stopped grows_print : grows.
Lemma grows_wait_loop fuel g v (vs : vcpus) : grows (wait_loop LinuxX86 hs fuel g v vs).
Proof. revert g v vs. induction fuel as [|fuel IH]; intros g v vs; cbn [wait_loop]; grows. Qed.
Lemma grows_map_bars v n i gpa : grows (map_bars v n i gpa).
Proof. revert v i gpa. induction n as [|n IH]; intros v i gpa; cbn [map_bars]; grows. Qed.
Lemma grows_unmap_regions l n i : grows (unmap_regions l n i).
Proof. revert i. induction n as [|n IH]; intros i; cbn [unmap_regions]; grows. Qed.
Hint Resolve grows_wait_loop grows_map_bars grows_unmap_regions : grows.

(** The stages of [main]. *)
Lemma grows_stages args s :
  grows (stage_config args s) /\ grows (stage_memory hs args s) /\ grows (stage_vcpus LinuxX86 hs args s) /\
  grows (stage_boot LinuxX86 hs args s) /\ grows (stage_start LinuxX86 hs s).
Proof. split_and!; grows. Qed.
Lemma grows_stage_wait fuel s : grows (stage_wait LinuxX86 hs fuel s).
Proof. grows. Qed.
End grows_program.
#[export] Hint Resolve grows_mfor grows_stop_vcpus grows_start_vcpus grows_destroy_vcpus grows_create_vcpus grows_free_regions
  grows_any_stopped grows_print grows_wait_loop grows_map_bars grows_unmap_regions : grows.

(** *** The VM, the boot loader and the run *)

Section quiet_program.
Context {E : Env} (fd : Z).
Local Abbreviation hs := (kvm_state fd).
Local Abbreviation vcpus := (gmap positive vcpu).
Local Abbreviation store := (gmap positive object).

Lemma quiet_read_file path : quiet (read_file path).
Proof. unfold read_file, fread. quiet. Qed.
Hint Resolve quiet_read_file : quiet.
Lemma quiet_load_bzimage log_level v path : quiet (load_bzimage log_level v path).
Proof. unfold load_bzimage. quiet. Qed.
Lemma quiet_load_initrd v path m : quiet (load_initrd v path m).
Proof. unfold load_initrd. quiet. Qed.
Lemma quiet_setup_cmdline v s : quiet (setup_cmdline v s).
Proof. unfold setup_cmdline. quiet. Qed.
Lemma quiet_setup_e820 v : quiet (setup_e820 v).
Proof. unfold setup_e820, put_e820. quiet. Qed.
Lemma quiet_get_vcpu (vs : vcpus) p : quiet (get_vcpu vs p).
Proof. unfold get_vcpu. quiet. Qed.
Lemma quiet_setup_vcpu_regs c : quiet (setup_vcpu_regs hs c).
Proof. unfold setup_vcpu_regs, hv_set_regs, hv_set_sregs, via. cbn. unfold kvm_set_regs, kvm_set_sregs. quiet. Qed.
Hint Resolve quiet_load_bzimage quiet_load_initrd quiet_setup_cmdline quiet_setup_e820 quiet_get_vcpu quiet_setup_vcpu_regs : quiet.
Lemma quiet_boot_linux log_level v (vs : vcpus) : quiet (boot_setup_linux hs log_level v vs).
Proof. unfold boot_setup_linux, optional_step. quiet. Qed.
Lemma quiet_boot_raw v (vs : vcpus) path entry : quiet (boot_setup_raw_binary LinuxX86 hs v vs path entry).
Proof.
  unfold boot_setup_raw_binary, setup_raw_entry, hv_set_regs, hv_set_sregs, via. cbn. unfold kvm_set_regs, kvm_set_sregs. quiet.
Qed.

Lemma quiet_dup_arg s : quiet (dup_arg s).
Proof. unfold dup_arg. quiet. Qed.
Lemma quiet_add_region v gpa size : quiet (vm_add_memory_region hs v gpa size).
Proof. unfold vm_add_memory_region, hv_map_mem, via. cbn. unfold kvm_map_mem, kvm_set_region. quiet. Qed.
Lemma quiet_free_regions hv l : quiet (free_regions hs hv l).
Proof.
  induction l as [|r l IH]; cbn [free_regions]; [apply quiet_ret|].
  unfold hv_unmap_mem, via. cbn. unfold kvm_unmap_mem, kvm_set_region. quiet.
Qed.
Lemma quiet_vcpu_start c : quiet (vcpu_start c).
Proof. unfold vcpu_start. quiet. Qed.
Lemma quiet_vcpu_stop c : quiet (vcpu_stop LinuxX86 hs c).
Proof. unfold vcpu_stop. quiet. Qed.
Hint Resolve quiet_vcpu_start quiet_vcpu_stop : quiet.
Lemma quiet_stop_vcpus l (vs : vcpus) : quiet (stop_vcpus LinuxX86 hs l vs).
Proof. revert vs. induction l as [|[i|] l IH]; intros vs; cbn [stop_vcpus]; quiet. Qed.
Hint Resolve quiet_stop_vcpus : quiet.
Lemma quiet_start_vcpus dn l (vs : vcpus) : quiet (start_vcpus LinuxX86 hs dn l vs).
Proof. revert dn vs. induction l as [|p l IH]; intros dn vs; cbn [start_vcpus]; quiet. Qed.
Hint Resolve quiet_start_vcpus : quiet.
Lemma quiet_vm_start v (vs : vcpus) : quiet (vm_start LinuxX86 hs v vs).
Proof. unfold vm_start. quiet. Qed.
Lemma quiet_vm_stop v (vs : vcpus) : quiet (vm_stop LinuxX86 hs v vs).
Proof. unfold vm_stop. quiet. Qed.
Hint Resolve quiet_vm_start quiet_vm_stop : quiet.
Lemma quiet_any_stopped l (vs : vcpus) : quiet (any_stopped l vs).
Proof. induction l as [|p l IH]; cbn [any_stopped]; quiet. Qed.
Hint Resolve quiet_any_stopped : quiet.
Lemma quiet_wait_loop fuel g v (vs : vcpus) : quiet (wait_loop LinuxX86 hs fuel g v vs).
Proof. revert g v vs. induction fuel as [|fuel IH]; intros g v vs; cbn [wait_loop]; [apply quiet_ub|]. unfold signal_handler. quiet. Qed.
Lemma quiet_print l (vs : vcpus) : quiet (print_all_stats l vs).
Proof. induction l as [|p l IH]; cbn [print_all_stats]; quiet. Qed.
Lemma quiet_register_device log_level v (st : store) i : quiet (vm_register_device log_level v st i).
Proof. unfold vm_register_device, get_obj. quiet. Qed.
Lemma quiet_console_create : quiet mmio_console_create.
Proof. unfold mmio_console_create, device_create. quiet. Qed.
Lemma quiet_virtio_console_create undef : quiet (virtio_console_create undef).
Proof. unfold virtio_console_create. quiet. Qed.
End quiet_program.

(** ** The descriptors of the vCPUs *)

Section cpus.
Context {E : Env} (fd : Z) (log_level : Z).
Local Abbreviation hs := (kvm_state fd).
Local Abbreviation vcpus := (gmap positive vcpu).

Definition handle_fds (hv : option hv_vcpu) : list Z := match hv with Some hv => [hvc_fd hv] | None => [] end.
Definition cpu_fds (c : vcpu) : list Z := handle_fds (vc_hv c).
Definition cpu_open (c : vcpu) : Prop := exists hv, vc_hv c = Some hv /\ 0 <= hvc_fd hv.
Definition cpus_open (vs : vcpus) : Prop := forall i c, vs !! i = Some c -> cpu_open c.

Lemma kvm_create_vcpu_fds hvm i h r h' :
  kvm_create_vcpu hvm i h = Ok r h' ->
  match r with
  | Some hv => open_fds (trace h') = hvc_fd hv :: open_fds (trace h) /\ 0 <= hvc_fd hv
  | None => open_fds (trace h') = open_fds (trace h)
  end.
Proof.
  intros H. unfold kvm_create_vcpu, kvm_vm_data in H. minv H; simplify_eq; fd_count; auto; bool_prop; split; auto; lia.
Qed.

Lemma vcpu_create_fds hvm i h r h' :
  vcpu_create LinuxX86 hs hvm i h = Ok r h' ->
  match r with
  | Some c => open_fds (trace h') = cpu_fds c ++ open_fds (trace h) /\ cpu_open c
  | None => open_fds (trace h') = open_fds (trace h)
  end.
Proof.
  intros H. unfold vcpu_create in H. apply bind_inv in H as (ok & h1 & H1 & H).
  rewrite <- (quiet_perform (EvCalloc 144) ltac:(reflexivity) I _ _ _ H1). destruct ok; cbn [negb] in H; [|by minv H].
  apply bind_inv in H as (hv & h2 & Hc & H). apply kvm_create_vcpu_fds in Hc.
  destruct hv as [hv|]; minv H; [|done]. destruct Hc as [-> ?]. split; [done|by exists hv].
Qed.

Lemma vcpu_destroy_fds c h h' :
  cpu_open c -> vcpu_destroy LinuxX86 hs log_level (Some c) h = Ok tt h' ->
  forall r, open_fds (trace h) ≡ₚ cpu_fds c ++ r -> open_fds (trace h') ≡ₚ r.
Proof.
  intros (hv & Hv & Hpos) H r Hr. unfold vcpu_destroy in H. apply bind_inv in H as ([ret c1] & h1 & Hs & H).
  assert (open_fds (trace h1) = open_fds (trace h) /\ vc_hv c1 = vc_hv c) as [Ho Hc].
  { destruct (decide _); [split; [by apply (quiet_vcpu_stop fd c) in Hs|]|by minv Hs; simplify_eq].
    unfold vcpu_stop in Hs. minv Hs; by simplify_eq. }
  rewrite <- Ho in Hr. unfold cpu_fds in Hr. rewrite Hc, Hv in H. rewrite Hv in Hr. cbn in H, Hr.
  rewrite bind_assoc in H. apply bind_inv in H as (u & h2 & Hm & H).
  assert (open_fds (trace h2) = open_fds (trace h1)) as Ho2.
  { destruct (hvc_data hv); try done; [by minv Hm|]. revert Hm. apply (quiet_bind (kvm_vm_data _)); unfold kvm_vm_data; quiet. }
  rewrite (proj2 (Z.geb_le (hvc_fd hv) 0) Hpos) in H. apply bind_inv in H as ([] & h3 & Hcl & H).
  assert (open_fds (trace h') = open_fds (trace h3)) as -> by (destruct (log_level >=? LOG_LEVEL_INFO); by minv H; simplify_eq).
  rewrite perform_close in Hcl. simplify_eq. change (remove_one (hvc_fd hv) (open_fds (trace h2)) ≡ₚ r). rewrite Ho2. by apply remove_one_perm.
Qed.

Lemma destroy_vcpus_fds l (vs : vcpus) h vs' h' r :
  cpus_open vs -> destroy_vcpus LinuxX86 hs log_level l vs h = Ok vs' h' ->
  open_fds (trace h) ≡ₚ fds_of cpu_fds vs ++ r ->
  open_fds (trace h') ≡ₚ fds_of cpu_fds vs' ++ r /\
  (forall i, is_Some (vs' !! i) -> is_Some (vs !! i) /\ Some i ∉ l).
Proof.
  revert vs h. induction l as [|[i|] l IH]; intros vs h Ho H Hr; cbn [destroy_vcpus] in H.
  - minv H. simplify_eq. split; [done|]. intros i Hi. split; [done|by apply not_elem_of_nil].
  - destruct (vs !! i) as [c|] eqn:Hi; [|done]. cbn [deref] in H. rewrite bind_ret in H.
    apply bind_inv in H as ([] & h1 & Hd & H). rewrite (fds_of_delete _ _ _ _ Hi), <- app_assoc in Hr.
    pose proof (vcpu_destroy_fds c h h1 (Ho i c Hi) Hd _ Hr) as Hr1.
    assert (cpus_open (delete i vs)) as Ho1 by (intros j cj [_ Hj]%lookup_delete_Some; by eapply Ho).
    destruct (IH _ _ Ho1 H Hr1) as [Hr' Hgone]. split; [done|]. intros j Hj. destruct (Hgone j Hj) as [Hs Hn].
    destruct (decide (i = j)) as [<-|Hne]; [rewrite lookup_delete_eq in Hs; by destruct Hs|].
    rewrite lookup_delete_ne in Hs by done. split; [done|]. rewrite elem_of_cons. intros [[= ?]|?]; [by subst|done].
  - destruct (IH _ _ Ho H Hr) as [Hr' Hgone]. split; [done|]. intros j Hj. destruct (Hgone j Hj) as [Hs Hn]. split; [done|].
    rewrite elem_of_cons. by intros [?|?].
Qed.

(** The first [i] entries of the array cover the store. *)
Definition covered (i : nat) (v : vm) (vs : vcpus) : Prop :=
  forall k, is_Some (vs !! k) -> Some k ∈ take i (vm_vcpus v).

Lemma create_vcpus_fds n i v (vs : vcpus) h ret v' vs' h' r :
  (i + n <= length (vm_vcpus v))%nat -> covered i v vs -> cpus_open vs ->
  create_vcpus LinuxX86 hs log_level n (Z.of_nat i) v vs h = Ok (ret, v', vs') h' ->
  open_fds (trace h) ≡ₚ fds_of cpu_fds vs ++ r ->
  open_fds (trace h') ≡ₚ fds_of cpu_fds vs' ++ r /\ cpus_open vs' /\ vm_hv v' = vm_hv v /\
  (ret = 0 /\ covered (i + n) v' vs' \/ ret = -1 /\ vs' = ∅).
Proof.
  revert i v vs h. induction n as [|n IH]; intros i v vs h Hlen Hcov Ho H Hr; cbn [create_vcpus] in H.
  { minv H. simplify_eq. split_and!; [done..|]. left. by rewrite Nat.add_0_r. }
  apply bind_inv in H as (rc & h1 & Hc & H). apply vcpu_create_fds in Hc. destruct rc as [c|].
  - destruct Hc as [Hh1 Hopen]. set (k := fresh (dom vs)) in *. rewrite Nat2Z.id in H.
    assert (vs !! k = None) as Hk by (apply not_elem_of_dom, is_fresh).
    replace (Z.of_nat i + 1) with (Z.of_nat (S i)) in H by lia. apply IH in H.
    + destruct H as (Hr' & Ho' & Hv' & Hcase). split_and!; [done..|]. destruct Hcase as [[-> Hc']|?]; [left|by right].
      split; [done|]. by replace (i + S n)%nat with (S i + n)%nat by lia.
    + cbn. rewrite length_insert. lia.
    + intros j [cj Hj]. cbn. rewrite (take_S_r _ _ (Some k)) by (apply list_lookup_insert_eq; lia).
      rewrite take_insert_ge by lia. apply elem_of_app. destruct (decide (k = j)) as [<-|Hne]; [right; apply list_elem_of_here|left].
      rewrite lookup_insert_ne in Hj by done. apply Hcov. by eexists.
    + intros j cj Hj. apply lookup_insert_Some in Hj as [[_ <-]|[_ Hj]]; [done|by eapply Ho].
    + rewrite Hh1, fds_of_insert by done. by rewrite Hr, app_assoc.
  - apply bind_inv in H as (vs1 & h2 & Hd & H). minv H. simplify_eq. rewrite Nat2Z.id in Hd.
    rewrite <- Hc in Hr. destruct (destroy_vcpus_fds _ _ _ _ _ _ Ho Hd Hr) as [Hr' Hgone].
    assert (vs' = ∅) as ->.
    { apply map_empty. intros j. destruct (vs' !! j) as [cj|] eqn:Hj; [|done]. destruct (Hgone j (ex_intro _ cj Hj)) as [Hs Hn].
      by destruct (Hn (Hcov j Hs)). }
    split_and!; [done| |done|by right]. by intros ? ? ?%lookup_empty_Some.
Qed.
End cpus.

(** ** The stages of [main] *)

Section stages.
Context {E : Env} (fd : Z) (args : cmdline_args) (undef : Z).
Local Abbreviation hs := (kvm_state fd).
Local Abbreviation vcpus := (gmap positive vcpu).

(** The devices that hold one: the disk and the tap interface. *)
Definition object_fds (o : object) : list Z :=
  match o with
  | ObjBlk v => [bs_disk_fd (vd_priv v)]
  | ObjNet v => [ns_tap_fd (vd_priv v)]
  | _ => []
  end.

(** The calls that open what the configured devices hold: the disk image, the tap
    interface, and the group and the device of a passthrough. *)
Definition device_open (e : event) : Prop :=
  match e with
  | EvOpen path _ =>
      a_disk_path args = Some path \/ (is_Some (a_net_tap args) /\ path = "/dev/net/tun"%string) \/
      (is_Some (a_vfio_bdf args) /\ exists g, path = group_path g)
  | EvVfioGroupGetDeviceFd _ bdf => a_vfio_bdf args = Some bdf
  | _ => False
  end.
(** A descriptor that such a call, made in the history [tr], returned. *)
Definition from_device (tr : list event) (x : Z) : Prop :=
  exists e tr', (e :: tr') `suffix_of` tr /\ opened tr' e = Some x /\ device_open e.

Lemma from_device_later tr tr' l : tr `suffix_of` tr' -> Forall (from_device tr) l -> Forall (from_device tr') l.
Proof.
  intros Ht Hl. eapply Forall_impl; [exact Hl|]. intros x (e & tr0 & Hs & H). exists e, tr0. split; [by etrans|exact H].
Qed.
Lemma from_open tr tr' path fl :
  (env_answer tr (EvOpen path fl) <? 0) = false -> device_open (EvOpen path fl) -> (EvOpen path fl :: tr) `suffix_of` tr' ->
  from_device tr' (env_answer tr (EvOpen path fl)).
Proof. intros Ho He Hs. exists (EvOpen path fl), tr. split; [done|]. split; [|done]. unfold opened. by rewrite Ho. Qed.
Lemma from_device_fd tr tr' g bdf :
  (env_answer tr (EvVfioGroupGetDeviceFd g bdf) <? 0) = false -> a_vfio_bdf args = Some bdf ->
  (EvVfioGroupGetDeviceFd g bdf :: tr) `suffix_of` tr' -> from_device tr' (env_answer tr (EvVfioGroupGetDeviceFd g bdf)).
Proof. intros Ho He Hs. exists (EvVfioGroupGetDeviceFd g bdf), tr. split; [done|]. split; [|done]. unfold opened. by rewrite Ho. Qed.

(** What is open at a stage: the VM, its vCPUs, at most [n] of the devices, and
    [base].  The array covers the vCPUs; no device claims to be registered. *)
Record accounted (base : list Z) (n : nat) (s : main_state) (h : host) : Prop := {
  ac_fds : open_fds (trace h) ≡ₚ
    fds_of cpu_fds (ms_vcpus s) ++ hvm_fd (vm_hv (ms_vm s)) :: fds_of object_fds (ms_objects s) ++ base;
  ac_few : (length (fds_of object_fds (ms_objects s)) <= n)%nat;
  ac_from : Forall (from_device (trace h)) (fds_of object_fds (ms_objects s));
  ac_vm : 0 <= hvm_fd (vm_hv (ms_vm s));
  ac_cpus : cpus_open (ms_vcpus s);
  ac_covered : forall k, is_Some (ms_vcpus s !! k) -> Some k ∈ live_vcpus (ms_vm s);
  ac_devices : idle_devices (ms_objects s);
  ac_vfio : ms_vfio s = None
}.

(** What the later stages do not touch. *)
Definition same_frame (v v' : vm) : Prop :=
  vm_hv v' = vm_hv v /\ vm_vcpus v' = vm_vcpus v /\ num_vcpus v' = num_vcpus v.

Lemma accounted_quiet base n s h v' h' :
  accounted base n s h -> open_fds (trace h') = open_fds (trace h) -> trace h `suffix_of` trace h' -> same_frame (ms_vm s) v' ->
  accounted base n (mk_ms v' (ms_vcpus s) (ms_objects s) (ms_vfio s)) h'.
Proof.
  intros [Hf Hn Hfr Hv Ho Hc Hd Hvf] Hq Ht (Hhv & Harr & Hnum). split; cbn; try done; try by rewrite ?Hhv, ?Hq.
  1: by eapply from_device_later.
  intros k Hk. unfold live_vcpus. rewrite Harr, Hnum. by apply Hc.
Qed.

Lemma accounted_more base n m s h : (n <= m)%nat -> accounted base n s h -> accounted base m s h.
Proof. intros Hle [Hf Hn Hv Ho Hc Hd Hvf]. split; try done. lia. Qed.

(** vCPUs that keep their handles keep their descriptors. *)
Lemma fds_same_handles (vs vs' : vcpus) : vc_hv <$> vs' = vc_hv <$> vs -> fds_of cpu_fds vs' = fds_of cpu_fds vs.
Proof.
  intros H. assert (forall m : vcpus, fds_of cpu_fds m = fds_of handle_fds (vc_hv <$> m)) as Heq.
  { intros m. unfold fds_of. rewrite map_to_list_fmap. induction (map_to_list m) as [|[k c] l IH]; [done|].
    cbn. by rewrite IH. }
  by rewrite !Heq, H.
Qed.
Lemma handle_of (vs vs' : vcpus) i c' :
  vc_hv <$> vs' = vc_hv <$> vs -> vs' !! i = Some c' -> exists c, vs !! i = Some c /\ vc_hv c' = vc_hv c.
Proof.
  intros H Hi. assert ((vc_hv <$> vs') !! i = Some (vc_hv c')) as Hl by (by rewrite lookup_fmap, Hi).
  rewrite H, lookup_fmap in Hl. destruct (vs !! i) as [c|]; [|done]. cbn in Hl. simplify_eq. by exists c.
Qed.

Lemma accounted_handles base n s h vs' :
  accounted base n s h -> vc_hv <$> vs' = vc_hv <$> ms_vcpus s ->
  accounted base n (mk_ms (ms_vm s) vs' (ms_objects s) (ms_vfio s)) h.
Proof.
  intros [Hf Hn Hfr Hv Ho Hc Hd Hvf] Hk. split; cbn; try done.
  - by rewrite (fds_same_handles _ _ Hk).
  - intros i c' Hi. destruct (handle_of _ _ _ _ Hk Hi) as (c & Hc' & Heq). unfold cpu_open. rewrite Heq. by eapply Ho.
  - intros k [c' Hk']. destruct (handle_of _ _ _ _ Hk Hk') as (c & Hc' & _). apply Hc. by exists c.
Qed.

Lemma insert_handle (vs : vcpus) i c c' : vs !! i = Some c -> vc_hv c' = vc_hv c -> vc_hv <$> <[i := c']> vs = vc_hv <$> vs.
Proof. intros Hi Hc. rewrite fmap_insert, Hc. apply insert_id. by rewrite lookup_fmap, Hi. Qed.

Lemma stop_vcpus_handles l (vs : vcpus) h vs' h' :
  stop_vcpus LinuxX86 hs l vs h = Ok vs' h' -> vc_hv <$> vs' = vc_hv <$> vs.
Proof.
  revert vs h. induction l as [|[i|] l IH]; intros vs h H; cbn [stop_vcpus] in H; [by minv H; simplify_eq| |by eapply IH].
  destruct (vs !! i) as [c|] eqn:Hi; [|done]. cbn [deref] in H. rewrite bind_ret in H.
  apply bind_inv in H as ([r c'] & h1 & Hs & H). cbv beta iota in H. rewrite (IH _ _ H). eapply insert_handle; [done|].
  unfold vcpu_stop in Hs. minv Hs; by simplify_eq.
Qed.

Lemma start_vcpus_handles dn l (vs : vcpus) h ret vs' h' :
  start_vcpus LinuxX86 hs dn l vs h = Ok (ret, vs') h' -> vc_hv <$> vs' = vc_hv <$> vs.
Proof.
  revert dn vs h. induction l as [|[i|] l IH]; intros dn vs h H; cbn [start_vcpus get_vcpu] in H; [by minv H; simplify_eq| |done].
  destruct (vs !! i) as [c|] eqn:Hi; [|done]. cbn [deref] in H. rewrite bind_ret in H.
  apply bind_inv in H as ([r c'] & h1 & Hs & H). cbv beta iota zeta in H.
  assert (vc_hv <$> <[i := c']> vs = vc_hv <$> vs) as Hc.
  { eapply insert_handle; [done|]. unfold vcpu_start in Hs. case_decide; minv Hs; by simplify_eq. }
  destruct (r <? 0).
  - apply bind_inv in H as (vs1 & h2 & H2 & H). minv H. simplify_eq. by rewrite (stop_vcpus_handles _ _ _ _ _ H2).
  - by rewrite (IH _ _ _ H).
Qed.

Lemma stage_config_keeps base n s h r s' h' :
  accounted base n s h -> stage_config args s h = Ok (r, s') h' ->
  accounted base n s' h' /\ ms_vcpus s' = ms_vcpus s /\ vm_vcpus (ms_vm s') = vm_vcpus (ms_vm s).
Proof.
  intros Ha H. assert (grows (stage_config args s)) as Hg by grows. apply Hg in H as Ht. clear Hg.
  unfold stage_config, vm_set_kernel, vm_set_initrd, vm_set_cmdline in H.
  destruct (a_kernel_path args) as [kp|]; [|by minv H; simplify_eq].
  apply bind_inv in H as ([r1 v1] & h1 & H1 & H). apply bind_inv in H1 as (k & h1' & H1 & H1r). minv H1r. simplify_eq.
  apply bind_inv in H as ([r2 v2] & h2 & H2 & H). apply bind_inv in H2 as (i & h2' & H2 & H2r). minv H2r. simplify_eq.
  apply bind_inv in H as ([r3 v3] & h3 & H3 & H). apply bind_inv in H3 as (c & h3' & H3 & H3r). minv H3r. simplify_eq.
  minv H. simplify_eq. split; [|done]. eapply accounted_quiet; [exact Ha| |exact Ht|done].
  by rewrite (quiet_dup_arg _ _ _ _ H3), (quiet_dup_arg _ _ _ _ H2), (quiet_dup_arg _ _ _ _ H1).
Qed.

Lemma stage_memory_keeps base n s h r s' h' :
  accounted base n s h -> stage_memory hs args s h = Ok (r, s') h' ->
  accounted base n s' h' /\ ms_vcpus s' = ms_vcpus s /\ vm_vcpus (ms_vm s') = vm_vcpus (ms_vm s).
Proof.
  intros Ha H. destruct (grows_stages fd args s) as (_ & Hg & _). apply Hg in H as Ht. clear Hg.
  unfold stage_memory in H. apply bind_inv in H as ([ret v] & h1 & Hm & H). minv H. simplify_eq.
  assert (same_frame (ms_vm s) v) as Hf.
  { unfold vm_add_memory_region in Hm. destruct (free_slot _); minv Hm; by simplify_eq. }
  split; [|split; [done|apply Hf]]. eapply accounted_quiet; [exact Ha|by eapply quiet_add_region|exact Ht|done].
Qed.

Lemma stage_vcpus_keeps base n s h r s' h' :
  accounted base n s h -> ms_vcpus s = ∅ -> length (vm_vcpus (ms_vm s)) = 8%nat ->
  stage_vcpus LinuxX86 hs args s h = Ok (r, s') h' -> accounted base n s' h'.
Proof.
  intros [Hf Hn Hfr Hv Ho Hc Hd Hvf] He Hlen H. destruct (grows_stages fd args s) as (_ & _ & Hg & _). apply Hg in H as Ht. clear Hg.
  apply (from_device_later _ _ _ Ht) in Hfr. unfold stage_vcpus, vm_create_vcpus, VM_MAX_VCPUS in H.
  apply bind_inv in H as ([[ret v] vs] & h1 & Hm & H). minv H. simplify_eq.
  destruct (a_num_vcpus args >? 8) eqn:Hmax; bool_prop; [minv Hm; simplify_eq; by split|].
  apply bind_inv in Hm as ([[ret1 v1] vs1] & h2 & Hcr & Hm). rewrite He in *. change 0 with (Z.of_nat 0) in Hcr at 1.
  assert (0 + Z.to_nat (a_num_vcpus args) <= length (vm_vcpus (ms_vm s)))%nat as Hroom by lia.
  assert (covered 0 (ms_vm s) ∅) as Hnone by (intros k [? Hk]; by rewrite lookup_empty in Hk).
  destruct (create_vcpus_fds fd _ _ _ _ _ _ _ _ _ _ _ Hroom Hnone Ho Hcr Hf) as (Hr & Ho' & Hhv & [[-> Hcov]|[-> ->]]).
  - change (0 <? 0) with false in Hm. cbv iota in Hm. minv Hm. simplify_eq. split; cbn; rewrite ?Hhv; try done.
  - change (-1 <? 0) with true in Hm. cbv iota in Hm. minv Hm. simplify_eq. split; cbn; rewrite ?Hhv; try done.
    by intros k [? Hk]; rewrite lookup_empty in Hk.
Qed.

(** Attaching a device whose descriptors have just been opened. *)
Definition dev_fds (dev : option object) : list Z := match dev with Some o => object_fds o | None => [] end.

Lemma accounted_opened base n s h l h' :
  accounted base n s h -> open_fds (trace h') = l ++ open_fds (trace h) -> trace h `suffix_of` trace h' -> accounted (l ++ base) n s h'.
Proof.
  intros [Hf Hn Hfr Hv Ho Hc Hd Hvf] Hl Ht. split; try done; [|by eapply from_device_later]. rewrite Hl, Hf, (Permutation_app_comm l), <- app_assoc. cbn.
  by rewrite <- app_assoc, (Permutation_app_comm base l).
Qed.

Lemma add_device_keeps base n dev s h s' h' :
  accounted (dev_fds dev ++ base) n s h -> idle_option dev -> Forall (from_device (trace h)) (dev_fds dev) ->
  add_device args dev s h = Ok s' h' -> accounted base (n + length (dev_fds dev)) s' h'.
Proof.
  intros [Hf Hn Hfr Hv Ho Hc Hd Hvf] Hdev Hsrc H. assert (trace h `suffix_of` trace h') as Ht by (assert (grows (add_device args dev s)) as Hg by grows; by eapply Hg).
  apply (from_device_later _ _ _ Ht) in Hfr, Hsrc. clear Ht. unfold add_device in H. destruct dev as [o|]; cbn [dev_fds] in *.
  2:{ minv H. simplify_eq. split; try done. cbn. lia. }
  cbv zeta in H. set (i := fresh (dom (ms_objects s))) in *.
  assert (ms_objects s !! i = None) as Hi by (apply not_elem_of_dom, is_fresh).
  apply bind_inv in H as ([ret v] & h1 & Hreg & H). minv H. simplify_eq.
  assert (same_frame (ms_vm s) v) as (Hhv & Harr & Hnum).
  { unfold vm_register_device in Hreg. minv Hreg; by simplify_eq. }
  pose proof (fds_of_insert object_fds (ms_objects s) i o Hi) as Hins.
  split; cbn; try done; rewrite ?Hhv; try done.
  - rewrite (quiet_register_device _ _ _ _ _ _ _ Hreg), Hf, Hins.
    by rewrite (Permutation_app_comm (object_fds o) (fds_of _ _)), <- !app_assoc.
  - rewrite Hins, length_app. lia.
  - rewrite Hins. by apply Forall_app.
  - intros k Hk. unfold live_vcpus. rewrite Harr, Hnum. by apply Hc.
  - intros j oj Hj. apply lookup_insert_Some in Hj as [[_ <-]|[_ Hj]]; [by apply Hdev|by eapply Hd].
Qed.

(** The four constructors: what they open, with which call, and that a new device is not
    registered. *)
Record device_created (dev : option object) (h h' : host) : Prop := {
  cd_fds : open_fds (trace h') = dev_fds dev ++ open_fds (trace h);
  cd_from : Forall (from_device (trace h')) (dev_fds dev);
  cd_grows : trace h `suffix_of` trace h';
  cd_idle : idle_option dev
}.

Lemma uart_created h r h' : mmio_console_create h = Ok r h' -> device_created (ObjUart <$> r) h h'.
Proof.
  intros H. split; [rewrite (quiet_console_create _ _ _ H); by destruct r|by destruct r| |by eapply uart_idle].
  assert (grows mmio_console_create) as Hg by grows. by eapply Hg.
Qed.
Lemma con_created h r h' : virtio_console_create undef h = Ok r h' -> device_created (ObjCon <$> r) h h'.
Proof.
  intros H. split; [rewrite (quiet_virtio_console_create _ _ _ _ H); by destruct r|by destruct r| |by eapply con_idle].
  assert (grows (virtio_console_create undef)) as Hg by grows. by eapply Hg.
Qed.
Ltac opened_by t := constructor; [eapply from_open; [eassumption|t|grown_trace]|constructor].
Lemma blk_created path h r h' :
  a_disk_path args = Some path -> virtio_blk_create undef path h = Ok r h' -> device_created (ObjBlk <$> r) h h'.
Proof.
  intros Hp H. split; [| | |by eapply blk_idle].
  - unfold virtio_blk_create, open_disk, strdup in H. minv H; simplify_eq; by fd_count.
  - unfold virtio_blk_create, open_disk, strdup in H. minv H; simplify_eq; cbn [dev_fds fmap option_fmap option_map object_fds]; try by constructor.
    all: opened_by ltac:(by left).
  - assert (grows (virtio_blk_create undef path)) as Hg by grows. by eapply Hg.
Qed.
Lemma net_created tap h r h' :
  is_Some (a_net_tap args) -> virtio_net_create undef tap h = Ok r h' -> device_created (ObjNet <$> r) h h'.
Proof.
  intros Hp H. split; [| | |by eapply net_idle].
  - unfold virtio_net_create, open_tap, strdup in H. minv H; simplify_eq; by fd_count.
  - unfold virtio_net_create, open_tap, strdup in H. minv H; simplify_eq; cbn [dev_fds fmap option_fmap option_map object_fds]; try by constructor.
    all: opened_by ltac:(by right; left).
  - assert (grows (virtio_net_create undef tap)) as Hg by grows. by eapply Hg.
Qed.

(** How many descriptors the devices asked for can hold. *)
Definition asked_fds : nat :=
  (match a_disk_path args with Some _ => 1 | None => 0 end + match a_net_tap args with Some _ => 1 | None => 0 end)%nat.

Lemma attach base n (mk : option object) s h h1 s' h' :
  accounted base n s h -> device_created mk h h1 -> add_device args mk s h1 = Ok s' h' ->
  accounted base (n + length (dev_fds mk)) s' h'.
Proof.
  intros Ha [Ho Hfr Ht Hd] Hadd. eapply add_device_keeps; [|exact Hd|exact Hfr|exact Hadd]. by eapply accounted_opened.
Qed.

Lemma stage_devices_keeps base s h r s' h' :
  accounted base 0 s h -> stage_devices args undef s h = Ok (r, s') h' -> accounted base asked_fds s' h'.
Proof.
  intros Ha H. unfold stage_devices in H.
  apply bind_inv in H as (d1 & h1 & H1%uart_created & H). apply bind_inv in H as (s1 & h2 & H2 & H).
  assert (accounted base 0 s1 h2) as Ha1.
  { apply (accounted_more base (0 + length (dev_fds (ObjUart <$> d1))) 0); [by destruct d1|by eapply attach]. }
  apply bind_inv in H as (d2 & h3 & H3%con_created & H). apply bind_inv in H as (s2 & h4 & H4 & H).
  assert (accounted base 0 s2 h4) as Ha2.
  { apply (accounted_more base (0 + length (dev_fds (ObjCon <$> d2))) 0); [by destruct d2|by eapply attach]. }
  apply bind_inv in H as (s3 & h5 & H5 & H).
  assert (accounted base (match a_disk_path args with Some _ => 1 | None => 0 end) s3 h5) as Ha3.
  { destruct (a_disk_path args) as [path|] eqn:Hpath; [|by minv H5; simplify_eq].
    apply bind_inv in H5 as (d3 & h6 & H6 & H5). apply blk_created in H6; [|done].
    apply (accounted_more base (0 + length (dev_fds (ObjBlk <$> d3)))); [destruct d3; cbn; lia|by eapply attach]. }
  apply bind_inv in H as (s4 & h6 & H6 & H). minv H. simplify_eq. unfold asked_fds.
  destruct (a_net_tap args) as [tap|] eqn:Htap; [|minv H6; simplify_eq; by rewrite Nat.add_0_r].
  apply bind_inv in H6 as (d4 & h7 & H7 & H6). apply net_created in H7; [|by eexists].
  eapply (accounted_more base (_ + length (dev_fds (ObjNet <$> d4)))); [|by eapply attach].
  destruct d4; cbn; lia.
Qed.

(** *** Passthrough

    The container's descriptor is kept in [ms_vfio] and closed in the clean-up; the
    group's and the device's belong to the [vfio_dev]. *)
Definition container_fds (cont : option Z) : list Z := match cont with Some c => [c] | None => [] end.

Lemma container_created h r h' :
  vfio_container_create h = Ok r h' ->
  open_fds (trace h') = container_fds r ++ open_fds (trace h) /\ forall c, r = Some c -> 0 <= c.
Proof.
  unfold vfio_container_create. intros H.
  minv H; simplify_eq; fd_count; bool_prop; split; try done; intros c [= <-]; lia.
Qed.

Lemma group_opened c g h r h' :
  vfio_group_open c g h = Ok r h' ->
  open_fds (trace h') = container_fds r ++ open_fds (trace h) /\
  forall f, r = Some f -> 0 <= f /\ (is_Some (a_vfio_bdf args) -> from_device (trace h') f).
Proof.
  destruct (group_open_run c g h) as (r0 & h1 & Hrun & _ & Ho & Hpos & _). intros H. rewrite H in Hrun. simplify_eq.
  split; [rewrite Ho; by destruct r0|]. intros f ->. split; [by apply Hpos|]. intros Hv.
  unfold vfio_group_open in H. minv H; simplify_eq. eapply from_open; [eassumption| |grown_trace].
  right; right. split; [done|by eexists].
Qed.

Lemma quiet_cfg_read v off data n : quiet (vfio_pci_cfg_read v off data n).
Proof. unfold vfio_pci_cfg_read, vfio_device_get_region_info, read_config, buf_store. quiet. Qed.
Lemma quiet_get_info v : quiet (vfio_device_get_info v).
Proof. unfold vfio_device_get_info. quiet. Qed.
Lemma quiet_read_ids v : quiet (read_ids v).
Proof. unfold read_ids. pose proof quiet_cfg_read. quiet. Qed.

Lemma grows_get_info v : grows (vfio_device_get_info v).
Proof. grows. Qed.
Lemma grows_read_ids v : grows (read_ids v).
Proof. grows. Qed.

(** At most the group's and the device's descriptor. *)
Lemma device_opened c bdf h r h' :
  a_vfio_bdf args = Some bdf -> vfio_device_open c bdf h = Ok r h' ->
  exists lost, open_fds (trace h') = lost ++ open_fds (trace h) /\ (length lost <= match r with Some _ => 2 | None => 0 end)%nat /\
    Forall (from_device (trace h')) lost.
Proof.
  intros Hbdf H. unfold vfio_device_open in H. destruct (parse_bdf bdf) as [[[[dom bus] slot] func]|]; [|minv H; by exists []].
  cbv zeta in H. apply bind_inv in H as (fp & h1 & H1 & H). apply (quiet_perform (EvFopen _ _) ltac:(reflexivity) I) in H1.
  destruct fp; cbn [negb] in H; [|minv H; simplify_eq; rewrite H1; by exists []].
  apply bind_inv in H as ([] & h2 & H2 & H). apply (quiet_perform (EvFclose _) ltac:(reflexivity) I) in H2.
  apply bind_inv in H as (g & h3 & Hg & H). apply group_opened in Hg as [Ho3 Hpos].
  destruct g as [g|]; [|minv H; simplify_eq; rewrite Ho3, H2, H1; by exists []]. destruct (Hpos g eq_refl) as [Hg0 Hgfrom]. cbn [container_fds app] in Ho3.
  rewrite H2, H1 in Ho3. specialize (Hgfrom (ex_intro _ _ Hbdf)).
  apply bind_inv in H as (d & h4 & Hd & H). unfold perform in Hd. injection Hd as <- <-.
  set (d := env_answer (trace h3) (EvVfioGroupGetDeviceFd g bdf)) in *.
  destruct (d <? 0) eqn:Hneg.
  { minv H. simplify_eq. exists []. split; [|by split]. subst d. fd_count. rewrite Ho3. apply remove_one_head. }
  set (h4 := called _ h3) in *.
  assert (open_fds (trace h4) = d :: g :: open_fds (trace h)) as Ho4.
  { subst h4. cbn [trace called open_fds]. unfold opened. fold d. by rewrite Hneg, Ho3. }
  apply bind_inv in H as (ok & h5 & H5 & H). assert (trace h4 `suffix_of` trace h5) as G5 by (injection H5 as _ <-; grown_trace).
  apply (quiet_perform (EvCalloc _) ltac:(reflexivity) I) in H5. rewrite Ho4 in H5.
  bool_prop.
  assert (forall h6 h7 : host, open_fds (trace h6) = d :: g :: open_fds (trace h) ->
    trace h7 = EvClose g :: EvVfioGroupUnsetContainer g c :: EvClose d :: trace h6 -> open_fds (trace h7) = open_fds (trace h)) as Hclose.
  { intros h6 h7 H6 ->. change (remove_one g (remove_one d (open_fds (trace h6))) = open_fds (trace h)). by rewrite H6, !remove_one_head. }
  destruct ok; cbn [negb] in H; [|minv H; simplify_eq; exists []; split; [by apply (Hclose h5)|by split]].
  cbv zeta in H. apply bind_inv in H as (info & h6 & H6 & H). pose proof (grows_get_info _ _ _ _ H6) as G6.
  assert (open_fds (trace h6) = d :: g :: open_fds (trace h)) as Ho6
    by (by rewrite (quiet_get_info _ _ _ _ H6)).
  destruct info as [[nr ni]|].
  - apply bind_inv in H as (v & h7 & H7 & H). minv H; simplify_eq. exists [d; g].
    split; [by rewrite (quiet_read_ids _ _ _ _ H7), Ho6|]. split; [done|].
    assert (trace h4 `suffix_of` trace h') as Ht by (etrans; [apply G5|]; etrans; [apply G6|]; by eapply (grows_read_ids _)).
    constructor; [by eapply from_device_fd; [apply Z.ltb_ge, Hneg|exact Hbdf|exact Ht]|]. constructor; [|done].
    destruct Hgfrom as (e & tr0 & Hs & Hrest). exists e, tr0. split; [|exact Hrest]. etrans; [exact Hs|]. etrans; [|exact Ht]. grown_trace.
  - apply bind_inv in H as (u & h7 & Hu & H). minv H; simplify_eq. unfold vfio_device_close in Hu.
    apply bind_inv in Hu as (u1 & h7 & Hun & Hu). change (Ok tt h6 = Ok u1 h7) in Hun. simplify_eq.
    cbn [vf_device_fd vf_group_fd vf_container_fd] in Hu. rewrite !(proj2 (Z.geb_le _ _)) in Hu by lia. minv Hu; simplify_eq.
    exists []. split; [apply (Hclose h7); [exact Ho6|reflexivity]|by split].
Qed.

Lemma quiet_map_bars v n i gpa : quiet (map_bars v n i gpa).
Proof.
  revert v i gpa. induction n as [|n IH]; intros v i gpa; cbn [map_bars]; [apply quiet_ret|].
  unfold vfio_map_region, vfio_device_get_region_info. quiet.
Qed.
Lemma quiet_device_register v (st : gmap positive object) i o :
  st !! i = Some o -> 0 <= irq_fd (dbase o) -> quiet (device_register v st (Some i)).
Proof.
  intros Ho Hirq. unfold device_register. destruct (_ >=? _); [apply quiet_ret|]. cbn [get_obj]. rewrite Ho. cbn [deref].
  intros h r h'. rewrite bind_ret. cbv zeta. rewrite dbase_dset. cbn [irq_fd set_dev_vm].
  rewrite (proj2 (Z.ltb_ge _ _) Hirq). apply quiet_ret.
Qed.
Lemma quiet_vfio_register v (st : gmap positive object) vdev bdf : quiet (vfio_register_with_vm v st vdev bdf).
Proof.
  unfold vfio_register_with_vm, vfio_setup_irqs. apply quiet_bind; [quiet|]. intros []; cbn [negb]; [|apply quiet_ret].
  apply quiet_bind; [quiet|]. intros n. apply quiet_bind; [apply quiet_map_bars|]. intros [gpa vdev1]. cbv zeta.
  apply quiet_bind; [eapply quiet_device_register; [apply lookup_insert_eq|done]|]. quiet.
Qed.

Lemma grows_vfio_register v (st : gmap positive object) vdev bdf : grows (vfio_register_with_vm v st vdev bdf).
Proof. grows. Qed.

Lemma stage_vfio_fds bdf s h r s' h' :
  a_vfio_bdf args = Some bdf -> stage_vfio args s h = Ok (r, s') h' ->
  (exists lost, open_fds (trace h') = lost ++ container_fds (ms_vfio s') ++ open_fds (trace h) /\ (length lost <= 2)%nat /\
     Forall (from_device (trace h')) lost) /\
  forall c, ms_vfio s' = Some c -> 0 <= c.
Proof.
  intros Hbdf H. unfold stage_vfio in H. rewrite Hbdf in H. apply bind_inv in H as (cont & h1 & [Ho1 Hpos]%container_created & H).
  cbv zeta in H. destruct cont as [c|]; [|minv H; simplify_eq; split; [exists []; split_and!; [done|cbn; lia|done]|done]].
  apply bind_inv in H as (vd & h2 & Hopen & H).
  apply device_opened in Hopen as (lost & Ho2 & Hl & Hfrom); [|done]. rewrite Ho1 in Ho2.
  destruct vd as [vd|]; [|minv H; simplify_eq; split; [exists lost; split_and!; [done|lia|done]|done]].
  apply bind_inv in H as ([[[ret v] st] vd'] & h3 & H3 & H). pose proof (grows_vfio_register _ _ _ _ _ _ _ H3) as Ht.
  apply quiet_vfio_register in H3 as Ho3. minv H; simplify_eq. split; [|done]. exists lost. split; [by rewrite Ho3|].
  split; [done|]. by eapply from_device_later.
Qed.

Lemma grows_stage_vfio s : grows (stage_vfio args s).
Proof. grows. Qed.

Lemma stage_boot_keeps base n s h r s' h' :
  accounted base n s h -> stage_boot LinuxX86 hs args s h = Ok (r, s') h' -> accounted base n s' h'.
Proof.
  intros Ha H. destruct (grows_stages fd args s) as (_ & _ & _ & Hg & _). apply Hg in H as Ht. clear Hg. unfold stage_boot in H.
  assert (open_fds (trace h') = open_fds (trace h) -> accounted base n s h') as Hq.
  { intros H1. destruct s as [v vs st vf]. by eapply (accounted_quiet base n (mk_ms v vs st vf)). }
  destruct (a_kernel_path args) as [kp|].
  - apply bind_inv in H as (ret & h1 & H1 & H). minv H. simplify_eq. by eapply Hq, quiet_boot_linux.
  - destruct (a_binary_path args) as [path|]; [|by minv H; simplify_eq].
    apply bind_inv in H as ([ret vs] & h1 & H1 & H). minv H. simplify_eq.
    pose proof (quiet_boot_raw _ _ _ _ _ _ _ _ H1) as Ho.
    assert (vs = ms_vcpus s) as ->.
    { unfold boot_setup_raw_binary, setup_raw_entry in H1. minv H1; by simplify_eq. }
    destruct s as [v vs st vf]. by apply Hq.
Qed.

Lemma vm_start_keeps v (vs : vcpus) h ret v' vs' h' :
  vm_start LinuxX86 hs v vs h = Ok (ret, v', vs') h' -> same_frame v v' /\ vc_hv <$> vs' = vc_hv <$> vs.
Proof.
  intros Hs. split; [by apply vm_start_state in Hs as [x ->]|]. unfold vm_start in Hs. destruct (decide _); [by minv Hs; simplify_eq|].
  apply bind_inv in Hs as ([r1 vs1] & h2 & H2 & Hs). apply start_vcpus_handles in H2. destruct (r1 <? 0); minv Hs; by simplify_eq.
Qed.

Lemma stage_start_keeps base n s h r s' h' :
  accounted base n s h -> stage_start LinuxX86 hs s h = Ok (r, s') h' -> accounted base n s' h'.
Proof.
  intros Ha H. destruct (grows_stages fd args s) as (_ & _ & _ & _ & Hg). apply Hg in H as Ht. clear Hg. unfold stage_start in H. apply bind_inv in H as ([[ret v] vs] & h1 & Hs & H). minv H. simplify_eq.
  pose proof (quiet_vm_start _ _ _ _ _ _ Hs) as Ho. destruct (vm_start_keeps _ _ _ _ _ _ _ Hs) as [Hf Hh].
  apply (accounted_handles _ _ (mk_ms v (ms_vcpus s) (ms_objects s) (ms_vfio s))); [by eapply accounted_quiet|done].
Qed.

Lemma vm_stop_keeps v (vs : vcpus) h ret v' vs' h' :
  vm_stop LinuxX86 hs v vs h = Ok (ret, v', vs') h' -> same_frame v v' /\ vc_hv <$> vs' = vc_hv <$> vs.
Proof.
  intros Hs. split; [by apply vm_stop_state in Hs as [x ->]|]. unfold vm_stop in Hs. destruct (decide _); [by minv Hs; simplify_eq|].
  apply bind_inv in Hs as (vs1 & h2 & H2 & Hs). apply stop_vcpus_handles in H2. minv Hs. by simplify_eq.
Qed.

Lemma request_stop_handles l v (vs : vcpus) : vc_hv <$> request_stop l v vs = vc_hv <$> vs.
Proof.
  induction l as [|i l IH]; [done|]. cbn [request_stop foldr]. fold (request_stop l v vs).
  destruct (live_vcpus v !! i) as [[k|]|]; try done. rewrite <- IH. apply map_eq. intros j. rewrite !lookup_fmap.
  destruct (decide (k = j)) as [<-|Hne]; [rewrite lookup_alter_eq|by rewrite lookup_alter_ne].
  by destruct (_ !! k).
Qed.

Lemma same_frame_trans v1 v2 v3 : same_frame v1 v2 -> same_frame v2 v3 -> same_frame v1 v3.
Proof. intros (? & ? & ?) (? & ? & ?). split_and!; congruence. Qed.

Lemma wait_loop_keeps fuel g v (vs : vcpus) h v' vs' h' :
  wait_loop LinuxX86 hs fuel g v vs h = Ok (v', vs') h' -> same_frame v v' /\ vc_hv <$> vs' = vc_hv <$> vs.
Proof.
  revert g v vs h. induction fuel as [|fuel IH]; intros g v vs h H; [done|]. cbn [wait_loop] in H.
  destruct (g && _); [|by minv H; simplify_eq].
  apply bind_inv in H as ([sig l] & h1 & _ & H). cbv beta iota zeta in H.
  apply bind_inv in H as ([v1 vs1] & h2 & Hs & H). apply bind_inv in H as (b & h3 & _ & H).
  assert (same_frame v v1 /\ vc_hv <$> vs1 = vc_hv <$> vs) as [Hf Hh].
  { rewrite <- (request_stop_handles l v vs). destruct sig; [|by minv Hs; simplify_eq].
    unfold signal_handler in Hs. apply bind_inv in Hs as ([[r v2] vs2] & h4 & H4 & Hs). minv Hs. simplify_eq. by eapply vm_stop_keeps. }
  destruct (IH _ _ _ _ H) as [Hf2 Hh2]. split; [by eapply same_frame_trans|congruence].
Qed.

Lemma stage_wait_keeps fuel base n s h r s' h' :
  accounted base n s h -> stage_wait LinuxX86 hs fuel s h = Ok (r, s') h' -> accounted base n s' h'.
Proof.
  intros Ha H. apply (grows_stage_wait fd) in H as Ht. unfold stage_wait in H. apply bind_inv in H as ([v vs] & h1 & Hw & H).
  apply bind_inv in H as ([] & h2 & Hp & H). minv H. simplify_eq. destruct (wait_loop_keeps _ _ _ _ _ _ _ _ Hw) as [Hf Hh].
  apply (accounted_handles _ _ (mk_ms v (ms_vcpus s) (ms_objects s) (ms_vfio s))); [|done].
  eapply accounted_quiet; [exact Ha| |exact Ht|done]. by rewrite (quiet_print _ _ _ _ _ Hp), (quiet_wait_loop _ _ _ _ _ _ _ _ Hw).
Qed.

(** *** The clean-up *)

Lemma unregister_quiet fuel i v (st : gmap positive object) h v' st' h' :
  idle_devices st ->
  unregister_devices fuel i v st h = Ok (v', st') h' ->
  h' = h /\ vm_hv v' = vm_hv v.
Proof.
  intros Hd. revert i v h. induction fuel as [|fuel IH]; intros i v h H; [done|]. cbn [unregister_devices] in H.
  destruct (_ <? _); [|by minv H; simplify_eq]. destruct (vm_devices v !! i) as [p|]; [|done]. cbn [deref] in H. rewrite bind_ret in H.
  apply bind_inv in H as ([v1 st1] & h1 & Hu & H).
  assert (v1 = v /\ st1 = st /\ h1 = h) as (-> & -> & ->).
  { destruct p as [k|]; [|by minv Hu; simplify_eq]. unfold device_unregister, get_obj in Hu.
    destruct (st !! k) as [o|] eqn:Hk; [|done]. cbn [deref] in Hu. rewrite bind_ret, (Hd k o Hk) in Hu. cbn in Hu. by minv Hu; simplify_eq. }
  by eapply IH.
Qed.

Lemma vm_destroy_fds s h r h' base n :
  accounted base n s h ->
  vm_destroy LinuxX86 hs (a_log_level args) (Some (ms_vm s)) (ms_vcpus s) (ms_objects s) h = Ok r h' ->
  open_fds (trace h') ≡ₚ fds_of object_fds (ms_objects s) ++ base /\ trace h `suffix_of` trace h'.
Proof.
  intros Ha H. unfold vm_destroy in H. apply bind_inv in H as ([[r1 v1] vs1] & h1 & Hs & H). cbv beta iota in H.
  assert (same_frame (ms_vm s) v1 /\ vc_hv <$> vs1 = vc_hv <$> ms_vcpus s /\ open_fds (trace h1) = open_fds (trace h) /\
    trace h `suffix_of` trace h1) as (Hf & Hh & Ho & Ht).
  { destruct (decide _); [|by minv Hs; simplify_eq]. pose proof (quiet_vm_stop _ _ _ _ _ _ Hs).
    assert (grows (vm_stop LinuxX86 hs (ms_vm s) (ms_vcpus s))) as Hg by grows. apply Hg in Hs as ?. by apply vm_stop_keeps in Hs as [? ?]. }
  assert (accounted base n (mk_ms v1 vs1 (ms_objects s) (ms_vfio s)) h1) as [Hfd _ _ Hv Hop Hc Hd _].
  { apply (accounted_handles _ _ (mk_ms v1 (ms_vcpus s) (ms_objects s) (ms_vfio s))); [by eapply accounted_quiet|done]. }
  cbn in Hfd, Hv, Hop, Hc, Hd. apply bind_inv in H as (vs2 & h2 & Hdes & H). apply (grows_destroy_vcpus fd) in Hdes as Ht2.
  destruct (destroy_vcpus_fds _ _ _ _ _ _ _ _ Hop Hdes Hfd) as [Hfd2 Hgone].
  assert (vs2 = ∅) as ->.
  { apply map_empty. intros k. destruct (vs2 !! k) as [c|] eqn:Hk; [|done]. destruct (Hgone k (ex_intro _ c Hk)) as [Hin Hn].
    by destruct (Hn (Hc k Hin)). }
  rewrite fds_of_empty in Hfd2. apply bind_inv in H as ([v3 st3] & h3 & Hu & H). cbv beta iota in H.
  destruct (unregister_quiet _ _ _ _ _ _ _ _ Hd Hu) as [-> Hv3]. rewrite <- Hv3 in *.
  apply bind_inv in H as ([] & h4 & Hfr & H). apply (grows_free_regions fd) in Hfr as Ht4. rewrite <- (quiet_free_regions _ _ _ _ _ _ Hfr) in Hfd2.
  apply bind_inv in H as ([] & h5 & Hx & H). minv H. simplify_eq.
  unfold hv_destroy_vm, via in Hx. cbn in Hx. rewrite (proj2 (Z.geb_le (hvm_fd (vm_hv v3)) 0) Hv) in Hx.
  rewrite perform_close in Hx. simplify_eq.
  split; [|etrans; [exact Ht|]; etrans; [exact Ht2|]; etrans; [exact Ht4|]; grown_trace].
  change (remove_one (hvm_fd (vm_hv v3)) (open_fds (trace h4)) ≡ₚ fds_of object_fds (ms_objects s) ++ base). by apply remove_one_perm.
Qed.

(** *** The whole run *)

Lemma vm_create_fds h r h' :
  vm_create hs h = Ok r h' ->
  match r with
  | Some v => exists hv, v = new_vm hv /\ 0 <= hvm_fd hv /\ open_fds (trace h') = hvm_fd hv :: open_fds (trace h)
  | None => open_fds (trace h') = open_fds (trace h)
  end.
Proof.
  intros H. unfold vm_create, hv_create_vm, hv_destroy_vm, via in H. cbn in H. unfold kvm_create_vm in H.
  minv H; simplify_eq; fd_count; auto; bool_prop; try lia.
  - eexists. split; [done|]. cbn. split; [lia|done].
Qed.

Definition leaves (n : nat) (base : list Z) (h : host) : Prop :=
  exists l, (length l <= n)%nat /\ open_fds (trace h) ≡ₚ l ++ base /\ Forall (from_device (trace h)) l.

Lemma main_cleanup_fds base lost cont n ret s h code h' :
  0 <= fd -> (forall c, cont = Some c -> 0 <= c) -> accounted (lost ++ container_fds cont ++ fd :: base) n s h ->
  Forall (from_device (trace h)) lost ->
  main_cleanup LinuxX86 hs args ret (mk_ms (ms_vm s) (ms_vcpus s) (ms_objects s) cont) h = Ok code h' ->
  leaves (n + length lost) base h'.
Proof.
  intros Hpos Hcont Ha Hlost H. unfold main_cleanup in H. cbn [ms_vm ms_vcpus ms_objects ms_vfio] in H.
  apply bind_inv in H as (u & h1 & Hd & H). destruct (vm_destroy_fds _ _ _ _ _ _ Ha Hd) as [Hfd Ht1].
  apply bind_inv in H as (u1 & h2 & Hv & H).
  assert (trace h1 `suffix_of` trace h2) as Ht2 by (assert (grows (vfio_container_destroy cont)) as Hg by grows; by eapply Hg).
  apply bind_inv in H as (u2 & h3 & Hc & H). minv H. simplify_eq.
  set (l := fds_of object_fds (ms_objects s) ++ lost) in *.
  assert (open_fds (trace h2) ≡ₚ l ++ fd :: base) as Ho.
  { rewrite app_assoc in Hfd. fold l in Hfd. unfold vfio_container_destroy in Hv. destruct cont as [c|]; cbn [container_fds app] in Hfd.
    - rewrite (proj2 (Z.geb_le c 0) (Hcont c eq_refl)), perform_close in Hv. simplify_eq.
      change (remove_one c (open_fds (trace h1)) ≡ₚ l ++ fd :: base). apply remove_one_perm. rewrite Hfd. symmetry. apply Permutation_middle.
    - by minv Hv; simplify_eq. }
  unfold hv_cleanup in Hc. cbn in Hc. unfold kvm_cleanup in Hc. rewrite (proj2 (Z.geb_le fd 0) Hpos) in Hc.
  rewrite !bind_assoc, (bind_Ok _ _ _ _ _ (perform_close fd h2)) in Hc. minv Hc. simplify_eq.
  exists l. split; [unfold l; rewrite length_app; pose proof (ac_few _ _ _ _ Ha); lia|].
  split; [|assert (trace h `suffix_of` trace (called (EvClose fd) h2)) as Ht by (etrans; [exact Ht1|]; etrans; [exact Ht2|]; grown_trace);
    apply Forall_app; split; eapply from_device_later; [exact Ht|apply (ac_from _ _ _ _ Ha)|exact Ht|exact Hlost]].
  change (remove_one fd (open_fds (trace h2)) ≡ₚ l ++ base). apply remove_one_perm.
  rewrite Ho. symmetry. apply Permutation_middle.
Qed.

(** A stage from [P]: [Q] where it falls through, [R] where it jumps to the clean-up. *)
Definition stage_ok (P : main_state -> host -> Prop) (f : stage) (Q R : main_state -> host -> Prop) : Prop :=
  forall s h r s' h', P s h -> f s h = Ok (r, s') h' -> match r with None => Q s' h' | Some _ => R s' h' end.

Lemma and_then_ok P Q R S f g : stage_ok P f Q R -> stage_ok Q g S R -> stage_ok P (and_then f g) S R.
Proof.
  intros Hf Hg s h r s' h' HP H. unfold and_then in H. apply bind_inv in H as ([[ret|] s1] & h1 & H1 & H).
  - minv H. simplify_eq. exact (Hf _ _ _ _ _ HP H1).
  - exact (Hg _ _ _ _ _ (Hf _ _ _ _ _ HP H1) H).
Qed.
Lemma stage_ok_same (P R : main_state -> host -> Prop) f :
  (forall s h r s' h', P s h -> f s h = Ok (r, s') h' -> P s' h') -> (forall s h, P s h -> R s h) -> stage_ok P f P R.
Proof. intros Hf HR s h r s' h' HP H. apply Hf in H; [|done]. destruct r; auto. Qed.

(** The VM before its vCPUs. *)
Definition no_cpus (base : list Z) (s : main_state) (h : host) : Prop :=
  accounted base 0 s h /\ ms_vcpus s = ∅ /\ length (vm_vcpus (ms_vm s)) = 8%nat.

Lemma main_setup_ok base :
  stage_ok (no_cpus base) (main_setup LinuxX86 hs args undef) (accounted base asked_fds) (accounted base asked_fds).
Proof.
  assert (forall s h, accounted base 0 s h -> accounted base asked_fds s h) as Hmore
    by (intros s1 h1; apply accounted_more; lia).
  assert (forall f, (forall s h r s' h', accounted base 0 s h -> f s h = Ok (r, s') h' ->
      accounted base 0 s' h' /\ ms_vcpus s' = ms_vcpus s /\ vm_vcpus (ms_vm s') = vm_vcpus (ms_vm s)) ->
    stage_ok (no_cpus base) f (no_cpus base) (accounted base asked_fds)) as Hearly.
  { intros f Hf. apply stage_ok_same; [|by intros s h (? & _); apply Hmore].
    intros s h r s' h' (Ha & He & Hl) H. destruct (Hf _ _ _ _ _ Ha H) as (? & H1 & H2).
    split; [done|]. by rewrite H1, H2. }
  unfold main_setup. eapply and_then_ok; [|eapply and_then_ok; [|eapply and_then_ok]].
  - apply Hearly, stage_config_keeps.
  - apply Hearly, stage_memory_keeps.
  - intros s h r s' h' (Ha & He & Hl) H. pose proof (stage_vcpus_keeps _ _ _ _ _ _ _ Ha He Hl H) as Ha'.
    destruct r; [by apply Hmore|exact Ha'].
  - intros s h r s' h' Ha H. pose proof (stage_devices_keeps _ _ _ _ _ _ Ha H) as Ha'. destruct r; exact Ha'.
Qed.

Lemma main_stages_ok fuel base :
  a_vfio_bdf args = None ->
  stage_ok (no_cpus base) (main_stages LinuxX86 hs args undef fuel) (accounted base asked_fds) (accounted base asked_fds).
Proof.
  intros Hvf. unfold main_stages. eapply and_then_ok; [apply main_setup_ok|].
  repeat (eapply and_then_ok); apply stage_ok_same; try done; intros s h r s' h' Ha H.
  - unfold stage_vfio in H. rewrite Hvf in H. by minv H; simplify_eq.
  - by eapply stage_boot_keeps.
  - by eapply stage_start_keeps.
  - by eapply stage_wait_keeps.
Qed.

(** The group and the device of a passthrough that failed late. *)
Definition lost_fds : nat := match a_vfio_bdf args with Some _ => 2 | None => 0 end.

Lemma leaves_more n m base h : (n <= m)%nat -> leaves n base h -> leaves m base h.
Proof. intros Hle (l & Hl & Ho). exists l. split; [lia|exact Ho]. Qed.

(** The clean-up of what the stages leave, without and with a container. *)
Lemma main_cleanup_accounted base ret s h code h' :
  0 <= fd -> accounted (fd :: base) asked_fds s h -> main_cleanup LinuxX86 hs args ret s h = Ok code h' ->
  leaves (asked_fds + lost_fds) base h'.
Proof.
  intros Hpos Ha H. eapply leaves_more; [|eapply (main_cleanup_fds base [] None asked_fds); [done|done|exact Ha|done|]]; [cbn; lia|].
  destruct s as [v vs st vf]. pose proof (ac_vfio _ _ _ _ Ha) as Hvf. cbn in Hvf. subst. exact H.
Qed.

Lemma stages_cleanup_fds fuel base hv h r s h1 code h' :
  0 <= fd -> no_cpus (fd :: base) (mk_ms (new_vm hv) ∅ ∅ None) h ->
  main_stages LinuxX86 hs args undef fuel (mk_ms (new_vm hv) ∅ ∅ None) h = Ok (r, s) h1 ->
  main_cleanup LinuxX86 hs args (default 0 r) s h1 = Ok code h' -> leaves (asked_fds + lost_fds) base h'.
Proof.
  intros Hpos Hn Hst H. destruct (a_vfio_bdf args) as [bdf|] eqn:Hvf.
  2:{ pose proof (main_stages_ok fuel (fd :: base) Hvf _ _ _ _ _ Hn Hst). eapply main_cleanup_accounted; [done| |exact H]. by destruct r. }
  destruct (run_with_passthrough _ _ _ _ _ _ _ _ _ _ _ Hvf Hst) as [Ha|[(ret & -> & Hs)|(ret & s1 & h2 & -> & Hs & Hf & cont & ->)]].
  - unfold main_cleanup in H. apply bind_inv in H as (x & h2 & Hd & _). by apply vm_destroy_attached in Hd.
  - eapply main_cleanup_accounted; [done|exact (main_setup_ok _ _ _ _ _ _ Hn Hs)|exact H].
  - pose proof (main_setup_ok _ _ _ _ _ _ Hn Hs) as Ha. cbn beta iota in Ha.
    destruct (stage_vfio_fds _ _ _ _ _ _ Hvf Hf) as [(lost & Ho & Hl & Hlost) Hc]. cbn [ms_vfio] in Ho, Hc. rewrite app_assoc in Ho.
    eapply leaves_more; [|eapply (main_cleanup_fds base lost cont asked_fds); [done|exact Hc| |exact Hlost|exact H]].
    + unfold lost_fds. rewrite Hvf. lia.
    + rewrite app_assoc. eapply accounted_opened; [exact Ha|exact Ho|]. by eapply grows_stage_vfio.
Qed.

Lemma main_run_fds fuel base h code h' :
  0 <= fd -> open_fds (trace h) = fd :: base ->
  main_run LinuxX86 hs args undef fuel h = Ok code h' -> leaves (asked_fds + lost_fds) base h'.
Proof.
  intros Hpos Hb H. unfold main_run in H. apply bind_inv in H as (r & h1 & Hc & H). apply vm_create_fds in Hc.
  destruct r as [v|].
  - destruct Hc as (hv & -> & Hv & Ho). apply bind_inv in H as ([r s] & h2 & Hst & H).
    eapply (stages_cleanup_fds fuel base hv); [exact Hpos| |exact Hst|exact H].
    split; [|done]. split; cbn [ms_vm ms_vcpus ms_objects ms_vfio new_vm vm_hv]; try done.
    + by rewrite Ho, Hb, !fds_of_empty.
    + by intros k [? Hk]; rewrite lookup_empty in Hk.
  - apply bind_inv in H as (u & h2 & Hcl & H). minv H. simplify_eq. unfold hv_cleanup in Hcl. cbn in Hcl.
    unfold kvm_cleanup in Hcl. rewrite (proj2 (Z.geb_le fd 0) Hpos), !bind_assoc, (bind_Ok _ _ _ _ _ (perform_close fd h1)) in Hcl.
    minv Hcl. simplify_eq. exists []. split; [cbn; lia|]. split; [|done].
    change (remove_one fd (open_fds (trace h1)) ≡ₚ base). apply remove_one_perm. by rewrite Hc, Hb.
Qed.
End stages.

(** *** From the command line *)

Section main_fds.
Context {E : Env}.

Lemma quiet_parse_args opts : quiet (parse_args opts).
Proof.
  assert (forall o s a, quiet (parse_opt o s a)) as Hopt.
  { intros o s a. unfold parse_opt, strdup. destruct a. quiet. }
  assert (forall l a, quiet (parse_opts l a)) as Hopts.
  { induction l as [|[o s] l IH]; intros a; cbn [parse_opts]; [apply quiet_ret|]. apply quiet_bind; [apply Hopt|]. quiet. }
  unfold parse_args, strdup. apply quiet_bind; [apply Hopts|]. quiet.
Qed.

Lemma hv_init_fds hvf arm h ret s h' :
  hv_init LinuxX86 kvm_ops hvf arm HV_TYPE_AUTO hv_initial h = Ok (ret, s) h' ->
  ret < 0 /\ open_fds (trace h') = open_fds (trace h) \/
  ret = 0 /\ exists fd, s = kvm_state fd /\ 0 <= fd /\ open_fds (trace h') = fd :: open_fds (trace h).
Proof.
  intros H. unfold hv_init in H. cbn in H. unfold kvm_init in H.
  minv H; simplify_eq; fd_count; bool_prop; try lia; auto with lia.
  all: try (left; split; [lia|done]). right. split; [done|]. eexists. split; [reflexivity|]. split; [lia|done].
Qed.

(** [C4] No descriptor of the hypervisor is lost, whatever happens.  On Linux, for every
    command line and every behaviour of the kernel: when the program returns, with
    success or with a failure at any stage, the KVM file, the VM, each vCPU and the VFIO
    container it opened have been closed, and nothing it had not opened has been.  What
    stays open was returned by a call of this very run that opens the disk image of the
    options, the tap interface, or the group or the device of the passthrough; it is at
    most one descriptor for the disk and one for the tap, if they were asked for, since no
    one destroys the devices, and two for a passthrough, which no one closes when attaching
    the device fails after opening it. *)
Theorem main_leaves_devices_open undef fuel hvf arm opts h r args h1 code h' :
  parse_args opts h = Ok (r, args) h1 ->
  main LinuxX86 kvm_ops hvf arm undef fuel opts h = Ok code h' ->
  exists l, open_fds (trace h') ≡ₚ l ++ open_fds (trace h) /\ Forall (from_device args (trace h')) l /\
    (length l <= (if a_disk_path args is Some _ then 1 else 0) + (if a_net_tap args is Some _ then 1 else 0) +
       (if a_vfio_bdf args is Some _ then 2 else 0))%nat.
Proof.
  intros Hp H. enough (leaves args (asked_fds args + lost_fds args) (open_fds (trace h)) h') as (l & Hl & Ho & Hf) by (by exists l).
  pose proof (quiet_parse_args _ _ _ _ Hp) as Ho1. unfold main in H. rewrite (bind_Ok _ _ _ _ _ Hp) in H. cbv beta iota in H.
  assert (forall h2, open_fds (trace h2) = open_fds (trace h) -> leaves args (asked_fds args + lost_fds args) (open_fds (trace h)) h2) as Hsame.
  { intros h2 Heq. exists []. split; [cbn; lia|]. by rewrite Heq. }
  destruct r; [|minv H; simplify_eq; by apply Hsame..].
  apply bind_inv in H as ([ret hs] & h2 & Hi & H). cbv beta iota in H.
  destruct (hv_init_fds _ _ _ _ _ _ Hi) as [[Hneg Ho2]|(-> & fd & -> & Hpos & Ho2)].
  - rewrite (proj2 (Z.ltb_lt _ _) Hneg) in H. minv H. simplify_eq. apply Hsame. congruence.
  - eapply main_run_fds; [exact Hpos| |exact H]. by rewrite Ho2, Ho1.
Qed.
End main_fds.

(** ** Witness: two vCPUs, a raw binary and a disk *)

#[local] Existing Instance good_env.

Definition disk_opts : list (ascii * string) :=
  [("b"%char, "a.bin"); ("e"%char, "10"); ("m"%char, "64"); ("d"%char, "disk.img"); ("n"%char, "2"); ("l"%char, "1")]%string.
Definition disk_args : cmdline_args :=
  mk_args None None None 64 2 (Some "disk.img"%string) None None 0 1 (Some "a.bin"%string) 16.

Lemma disk_run :
  exists h', main LinuxX86 kvm_ops hvf_stub_ops hvf_stub_ops 1 10 disk_opts empty_host = Ok 0 h' /\ open_fds (trace h') = [34].
Proof. eexists. split; [vm_compute; reflexivity|vm_compute; reflexivity]. Qed.

Lemma main_leaves_devices_open_witness :
  exists h' l, main LinuxX86 kvm_ops hvf_stub_ops hvf_stub_ops 1 10 disk_opts empty_host = Ok 0 h' /\
    open_fds (trace h') = [34] /\ [34] ≡ₚ l ++ [] /\ Forall (from_device disk_args (trace h')) l /\ (length l <= 1)%nat.
Proof.
  destruct disk_run as (h' & Hm & Hf).
  destruct (main_leaves_devices_open (E := good_env) 1 10 hvf_stub_ops hvf_stub_ops disk_opts empty_host OptOk disk_args
    (called (EvStrdup "disk.img") (called (EvStrdup "a.bin") empty_host)) 0 h' ltac:(vm_compute; reflexivity) Hm)
    as (l & Hl & Hd & Hn).
  exists h', l. split; [exact Hm|]. split; [exact Hf|]. split; [rewrite <- Hf; exact Hl|]. split; [exact Hd|exact Hn].
Defined.
