(* ===== verification/Runs.v ===== *)
(** * A whole run of the program (src/main.c and what it calls)

    That the main thread of a run on Linux, with a kernel or a raw binary, never faults
    and ends: every stage of [main] is followed on every answer of the host, with an
    invariant of the machine under construction, from [vm_create] to the clean-up. *)

From Stdlib Require Import Ascii.
From S2P Require Import Prelude HvTypes Host Utils CString Hypervisor Kvm HvPlatforms GuestMem VmMem Devices MmioConsole Virtio VirtioConsole VirtioBlk VirtioNet Vfio Machine VfioVm Vcpu Vm Schedules Boot Safety Main Resources.

(** The seconds [main] has waited. *)
Fixpoint sleeps (tr : list event) : nat :=
  match tr with [] => 0 | EvSleep :: tr => S (sleeps tr) | _ :: tr => sleeps tr end.

(** ** Code that leaves the heap alone *)

Section heapless_program.
Context {E : Env} (fd : Z) (log_level : Z).
Local Abbreviation hs := (kvm_state fd).
Local Abbreviation vcpus := (gmap positive vcpu).

Lemma heapless_vcpu_create hvm i : heapless (vcpu_create LinuxX86 hs hvm i).
Proof. unfold vcpu_create, hv_create_vcpu, via. cbn. unfold kvm_create_vcpu, kvm_vm_data. heapless. Qed.
Lemma heapless_vcpu_start c : heapless (vcpu_start c).
Proof. unfold vcpu_start. heapless. Qed.
Lemma heapless_vcpu_stop c : heapless (vcpu_stop LinuxX86 hs c).
Proof. unfold vcpu_stop. heapless. Qed.
Hint Resolve heapless_vcpu_create heapless_vcpu_start heapless_vcpu_stop : heapless.
Lemma heapless_vcpu_destroy c : heapless (vcpu_destroy LinuxX86 hs log_level c).
Proof. unfold vcpu_destroy, hv_destroy_vcpu, via. cbn. unfold kvm_destroy_vcpu, kvm_vm_data. heapless. Qed.
Hint Resolve heapless_vcpu_destroy : heapless.
Lemma heapless_destroy_vcpus l (vs : vcpus) : heapless (destroy_vcpus LinuxX86 hs log_level l vs).
Proof. revert vs. induction l as [|[i|] l IH]; intros vs; cbn [destroy_vcpus]; heapless. Qed.
Hint Resolve heapless_destroy_vcpus : heapless.
Lemma heapless_create_vcpus n i v (vs : vcpus) : heapless (create_vcpus LinuxX86 hs log_level n i v vs).
Proof. revert i v vs. induction n as [|n IH]; intros i v vs; cbn [create_vcpus]; heapless. Qed.
Lemma heapless_stop_vcpus l (vs : vcpus) : heapless (stop_vcpus LinuxX86 hs l vs).
Proof. revert vs. induction l as [|[i|] l IH]; intros vs; cbn [stop_vcpus]; heapless. Qed.
Hint Resolve heapless_stop_vcpus : heapless.
Lemma heapless_vm_stop v (vs : vcpus) : heapless (vm_stop LinuxX86 hs v vs).
Proof. unfold vm_stop. heapless. Qed.
Lemma heapless_start_vcpus dn l (vs : vcpus) : heapless (start_vcpus LinuxX86 hs dn l vs).
Proof. revert dn vs. induction l as [|p l IH]; intros dn vs; cbn [start_vcpus]; unfold get_vcpu; heapless. Qed.
Hint Resolve heapless_start_vcpus : heapless.
Lemma heapless_vm_start v (vs : vcpus) : heapless (vm_start LinuxX86 hs v vs).
Proof. unfold vm_start. heapless. Qed.
End heapless_program.

(** ** The machine under construction *)

Section machine.
Context {E : Env} (fd : Z).
Local Abbreviation hs := (kvm_state fd).
Local Abbreviation memory := (gmap positive (list byte)).

Context (args : cmdline_args) (undef : Z) (base : memory).
Local Abbreviation has_ram := (Safety.has_ram (ram_size args) base).

(** No guest RAM: the heap is [base]. *)
Definition no_ram (v : vm) (m : memory) : Prop :=
  mem_regions v = replicate VM_MAX_SLOTS zero_region /\ m = base /\ mem_size v = 0.

(** The strings of the VM come from the command line; without memory for a copy they
    are missing. *)
Definition copied (o arg : option string) : Prop := o = None \/ o = arg.
Record configured (v : vm) : Prop := {
  cf_kernel : copied (kernel_path v) (a_kernel_path args);
  cf_initrd : copied (initrd_path v) (a_initrd_path args);
  cf_cmdline : copied (vm_cmdline v) (a_cmdline args)
}.

(** The vCPUs, and the devices. *)
Record cpus_ready (v : vm) (vs : gmap positive vcpu) : Prop := {
  cr_live : vcpus_live (live_vcpus v) vs;
  cr_distinct : NoDup (live_vcpus v);
  cr_idle : vm_st v <> VM_STATE_RUNNING -> in_state not_running (live_vcpus v) vs;
  cr_disposable : in_state (disposable hs) (live_vcpus v) vs;
  cr_handles : in_state cpu_open (live_vcpus v) vs
}.
Record devices_ready (v : vm) (st : gmap positive object) : Prop := {
  dr_unowned : devices_unowned v st;
  dr_array : length (vm_devices v) = 16%nat;
  dr_count : 0 <= num_devices v <= VM_MAX_DEVICES
}.

Record machine (R : vm -> memory -> Prop) (s : main_state) (h : host) : Prop := {
  mc_ram : R (ms_vm s) (heap h);
  mc_cpus : cpus_ready (ms_vm s) (ms_vcpus s);
  mc_devices : devices_ready (ms_vm s) (ms_objects s);
  mc_config : configured (ms_vm s);
  mc_vfio : ms_vfio s = None
}.

(** *** Memory and vCPUs *)

(** A stage from [P]: [Q] where it falls through, [R] where it jumps to the clean-up. *)
Definition stage_safe (F : Prop) (P : main_state -> host -> Prop) (f : stage) (Q R : main_state -> host -> Prop) : Prop :=
  forall s h, P s h -> safe F (f s) (fun r h' => match r.1 with None => Q r.2 h' | Some _ => R r.2 h' end) h.

Lemma and_then_safe F P Q R S f g : stage_safe F P f Q R -> stage_safe F Q g S R -> stage_safe F P (and_then f g) S R.
Proof using Type.
  intros Hf Hg s h HP. unfold and_then. apply safe_bind. eapply safe_mono; [by apply Hf|].
  intros [[ret|] s1] h1 H1; [exact H1|]. by apply Hg.
Qed.

(** What the clean-up can take back. *)
Definition undoable (s : main_state) (h : host) : Prop :=
  machine (fun v m => no_ram v m \/ has_ram v m) s h.
(** Before its vCPUs; ready to boot. *)
Definition bare (v : vm) : Prop :=
  vm_vcpus v = replicate 8 None /\ num_vcpus v = 0 /\ vm_st v = VM_STATE_STOPPED /\
  exists n, hvm_data (vm_hv v) = KvmVmData n.
Definition populated (v : vm) : Prop :=
  length (vm_vcpus v) = 8%nat /\ 1 <= num_vcpus v /\ vm_st v = VM_STATE_STOPPED.

Lemma machine_ram (R R' : vm -> memory -> Prop) s h : (forall v m, R v m -> R' v m) -> machine R s h -> machine R' s h.
Proof using Type. intros HR [Hr Hc Hd Hcf Hv]. split; auto. Qed.

Lemma ram_size_range : 0 < a_mem_size args -> 0 < ram_size args <= 134217728.
Proof using Type. intros H. unfold ram_size. case_match; bool_prop; lia. Qed.

Definition bare_state (s : main_state) : Prop := bare (ms_vm s) /\ ms_vcpus s = ∅.

Lemma free_first : free_slot (replicate VM_MAX_SLOTS zero_region) = Some 0%nat.
Proof using Type. done. Qed.

Lemma stage_memory_safe F :
  0 < a_mem_size args ->
  stage_safe F (fun s h => machine no_ram s h /\ bare_state s) (stage_memory hs args)
    (fun s h => machine has_ram s h /\ bare_state s) undoable.
Proof using Type.
  intros Hsz s h [[(Hregs & Hbase & Hms) Hc Hd Hcf Hv] [Hb He]]. pose proof (ram_size_range Hsz) as Hr. unfold stage_memory.
  assert (vm_mem_valid (ms_vm s) h) as Hvalid.
  { split; rewrite Hregs; [done|]. apply Forall_replicate. intros Hu. done. }
  destruct (vm_add_memory_region_run hs (ms_vm s) 0 (ram_size args) h Hvalid ltac:(lia)) as (ret & v & h1 & Hrun & _ & Hcase).
  safe_call Hrun. apply safe_ret. cbn [fst snd]. destruct Hcase as [(-> & -> & Hh)|(-> & i & b & Hi & Hfresh & Hh & Hreg & Hsize)].
  - split; cbn; auto. left. split; [done|]. split; [congruence|done].
  - assert (v = set_regions (mem_regions v) (mem_size v) (ms_vm s)) as Hsame by (unfold vm_add_memory_region in Hrun; minv Hrun; by simplify_eq).
    rewrite Hregs, free_first in Hi. injection Hi as <-. cbn [Z.ltb Z.compare].
    split; [|split; [rewrite Hsame; exact Hb|exact He]].
    split; cbn [ms_vm ms_vcpus ms_objects ms_vfio];
      [|rewrite Hsame; destruct Hc; by split|rewrite Hsame; destruct Hd; by split|rewrite Hsame; destruct Hcf; by split|exact Hv].
    exists b, (replicate (Z.to_nat (ram_size args)) 0). rewrite length_replicate, Hreg, Hregs, Z2Nat.id by lia.
    split_and!; [done|done|by rewrite <- Hbase|by rewrite Hh, Hbase| |lia].
    rewrite Hsize, Hms, Z.add_0_l. apply u64_small. unfold is_u64. lia.
Qed.

Lemma created_ready ks l (vs : gmap positive vcpu) :
  created hs ∅ ks l vs ->
  vcpus_live (Some <$> ks) vs /\ NoDup (Some <$> ks) /\ in_state not_running (Some <$> ks) vs /\
  in_state (disposable hs) (Some <$> ks) vs.
Proof using Type.
  intros [_ _ Hnd Hnew _].
  assert (forall i, Some i ∈ Some <$> ks -> exists c, vs !! i = Some c /\ not_running c /\ disposable hs c) as Hin.
  { intros i (k & [= ->] & Hk)%list_elem_of_fmap. apply list_elem_of_lookup_1 in Hk as [n Hn].
    destruct (Hnew n k Hn) as (_ & c & ? & ? & ? & _). by exists c. }
  split_and!.
  - apply Forall_forall. intros p Hp. apply list_elem_of_fmap in Hp as Hp'. destruct Hp' as (k & -> & _).
    destruct (Hin k Hp) as (c & Hc & _). by exists k, c.
  - by apply (NoDup_fmap_2 Some).
  - intros i c Hi Hc. destruct (Hin i Hi) as (c' & Hc' & ? & _). by simplify_eq.
  - intros i c Hi Hc. destruct (Hin i Hi) as (c' & Hc' & _ & ?). by simplify_eq.
Qed.

Lemma create_vcpus_num n i v (vs : gmap positive vcpu) h ret v' vs' h' :
  create_vcpus LinuxX86 hs (a_log_level args) n i v vs h = Ok (ret, v', vs') h' -> num_vcpus v' = num_vcpus v.
Proof using Type.
  revert i v vs h. induction n as [|n IH]; intros i v vs h H; cbn [create_vcpus] in H; [by minv H; simplify_eq|].
  apply bind_inv in H as ([c|] & h1 & _ & H); [by apply IH in H|].
  apply bind_inv in H as (vs1 & h2 & _ & H). by minv H; simplify_eq.
Qed.

Lemma stage_vcpus_safe F :
  a_log_level args < LOG_LEVEL_INFO -> 1 <= a_num_vcpus args <= 8 ->
  stage_safe F (fun s h => machine has_ram s h /\ bare_state s) (stage_vcpus LinuxX86 hs args)
    (fun s h => machine has_ram s h /\ populated (ms_vm s)) undoable.
Proof using Type.
  intros Hlog Hnum s h [[Hr Hc Hd Hcf Hv] [(Harr & Hn0 & Hst & n & Hdata) He]].
  unfold stage_vcpus, vm_create_vcpus. rewrite He.
  assert (creates_vcpus hs (vm_hv (ms_vm s))) as Hcr.
  { pose proof (kvm_creates_vcpus fd (hvm_fd (vm_hv (ms_vm s))) n) as H. destruct (vm_hv (ms_vm s)) as [f d]. cbn in *. by rewrite Hdata. }
  assert (created hs ∅ [] (vm_vcpus (ms_vm s)) ∅) as Hc0.
  { rewrite Harr. split; simpl; [done|lia|apply NoDup_nil_2|by intros [|m] k|done]. }
  assert (length (@nil positive) + Z.to_nat (a_num_vcpus args) <= 8)%nat as Hroom by (cbn [length]; lia).
  destruct (create_vcpus_run LinuxX86 hs (a_log_level args) ∅ (Z.to_nat (a_num_vcpus args)) [] (ms_vm s) ∅ h Hlog Hcr
    (kvm_disposes_null fd) Hc0 Hroom) as (ret & v & vs & h1 & Hrun & Hsame & Hcase).
  change (Z.of_nat (length [])) with (Z.of_nat 0) in Hrun.
  assert (cpus_open vs) as Hopen.
  { eapply (create_vcpus_fds fd (a_log_level args) (Z.to_nat (a_num_vcpus args)) 0 (ms_vm s) ∅ h ret v vs h1 (open_fds (trace h))); [rewrite Harr; simpl; lia| | |exact Hrun|].
    - by intros k [? Hk].
    - by intros k c Hk.
    - by rewrite fds_of_empty. }
  pose proof (heapless_create_vcpus _ _ _ _ _ _ _ _ _ Hrun) as Hheap.
  unfold VM_MAX_VCPUS. rewrite Z.gtb_ltb, (proj2 (Z.ltb_ge _ _)) by lia. apply safe_bind, safe_bind. eapply safe_Ok; [exact Hrun|].
  cbv beta iota. destruct Hcase as [(-> & ks & Hl & Hks)|(-> & -> & Ha)].
  - cbn [Z.ltb Z.compare]. apply safe_ret, safe_ret. cbn [fst snd ms_vm Z.ltb Z.compare]. simpl in Hl.
    destruct (created_ready _ _ _ Hks) as (H1 & H2 & H3 & H4).
    assert (live_vcpus (set_vcpus (vm_vcpus v) (a_num_vcpus args) v) = Some <$> ks) as Hlive.
    { unfold live_vcpus. cbn. rewrite (cr_array _ _ _ _ _ Hks), take_app_le by (rewrite length_fmap; lia).
      apply take_ge. rewrite length_fmap. lia. }
    split; [split; cbn [ms_vm ms_vcpus ms_objects ms_vfio]|].
    + rewrite Hheap, Hsame. exact Hr.
    + split; rewrite Hlive; auto. by intros i c _ Hi; eapply Hopen.
    + rewrite Hsame. destruct Hd. by split.
    + rewrite Hsame. destruct Hcf. by split.
    + done.
    + split; cbn; [|split; [lia|by rewrite Hsame]]. rewrite (cr_array _ _ _ _ _ Hks), length_app, length_fmap, length_replicate.
      pose proof (cr_length _ _ _ _ _ Hks). lia.
  - cbn [Z.ltb Z.compare]. apply safe_ret, safe_ret. cbn [fst snd ms_vm Z.ltb Z.compare].
    assert (live_vcpus v = []) as Hlive by (unfold live_vcpus; by rewrite (create_vcpus_num _ _ _ _ _ _ _ _ _ Hrun), Hn0).
    split; cbn [ms_vm ms_vcpus ms_objects ms_vfio].
    + right. rewrite Hheap, Hsame. exact Hr.
    + split; rewrite Hlive; [constructor|constructor|..]; by intros ? i c ?%elem_of_nil || by intros i c ?%elem_of_nil.
    + rewrite Hsame. destruct Hd. by split.
    + rewrite Hsame. destruct Hcf. by split.
    + done.
Qed.

(** *** Devices *)

Lemma add_device_safe F (R : vm -> memory -> Prop) dev s h (Q : main_state -> host -> Prop) :
  a_log_level args < LOG_LEVEL_INFO -> (forall o, dev = Some o -> dev_vm (dbase o) = false) ->
  (forall v m l n, R v m -> R (set_devices l n v) m) -> machine R s h -> populated (ms_vm s) ->
  (forall s' h', machine R s' h' -> populated (ms_vm s') -> Q s' h') ->
  safe F (add_device args dev s) Q h.
Proof using Type.
  intros Hlog Hdev HR [Hr Hc [Hun Hlen Hnum] Hcf Hv] Hp HQ. unfold add_device. destruct dev as [o|]; [|by apply safe_ret, HQ].
  cbv zeta. set (i := fresh (dom (ms_objects s))). set (st := <[i := o]> (ms_objects s)).
  assert (ms_objects s !! i = None) as Hi by (apply not_elem_of_dom, is_fresh).
  assert (devices_unowned (ms_vm s) st) as Hun'.
  { intros k Hk. destruct (Hun k Hk) as (ok & Hok & Hf). exists ok. split; [|done]. unfold st. rewrite lookup_insert_ne; [done|]. congruence. }
  unfold vm_register_device. rewrite Z.geb_leb, (Z.geb_leb (a_log_level args)), (proj2 (Z.leb_gt LOG_LEVEL_INFO _) Hlog).
  destruct (VM_MAX_DEVICES <=? num_devices (ms_vm s)) eqn:Hfull; apply safe_bind, safe_ret, safe_ret, HQ; try done; bool_prop;
    unfold VM_MAX_DEVICES in *.
  split; cbn [ms_vm ms_vcpus ms_objects ms_vfio]; [by apply HR| |split| |done].
  - destruct Hc. by split.
  - intros k Hk. unfold live_devices in Hk. cbn in Hk. rewrite Z2Nat.inj_add, Nat.add_1_r in Hk by lia.
    rewrite (take_S_r _ _ (Some i)) in Hk by (apply list_lookup_insert_eq; lia). rewrite take_insert_ge in Hk by lia.
    apply elem_of_app in Hk as [Hk|Hk]; [by apply Hun'|]. apply list_elem_of_singleton in Hk as [= ->].
    exists o. split; [apply lookup_insert_eq|by apply Hdev].
  - cbn. by rewrite length_insert.
  - cbn. unfold VM_MAX_DEVICES. lia.
  - destruct Hcf. by split.
Qed.

(** The four constructors return, without touching the heap. *)
Definition new_device {A} (inj : A -> object) (h : host) (r : option A) (h' : host) : Prop :=
  heap h' = heap h /\ forall o, inj <$> r = Some o -> dev_vm (dbase o) = false.

Lemma uart_safe F h : safe F mmio_console_create (new_device ObjUart h) h.
Proof using Type.
  unfold mmio_console_create, device_create, strdup. runs_through; (split; [done|]); intros o Ho; (discriminate Ho || (injection Ho as <-; reflexivity)).
Qed.
Lemma con_safe F h : safe F (virtio_console_create undef) (new_device ObjCon h) h.
Proof using Type.
  unfold virtio_console_create, strdup. runs_through; (split; [done|]); intros o Ho; (discriminate Ho || (injection Ho as <-; reflexivity)).
Qed.
Lemma blk_safe F path h : safe F (virtio_blk_create undef path) (new_device ObjBlk h) h.
Proof using Type.
  unfold virtio_blk_create, open_disk, strdup. runs_through; (split; [done|]); intros o Ho; (discriminate Ho || (injection Ho as <-; reflexivity)).
Qed.
Lemma net_safe F tap h : safe F (virtio_net_create undef tap) (new_device ObjNet h) h.
Proof using Type.
  unfold virtio_net_create, open_tap, strdup. runs_through; (split; [done|]); intros o Ho; (discriminate Ho || (injection Ho as <-; reflexivity)).
Qed.

Lemma machine_heap (R : vm -> memory -> Prop) s h h' : heap h' = heap h -> machine R s h -> machine R s h'.
Proof using Type. intros Hh [Hr Hc Hd Hcf Hv]. split; [by rewrite Hh|done..]. Qed.

Definition bootable (s : main_state) (h : host) : Prop := machine has_ram s h /\ populated (ms_vm s).

(** One constructor and its registration, before the rest. *)
Lemma attach_safe {A B} F (m : M (option A)) (inj : A -> object) (rest : main_state -> M B) s h (Q : B -> host -> Prop) :
  a_log_level args < LOG_LEVEL_INFO -> safe F m (new_device inj h) h -> bootable s h ->
  (forall s' h', bootable s' h' -> safe F (rest s') Q h') ->
  safe F (dev ← m; s ← add_device args (inj <$> dev) s; rest s) Q h.
Proof using Type.
  intros Hlog Hm [Hs Hp] HQ. apply safe_bind. eapply safe_mono; [exact Hm|]. intros dev h1 [Hh Hd]. apply safe_bind.
  eapply (add_device_safe F has_ram); [exact Hlog|exact Hd|done|by eapply machine_heap|exact Hp|].
  intros s' h' ? ?. apply HQ. by split.
Qed.

Lemma attach_last {A} F (m : M (option A)) (inj : A -> object) s h :
  a_log_level args < LOG_LEVEL_INFO -> bootable s h -> safe F m (new_device inj h) h ->
  safe F (dev ← m; add_device args (inj <$> dev) s) bootable h.
Proof using Type.
  intros Hlog Hs Hm. pose proof (attach_safe F m inj mret s h bootable Hlog Hm Hs ltac:(by intros; apply safe_ret)) as H.
  revert H. unfold safe, mbind, M_bind, mret, M_ret. destruct (m h) as [dev h1|]; [|done]. by destruct (add_device _ _ _ _).
Qed.

Lemma stage_devices_safe F :
  a_log_level args < LOG_LEVEL_INFO -> stage_safe F bootable (stage_devices args undef) bootable undoable.
Proof using Type.
  intros Hlog s h Hs. unfold stage_devices.
  apply (attach_safe F _ ObjUart); [done|apply uart_safe|exact Hs|]. clear s h Hs. intros s h Hs.
  apply (attach_safe F _ ObjCon); [done|apply con_safe|exact Hs|]. clear s h Hs. intros s h Hs. apply safe_bind.
  eapply (safe_mono _ _ bootable).
  { destruct (a_disk_path args) as [path|]; [|by apply safe_ret]. apply attach_last, blk_safe; done. }
  clear s h Hs. intros s h Hs. apply safe_bind. eapply (safe_mono _ _ bootable).
  { destruct (a_net_tap args) as [tap|]; [|by apply safe_ret]. apply attach_last, net_safe; done. }
  clear s h Hs. intros s h Hs. by apply safe_ret.
Qed.

(** *** Boot *)

Context (Hhost : host_ok).

(** vCPU 0 of a machine that is ready to boot. *)
Lemma first_cpu v vs :
  cpus_ready v vs -> populated v ->
  exists i c hv, vm_vcpus v !! 0%nat = Some (Some i) /\ vs !! i = Some c /\ vc_hv c = Some hv.
Proof using Type.
  intros [Hl _ _ _ Ho] (Hlen & Hnum & _). destruct (vm_vcpus v) as [|p l] eqn:Hv; [done|].
  assert (p ∈ live_vcpus v) as Hp.
  { unfold live_vcpus. rewrite Hv. destruct (Z.to_nat (num_vcpus v)) eqn:Hn; [lia|]. apply list_elem_of_here. }
  unfold vcpus_live in Hl. rewrite Forall_forall in Hl. destruct (Hl p Hp) as (i & c & -> & Hc).
  destruct (Ho i c Hp Hc) as (hv & Hhv & _). by exists i, c, hv.
Qed.

Lemma bootable_undoable s h : bootable s h -> undoable s h.
Proof using Type. intros [Hs _]. eapply machine_ram; [|exact Hs]. by right. Qed.

(** The files of the command line: a kernel is at least as long as the largest setup
    part, and comes with an initrd that fits in RAM and with a command line; the entry
    of a raw binary does not wrap. *)
Record image_ok : Prop := {
  im_kernel : forall p, a_kernel_path args = Some p ->
    is_Some (a_initrd_path args) /\ is_Some (a_cmdline args) /\ forall tr, 131072 <= env_answer tr (EvFtell p);
  im_initrd : forall p, a_initrd_path args = Some p -> forall tr, env_answer tr (EvFtell p) <= ram_size args;
  im_cmdline : forall s, a_cmdline args = Some s -> Z.of_nat (String.length s) < 9223372036854775808;
  im_entry : a_kernel_path args = None -> 0 <= a_binary_entry args < 9223372036854775808
}.
Context (Himage : image_ok).

Lemma copied_some o arg s : copied o arg -> o = Some s -> arg = Some s.
Proof using Type. by intros [-> | ->]. Qed.

Lemma configured_loadable v : configured v -> loadable (ram_size args) v.
Proof using Himage.
  intros [Hk Hi Hc]. split; intros x Hx.
  - eapply copied_some in Hk; [|done]. by apply (im_kernel Himage).
  - eapply copied_some in Hi; [|done]. by apply (im_initrd Himage).
  - eapply copied_some in Hc; [|done]. by apply (im_cmdline Himage).
Qed.

Lemma stage_boot_safe F : stage_safe F bootable (stage_boot LinuxX86 hs args) bootable undoable.
Proof using Hhost Himage.
  intros s h [[Hr Hc Hd Hcf Hv] Hp]. destruct (first_cpu _ _ Hc Hp) as (i & c & hv & Hi & Hci & Hhv).
  assert (forall vs h', vs = ms_vcpus s -> has_ram (ms_vm s) (heap h') -> bootable (mk_ms (ms_vm s) vs (ms_objects s) (ms_vfio s)) h') as Hback
    by (intros vs h' -> ?; by split).
  unfold stage_boot. destruct (a_kernel_path args) as [kp|] eqn:Hk; [|destruct (a_binary_path args) as [path|]].
  - apply safe_bind. eapply boot_linux_safe; [done..|by apply configured_loadable|exact Hr|]. intros ret h' Hram.
    apply safe_ret. specialize (Hback _ h' eq_refl Hram). destruct s. cbn [fst snd]. destruct (ret <? 0); [by apply bootable_undoable|done].
  - apply safe_bind. eapply boot_raw_safe; [done..|by apply (im_entry Himage)|]. intros ret h' Hram.
    apply safe_ret. specialize (Hback _ h' eq_refl Hram). cbn [fst snd]. destruct (ret <? 0); [by apply bootable_undoable|done].
  - apply safe_ret. by split.
Qed.

(** [vm_set_kernel] and the two after it. *)
Lemma stage_config_safe F :
  stage_safe F (fun s h => machine no_ram s h /\ bare_state s) (stage_config args)
    (fun s h => machine no_ram s h /\ bare_state s) undoable.
Proof using Himage.
  intros s h [Hs [Hb He]]. unfold stage_config. destruct (a_kernel_path args) as [kp|] eqn:Hk; [|by apply safe_ret].
  destruct (im_kernel Himage kp Hk) as ([ip Hip] & [cl Hcl] & _). rewrite Hip, Hcl.
  destruct Hs as [Hr Hc Hd Hcf Hv]. unfold vm_set_kernel, vm_set_initrd, vm_set_cmdline, dup_arg, strdup.
  runs_through; cbn [fst snd]; (split; [split; cbn [ms_vm ms_vcpus ms_objects ms_vfio];
    [exact Hr|destruct Hc; by split|destruct Hd; by split| |exact Hv]|split; [exact Hb|exact He]]);
    (split; cbn; unfold copied; rewrite ?Hk, ?Hip, ?Hcl; case_match; by auto).
Qed.

(** *** The run *)

Lemma ready_handles v vs v' vs' :
  cpus_ready v vs -> vc_hv <$> vs' = vc_hv <$> vs -> live_vcpus v' = live_vcpus v ->
  (vm_st v' <> VM_STATE_RUNNING -> in_state not_running (live_vcpus v') vs') -> cpus_ready v' vs'.
Proof using Type.
  intros [Hl Hnd _ Hd Ho] Hh Hv Hi. split; rewrite ?Hv in *; auto.
  - eapply Forall_impl; [exact Hl|]. intros p (i & c & -> & Hc). exists i.
    assert ((vc_hv <$> vs') !! i = Some (vc_hv c)) as Hf by (by rewrite Hh, lookup_fmap, Hc).
    rewrite lookup_fmap in Hf. destruct (vs' !! i) as [c'|]; [by exists c'|done].
  - intros i c' Hin Hc'. destruct (handle_of _ _ _ _ Hh Hc') as (c & Hc & Heq). unfold disposable. rewrite Heq. by eapply Hd.
  - intros i c' Hin Hc'. destruct (handle_of _ _ _ _ Hh Hc') as (c & Hc & Heq). unfold cpu_open. rewrite Heq. by eapply Ho.
Qed.

(** Back from a change of the VM's and the vCPUs' state. *)
Lemma machine_state R s h v' vs' h' :
  machine R s h -> heap h' = heap h -> vc_hv <$> vs' = vc_hv <$> ms_vcpus s ->
  v' = ms_vm s \/ (exists st, v' = set_state st (ms_vm s)) ->
  (forall st m, R (ms_vm s) m -> R (set_state st (ms_vm s)) m) ->
  (vm_st v' <> VM_STATE_RUNNING -> in_state not_running (live_vcpus v') vs') ->
  machine R (mk_ms v' vs' (ms_objects s) (ms_vfio s)) h'.
Proof using Type.
  intros [Hr Hc Hd Hcf Hv] Hh Hk Hv' HR Hi. assert (live_vcpus v' = live_vcpus (ms_vm s)) as Hlive by (by destruct Hv' as [->|[st ->]]).
  split; cbn [ms_vm ms_vcpus ms_objects ms_vfio]; [|by eapply ready_handles| | |done].
  - rewrite Hh. destruct Hv' as [->|[st ->]]; auto.
  - destruct Hd. by destruct Hv' as [->|[st ->]].
  - destruct Hcf. by destruct Hv' as [->|[st ->]].
Qed.

(** Running, before the loop of [main]. *)
Definition up (s : main_state) (h : host) : Prop := machine has_ram s h /\ vm_st (ms_vm s) = VM_STATE_RUNNING.

Lemma stage_start_safe F : stage_safe F bootable (stage_start LinuxX86 hs) up undoable.
Proof using Type.
  intros s h [Hs (_ & _ & Hst)]. unfold stage_start. pose proof (mc_cpus _ _ _ Hs) as [Hl Hnd Hi _ _].
  destruct (vm_start_stop_run LinuxX86 hs (ms_vm s) (ms_vcpus s) h Hl Hnd) as [Hrun _].
  destruct (Hrun ltac:(congruence) ltac:(apply Hi; congruence)) as (ret & v' & vs' & h' & Hr & _ & Hcase).
  destruct (vm_start_keeps _ _ _ _ _ _ _ _ Hr) as [_ Hk]. pose proof (heapless_vm_start _ _ _ _ _ _ Hr) as Hh.
  safe_call Hr. apply safe_ret. cbn [fst snd]. destruct Hcase as [(-> & -> & Hrun')|(-> & -> & Hn)].
  - split; [|done]. eapply machine_state; eauto. cbn. congruence.
  - cbn [Z.ltb Z.compare]. eapply machine_ram; [intros v m H; right; exact H|]. eapply machine_state; eauto.
Qed.

(** A signal after [n] seconds at the latest. *)
Context (n : nat) (Hsignal : forall tr, (n <= sleeps tr)%nat -> (env_answer tr EvSleep).1 = true).

Lemma vm_stop_safe F v vs h (Q : Z * vm * gmap positive vcpu -> host -> Prop) :
  cpus_ready v vs -> vm_st v = VM_STATE_RUNNING ->
  (forall vs' h', heap h' = heap h -> vc_hv <$> vs' = vc_hv <$> vs -> in_state not_running (live_vcpus v) vs' ->
     Q (0, set_state VM_STATE_STOPPED v, vs') h') ->
  safe F (vm_stop LinuxX86 hs v vs) Q h.
Proof using Type.
  intros [Hl Hnd _ _ _] Hst HQ. destruct (vm_start_stop_run LinuxX86 hs v vs h Hl Hnd) as [_ Hrun].
  destruct (Hrun ltac:(congruence)) as (vs' & h' & Hr & _ & Hn). eapply safe_Ok; [exact Hr|].
  apply HQ; [by apply (heapless_vm_stop _ _ _ _ _ _ Hr)|by apply (vm_stop_keeps _ _ _ _ _ _ _ _ Hr)|done].
Qed.

(** What the loop leaves: the VM as it is, or stopped. *)
Definition waited (v : vm) (vs : gmap positive vcpu) (h : host) (r : vm * gmap positive vcpu) (h' : host) : Prop :=
  heap h' = heap h /\ vc_hv <$> r.2 = vc_hv <$> vs /\ (r.1 = v \/ r.1 = set_state VM_STATE_STOPPED v) /\ cpus_ready r.1 r.2.

Lemma wait_loop_safe fuel v vs h :
  cpus_ready v vs -> vm_st v = VM_STATE_RUNNING ->
  safe (fuel < n - sleeps (trace h) + 2)%nat (wait_loop LinuxX86 hs fuel true v vs) (waited v vs h) h.
Proof using Hsignal.
  revert vs h. induction fuel as [|fuel IH]; intros vs h Hc Hst; [split; [lia|done]|]. cbn [wait_loop].
  rewrite bool_decide_true by done. cbn [andb]. apply safe_bind, (safe_perform _ EvSleep).
  pose proof (Hsignal (trace h)) as Hsig. destruct (env_answer (trace h) EvSleep) as [sig l]. cbn [fst] in Hsig. cbv zeta.
  set (vs1 := request_stop l v vs). assert (vc_hv <$> vs1 = vc_hv <$> vs) as Hk1 by apply request_stop_handles.
  assert (cpus_ready v vs1) as Hc1 by (eapply ready_handles; [exact Hc|exact Hk1|done|congruence]).
  assert (forall g v2 vs2 h2, waited v vs h (v2, vs2) h2 ->
    (g = true -> v2 = v /\ sleeps (trace h2) = S (sleeps (trace h)) /\ (sleeps (trace h) < n)%nat) ->
    safe (S fuel < n - sleeps (trace h) + 2)%nat (wait_loop LinuxX86 hs fuel g v2 vs2) (waited v vs h) h2) as Hnext.
  { intros [] v2 vs2 h2 Hw Hg; [|destruct fuel as [|fuel']; [split; [lia|done]|exact Hw]].
    destruct (Hg eq_refl) as (-> & Hsl & Hlt). destruct Hw as (Hh & Hk & _ & Hr). cbn in Hk, Hr. specialize (IH vs2 h2 Hr Hst).
    unfold safe in *. destruct (wait_loop _ _ _ _ _ _ _) as [r h3|u]; [|destruct IH; split; [lia|done]].
    destruct IH as (Hh3 & Hk3 & Hv3 & Hr3). split; [congruence|]. split; [congruence|done]. }
  apply safe_bind. eapply (safe_mono _ _ (fun r h' => waited v vs h r h' /\
    (sig = false -> r.1 = v /\ sleeps (trace h') = S (sleeps (trace h))))).
  { destruct sig; [|apply safe_ret; split; [split; [done|]; split; [done|]; split; [by left|done]|done]].
    unfold signal_handler. apply safe_bind, vm_stop_safe; [done..|]. intros vs' h' Hh Hk Hn. apply safe_ret. split; [|done].
    split; [done|]. cbn [fst snd]. split; [congruence|]. split; [by right|]. by eapply (ready_handles v vs1). }
  intros [v2 vs2] h2 (Hw & Hsame). pose proof Hw as (_ & _ & _ & Hr). cbn [fst snd] in *.
  destruct (any_stopped_run (live_vcpus v2) vs2 h2 (cr_live _ _ Hr)) as (b & Hb & _). apply safe_bind. eapply safe_Ok; [exact Hb|].
  apply Hnext; [done|]. intros Hg. destruct sig; [done|]. destruct (Hsame eq_refl) as [-> Hsl]. split; [done|]. split; [done|].
  destruct (decide (n <= sleeps (trace h))%nat) as [Hle|?]; [by specialize (Hsig Hle)|lia].
Qed.

Lemma print_safe F l (vs : gmap positive vcpu) h (Q : unit -> host -> Prop) :
  vcpus_live l vs -> Q tt h -> safe F (print_all_stats l vs) Q h.
Proof using Type.
  induction 1 as [|p l (i & c & -> & Hc) _ IH]; intros HQ; cbn [print_all_stats get_vcpu]; [by apply safe_ret|].
  rewrite Hc. cbn [deref]. apply safe_bind, safe_ret. by apply IH.
Qed.

Lemma stage_wait_safe fuel :
  stage_safe (fuel < n + 2)%nat up (stage_wait LinuxX86 hs fuel) undoable undoable.
Proof using Hsignal.
  intros s h [[Hr Hc Hd Hcf Hv] Hst]. unfold stage_wait. apply safe_bind.
  pose proof (wait_loop_safe fuel (ms_vm s) (ms_vcpus s) h Hc Hst) as Hw. unfold safe at 1 in Hw. unfold safe at 1.
  destruct (wait_loop _ _ _ _ _ _ _) as [[v' vs'] h1|u]; [|destruct Hw; split; [lia|done]].
  destruct Hw as (Hh & _ & Hv' & Hready). cbn [fst snd] in *. apply safe_bind, print_safe; [apply Hready|]. apply safe_ret. cbn [fst snd].
  split; cbn [ms_vm ms_vcpus ms_objects ms_vfio]; [|done| | |done].
  - right. rewrite Hh. by destruct Hv' as [-> | ->].
  - destruct Hd. by destruct Hv' as [-> | ->].
  - destruct Hcf. by destruct Hv' as [-> | ->].
Qed.

(** *** The clean-up, and the whole *)

Lemma undone v (m : memory) :
  no_ram v m \/ has_ram v m -> owns_blocks (mem_regions v) m /\ without (region_blocks (mem_regions v)) m = base.
Proof using Type.
  intros [(Hr & -> & _)|(g & ram & Hr & _ & Hg & -> & _)]; rewrite Hr; (split; [split|]).
  - apply Forall_replicate. intros Hu. done.
  - apply NoDup_nil_2.
  - done.
  - apply Forall_cons. split; [intros _; exists g, ram; split; [done|apply lookup_insert_eq]|]. by repeat constructor.
  - apply NoDup_singleton.
  - cbn. by apply delete_insert_id.
Qed.

Lemma main_cleanup_safe F ret s h :
  a_log_level args < LOG_LEVEL_INFO -> undoable s h ->
  safe F (main_cleanup LinuxX86 hs args ret s) (fun _ h' => heap h' = base) h.
Proof using Type.
  intros Hlog [Hr [Hl Hnd Hi Hd _] [Hun Hlen Hnum] _ Hv]. destruct (undone _ _ Hr) as [Hown Hback]. unfold main_cleanup.
  destruct (vm_destroy_run LinuxX86 hs (a_log_level args) (ms_vm s) (ms_vcpus s) (ms_objects s) h Hlog Hl Hnd Hd Hi Hun Hlen
    (proj2 Hnum) Hown) as (vs' & h1 & Hrun & _ & _ & Hh).
  safe_call Hrun. rewrite Hv. cbn [vfio_container_destroy]. apply safe_bind, safe_ret.
  unfold hv_cleanup. cbn [kvm_state g_hv_ops kvm_ops op_cleanup]. unfold kvm_cleanup. runs_through; cbn; by rewrite Hh.
Qed.

Lemma main_stages_safe fuel :
  a_vfio_bdf args = None -> a_log_level args < LOG_LEVEL_INFO -> numbers_ok args ->
  stage_safe (fuel < n + 2)%nat (fun s h => machine no_ram s h /\ bare_state s)
    (main_stages LinuxX86 hs args undef fuel) undoable undoable.
Proof using Hhost Himage Hsignal.
  intros Hvf Hlog [Hmem Hnum _]. unfold main_stages, main_setup. apply (and_then_safe _ _ bootable).
  - eapply and_then_safe; [apply stage_config_safe|].
    eapply and_then_safe; [apply stage_memory_safe; lia|]. eapply and_then_safe; [|by apply stage_devices_safe].
    apply stage_vcpus_safe; [done|]. unfold VM_MAX_VCPUS in Hnum. lia.
  - apply (and_then_safe _ _ bootable); [intros s h Hs; unfold stage_vfio; rewrite Hvf; by apply safe_ret|].
    eapply and_then_safe; [apply stage_boot_safe|]. eapply and_then_safe; [apply stage_start_safe|apply stage_wait_safe].
Qed.

Lemma vm_create_safe F h :
  safe F (vm_create hs) (fun r h' => heap h' = heap h /\
    match r with Some v => exists hv, v = new_vm hv /\ exists m, hvm_data hv = KvmVmData m | None => True end) h.
Proof using Type.
  unfold vm_create, hv_create_vm, hv_destroy_vm, via. cbn [kvm_state g_hv_ops kvm_ops op_create_vm op_destroy_vm].
  unfold kvm_create_vm, kvm_destroy_vm. runs_through; (split; [done|]); try done. eexists. split; [done|]. by eexists.
Qed.

Lemma main_run_safe fuel h :
  heap h = base -> a_vfio_bdf args = None -> a_log_level args < LOG_LEVEL_INFO -> numbers_ok args ->
  safe (fuel < n + 2)%nat (main_run LinuxX86 hs args undef fuel) (fun _ h' => heap h' = base) h.
Proof using Hhost Himage Hsignal.
  intros Hh Hvf Hlog Hnum. unfold main_run. apply safe_bind.
  assert (forall h', heap h' = base -> safe (fuel < n + 2)%nat (hv_cleanup hs;; (mret EXIT_FAILURE : M Z)) (fun _ h' => heap h' = base) h') as Hfail.
  { intros h' Hh'. unfold hv_cleanup. cbn [kvm_state g_hv_ops kvm_ops op_cleanup]. unfold kvm_cleanup. by runs_through. }
  assert (forall hv h', heap h' = base -> (exists m, hvm_data hv = KvmVmData m) ->
    machine no_ram (mk_ms (new_vm hv) ∅ ∅ None) h' /\ bare_state (mk_ms (new_vm hv) ∅ ∅ None)) as Hnew.
  { intros hv h' Hh' Hdata. split; [split; cbn|by split]; try done.
    - split; [constructor|constructor|..]; intros; by intros i c Hi%elem_of_nil.
    - split; [by intros k Hk'%elem_of_nil|done|done].
    - split; by left. }
  eapply safe_mono; [apply vm_create_safe|]. intros [v|] h1 [Hh1 Hv]; [|by apply Hfail; rewrite Hh1].
  destruct Hv as (hv & -> & Hdata). apply safe_bind. eapply safe_mono.
  { apply (main_stages_safe fuel); auto. apply Hnew; [by rewrite Hh1|done]. }
  intros [[r|] s] h2 Hs; by apply main_cleanup_safe.
Qed.
End machine.

(** ** From the command line *)

Section main_runs.
Context {E : Env}.

Lemma heapless_parse_args opts : heapless (parse_args opts).
Proof.
  assert (forall o s a, heapless (parse_opt o s a)) as Hopt.
  { intros o s a. unfold parse_opt, strdup. destruct a. heapless. }
  assert (forall l a, heapless (parse_opts l a)) as Hopts.
  { induction l as [|[o s] l IH]; intros a; cbn [parse_opts]; [apply heapless_ret|]. apply heapless_bind; [apply Hopt|]. heapless. }
  unfold parse_args, strdup. apply heapless_bind; [apply Hopts|]. heapless.
Qed.

Lemma hv_init_safe F hvf arm h :
  safe F (hv_init LinuxX86 kvm_ops hvf arm HV_TYPE_AUTO hv_initial)
    (fun r h' => heap h' = heap h /\ (r.1 < 0 \/ r.1 = 0 /\ exists fd, r.2 = kvm_state fd)) h.
Proof.
  unfold hv_init. cbn [hv_auto_type hv_select op_init kvm_ops]. unfold kvm_init. cbv beta iota zeta.
  apply safe_bind. eapply (safe_mono _ _ (fun r h' => heap h' = heap h /\ (r.1 = 0 \/ r.1 = -1))).
  { runs_through; (split; [done|]); cbn; auto. }
  intros [ret fd] h' [Hh Hr]. cbn [fst snd] in Hr. destruct Hr as [-> | ->]; cbn [Z.ltb Z.compare]; apply safe_ret; (split; [done|]); cbn.
  - right. split; [done|]. by exists fd.
  - left. lia.
Qed.

(** [C3] A run of the program.  On Linux with KVM, for every accepted command line without
    a passthrough device and with logging below INFO, whose kernel is at least as long as
    the largest setup part and comes with an initrd that fits in RAM, or whose raw binary
    has an entry that does not wrap: whatever the other options, the content of the files,
    the failures of the kernel, of memory allocation and of the vCPU creation, [main]
    performs no access outside a live block of the heap, no double free of one and no null
    dereference; if its guests leave when their threads are joined (here [pthread_join]
    returns), then with a signal after some number of seconds it returns, and the blocks of
    the heap, which are guest RAM and the buffers of the files, are again those of the
    start.  The structures of the VM, the vCPUs and the devices and the strings are not
    blocks of this heap, and the devices are in fact never freed ([Vm.vm_destroy_spec]). *)
Theorem run_completes undef fuel hvf arm opts h args h1 n :
  parse_args opts h = Ok (OptOk, args) h1 -> a_vfio_bdf args = None -> a_log_level args < LOG_LEVEL_INFO ->
  host_ok -> image_ok args ->
  (forall tr, (n <= sleeps tr)%nat -> (env_answer tr EvSleep).1 = true) -> (n + 2 <= fuel)%nat ->
  exists code h', main LinuxX86 kvm_ops hvf arm undef fuel opts h = Ok code h' /\ heap h' = heap h.
Proof.
  intros Hp Hvf Hlog Hhost Himage Hsignal Hfuel.
  assert (args_ok args /\ heap h1 = heap h) as [[Hnum _ _] Hh].
  { destruct (parse_args_run opts h) as (r & a & h' & Hrun & Hh & Hok). rewrite Hp in Hrun. simplify_eq. auto. }
  enough (safe (fuel < n + 2)%nat (main LinuxX86 kvm_ops hvf arm undef fuel opts) (fun _ h' => heap h' = heap h) h) as Hsafe.
  { unfold safe in Hsafe. destruct (main _ _ _ _ _ _ _ _) as [code h'|u]; [by exists code, h'|destruct Hsafe; lia]. }
  unfold main. apply safe_bind. eapply safe_Ok; [exact Hp|]. cbv beta iota. apply safe_bind. eapply safe_mono; [apply hv_init_safe|].
  intros [ret hs] h2 [Hh2 Hcase]. cbn [fst snd] in *. destruct Hcase as [Hneg|(-> & fd & ->)].
  - rewrite (proj2 (Z.ltb_lt _ _) Hneg). apply safe_ret. congruence.
  - cbn [Z.ltb Z.compare]. apply (main_run_safe fd args undef (heap h) Hhost Himage n Hsignal fuel); auto. congruence.
Qed.
End main_runs.

(** ** Witness: a kernel of 128 KiB with an initrd, and a signal in the first second *)

Definition linux_files (p : string) : Z := if decide (p = "bzImage"%string) then 131072 else 5.
Definition linux_env : Env := fun tr e =>
  match e return answer e with
  | EvFtell p => linux_files p
  | EvFread _ n => take (Z.to_nat n) demo_kernel
  | EvSleep => (true, [])
  | e => good_env tr e
  end.
Definition linux_opts : list (ascii * string) :=
  [("k"%char, "bzImage"); ("i"%char, "initrd"); ("c"%char, "quiet"); ("l"%char, "1")]%string.
Definition linux_args : cmdline_args :=
  mk_args (Some "bzImage"%string) (Some "initrd"%string) (Some "quiet"%string) DEFAULT_MEM_SIZE DEFAULT_NUM_VCPUS None None None 0 1 None 0.

Lemma linux_host : host_ok (E := linux_env).
Proof.
  split.
  - intros tr path. unfold env_answer, linux_env, linux_files. case_decide; lia.
  - intros tr path n. apply Forall_take, demo_header_ok. done.
  - intros tr n l [= <-]. by apply Forall_replicate.
Qed.

Lemma linux_image : image_ok (E := linux_env) linux_args.
Proof.
  split; cbn [linux_args a_kernel_path a_initrd_path a_cmdline].
  - intros p [= <-]. split; [by eexists|]. split; [by eexists|]. done.
  - intros p [= <-] tr. by vm_compute.
  - by intros s [= <-].
  - done.
Qed.

Lemma run_completes_witness :
  exists code h', main (E := linux_env) LinuxX86 (kvm_ops (E := linux_env)) hvf_stub_ops hvf_stub_ops 1 2 linux_opts empty_host
    = Ok code h' /\ heap h' = ∅.
Proof.
  refine (run_completes (E := linux_env) 1 2 hvf_stub_ops hvf_stub_ops linux_opts empty_host linux_args
    (called (EvStrdup "quiet") (called (EvStrdup "initrd") (called (EvStrdup "bzImage") empty_host))) 0
    _ eq_refl _ linux_host linux_image _ _).
  - vm_compute. reflexivity.
  - reflexivity.
  - reflexivity.
  - lia.
Defined.
